(* ===== verification/_CoqProject ===== *)
-Q . S2P
Prelude.v
Platform.v
CPython.v
Stdio.v
EthtoolH.v
Netlink.v
Objects.v
Testbed.v
NetlinkSpec.v
RefCount.v
Typing.v
Containers.v
Sound.v
Ioctl.v
IoctlFacts.v
StabFacts.v
StructDesc.v
StructDescFacts.v
Devices.v
DevicesFacts.v
NetlinkAddress.v
AddressFacts.v
EtherInfo.v
EtherInfoFacts.v
EtherSound.v
EtherInfoObj.v
EtherText.v
EtherObjSound.v
EtherInfoObjFacts.v
EthtoolModule.v
Py3cMacros.v
Py3c.v
ModuleFacts.v
Contract.v
Stores.v
AddressMembers.v
Session.v
SessionFaults.v
EtherSpecs.v
Script.v
Pethtool.v
PethtoolFacts.v
PethtoolRuns.v
Pifconfig.v
PifconfigFacts.v
Extension.v
ExtensionFacts.v
ExtensionCalls.v
ExtensionQueries.v
ExtensionInfo.v
ExtensionSafe.v
ExtensionPethtool.v
ExtensionPifconfig.v
