(* ===== verification/Prelude.v ===== *)
(** * A verification of python-ethtool's C extension

    The Python module [ethtool] (src/python-ethtool/) asks the Linux kernel
    about network interfaces.  It speaks to the kernel in three ways: by [ioctl]
    on a control socket (ethtool.c), by reading /proc/net/dev and
    /var/lib/pcmcia/stab (ethtool.c), and over one NETLINK connection of libnl
    shared by all objects (netlink.c, etherinfo.c).  It has two object types:
    [etherinfo], a device (etherinfo_obj.c), which fetches link and addresses
    lazily through etherinfo.c, and [NetlinkIPaddress], an address of a device
    (netlink-address.c), made by the callback of etherinfo.c.  Destroying an
    [etherinfo] closes its use of the connection, so that reference counts drive
    netlink.c.  The development models every function of these files, and the two
    scripts that use the module (src/scripts/), and proves what they do on each
    path; where a path is wrong, it proves that.

    ** The model

    A C function is a computation in the monad [M] of CPython.v over a [world]:
    the heap of Python objects with their reference counts, [errno], the pending
    exception, the statics of netlink.c, the live libnl objects, the open
    descriptors and streams, and the platform.  Undefined behaviour and
    termination of the process are values of [fault]: null and uninitialised
    pointers, use after release, overrun buffers, failed assertions (taken as compiled
    in; with [NDEBUG] the null pointer they guard against goes on), a deadlock.  Memory
    has uninitialised bytes and pointers.  Integers are in Z, with [u32], [s32],
    [s16] written where C converts.  Code outside the repository is the class
    [Platform] (Platform.v): kernel, files, libnl, [inet_ntop], and allocation
    of objects, each free to answer anything and to change its state; documented
    laws used by some theorems are the class [PlatformLaws], which Testbed.v
    instantiates with a scripted machine.  The Python C API and [fgets],
    [sscanf], [strncpy], [sprintf] are defined (CPython.v, Stdio.v, and below).

    ** Files, and the code they model

    - Prelude.v: integers, bytes and words in memory, C strings, formats.
    - Platform.v, CPython.v, Stdio.v: the surroundings, as said.
    - EthtoolH.v: ethtool-copy.h, structures by C's layout rules, commands and
      flags.
    - Netlink.v: netlink.c.  [open_netlink], [close_netlink] and [get_nlc] have
      the names of the C functions, as everywhere; [w_nlc] holds the statics.
    - Objects.v: the deallocators of netlink-address.c and etherinfo_obj.c, and
      [Py_DECREF] over them.
    - Testbed.v: the scripted machine.
    - NetlinkSpec.v: the contract of netlink.c as a set of users; refinement.
    - RefCount.v: [wf w rho], every count is right given the references [rho]
      held outside the heap; releasing is sound.  Typing.v: [typed], every live
      object has the type the C code casts its fields to.  Containers.v: lists
      and dictionaries being filled ([building]) and what a reference shows to
      Python ([denotes]).  Sound.v: both with the state of the connection
      ([sound]), and computations that drop temporaries ([drips]).
    - Ioctl.v: ethtool.c 123-203 and 297-685, the queries by [ioctl];
      IoctlFacts.v, StabFacts.v: their properties.
    - StructDesc.v: ethtool.c 687-866, coalescing and ring parameters as
      dictionaries; StructDescFacts.v.
    - Devices.v: ethtool.c 59-121 and 205-294, [get_active_devices],
      [get_devices], [get_interfaces_info]; DevicesFacts.v.
    - NetlinkAddress.v: netlink-address.c; AddressFacts.v.
    - EtherInfo.v: etherinfo.c; EtherInfoFacts.v, and EtherSound.v for objects
      and connections in any state.
    - EtherInfoObj.v: etherinfo_obj.c; EtherInfoObjFacts.v, EtherText.v ([str])
      and EtherObjSound.v (everything Python can ask of the two types).
    - EthtoolModule.v: the method table, the types, the definition of the module
      and its initialisation, ethtool.c 868-1060; ModuleFacts.v.  Py3cMacros.v:
      the macros of include/py3c/compat.h in both builds, over a model of the
      preprocessor; Py3c.v: its function.
    - Contract.v: the promise of a method to the interpreter as a class
      [Honours], with an instance for each method of the table.
    - Stores.v: dictionaries and lists that a program changes.  AddressMembers.v:
      the members of an address, which Python may assign and delete, their flags
      in the table of netlink-address.c being 0.  Session.v: the
      module as a transition system, its operations those of a Python program;
      SessionFaults.v: such a program on a system that refuses a connection.
      EtherSpecs.v: objects as a program sees them.
    - Script.v: Python scripts as clients of the module, the class [Ethtool],
      and a logic of what they keep ([keeps]).  Pethtool.v: scripts/pethtool;
      PethtoolFacts.v, and PethtoolRuns.v for whole runs.  Pifconfig.v:
      scripts/pifconfig; PifconfigFacts.v.
    - Extension.v: the C code as an instance of [Ethtool], each call with the
      objects the interpreter makes of the arguments and reads of the result;
      a fault is the death of the process ([Crashed]).  ExtensionFacts.v: what a
      call comes to; ExtensionCalls.v, ExtensionQueries.v: what each function
      promises the interpreter, exceptions and values ([promises]);
      ExtensionInfo.v: objects and addresses in the hands of a script;
      ExtensionSafe.v: pethtool on the C code is safe, and what single reports and
      changes come to; ExtensionPethtool.v: whole runs of it;
      ExtensionPifconfig.v: pifconfig.

    ** What the theorems show

    - What is asked of the system is in two classes, hypotheses of the theorems
      that need them: [SystemUp] (Session.v; [system_ok] of Contract.v in every
      state: memory can be had, a granted request is filled in, a driver's strings
      end within their field, /proc/net/dev can be read, the names of interfaces
      are UTF-8) and [NetlinkUp] (EtherSound.v: sockets and connections can be
      had, and the table of addresses is given).  Where one fails the code may
      crash, and that is proved too: [get_devices_any] for a name that is not
      UTF-8, [address_cache_failure], [refused_session_dies] and [pifconfig_dies]
      where NETLINK is refused.
    - Sessions: on such a system, a program may make, in whatever order, the
      operations of Session.v: calls with arguments that fit ([args_fit]: names
      UTF-8 can encode, numbers of a [long] in a dictionary), reads, assignments
      and deletions of members of an address that fit ([member_fits]), changes of
      the lists and dictionaries it holds, those the module made included, as
      long as nothing comes to hold itself ([storable]).  Then the state stays in
      order and no operation faults ([session_safe]); when it has dropped all it
      held the connection is closed ([connection_released]).  The excluded
      operations do crash or break the contract: a string UTF-8 cannot encode
      ([interfaces_info_surrogates]), a value that is no number
      ([set_struct_ignores_conversion]), an address without its text
      ([unfit_address_dies]); the fitting ones have their effect
      ([set_member_spec]).
    - The connection: along any run in which objects are created with the flag 0,
      opening succeeds with room for one more user, and only users close,
      netlink.c implements a set of users
      ([nl_simulation]); [open_netlink] is sound in any state of an object
      ([open_netlink_sound]); and ways in which the code leaves the contract.
    - Reference counts: releasing a reference runs the deallocators without
      fault, within the fuel ([Py_DECREF_sound]); the specifications below carry
      [wf], so that each says which references it makes, and which it leaks.
    - The module: on a system with [system_ok] every method, called by its name
      with any arguments that fit, keeps its contract with the interpreter
      ([module_contract]).
    - [ioctl]: what each method sends and returns; for thirteen the contract
      holds on every answer ([plain_query_contract]); the texts of addresses
      read back; names are cut at 15 characters.
    - Structures: the two conversions are inverse to each other
      ([dict_roundtrip]); getters and setters are specified in full, by the tables
      and by the names of the header ([parameters_by_name]).
    - Devices: /proc/net/dev is read back ([get_devices_table]) and what becomes of
      any file is said ([get_devices_any]); interface flags select the active ones.
    - NETLINK objects: lookup of the index, hardware address, lists of addresses,
      conversion and text of one address, with their error paths; the text and
      the attributes of an object from any state ([etherinfo_str_spec],
      [ipv4_attributes_spec]).
    - The module and the headers: what [import] leaves ([module_init_spec]).  Of
      the headers, computations: the layout of the structures does not depend on
      the ABI ([structures_laid_out]), and what the names of compat.h come to in
      the two builds ([builds_agree]).
    - The scripts: they are proved against what they ask of the module, the
      classes [Queries] and [Setters] (PethtoolRuns.v) and [Reports]
      (PifconfigFacts.v), of which the C code is an instance where the system is
      as above.  There whole programs are safe, for any command line in UTF-8
      ([pethtool_on_extension], [pifconfig_on_extension]).  What pethtool prints,
      of a device or of all, is read off the answers of the kernel, question by
      question, up to the two exceptions that end it, a refused [getifaddrs] and a
      driver whose text is not UTF-8
      ([pethtool_prints]); where it changes the coalescing or ring
      parameters of a device, the kernel gets them as it had them with the changes
      of the command line, or nothing if these change nothing, and with [-K] the
      value given ([pethtool_sets]).  What pifconfig prints,
      for whatever command line, are the flags, hardware address and addresses
      the kernel has of the devices, up to a device that fails, with why it may
      ([pifconfig_prints]); the netmasks read back ([bits2netmask_spec]).

    ** Fuel

    [Py_DECREF] has the number of objects in the heap: each level of nesting
    works on an object whose count has just reached 0, which is distinct from
    those above it; [Py_DECREF_sound] has no hypothesis on fuel.  The loops over
    a stream have one more than its length, and each read takes at least one
    character ([fgets_shrinks]); [get_devices_any] and [get_module_pcmcia] show
    they never run out.  All other recursion is structural.

    ** Not modelled

    Exhaustion of memory except in [PyObject_New] and the module object, where
    the source tests for it; threads (the interpreter lock is held throughout, so
    the mutex of netlink.c is modelled but never contended); containers that
    come to hold themselves, and their collection, a matter of the interpreter:
    what is put into a list or dictionary is older than it, or holds nothing; of
    the type objects the size, flags and documentation; warnings turned into
    errors (the one an [int] member gives when a number is cut); of the scripts
    what goes
    to standard error, and the moment at which the interpreter drops the
    [etherinfo] objects (they are held to the end of the program); of pethtool
    run to change the settings of all devices at once, more than that it is safe;
    the build files and the tests.

    ** Limits

    Every function of the source is modelled.  The theorems on sessions and scripts
    say nothing of systems outside the two classes, but for the crashes named
    above.  Sessions on a system that refuses a connection would be safe only
    under conditions on their order: the socket that is kept
    ([refused_connection_reused]) has no table of addresses, and an object whose
    index is known dies on the second query for them ([refused_session_dies]).
    Nor is anything said of a session after an assignment that does not fit a
    member of an address.
    Containers in a cycle are kept alive until the collector of the interpreter
    finds them, which no code of the repository takes part in. *)
From Stdlib Require Export ZArith Lia Ascii String.
From Stdlib Require Export Strings.Byte Init.Byte.
From stdpp Require Export base tactics gmap gmultiset strings list pretty option.

#[global] Open Scope Z_scope.
(** stdpp's [set_solver] clears hypotheses it may not find. *)
#[export] Set Warnings "-clear-no-such-hyp".

(** ** Machine integers, kept at their width *)

Definition u8 (z : Z) : Z := z mod 2 ^ 8.
Definition u16 (z : Z) : Z := z mod 2 ^ 16.
Definition u32 (z : Z) : Z := z mod 2 ^ 32.
Definition s8 (z : Z) : Z := (z + 2 ^ 7) mod 2 ^ 8 - 2 ^ 7.
Definition s16 (z : Z) : Z := (z + 2 ^ 15) mod 2 ^ 16 - 2 ^ 15.
Definition s32 (z : Z) : Z := (z + 2 ^ 31) mod 2 ^ 32 - 2 ^ 31.

Definition INT_MIN : Z := - 2 ^ 31.
Definition INT_MAX : Z := 2 ^ 31 - 1.
Definition LONG_MIN : Z := - 2 ^ 63.
Definition LONG_MAX : Z := 2 ^ 63 - 1.

(** Facts used without thought: ranges and lengths as hints in [machine],
    normal forms of strings as rewrites in [cstring]. *)
Create HintDb machine.
Create Rewrite HintDb cstring.

(** [lia] with [mod] by the width constants unfolded. *)
Ltac int_lia :=
  unfold u8, u16, u32, s8, s16, s32, INT_MIN, INT_MAX, LONG_MIN, LONG_MAX in *;
  change (2 ^ 7) with 128 in *; change (2 ^ 8) with 256 in *;
  change (2 ^ 15) with 32768 in *; change (2 ^ 16) with 65536 in *;
  change (2 ^ 31) with 2147483648 in *; change (2 ^ 32) with 4294967296 in *;
  change (2 ^ 63) with 9223372036854775808 in *;
  Z.to_euclidean_division_equations; lia.

Lemma u32_range z : 0 <= u32 z < 2 ^ 32.
Proof. apply Z.mod_pos_bound; lia. Qed.

Lemma u32_small z : 0 <= z < 2 ^ 32 -> u32 z = z.
Proof. apply Z.mod_small. Qed.

Lemma u32_idemp z : u32 (u32 z) = u32 z.
Proof. apply u32_small, u32_range. Qed.

Lemma s32_u32 z : INT_MIN <= z <= INT_MAX -> s32 (u32 z) = z.
Proof. intros. int_lia. Qed.

Lemma s16_range z : - 2 ^ 15 <= s16 z < 2 ^ 15.
Proof. int_lia. Qed.

(** Reinterpreting 16 bits as signed keeps every one of the 16 bits. *)
Lemma s16_testbit z k : 0 <= k < 16 -> Z.testbit (s16 z) k = Z.testbit z k.
Proof.
  intros Hk.
  rewrite <- (Z.mod_pow2_bits_low (s16 z) 16) by lia.
  rewrite <- (Z.mod_pow2_bits_low z 16) by lia.
  f_equal. int_lia.
Qed.

Lemma bits_above z n k : 0 <= n -> 0 <= z < 2 ^ n -> n <= k -> Z.testbit z k = false.
Proof.
  intros Hn Hz Hk. rewrite <- (Z.mod_small z (2 ^ n)) by done.
  by apply Z.mod_pow2_bits_high.
Qed.

(** ** Bytes and memory

    A byte of memory is [None] while nothing has been stored there. *)

Abbreviation mbyte := (option byte).

#[export] Instance byte_eq_decision : EqDecision byte := Byte.byte_eq_dec.

Definition byte_val (b : byte) : Z := Z.of_N (Byte.to_N b).

Definition byte_of_Z (z : Z) : byte :=
  match Byte.of_N (Z.to_N (z mod 2 ^ 8)) with
  | Some b => b
  | None => x00
  end.

Lemma byte_val_range b : 0 <= byte_val b < 256.
Proof. unfold byte_val. pose proof (Byte.to_N_bounded b). lia. Qed.

Lemma byte_of_Z_val b : byte_of_Z (byte_val b) = b.
Proof. by destruct b. Qed.

Lemma byte_val_of_Z z : byte_val (byte_of_Z z) = u8 z.
Proof.
  unfold byte_val, byte_of_Z, u8.
  assert (0 <= z mod 2 ^ 8 < 256) as Hr by (apply Z.mod_pos_bound; lia).
  destruct (Byte.of_N _) as [b|] eqn:E.
  - apply Byte.to_of_N in E. rewrite E. lia.
  - apply Byte.of_N_None_iff in E. lia.
Qed.

Lemma byte_val_inj b c : byte_val b = byte_val c -> b = c.
Proof. intros H. by rewrite <- (byte_of_Z_val b), H, byte_of_Z_val. Qed.

#[export] Hint Resolve u32_range s16_range byte_val_range byte_val_inj : machine.

(** Little-endian words of [n] bytes. *)
Fixpoint le_bytes (n : nat) (z : Z) : list byte :=
  match n with
  | O => []
  | S n => byte_of_Z z :: le_bytes n (z / 2 ^ 8)
  end.

Fixpoint le_val (bs : list byte) : Z :=
  match bs with
  | [] => 0
  | b :: bs => byte_val b + 2 ^ 8 * le_val bs
  end.

Lemma length_le_bytes n z : length (le_bytes n z) = n.
Proof. revert z; induction n; intros; simpl; auto. Qed.

Lemma le_val_bytes n z : le_val (le_bytes n z) = z mod 2 ^ (8 * Z.of_nat n).
Proof.
  revert z; induction n as [|n IH]; intros z.
  { simpl. by rewrite Z.mod_1_r. }
  cbn [le_bytes le_val]. rewrite IH, byte_val_of_Z. unfold u8.
  replace (8 * Z.of_nat (S n)) with (8 + 8 * Z.of_nat n) by lia.
  rewrite Z.pow_add_r by lia.
  symmetry. rewrite Z.rem_mul_r by lia. lia.
Qed.

Lemma le_bytes_val bs : le_bytes (length bs) (le_val bs) = bs.
Proof.
  induction bs as [|b bs IH]; [done|].
  cbn [length le_bytes le_val]. pose proof (byte_val_range b).
  change (2 ^ 8) with 256. f_equal.
  - apply byte_val_inj. rewrite byte_val_of_Z. int_lia.
  - replace ((byte_val b + 256 * le_val bs) / 256) with (le_val bs); [done|].
    rewrite Z.mul_comm, Z.div_add by lia. rewrite Z.div_small; lia.
Qed.

Lemma le_val_range bs : 0 <= le_val bs < 2 ^ (8 * Z.of_nat (length bs)).
Proof.
  rewrite <- (le_bytes_val bs), le_val_bytes, length_le_bytes.
  apply Z.mod_pos_bound. lia.
Qed.

(** ** Buffers *)

Definition read_bytes (off n : nat) (buf : list mbyte) : option (list byte) :=
  bs ← mapM id (take n (drop off buf));
  if decide (length bs = n) then Some bs else None.

Definition read_u32 (off : nat) (buf : list mbyte) : option Z :=
  le_val <$> read_bytes off 4 buf.

Definition write_bytes (off : nat) (bs : list byte) (buf : list mbyte)
    : option (list mbyte) :=
  if decide (off + length bs <= length buf)%nat
  then Some (take off buf ++ (Some <$> bs) ++ drop (off + length bs) buf)
  else None.

Definition write_u32 (off : nat) (z : Z) (buf : list mbyte)
    : option (list mbyte) :=
  write_bytes off (le_bytes 4 z) buf.

Lemma mapM_id_Some {A} (l : list A) : mapM id (Some <$> l) = Some l.
Proof. by apply mapM_fmap_Some. Qed.

Lemma write_bytes_Some off bs buf :
  (off + length bs <= length buf)%nat ->
  write_bytes off bs buf
    = Some (take off buf ++ (Some <$> bs) ++ drop (off + length bs) buf).
Proof. intros. unfold write_bytes. by rewrite decide_True. Qed.

Lemma length_write_bytes off bs buf buf' :
  write_bytes off bs buf = Some buf' -> length buf' = length buf.
Proof.
  unfold write_bytes. intros. case_decide; simplify_eq.
  rewrite !length_app, length_fmap, length_take, length_drop. lia.
Qed.

Lemma lookup_write_bytes_outside off bs buf buf' i :
  write_bytes off bs buf = Some buf' ->
  (i < off \/ off + length bs <= i)%nat -> buf' !! i = buf !! i.
Proof.
  unfold write_bytes. intros ? Hi. case_decide; simplify_eq.
  destruct Hi as [Hi|Hi].
  - rewrite lookup_app_l by (rewrite length_take; lia).
    by rewrite lookup_take_lt.
  - rewrite lookup_app_r by (rewrite length_take; lia).
    rewrite lookup_app_r by (rewrite length_fmap, length_take; lia).
    rewrite length_fmap, length_take, lookup_drop. f_equal. lia.
Qed.

Lemma lookup_write_bytes_inside off bs buf buf' i :
  write_bytes off bs buf = Some buf' ->
  (i < length bs)%nat -> buf' !! (off + i)%nat = Some <$> bs !! i.
Proof.
  unfold write_bytes. intros ? Hi. case_decide; simplify_eq.
  rewrite lookup_app_r by (rewrite length_take; lia).
  rewrite length_take. replace (off + i - off `min` length buf)%nat with i by lia.
  rewrite lookup_app_l by (rewrite length_fmap; lia).
  by rewrite list_lookup_fmap.
Qed.

(** Reading depends only on the bytes of the window. *)
Lemma read_bytes_ext off n buf buf' :
  (forall i, (off <= i < off + n)%nat -> buf !! i = buf' !! i) ->
  read_bytes off n buf = read_bytes off n buf'.
Proof.
  intros H. unfold read_bytes.
  replace (take n (drop off buf')) with (take n (drop off buf)); [done|].
  apply list_eq. intros i. destruct (decide (i < n)%nat).
  - rewrite !lookup_take_lt, !lookup_drop by lia. apply H. lia.
  - by rewrite !lookup_take_ge by lia.
Qed.

Lemma read_write_bytes_same off bs buf buf' :
  write_bytes off bs buf = Some buf' ->
  read_bytes off (length bs) buf' = Some bs.
Proof.
  intros Hw. unfold read_bytes.
  replace (take (length bs) (drop off buf')) with (Some <$> bs).
  { rewrite mapM_id_Some. simpl. by rewrite decide_True. }
  apply list_eq. intros i. destruct (decide (i < length bs)%nat).
  - rewrite lookup_take_lt, lookup_drop by lia.
    erewrite lookup_write_bytes_inside by done. by rewrite list_lookup_fmap.
  - rewrite lookup_take_ge by lia.
    apply lookup_ge_None_2. rewrite length_fmap. lia.
Qed.

Lemma read_write_bytes_other off n off' bs buf buf' :
  write_bytes off' bs buf = Some buf' ->
  (off + n <= off' \/ off' + length bs <= off)%nat ->
  read_bytes off n buf' = read_bytes off n buf.
Proof.
  intros Hw Hd. apply read_bytes_ext. intros i Hi.
  eapply lookup_write_bytes_outside; [done|lia].
Qed.

Lemma read_write_u32_same off z buf buf' :
  write_u32 off z buf = Some buf' -> read_u32 off buf' = Some (u32 z).
Proof.
  unfold read_u32, write_u32. intros Hw.
  apply read_write_bytes_same in Hw. rewrite length_le_bytes in Hw.
  rewrite Hw. unfold fmap, option_fmap, option_map. by rewrite le_val_bytes.
Qed.

Lemma read_write_u32_other off off' z buf buf' :
  write_u32 off' z buf = Some buf' ->
  (off + 4 <= off' \/ off' + 4 <= off)%nat ->
  read_u32 off buf' = read_u32 off buf.
Proof.
  unfold read_u32, write_u32. intros Hw Hd.
  erewrite read_write_bytes_other; [done..|]. rewrite length_le_bytes. lia.
Qed.

Lemma read_u32_range off buf z : read_u32 off buf = Some z -> 0 <= z < 2 ^ 32.
Proof.
  unfold read_u32, read_bytes. intros H.
  destruct (mapM id _) as [bs|]; simpl in H; [|done].
  case_decide; simplify_eq. simpl in H. simplify_eq.
  pose proof (le_val_range bs) as Hr. rewrite H0 in Hr. exact Hr.
Qed.

(** A word that can be read is set. *)
Lemma read_u32_set off buf z i :
  read_u32 off buf = Some z -> (i < 4)%nat -> exists b, buf !! (off + i)%nat = Some (Some b).
Proof.
  unfold read_u32, read_bytes. intros H Hi.
  destruct (mapM id (take 4 (drop off buf))) as [bs|] eqn:E; [|done]. simpl in H.
  case_decide as Hl; [|done]. apply mapM_Some_1 in E.
  destruct (lookup_lt_is_Some_2 bs i) as [b Hb]; [lia|].
  destruct (Forall2_lookup_r _ _ _ _ _ E Hb) as (o & Ho & Hob).
  rewrite lookup_take_lt, lookup_drop in Ho by done.
  exists b. unfold id in Hob. by subst o.
Qed.

(** Conversely, a word whose bytes are all set can be read. *)
Lemma read_u32_all off buf :
  (forall i, (i < 4)%nat -> exists b, buf !! (off + i)%nat = Some (Some b)) ->
  exists z, read_u32 off buf = Some z.
Proof.
  intros Hb. unfold read_u32, read_bytes.
  assert (forall i, (i < 4)%nat -> exists b, drop off buf !! i = Some (Some b)) as Hd.
  { intros i Hi. rewrite lookup_drop. by apply Hb. }
  destruct (Hd 0%nat) as [b0 H0], (Hd 1%nat) as [b1 H1], (Hd 2%nat) as [b2 H2],
    (Hd 3%nat) as [b3 H3]; [lia..|].
  destruct (drop off buf) as [|x0 [|x1 [|x2 [|x3 l]]]]; simpl in *; simplify_eq.
  by eexists.
Qed.

(** ** C strings

    A [char *] handed around by the code is the list of characters before its
    NUL; a character array is a list of bytes that may or may not hold one. *)

Definition NUL : ascii := "000"%char.

(** What a C function sees of a character sequence followed by a NUL. *)
Fixpoint cstr (s : string) : string :=
  match s with
  | EmptyString => EmptyString
  | String c s => if Ascii.eqb c NUL then EmptyString else String c (cstr s)
  end.

(** The C string at the start of an array, [None] when reading it would run
    off the array or over a byte never written. *)
Fixpoint cstr_of_bytes (buf : list mbyte) : option string :=
  match buf with
  | Some b :: buf =>
      if Byte.eqb b x00 then Some EmptyString
      else String (ascii_of_byte b) <$> cstr_of_bytes buf
  | _ => None
  end.

Fixpoint has_nul (s : string) : bool :=
  match s with
  | EmptyString => false
  | String c s => Ascii.eqb c NUL || has_nul s
  end.

Lemma cstr_no_nul s : has_nul s = false -> cstr s = s.
Proof.
  induction s as [|c s IH]; simpl; [done|]. intros [-> ?]%orb_false_iff.
  by rewrite IH.
Qed.

Lemma has_nul_cstr s : has_nul (cstr s) = false.
Proof.
  induction s as [|c s IH]; simpl; [done|].
  destruct (Ascii.eqb c NUL) eqn:E; simpl; [done|]. by rewrite E.
Qed.

Lemma cstr_idemp s : cstr (cstr s) = cstr s.
Proof. apply cstr_no_nul, has_nul_cstr. Qed.

Lemma cstr_of_bytes_cstr buf s : cstr_of_bytes buf = Some s -> cstr s = s.
Proof.
  revert s; induction buf as [|[b|] buf IH]; intros s; simpl; try done.
  destruct (Byte.eqb b x00) eqn:E; [by intros [= <-]|].
  intros (t & Ht & ->)%fmap_Some. simpl. rewrite (IH t Ht).
  destruct (Ascii.eqb_spec (ascii_of_byte b) NUL) as [Hb|_]; [|done].
  assert (b = x00) as ->; [|done].
  by rewrite <- (byte_of_ascii_of_byte b), Hb.
Qed.

Fixpoint is_ascii (s : string) : bool :=
  match s with
  | EmptyString => true
  | String c s => (N_of_ascii c <? 128)%N && is_ascii s
  end.

Lemma is_ascii_app s t : is_ascii (s +:+ t) = is_ascii s && is_ascii t.
Proof.
  induction s as [|c s IH]; simpl; [done|]. by rewrite IH, andb_assoc.
Qed.

Lemma has_nul_app s t : has_nul (s +:+ t) = has_nul s || has_nul t.
Proof.
  induction s as [|c s IH]; simpl; [done|]. by rewrite IH, orb_assoc.
Qed.

Lemma string_cons_app c s t : String c s +:+ t = String c (s +:+ t).
Proof. done. Qed.

Lemma string_nil_app t : EmptyString +:+ t = t.
Proof. done. Qed.

Lemma string_app_assoc s t u : (s +:+ t) +:+ u = s +:+ (t +:+ u).
Proof. induction s as [|c s IH]; [done|]. by rewrite !string_cons_app, IH. Qed.

Lemma string_app_nil s : s +:+ EmptyString = s.
Proof. induction s as [|c s IH]; [done|]. by rewrite string_cons_app, IH. Qed.

(** A preorder, along the hypotheses. *)
Ltac chain := solve [repeat first [eassumption | etransitivity; [eassumption|]]].

(** Right-nested appends, computed as far as they are known. *)
#[export] Hint Rewrite string_app_assoc string_cons_app string_nil_app : cstring.
Ltac string_norm :=
  autorewrite with cstring.

Lemma string_app_length s t :
  String.length (s +:+ t) = (String.length s + String.length t)%nat.
Proof. induction s as [|c s IH]; simpl; [done|]. by rewrite IH. Qed.

(** [strncpy dst src n] writes [n] bytes: the source, zero padded, without a
    NUL when the source has [n] characters or more. *)
Definition strncpy (n : nat) (src : string) : list byte :=
  take n (list_byte_of_string src ++ replicate n x00).

Lemma length_strncpy n src : length (strncpy n src) = n.
Proof.
  unfold strncpy. rewrite length_take, length_app, length_replicate. lia.
Qed.

Lemma strncpy_lookup n src i :
  (i < n)%nat ->
  strncpy n src !! i = Some (default x00 (list_byte_of_string src !! i)).
Proof.
  intros Hi. unfold strncpy. rewrite lookup_take_lt by done.
  destruct (list_byte_of_string src !! i) as [b|] eqn:E.
  - by apply lookup_app_l_Some.
  - apply lookup_ge_None in E. rewrite lookup_app_r by done.
    apply lookup_replicate_2. lia.
Qed.

(** Strings without NUL as byte lists. *)
Lemma list_byte_inj s t : list_byte_of_string s = list_byte_of_string t -> s = t.
Proof.
  intros H. by rewrite <- (string_of_list_byte_of_string s), H,
    string_of_list_byte_of_string.
Qed.

Lemma list_byte_substring n s :
  list_byte_of_string (substring 0 n s) = take n (list_byte_of_string s).
Proof.
  unfold list_byte_of_string in *.
  revert s; induction n as [|n IH]; intros [|c s]; simpl; try done.
  by rewrite <- IH.
Qed.

Lemma has_nul_bytes s : has_nul s = false <-> x00 ∉ list_byte_of_string s.
Proof.
  unfold list_byte_of_string.
  induction s as [|c s IH]; simpl; [split; [inversion 2|done]|].
  rewrite orb_false_iff, IH, not_elem_of_cons, Ascii.eqb_neq.
  split; intros [Hc Hs]; (split; [|done]).
  - intros E. apply Hc. rewrite <- (ascii_of_byte_of_ascii c), <- E. done.
  - intros ->. by apply Hc.
Qed.

Lemma strncpy_substring n s : strncpy n (substring 0 n s) = strncpy n s.
Proof.
  apply list_eq_same_length with n; rewrite ?length_strncpy; try done.
  intros i x y Hi. rewrite !strncpy_lookup by done.
  rewrite list_byte_substring, lookup_take_lt by done. congruence.
Qed.

(** Cutting at [n] and padding with [x] keeps lists without [x] apart. *)
Lemma take_pad_inj {A} (x : A) n l l' m :
  (n <= m)%nat -> x ∉ l -> x ∉ l' ->
  take n (l ++ replicate m x) = take n (l' ++ replicate m x) ->
  take n l = take n l'.
Proof.
  revert m l l'; induction n as [|n IH]; intros m l l' Hm Hl Hl'; [done|].
  destruct m as [|m]; [lia|].
  destruct l as [|a l], l' as [|b l']; simpl; [done|..].
  - intros [= <- _]. set_solver.
  - intros [= -> _]. set_solver.
  - intros [= -> E]. f_equal. apply not_elem_of_cons in Hl as [_ Hl].
    apply not_elem_of_cons in Hl' as [_ Hl'].
    eapply (IH (S m)); [lia|done..].
Qed.

(** ** [printf] conversions *)

Definition hex_digit (z : Z) : ascii :=
  match z with
  | 0 => "0" | 1 => "1" | 2 => "2" | 3 => "3" | 4 => "4" | 5 => "5"
  | 6 => "6" | 7 => "7" | 8 => "8" | 9 => "9" | 10 => "a" | 11 => "b"
  | 12 => "c" | 13 => "d" | 14 => "e" | _ => "f"
  end%char.

(** ["%02x"] of a value below 256. *)
Definition fmt_02x (z : Z) : string :=
  String (hex_digit (z / 16)) (String (hex_digit (z mod 16)) EmptyString).

(** ["%u"], ["%d"]. *)
Definition fmt_u (z : Z) : string := pretty z.
Definition fmt_d (z : Z) : string := pretty z.

(** A statement about the 256 values of a byte, checked one by one. *)
Lemma forall_byte_val (P : Z -> bool) :
  forallb (fun n => P (Z.of_nat n)) (seq 0 256) = true ->
  forall z, 0 <= z < 256 -> P z = true.
Proof.
  intros Hall z Hz. rewrite forallb_forall in Hall.
  rewrite <- (Z2Nat.id z) by lia. apply Hall, in_seq. lia.
Qed.

Lemma fmt_u_byte z : 0 <= z < 256 ->
  is_ascii (fmt_u z) = true /\ has_nul (fmt_u z) = false /\
  (String.length (fmt_u z) <= 3)%nat.
Proof.
  intros Hz.
  pose proof (forall_byte_val (fun z => is_ascii (fmt_u z) && negb (has_nul (fmt_u z))
    && (String.length (fmt_u z) <=? 3)%nat)) as Hb.
  specialize (Hb ltac:(vm_compute; reflexivity) z Hz).
  rewrite !andb_true_iff, Nat.leb_le, negb_true_iff in Hb. tauto.
Qed.

Lemma fmt_02x_byte z : 0 <= z < 256 ->
  is_ascii (fmt_02x z) = true /\ has_nul (fmt_02x z) = false /\
  String.length (fmt_02x z) = 2%nat.
Proof.
  intros Hz. split; [|split; [|done]].
  - pose proof (forall_byte_val (fun z => is_ascii (fmt_02x z))) as Hb.
    by apply Hb.
  - pose proof (forall_byte_val (fun z => negb (has_nul (fmt_02x z)))) as Hb.
    specialize (Hb ltac:(vm_compute; reflexivity) z Hz). by apply negb_true_iff.
Qed.
