(* ===== verification/Platform.v ===== *)
(** * The platform: kernel, C library files, libnl and memory allocation

    The extension only calls this code, so it is a parameter of the whole
    development: the class [Platform K], over an arbitrary type [K] of
    platform states that every answering operation may change.  Nothing is
    assumed of an answer except where a theorem asks for the documented
    behaviour collected in the class [PlatformLaws].

    The structures handed across the interface are given as the source uses
    them: [struct ifreq] as its name and its union, libnl's [rtnl_link],
    [rtnl_addr] and [nl_addr] as what their accessor functions return. *)
From S2P Require Import Prelude.

(** ** Constants of the kernel's user interface headers *)

Definition AF_UNSPEC : Z := 0.
Definition AF_INET : Z := 2.
Definition AF_INET6 : Z := 10.
Definition SIOCGIFFLAGS : Z := 0x8913.
Definition SIOCGIFADDR : Z := 0x8915.
Definition SIOCGIFBRDADDR : Z := 0x8919.
Definition SIOCGIFNETMASK : Z := 0x891b.
Definition SIOCGIFHWADDR : Z := 0x8927.
Definition SIOCETHTOOL : Z := 0x8946.
Definition SIOCGIWNAME : Z := 0x8b01.
Definition ENOMEM : Z := 12.
Definition ENODEV : Z := 19.
Definition IFNAMSIZ : nat := 16.
Definition INET6_ADDRSTRLEN : nat := 46.

Definition IFF_UP : Z := 0x1.
Definition IFF_BROADCAST : Z := 0x2.
Definition IFF_DEBUG : Z := 0x4.
Definition IFF_LOOPBACK : Z := 0x8.
Definition IFF_POINTOPOINT : Z := 0x10.
Definition IFF_NOTRAILERS : Z := 0x20.
Definition IFF_RUNNING : Z := 0x40.
Definition IFF_NOARP : Z := 0x80.
Definition IFF_PROMISC : Z := 0x100.
Definition IFF_ALLMULTI : Z := 0x200.
Definition IFF_MASTER : Z := 0x400.
Definition IFF_SLAVE : Z := 0x800.
Definition IFF_MULTICAST : Z := 0x1000.
Definition IFF_PORTSEL : Z := 0x2000.
Definition IFF_AUTOMEDIA : Z := 0x4000.
Definition IFF_DYNAMIC : Z := 0x8000.

(** ** Structures *)

(** [struct ifreq] (and [struct iwreq], with a union of another size). *)
Record ifreq := Ifreq {
  ifr_name : list byte;
  ifr_ifru : list byte;
}.

(** The union of [struct ifreq] has 24 bytes, that of [struct iwreq] 16. *)
Definition IFRU_SIZE : nat := 24.
Definition IWRU_SIZE : nat := 16.

Definition ifreq_wf (usize : nat) (r : ifreq) : Prop :=
  length (ifr_name r) = IFNAMSIZ /\ length (ifr_ifru r) = usize.

(** What [ioctl] leaves behind: its result, [errno] when it fails, the request
    structure and the buffer [ifr_data] points to. *)
Record ioctl_reply := IoctlReply {
  io_ret : Z;
  io_errno : Z;
  io_ifr : ifreq;
  io_data : list mbyte;
}.

(** One entry of the list [getifaddrs] builds. *)
Record ifaddrs := Ifaddrs {
  ifa_name : string;
  ifa_flags : Z;
}.

Record nl_addr := NlAddr {
  nla_family : Z;
  nla_binary : list byte;
}.

Record rtnl_link := RtnlLink {
  rl_name : string;
  rl_ifindex : Z;
  rl_addr : option nl_addr;
}.

Record rtnl_addr := RtnlAddr {
  ra_ifindex : Z;
  ra_family : Z;
  ra_local : option nl_addr;
  ra_peer : option nl_addr;
  ra_broadcast : option nl_addr;
  ra_prefixlen : Z;
  ra_scope : Z;
}.

(** ** Operations *)

Class Platform (K : Type) := {
  (** System calls: result and, on failure, [errno]. *)
  sys_socket : K -> (Z * Z) * K;
  sys_ioctl : Z -> Z -> ifreq -> list mbyte -> K -> ioctl_reply * K;
  sys_fcntl_cloexec : K -> (Z * Z) * K;
  sys_getifaddrs : K -> (Z + list ifaddrs) * K;
  (** [fopen] for reading: [errno], or the contents of the file. *)
  sys_fopen : string -> K -> (Z + string) * K;
  strerror : Z -> string;
  (** CPython: memory for a new object ([None]: none left) with what it
      happens to hold, and whether bytes are valid UTF-8. *)
  py_malloc : K -> option Z * K;
  utf8_valid : string -> bool;
  (** libnl: sockets.  [nl_connect] returns a negative error code or 0. *)
  nl_socket_alloc_ok : K -> bool * K;
  nl_connect_ret : K -> Z * K;
  (** libnl: caches, asked over a socket that is connected or not. *)
  link_cache_reply : bool -> K -> (Z + list rtnl_link) * K;
  addr_cache_reply : bool -> K -> (Z + list rtnl_addr) * K;
  rtnl_link_alloc_ok : K -> bool * K;
  rtnl_addr_alloc_ok : K -> bool * K;
  link_by_name : list rtnl_link -> string -> option rtnl_link;
  (** Whether an object matches a filter with the given attributes set. *)
  link_matches : option Z -> rtnl_link -> bool;
  addr_matches : option Z -> option Z -> rtnl_addr -> bool;
  (** Address and name formatting, given the size of the caller's buffer. *)
  nl_addr2str : option nl_addr -> nat -> string;
  inet_ntop : Z -> list byte -> nat -> Z + string;
  rtnl_scope2str : Z -> nat -> string;
  nl_af2str : Z -> nat -> string;
  nl_geterror : Z -> string;
}.

(** ** Documented behaviour *)

Class PlatformLaws (K : Type) `{Platform K} := {
  (** The kernel writes within the structures it is given. *)
  ioctl_name_length fd req r d k :
    length (ifr_name (io_ifr (sys_ioctl fd req r d k).1)) = length (ifr_name r);
  ioctl_ifru_length fd req r d k :
    length (ifr_ifru (io_ifr (sys_ioctl fd req r d k).1)) = length (ifr_ifru r);
  ioctl_data_length fd req r d k :
    length (io_data (sys_ioctl fd req r d k).1) = length d;
  (** Looking a link up by name finds one exactly when there is one. *)
  link_by_name_Some ls n l :
    link_by_name ls n = Some l -> l ∈ ls /\ rl_name l = n;
  link_by_name_None ls n l :
    link_by_name ls n = None -> l ∈ ls -> rl_name l <> n;
  (** A filter matches the objects that agree with every attribute set. *)
  link_matches_spec i l : link_matches (Some i) l = true <-> rl_ifindex l = i;
  addr_matches_spec i f a :
    addr_matches (Some i) (Some f) a = true
      <-> ra_ifindex a = i /\ ra_family a = f;
  (** ASCII text is UTF-8. *)
  utf8_ascii s : is_ascii s = true -> utf8_valid s = true;
  (** The formatting functions produce text. *)
  addr2str_utf8 a n : utf8_valid (cstr (nl_addr2str a n)) = true;
  scope2str_utf8 z n : utf8_valid (cstr (rtnl_scope2str z n)) = true;
  ntop_utf8 f b n s : inet_ntop f b n = inr s -> utf8_valid (cstr s) = true;
}.
