(* ===== verification/CPython.v ===== *)
(** * The run-time state of the extension and the Python objects it handles

    [world] is everything the C code can change: the heap of Python objects
    with their reference counts, [errno], the pending exception, the static
    variables of netlink.c, the libnl objects alive, the descriptors and
    streams open, [stderr], and the state of the platform.  A C function
    returning [A] is a computation [M A]: it yields a value and a new world, or
    a [fault] where the C program has undefined behaviour or stops.

    The calls of the Python C API the source makes are given their documented
    meaning on the heap.  Exhaustion of memory is modelled where the source
    looks for it ([PyObject_New]); the other allocations succeed. *)
From S2P Require Import Prelude Platform.

(** ** Objects *)

(** A [PyObject *]: [NULL], a field [PyObject_New] left as it found it, the
    immortal [Py_None], or an object of the heap. *)
Inductive ptr :=
  | Null
  | Uninit
  | PyNone
  | Loc (l : positive).

#[global] Instance ptr_eq_dec : EqDecision ptr.
Proof. solve_decision. Defined.

Definition is_null (p : ptr) : bool :=
  match p with Null => true | _ => false end.

(** The two extension types (etherinfo_struct.h). *)
Record PyNetlinkIPaddress := MkAddr {
  family : Z;
  local : ptr;
  peer : ptr;
  ipv4_broadcast : ptr;
  prefixlen : Z;
  scope : ptr;
}.

Record PyEtherInfo := MkEther {
  device : ptr;
  index : Z;
  hwaddress : ptr;
  nlc_active : Z;
}.

(** [VStr] is a string by its UTF-8; [VSurrogates] is one that has none, because of
    lone surrogates; [VOther] is an object of any type the source does not look
    into. *)
Inductive pyval :=
  | VStr (s : string)
  | VInt (z : Z)
  | VList (items : list ptr)
  | VTuple (items : list ptr)
  | VDict (entries : list (string * ptr))
  | VAddr (a : PyNetlinkIPaddress)
  | VEther (e : PyEtherInfo)
  | VOther
  | VSurrogates.

Record obj := Obj { ob_refcnt : Z; ob_val : pyval }.

(** Exceptions: the type and what it was made from. *)
Inductive exc_kind :=
  | PyExc_OSError | PyExc_IOError | PyExc_LookupError | PyExc_RuntimeError
  | PyExc_AttributeError | PyExc_TypeError | PyExc_ValueError
  | PyExc_OverflowError | PyExc_IndexError | PyExc_SystemError
  | PyExc_UnicodeDecodeError | PyExc_UnicodeEncodeError | PyExc_MemoryError.

Inductive exc_arg :=
  | ExcErrno (e : Z)      (** [PyErr_SetFromErrno] *)
  | ExcMsg (s : string)   (** a message of the source *)
  | ExcRuntime.           (** raised by the interpreter itself *)

Record pyexc := PyExc { exc_type : exc_kind; exc_value : exc_arg }.

(** ** libnl objects alive *)

Inductive nlobj :=
  | NlSock (connected : bool)
  | NlLinkCache (links : list rtnl_link)
  | NlAddrCache (addrs : list rtnl_addr)
  | NlLink (l : rtnl_link)
  | NlLinkFilter (ifindex : option Z)
  | NlAddrFilter (ifindex fam : option Z).

(** ** Static variables of netlink.c *)

Record nlc_statics := MkNlc {
  nlconnection : option positive;
  nlconnection_users : Z;
  nlc_counter_mtx : bool;  (** locked *)
}.

Definition nlc_init : nlc_statics := MkNlc None 0 false.

(** ** Undefined behaviour and stops *)

Inductive fault :=
  | NullDeref | UninitUse | Dangling | TypeConfusion | OutOfBounds
  | BadHandle | AssertFailed | Deadlock | OutOfFuel.

(** ** The world *)

Record world (K : Type) := World {
  w_heap : gmap positive obj;
  w_next : positive;            (** the next object goes here *)
  w_errno : Z;
  w_err : option pyexc;         (** the error indicator of the interpreter *)
  w_nlc : nlc_statics;
  w_nl : gmap positive nlobj;
  w_nlnext : positive;
  w_fds : gset Z;               (** descriptors the extension holds open *)
  w_files : nat;                (** streams the extension holds open *)
  w_stderr : list string;
  w_env : K;
}.
Arguments World {K}.
Arguments w_heap {K}. Arguments w_next {K}. Arguments w_errno {K}.
Arguments w_err {K}. Arguments w_nlc {K}. Arguments w_nl {K}.
Arguments w_nlnext {K}. Arguments w_fds {K}. Arguments w_files {K}.
Arguments w_stderr {K}. Arguments w_env {K}.

Section setters.
Context {K : Type}.
Implicit Types w : world K.

Definition set_heap h w :=
  World h (w_next w) (w_errno w) (w_err w) (w_nlc w) (w_nl w) (w_nlnext w)
    (w_fds w) (w_files w) (w_stderr w) (w_env w).
Definition set_next n w :=
  World (w_heap w) n (w_errno w) (w_err w) (w_nlc w) (w_nl w) (w_nlnext w)
    (w_fds w) (w_files w) (w_stderr w) (w_env w).
Definition set_errno e w :=
  World (w_heap w) (w_next w) e (w_err w) (w_nlc w) (w_nl w) (w_nlnext w)
    (w_fds w) (w_files w) (w_stderr w) (w_env w).
Definition set_err x w :=
  World (w_heap w) (w_next w) (w_errno w) x (w_nlc w) (w_nl w) (w_nlnext w)
    (w_fds w) (w_files w) (w_stderr w) (w_env w).
Definition set_nlc s w :=
  World (w_heap w) (w_next w) (w_errno w) (w_err w) s (w_nl w) (w_nlnext w)
    (w_fds w) (w_files w) (w_stderr w) (w_env w).
Definition set_nl m w :=
  World (w_heap w) (w_next w) (w_errno w) (w_err w) (w_nlc w) m (w_nlnext w)
    (w_fds w) (w_files w) (w_stderr w) (w_env w).
Definition set_nlnext n w :=
  World (w_heap w) (w_next w) (w_errno w) (w_err w) (w_nlc w) (w_nl w) n
    (w_fds w) (w_files w) (w_stderr w) (w_env w).
Definition set_fds s w :=
  World (w_heap w) (w_next w) (w_errno w) (w_err w) (w_nlc w) (w_nl w)
    (w_nlnext w) s (w_files w) (w_stderr w) (w_env w).
Definition set_files n w :=
  World (w_heap w) (w_next w) (w_errno w) (w_err w) (w_nlc w) (w_nl w)
    (w_nlnext w) (w_fds w) n (w_stderr w) (w_env w).
Definition set_stderr l w :=
  World (w_heap w) (w_next w) (w_errno w) (w_err w) (w_nlc w) (w_nl w)
    (w_nlnext w) (w_fds w) (w_files w) l (w_env w).
Definition set_env (k : K) (w : world K) : world K :=
  World (w_heap w) (w_next w) (w_errno w) (w_err w) (w_nlc w) (w_nl w)
    (w_nlnext w) (w_fds w) (w_files w) (w_stderr w) k.
End setters.

(** ** Computations *)

Inductive outcome (K A : Type) :=
  | Ret (a : A) (w : world K)
  | Fault (f : fault).
Arguments Ret {K A}.
Arguments Fault {K A}.

Definition M (K A : Type) : Type := world K -> outcome K A.

#[global] Instance M_ret {K} : MRet (M K) := fun A a w => Ret a w.
#[global] Instance M_bind {K} : MBind (M K) := fun A B f m w =>
  match m w with
  | Ret a w => f a w
  | Fault x => Fault x
  end.

Definition raise {K A} (x : fault) : M K A := fun _ => Fault x.
Definition gets {K A} (f : world K -> A) : M K A := fun w => Ret (f w) w.
Definition modify {K} (f : world K -> world K) : M K unit := fun w => Ret tt (f w).
Definition ask {K A} (f : K -> A * K) : M K A := fun w =>
  let '(a, k) := f (w_env w) in Ret a (set_env k w).

(** [m] ends without fault, and [Q] holds of its value and world. *)
Definition wp {K A} (m : M K A) (Q : A -> world K -> Prop) (w : world K) : Prop :=
  match m w with
  | Ret a w => Q a w
  | Fault _ => False
  end.

Section wp.
Context {K : Type}.
Implicit Types w : world K.

Lemma wp_ret {A} (a : A) Q w : Q a w -> wp (mret a) Q w.
Proof. done. Qed.

Lemma wp_bind {A B} (m : M K A) (f : A -> M K B) Q w :
  wp m (fun a => wp (f a) Q) w -> wp (m ≫= f) Q w.
Proof. unfold wp, mbind, M_bind. by destruct (m w). Qed.

Lemma wp_bind_inv {A B} (m : M K A) (f : A -> M K B) Q w :
  wp (m ≫= f) Q w -> wp m (fun a => wp (f a) Q) w.
Proof. unfold wp, mbind, M_bind. by destruct (m w). Qed.

Lemma wp_mono {A} (m : M K A) (Q Q' : A -> world K -> Prop) w :
  wp m Q w -> (forall a w, Q a w -> Q' a w) -> wp m Q' w.
Proof. unfold wp. destruct (m w); auto. Qed.

Lemma wp_and {A} (m : M K A) (Q Q' : A -> world K -> Prop) w :
  wp m Q w -> wp m Q' w -> wp m (fun a w => Q a w /\ Q' a w) w.
Proof. unfold wp. by destruct (m w). Qed.

Lemma wp_Ret {A} (m : M K A) Q w :
  wp m Q w <-> exists a w', m w = Ret a w' /\ Q a w'.
Proof.
  unfold wp. destruct (m w) as [a w1|x]; split.
  - eauto.
  - by intros (? & ? & [= -> ->] & ?).
  - done.
  - by intros (? & ? & ? & ?).
Qed.

(** The three monad laws, up to the world. *)
Lemma bind_ret_l {A B} (a : A) (f : A -> M K B) w :
  (mret a ≫= f) w = f a w.
Proof. done. Qed.

Lemma bind_ret_r {A} (m : M K A) w : (m ≫= mret) w = m w.
Proof. unfold mbind, M_bind. by destruct (m w). Qed.

Lemma bind_assoc {A B C} (m : M K A) (f : A -> M K B) (g : B -> M K C) w :
  ((m ≫= f) ≫= g) w = (m ≫= fun a => f a ≫= g) w.
Proof. unfold mbind, M_bind. by destruct (m w). Qed.

Lemma bind_Ret {A B} (m : M K A) (f : A -> M K B) w a w' :
  m w = Ret a w' -> (m ≫= f) w = f a w'.
Proof. intros H. unfold mbind, M_bind. by rewrite H. Qed.

Lemma bind_Fault {A B} (m : M K A) (f : A -> M K B) w x :
  m w = Fault x -> (m ≫= f) w = Fault x.
Proof. intros H. unfold mbind, M_bind. by rewrite H. Qed.
End wp.

(** ** Heap primitives *)

Section heap.
Context {K : Type}.
Local Abbreviation M := (M K).

(** A new object, with one reference, owned by the caller. *)
Definition alloc (v : pyval) : M ptr := fun w =>
  Ret (Loc (w_next w))
      (set_next (Pos.succ (w_next w))
        (set_heap (<[w_next w := Obj 1 v]> (w_heap w)) w)).

(** Following a pointer. *)
Definition deref (p : ptr) : M positive :=
  match p with
  | Null => raise NullDeref
  | Uninit => raise UninitUse
  | PyNone => raise TypeConfusion
  | Loc l => mret l
  end.

Definition get_obj (l : positive) : M obj := fun w =>
  match w_heap w !! l with
  | Some o => Ret o w
  | None => Fault Dangling
  end.

Definition put_obj (l : positive) (o : obj) : M unit :=
  modify (fun w => set_heap (<[l := o]> (w_heap w)) w).

Definition get_val (p : ptr) : M pyval :=
  l ← deref p; o ← get_obj l; mret (ob_val o).

Definition put_val (p : ptr) (v : pyval) : M unit :=
  l ← deref p; o ← get_obj l; put_obj l (Obj (ob_refcnt o) v).

(** A pointer that may be [Py_None] too, for type checks. *)
Definition peek (p : ptr) : M pyval :=
  match p with PyNone => mret VOther | _ => get_val p end.

Definition get_ether (p : ptr) : M PyEtherInfo :=
  v ← get_val p; match v with VEther e => mret e | _ => raise TypeConfusion end.

Definition get_addr (p : ptr) : M PyNetlinkIPaddress :=
  v ← get_val p; match v with VAddr a => mret a | _ => raise TypeConfusion end.

(** Reading a pointer field in order to hand it on. *)
Definition use_ptr (p : ptr) : M ptr :=
  match p with Uninit => raise UninitUse | _ => mret p end.

Definition Py_INCREF (p : ptr) : M unit :=
  match p with
  | PyNone => mret tt
  | _ => l ← deref p; o ← get_obj l; put_obj l (Obj (ob_refcnt o + 1) (ob_val o))
  end.

(** ** Exceptions *)

Definition PyErr_Set (x : pyexc) : M unit := modify (set_err (Some x)).
Definition PyErr_SetString (k : exc_kind) (s : string) : M unit :=
  PyErr_Set (PyExc k (ExcMsg s)).
(** Raised inside the interpreter. *)
Definition PyErr_Internal (k : exc_kind) : M unit :=
  PyErr_Set (PyExc k ExcRuntime).
(** Always returns [NULL]. *)
Definition PyErr_SetFromErrno (k : exc_kind) : M ptr :=
  e ← gets w_errno; PyErr_Set (PyExc k (ExcErrno e));; mret Null.
Definition PyErr_Occurred : M bool :=
  x ← gets w_err; mret (match x with Some _ => true | None => false end).
Definition PyErr_Clear : M unit := modify (set_err None).
Definition assign_errno (e : Z) : M unit := modify (set_errno e).

(** ** Type checks and conversions *)

Definition PyStr_Check (p : ptr) : M bool :=
  v ← peek p; mret (match v with VStr _ | VSurrogates => true | _ => false end).
Definition PyList_Check (p : ptr) : M bool :=
  v ← peek p; mret (match v with VList _ => true | _ => false end).
Definition PyTuple_Check (p : ptr) : M bool :=
  v ← peek p; mret (match v with VTuple _ => true | _ => false end).
(** [Py_TYPE(p) == &ethtool_netlink_ip_address_Type]. *)
Definition is_netlink_ip_address (p : ptr) : M bool :=
  v ← peek p; mret (match v with VAddr _ => true | _ => false end).

(** [PyUnicode_AsUTF8]: the characters, [None] for a [NULL] result. *)
Definition PyStr_AsString (p : ptr) : M (option string) :=
  v ← peek p;
  match v with
  | VStr s => mret (Some s)
  | VSurrogates => PyErr_Internal PyExc_UnicodeEncodeError;; mret None
  | _ => PyErr_Internal PyExc_TypeError;; mret None
  end.

(** The same, for a [%s] of [PyUnicode_FromFormat], which reads the pointer. *)
Definition PyStr_AsString_nonnull (p : ptr) : M string :=
  s ← PyStr_AsString p;
  match s with Some s => mret (cstr s) | None => raise NullDeref end.

(** [PyLong_AsLong]: -1 with an exception on failure. *)
Definition PyLong_AsLong (p : ptr) : M Z :=
  v ← peek p;
  match v with
  | VInt z =>
      if decide (LONG_MIN <= z <= LONG_MAX) then mret z
      else PyErr_Internal PyExc_OverflowError;; mret (-1)
  | _ => PyErr_Internal PyExc_TypeError;; mret (-1)
  end.

Definition PyLong_FromLong (z : Z) : M ptr := alloc (VInt z).

(** [PyUnicode_FromFormat] on arguments already converted. *)
Definition PyStr_FromFormat (s : string) : M ptr := alloc (VStr s).

(** [PyUnicode_Concat]: a new string; neither argument is released. *)
Definition PyStr_Concat (left right : ptr) : M ptr :=
  a ← peek left; b ← peek right;
  match a, b with
  | VStr a, VStr b => alloc (VStr (a +:+ b))
  | VStr _, VSurrogates | VSurrogates, VStr _ | VSurrogates, VSurrogates => alloc VSurrogates
  | _, _ => PyErr_Internal PyExc_TypeError;; mret Null
  end.

(** ** Lists, tuples, dictionaries *)

Definition PyList_New0 : M ptr := alloc (VList []).

(** The list takes a reference of its own to the item. *)
Definition PyList_Append (list item : ptr) : M Z :=
  match item with
  | Null => PyErr_Internal PyExc_SystemError;; mret (-1)
  | _ =>
      v ← get_val list;
      match v with
      | VList items =>
          Py_INCREF item;; put_val list (VList (items ++ [item]));; mret 0
      | _ => PyErr_Internal PyExc_SystemError;; mret (-1)
      end
  end.

Definition PyList_Size (list : ptr) : M Z :=
  v ← peek list;
  match v with
  | VList items => mret (Z.of_nat (length items))
  | _ => PyErr_Internal PyExc_SystemError;; mret (-1)
  end.

Definition PyTuple_Size (t : ptr) : M Z :=
  v ← peek t;
  match v with
  | VTuple items => mret (Z.of_nat (length items))
  | _ => PyErr_Internal PyExc_SystemError;; mret (-1)
  end.

(** Borrowed references; [NULL] with [IndexError] out of range. *)
Definition item_at (items : list ptr) (i : Z) : M ptr :=
  match (if decide (0 <= i) then items !! Z.to_nat i else None) with
  | Some p => mret p
  | None => PyErr_Internal PyExc_IndexError;; mret Null
  end.
Definition PyList_GetItem (list : ptr) (i : Z) : M ptr :=
  v ← peek list;
  match v with
  | VList items => item_at items i
  | _ => PyErr_Internal PyExc_SystemError;; mret Null
  end.
Definition PyTuple_GetItem (t : ptr) (i : Z) : M ptr :=
  v ← peek t;
  match v with
  | VTuple items => item_at items i
  | _ => PyErr_Internal PyExc_SystemError;; mret Null
  end.

(** Whether a list of strings has an equal element.  A [NULL] element is
    compared with nothing when the list is empty. *)
Fixpoint contains_str (items : list ptr) (s : string) : M bool :=
  match items with
  | [] => mret false
  | p :: items =>
      v ← peek p;
      match v with
      | VStr t => if decide (s = t) then mret true else contains_str items s
      | _ => contains_str items s
      end
  end.
Definition PySequence_Contains (list item : ptr) : M Z :=
  v ← get_val list;
  match v with
  | VList items =>
      match items, item with
      | [], _ => mret 0
      | _, Null => PyErr_Internal PyExc_SystemError;; mret (-1)
      | _, _ =>
          x ← peek item;
          match x with
          | VStr s => b ← contains_str items s; mret (Z.b2z b)
          | _ => mret 0
          end
      end
  | _ => PyErr_Internal PyExc_TypeError;; mret (-1)
  end.

Definition PyDict_New : M ptr := alloc (VDict []).

Fixpoint dict_get (d : list (string * ptr)) (k : string) : option ptr :=
  match d with
  | [] => None
  | (k', p) :: d => if decide (k = k') then Some p else dict_get d k
  end.

Fixpoint dict_set (d : list (string * ptr)) (k : string) (p : ptr)
    : list (string * ptr) :=
  match d with
  | [] => [(k, p)]
  | (k', q) :: d =>
      if decide (k = k') then (k', p) :: d else (k', q) :: dict_set d k p
  end.

(** A borrowed reference, [NULL] when the key is missing or the object is not a
    dictionary; no exception either way. *)
Definition PyDict_GetItemString (d : ptr) (k : string) : M ptr :=
  v ← peek d;
  match v with
  | VDict es => mret (default Null (dict_get es k))
  | _ => mret Null
  end.

(** ** Arguments of a call, given as the items of the argument tuple *)

Definition bad_args : M unit := PyErr_Internal PyExc_TypeError.

(** The ["s"] converter: a string without NUL characters. *)
Definition conv_s (p : ptr) : M (option string) :=
  v ← peek p;
  match v with
  | VStr s =>
      if has_nul s then PyErr_Internal PyExc_ValueError;; mret None
      else mret (Some s)
  | VSurrogates => PyErr_Internal PyExc_UnicodeEncodeError;; mret None
  | _ => bad_args;; mret None
  end.

(** The ["i"] converter: an integer within [int]. *)
Definition conv_i (p : ptr) : M (option Z) :=
  v ← peek p;
  match v with
  | VInt z =>
      if decide (INT_MIN <= z <= INT_MAX) then mret (Some z)
      else PyErr_Internal PyExc_OverflowError;; mret None
  | _ => bad_args;; mret None
  end.

Definition PyArg_ParseTuple_s (args : list ptr) : M (option string) :=
  match args with
  | [p] => conv_s p
  | _ => bad_args;; mret None
  end.

Definition PyArg_ParseTuple_si (args : list ptr) : M (option (string * Z)) :=
  match args with
  | [p; q] =>
      s ← conv_s p;
      match s with
      | None => mret None
      | Some s =>
          i ← conv_i q;
          match i with
          | None => mret None
          | Some i => mret (Some (s, i))
          end
      end
  | _ => bad_args;; mret None
  end.

Definition PyArg_ParseTuple_sO (args : list ptr) : M (option (string * ptr)) :=
  match args with
  | [p; q] =>
      s ← conv_s p;
      match s with
      | None => mret None
      | Some s => mret (Some (s, q))
      end
  | _ => bad_args;; mret None
  end.

(** ["|O"]: [Some Null] leaves the variable at its initial [NULL]. *)
Definition PyArg_ParseTuple_optO (args : list ptr) : M (option ptr) :=
  match args with
  | [] => mret (Some Null)
  | [p] => mret (Some p)
  | _ => bad_args;; mret None
  end.
End heap.

(** ** Operations that ask the platform *)

Section platform.
Context {K : Type} `{Platform K}.
Local Abbreviation M := (M K).

(** [PyUnicode_FromString]: [NULL] with an exception unless the bytes are
    UTF-8. *)
Definition PyStr_FromString (s : string) : M ptr :=
  if utf8_valid (cstr s) then alloc (VStr (cstr s))
  else PyErr_Internal PyExc_UnicodeDecodeError;; mret Null.

(** The same on a character array. *)
Definition PyStr_FromArray (buf : list mbyte) : M ptr :=
  match cstr_of_bytes buf with
  | Some s => PyStr_FromString s
  | None => raise OutOfBounds
  end.

(** [PyObject_New]: the fields hold whatever the memory held. *)
Definition PyObject_New (mk : Z -> pyval) : M ptr :=
  g ← ask py_malloc;
  match g with
  | Some g => alloc (mk g)
  | None => PyErr_Internal PyExc_MemoryError;; mret Null
  end.

Definition raw_addr (g : Z) : pyval := VAddr (MkAddr g Uninit Uninit Uninit g Uninit).
Definition raw_ether (g : Z) : pyval := VEther (MkEther Uninit g Uninit (u16 g)).

(** [socket(AF_INET, SOCK_DGRAM, 0)]. *)
Definition socket_dgram : M Z :=
  '(fd, e) ← ask sys_socket;
  if fd <? 0 then assign_errno e;; mret fd
  else modify (fun w : world K => set_fds ({[fd]} ∪ w_fds w) w);; mret fd.

Definition close (fd : Z) : M unit := fun w =>
  if decide (fd ∈ w_fds w) then Ret tt (set_fds (w_fds w ∖ {[fd]}) w)
  else Fault BadHandle.

(** [ioctl] on a request structure and the buffer it points to. *)
Definition ioctl (fd req : Z) (r : ifreq) (data : list mbyte)
    : M (Z * ifreq * list mbyte) :=
  rep ← ask (sys_ioctl fd req r data);
  (if io_ret rep <? 0 then assign_errno (io_errno rep) else mret tt);;
  mret (io_ret rep, io_ifr rep, io_data rep).

(** [fopen] for reading: the contents ahead, [None] for [NULL]. *)
Definition fopen (path : string) : M (option string) :=
  r ← ask (sys_fopen path);
  match r with
  | inl e => assign_errno e;; mret None
  | inr s => modify (fun w => set_files (S (w_files w)) w);; mret (Some s)
  end.

Definition fclose : M unit := fun w =>
  match w_files w with
  | O => Fault BadHandle
  | S n => Ret tt (set_files n w)
  end.

Definition eprint (s : string) : M unit :=
  modify (fun w => set_stderr (w_stderr w ++ [s]) w).

(** libnl objects. *)
Definition nl_new (o : nlobj) : M positive := fun w =>
  Ret (w_nlnext w)
      (set_nlnext (Pos.succ (w_nlnext w))
        (set_nl (<[w_nlnext w := o]> (w_nl w)) w)).
Definition nl_get (h : positive) : M nlobj := fun w =>
  match w_nl w !! h with
  | Some o => Ret o w
  | None => Fault BadHandle
  end.
Definition nl_put (h : positive) (o : nlobj) : M unit :=
  nl_get h;; modify (fun w => set_nl (<[h := o]> (w_nl w)) w).
Definition nl_free (h : positive) : M unit :=
  nl_get h;; modify (fun w => set_nl (delete h (w_nl w)) w).
End platform.

(** ** Symbolic execution

    [mrun] unfolds the monad, the heap primitives and the world's setters,
    leaving the lookups, the tests and the platform's answers to be decided by
    [rewrite]. *)
Tactic Notation "mrun" :=
  cbv beta iota zeta delta [
    mbind M_bind mret M_ret gets modify ask raise
    deref get_obj put_obj get_val put_val peek get_ether get_addr use_ptr
    alloc nl_new nl_get nl_put nl_free
    PyErr_Set PyErr_SetString PyErr_Internal PyErr_SetFromErrno PyErr_Clear
    PyErr_Occurred assign_errno
    set_heap set_next set_errno set_err set_nlc set_nl set_nlnext set_fds
    set_files set_stderr set_env
    w_heap w_next w_errno w_err w_nlc w_nl w_nlnext w_fds w_files w_stderr w_env
    nlconnection nlconnection_users nlc_counter_mtx
    ob_refcnt ob_val is_null].
Tactic Notation "mrun" "in" hyp(H) :=
  cbv beta iota zeta delta [
    mbind M_bind mret M_ret gets modify ask raise
    deref get_obj put_obj get_val put_val peek get_ether get_addr use_ptr
    alloc nl_new nl_get nl_put nl_free
    PyErr_Set PyErr_SetString PyErr_Internal PyErr_SetFromErrno PyErr_Clear
    PyErr_Occurred assign_errno
    set_heap set_next set_errno set_err set_nlc set_nl set_nlnext set_fds
    set_files set_stderr set_env
    w_heap w_next w_errno w_err w_nlc w_nl w_nlnext w_fds w_files w_stderr w_env
    nlconnection nlconnection_users nlc_counter_mtx
    ob_refcnt ob_val is_null] in H.

(** Projections of updated worlds, nothing else. *)
Ltac wcbn :=
  cbn [w_heap w_next w_errno w_err w_nlc w_nl w_nlnext w_fds w_files w_stderr
    w_env set_heap set_next set_errno set_err set_nlc set_nl set_nlnext set_fds
    set_files set_stderr set_env nlconnection nlconnection_users nlc_counter_mtx
    ob_refcnt ob_val] in *.

(** Stepping through a computation whose next result is known. *)
Section steps.
Context {K : Type}.
Implicit Types w : world K.

Lemma wp_step {A B} (m : M K A) (f : A -> M K B) Q w a w' :
  m w = Ret a w' -> wp (f a) Q w' -> wp (m ≫= f) Q w.
Proof. intros H Hf. apply wp_bind. unfold wp at 1. by rewrite H. Qed.

Lemma wp_assoc {A B C} (m : M K A) (f : A -> M K B) (g : B -> M K C) Q w :
  wp ((m ≫= f) ≫= g) Q w -> wp (m ≫= fun x => f x ≫= g) Q w.
Proof. unfold wp. by rewrite bind_assoc. Qed.

Lemma get_obj_eq w l o : w_heap w !! l = Some o -> get_obj l w = Ret o w.
Proof. unfold get_obj. by intros ->. Qed.

Lemma get_val_eq w l o : w_heap w !! l = Some o -> get_val (Loc l) w = Ret (ob_val o) w.
Proof. intros Hl. mrun. destruct w. simpl in Hl. by rewrite Hl. Qed.

Lemma peek_eq w l o : w_heap w !! l = Some o -> peek (Loc l) w = Ret (ob_val o) w.
Proof. apply get_val_eq. Qed.

Lemma get_addr_eq w l rc a :
  w_heap w !! l = Some (Obj rc (VAddr a)) -> get_addr (Loc l) w = Ret a w.
Proof. intros Hl. unfold get_addr. by rewrite (bind_Ret _ _ _ _ _ (get_val_eq _ _ _ Hl)). Qed.

Lemma get_ether_eq w l rc e :
  w_heap w !! l = Some (Obj rc (VEther e)) -> get_ether (Loc l) w = Ret e w.
Proof. intros Hl. unfold get_ether. by rewrite (bind_Ret _ _ _ _ _ (get_val_eq _ _ _ Hl)). Qed.

Lemma put_val_eq w l o v :
  w_heap w !! l = Some o ->
  put_val (Loc l) v w
    = Ret tt (set_heap (<[l := Obj (ob_refcnt o) v]> (w_heap w)) w).
Proof. intros Hl. mrun. destruct w. simpl in Hl. by rewrite Hl. Qed.

Lemma incref_eq w l o :
  w_heap w !! l = Some o ->
  Py_INCREF (Loc l) w
    = Ret tt (set_heap (<[l := Obj (ob_refcnt o + 1) (ob_val o)]> (w_heap w)) w).
Proof. intros Hl. unfold Py_INCREF. mrun. destruct w. simpl in Hl. by rewrite Hl. Qed.
End steps.
