(* ===== verification/Stdio.v ===== *)
(** * C library input: [fgets] and [sscanf]

    A stream open for reading is what is left of the file; the end-of-file
    indicator is set by the read that runs into the end. *)
From S2P Require Import Prelude.

Definition newline : ascii := "010"%char.

(** At most [n] characters, up to and including a newline; what is left; and
    whether the end of the file was run into. *)
Fixpoint read_line (n : nat) (s : string) : string * string * bool :=
  match n with
  | O => (EmptyString, s, false)
  | S n =>
      match s with
      | EmptyString => (EmptyString, EmptyString, true)
      | String c s =>
          if Ascii.eqb c newline then (String c EmptyString, s, false)
          else let '(l, r, e) := read_line n s in (String c l, r, e)
      end
  end.

(** [fgets(buf, n, f)]: [None] is the [NULL] of a read at the end of file. *)
Definition fgets (n : nat) (s : string) : option (string * string * bool) :=
  let '(l, r, e) := read_line (pred n) s in
  match l with EmptyString => None | _ => Some (l, r, e) end.

Lemma read_line_app n s l r e : read_line n s = (l, r, e) -> s = l +:+ r.
Proof.
  revert s l r e; induction n as [|n IH]; intros s l r e; simpl; [by intros [= <- <- <-]|].
  destruct s as [|c s]; [by intros [= <- <- <-]|].
  destruct (Ascii.eqb c newline); [by intros [= <- <- <-]|].
  destruct (read_line n s) as [[l' r'] e'] eqn:E. intros [= <- <- <-].
  by rewrite (IH _ _ _ _ E).
Qed.

(** Every successful read makes progress. *)
Lemma fgets_shrinks n s l r e :
  fgets n s = Some (l, r, e) -> (String.length r < String.length s)%nat.
Proof.
  unfold fgets. destruct (read_line _ _) as [[l' r'] e'] eqn:E.
  apply read_line_app in E. destruct l' as [|c l']; [done|]. intros [= <- <- <-].
  subst s. simpl. rewrite string_app_length. lia.
Qed.

Lemma read_line_length n s l r e :
  read_line n s = (l, r, e) -> (String.length l <= n)%nat.
Proof.
  revert s l r e; induction n as [|n IH]; intros s l r e; simpl; [by intros [= <- _ _]|].
  destruct s as [|c s]; [intros [= <- _ _]; simpl; lia|].
  destruct (Ascii.eqb c newline); [intros [= <- _ _]; simpl; lia|].
  destruct (read_line n s) as [[l' r'] e'] eqn:E. intros [= <- _ _].
  apply IH in E. simpl. lia.
Qed.

(** The buffer is never overrun: [n - 1] characters and the NUL. *)
Lemma fgets_length n s l r e :
  fgets n s = Some (l, r, e) -> (0 < n)%nat -> (String.length l < n)%nat.
Proof.
  unfold fgets. destruct (read_line _ _) as [[l' r'] e'] eqn:E.
  apply read_line_length in E. destruct l'; [done|]. intros [= <- _ _]. lia.
Qed.

(** A text without newlines. *)
Fixpoint one_line (s : string) : bool :=
  match s with
  | EmptyString => true
  | String c s => negb (Ascii.eqb c newline) && one_line s
  end.

Definition line (s : string) : string := s +:+ String newline EmptyString.

(** A whole line is read at once when it fits the buffer. *)
Lemma fgets_line n s r :
  one_line s = true -> (S (String.length s) < n)%nat ->
  fgets n (line s +:+ r) = Some (line s, r, false).
Proof.
  intros Hs Hn. unfold fgets.
  assert (forall m, (S (String.length s) <= m)%nat ->
    read_line m (s +:+ String newline r) = (line s, r, false)) as Hr.
  { clear n Hn. unfold line. induction s as [|c s IH]; intros [|m] Hm; simpl in Hm;
      try lia; rewrite ?string_cons_app; cbn [read_line]; [done|].
    simpl in Hs. apply andb_true_iff in Hs as [Hc%negb_true_iff Hs].
    rewrite Hc, IH; [done..|lia]. }
  unfold line at 1. rewrite string_app_assoc, string_cons_app, string_nil_app.
  rewrite Hr by lia. by destruct s.
Qed.

(** What a loop of [fgets] over buffers of [n] characters sees until a read
    fails or runs into the end. *)
Inductive reads (n : nat) : string -> list string -> Prop :=
  | reads_end s : fgets n s = None -> reads n s []
  | reads_last s l r : fgets n s = Some (l, r, true) -> reads n s [l]
  | reads_more s l r ls :
      fgets n s = Some (l, r, false) -> reads n r ls -> reads n s (l :: ls).

(** Every file is read in finitely many turns. *)
Lemma reads_total n s : exists ls, reads n s ls.
Proof.
  remember (String.length s) as m eqn:Hm. revert s Hm.
  induction (lt_wf m) as [m _ IH]. intros s ->.
  destruct (fgets n s) as [[[l r] [|]]|] eqn:E.
  - exists [l]. by eapply reads_last.
  - destruct (IH _ (fgets_shrinks _ _ _ _ _ E) r eq_refl) as [ls Hls].
    exists (l :: ls). by eapply reads_more.
  - exists []. by apply reads_end.
Qed.

(** A file of whole lines. *)
Fixpoint lines (ls : list string) : string :=
  match ls with
  | [] => EmptyString
  | l :: ls => line l +:+ lines ls
  end.

Lemma reads_lines n ls :
  (1 < n)%nat ->
  Forall (fun l => one_line l = true /\ (S (String.length l) < n)%nat) ls ->
  reads n (lines ls) (map line ls).
Proof.
  intros Hn. induction 1 as [|l ls [Hl Hlen] _ IH]; simpl.
  - apply reads_end. destruct n as [|[|n]]; [lia|lia|done].
  - eapply reads_more; [|exact IH]. by apply fgets_line.
Qed.

(** ** [sscanf] conversions *)

Definition is_space (c : ascii) : bool :=
  let n := N_of_ascii c in
  ((n =? 32) || ((9 <=? n) && (n <=? 13)))%N.

Definition is_digit (c : ascii) : bool :=
  let n := N_of_ascii c in ((48 <=? n) && (n <=? 57))%N.

Fixpoint skip_space (s : string) : string :=
  match s with
  | String c s' => if is_space c then skip_space s' else s
  | EmptyString => EmptyString
  end.

Fixpoint skip_digits (s : string) : string :=
  match s with
  | String c s' => if is_digit c then skip_digits s' else s
  | EmptyString => EmptyString
  end.

(** ["%*d"]: what is left, [None] on a matching failure. *)
Definition scan_skip_d (s : string) : option string :=
  let s := skip_space s in
  let t := match s with
           | String c s' =>
               if Ascii.eqb c "-" || Ascii.eqb c "+" then s' else s
           | EmptyString => s
           end in
  match t with
  | String c _ => if is_digit c then Some (skip_digits t) else None
  | EmptyString => None
  end.

Fixpoint take_word (max : nat) (s : string) : string * string :=
  match max, s with
  | S max, String c s' =>
      if is_space c then (EmptyString, s)
      else let '(w, r) := take_word max s' in (String c w, r)
  | _, _ => (EmptyString, s)
  end.

(** ["%<max>s"], or ["%*s"] with [max] the length of the input. *)
Definition scan_s (max : nat) (s : string) : option (string * string) :=
  let '(w, r) := take_word max (skip_space s) in
  match w with EmptyString => None | _ => Some (w, r) end.
