(* ===== verification/EthtoolH.v ===== *)
(** * ethtool-copy.h: structures and commands of the ethtool interface

    Structures as lists of fields, laid out by the C rules: each field at the
    next multiple of its alignment, the size rounded up to the largest.  An
    array of length 0 stands for the data that follows a structure, and
    64-bit words are aligned to 4 or to 8 bytes, as the ABI has it.

    [layout_ok] checks the rules: they align fields, without overlap and within
    the size, whatever the structure.  Of the structures of the header
    [structures_laid_out] computes that their layout does not depend on the ABI;
    [parameters_by_name] (StructDescFacts.v) is about their fields. *)
From S2P Require Import Prelude.

Record cfield := CField { cf_name : string; cf_align : nat; cf_size : nat }.

Definition f_u32 (n : string) : cfield := CField n 4 4.
Definition f_u16 (n : string) : cfield := CField n 2 2.
Definition f_u8 (n : string) : cfield := CField n 1 1.
Definition f_char (n : string) (len : nat) : cfield := CField n 1 len.
Definition f_u8s (n : string) (len : nat) : cfield := CField n 1 len.
Definition f_u64s (a64 : nat) (n : string) (len : nat) : cfield := CField n a64 (8 * len).
Definition f_u32s (n : string) (len : nat) : cfield := CField n 4 (4 * len).

Definition align_up (a off : nat) : nat := (off + a - 1) / a * a.

(** Each field with its offset. *)
Fixpoint layout_from (off : nat) (fs : list cfield) : list (cfield * nat) :=
  match fs with
  | [] => []
  | f :: fs =>
      let o := align_up (cf_align f) off in
      (f, o) :: layout_from (o + cf_size f) fs
  end.
Definition layout : list cfield -> list (cfield * nat) := layout_from 0.

Definition find_field (n : string) (fs : list cfield) : option (cfield * nat) :=
  List.find (fun p => String.eqb (cf_name p.1) n) (layout fs).

Definition offsetof (fs : list cfield) (n : string) : nat :=
  from_option snd 0%nat (find_field n fs).
Definition sizeof_field (fs : list cfield) (n : string) : nat :=
  from_option (fun p => cf_size p.1) 0%nat (find_field n fs).

Definition sizeof (fs : list cfield) : nat :=
  align_up (foldr (fun f a => Nat.max (cf_align f) a) 1%nat fs)
    (foldr (fun p a => Nat.max (p.2 + cf_size p.1) a) 0%nat (layout fs)).

(** ** The structures the module uses *)

Definition ethtool_cmd : list cfield :=
  [f_u32 "cmd"; f_u32 "supported"; f_u32 "advertising"; f_u16 "speed";
   f_u8 "duplex"; f_u8 "port"; f_u8 "phy_address"; f_u8 "transceiver";
   f_u8 "autoneg"; f_u32 "maxtxpkt"; f_u32 "maxrxpkt"; f_u32s "reserved" 4].

Definition ETHTOOL_BUSINFO_LEN : nat := 32.

Definition ethtool_drvinfo : list cfield :=
  [f_u32 "cmd"; f_char "driver" 32; f_char "version" 32; f_char "fw_version" 32;
   f_char "bus_info" ETHTOOL_BUSINFO_LEN; f_char "reserved1" 32;
   f_char "reserved2" 16; f_u32 "n_stats"; f_u32 "testinfo_len";
   f_u32 "eedump_len"; f_u32 "regdump_len"].

Definition SOPASS_MAX : nat := 6.

Definition ethtool_wolinfo : list cfield :=
  [f_u32 "cmd"; f_u32 "supported"; f_u32 "wolopts"; f_u8s "sopass" SOPASS_MAX].

Definition ethtool_value : list cfield := [f_u32 "cmd"; f_u32 "data"].

Definition ethtool_regs : list cfield :=
  [f_u32 "cmd"; f_u32 "version"; f_u32 "len"; f_u8s "data" 0].

Definition ethtool_eeprom : list cfield :=
  [f_u32 "cmd"; f_u32 "magic"; f_u32 "offset"; f_u32 "len"; f_u8s "data" 0].

Definition ethtool_coalesce : list cfield :=
  [f_u32 "cmd";
   f_u32 "rx_coalesce_usecs"; f_u32 "rx_max_coalesced_frames";
   f_u32 "rx_coalesce_usecs_irq"; f_u32 "rx_max_coalesced_frames_irq";
   f_u32 "tx_coalesce_usecs"; f_u32 "tx_max_coalesced_frames";
   f_u32 "tx_coalesce_usecs_irq"; f_u32 "tx_max_coalesced_frames_irq";
   f_u32 "stats_block_coalesce_usecs";
   f_u32 "use_adaptive_rx_coalesce"; f_u32 "use_adaptive_tx_coalesce";
   f_u32 "pkt_rate_low";
   f_u32 "rx_coalesce_usecs_low"; f_u32 "rx_max_coalesced_frames_low";
   f_u32 "tx_coalesce_usecs_low"; f_u32 "tx_max_coalesced_frames_low";
   f_u32 "pkt_rate_high";
   f_u32 "rx_coalesce_usecs_high"; f_u32 "rx_max_coalesced_frames_high";
   f_u32 "tx_coalesce_usecs_high"; f_u32 "tx_max_coalesced_frames_high";
   f_u32 "rate_sample_interval"].

Definition ethtool_ringparam : list cfield :=
  [f_u32 "cmd";
   f_u32 "rx_max_pending"; f_u32 "rx_mini_max_pending";
   f_u32 "rx_jumbo_max_pending"; f_u32 "tx_max_pending";
   f_u32 "rx_pending"; f_u32 "rx_mini_pending"; f_u32 "rx_jumbo_pending";
   f_u32 "tx_pending"].

Definition ethtool_pauseparam : list cfield :=
  [f_u32 "cmd"; f_u32 "autoneg"; f_u32 "rx_pause"; f_u32 "tx_pause"].

Definition ethtool_gstrings : list cfield :=
  [f_u32 "cmd"; f_u32 "string_set"; f_u32 "len"; f_u8s "data" 0].

(** [a64] is the alignment of 64-bit words. *)
Definition ethtool_test (a64 : nat) : list cfield :=
  [f_u32 "cmd"; f_u32 "flags"; f_u32 "reserved"; f_u32 "len"; f_u64s a64 "data" 0].

Definition ethtool_stats (a64 : nat) : list cfield :=
  [f_u32 "cmd"; f_u32 "n_stats"; f_u64s a64 "data" 0].

(** Every structure of the header. *)
Definition structures (a64 : nat) : list (string * list cfield) :=
  [("ethtool_cmd", ethtool_cmd); ("ethtool_drvinfo", ethtool_drvinfo);
   ("ethtool_wolinfo", ethtool_wolinfo); ("ethtool_value", ethtool_value);
   ("ethtool_regs", ethtool_regs); ("ethtool_eeprom", ethtool_eeprom);
   ("ethtool_coalesce", ethtool_coalesce); ("ethtool_ringparam", ethtool_ringparam);
   ("ethtool_pauseparam", ethtool_pauseparam); ("ethtool_gstrings", ethtool_gstrings);
   ("ethtool_test", ethtool_test a64); ("ethtool_stats", ethtool_stats a64)].

(** ** Commands and flags *)

Definition ETHTOOL_GSET : Z := 0x1.
Definition ETHTOOL_SSET : Z := 0x2.
Definition ETHTOOL_GDRVINFO : Z := 0x3.
Definition ETHTOOL_GREGS : Z := 0x4.
Definition ETHTOOL_GWOL : Z := 0x5.
Definition ETHTOOL_SWOL : Z := 0x6.
Definition ETHTOOL_GMSGLVL : Z := 0x7.
Definition ETHTOOL_SMSGLVL : Z := 0x8.
Definition ETHTOOL_NWAY_RST : Z := 0x9.
Definition ETHTOOL_GLINK : Z := 0xa.
Definition ETHTOOL_GEEPROM : Z := 0xb.
Definition ETHTOOL_SEEPROM : Z := 0xc.
Definition ETHTOOL_GCOALESCE : Z := 0xe.
Definition ETHTOOL_SCOALESCE : Z := 0xf.
Definition ETHTOOL_GRINGPARAM : Z := 0x10.
Definition ETHTOOL_SRINGPARAM : Z := 0x11.
Definition ETHTOOL_GPAUSEPARAM : Z := 0x12.
Definition ETHTOOL_SPAUSEPARAM : Z := 0x13.
Definition ETHTOOL_GRXCSUM : Z := 0x14.
Definition ETHTOOL_SRXCSUM : Z := 0x15.
Definition ETHTOOL_GTXCSUM : Z := 0x16.
Definition ETHTOOL_STXCSUM : Z := 0x17.
Definition ETHTOOL_GSG : Z := 0x18.
Definition ETHTOOL_SSG : Z := 0x19.
Definition ETHTOOL_TEST : Z := 0x1a.
Definition ETHTOOL_GSTRINGS : Z := 0x1b.
Definition ETHTOOL_PHYS_ID : Z := 0x1c.
Definition ETHTOOL_GSTATS : Z := 0x1d.
Definition ETHTOOL_GTSO : Z := 0x1e.
Definition ETHTOOL_STSO : Z := 0x1f.
Definition ETHTOOL_GUFO : Z := 0x21.
Definition ETHTOOL_SUFO : Z := 0x22.
Definition ETHTOOL_GGSO : Z := 0x23.
Definition ETHTOOL_SGSO : Z := 0x24.
Definition ETHTOOL_GGRO : Z := 0x2b.
Definition ETHTOOL_SGRO : Z := 0x2c.

(** Names of older code. *)
Definition SPARC_ETH_GSET : Z := ETHTOOL_GSET.
Definition SPARC_ETH_SSET : Z := ETHTOOL_SSET.

Inductive ethtool_stringset := ETH_SS_TEST | ETH_SS_STATS.
Definition stringset_val (s : ethtool_stringset) : Z :=
  match s with ETH_SS_TEST => 0 | ETH_SS_STATS => 1 end.

Inductive ethtool_test_flags := ETH_TEST_FL_OFFLINE | ETH_TEST_FL_FAILED.
Definition test_flag_val (f : ethtool_test_flags) : Z :=
  match f with ETH_TEST_FL_OFFLINE => Z.shiftl 1 0 | ETH_TEST_FL_FAILED => Z.shiftl 1 1 end.

Definition ETH_GSTRING_LEN : Z := 32.

(** Features an interface supports. *)
Definition supported_flags : list (string * Z) :=
  [("SUPPORTED_10baseT_Half", Z.shiftl 1 0);
   ("SUPPORTED_10baseT_Full", Z.shiftl 1 1);
   ("SUPPORTED_100baseT_Half", Z.shiftl 1 2);
   ("SUPPORTED_100baseT_Full", Z.shiftl 1 3);
   ("SUPPORTED_1000baseT_Half", Z.shiftl 1 4);
   ("SUPPORTED_1000baseT_Full", Z.shiftl 1 5); ("SUPPORTED_Autoneg", Z.shiftl 1 6);
   ("SUPPORTED_TP", Z.shiftl 1 7); ("SUPPORTED_AUI", Z.shiftl 1 8);
   ("SUPPORTED_MII", Z.shiftl 1 9); ("SUPPORTED_FIBRE", Z.shiftl 1 10);
   ("SUPPORTED_BNC", Z.shiftl 1 11); ("SUPPORTED_10000baseT_Full", Z.shiftl 1 12)].

(** Features it advertises. *)
Definition advertised_flags : list (string * Z) :=
  [("ADVERTISED_10baseT_Half", Z.shiftl 1 0);
   ("ADVERTISED_10baseT_Full", Z.shiftl 1 1);
   ("ADVERTISED_100baseT_Half", Z.shiftl 1 2);
   ("ADVERTISED_100baseT_Full", Z.shiftl 1 3);
   ("ADVERTISED_1000baseT_Half", Z.shiftl 1 4);
   ("ADVERTISED_1000baseT_Full", Z.shiftl 1 5); ("ADVERTISED_Autoneg", Z.shiftl 1 6);
   ("ADVERTISED_TP", Z.shiftl 1 7); ("ADVERTISED_AUI", Z.shiftl 1 8);
   ("ADVERTISED_MII", Z.shiftl 1 9); ("ADVERTISED_FIBRE", Z.shiftl 1 10);
   ("ADVERTISED_BNC", Z.shiftl 1 11); ("ADVERTISED_10000baseT_Full", Z.shiftl 1 12)].

(** Link modes. *)
Definition link_speeds : list (string * Z) :=
  [("SPEED_10", 10); ("SPEED_100", 100); ("SPEED_1000", 1000);
   ("SPEED_10000", 10000)].

(** Half or full. *)
Definition duplexes : list (string * Z) :=
  [("DUPLEX_HALF", 0x0); ("DUPLEX_FULL", 0x1)].

(** Connectors. *)
Definition ports : list (string * Z) :=
  [("PORT_TP", 0x0); ("PORT_AUI", 0x1); ("PORT_MII", 0x2); ("PORT_FIBRE", 0x3);
   ("PORT_BNC", 0x4)].

(** Transceivers. *)
Definition transceivers : list (string * Z) :=
  [("XCVR_INTERNAL", 0x0); ("XCVR_EXTERNAL", 0x1); ("XCVR_DUMMY1", 0x2);
   ("XCVR_DUMMY2", 0x3); ("XCVR_DUMMY3", 0x4)].

(** Autonegotiation. *)
Definition autoneg_values : list (string * Z) :=
  [("AUTONEG_DISABLE", 0x0); ("AUTONEG_ENABLE", 0x1)].

(** Wake-on-LAN options. *)
Definition wake_flags : list (string * Z) :=
  [("WAKE_PHY", Z.shiftl 1 0); ("WAKE_UCAST", Z.shiftl 1 1);
   ("WAKE_MCAST", Z.shiftl 1 2); ("WAKE_BCAST", Z.shiftl 1 3);
   ("WAKE_ARP", Z.shiftl 1 4); ("WAKE_MAGIC", Z.shiftl 1 5);
   ("WAKE_MAGICSECURE", Z.shiftl 1 6)].

Example ethtool_sizes :
  sizeof ethtool_cmd = 44%nat /\ sizeof ethtool_drvinfo = 196%nat /\
  sizeof ethtool_value = 8%nat /\ sizeof ethtool_coalesce = 92%nat /\
  sizeof ethtool_ringparam = 36%nat /\ offsetof ethtool_cmd "maxtxpkt" = 20%nat.
Proof. done. Qed.

(** ** The rules of layout *)

(** What sharing a structure relies on. *)
Record laid_out (fs : list cfield) : Prop := {
  lo_fields : (layout fs).*1 = fs;
  lo_aligned f o : (f, o) ∈ layout fs -> Nat.divide (cf_align f) o;
  (** Each field starts after the one before, as soon as it may. *)
  lo_follows i f o g p :
    layout fs !! i = Some (f, o) -> layout fs !! S i = Some (g, p) ->
    (o + cf_size f <= p < o + cf_size f + cf_align g)%nat;
  lo_within f o : (f, o) ∈ layout fs -> (o + cf_size f <= sizeof fs)%nat;
  (** In an array of these, each element is aligned as the first. *)
  lo_array f : f ∈ fs -> Nat.divide (cf_align f) (sizeof fs);
}.

Lemma align_up_spec a off :
  (1 <= a)%nat ->
  Nat.divide a (align_up a off) /\ (off <= align_up a off < off + a)%nat.
Proof.
  intros Ha. unfold align_up. split; [by eexists|].
  pose proof (Nat.div_mod_eq (off + a - 1) a).
  pose proof (Nat.mod_upper_bound (off + a - 1) a). nia.
Qed.

Lemma layout_fields fs : forall off, (layout_from off fs).*1 = fs.
Proof. induction fs as [|f fs IH]; intros off; simpl; [done|by rewrite IH]. Qed.

Definition aligns : list nat := [1; 2; 4; 8]%nat.

Lemma align_pos a : a ∈ aligns -> (1 <= a)%nat.
Proof. intros Ha. repeat (apply elem_of_cons in Ha as [->|Ha]; [lia|]). by apply elem_of_nil in Ha. Qed.

(** Of two of these, one divides the other. *)
Lemma align_max a b : a ∈ aligns -> b ∈ aligns ->
  Nat.max a b ∈ aligns /\ Nat.divide a (Nat.max a b) /\ Nat.divide b (Nat.max a b).
Proof.
  intros Ha Hb.
  repeat (apply elem_of_cons in Ha as [->|Ha]; [|]); [..|by apply elem_of_nil in Ha];
  (repeat (apply elem_of_cons in Hb as [->|Hb]; [|]); [..|by apply elem_of_nil in Hb]);
  simpl; (split; [by apply (bool_decide_unpack _)|split; by apply Nat.Lcm0.mod_divide]).
Qed.

Definition struct_align (fs : list cfield) : nat :=
  foldr (fun f a => Nat.max (cf_align f) a) 1%nat fs.

Lemma struct_align_spec fs :
  Forall (fun f => cf_align f ∈ aligns) fs ->
  struct_align fs ∈ aligns /\ forall f, f ∈ fs -> Nat.divide (cf_align f) (struct_align fs).
Proof.
  induction 1 as [|f fs Hf _ [IH1 IH2]]; simpl; [split; [left|by intros f ?%elem_of_nil]|].
  destruct (align_max _ _ Hf IH1) as (H1 & H2 & H3). split; [done|].
  intros g [->|Hg]%elem_of_cons; [done|]. etrans; [by apply IH2|done].
Qed.

(** Anywhere in a structure. *)
Lemma layout_from_spec fs : forall off,
  Forall (fun f => cf_align f ∈ aligns) fs ->
  (forall f o, (f, o) ∈ layout_from off fs -> Nat.divide (cf_align f) o) /\
  (forall f o, layout_from off fs !! 0%nat = Some (f, o) ->
     (off <= o < off + cf_align f)%nat) /\
  (forall i f o g p, layout_from off fs !! i = Some (f, o) ->
     layout_from off fs !! S i = Some (g, p) ->
     (o + cf_size f <= p < o + cf_size f + cf_align g)%nat).
Proof.
  induction fs as [|f fs IH]; intros off Hfs; simpl.
  { split; [by intros f o ?%elem_of_nil|]. split; by intros []. }
  apply Forall_cons_1 in Hfs as [Hf%align_pos Hfs].
  destruct (align_up_spec (cf_align f) off Hf) as [Hd Hr].
  destruct (IH (align_up (cf_align f) off + cf_size f)%nat Hfs) as (I1 & I2 & I3).
  split; [|split].
  - intros g o [[= -> ->]|Hin]%elem_of_cons; [done|by apply I1].
  - by intros g o [= <- <-].
  - intros [|i] g o h p; simpl; [intros [= <- <-] Hp; by apply I2 in Hp|apply I3].
Qed.

(** Every structure with the usual alignments. *)
Lemma layout_ok fs : Forall (fun f => cf_align f ∈ aligns) fs -> laid_out fs.
Proof.
  intros Hfs. destruct (layout_from_spec fs 0 Hfs) as (H1 & _ & H3).
  destruct (struct_align_spec fs Hfs) as [Ha Hdiv].
  unfold struct_align in *. apply align_pos in Ha.
  split; [apply layout_fields|exact H1|exact H3| |].
  - intros f o Hin. unfold sizeof.
    destruct (align_up_spec _ (foldr (fun p a => Nat.max (p.2 + cf_size p.1) a) 0%nat
      (layout fs)) Ha) as [_ [Hle _]].
    etrans; [|exact Hle]. clear -Hin. unfold layout in *.
    induction (layout_from 0 fs) as [|p l IH]; [by apply elem_of_nil in Hin|].
    apply elem_of_cons in Hin as [<-|Hin]; simpl; [lia|]. specialize (IH Hin). lia.
  - intros f Hin. etrans; [by apply Hdiv|]. apply (align_up_spec _ _ Ha).
Qed.

(** Names, offsets and sizes. *)
Definition shape (fs : list cfield) : list (string * nat) * nat :=
  (map (fun p => (cf_name p.1, p.2)) (layout fs), sizeof fs).

(** The structures of the header only have the alignments [layout_ok] is about,
    and every offset and size is the same whether 64-bit words are aligned to 4
    bytes or to 8, so the header works for 32 and 64 bit userland. *)
Theorem structures_laid_out (a64 b64 : nat) :
  a64 ∈ [4; 8]%nat -> b64 ∈ [4; 8]%nat ->
  Forall (fun s => laid_out s.2) (structures a64) /\
  map (fun s => (s.1, shape s.2)) (structures a64)
    = map (fun s => (s.1, shape s.2)) (structures b64).
Proof.
  intros Ha Hb. split.
  - assert (forall a64, a64 ∈ [4; 8]%nat ->
      forallb (fun s => bool_decide (Forall (fun f => cf_align f ∈ aligns) s.2))
        (structures a64) = true) as Hc.
    { clear. intros a64 Ha. repeat (apply elem_of_cons in Ha as [->|Ha]; [vm_compute; reflexivity|]).
      by apply elem_of_nil in Ha. }
    specialize (Hc a64 Ha). rewrite List.forallb_forall in Hc.
    apply list.Forall_forall. intros s Hs%list_elem_of_In.
    apply layout_ok. by eapply bool_decide_eq_true_1, Hc.
  - repeat (apply elem_of_cons in Ha as [->|Ha]; [|]); [..|by apply elem_of_nil in Ha];
      (repeat (apply elem_of_cons in Hb as [->|Hb]; [vm_compute; reflexivity|]);
       by apply elem_of_nil in Hb).
Qed.
