(* ===== verification/Netlink.v ===== *)
(** * netlink.c: the shared NETLINK connection

    One connection serves every [etherinfo] object.  [open_netlink] makes the
    calling object a user of it, opening it for the first; [close_netlink],
    called when an object dies, takes a user away and closes the connection
    with the last.  The state is [w_nlc]: the connection, the [unsigned int]
    user count, and the mutex around the count. *)
From S2P Require Import Prelude.
From S2P Require Import Platform.
From S2P Require Import CPython.

Section netlink.
Context {K : Type} `{Platform K}.
Local Abbreviation M := (M K).

Definition get_nlconnection : M (option positive) :=
  gets (fun w => nlconnection (w_nlc w)).

Definition set_nlconnection (c : option positive) : M unit :=
  modify (fun w : world K => set_nlc
    (MkNlc c (nlconnection_users (w_nlc w)) (nlc_counter_mtx (w_nlc w))) w).

(** [nlconnection_users++] and [nlconnection_users--] on an [unsigned int]. *)
Definition add_users (d : Z) : M unit :=
  modify (fun w : world K => set_nlc
    (MkNlc (nlconnection (w_nlc w)) (u32 (nlconnection_users (w_nlc w) + d))
       (nlc_counter_mtx (w_nlc w))) w).

(** A default (not recursive) mutex. *)
Definition pthread_mutex_lock : M unit := fun w =>
  if nlc_counter_mtx (w_nlc w) then Fault Deadlock
  else Ret tt (set_nlc
    (MkNlc (nlconnection (w_nlc w)) (nlconnection_users (w_nlc w)) true) w).

Definition pthread_mutex_unlock : M unit := fun w =>
  Ret tt (set_nlc
    (MkNlc (nlconnection (w_nlc w)) (nlconnection_users (w_nlc w)) false) w).

(** [ethi->nlc_active = b]. *)
Definition set_nlc_active (ethi : ptr) (b : Z) : M unit :=
  e ← get_ether ethi;
  put_val ethi (VEther (MkEther (device e) (index e) (hwaddress e) b)).

(** libnl's socket calls. *)
Definition nl_socket_alloc : M (option positive) :=
  ok ← ask nl_socket_alloc_ok;
  if (ok : bool) then h ← nl_new (NlSock false); mret (Some h) else mret None.

Definition nl_connect (h : positive) : M Z :=
  r ← ask nl_connect_ret;
  if r <? 0 then mret r else nl_put h (NlSock true);; mret r.

Definition nl_close (h : positive) : M unit := nl_put h (NlSock false).
Definition nl_socket_free (h : positive) : M unit := nl_free h.

(** [fcntl(fd, F_SETFD, FD_CLOEXEC)]. *)
Definition fcntl_cloexec : M Z :=
  '(r, e) ← ask sys_fcntl_cloexec;
  (if r =? -1 then assign_errno e else mret tt);; mret r.

Definition cloexec_warning (e : Z) : string :=
  "**WARNING** Failed to set O_CLOEXEC on NETLINK socket: " +:+ strerror e
    +:+ String "010" EmptyString.

Definition open_netlink (ethi : ptr) : M Z :=
  if is_null ethi then mret 0
  else
    c ← get_nlconnection;
    match c with
    | Some _ =>
        (* Reuse the established connection *)
        e ← get_ether ethi;
        (if nlc_active e =? 0 then
           pthread_mutex_lock;; add_users 1;; pthread_mutex_unlock
         else mret tt);;
        set_nlc_active ethi 1;;
        mret 1
    | None =>
        c ← nl_socket_alloc;
        set_nlconnection c;;
        match c with
        | Some h =>
            r ← nl_connect h;
            if r <? 0 then mret 0
            else
              r ← fcntl_cloexec;
              (if r =? -1 then
                 e ← gets w_errno; eprint (cloexec_warning e)
               else mret tt);;
              pthread_mutex_lock;; add_users 1;; pthread_mutex_unlock;;
              set_nlc_active ethi 1;;
              mret 1
        | None => mret 0
        end
    end.

Definition get_nlc : M positive :=
  c ← get_nlconnection;
  match c with
  | Some h => mret h
  | None => raise AssertFailed
  end.

Definition close_netlink (ethi : ptr) : M unit :=
  if is_null ethi then mret tt
  else
    c ← get_nlconnection;
    match c with
    | None => mret tt
    | Some h =>
        (* Untag this object as a NETLINK user *)
        set_nlc_active ethi 0;;
        pthread_mutex_lock;; add_users (-1);; pthread_mutex_unlock;;
        users ← gets (fun w => nlconnection_users (w_nlc w));
        if 0 <? users then mret tt
        else
          nl_close h;;
          nl_socket_free h;;
          set_nlconnection None
    end.
End netlink.

(** ** What the two operations do to the world *)

Record wf_nl {K} (w : world K) : Prop := {
  wf_mtx : nlc_counter_mtx (w_nlc w) = false;
  wf_conn c : nlconnection (w_nlc w) = Some c ->
    exists b, w_nl w !! c = Some (NlSock b);
  wf_nlfresh c o : w_nl w !! c = Some o -> (c < w_nlnext w)%positive;
}.

Section netlink_eq.
Context {K : Type} `{Platform K}.
Implicit Types (w : world K) (e : PyEtherInfo).

Definition with_active (b : Z) (e : PyEtherInfo) : PyEtherInfo :=
  MkEther (device e) (index e) (hwaddress e) b.

(** The world with the flag of the object at [l] set. *)
Definition mark (l : positive) (rc : Z) (e : PyEtherInfo) (b : Z) (w : world K)
    : world K :=
  set_heap (<[l := Obj rc (VEther (with_active b e))]> (w_heap w)) w.

(** [close_netlink] on the object [e] at [l]. *)
Definition closed (l : positive) (rc : Z) (e : PyEtherInfo) (w : world K)
    : world K :=
  match nlconnection (w_nlc w) with
  | None => w
  | Some c =>
      let u := u32 (nlconnection_users (w_nlc w) - 1) in
      if 0 <? u then set_nlc (MkNlc (Some c) u false) (mark l rc e 0 w)
      else set_nl (delete c (w_nl w))
             (set_nlc (MkNlc None u false) (mark l rc e 0 w))
  end.

Lemma close_netlink_eq w l rc e :
  wf_nl w -> w_heap w !! l = Some (Obj rc (VEther e)) ->
  close_netlink (Loc l) w = Ret tt (closed l rc e w).
Proof.
  intros Hw Hl. unfold close_netlink, closed, mark.
  unfold get_nlconnection, set_nlc_active, pthread_mutex_lock,
    pthread_mutex_unlock, add_users, nl_close, nl_socket_free, set_nlconnection.
  pose proof (wf_mtx _ Hw) as Hm. pose proof (wf_conn _ Hw) as Hc.
  destruct w as [h n er x [cc u m] nl nn fd fs se k]. simpl in Hl, Hm, Hc.
  subst m. destruct cc as [c|]; mrun; [|done].
  destruct (Hc c eq_refl) as [b Hb].
  repeat (rewrite Hl; mrun). fold (with_active 0 e).
  change (u + -1) with (u - 1). destruct (0 <? u32 (u - 1)); [done|].
  mrun. rewrite Hb. mrun. rewrite lookup_insert_eq. mrun.
  by rewrite delete_insert_eq.
Qed.

(** [open_netlink] when a connection exists. *)
Lemma open_netlink_reuse w l rc e c :
  nlc_counter_mtx (w_nlc w) = false ->
  nlconnection (w_nlc w) = Some c ->
  w_heap w !! l = Some (Obj rc (VEther e)) ->
  open_netlink (Loc l) w = Ret 1 (mark l rc e 1
    (if nlc_active e =? 0
     then set_nlc (MkNlc (Some c) (u32 (nlconnection_users (w_nlc w) + 1)) false) w
     else w)).
Proof.
  intros Hm Hc Hl. unfold open_netlink, mark.
  unfold get_nlconnection, set_nlc_active, pthread_mutex_lock,
    pthread_mutex_unlock, add_users, with_active.
  destruct w as [h n er x [cc u m] nl nn fd fs se k]. simpl in *. subst cc m.
  mrun. rewrite Hl. mrun.
  destruct (nlc_active e =? 0); mrun; by repeat (rewrite Hl; mrun).
Qed.
End netlink_eq.
