(* ===== verification/Objects.v ===== *)
(** * Destruction of Python objects

    [Py_DECREF] runs the type's [tp_dealloc] when a count reaches zero, which
    releases the object's fields in turn.  The two deallocators of the
    extension (netlink-address.c, etherinfo_obj.c) are written over the
    [Py_DECREF] they call; [Py_DECREF_fuel] ties the knot.  The fuel of
    [Py_DECREF] is the size of the heap: each nested deallocation works on an
    object that was alive and no longer is. *)
From S2P Require Import Prelude.
From S2P Require Import Platform.
From S2P Require Import CPython.
From S2P Require Import Netlink.

Section dealloc.
Context {K : Type} `{Platform K}.
Local Abbreviation M := (M K).

(** [PyObject_Del] and [tp_free]. *)
Definition PyObject_Del (p : ptr) : M unit :=
  l ← deref p; get_obj l;; modify (fun w => set_heap (delete l (w_heap w)) w).

Section with_decref.
Variable Py_DECREF : ptr -> M unit.

Definition Py_XDECREF_with (p : ptr) : M unit :=
  match p with Null => mret tt | _ => Py_DECREF p end.

(** netlink-address.c *)
Definition netlink_ip_address_dealloc (obj : ptr) : M unit :=
  a ← get_addr obj;
  Py_DECREF (local a);;
  Py_XDECREF_with (peer a);;
  Py_XDECREF_with (ipv4_broadcast a);;
  Py_XDECREF_with (scope a);;
  PyObject_Del obj.

(** etherinfo_obj.c *)
Definition _ethtool_etherinfo_dealloc (self : ptr) : M unit :=
  close_netlink self;;
  e ← get_ether self;
  Py_XDECREF_with (device e);;
  put_val self (VEther (MkEther Null (index e) (hwaddress e) (nlc_active e)));;
  Py_XDECREF_with (hwaddress e);;
  put_val self (VEther (MkEther Null (index e) Null (nlc_active e)));;
  PyObject_Del self.

(** The interpreter's containers release their items, the last first. *)
Fixpoint decref_all (ps : list ptr) : M unit :=
  match ps with
  | [] => mret tt
  | p :: ps => Py_XDECREF_with p;; decref_all ps
  end.

Definition tp_dealloc (p : ptr) : M unit :=
  v ← get_val p;
  match v with
  | VAddr _ => netlink_ip_address_dealloc p
  | VEther _ => _ethtool_etherinfo_dealloc p
  | VList items => decref_all (reverse items);; PyObject_Del p
  | VTuple items => decref_all (reverse items);; PyObject_Del p
  | VDict es => decref_all (es.*2);; PyObject_Del p
  | VStr _ | VInt _ | VOther | VSurrogates => PyObject_Del p
  end.
End with_decref.

Fixpoint Py_DECREF_fuel (n : nat) (p : ptr) : M unit :=
  match p with
  | PyNone => mret tt
  | _ =>
      l ← deref p;
      o ← get_obj l;
      put_obj l (Obj (ob_refcnt o - 1) (ob_val o));;
      if ob_refcnt o =? 1 then
        match n with
        | O => raise OutOfFuel
        | S n => tp_dealloc (Py_DECREF_fuel n) p
        end
      else mret tt
  end.

Definition Py_DECREF (p : ptr) : M unit := fun w =>
  Py_DECREF_fuel (size (w_heap w)) p w.

Definition Py_XDECREF (p : ptr) : M unit := Py_XDECREF_with Py_DECREF p.

(** [PyDict_SetItemString]: the dictionary takes a reference of its own; a
    value it replaces is released. *)
Definition PyDict_SetItemString (d : ptr) (k : string) (p : ptr) : M Z :=
  v ← peek d;
  match v with
  | VDict es =>
      Py_INCREF p;;
      put_val d (VDict (dict_set es k p));;
      match dict_get es k with
      | Some old => Py_XDECREF old
      | None => mret tt
      end;;
      mret 0
  | _ => PyErr_Internal PyExc_SystemError;; mret (-1)
  end.

(** Releasing what is no object. *)
Lemma Py_DECREF_Null (w : world K) : Py_DECREF Null w = Fault NullDeref.
Proof. unfold Py_DECREF. by destruct (size (w_heap w)). Qed.

Lemma Py_DECREF_Uninit (w : world K) : Py_DECREF Uninit w = Fault UninitUse.
Proof. unfold Py_DECREF. by destruct (size (w_heap w)). Qed.
End dealloc.
