(* ===== verification/Testbed.v ===== *)
(** * A concrete platform

    A simulated machine, scripted by a record of answers, on which the
    definitions run and the theorems' hypotheses are seen to hold. *)
From S2P Require Import Prelude.
From S2P Require Import Platform.
From S2P Require Import CPython.

Record machine := Machine {
  mc_socket : Z * Z;
  (** result, [errno], union and buffer left by a request on a name *)
  mc_ioctl : Z -> list byte -> list mbyte -> Z * Z * list byte * list mbyte;
  mc_ifaddrs : Z + list ifaddrs;
  mc_files : list (string * string);
  mc_malloc : option Z;
  mc_connect : list Z;   (** one answer after the other, then 0 *)
  mc_links : Z + list rtnl_link;
  mc_addrs : Z + list rtnl_addr;
  mc_nl_memory : bool;
}.

(** Cut or padded to a size. *)
Definition resize {A} (n : nat) (x : A) (l : list A) : list A :=
  take n (l ++ replicate n x).

Lemma length_resize {A} n (x : A) l : length (resize n x l) = n.
Proof. unfold resize. rewrite length_take, length_app, length_replicate. lia. Qed.

(** No UTF-8 text holds the byte 255. *)
Fixpoint no_byte_255 (s : string) : bool :=
  match s with
  | EmptyString => true
  | String c s => negb (Ascii.eqb c "255"%char) && no_byte_255 s
  end.

Lemma no_byte_255_ascii s : is_ascii s = true -> no_byte_255 s = true.
Proof.
  induction s as [|c s IH]; simpl; [done|].
  rewrite !andb_true_iff. intros [Hc Hs]. split; [|by apply IH].
  apply negb_true_iff, Ascii.eqb_neq. by intros ->.
Qed.

Definition text (s : string) : string :=
  if no_byte_255 (cstr s) then s else "?".

Fixpoint dotted (sep : string) (f : Z -> string) (bs : list byte) : string :=
  match bs with
  | [] => ""
  | [b] => f (byte_val b)
  | b :: bs => f (byte_val b) +:+ sep +:+ dotted sep f bs
  end.

Definition find_file (p : string) (fs : list (string * string)) : Z + string :=
  match List.find (fun f => String.eqb f.1 p) fs with
  | Some f => inr f.2
  | None => inl 2
  end.

Definition opt_eqb (o : option Z) (z : Z) : bool :=
  match o with Some x => x =? z | None => true end.

#[export] Instance machine_platform : Platform machine := {
  sys_socket k := (mc_socket k, k);
  sys_ioctl fd req r d k :=
    let '(ret, e, u, d') := mc_ioctl k req (ifr_name r) d in
    (IoctlReply ret e
       (Ifreq (ifr_name r) (resize (length (ifr_ifru r)) x00 u))
       (resize (length d) (Some x00) d'), k);
  sys_fcntl_cloexec k := ((0, 0), k);
  sys_getifaddrs k := (mc_ifaddrs k, k);
  sys_fopen p k := (find_file p (mc_files k), k);
  strerror e := "error " +:+ pretty e;
  py_malloc k := (mc_malloc k, k);
  utf8_valid := no_byte_255;
  nl_socket_alloc_ok k := (mc_nl_memory k, k);
  nl_connect_ret k :=
    match mc_connect k with
    | [] => (0, k)
    | r :: rs => (r, Machine (mc_socket k) (mc_ioctl k) (mc_ifaddrs k)
        (mc_files k) (mc_malloc k) rs (mc_links k) (mc_addrs k) (mc_nl_memory k))
    end;
  link_cache_reply b k := (if b then mc_links k else inl (-3), k);
  addr_cache_reply b k := (if b then mc_addrs k else inl (-3), k);
  rtnl_link_alloc_ok k := (mc_nl_memory k, k);
  rtnl_addr_alloc_ok k := (mc_nl_memory k, k);
  link_by_name ls n := List.find (fun l => String.eqb (rl_name l) n) ls;
  link_matches i l := opt_eqb i (rl_ifindex l);
  addr_matches i f a := opt_eqb i (ra_ifindex a) && opt_eqb f (ra_family a);
  nl_addr2str a n :=
    text (match a with
          | None => "none"
          | Some a =>
              if nla_family a =? AF_INET then dotted "." pretty (nla_binary a)
              else dotted ":" fmt_02x (nla_binary a)
          end);
  inet_ntop f b n :=
    if f =? AF_INET then inr (text (dotted "." pretty b))
    else if f =? AF_INET6 then inr (text (dotted ":" fmt_02x b))
    else inl 97;
  rtnl_scope2str z n := text (if z =? 0 then "global" else if z =? 254 then "host"
    else if z =? 253 then "link" else pretty z);
  nl_af2str z n := text (if z =? AF_INET then "inet" else if z =? AF_INET6
    then "inet6" else "unknown");
  nl_geterror z := "Error " +:+ pretty z;
}.

Lemma text_utf8 s : no_byte_255 (cstr (text s)) = true.
Proof. unfold text. by destruct (no_byte_255 (cstr s)) eqn:E. Qed.

#[export] Instance machine_laws : PlatformLaws machine.
Proof.
  split; simpl.
  - intros. by destruct (mc_ioctl _ _ _ _) as [[[]]].
  - intros. destruct (mc_ioctl _ _ _ _) as [[[]]]. apply length_resize.
  - intros. destruct (mc_ioctl _ _ _ _) as [[[]]]. apply length_resize.
  - intros ls n l [Hin He]%List.find_some. simpl in He.
    split; [by apply list_elem_of_In|by apply String.eqb_eq].
  - intros ls n l Hf Hin%list_elem_of_In He.
    pose proof (List.find_none _ _ Hf _ Hin) as Hn. simpl in Hn.
    apply String.eqb_neq in Hn. done.
  - intros i l. simpl. rewrite Z.eqb_eq. split; congruence.
  - intros i f a. rewrite andb_true_iff. simpl. rewrite !Z.eqb_eq.
    split; intros []; split; congruence.
  - apply no_byte_255_ascii.
  - intros. apply text_utf8.
  - intros. apply text_utf8.
  - intros f b n s. repeat (destruct (_ =? _)); intros [= <-]; apply text_utf8.
Qed.

(** A quiet machine: one Ethernet card and the loopback. *)
Definition lo_link : rtnl_link :=
  RtnlLink "lo" 1 (Some (NlAddr 1 (replicate 6 x00))).
Definition eth0_link : rtnl_link :=
  RtnlLink "eth0" 2 (Some (NlAddr 1 [x52; x54; x00; x12; x34; x56])).
Definition eth0_addr : rtnl_addr :=
  RtnlAddr 2 AF_INET (Some (NlAddr AF_INET [xc0; xa8; x01; x0a]))
    (Some (NlAddr AF_INET [xc0; xa8; x01; x0a]))
    (Some (NlAddr AF_INET [xc0; xa8; x01; xff])) 24 0.
Definition lo_addr : rtnl_addr :=
  RtnlAddr 1 AF_INET (Some (NlAddr AF_INET [x7f; x00; x00; x01]))
    None None 8 254.

Definition quiet : machine := {|
  mc_socket := (3, 0);
  mc_ioctl _ _ d := (-1, 95, [], d);
  mc_ifaddrs := inr [Ifaddrs "lo" IFF_UP; Ifaddrs "eth0" IFF_UP];
  mc_files := [];
  mc_malloc := Some 0;
  mc_connect := [];
  mc_links := inr [lo_link; eth0_link];
  mc_addrs := inr [lo_addr; eth0_addr];
  mc_nl_memory := true;
|}.

(** The world at start-up, on a given machine. *)
Definition boot {K} (k : K) : world K :=
  World ∅ 1 0 None nlc_init ∅ 1 ∅ 0 [] k.

(** The world after running something. *)
Definition world_after {K A} (m : M K A) (w : world K) : world K :=
  match m w with Ret _ w' => w' | Fault _ => w end.

Lemma world_after_wp {K A} (m : M K A) Q w : wp m Q w -> exists a, Q a (world_after m w).
Proof. unfold wp, world_after. destruct (m w) as [a w'|]; [by exists a|done]. Qed.

Definition refusing : machine := {|
  mc_socket := (3, 0);
  mc_ioctl _ _ d := (-1, 95, [], d);
  mc_ifaddrs := inr [];
  mc_files := [];
  mc_malloc := Some 0;
  mc_connect := [-12];
  mc_links := inr [lo_link; eth0_link];
  mc_addrs := inr [lo_addr; eth0_addr];
  mc_nl_memory := true;
|}.

(** A machine whose free memory is full of ones. *)
Definition with_malloc (g : option Z) (k : machine) : machine :=
  Machine (mc_socket k) (mc_ioctl k) (mc_ifaddrs k) (mc_files k) g
    (mc_connect k) (mc_links k) (mc_addrs k) (mc_nl_memory k).

(** A machine with a network card that answers requests.  Bytes of a buffer
    the caller left unset are filled with sevens; driver information names the
    driver and the bus. *)
Definition fill (d : list mbyte) : list mbyte :=
  (fun b => Some (default x07 b)) <$> d.

Definition c_array (n : nat) (s : string) : list mbyte :=
  Some <$> strncpy n s.

Definition card_ioctl (req : Z) (name : list byte) (d : list mbyte)
    : Z * Z * list byte * list mbyte :=
  if negb (bool_decide (name = strncpy 16 "eth0")) then (-1, ENODEV, [], d)
  else if req =? SIOCGIFHWADDR then
    (0, 0, [x01; x00; x52; x54; x00; x12; xab; xff], d)
  else if req =? SIOCGIFADDR then
    (0, 0, [x02; x00; x00; x00; xc0; xa8; x01; x0a], d)
  else if req =? SIOCGIFNETMASK then
    (0, 0, [x02; x00; x00; x00; xff; xff; xff; x00], d)
  else if req =? SIOCGIFBRDADDR then
    (0, 0, [x02; x00; x00; x00; xc0; xa8; x01; xff], d)
  else if req =? SIOCGIFFLAGS then (0, 0, [x43; x90], d)
  else if req =? SIOCETHTOOL then
    if bool_decide (take 1 d = [Some x03]) then
      (0, 0, [], take 4 d ++ c_array 32 "e1000e" ++ c_array 64 ""
         ++ c_array 32 "0000:00:19.0" ++ drop 132 d)
    else (0, 0, [], fill d)
  else (-1, 22, [], d).

Definition card : machine := {|
  mc_socket := (3, 0);
  mc_ioctl := card_ioctl;
  mc_ifaddrs := inl 12;
  mc_files := [];
  mc_malloc := Some 0;
  mc_connect := [];
  mc_links := inr [];
  mc_addrs := inr [];
  mc_nl_memory := true;
|}.

Definition with_file (path contents : string) (k : machine) : machine :=
  Machine (mc_socket k) (mc_ioctl k) (mc_ifaddrs k) ((path, contents) :: mc_files k)
    (mc_malloc k) (mc_connect k) (mc_links k) (mc_addrs k) (mc_nl_memory k).
