(* ===== verification/NetlinkSpec.v ===== *)
(** * The connection protocol of netlink.c

    The intended contract of the connection is a set of users: opening adds
    the object, closing removes it, and the connection exists exactly while the
    set is not empty.  This file shows that the code implements it when objects
    are created inactive, only active objects are closed and connecting
    succeeds ([nl_simulation]), and what happens otherwise. *)
From stdpp Require Import relations.
From S2P Require Import Prelude.
From S2P Require Import Platform.
From S2P Require Import CPython.
From S2P Require Import Netlink.
From S2P Require Import Testbed.

(** ** The objects flagged as users *)

Definition is_user (o : obj) : Prop :=
  match ob_val o with VEther e => nlc_active e <> 0 | _ => False end.

#[export] Instance is_user_dec o : Decision (is_user o).
Proof. unfold is_user. destruct (ob_val o); apply _. Defined.

Definition users_of (h : gmap positive obj) : gset positive :=
  dom (filter (fun kv => is_user kv.2) h).

Lemma elem_of_users h l :
  l ∈ users_of h <-> exists o, h !! l = Some o /\ is_user o.
Proof.
  unfold users_of. rewrite elem_of_dom. unfold is_Some.
  by setoid_rewrite map_lookup_filter_Some.
Qed.

Lemma users_insert h l o :
  users_of (<[l := o]> h)
    = if decide (is_user o) then {[l]} ∪ users_of h else users_of h ∖ {[l]}.
Proof.
  apply set_eq. intros i. case_decide as Ho.
  - rewrite elem_of_union, elem_of_singleton, !elem_of_users.
    destruct (decide (i = l)) as [->|Hi].
    + rewrite lookup_insert_eq. split; [by left|]. intros _. by exists o.
    + rewrite lookup_insert_ne by done. split; [by right|by intros [?|?]].
  - rewrite elem_of_difference, elem_of_singleton, !elem_of_users.
    destruct (decide (i = l)) as [->|Hi].
    + rewrite lookup_insert_eq. split; [|by intros []].
      by intros (o' & [= <-] & ?).
    + rewrite lookup_insert_ne by done. split; [done|by intros []].
Qed.

(** ** The contract, and when a world implements it *)

Inductive spec_step : gset positive -> gset positive -> Prop :=
  | spec_open U l : spec_step U ({[l]} ∪ U)
  | spec_close U l : l ∈ U -> spec_step U (U ∖ {[l]}).

Record implements {K} (w : world K) (U : gset positive) : Prop := {
  im_nl : wf_nl w;
  im_users : users_of (w_heap w) = U;
  im_count : nlconnection_users (w_nlc w) = Z.of_nat (size U);
  im_bound : Z.of_nat (size U) < 2 ^ 32;
  im_some c : nlconnection (w_nlc w) = Some c ->
    w_nl w !! c = Some (NlSock true) /\ U <> ∅;
  im_none : nlconnection (w_nlc w) = None -> U = ∅;
}.

Section protocol.
Context {K : Type} `{Platform K}.
Implicit Types (w : world K) (e : PyEtherInfo) (U : gset positive).

Lemma wf_nl_mark w l rc e b : wf_nl w -> wf_nl (mark l rc e b w).
Proof. intros [H1 H2 H3]. split; [exact H1|exact H2|exact H3]. Qed.

(** [open_netlink] when it establishes the connection. *)
Lemma open_netlink_first w l rc e k1 r k2 f en k3 :
  nlc_counter_mtx (w_nlc w) = false ->
  nlconnection (w_nlc w) = None ->
  w_heap w !! l = Some (Obj rc (VEther e)) ->
  nl_socket_alloc_ok (w_env w) = (true, k1) ->
  nl_connect_ret k1 = (r, k2) -> 0 <= r ->
  sys_fcntl_cloexec k2 = ((f, en), k3) ->
  open_netlink (Loc l) w = Ret 1 (mark l rc e 1
    (World (w_heap w) (w_next w) (if f =? -1 then en else w_errno w) (w_err w)
       (MkNlc (Some (w_nlnext w)) (u32 (nlconnection_users (w_nlc w) + 1)) false)
       (<[w_nlnext w := NlSock true]> (w_nl w)) (Pos.succ (w_nlnext w))
       (w_fds w) (w_files w)
       (if f =? -1 then w_stderr w ++ [cloexec_warning en] else w_stderr w) k3)).
Proof.
  intros Hm Hc Hl Ha Hr Hr0 Hf. unfold open_netlink, mark.
  unfold get_nlconnection, set_nlc_active, pthread_mutex_lock, set_nlconnection,
    pthread_mutex_unlock, add_users, nl_socket_alloc, nl_connect, fcntl_cloexec,
    eprint.
  destruct w as [h n er x [cc u m] nl nn fd fs se k]. simpl in *. subst cc m.
  mrun. rewrite Ha. mrun. rewrite Hr. mrun.
  assert ((r <? 0) = false) as -> by lia. mrun. rewrite lookup_insert_eq. mrun.
  assert ((r <? 0) = false) as -> by lia. mrun. rewrite Hf. mrun.
  destruct (f =? -1) eqn:Ef; mrun; rewrite Ef; mrun; repeat (rewrite Hl; mrun);
    by rewrite insert_insert_eq.
Qed.

(** [open_netlink] when connecting fails. *)
Lemma open_netlink_refused w l k1 r k2 :
  nlconnection (w_nlc w) = None ->
  nl_socket_alloc_ok (w_env w) = (true, k1) ->
  nl_connect_ret k1 = (r, k2) -> r < 0 ->
  open_netlink (Loc l) w = Ret 0
    (World (w_heap w) (w_next w) (w_errno w) (w_err w)
       (MkNlc (Some (w_nlnext w)) (nlconnection_users (w_nlc w))
          (nlc_counter_mtx (w_nlc w)))
       (<[w_nlnext w := NlSock false]> (w_nl w)) (Pos.succ (w_nlnext w))
       (w_fds w) (w_files w) (w_stderr w) k2).
Proof.
  intros Hc Ha Hr Hr0. unfold open_netlink.
  unfold get_nlconnection, set_nlconnection, nl_socket_alloc, nl_connect.
  destruct w as [h n er x [cc u m] nl nn fd fs se k]. simpl in *. subst cc.
  mrun. rewrite Ha. mrun. rewrite Hr. mrun.
  by rewrite !(proj2 (Z.ltb_lt r 0) Hr0).
Qed.

(** ... and when there is no memory for the socket. *)
Lemma open_netlink_nomem w l k1 :
  nlconnection (w_nlc w) = None ->
  nl_socket_alloc_ok (w_env w) = (false, k1) ->
  open_netlink (Loc l) w = Ret 0 (set_env k1 w).
Proof.
  intros Hc Ha. unfold open_netlink.
  unfold get_nlconnection, set_nlconnection, nl_socket_alloc, nl_connect.
  destruct w as [h n er x [cc u m] nl nn fd fs se k]. simpl in *. subst cc.
  mrun. by rewrite Ha.
Qed.

Lemma size_add_new U l : l ∉ U -> size ({[l]} ∪ U) = S (size U).
Proof. intros. rewrite size_union, size_singleton by set_solver. done. Qed.

Lemma size_remove U l : l ∈ U -> S (size (U ∖ {[l]})) = size U.
Proof.
  intros Hl. rewrite size_difference by set_solver. rewrite size_singleton.
  assert (size U <> 0)%nat; [|lia]. intros E%size_empty_inv. set_solver.
Qed.

(** A successful open adds a user. *)
Lemma open_implements w U l rc e w' :
  implements w U -> w_heap w !! l = Some (Obj rc (VEther e)) ->
  Z.of_nat (size U) < 2 ^ 32 - 1 ->
  open_netlink (Loc l) w = Ret 1 w' -> implements w' ({[l]} ∪ U).
Proof.
  intros [Hw Hu Hn Hm Hs Hz] Hl Hb Ho.
  assert (users_of (<[l := Obj rc (VEther (with_active 1 e))]> (w_heap w))
    = {[l]} ∪ U) as Hu'.
  { rewrite users_insert, decide_True by done. by rewrite Hu. }
  destruct (nlconnection (w_nlc w)) as [c|] eqn:Hc.
  - rewrite (open_netlink_reuse w l rc e c (wf_mtx _ Hw) Hc Hl) in Ho.
    injection Ho as <-. destruct (Hs c eq_refl) as [Hcon Hne].
    assert (l ∈ U <-> nlc_active e <> 0) as Hin.
    { rewrite <- Hu, elem_of_users, Hl. split; [by intros (? & [= <-] & ?)|by eauto]. }
    destruct (Z.eqb_spec (nlc_active e) 0) as [E|E].
    + split; simpl; [|exact Hu'| | | |done].
      * apply wf_nl_mark. destruct Hw as [H1 H2 H3].
        split; simpl; [done| |exact H3]. intros c' [= <-]. by exists true.
      * rewrite size_add_new by tauto. rewrite Hn, u32_small by lia. lia.
      * rewrite size_add_new by tauto. lia.
      * intros c' [= <-]. split; [done|set_solver].
    + assert ({[l]} ∪ U = U) as EU
        by (apply subseteq_union_1_L, singleton_subseteq_l, Hin, E).
      split; simpl; [by apply wf_nl_mark|exact Hu'|by rewrite EU..| |].
      * rewrite Hc. intros c' [= <-]. rewrite EU. done.
      * by rewrite Hc.
  - specialize (Hz eq_refl). subst U. rewrite Hz in *.
    destruct (nl_socket_alloc_ok (w_env w)) as [[] k1] eqn:Ha;
      [|by rewrite (open_netlink_nomem w l k1) in Ho].
    destruct (nl_connect_ret k1) as [r k2] eqn:Hr.
    destruct (decide (r < 0)) as [Hr0|Hr0];
      [by rewrite (open_netlink_refused w l k1 r k2) in Ho|].
    destruct (sys_fcntl_cloexec k2) as [[f en] k3] eqn:Hf.
    erewrite (open_netlink_first w l rc e) in Ho; [|apply Hw|done..|lia|done].
    injection Ho as <-. unfold mark. split; wcbn; [|exact Hu'| | | |done].
    + destruct Hw as [H1 H2 H3]. split; wcbn; [done| |].
      * intros c' [= <-]. rewrite lookup_insert_eq. by exists true.
      * intros c' o [[<- <-]|[? Ho]]%lookup_insert_Some; [lia|].
        apply H3 in Ho. lia.
    + rewrite size_add_new by set_solver. by rewrite Hn, size_empty.
    + rewrite size_add_new by set_solver. by rewrite size_empty.
    + intros c' [= <-]. rewrite lookup_insert_eq. split; [done|set_solver].
Qed.

(** Closing an active object removes it; the last one closes the connection. *)
Lemma close_implements w U l w' :
  implements w U -> l ∈ U -> close_netlink (Loc l) w = Ret tt w' ->
  implements w' (U ∖ {[l]}).
Proof.
  intros [Hw Hu Hn Hm Hs Hz] Hin Ho.
  destruct (proj1 (elem_of_users (w_heap w) l)) as ([rc v] & Hl & Ha);
    [by rewrite Hu|]. unfold is_user in Ha. simpl in Ha.
  destruct v as [| | | | | |e| |]; try done.
  rewrite (close_netlink_eq w l rc e Hw Hl) in Ho. injection Ho as <-.
  assert (users_of (<[l := Obj rc (VEther (with_active 0 e))]> (w_heap w))
    = U ∖ {[l]}) as Hu'.
  { rewrite users_insert, decide_False by (unfold is_user; simpl; lia).
    by rewrite Hu. }
  unfold closed. destruct (nlconnection (w_nlc w)) as [c|] eqn:Hc;
    [|specialize (Hz eq_refl); set_solver].
  destruct (Hs c eq_refl) as [Hcon Hne].
  pose proof (size_remove U l Hin) as Hsz.
  assert (u32 (nlconnection_users (w_nlc w) - 1)
    = Z.of_nat (size (U ∖ {[l]}))) as Hcnt by (rewrite u32_small; lia).
  rewrite Hcnt. destruct Hw as [H1 H2 H3].
  destruct (Z.ltb_spec 0 (Z.of_nat (size (U ∖ {[l]})))) as [Hpos|Hpos].
  - split; simpl; [|exact Hu'|done|lia| |done].
    + split; simpl; [done| |exact H3]. intros c' [= <-]. by exists true.
    + intros c' [= <-]. split; [done|]. intros E. rewrite E, size_empty in Hpos. lia.
  - split; simpl; [|exact Hu'|done|lia|done|].
    + split; simpl; [done|done|]. intros c' o [_ Ho]%lookup_delete_Some.
      by eapply H3.
    + intros _. apply leibniz_equiv, size_empty_inv. lia.
Qed.

End protocol.

(** ** What holds of the connection without any discipline

    The code closes the connection too early at times, never too late: while
    it stands there are users, and at most as many as objects are flagged. *)
Record conn_ok {K} (w : world K) : Prop := {
  co_nl : w_nl w = match nlconnection (w_nlc w) with
                   | Some c => {[c := NlSock true]}
                   | None => ∅
                   end;
  co_users : match nlconnection (w_nlc w) with
             | Some _ => 1 <= nlconnection_users (w_nlc w) < 2 ^ 32 /\
                 nlconnection_users (w_nlc w) <= Z.of_nat (size (users_of (w_heap w)))
             | None => nlconnection_users (w_nlc w) = 0
             end;
}.

Section conn.
Context {K : Type} `{Platform K}.
Implicit Types (w : world K) (e : PyEtherInfo).

Lemma conn_ok_boot (k : K) : conn_ok (boot k).
Proof. by split. Qed.

(** Only the statics, the libnl objects and the flags matter. *)
Lemma conn_ok_frame w w' :
  conn_ok w -> w_nlc w' = w_nlc w -> w_nl w' = w_nl w ->
  (size (users_of (w_heap w)) <= size (users_of (w_heap w')))%nat -> conn_ok w'.
Proof.
  intros [H1 H2] Ec En Hs. split; rewrite Ec; [by rewrite En|].
  destruct (nlconnection (w_nlc w)); [|done]. lia.
Qed.

(** Replacing an object by one flagged alike. *)
Lemma users_same h l o o' :
  h !! l = Some o -> (is_user o' <-> is_user o) -> users_of (<[l := o']> h) = users_of h.
Proof.
  intros Hl Hi. rewrite users_insert. apply set_eq. intros i.
  assert (l ∈ users_of h <-> is_user o) as Hu.
  { rewrite elem_of_users, Hl. split; [by intros (? & [= <-] & ?)|by eauto]. }
  case_decide; set_solver.
Qed.

Lemma users_delete h l o :
  h !! l = Some o -> ~ is_user o -> users_of (delete l h) = users_of h.
Proof.
  intros Hl Ho. apply set_eq. intros i. rewrite !elem_of_users.
  destruct (decide (i = l)) as [->|Hi].
  - rewrite lookup_delete_eq, Hl. naive_solver.
  - by rewrite lookup_delete_ne.
Qed.

Lemma users_insert_size h l o :
  (size (users_of h) <= S (size (users_of (<[l := o]> h))))%nat.
Proof.
  rewrite users_insert. case_decide.
  - apply Nat.le_le_succ_r, subseteq_size. set_solver.
  - destruct (decide (l ∈ users_of h)) as [Hl|Hl].
    + by rewrite size_remove.
    + apply Nat.le_le_succ_r, subseteq_size. set_solver.
Qed.

(** Closing, whoever does. *)
Lemma conn_ok_closed w l rc e :
  conn_ok w -> w_heap w !! l = Some (Obj rc (VEther e)) -> conn_ok (closed l rc e w).
Proof.
  intros [Hn Hu] Hl. unfold closed, mark.
  destruct (nlconnection (w_nlc w)) as [c|] eqn:Hc; [|by split; rewrite Hc].
  destruct Hu as [Hr Hs]. rewrite u32_small by lia.
  pose proof (users_insert_size (w_heap w) l (Obj rc (VEther (with_active 0 e)))) as Hsz.
  destruct (Z.ltb_spec 0 (nlconnection_users (w_nlc w) - 1)); split; simpl.
  - exact Hn.
  - lia.
  - rewrite Hn. apply delete_singleton_eq.
  - lia.
Qed.

(** Opening, when connecting succeeds. *)
Lemma conn_ok_open w l rc e w' :
  conn_ok w -> nlc_counter_mtx (w_nlc w) = false ->
  w_heap w !! l = Some (Obj rc (VEther e)) ->
  Z.of_nat (size (users_of (w_heap w'))) < 2 ^ 32 ->
  open_netlink (Loc l) w = Ret 1 w' -> conn_ok w'.
Proof.
  intros [Hn Hu] Hm Hl Hb Ho.
  assert (users_of (<[l := Obj rc (VEther (with_active 1 e))]> (w_heap w))
    = {[l]} ∪ users_of (w_heap w)) as Hu' by (by rewrite users_insert, decide_True).
  destruct (nlconnection (w_nlc w)) as [c|] eqn:Hc.
  - rewrite (open_netlink_reuse w l rc e c Hm Hc Hl) in Ho. injection Ho as <-.
    assert (l ∈ users_of (w_heap w) <-> nlc_active e <> 0) as Hin.
    { rewrite elem_of_users, Hl. split; [by intros (? & [= <-] & ?)|by eauto]. }
    unfold mark in *. destruct (Z.eqb_spec (nlc_active e) 0) as [E|E]; split; simpl in *.
    + exact Hn.
    + rewrite Hu' in *. rewrite size_add_new in * by tauto.
      rewrite u32_small by lia. lia.
    + by rewrite Hc.
    + rewrite Hc, Hu'. split; [lia|].
      assert (size (users_of (w_heap w)) <= size ({[l]} ∪ users_of (w_heap w)))%nat;
        [|lia]. apply subseteq_size. set_solver.
  - destruct (nl_socket_alloc_ok (w_env w)) as [[] k1] eqn:Ha;
      [|by rewrite (open_netlink_nomem w l k1) in Ho].
    destruct (nl_connect_ret k1) as [r k2] eqn:Hr.
    destruct (decide (r < 0)) as [Hr0|Hr0];
      [by rewrite (open_netlink_refused w l k1 r k2) in Ho|].
    destruct (sys_fcntl_cloexec k2) as [[f en] k3] eqn:Hf.
    erewrite (open_netlink_first w l rc e) in Ho; [|done..|lia|done].
    injection Ho as <-. unfold mark. split; simpl.
    + by rewrite Hn.
    + rewrite Hu, Hu'. change (u32 (0 + 1)) with 1. split; [lia|].
      assert (1 <= size ({[l]} ∪ users_of (w_heap w)))%nat; [|lia].
      change 1%nat with (S 0). rewrite <- (size_singleton (C := gset positive) l).
      apply subseteq_size. set_solver.
Qed.
End conn.

Section steps.
Context {K : Type} `{Platform K}.
Implicit Types (w : world K) (e : PyEtherInfo) (U : gset positive).

(** ** Steps of the program under the discipline *)

Inductive nl_step : world K -> world K -> Prop :=
  | step_new w w' g k :
      (* get_interfaces_info creates an object; its flag starts as 0 *)
      py_malloc (w_env w) = (Some g, k) -> u16 g = 0 ->
      w_heap w !! w_next w = None ->
      PyObject_New raw_ether w = Ret (Loc (w_next w)) w' ->
      nl_step w w'
  | step_open w w' l rc e :
      w_heap w !! l = Some (Obj rc (VEther e)) ->
      Z.of_nat (size (users_of (w_heap w))) < 2 ^ 32 - 1 ->
      open_netlink (Loc l) w = Ret 1 w' ->
      nl_step w w'
  | step_close w w' l :
      l ∈ users_of (w_heap w) ->
      close_netlink (Loc l) w = Ret tt w' ->
      nl_step w w'.

Lemma nl_step_simulated w w' U :
  nl_step w w' -> implements w U ->
  exists U', rtc spec_step U U' /\ implements w' U'.
Proof.
  intros Hs Hi. destruct Hs as [w w' g k Hg Hz Hf Ho|w w' l rc e Hl Hb Ho|w w' l Hl Ho].
  - exists U. split; [done|]. unfold PyObject_New in Ho. mrun in Ho.
    destruct Hi as [[H1 H2 H3] Hu Hn Hm Hs Hnone].
    destruct w. simpl in *. rewrite Hg in Ho. injection Ho as <-.
    split; simpl; [by split| |done..].
    rewrite users_insert, decide_False by (unfold is_user; simpl; lia).
    rewrite Hu. apply difference_disjoint_L.
    apply disjoint_singleton_r. rewrite <- Hu, elem_of_users, Hf. by intros (? & ? & ?).
  - exists ({[l]} ∪ U). rewrite (im_users _ _ Hi) in Hb.
    split; [apply rtc_once; constructor|by eapply open_implements].
  - rewrite (im_users _ _ Hi) in Hl. exists (U ∖ {[l]}).
    split; [by apply rtc_once; constructor|by eapply close_implements].
Qed.
End steps.

(** ** Properties *)

Section properties.
Context {K : Type} `{Platform K}.
Implicit Types (w : world K) (e : PyEtherInfo) (U : gset positive).

(** C6: netlink.c refines the set of users, under a discipline.  Along any run of
    creations of objects whose flag starts as 0 (memory may have another there,
    which [get_interfaces_info] does not clear), of opens that succeed, while
    fewer than 2^32 - 1 objects are users, and of closes of users, the connection
    state implements a run of the abstract contract: the count is the number of
    users, and a connected socket exists exactly while there is one. *)
Theorem nl_simulation w w' U :
  rtc nl_step w w' -> implements w U ->
  exists U', rtc spec_step U U' /\ implements w' U'.
Proof.
  intros Hr. revert U. induction Hr as [w|w w1 w' Hs Hr IH]; intros U Hi.
  - by exists U.
  - destruct (nl_step_simulated _ _ _ Hs Hi) as (U1 & Hs1 & Hi1).
    destruct (IH _ Hi1) as (U' & Hs' & Hi'). exists U'. split; [|done].
    by etransitivity.
Qed.

(** C25: opening is safe from any sound state: no fault and no deadlock, the
    mutex is released, and a result of 1 means that [get_nlc] has a connection
    to return and that the object is flagged as a user. *)
Theorem open_netlink_sound w l rc e :
  wf_nl w -> w_heap w !! l = Some (Obj rc (VEther e)) ->
  wp (open_netlink (Loc l)) (fun r w' =>
    wf_nl w' /\ (r = 0 \/ r = 1 /\ l ∈ users_of (w_heap w')
      /\ exists c, get_nlc w' = Ret c w')) w.
Proof.
  intros Hw Hl.
  assert (forall rc e h, l ∈ users_of (<[l := Obj rc (VEther (with_active 1 e))]> h))
    as Hu by (intros; rewrite users_insert, decide_True by done; set_solver).
  destruct (nlconnection (w_nlc w)) as [c|] eqn:Hc.
  - unfold wp. rewrite (open_netlink_reuse w l rc e c (wf_mtx _ Hw) Hc Hl).
    destruct (wf_conn _ Hw c Hc) as [b Hb]. destruct Hw as [H1 H2 H3].
    split; [|right; split; [done|split; [apply Hu|exists c]]].
    + apply wf_nl_mark. destruct (_ =? _); [|by split].
      split; [done| |exact H3]. intros c' [= <-]. by exists b.
    + unfold get_nlc, get_nlconnection. mrun. destruct (_ =? _); [done|].
      destruct w as [h n er x [cc u m] nl nn fd fs se k]; simpl in *. by subst cc.
  - destruct (nl_socket_alloc_ok (w_env w)) as [[] k1] eqn:Ha; unfold wp;
      [|rewrite (open_netlink_nomem w l k1) by done; split; [by destruct Hw|by left]].
    destruct (nl_connect_ret k1) as [r k2] eqn:Hr.
    assert (forall c o, <[w_nlnext w := NlSock false]> (w_nl w) !! c = Some o ->
      (c < Pos.succ (w_nlnext w))%positive) as Hfr.
    { intros c o [[<- <-]|[? Ho]]%lookup_insert_Some; [lia|].
      apply (wf_nlfresh _ Hw) in Ho. lia. }
    destruct (decide (r < 0)) as [Hr0|Hr0].
    + rewrite (open_netlink_refused w l k1 r k2) by done. split; [|by left].
      destruct Hw as [H1 H2 H3]. split; wcbn; [done| |exact Hfr].
      intros c' [= <-]. rewrite lookup_insert_eq. by exists false.
    + destruct (sys_fcntl_cloexec k2) as [[f en] k3] eqn:Hf.
      erewrite (open_netlink_first w l rc e); [|apply Hw|done..|lia|done].
      split; [apply wf_nl_mark; split; wcbn; [done| |]|right].
      * intros c' [= <-]. rewrite lookup_insert_eq. by exists true.
      * intros c' o [[<- <-]|[? Ho]]%lookup_insert_Some; [lia|].
        apply (wf_nlfresh _ Hw) in Ho. lia.
      * split; [done|]. split; [apply Hu|by exists (w_nlnext w)].
Qed.

(** C37: closing does not look at the flag.  When an [etherinfo] object that
    never used NETLINK is destroyed while one other object uses it, the
    connection is closed under the other object's feet. *)
Theorem unused_close_disconnects w U l rc e :
  implements w U -> size U = 1%nat -> l ∉ U ->
  w_heap w !! l = Some (Obj rc (VEther e)) ->
  wp (close_netlink (Loc l)) (fun _ w' =>
    nlconnection (w_nlc w') = None /\ users_of (w_heap w') = U) w.
Proof.
  intros [Hw Hu Hn Hm Hs Hz] H1 Hin Hl. unfold wp.
  rewrite (close_netlink_eq w l rc e Hw Hl). unfold closed.
  destruct (nlconnection (w_nlc w)) as [c|] eqn:Hc;
    [|specialize (Hz eq_refl); subst U; rewrite Hz, size_empty in H1; done].
  rewrite Hn, H1. simpl. split; [done|].
  rewrite users_insert, decide_False by (unfold is_user; simpl; lia).
  rewrite Hu. apply difference_disjoint_L. set_solver.
Qed.

(** C38: a refused connection is not forgotten.  After [open_netlink] fails in
    [nl_connect], the next call on any object reports success although the
    socket is not connected. *)
Theorem refused_connection_reused w l l' rc e k1 r k2 :
  wf_nl w -> nlconnection (w_nlc w) = None ->
  w_heap w !! l' = Some (Obj rc (VEther e)) ->
  nl_socket_alloc_ok (w_env w) = (true, k1) -> nl_connect_ret k1 = (r, k2) ->
  r < 0 ->
  wp (r0 ← open_netlink (Loc l); r1 ← open_netlink (Loc l'); mret (r0, r1))
    (fun p w' => p = (0, 1) /\ exists c, nlconnection (w_nlc w') = Some c
      /\ w_nl w' !! c = Some (NlSock false)) w.
Proof.
  intros Hw Hc Hl Ha Hr Hr0.
  eapply wp_step; [by apply (open_netlink_refused w l k1 r k2)|]. cbn beta.
  eapply wp_step.
  { apply (open_netlink_reuse _ l' rc e (w_nlnext w)); [apply Hw|done|exact Hl]. }
  split; [done|]. exists (w_nlnext w).
  destruct (_ =? _); (split; [done|apply lookup_insert_eq]).
Qed.

(** ... and the count wraps around.  When the first object fails to connect
    and is destroyed, the [unsigned int] goes from 0 to 2^32 - 1 and the socket
    is never freed. *)
Theorem refused_connection_underflow w l rc e k1 r k2 :
  wf_nl w -> nlconnection (w_nlc w) = None -> nlconnection_users (w_nlc w) = 0 ->
  w_heap w !! l = Some (Obj rc (VEther e)) ->
  nl_socket_alloc_ok (w_env w) = (true, k1) -> nl_connect_ret k1 = (r, k2) ->
  r < 0 ->
  wp (open_netlink (Loc l);; close_netlink (Loc l)) (fun _ w' =>
    nlconnection_users (w_nlc w') = 2 ^ 32 - 1
    /\ nlconnection (w_nlc w') = Some (w_nlnext w)) w.
Proof.
  intros Hw Hc Hu Hl Ha Hr Hr0.
  eapply wp_step; [by apply (open_netlink_refused w l k1 r k2)|].
  unfold wp. rewrite (close_netlink_eq _ l rc e).
  - unfold closed. simpl. by rewrite Hu.
  - destruct Hw as [H1 H2 H3]. split; wcbn; [done| |].
    + intros c' [= <-]. rewrite lookup_insert_eq. by exists false.
    + intros c' o [[<- <-]|[? Ho]]%lookup_insert_Some; [lia|]. apply H3 in Ho. lia.
  - exact Hl.
Qed.

(** A new object is not inactive.  [get_interfaces_info] never sets
    [nlc_active]; when the memory of a new object holds something else than 0
    there, its opening is not counted but its closing is, and the only other
    user loses the connection. *)
Theorem garbage_flag_disconnects w U g k :
  implements w U -> size U = 1%nat -> w_heap w !! w_next w = None ->
  py_malloc (w_env w) = (Some g, k) -> u16 g <> 0 ->
  wp (p ← PyObject_New raw_ether; r ← open_netlink p; close_netlink p;; mret r)
    (fun r w' => r = 1 /\ nlconnection (w_nlc w') = None
      /\ users_of (w_heap w') = U) w.
Proof.
  intros [Hw Hu Hn Hm Hs Hz] H1 Hf Hg Hz'.
  destruct (nlconnection (w_nlc w)) as [c|] eqn:Hc;
    [|specialize (Hz eq_refl); subst U; rewrite Hz, size_empty in H1; done].
  destruct (Hs c eq_refl) as [Hcon _].
  set (e := MkEther Uninit g Uninit (u16 g)).
  set (w1 := set_next (Pos.succ (w_next w)) (set_heap
    (<[w_next w := Obj 1 (VEther e)]> (w_heap w)) (set_env k w))).
  eapply wp_step.
  { instantiate (1 := w1). instantiate (1 := Loc (w_next w)).
    unfold PyObject_New. mrun. destruct w; simpl in *. by rewrite Hg. }
  assert (wf_nl w1) as Hw1 by (destruct Hw as [? H2' ?]; by split).
  eapply wp_step.
  { apply (open_netlink_reuse w1 _ 1 e c); [apply Hw1|exact Hc|].
    apply lookup_insert_eq. }
  rewrite (proj2 (Z.eqb_neq (nlc_active e) 0) Hz').
  eapply wp_step.
  { apply (close_netlink_eq _ (w_next w) 1 (with_active 1 e)).
    - by apply wf_nl_mark.
    - apply lookup_insert_eq. }
  apply wp_ret. split; [done|]. unfold closed. simpl. rewrite Hc, Hn, H1. simpl.
  split; [done|]. rewrite !insert_insert_eq.
  rewrite users_insert, decide_False by (unfold is_user; simpl; lia).
  rewrite Hu. apply difference_disjoint_L.
  apply disjoint_singleton_r. rewrite <- Hu, elem_of_users, Hf. by intros (? & ? & ?).
Qed.
End properties.

(** ** The hypotheses hold: concrete runs *)

Definition new_object : M machine ptr := PyObject_New raw_ether.

(** One object, not a user yet; the same after it opened; a second object. *)
Definition one_object : world machine := Eval vm_compute in world_after new_object (boot quiet).
Definition one_user : world machine := Eval vm_compute in world_after (open_netlink (Loc 1)) one_object.
Definition user_and_idle : world machine := Eval vm_compute in world_after new_object one_user.
Definition closed_again : world machine := Eval vm_compute in
  world_after (close_netlink (Loc 1)) one_user.
Definition refused_object : world machine := Eval vm_compute in world_after new_object (boot refusing).

Lemma boot_implements (k : machine) : implements (boot k) ∅.
Proof. by split. Qed.

Lemma wf_nl_one_object : wf_nl one_object.
Proof. by split. Qed.

Lemma wf_nl_refused_object : wf_nl refused_object.
Proof. by split. Qed.

Lemma one_user_implements : implements one_user {[1%positive]}.
Proof.
  split; [split|..].
  - reflexivity.
  - intros c [= <-]. by exists true.
  - intros c o Ho.
    change ((<[1%positive := NlSock true]> ∅ : gmap positive nlobj) !! c = Some o) in Ho.
    apply lookup_insert_Some in Ho as [[<- <-]|[? Ho]]; [reflexivity|].
    by rewrite lookup_empty in Ho.
  - reflexivity.
  - reflexivity.
  - reflexivity.
  - intros c [= <-]. split; [reflexivity|set_solver].
  - done.
Qed.

Lemma user_and_idle_implements : implements user_and_idle {[1%positive]}.
Proof.
  destruct one_user_implements as [[] ? ? ? ? ?]. by split; [split|..].
Qed.

Lemma nl_simulation_witness :
  rtc nl_step (boot quiet) closed_again
  /\ exists U', rtc spec_step ∅ U' /\
       implements closed_again U'.
Proof.
  assert (rtc nl_step (boot quiet) closed_again) as Hr.
  { eapply rtc_l; [|eapply rtc_l; [|eapply rtc_l; [|apply rtc_refl]]].
    - apply (step_new _ one_object 0 quiet); reflexivity.
    - apply (step_open _ one_user 1 1 (MkEther Uninit 0 Uninit 0)); reflexivity.
    - apply (step_close _ _ 1); [|reflexivity].
      rewrite (im_users _ _ one_user_implements). set_solver. }
  split; [exact Hr|].
  apply (nl_simulation (boot quiet) _ ∅ Hr (boot_implements quiet)).
Defined.

Lemma open_netlink_sound_witness :
  wp (open_netlink (Loc 1)) (fun r w' =>
    wf_nl w' /\ (r = 0 \/ r = 1 /\ 1%positive ∈ users_of (w_heap w')
      /\ exists c, get_nlc w' = Ret c w')) one_object.
Proof.
  apply (open_netlink_sound one_object 1 1 (MkEther Uninit 0 Uninit 0)).
  - apply wf_nl_one_object.
  - reflexivity.
Defined.

Lemma unused_close_disconnects_witness :
  wp (close_netlink (Loc 2)) (fun _ w' =>
    nlconnection (w_nlc w') = None /\ users_of (w_heap w') = {[1%positive]})
    user_and_idle.
Proof.
  apply (unused_close_disconnects user_and_idle {[1%positive]} 2 1
    (MkEther Uninit 0 Uninit 0)).
  - apply user_and_idle_implements.
  - apply size_singleton.
  - set_solver.
  - reflexivity.
Defined.

Lemma refused_connection_reused_witness :
  wp (r0 ← open_netlink (Loc 1); r1 ← open_netlink (Loc 1); mret (r0, r1))
    (fun p w' => p = (0, 1) /\ exists c, nlconnection (w_nlc w') = Some c
      /\ w_nl w' !! c = Some (NlSock false)) refused_object.
Proof.
  apply (refused_connection_reused refused_object 1 1 1
    (MkEther Uninit 0 Uninit 0) refusing (-12)
    (nl_connect_ret refusing).2); try reflexivity.
  apply wf_nl_refused_object.
Defined.

Lemma refused_connection_underflow_witness :
  wp (open_netlink (Loc 1);; close_netlink (Loc 1)) (fun _ w' =>
    nlconnection_users (w_nlc w') = 2 ^ 32 - 1
    /\ nlconnection (w_nlc w') = Some 1%positive) refused_object.
Proof.
  apply (refused_connection_underflow refused_object 1 1
    (MkEther Uninit 0 Uninit 0) refusing (-12)
    (nl_connect_ret refusing).2); try reflexivity.
  apply wf_nl_refused_object.
Defined.

Definition one_user_dirty : world machine := Eval vm_compute in
  set_env (with_malloc (Some (-1)) quiet) one_user.

Lemma garbage_flag_disconnects_witness :
  wp (p ← PyObject_New raw_ether; r ← open_netlink p; close_netlink p;; mret r)
    (fun r w' => r = 1 /\ nlconnection (w_nlc w') = None
      /\ users_of (w_heap w') = {[1%positive]}) one_user_dirty.
Proof.
  apply (garbage_flag_disconnects one_user_dirty {[1%positive]} (-1)
    (with_malloc (Some (-1)) quiet)).
  - destruct one_user_implements as [[] ? ? ? ? ?]. by split; [split|..].
  - apply size_singleton.
  - reflexivity.
  - reflexivity.
  - done.
Defined.
