(* ===== verification/RefCount.v ===== *)
(** * Reference counting

    [wf w rho]: in the world [w] the count of every object is the number of
    fields of live objects that point to it plus its occurrences in the
    multiset [rho] of references held from outside the heap (by the C code that
    runs and by the interpreter).  A C function is balanced when it takes
    [wf w rho] to [wf w' (ptr_refs r ⊎ rho)], [r] being the new reference it
    returns; a reference that stays in the multiset without an owner is a leak.

    The main theorem is that releasing a reference that is held is always
    defined, ends within the fuel, and keeps [wf]. *)
From S2P Require Import Prelude.
From S2P Require Import Platform.
From S2P Require Import CPython.
From S2P Require Import Netlink.
From S2P Require Import Objects.
From S2P Require Import Testbed.
From S2P Require Import NetlinkSpec.

(** ** References held by values and heaps *)

Definition ptr_refs (p : ptr) : gmultiset positive :=
  match p with Loc l => {[+ l +]} | _ => ∅ end.

Fixpoint ptrs_refs (ps : list ptr) : gmultiset positive :=
  match ps with
  | [] => ∅
  | p :: ps => ptr_refs p ⊎ ptrs_refs ps
  end.

Definition val_ptrs (v : pyval) : list ptr :=
  match v with
  | VList items | VTuple items => items
  | VDict es => es.*2
  | VAddr a => [local a; peer a; ipv4_broadcast a; scope a]
  | VEther e => [device e; hwaddress e]
  | VStr _ | VInt _ | VOther | VSurrogates => []
  end.

Definition val_refs (v : pyval) : gmultiset positive := ptrs_refs (val_ptrs v).

(** An object whose count is zero is being destroyed: its fields belong to its
    deallocator. *)
Definition obj_refs (o : obj) : gmultiset positive :=
  if 0 <? ob_refcnt o then val_refs (ob_val o) else ∅.

Definition heap_refs (h : gmap positive obj) : gmultiset positive :=
  map_fold (fun _ o acc => obj_refs o ⊎ acc) ∅ h.

Definition refcnt_of (h : gmap positive obj) (l : positive) : Z :=
  from_option ob_refcnt 0 (h !! l).

(** ** Well-formed values, heaps, worlds *)

(** A reference that is there: not [NULL], not a field never set. *)
Definition is_ref (p : ptr) : Prop :=
  match p with Loc _ | PyNone => True | _ => False end.

Definition is_ref_or_null (p : ptr) : Prop :=
  match p with Uninit => False | _ => True end.

Definition val_ok (v : pyval) : Prop :=
  match v with
  | VAddr a => is_ref (local a) /\ is_ref_or_null (peer a)
      /\ is_ref_or_null (ipv4_broadcast a) /\ is_ref_or_null (scope a)
  | VEther e => is_ref_or_null (device e) /\ is_ref_or_null (hwaddress e)
  | _ => Forall is_ref (val_ptrs v)
  end.

Record wf_heap (h : gmap positive obj) (next : positive)
    (rho : gmultiset positive) : Prop := {
  wf_fresh l o : h !! l = Some o -> (l < next)%positive;
  wf_pos l o : h !! l = Some o -> 0 <= ob_refcnt o;
  wf_val l o : h !! l = Some o -> 0 < ob_refcnt o -> val_ok (ob_val o);
  wf_count l : refcnt_of h l = Z.of_nat (multiplicity l (heap_refs h ⊎ rho));
}.

Record wf {K} (w : world K) (rho : gmultiset positive) : Prop := {
  wf_hp : wf_heap (w_heap w) (w_next w) rho;
  wf_netlink : wf_nl w;
}.

(** ** Lemmas on references *)

Lemma ptrs_refs_app ps qs : ptrs_refs (ps ++ qs) = ptrs_refs ps ⊎ ptrs_refs qs.
Proof. induction ps; simpl; multiset_solver. Qed.

Lemma ptrs_refs_reverse ps : ptrs_refs (reverse ps) = ptrs_refs ps.
Proof.
  induction ps as [|p ps IH]; [done|].
  rewrite reverse_cons, ptrs_refs_app, IH. simpl. multiset_solver.
Qed.

Lemma heap_refs_empty : heap_refs ∅ = ∅.
Proof. apply map_fold_empty. Qed.

Lemma heap_refs_insert h l o :
  h !! l = None -> heap_refs (<[l := o]> h) = obj_refs o ⊎ heap_refs h.
Proof.
  intros. unfold heap_refs. rewrite map_fold_insert_L; [done| |done].
  intros. multiset_solver.
Qed.

Lemma heap_refs_delete h l o :
  h !! l = Some o -> heap_refs h = obj_refs o ⊎ heap_refs (delete l h).
Proof.
  intros. rewrite <- (heap_refs_insert _ l) by apply lookup_delete_eq.
  by rewrite insert_delete_id.
Qed.

Lemma heap_refs_update h l o o' :
  h !! l = Some o ->
  obj_refs o ⊎ heap_refs (<[l := o']> h) = obj_refs o' ⊎ heap_refs h.
Proof.
  intros Hl. rewrite (heap_refs_delete h l o) by done.
  rewrite <- (insert_delete_eq h l o').
  rewrite heap_refs_insert by apply lookup_delete_eq. multiset_solver.
Qed.

Lemma refcnt_of_insert h l o l' :
  refcnt_of (<[l := o]> h) l' = if decide (l = l') then ob_refcnt o else refcnt_of h l'.
Proof. unfold refcnt_of. rewrite lookup_insert. by case_decide. Qed.

Lemma refcnt_of_Some h l o : h !! l = Some o -> refcnt_of h l = ob_refcnt o.
Proof. unfold refcnt_of. by intros ->. Qed.

(** The multiset matters up to equality only. *)
Lemma wf_heap_eq h n rho rho' : wf_heap h n rho -> rho = rho' -> wf_heap h n rho'.
Proof. by intros ? <-. Qed.

Lemma wf_eq {K} (w : world K) rho rho' : wf w rho -> rho = rho' -> wf w rho'.
Proof. by intros ? <-. Qed.

(** ** How the heap primitives move references *)

Section wf_heap.
Implicit Types (h : gmap positive obj) (rho : gmultiset positive).

(** A reference that is held points to a live object. *)
Lemma wf_held h n l rho :
  wf_heap h n ({[+ l +]} ⊎ rho) -> exists o, h !! l = Some o /\ 0 < ob_refcnt o.
Proof.
  intros Hw. pose proof (wf_count _ _ _ Hw l) as Hc.
  rewrite !multiplicity_disj_union, multiplicity_singleton_eq in Hc.
  unfold refcnt_of in Hc. destruct (h !! l) as [o|]; cbn [from_option] in Hc; [|lia].
  exists o. split; [done|lia].
Qed.

(** So does a field of a live object. *)
Lemma wf_field h n l o p rho :
  wf_heap h n rho -> h !! l = Some o -> 0 < ob_refcnt o ->
  p ∈ val_refs (ob_val o) -> exists o', h !! p = Some o' /\ 0 < ob_refcnt o'.
Proof.
  intros Hw Hl Ho Hp. pose proof (wf_count _ _ _ Hw p) as Hc.
  rewrite (heap_refs_delete h l o) in Hc by done. unfold obj_refs in Hc.
  rewrite (proj2 (Z.ltb_lt _ _) Ho) in Hc.
  rewrite !multiplicity_disj_union in Hc.
  pose proof (proj1 (elem_of_multiplicity _ _) Hp) as Hp'.
  unfold refcnt_of in Hc. destruct (h !! p) as [o'|]; cbn [from_option] in Hc; [|lia].
  exists o'. split; [done|lia].
Qed.

Lemma wf_alloc h n v rho :
  wf_heap h n (val_refs v ⊎ rho) -> val_ok v ->
  wf_heap (<[n := Obj 1 v]> h) (Pos.succ n) ({[+ n +]} ⊎ rho).
Proof.
  intros Hw Hv.
  assert (h !! n = None) as Hn.
  { destruct (h !! n) eqn:E; [|done]. apply (wf_fresh _ _ _ Hw) in E. lia. }
  split.
  - intros l o [[<- <-]|[? Hl]]%lookup_insert_Some; [lia|].
    apply (wf_fresh _ _ _ Hw) in Hl. lia.
  - intros l o [[<- <-]|[? Hl]]%lookup_insert_Some; [simpl; lia|].
    by apply (wf_pos _ _ _ Hw) in Hl.
  - intros l o [[<- <-]|[? Hl]]%lookup_insert_Some; [done|].
    by apply (wf_val _ _ _ Hw l).
  - intros l. rewrite refcnt_of_insert, heap_refs_insert by done.
    pose proof (wf_count _ _ _ Hw l) as Hc.
    rewrite !multiplicity_disj_union in *. unfold obj_refs; simpl.
    case_decide as E.
    + subst l. unfold refcnt_of in Hc. rewrite Hn in Hc. simpl in Hc.
      rewrite multiplicity_singleton_eq. lia.
    + rewrite multiplicity_singleton_ne by done. lia.
Qed.

(** Changing one object.  [vout] are the references its fields give up, [vin]
    those they take over; the count moves by [d]. *)
Lemma wf_update h n l o o' rho rho' :
  wf_heap h n rho -> h !! l = Some o ->
  0 <= ob_refcnt o' -> (0 < ob_refcnt o' -> val_ok (ob_val o')) ->
  (forall p, Z.of_nat (multiplicity p rho')
     = Z.of_nat (multiplicity p rho) + Z.of_nat (multiplicity p (obj_refs o))
       - Z.of_nat (multiplicity p (obj_refs o'))
       + (if decide (p = l) then ob_refcnt o' - ob_refcnt o else 0)) ->
  wf_heap (<[l := o']> h) n rho'.
Proof.
  intros Hw Hl Hp Hv Hr. split.
  - intros l' o1 [[<- <-]|[? Hl']]%lookup_insert_Some.
    + by apply (wf_fresh _ _ _ Hw) in Hl.
    + by apply (wf_fresh _ _ _ Hw) in Hl'.
  - intros l' o1 [[<- <-]|[? Hl']]%lookup_insert_Some; [done|].
    by apply (wf_pos _ _ _ Hw) in Hl'.
  - intros l' o1 [[<- <-]|[? Hl']]%lookup_insert_Some; [done|].
    by apply (wf_val _ _ _ Hw l').
  - intros p. specialize (Hr p). pose proof (wf_count _ _ _ Hw p) as Hc.
    pose proof (f_equal (multiplicity p) (heap_refs_update h l o o' Hl)) as Hu.
    rewrite refcnt_of_insert. rewrite !multiplicity_disj_union in *.
    destruct (decide (l = p)) as [<-|E].
    + rewrite (refcnt_of_Some _ _ _ Hl) in Hc.
      rewrite decide_True in Hr by done. lia.
    + rewrite decide_False in Hr by done. lia.
Qed.

Lemma wf_incref h n l o rho :
  wf_heap h n rho -> h !! l = Some o -> 0 < ob_refcnt o ->
  wf_heap (<[l := Obj (ob_refcnt o + 1) (ob_val o)]> h) n ({[+ l +]} ⊎ rho).
Proof.
  intros Hw Hl Ho. eapply wf_update; [done..| | |].
  - simpl; lia.
  - intros _. simpl. by apply (wf_val _ _ _ Hw l o).
  - intros p. rewrite multiplicity_disj_union, multiplicity_singleton.
    unfold obj_refs; simpl.
    rewrite (proj2 (Z.ltb_lt _ _) Ho), (proj2 (Z.ltb_lt 0 _)) by lia.
    case_decide; lia.
Qed.

(** Giving a reference up, when others remain ... *)
Lemma wf_decref_live h n l o rho :
  wf_heap h n ({[+ l +]} ⊎ rho) -> h !! l = Some o -> 1 < ob_refcnt o ->
  wf_heap (<[l := Obj (ob_refcnt o - 1) (ob_val o)]> h) n rho.
Proof.
  intros Hw Hl Ho. eapply wf_update; [done..| | |].
  - simpl; lia.
  - intros _. simpl. apply (wf_val _ _ _ Hw l o); [done|lia].
  - intros p. rewrite multiplicity_disj_union, multiplicity_singleton.
    unfold obj_refs; simpl.
    rewrite !(proj2 (Z.ltb_lt 0 _)) by lia. case_decide; lia.
Qed.

(** ... and when it is the last: the fields now belong to the deallocator. *)
Lemma wf_decref_last h n l o rho :
  wf_heap h n ({[+ l +]} ⊎ rho) -> h !! l = Some o -> ob_refcnt o = 1 ->
  wf_heap (<[l := Obj 0 (ob_val o)]> h) n (val_refs (ob_val o) ⊎ rho).
Proof.
  intros Hw Hl Ho. eapply wf_update; [done..| | |].
  - simpl; lia.
  - simpl; lia.
  - intros p. rewrite !multiplicity_disj_union, multiplicity_singleton.
    unfold obj_refs; simpl. rewrite Ho, multiplicity_empty. simpl.
    case_decide; lia.
Qed.

(** Changing the fields of a live object. *)
Lemma wf_put_val h n l o v rho :
  wf_heap h n (val_refs v ⊎ rho) -> h !! l = Some o -> 0 < ob_refcnt o ->
  val_ok v ->
  wf_heap (<[l := Obj (ob_refcnt o) v]> h) n (val_refs (ob_val o) ⊎ rho).
Proof.
  intros Hw Hl Ho Hv. eapply wf_update; [done..| | |].
  - simpl; lia.
  - done.
  - intros p. rewrite !multiplicity_disj_union. unfold obj_refs; simpl.
    rewrite !(proj2 (Z.ltb_lt 0 _)) by lia. case_decide; lia.
Qed.

(** An object being destroyed may change and disappear freely. *)
Lemma wf_put_dead h n l o v rho :
  wf_heap h n rho -> h !! l = Some o -> ob_refcnt o = 0 ->
  wf_heap (<[l := Obj 0 v]> h) n rho.
Proof.
  intros Hw Hl Ho. eapply wf_update; [done..| | |].
  - simpl; lia.
  - simpl; lia.
  - intros p. unfold obj_refs; simpl. rewrite Ho. simpl.
    rewrite multiplicity_empty. case_decide; lia.
Qed.

Lemma wf_delete_dead h n l o rho :
  wf_heap h n rho -> h !! l = Some o -> ob_refcnt o = 0 ->
  wf_heap (delete l h) n rho.
Proof.
  intros Hw Hl Ho. split.
  - intros l' o' [? Hl']%lookup_delete_Some. by apply (wf_fresh _ _ _ Hw) in Hl'.
  - intros l' o' [? Hl']%lookup_delete_Some. by apply (wf_pos _ _ _ Hw) in Hl'.
  - intros l' o' [? Hl']%lookup_delete_Some. by apply (wf_val _ _ _ Hw l').
  - intros p. pose proof (wf_count _ _ _ Hw p) as Hc.
    rewrite (heap_refs_delete h l o) in Hc by done. unfold obj_refs in Hc.
    rewrite Ho in Hc. simpl in Hc.
    rewrite !multiplicity_disj_union, multiplicity_empty in Hc.
    rewrite multiplicity_disj_union. unfold refcnt_of in *.
    rewrite lookup_delete. case_decide; [|done].
    subst. rewrite Hl in Hc. simpl in *. lia.
Qed.
End wf_heap.

(** At start-up there is nothing. *)
Lemma wf_boot {K} (k : K) : wf (boot k) ∅.
Proof.
  by split; split.
Qed.

(** A new object takes over the references its fields hold. *)
Lemma alloc_eq {K} (v : pyval) (w : world K) :
  alloc v w = Ret (Loc (w_next w)) (set_next (Pos.succ (w_next w))
    (set_heap (<[w_next w := Obj 1 v]> (w_heap w)) w)).
Proof. done. Qed.

Lemma alloc_wf {K} (v : pyval) (w : world K) rho :
  wf w (val_refs v ⊎ rho) -> val_ok v ->
  wf (set_next (Pos.succ (w_next w))
    (set_heap (<[w_next w := Obj 1 v]> (w_heap w)) w)) ({[+ w_next w +]} ⊎ rho).
Proof.
  intros [Hh [H1 H2 H3]] Hv. split; [by apply wf_alloc|]. by split.
Qed.

(** ** What releasing references leaves alone

    Live objects keep their value and can only lose references or disappear;
    an object already being destroyed, apart from [x], is not touched.  The
    connection may close, and its bookkeeping stays right. *)
Record evolves {K} (x : option positive) (w w' : world K) : Prop := {
  ev_next : w_next w' = w_next w;
  ev_nlnext : w_nlnext w' = w_nlnext w;
  ev_errno : w_errno w' = w_errno w;
  ev_err : w_err w' = w_err w;
  ev_fds : w_fds w' = w_fds w;
  ev_files : w_files w' = w_files w;
  ev_stderr : w_stderr w' = w_stderr w;
  ev_env : w_env w' = w_env w;
  ev_live l o' : w_heap w' !! l = Some o' -> 0 < ob_refcnt o' ->
    exists o, w_heap w !! l = Some o /\ ob_val o' = ob_val o
      /\ ob_refcnt o' <= ob_refcnt o;
  ev_dead l o : w_heap w !! l = Some o -> ob_refcnt o = 0 -> Some l <> x ->
    w_heap w' !! l = Some o;
  ev_undead l o : w_heap w' !! l = Some o -> ob_refcnt o = 0 -> Some l <> x ->
    w_heap w !! l = Some o;
  ev_none : nlconnection (w_nlc w) = None -> w_nlc w' = w_nlc w;
  ev_conn : conn_ok w -> conn_ok w';
}.

Lemma evolves_refl {K} x (w : world K) : evolves x w w.
Proof. split; naive_solver lia. Qed.

Lemma evolves_trans {K} x (w1 w2 w3 : world K) :
  evolves x w1 w2 -> evolves x w2 w3 -> evolves x w1 w3.
Proof.
  intros [] []. split; try congruence; [|naive_solver|naive_solver| |tauto].
  2:{ intros Hc. rewrite ev_none1; [by apply ev_none0|]. by rewrite ev_none0. }
  intros l o3 Hl Hp. destruct (ev_live1 l o3 Hl Hp) as (o2 & H2 & Hv2 & Hr2).
  destruct (ev_live0 l o2 H2) as (o1 & H1 & Hv1 & Hr1); [lia|].
  exists o1. split; [done|]. split; [congruence|lia].
Qed.

Lemma evolves_weaken {K} x (w w' : world K) : evolves None w w' -> evolves x w w'.
Proof. intros []. split; naive_solver. Qed.

(** ** The number of live objects, which bounds the depth of destruction *)

Definition live_objs (h : gmap positive obj) : gset positive :=
  dom (filter (fun kv => 0 < ob_refcnt kv.2) h).

Lemma elem_of_live h l :
  l ∈ live_objs h <-> exists o, h !! l = Some o /\ 0 < ob_refcnt o.
Proof.
  unfold live_objs. rewrite elem_of_dom. unfold is_Some.
  setoid_rewrite map_lookup_filter_Some. done.
Qed.

Definition live (h : gmap positive obj) : nat := size (live_objs h).

Lemma live_size h : (live h <= size h)%nat.
Proof.
  unfold live, live_objs. rewrite size_dom. apply map_size_filter.
Qed.

Lemma live_evolves {K} x (w w' : world K) :
  evolves x w w' -> (live (w_heap w') <= live (w_heap w))%nat.
Proof.
  intros He. unfold live. apply subseteq_size. intros l (o' & Hl & Hp)%elem_of_live.
  apply elem_of_live. destruct (ev_live _ _ _ He l o' Hl Hp) as (o & ? & ? & ?).
  exists o. split; [done|lia].
Qed.

Lemma live_kill h l o v :
  h !! l = Some o -> 0 < ob_refcnt o ->
  S (live (<[l := Obj 0 v]> h)) = live h.
Proof.
  intros Hl Ho. unfold live.
  assert (live_objs h = {[l]} ∪ live_objs (<[l := Obj 0 v]> h)) as ->.
  { apply set_eq. intros i. rewrite elem_of_union, elem_of_singleton, !elem_of_live.
    destruct (decide (i = l)) as [->|Hi].
    - split; [by left|]. intros _. eauto.
    - rewrite lookup_insert_ne by done. naive_solver. }
  rewrite size_union, size_singleton; [done|].
  apply disjoint_singleton_l. rewrite elem_of_live, lookup_insert_eq.
  intros (o' & [= <-] & Hp). simpl in Hp. lia.
Qed.

(** ** Releasing a reference *)

Lemma wf_nl_set_heap {K} (w : world K) h : wf_nl w -> wf_nl (set_heap h w).
Proof. intros [H1 H2 H3]. split; [exact H1|exact H2|exact H3]. Qed.

Lemma wf_set_heap {K} (w : world K) h rho rho' :
  wf w rho -> wf_heap h (w_next w) rho' -> wf (set_heap h w) rho'.
Proof. intros [] Hh. split; [exact Hh|by apply wf_nl_set_heap]. Qed.

Section decref.
Context {K : Type} `{Platform K}.
Implicit Types w : world K.

(** What a [Py_DECREF] that can go [n] levels deep does. *)
Definition decref_spec (D : ptr -> M K unit) (n : nat) : Prop :=
  forall p w rho, is_ref p -> wf w (ptr_refs p ⊎ rho) ->
    (live (w_heap w) <= n)%nat ->
    wp (D p) (fun _ w' => wf w' rho /\ evolves None w w') w.

Section with_spec.
Context (D : ptr -> M K unit) (n : nat) (HD : decref_spec D n).

Lemma xdecref_ok p w rho :
  is_ref_or_null p -> wf w (ptr_refs p ⊎ rho) -> (live (w_heap w) <= n)%nat ->
  wp (Py_XDECREF_with D p) (fun _ w' => wf w' rho /\ evolves None w w') w.
Proof.
  intros Hp Hw Hn. destruct p; [|done|by apply HD..].
  split; [|apply evolves_refl]. eapply wf_eq; [done|]. simpl. multiset_solver.
Qed.

Lemma decref_all_ok ps w rho :
  Forall is_ref_or_null ps -> wf w (ptrs_refs ps ⊎ rho) ->
  (live (w_heap w) <= n)%nat ->
  wp (decref_all D ps) (fun _ w' => wf w' rho /\ evolves None w w') w.
Proof.
  intros Hps. revert w. induction Hps as [|p ps Hp Hps IH]; intros w Hw Hn; simpl.
  - split; [|apply evolves_refl]. eapply wf_eq; [done|]. simpl. multiset_solver.
  - apply wp_bind. eapply wp_mono.
    { apply (xdecref_ok p w (ptrs_refs ps ⊎ rho)); [done| |done].
      eapply wf_eq; [done|]. simpl. multiset_solver. }
    intros _ w1 [Hw1 He1]. simpl. eapply wp_mono.
    { apply IH; [done|]. apply live_evolves in He1. lia. }
    intros _ w2 [Hw2 He2]. split; [done|]. by eapply evolves_trans.
Qed.

(** The end of every deallocator. *)
Lemma object_del_ok l o w rho :
  wf w rho -> w_heap w !! l = Some o -> ob_refcnt o = 0 ->
  ~ is_user o \/ nlconnection (w_nlc w) = None ->
  wp (PyObject_Del (Loc l)) (fun _ w' =>
    wf w' rho /\ evolves (Some l) w w' /\ w_heap w' !! l = None) w.
Proof.
  intros Hw Hl Ho Hu. unfold PyObject_Del, wp. destruct w. simpl in Hl, Hu. mrun.
  rewrite Hl. mrun. split.
  - apply (wf_set_heap _ _ _ _ Hw). simpl. eapply wf_delete_dead; [|done..].
    apply Hw.
  - split; [|apply lookup_delete_eq]. split; simpl; try done.
    + intros l' o' [_ Hl']%lookup_delete_Some _. eauto with lia.
    + intros l' o' Hl' ? Hx. rewrite lookup_delete_ne; [done|congruence].
    + by intros l' o' [_ Hl']%lookup_delete_Some _ _.
    + intros [Hn Hs]. split; simpl in *; [done|]. destruct Hu as [Hu|Hu].
      * by rewrite (users_delete _ _ o).
      * by rewrite Hu in *.
Qed.

(** Releasing fields while the object at [l] is being destroyed. *)
Lemma dying_step l v (m : M K unit) (f : unit -> M K unit) w w0 kept Q :
  w_heap w !! l = Some (Obj 0 v) -> evolves (Some l) w0 w ->
  wp m (fun _ w' => wf w' kept /\ evolves None w w') w ->
  (forall w', wf w' kept -> w_heap w' !! l = Some (Obj 0 v) ->
     evolves (Some l) w0 w' -> (live (w_heap w') <= live (w_heap w))%nat ->
     wp (f tt) Q w') ->
  wp (m ≫= f) Q w.
Proof.
  intros Hl He Hm Hf. apply wp_bind. eapply wp_mono; [exact Hm|].
  intros [] w' [Hw' He']. apply Hf.
  - done.
  - by apply (ev_dead _ _ _ He').
  - eapply evolves_trans; [done|]. by apply evolves_weaken.
  - by eapply live_evolves.
Qed.

Lemma dying_del l v w w0 rho :
  wf w rho -> w_heap w !! l = Some (Obj 0 v) -> evolves (Some l) w0 w ->
  ~ is_user (Obj 0 v) \/ nlconnection (w_nlc w) = None ->
  wp (PyObject_Del (Loc l)) (fun _ w' =>
    wf w' rho /\ evolves (Some l) w0 w' /\ w_heap w' !! l = None) w.
Proof.
  intros Hw Hl He Hu. eapply wp_mono; [by eapply object_del_ok|].
  intros _ w' (? & ? & ?). split; [done|]. split; [by eapply evolves_trans|done].
Qed.

(** Storing into an object being destroyed. *)
Lemma dying_put l v v' w w0 rho :
  wf w rho -> w_heap w !! l = Some (Obj 0 v) -> evolves (Some l) w0 w ->
  (is_user (Obj 0 v') <-> is_user (Obj 0 v)) ->
  let w' := set_heap (<[l := Obj 0 v']> (w_heap w)) w in
  put_val (Loc l) v' w = Ret tt w' /\ wf w' rho /\
  w_heap w' !! l = Some (Obj 0 v') /\ evolves (Some l) w0 w' /\
  live (w_heap w') = live (w_heap w).
Proof.
  intros Hw Hl He Hu w'. split; [|split; [|split; [|split]]].
  - unfold w'. destruct w. simpl in Hl. mrun. by rewrite Hl.
  - unfold w'. apply (wf_set_heap _ _ _ _ Hw). by eapply wf_put_dead; [apply Hw|..].
  - apply lookup_insert_eq.
  - eapply evolves_trans; [done|]. split; try done; simpl.
    + intros l' o' [[<- <-]|[? ?]]%lookup_insert_Some Hp; [simpl in Hp; lia|].
      eauto with lia.
    + intros l' o' ? ? ?. rewrite lookup_insert_ne; [done|congruence].
    + intros l' o' [[<- <-]|[? ?]]%lookup_insert_Some; done.
    + intros Hc. apply (conn_ok_frame w); [done..|]. simpl.
      by rewrite (users_same _ _ _ _ Hl).
  - unfold live. f_equal. apply set_eq. intros i. rewrite !elem_of_live. simpl.
    destruct (decide (i = l)) as [->|?]; [|by rewrite lookup_insert_ne].
    rewrite lookup_insert_eq, Hl. naive_solver.
Qed.

Lemma netlink_ip_address_dealloc_ok l a w rho :
  w_heap w !! l = Some (Obj 0 (VAddr a)) -> val_ok (VAddr a) ->
  wf w (val_refs (VAddr a) ⊎ rho) -> (live (w_heap w) <= n)%nat ->
  wp (netlink_ip_address_dealloc D (Loc l))
     (fun _ w' => wf w' rho /\ evolves (Some l) w w' /\ w_heap w' !! l = None) w.
Proof.
  intros Hl (Hlo & Hpe & Hbr & Hsc) Hw Hn. unfold netlink_ip_address_dealloc.
  eapply wp_step; [by apply (get_addr_eq _ _ _ _ Hl)|]. cbn beta.
  assert (val_refs (VAddr a) ⊎ rho = ptr_refs (local a) ⊎ (ptr_refs (peer a) ⊎
    (ptr_refs (ipv4_broadcast a) ⊎ (ptr_refs (scope a) ⊎ rho)))) as Er
    by (unfold val_refs; simpl; multiset_solver).
  rewrite Er in Hw. clear Er.
  eapply dying_step; [exact Hl|apply evolves_refl| |].
  { apply HD; [exact Hlo|exact Hw|exact Hn]. }
  intros w1 Hw1 Hl1 He1 Hn1.
  eapply dying_step; [exact Hl1|exact He1| |].
  { apply xdecref_ok; [exact Hpe|exact Hw1|lia]. }
  intros w2 Hw2 Hl2 He2 Hn2.
  eapply dying_step; [exact Hl2|exact He2| |].
  { apply xdecref_ok; [exact Hbr|exact Hw2|lia]. }
  intros w3 Hw3 Hl3 He3 Hn3.
  eapply dying_step; [exact Hl3|exact He3| |].
  { apply xdecref_ok; [exact Hsc|exact Hw3|lia]. }
  intros w4 Hw4 Hl4 He4 Hn4.
  eapply dying_del; [exact Hw4|exact Hl4|exact He4|]. left. by intros [].
Qed.

(** The connection bookkeeping of a dying object. *)
Lemma closed_ok l e w rho :
  w_heap w !! l = Some (Obj 0 (VEther e)) -> wf w rho ->
  let w' := closed l 0 e w in
  wf w' rho /\ evolves (Some l) w w' /\ live (w_heap w') = live (w_heap w) /\
  exists b, w_heap w' !! l = Some (Obj 0 (VEther (with_active b e))) /\
    (b = 0 \/ nlconnection (w_nlc w') = None).
Proof.
  intros Hl Hw w'.
  pose proof (wf_put_dead _ _ l (Obj 0 (VEther e)) (VEther (with_active 0 e)) _ (wf_hp _ _ Hw) Hl eq_refl)
    as Hhm.
  assert (conn_ok w -> conn_ok w') as Hco by (intros; by apply conn_ok_closed).
  unfold w', closed in *. destruct (nlconnection (w_nlc w)) as [c|] eqn:Hc.
  2:{ split; [done|]. split; [apply evolves_refl|]. split; [done|].
      exists (nlc_active e). rewrite Hc. destruct e. auto. }
  destruct (wf_conn _ (wf_netlink _ _ Hw) c Hc) as [b Hb].
  destruct (wf_netlink _ _ Hw) as [H1 H2 H3].
  assert (live (<[l := Obj 0 (VEther (with_active 0 e))]> (w_heap w)) = live (w_heap w)) as Hlv.
  { unfold live. f_equal. apply set_eq. intros i. rewrite !elem_of_live. simpl.
    destruct (decide (i = l)) as [->|?]; [|by rewrite lookup_insert_ne].
    rewrite lookup_insert_eq, Hl. naive_solver. }
  assert (forall w1, w_heap w1 = <[l := Obj 0 (VEther (with_active 0 e))]> (w_heap w) ->
    (conn_ok w -> conn_ok w1) -> w_next w1 = w_next w -> w_nlnext w1 = w_nlnext w ->
    w_errno w1 = w_errno w -> w_err w1 = w_err w -> w_fds w1 = w_fds w ->
    w_files w1 = w_files w -> w_stderr w1 = w_stderr w -> w_env w1 = w_env w ->
    evolves (Some l) w w1) as Hev.
  { intros w1 Hh. split; try done; [rewrite Hh..|by rewrite Hc].
    - intros l' o' [[<- <-]|[? ?]]%lookup_insert_Some Hp; [simpl in Hp; lia|].
      eauto with lia.
    - intros l' o' ? ? ?. rewrite lookup_insert_ne; [done|congruence].
    - intros l' o' [[<- <-]|[? ?]]%lookup_insert_Some; done. }
  destruct (0 <? _); (split; [split; [exact Hhm|]|split; [by apply Hev|split; [exact Hlv|
    exists 0; split; [apply lookup_insert_eq|by left]]]]); split; simpl; try done.
  - intros c' [= <-]. by exists b.
  - intros c' o [_ Ho]%lookup_delete_Some. by eapply H3.
Qed.

Lemma etherinfo_dealloc_ok l e w rho :
  w_heap w !! l = Some (Obj 0 (VEther e)) -> val_ok (VEther e) ->
  wf w (val_refs (VEther e) ⊎ rho) -> (live (w_heap w) <= n)%nat ->
  wp (_ethtool_etherinfo_dealloc D (Loc l))
     (fun _ w' => wf w' rho /\ evolves (Some l) w w' /\ w_heap w' !! l = None) w.
Proof.
  intros Hl (Hde & Hhw) Hw Hn. unfold _ethtool_etherinfo_dealloc.
  eapply wp_step; [by apply (close_netlink_eq _ _ _ _ (wf_netlink _ _ Hw) Hl)|].
  destruct (closed_ok l e w _ Hl Hw) as (Hw0 & He0 & Hn0 & b & Hl0 & Hb).
  set (w0 := closed l 0 e w) in *.
  eapply wp_step; [by apply (get_ether_eq _ _ _ _ Hl0)|]. cbn beta.
  assert (val_refs (VEther e) ⊎ rho = ptr_refs (device e) ⊎
    (ptr_refs (hwaddress e) ⊎ rho)) as Er
    by (unfold val_refs; simpl; multiset_solver).
  rewrite Er in Hw0. clear Er. simpl.
  apply (wp_mono _ (fun _ w' => wf w' rho /\ evolves (Some l) w0 w' /\ w_heap w' !! l = None)).
  2:{ intros _ w' (Hw' & He' & Hn'). split; [exact Hw'|].
      split; [by eapply evolves_trans|done]. }
  eapply dying_step; [exact Hl0|apply evolves_refl| |].
  { apply xdecref_ok; [exact Hde|exact Hw0|lia]. }
  intros w1 Hw1 Hl1 He1 Hn1.
  destruct (dying_put l _ (VEther (MkEther Null (index e) (hwaddress e) b)) _ _ _
    Hw1 Hl1 He1 (reflexivity _)) as (Hp2 & Hw2 & Hl2 & He2 & Hn2).
  eapply wp_step; [exact Hp2|]. simpl.
  eapply dying_step; [exact Hl2|exact He2| |].
  { apply xdecref_ok; [exact Hhw|exact Hw2|lia]. }
  intros w3 Hw3 Hl3 He3 Hn3.
  destruct (dying_put l _ (VEther (MkEther Null (index e) Null b)) _ _ _
    Hw3 Hl3 He3 (reflexivity _)) as (Hp4 & Hw4 & Hl4 & He4 & Hn4).
  eapply wp_step; [exact Hp4|]. simpl.
  eapply dying_del; [exact Hw4|exact Hl4|exact He4|].
  destruct Hb as [->|Hb]; [left; by intros []|right].
  by rewrite (ev_none _ _ _ He4 Hb).
Qed.

Lemma container_dealloc_ok l v ps w rho :
  w_heap w !! l = Some (Obj 0 v) -> ~ is_user (Obj 0 v) -> Forall is_ref ps ->
  wf w (ptrs_refs ps ⊎ rho) -> (live (w_heap w) <= n)%nat ->
  wp (decref_all D ps;; PyObject_Del (Loc l))
     (fun _ w' => wf w' rho /\ evolves (Some l) w w' /\ w_heap w' !! l = None) w.
Proof.
  intros Hl Hs Hps Hw Hn. eapply dying_step; [exact Hl|apply evolves_refl| |].
  { apply decref_all_ok; [|exact Hw|exact Hn].
    revert Hps. apply Forall_impl. by intros []. }
  intros w1 Hw1 Hl1 He1 Hn1. eapply dying_del; [done..|by left].
Qed.

Lemma tp_dealloc_ok l v w rho :
  w_heap w !! l = Some (Obj 0 v) -> val_ok v -> wf w (val_refs v ⊎ rho) ->
  (live (w_heap w) <= n)%nat ->
  wp (tp_dealloc D (Loc l)) (fun _ w' => wf w' rho /\ evolves (Some l) w w' /\ w_heap w' !! l = None) w.
Proof.
  intros Hl Hv Hw Hn. unfold tp_dealloc.
  eapply wp_step; [by apply (get_val_eq _ _ _ Hl)|]. simpl.
  assert (forall rho', val_refs v = ∅ -> wf w (val_refs v ⊎ rho') -> wf w rho') as He.
  { intros rho' E Hw'. eapply wf_eq; [done|]. rewrite E. multiset_solver. }
  destruct v as [s|z|items|items|es|a|e| |].
  - eapply dying_del; [by apply He|done|apply evolves_refl|left; exact id].
  - eapply dying_del; [by apply He|done|apply evolves_refl|left; exact id].
  - eapply container_dealloc_ok; [done|exact id|by apply Forall_reverse| |done].
    by rewrite ptrs_refs_reverse.
  - eapply container_dealloc_ok; [done|exact id|by apply Forall_reverse| |done].
    by rewrite ptrs_refs_reverse.
  - by eapply container_dealloc_ok; [done|exact id|..].
  - by apply netlink_ip_address_dealloc_ok with a.
  - by apply etherinfo_dealloc_ok with e.
  - eapply dying_del; [by apply He|done|apply evolves_refl|left; exact id].
  - eapply dying_del; [by apply He|done|apply evolves_refl|left; exact id].
Qed.
End with_spec.

Lemma Py_DECREF_fuel_ok n : decref_spec (Py_DECREF_fuel n) n.
Proof.
  induction n as [|n IH]; intros p w rho Hp Hw Hn.
  all: destruct p as [| | |l]; [done|done| |].
  1,3: split; [|apply evolves_refl]; eapply wf_eq; [done|]; simpl; multiset_solver.
  all: destruct (wf_held _ _ _ _ (wf_hp _ _ Hw)) as (o & Hl & Ho).
  { assert (l ∈ live_objs (w_heap w)) as Hin by (apply elem_of_live; eauto).
    apply elem_of_subseteq_singleton, subseteq_size in Hin.
    rewrite size_singleton in Hin. unfold live in Hn. lia. }
  simpl. eapply wp_step; [done|]. cbn beta.
  eapply wp_step; [by apply get_obj_eq|]. cbn beta.
  eapply wp_step; [done|]. cbn beta.
  destruct (Z.eqb_spec (ob_refcnt o) 1) as [E|E].
  - pose proof (wf_decref_last _ _ _ _ _ (wf_hp _ _ Hw) Hl E) as Hh.
    rewrite E. change (1 - 1) with 0.
    set (w1 := set_heap (<[l := Obj 0 (ob_val o)]> (w_heap w)) w).
    eapply wp_mono.
    { apply (tp_dealloc_ok _ n IH l (ob_val o) w1 rho).
      - apply lookup_insert_eq.
      - apply (wf_val _ _ _ (wf_hp _ _ Hw) l); [done|lia].
      - by apply (wf_set_heap _ _ _ _ Hw).
      - pose proof (live_kill (w_heap w) l o (ob_val o) Hl Ho) as Hk. simpl. lia. }
    intros _ w' (Hw' & He & Hdel). split; [done|]. destruct He. split; try done; simpl in *.
    + intros l' o' Hl' Hp'. destruct (ev_live0 l' o' Hl' Hp') as (o1 & H1 & Hv1 & Hr1).
      apply lookup_insert_Some in H1 as [[<- <-]|[? H1]]; [simpl in Hr1; lia|eauto].
    + intros l' o' Hl' Hz _. apply ev_dead0; [|done|congruence].
      rewrite lookup_insert_ne; [done|]. intros ->. simplify_eq. lia.
    + intros l' o' Hl' Hz _. assert (l <> l') as Hne by congruence.
      specialize (ev_undead0 l' o' Hl' Hz ltac:(congruence)).
      by rewrite lookup_insert_ne in ev_undead0.
    + intros Hc. apply ev_conn0, (conn_ok_frame w); [done..|]. simpl.
      by rewrite (users_same _ _ o).
  - pose proof (wf_decref_live _ _ _ o _ (wf_hp _ _ Hw) Hl) as Hh.
    split; [apply (wf_set_heap _ _ _ _ Hw), Hh; lia|].
    split; try done; simpl.
    + intros l' o' [[<- <-]|[? ?]]%lookup_insert_Some Hp'; eauto with lia.
      exists o. simpl. split; [done|]. split; [done|lia].
    + intros l' o' Hl' Hz _. rewrite lookup_insert_ne; [done|].
      intros ->. simplify_eq. lia.
    + intros l' o' [[<- <-]|[? ?]]%lookup_insert_Some; simpl; [lia|done].
    + intros Hc. apply (conn_ok_frame w); [done..|]. simpl.
      by rewrite (users_same _ _ o).
Qed.

(** Releasing a held reference is defined, terminates, and gives up exactly
    that reference. *)
Lemma Py_DECREF_ok p w rho :
  is_ref p -> wf w (ptr_refs p ⊎ rho) ->
  wp (Py_DECREF p) (fun _ w' => wf w' rho /\ evolves None w w') w.
Proof.
  intros Hp Hw. by apply (Py_DECREF_fuel_ok _ p w rho Hp Hw), live_size.
Qed.

Lemma Py_XDECREF_ok p w rho :
  is_ref_or_null p -> wf w (ptr_refs p ⊎ rho) ->
  wp (Py_XDECREF p) (fun _ w' => wf w' rho /\ evolves None w w') w.
Proof.
  intros Hp Hw. unfold Py_XDECREF. destruct p; [|done|by apply Py_DECREF_ok..].
  split; [|apply evolves_refl]. eapply wf_eq; [done|]. simpl. multiset_solver.
Qed.

(** When others hold the object too, only its count moves. *)
Lemma Py_DECREF_shared l o w :
  w_heap w !! l = Some o -> ob_refcnt o <> 1 ->
  Py_DECREF (Loc l) w
    = Ret tt (set_heap (<[l := Obj (ob_refcnt o - 1) (ob_val o)]> (w_heap w)) w).
Proof.
  intros Hl Ho. unfold Py_DECREF.
  destruct w as [h nx er x nlc nl nn fd fs se k], o as [rc v]. simpl in *.
  destruct (size h); simpl; mrun; rewrite Hl; mrun;
    by rewrite (proj2 (Z.eqb_neq _ _) Ho).
Qed.
End decref.

(** C7: releasing a reference is safe and terminates.  From a world in which
    every count is right, [Py_DECREF] of a reference that is held runs whatever
    deallocators that takes without a fault, within the fuel, and leaves a
    world in which every count is right again, exactly that reference given
    up; live objects keep their value. *)
Theorem Py_DECREF_sound {K} `{Platform K} p (w : world K) rho :
  is_ref p -> wf w (ptr_refs p ⊎ rho) ->
  wp (Py_DECREF p) (fun _ w' => wf w' rho /\ evolves None w w') w.
Proof. apply Py_DECREF_ok. Qed.

(** A list that is the only holder of an [etherinfo] object and of a string. *)
Definition sample_list : M machine ptr :=
  s ← alloc (VStr "eth0"); e ← alloc (VEther (MkEther s (-1) Null 0));
  t ← alloc (VStr "lo"); alloc (VList [e; t]).

Definition sample_world : world machine := Eval vm_compute in
  world_after sample_list (boot quiet).

Lemma sample_world_wf : wf sample_world {[+ 4%positive +]}.
Proof.
  pose proof (wf_boot quiet) as H0.
  apply (wf_eq _ _ (val_refs (VStr "eth0") ⊎ ∅)) in H0; [|by multiset_solver].
  apply alloc_wf in H0; [|by constructor].
  apply (wf_eq _ _ (val_refs (VEther (MkEther (Loc 1) (-1) Null 0)) ⊎ ∅)) in H0;
    [|unfold val_refs; simpl; multiset_solver].
  apply alloc_wf in H0; [|done].
  apply (wf_eq _ _ (val_refs (VStr "lo") ⊎ {[+ 2%positive +]})) in H0;
    [|unfold val_refs; simpl; multiset_solver].
  apply alloc_wf in H0; [|by constructor].
  apply (wf_eq _ _ (val_refs (VList [Loc 2; Loc 3]) ⊎ ∅)) in H0;
    [|unfold val_refs; simpl; multiset_solver].
  apply alloc_wf in H0; [|by repeat constructor].
  eapply wf_eq; [exact H0|]. simpl. multiset_solver.
Qed.

Lemma Py_DECREF_sound_witness :
  wp (Py_DECREF (Loc 4)) (fun _ w' => wf w' ∅ /\ evolves None sample_world w')
    sample_world.
Proof.
  apply (Py_DECREF_sound (Loc 4) sample_world ∅); [exact I|].
  eapply wf_eq; [exact sample_world_wf|]. simpl. multiset_solver.
Defined.
