(* ===== verification/Typing.v ===== *)
(** * Types of the objects on the heap

    The C code casts: it takes the [device] of an [etherinfo] object and the
    texts of an address object for strings without a test, and only some of
    them for possibly missing.  A heap is typed when this is so for every live
    object made since some point.  Types are kept by whatever leaves each
    object of its kind and strings as they are ([keeps_kinds]).

    Containers are typed too: the items of those the extension makes are no
    containers ([made_from]), and in the heap as a whole a container inside a
    container is the older of the two ([typed]), so nothing is circular. *)
From S2P Require Import Prelude.
From S2P Require Import Platform.
From S2P Require Import CPython.
From S2P Require Import Netlink.
From S2P Require Import Objects.
From S2P Require Import RefCount.

(** ** Values and heaps *)

Definition str_at (h : gmap positive obj) (p : ptr) : Prop :=
  exists l rc s, p = Loc l /\ h !! l = Some (Obj rc (VStr s)).

Definition str_or_null_at (h : gmap positive obj) (p : ptr) : Prop :=
  p = Null \/ str_at h p.

Definition container (v : pyval) : bool :=
  match v with VList _ | VTuple _ | VDict _ => true | _ => false end.

(** [None], or an object that holds no items. *)
Definition atom_at (h : gmap positive obj) (p : ptr) : Prop :=
  p = PyNone \/ exists l o, p = Loc l /\ h !! l = Some o /\ container (ob_val o) = false.

(** The items of a container are atoms, or else satisfy [R]. *)
Definition typed_val (R : ptr -> Prop) (h : gmap positive obj) (v : pyval) : Prop :=
  match v with
  | VEther e => str_at h (device e) /\ str_or_null_at h (hwaddress e)
  | VAddr a => str_at h (local a) /\ str_or_null_at h (peer a) /\
      str_or_null_at h (ipv4_broadcast a) /\ str_at h (scope a)
  | VList ps | VTuple ps => Forall (fun p => atom_at h p \/ R p) ps
  | VDict es => Forall (fun p => atom_at h p \/ R p) es.*2
  | VStr _ | VInt _ | VOther | VSurrogates => True
  end.

(** The objects at [n] and later, all of them alive. *)
Definition typed_from (n : positive) (R : positive -> ptr -> Prop)
    (h : gmap positive obj) : Prop :=
  forall l o, h !! l = Some o -> (n <= l)%positive ->
  0 < ob_refcnt o /\ typed_val (R l) h (ob_val o).

Definition older (l : positive) (p : ptr) : Prop :=
  exists l', p = Loc l' /\ (l' < l)%positive.
Definition nothing (l : positive) (p : ptr) : Prop := False.

Abbreviation typed := (typed_from 1 older).
Abbreviation made_from n := (typed_from n nothing).

Lemma typed_val_mono (R R' : ptr -> Prop) h v :
  (forall p, R p -> R' p) -> typed_val R h v -> typed_val R' h v.
Proof.
  intros HR. destruct v; simpl; try done; intros Hv;
    eapply list.Forall_impl; [exact Hv|naive_solver..].
Qed.

Lemma simple_typed R h v :
  match v with VStr _ | VInt _ | VOther | VSurrogates => True | _ => False end -> typed_val R h v.
Proof. by destruct v. Qed.

(** ** Objects keep their kind, strings their characters *)

Definition same_kind (v v' : pyval) : Prop :=
  match v, v' with
  | VStr s, VStr s' => s = s'
  | VInt _, VInt _ | VList _, VList _ | VTuple _, VTuple _ | VDict _, VDict _
  | VAddr _, VAddr _ | VEther _, VEther _ | VOther, VOther
  | VSurrogates, VSurrogates => True
  | _, _ => False
  end.

#[export] Instance same_kind_preorder : PreOrder same_kind.
Proof.
  split; [by intros []|]. intros [] [] []; simpl; try done. congruence.
Qed.

Lemma same_kind_container v v' : same_kind v v' -> container v' = container v.
Proof. by destruct v, v'. Qed.

Definition keeps_kinds (h h' : gmap positive obj) : Prop :=
  forall l o, h !! l = Some o ->
  exists o', h' !! l = Some o' /\ same_kind (ob_val o) (ob_val o').

#[export] Instance keeps_kinds_preorder : PreOrder keeps_kinds.
Proof.
  split; [intros h l o Hl; by exists o|].
  intros h1 h2 h3 H1 H2 l o (o2 & Hl2 & Hk2)%H1.
  destruct (H2 l o2 Hl2) as (o3 & Hl3 & Hk3). exists o3. split; [done|by etrans].
Qed.

Lemma str_at_keeps h h' p : keeps_kinds h h' -> str_at h p -> str_at h' p.
Proof.
  intros Hk (l & rc & s & -> & Hl). destruct (Hk l _ Hl) as ([rc' v] & Hl' & Hv).
  simpl in Hv. destruct v; try done. subst. by exists l, rc', s0.
Qed.

Lemma str_or_null_keeps h h' p :
  keeps_kinds h h' -> str_or_null_at h p -> str_or_null_at h' p.
Proof. intros Hk [->|Hp]; [by left|right]. by eapply str_at_keeps. Qed.

Lemma atom_at_keeps h h' p : keeps_kinds h h' -> atom_at h p -> atom_at h' p.
Proof.
  intros Hk [->|(l & o & -> & Hl & Hc)]; [by left|right].
  destruct (Hk l o Hl) as (o' & Hl' & Hv). exists l, o'. split; [done|]. split; [done|].
  by rewrite (same_kind_container _ _ Hv).
Qed.

Lemma typed_val_keeps R h h' v : keeps_kinds h h' -> typed_val R h v -> typed_val R h' v.
Proof.
  intros Hk.
  assert (forall p, atom_at h p \/ R p -> atom_at h' p \/ R p) as Hi
    by (intros p [?|?]; [left; by eapply atom_at_keeps|by right]).
  destruct v; simpl; try done; [intros Hv; eapply list.Forall_impl; [exact Hv|done]..| |];
    intuition eauto using str_at_keeps, str_or_null_keeps.
Qed.

(** Putting an object where there was none, or one of its kind. *)
Lemma keeps_kinds_fresh h l o : h !! l = None -> keeps_kinds h (<[l := o]> h).
Proof.
  intros Hl l' o' Hl'. exists o'. split; [|done]. rewrite lookup_insert_ne; congruence.
Qed.

Lemma keeps_kinds_insert h l o o' :
  h !! l = Some o -> same_kind (ob_val o) (ob_val o') -> keeps_kinds h (<[l := o']> h).
Proof.
  intros Hl Hv l' o1 Hl'. destruct (decide (l = l')) as [<-|Hne].
  - simplify_eq. exists o'. by rewrite lookup_insert_eq.
  - exists o1. by rewrite lookup_insert_ne.
Qed.

(** Agreement below [m], where all objects are. *)
Lemma keeps_kinds_agree (m : positive) h h' :
  (forall l, (l < m)%positive -> h' !! l = h !! l) ->
  (forall l o, h !! l = Some o -> (l < m)%positive) -> keeps_kinds h h'.
Proof.
  intros Ha Hf l o Hl. exists o. split; [|done]. rewrite Ha; [done|]. by eapply Hf.
Qed.

Create HintDb pyheap.
#[export] Hint Resolve keeps_kinds_fresh : pyheap.

(** ** Typed heaps *)

Lemma typed_from_insert n R h l o :
  typed_from n R h -> keeps_kinds h (<[l := o]> h) ->
  ((l < n)%positive \/ 0 < ob_refcnt o /\ typed_val (R l) (<[l := o]> h) (ob_val o)) ->
  typed_from n R (<[l := o]> h).
Proof.
  intros Ht Hk Ho l' o' [[<- <-]|[Hne Hl']]%lookup_insert_Some Hn.
  - destruct Ho as [?|?]; [lia|done].
  - destruct (Ht l' o' Hl' Hn). split; [done|by eapply typed_val_keeps].
Qed.

(** A new object. *)
Lemma typed_from_new n R h l o :
  typed_from n R h -> h !! l = None -> 0 < ob_refcnt o ->
  typed_val (R l) (<[l := o]> h) (ob_val o) -> typed_from n R (<[l := o]> h).
Proof. intros Ht Hl Hrc Ho. apply typed_from_insert; auto with pyheap. Qed.

(** Another count. *)
Lemma typed_from_count n R h l o rc :
  typed_from n R h -> h !! l = Some o -> 0 < rc ->
  typed_from n R (<[l := Obj rc (ob_val o)]> h).
Proof.
  intros Ht Hl Ho. assert (keeps_kinds h (<[l := Obj rc (ob_val o)]> h)) as Hk
    by (by eapply keeps_kinds_insert).
  apply typed_from_insert; [done|done|].
  destruct (decide (l < n)%positive); [by left|right]. split; [done|].
  eapply typed_val_keeps; [done|]. apply (Ht l o); [done|lia].
Qed.

(** From [n] to [m] in the old heap, from [m] in the new. *)
Lemma typed_from_trans (n m : positive) (R R' : positive -> ptr -> Prop) h h' :
  typed_from n R h -> (forall l, (l < m)%positive -> h' !! l = h !! l) ->
  (forall l o, h !! l = Some o -> (l < m)%positive) ->
  (forall l p, R' l p -> R l p) -> typed_from m R' h' -> typed_from n R h'.
Proof.
  intros Ht Ha Hf HR Ht' l o Hl Hn.
  destruct (decide (l < m)%positive) as [Hlt|Hge].
  - rewrite Ha in Hl by done. destruct (Ht l o Hl Hn) as [Hrc Hv]. split; [done|].
    eapply typed_val_keeps; [by eapply keeps_kinds_agree|exact Hv].
  - destruct (Ht' l o Hl ltac:(lia)) as [Hrc Hv]. split; [done|].
    eapply typed_val_mono; [apply HR|exact Hv].
Qed.

Lemma typed_from_none n R h :
  (forall l o, h !! l = Some o -> (l < n)%positive) -> typed_from n R h.
Proof. intros Hf l o Hl Hn. apply Hf in Hl. lia. Qed.

(** ** Releasing keeps types: what is live was live, with the same value, and
    a field of a live object is live. *)
Lemma elem_ptrs_refs l ps : Loc l ∈ ps -> l ∈ ptrs_refs ps.
Proof.
  induction ps as [|p ps IH]; [by intros ?%elem_of_nil|].
  intros [<-|Hin]%elem_of_cons; simpl; [|specialize (IH Hin)]; multiset_solver.
Qed.

Lemma typed_evolves {K} (w w' : world K) rho :
  typed (w_heap w) -> wf w' rho -> evolves None w w' -> typed (w_heap w').
Proof.
  intros Ht [Hh _] He l o Hl _.
  assert (0 < ob_refcnt o) as Hrc.
  { pose proof (wf_pos _ _ _ Hh l o Hl). destruct (decide (ob_refcnt o = 0)) as [E|]; [|lia].
    pose proof (ev_undead _ _ _ He l o Hl E ltac:(done)) as Hl0.
    by destruct (Ht l o Hl0 ltac:(lia)). }
  split; [done|].
  destruct (ev_live _ _ _ He l o Hl Hrc) as (o0 & Hl0 & Hv & Hrc0).
  assert (typed_val (older l) (w_heap w) (ob_val o)) as Hw.
  { rewrite Hv. apply (Ht l o0 Hl0). lia. }
  assert (forall i, Loc i ∈ val_ptrs (ob_val o) -> exists o1 o2,
    w_heap w !! i = Some o1 /\ w_heap w' !! i = Some o2 /\ ob_val o2 = ob_val o1) as Hf.
  { intros i Hi. destruct (wf_field _ _ l o i _ Hh Hl Hrc) as (o2 & Hi' & Hrc');
      [by apply elem_ptrs_refs|].
    destruct (ev_live _ _ _ He i _ Hi' Hrc') as (o1 & Hi1 & Hv1 & _). by exists o1, o2. }
  assert (forall p, p ∈ val_ptrs (ob_val o) -> str_at (w_heap w) p -> str_at (w_heap w') p)
    as Hs.
  { intros p Hp (i & rc & s & -> & Hi). destruct (Hf i Hp) as (o1 & [rc2 v2] & H1 & H2 & E).
    simplify_eq. simpl in E. subst v2. by exists i, rc2, s. }
  assert (forall p, p ∈ val_ptrs (ob_val o) -> str_or_null_at (w_heap w) p ->
    str_or_null_at (w_heap w') p) as Hs'.
  { intros p Hp [->|Hq]; [by left|right]. by apply Hs. }
  assert (forall ps, (forall p, p ∈ ps -> p ∈ val_ptrs (ob_val o)) ->
    Forall (fun p => atom_at (w_heap w) p \/ older l p) ps ->
    Forall (fun p => atom_at (w_heap w') p \/ older l p) ps) as Hitems.
  { intros ps Hin Hps. apply list.Forall_forall. intros p Hp.
    destruct (proj1 (list.Forall_forall _ _) Hps p Hp) as [[->|(i & o1 & -> & Hi & Hc)]|];
      [by left; left| |by right].
    destruct (Hf i (Hin _ Hp)) as (o1' & o2 & H1 & H2 & E). simplify_eq.
    left. right. exists i, o2. by rewrite E. }
  clear -Hw Hs Hs' Hitems. destruct (ob_val o); try done; simpl in *;
    [by apply Hitems..| |]; intuition (first [apply Hs|apply Hs']; [set_solver|done]).
Qed.
