(* ===== verification/Containers.v ===== *)
(** * Filling lists and dictionaries

    The source fills a container in three moves: it makes a new object, the
    container takes a reference of its own, and the first reference is given
    up.  The lemmas here say what the three come to. *)
From S2P Require Import Prelude.
From S2P Require Import Platform.
From S2P Require Import CPython.
From S2P Require Import Objects.
From S2P Require Import RefCount.
From S2P Require Import Typing.

(** ** Heaps that agree on the older objects *)

Definition agree (n : positive) (h h' : gmap positive obj) : Prop :=
  forall l, (l < n)%positive -> h' !! l = h !! l.

#[export] Instance agree_preorder n : PreOrder (agree n).
Proof. split; [by intros h l|]. intros h1 h2 h3 H1 H2 l Hl. by rewrite H2, H1. Qed.

Lemma agree_le n m h h' : (n <= m)%positive -> agree m h h' -> agree n h h'.
Proof. intros Hn Ha l Hl. apply Ha. lia. Qed.

Lemma agree_insert n h l o : (n <= l)%positive -> agree n h (<[l := o]> h).
Proof. intros Hl l' Hl'. apply lookup_insert_ne. lia. Qed.

Lemma agree_delete n h l : (n <= l)%positive -> agree n h (delete l h).
Proof. intros Hl l' Hl'. apply lookup_delete_ne. lia. Qed.

(** Everything but the heap and the platform stays; older objects too. *)
Record only_new {K} (w w' : world K) : Prop := {
  on_heap : agree (w_next w) (w_heap w) (w_heap w');
  on_next : (w_next w <= w_next w')%positive;
  on_err : w_err w' = w_err w;
  on_nlc : w_nlc w' = w_nlc w;
  on_nl : w_nl w' = w_nl w;
  on_nlnext : w_nlnext w' = w_nlnext w;
  on_fds : w_fds w' = w_fds w;
  on_files : w_files w' = w_files w;
}.

#[export] Instance only_new_preorder {K} : PreOrder (@only_new K).
Proof.
  split; [by split|]. intros w1 w2 w3 [] []. split; try congruence; [|lia].
  etrans; [done|]. by eapply agree_le.
Qed.

#[export] Hint Resolve agree_insert agree_delete : pyheap.
#[export] Hint Extern 1 (_ <= _)%positive => lia : pyheap.
#[export] Hint Extern 1 (_ < _)%positive => lia : pyheap.

Lemma only_new_alloc {K} v (w : world K) :
  only_new w (set_next (Pos.succ (w_next w))
    (set_heap (<[w_next w := Obj 1 v]> (w_heap w)) w)).
Proof. split; simpl; try done; [|lia]. auto with pyheap. Qed.

(** Objects have been added, and typed; the connection is as it was. *)
Record grows {K} (w w' : world K) : Prop := {
  gr_heap : agree (w_next w) (w_heap w) (w_heap w');
  gr_next : (w_next w <= w_next w')%positive;
  gr_nlc : w_nlc w' = w_nlc w;
  gr_nl : w_nl w' = w_nl w;
  gr_made : made_from (w_next w) (w_heap w');
}.

Lemma only_new_put {K} (w0 w : world K) l o :
  only_new w0 w -> (w_next w0 <= l)%positive ->
  only_new w0 (set_heap (<[l := o]> (w_heap w)) w).
Proof.
  intros [] Hl. split; simpl; try done.
  etrans; [done|]. auto with pyheap.
Qed.

(** ** Handing a new object to a container *)

Lemma wf_move_in_all h n rho vin l rc v v' :
  wf_heap h n (vin ⊎ rho) -> h !! l = Some (Obj rc v) -> 0 < rc ->
  val_refs v' = vin ⊎ val_refs v -> val_ok v' ->
  wf_heap (<[l := Obj rc v']> h) n rho.
Proof.
  intros Hw Hl Hrc Hv Hok. eapply wf_update; [done..| |done|].
  - simpl. lia.
  - intros p. unfold obj_refs. simpl. rewrite (proj2 (Z.ltb_lt _ _) Hrc), Hv.
    rewrite !multiplicity_disj_union. case_decide; lia.
Qed.

Lemma wf_move_in h n rho ln l rc v v' :
  wf_heap h n ({[+ ln +]} ⊎ rho) -> h !! l = Some (Obj rc v) -> 0 < rc ->
  val_refs v' = {[+ ln +]} ⊎ val_refs v -> val_ok v' ->
  wf_heap (<[l := Obj rc v']> h) n rho.
Proof. apply wf_move_in_all. Qed.

(** What a location held before does not matter. *)
Lemma insert_over (h : gmap positive obj) i j a b c :
  i <> j -> <[i := c]> (<[j := b]> (<[i := a]> h)) = <[i := c]> (<[j := b]> h).
Proof. intros Hne. by rewrite (insert_insert_ne _ j i), insert_insert_eq. Qed.

Lemma wf_fresh_next h n rho : wf_heap h n rho -> h !! n = None.
Proof.
  intros Hw. destruct (h !! n) eqn:E; [|done]. apply (wf_fresh _ _ _ Hw) in E. lia.
Qed.

(** A new object without fields. *)
Definition simple (v : pyval) : Prop :=
  match v with VStr _ | VInt _ | VOther | VSurrogates => True | _ => False end.

Lemma made_simple {K} (w : world K) rho v :
  wf w rho -> simple v -> made_from (w_next w) (<[w_next w := Obj 1 v]> (w_heap w)).
Proof.
  intros Hw Hv. apply typed_from_new; [apply typed_from_none, Hw|by eapply wf_fresh_next, Hw|done|].
  by apply simple_typed.
Qed.

Lemma wf_alloc_simple {K} (w : world K) rho v :
  wf w rho -> simple v ->
  wf (set_next (Pos.succ (w_next w)) (set_heap (<[w_next w := Obj 1 v]> (w_heap w)) w))
    ({[+ w_next w +]} ⊎ rho).
Proof.
  intros Hw Hv. apply alloc_wf; [|by destruct v; try done; constructor].
  eapply wf_eq; [exact Hw|]. unfold val_refs. destruct v; try done; simpl; multiset_solver.
Qed.

Lemma grows_simple {K} (w : world K) rho v :
  wf w rho -> simple v ->
  grows w (set_next (Pos.succ (w_next w)) (set_heap (<[w_next w := Obj 1 v]> (w_heap w)) w)).
Proof.
  intros Hw Hv. split; simpl; try done; [auto with pyheap|lia|by eapply made_simple].
Qed.

Lemma only_new_grows {K} (w w' : world K) :
  only_new w w' -> made_from (w_next w) (w_heap w') -> grows w w'.
Proof. by intros []. Qed.

Lemma wf_fresh_succ h n rho : wf_heap h n rho -> h !! Pos.succ n = None.
Proof.
  intros Hw. destruct (h !! Pos.succ n) eqn:E; [|done]. apply (wf_fresh _ _ _ Hw) in E. lia.
Qed.

Section containers.
Context {K : Type} `{Platform K}.
Implicit Types w : world K.

(** A list item with one reference, appended and released by its maker. *)
Lemma append_owned ll rc items ln v w :
  w_heap w !! ll = Some (Obj rc (VList items)) ->
  w_heap w !! ln = Some (Obj 1 v) -> ll <> ln ->
  (PyList_Append (Loc ll) (Loc ln);; Py_DECREF (Loc ln)) w
    = Ret tt (set_heap (<[ll := Obj rc (VList (items ++ [Loc ln]))]> (w_heap w)) w).
Proof.
  intros Hl Hn Hne. unfold PyList_Append. cbv beta iota.
  rewrite bind_assoc, (bind_Ret _ _ _ _ _ (get_val_eq _ _ _ Hl)). cbn [ob_val].
  rewrite bind_assoc, (bind_Ret _ _ _ _ _ (incref_eq _ _ _ Hn)).
  rewrite bind_assoc. erewrite bind_Ret.
  2:{ eapply put_val_eq. simpl. by rewrite lookup_insert_ne. }
  rewrite bind_ret_l. simpl. erewrite Py_DECREF_shared.
  2:{ simpl. rewrite lookup_insert_ne by done. by rewrite lookup_insert_eq. }
  2: done.
  simpl. f_equal. unfold set_heap. simpl. f_equal.
  rewrite (insert_insert_ne _ ll ln) by done. rewrite insert_insert_eq.
  apply insert_id. by rewrite lookup_insert_ne.
Qed.

(** The same for a new dictionary entry. *)
Lemma dict_add_owned ld rc es k ln v w :
  w_heap w !! ld = Some (Obj rc (VDict es)) -> dict_get es k = None ->
  w_heap w !! ln = Some (Obj 1 v) -> ld <> ln ->
  (PyDict_SetItemString (Loc ld) k (Loc ln)) w
    = Ret 0 (set_heap (<[ld := Obj rc (VDict (es ++ [(k, Loc ln)]))]>
        (<[ln := Obj 2 v]> (w_heap w))) w).
Proof.
  intros Hl Hk Hn Hne. unfold PyDict_SetItemString.
  rewrite (bind_Ret _ _ _ _ _ (peek_eq _ _ _ Hl)). cbn [ob_val].
  rewrite (bind_Ret _ _ _ _ _ (incref_eq _ _ _ Hn)).
  erewrite bind_Ret.
  2:{ eapply put_val_eq. simpl. by rewrite lookup_insert_ne. }
  rewrite Hk. simpl.
  replace (dict_set es k (Loc ln)) with (es ++ [(k, Loc ln)]); [done|].
  clear -Hk. induction es as [|[k' p] es IH]; simpl in *; [done|].
  case_decide; [done|]. by rewrite IH.
Qed.

Lemma dict_decref_owned ld rc es k ln v w :
  w_heap w !! ln = Some (Obj 1 v) -> ld <> ln ->
  Py_DECREF (Loc ln) (set_heap (<[ld := Obj rc (VDict (es ++ [(k, Loc ln)]))]>
        (<[ln := Obj 2 v]> (w_heap w))) w)
    = Ret tt (set_heap (<[ld := Obj rc (VDict (es ++ [(k, Loc ln)]))]> (w_heap w)) w).
Proof.
  intros Hn Hne. erewrite Py_DECREF_shared.
  2:{ simpl. rewrite lookup_insert_ne by done. by rewrite lookup_insert_eq. }
  2: done.
  simpl. f_equal. unfold set_heap. simpl. f_equal.
  rewrite (insert_insert_ne _ ld ln) by done. rewrite insert_insert_eq.
  apply insert_id. by rewrite lookup_insert_ne.
Qed.

(** The last reference to a string: the object goes. *)
Lemma decref_str l s w :
  w_heap w !! l = Some (Obj 1 (VStr s)) ->
  Py_DECREF (Loc l) w = Ret tt (set_heap (delete l (w_heap w)) w).
Proof.
  intros Hl. unfold Py_DECREF.
  assert (exists n, size (w_heap w) = S n) as [n ->].
  { destruct (size (w_heap w)) eqn:E; [|by exists n].
    apply map_size_empty_iff in E. by rewrite E in Hl. }
  cbn [Py_DECREF_fuel]. unfold PyObject_Del, tp_dealloc.
  destruct w as [h nx er x nlc nl nn fd fs se k]. cbn [w_heap] in *. mrun.
  rewrite Hl. mrun. change (1 =? 1) with true. mrun.
  rewrite lookup_insert_eq. mrun. unfold PyObject_Del. mrun.
  rewrite lookup_insert_eq. mrun. by rewrite delete_insert_eq.
Qed.
End containers.

(** ** Python values, seen through the heap *)

(** What the objects the extension makes look like to the caller. *)
Inductive pydata :=
  | DStr (s : string)
  | DInt (z : Z)
  | DAddr (fam : Z) (loc : string) (pe bc : option string) (plen : Z) (sc : string)
  | DEther (dev : string) (idx : Z).

(** A string with a single reference; an optional one. *)
Definition is_str (h : gmap positive obj) (p : ptr) (s : string) : Prop :=
  exists l, p = Loc l /\ h !! l = Some (Obj 1 (VStr s)).
Definition is_str_or_null (h : gmap positive obj) (p : ptr) (s : option string)
    : Prop :=
  match s with None => p = Null | Some s => is_str h p s end.

(** [denotes h p d]: the object at [p], with a single reference, is [d]. *)
Definition denotes (h : gmap positive obj) (p : ptr) (d : pydata) : Prop :=
  match d with
  | DStr s => is_str h p s
  | DInt z => exists l, p = Loc l /\ h !! l = Some (Obj 1 (VInt z))
  | DAddr fam loc pe bc plen sc => exists l a,
      p = Loc l /\ h !! l = Some (Obj 1 (VAddr a)) /\ family a = fam /\
      prefixlen a = plen /\ is_str h (local a) loc /\
      is_str_or_null h (peer a) pe /\ is_str_or_null h (ipv4_broadcast a) bc /\
      is_str h (scope a) sc
  | DEther dev idx => exists l e,
      p = Loc l /\ h !! l = Some (Obj 1 (VEther e)) /\ index e = idx /\
      hwaddress e = Null /\ is_str h (device e) dev
  end.

(** Containers may change around it. *)
Definition keeps_data (h h' : gmap positive obj) : Prop :=
  forall l v, h !! l = Some (Obj 1 v) ->
    match v with VList _ | VDict _ => True | _ => h' !! l = Some (Obj 1 v) end.

#[export] Instance keeps_data_preorder : PreOrder keeps_data.
Proof.
  split.
  - intros h l v Hl. by destruct v.
  - intros h1 h2 h3 H1 H2 l v Hl. specialize (H1 l v Hl).
    destruct v; try done; by apply (H2 l _ H1).
Qed.

Lemma is_str_keeps h h' p s : keeps_data h h' -> is_str h p s -> is_str h' p s.
Proof. intros Hk (l & -> & Hl). exists l. split; [done|]. exact (Hk l _ Hl). Qed.

Lemma is_str_or_null_keeps h h' p s :
  keeps_data h h' -> is_str_or_null h p s -> is_str_or_null h' p s.
Proof. destruct s; [apply is_str_keeps|done]. Qed.

Lemma denotes_keeps h h' p d : keeps_data h h' -> denotes h p d -> denotes h' p d.
Proof.
  intros Hk. destruct d as [s|z|fam loc pe bc plen sc|dev idx]; cbn [denotes].
  - by apply is_str_keeps.
  - intros (l & -> & Hl). exists l. split; [done|]. exact (Hk l _ Hl).
  - intros (l & a & -> & Hl & Hf & Hp & Hlo & Hpe & Hbc & Hsc). exists l, a.
    split; [done|]. split; [exact (Hk l _ Hl)|].
    eauto 10 using is_str_keeps, is_str_or_null_keeps.
  - intros (l & e & -> & Hl & Hi & Hh & Hs). exists l, e.
    split; [done|]. split; [exact (Hk l _ Hl)|]. eauto 10 using is_str_keeps.
Qed.

Lemma keeps_insert_list h l rc items o :
  h !! l = Some (Obj rc (VList items)) -> keeps_data h (<[l := o]> h).
Proof.
  intros Hl l' v Hl'. destruct (decide (l = l')) as [<-|Hne].
  - by simplify_eq.
  - destruct v; try done; by rewrite lookup_insert_ne.
Qed.

Lemma keeps_insert_dict h l rc es o :
  h !! l = Some (Obj rc (VDict es)) -> keeps_data h (<[l := o]> h).
Proof.
  intros Hl l' v Hl'. destruct (decide (l = l')) as [<-|Hne].
  - by simplify_eq.
  - destruct v; try done; by rewrite lookup_insert_ne.
Qed.

Lemma keeps_insert_fresh h l o : h !! l = None -> keeps_data h (<[l := o]> h).
Proof.
  intros Hl l' v Hl'. assert (l <> l') by congruence.
  destruct v; try done; by rewrite lookup_insert_ne.
Qed.

#[export] Hint Resolve keeps_insert_list keeps_insert_dict keeps_insert_fresh : pyheap.

Lemma denotes_atom h p d : denotes h p d -> atom_at h p.
Proof.
  destruct d; simpl; [intros (l & -> & Hl)|intros (l & -> & Hl)|
    intros (l & a & -> & Hl & _)|intros (l & e & -> & Hl & _)];
    right; by eexists _, _.
Qed.

Lemma is_str_at h p s : is_str h p s -> str_at h p.
Proof. intros (l & -> & Hl). by exists l, 1, s. Qed.

Lemma is_str_or_null_at h p s : is_str_or_null h p s -> str_or_null_at h p.
Proof. destruct s; [intros ?%is_str_at; by right|by left]. Qed.

(** A list of data is typed. *)
Lemma data_list_typed R h ps ds :
  Forall2 (denotes h) ps ds -> typed_val R h (VList ps).
Proof.
  intros Hf. simpl. induction Hf; constructor; [|done]. left. by eapply denotes_atom.
Qed.

(** ** Building a list *)

(** In [w] the new list at [ll] shows the data [ds]; nothing older than [w0]
    has changed since, and the maker of the list holds the only reference. *)
Record building {K} (w0 : world K) (rho : gmultiset positive) (ll : positive)
    (ds : list pydata) (w : world K) : Prop := {
  bld_items : exists ps, w_heap w !! ll = Some (Obj 1 (VList ps)) /\
    Forall2 (denotes (w_heap w)) ps ds;
  bld_wf : wf w ({[+ ll +]} ⊎ rho);
  bld_new : only_new w0 w;
  bld_list : (w_next w0 <= ll)%positive;
  bld_made : made_from (w_next w0) (w_heap w);
}.

Section building.
Context {K : Type} `{Platform K}.
Implicit Types w : world K.

(** Memory for [n] objects. *)
Fixpoint memory_for (n : nat) (k : K) : Prop :=
  match n with
  | O => True
  | S n => (py_malloc k).1 <> None /\ memory_for n (py_malloc k).2
  end.

Lemma building_start w rho :
  wf w rho ->
  building w rho (w_next w) [] (set_next (Pos.succ (w_next w))
    (set_heap (<[w_next w := Obj 1 (VList [])]> (w_heap w)) w)).
Proof.
  intros Hw. split.
  - exists []. split; [apply lookup_insert_eq|done].
  - apply alloc_wf; [|by constructor]. eapply wf_eq; [exact Hw|].
    unfold val_refs. simpl. multiset_solver.
  - apply only_new_alloc.
  - done.
  - apply typed_from_new; [apply typed_from_none, Hw|by eapply wf_fresh_next, Hw|done|].
    by constructor.
Qed.

(** Appending an item made since. *)
Lemma building_append {A} w0 rho ll ds w w1 ln v d (k : unit -> M K A) :
  building w0 rho ll ds w -> only_new w w1 ->
  wf w1 ({[+ ln +]} ⊎ ({[+ ll +]} ⊎ rho)) -> w_heap w1 !! ln = Some (Obj 1 v) ->
  keeps_data (w_heap w) (w_heap w1) -> denotes (w_heap w1) (Loc ln) d ->
  (w_next w <= ln)%positive -> made_from (w_next w) (w_heap w1) ->
  exists w2, building w0 rho ll (ds ++ [d]) w2 /\ w_env w2 = w_env w1 /\
    (PyList_Append (Loc ll) (Loc ln);; Py_DECREF (Loc ln) ≫= k) w1 = k tt w2.
Proof.
  intros [(ps & Hps & Hf) Hwf Hnew Hll Hmd] Hon Hw1 Hln Hk Hd Hlt Hmd1.
  pose proof (wf_fresh _ _ _ (wf_hp _ _ Hwf) _ _ Hps) as Hlow.
  assert (w_heap w1 !! ll = Some (Obj 1 (VList ps))) as Hps1.
  { by rewrite (on_heap _ _ Hon). }
  assert (ll <> ln) as Hne by lia.
  exists (set_heap (<[ll := Obj 1 (VList (ps ++ [Loc ln]))]> (w_heap w1)) w1).
  assert (keeps_data (w_heap w1) (<[ll := Obj 1 (VList (ps ++ [Loc ln]))]> (w_heap w1)))
    as Hk2 by (by eapply keeps_insert_list).
  assert (Forall2 (denotes (<[ll := Obj 1 (VList (ps ++ [Loc ln]))]> (w_heap w1)))
    (ps ++ [Loc ln]) (ds ++ [d])) as Hf2.
  { apply Forall2_app.
    - eapply list.Forall2_impl; [exact Hf|]. intros p d0 Hp.
      eapply denotes_keeps; [|exact Hp]. by etrans.
    - constructor; [|done]. by eapply denotes_keeps. }
  split; [|split; [done|]].
  - split.
    + exists (ps ++ [Loc ln]). split; [apply lookup_insert_eq|exact Hf2].
    + apply (wf_set_heap _ _ _ _ Hw1). eapply wf_move_in; [apply Hw1|done|done| |].
      * unfold val_refs. simpl. rewrite ptrs_refs_app. simpl. multiset_solver.
      * pose proof (wf_val _ _ _ (wf_hp _ _ Hwf) _ _ Hps) as Hv. simpl in *.
        apply Forall_app. split; [by apply Hv|]. by constructor.
    + apply only_new_put; [by etrans|done].
    + done.
    + apply typed_from_insert; [|by eapply keeps_kinds_insert|].
      * eapply typed_from_trans; [exact Hmd|apply Hon|apply Hwf|done|exact Hmd1].
      * right. split; [done|]. by eapply data_list_typed.
  - pose proof (append_owned ll 1 ps ln v w1 Hps1 Hln Hne) as Ha.
    rewrite <- (bind_assoc (PyList_Append _ _ ) (fun _ => Py_DECREF (Loc ln)) k).
    by rewrite (bind_Ret _ _ _ _ _ Ha).
Qed.

(** An object made and dropped. *)
Lemma building_skip w0 rho ll ds w :
  building w0 rho ll ds w ->
  building w0 rho ll ds (set_next (Pos.succ (w_next w)) w).
Proof.
  intros [H1 [[F1 F2 F3 F4] [N1 N2 N3]] [] H4 H5].
  split; [exact H1|split; [split|by split]|split; simpl; try done; lia|exact H4|exact H5].
  - intros l o Hl. apply F1 in Hl. simpl. lia.
  - exact F2.
  - exact F3.
  - exact F4.
Qed.

(** A string made and appended. *)
Lemma building_str {A} w0 rho ll ds w s (k : unit -> M K A) :
  building w0 rho ll ds w -> utf8_valid (cstr s) = true ->
  exists w2, building w0 rho ll (ds ++ [DStr (cstr s)]) w2 /\ w_env w2 = w_env w /\
    (p ← PyStr_FromString s; PyList_Append (Loc ll) p;; Py_DECREF p ≫= k) w = k tt w2.
Proof.
  intros Hb Hs. unfold PyStr_FromString. rewrite Hs.
  rewrite (bind_Ret _ _ _ _ _ (alloc_eq _ _)).
  set (w1 := set_next _ _).
  pose proof (wf_fresh_next _ _ _ (wf_hp _ _ (bld_wf _ _ _ _ _ Hb))) as Hfr.
  destruct (building_append w0 rho ll ds w w1 (w_next w) (VStr (cstr s))
    (DStr (cstr s)) k) as (w2 & Hb2 & He & Hk).
  - done.
  - apply only_new_alloc.
  - apply alloc_wf; [|by constructor]. eapply wf_eq; [apply (bld_wf _ _ _ _ _ Hb)|].
    unfold val_refs. simpl. multiset_solver.
  - apply lookup_insert_eq.
  - by apply keeps_insert_fresh.
  - exists (w_next w). split; [done|]. apply lookup_insert_eq.
  - done.
  - by eapply (made_simple w), I; apply Hb.
  - by exists w2.
Qed.

(** Opening and closing a stream meanwhile. *)
Lemma building_io w0 rho ll ds w n k :
  building w0 rho ll ds w ->
  building (set_files n w0) rho ll ds (set_files n (set_env k w)).
Proof.
  intros [H1 [Hh [N1 N2 N3]] [] H4 H5].
  split; [exact H1|split; [exact Hh|by split]|by split|exact H4|exact H5].
Qed.

Lemma building_close w0 rho ll ds w n :
  building (set_files n w0) rho ll ds w ->
  building w0 rho ll ds (set_files (w_files w0) w).
Proof.
  intros [H1 [Hh [N1 N2 N3]] [] H4 H5].
  split; [exact H1|split; [exact Hh|by split]|by split|exact H4|exact H5].
Qed.
End building.
