(* ===== verification/Sound.v ===== *)
(** * Worlds in which everything is in order

    What the functions of etherinfo objects keep, whatever the state of the
    connection and of the object: counts are right for the references held
    ([wf]), objects are typed, and the connection is as it should be
    ([conn_ok]).  Temporaries the code drops are accounted for as leaked; they
    are strings and lists of addresses, so nothing depends on them ([inert]). *)
From S2P Require Import Prelude.
From S2P Require Import Platform.
From S2P Require Import CPython.
From S2P Require Import Netlink.
From S2P Require Import Objects.
From S2P Require Import Testbed.
From S2P Require Import NetlinkSpec.
From S2P Require Import RefCount.
From S2P Require Import Typing.
From S2P Require Import Containers.

(** ** Worlds that grow *)

(** The value of an object, but for the data of an [etherinfo] object the
    queries fill in. *)
Definition same_val (v v' : pyval) : Prop :=
  v' = v \/ exists e e', v = VEther e /\ v' = VEther e' /\ device e' = device e.

#[export] Instance same_val_preorder : PreOrder same_val.
Proof.
  split; [by left|]. intros v1 v2 v3 [->|(e & e' & -> & -> & E)] [->|(f & f' & ? & -> & F)];
    unfold same_val; simplify_eq; eauto 10. right. do 2 eexists. split; [done|].
  split; [done|congruence].
Qed.

Lemma same_val_kind v v' : same_val v v' -> same_kind v v'.
Proof. by intros [->|(e & e' & -> & -> & _)]. Qed.

(** Objects stay and keep their value, and no reference is given up; no list gets
    another holder. *)
Record extends {K} (w w' : world K) : Prop := {
  ex_next : (w_next w <= w_next w')%positive;
  ex_old i o : w_heap w !! i = Some o -> exists o', w_heap w' !! i = Some o' /\
    ob_refcnt o <= ob_refcnt o' /\ same_val (ob_val o) (ob_val o');
  ex_lists i rc ps : w_heap w !! i = Some (Obj rc (VList ps)) ->
    w_heap w' !! i = Some (Obj rc (VList ps));
  ex_fds : w_fds w' = w_fds w;
  ex_files : w_files w' = w_files w;
}.

#[export] Instance extends_preorder {K} : PreOrder (@extends K).
Proof.
  split.
  - intros w. split; try done. intros i o Hi. exists o. split; [done|]. split; [lia|done].
  - intros w1 w2 w3 [A1 A2 AL A3 A4] [B1 B2 BL B3 B4]. split; [lia| |by eauto|congruence..].
    intros i o (o2 & H2 & R2 & V2)%A2. destruct (B2 i o2 H2) as (o3 & H3 & R3 & V3).
    exists o3. split; [done|]. split; [lia|by etrans].
Qed.

Lemma extends_kinds {K} (w w' : world K) :
  extends w w' -> keeps_kinds (w_heap w) (w_heap w').
Proof.
  intros He i o (o' & Hi & _ & Hv)%(ex_old _ _ He). exists o'. split; [done|].
  by apply same_val_kind.
Qed.

(** Another object in the place of one. *)
Lemma extends_put {K} (w : world K) l o o' :
  w_heap w !! l = Some o -> ob_refcnt o <= ob_refcnt o' -> same_val (ob_val o) (ob_val o') ->
  (forall ps, ob_val o <> VList ps) -> extends w (set_heap (<[l := o']> (w_heap w)) w).
Proof.
  intros Hl Hr Hv Hn. split; try done; simpl.
  - intros i oi Hi. destruct (decide (l = i)) as [<-|Hne].
    + simplify_eq. exists o'. by rewrite lookup_insert_eq.
    + exists oi. rewrite lookup_insert_ne by done. split; [done|]. split; [lia|done].
  - intros i rc ps Hi. destruct (decide (l = i)) as [<-|Hne]; [|by rewrite lookup_insert_ne].
    simplify_eq. by destruct (Hn ps).
Qed.

(** A new object. *)
Lemma extends_alloc {K} (w : world K) rho v :
  wf w rho ->
  extends w (set_next (Pos.succ (w_next w)) (set_heap (<[w_next w := Obj 1 v]> (w_heap w)) w)).
Proof.
  intros Hw. pose proof (wf_fresh_next _ _ _ (wf_hp _ _ Hw)) as Hf.
  split; simpl; try done; [lia| |].
  - intros i o Hi. exists o. rewrite lookup_insert_ne by congruence.
    split; [done|]. split; [lia|done].
  - intros i rc ps Hi. rewrite lookup_insert_ne by congruence. done.
Qed.

(** The part of the world outside Python and the connection. *)
Lemma extends_frame {K} (w w' : world K) :
  w_heap w' = w_heap w -> w_next w' = w_next w -> w_fds w' = w_fds w ->
  w_files w' = w_files w -> extends w w'.
Proof.
  intros Eh En Ed Ef. split; rewrite ?Eh, ?En; [lia| |done..].
  intros i o Hi. exists o. split; [done|]. split; [lia|done].
Qed.

(** ** Sound worlds *)

Record sound {K} (w : world K) (refs : gmultiset positive) : Prop := {
  sd_wf : wf w refs;
  sd_typed : typed (w_heap w);
  sd_conn : conn_ok w;
}.

Section sound.
Context {K : Type} `{Platform K}.
Implicit Types (w : world K) (refs : gmultiset positive).

Lemma sound_eq w refs refs' : sound w refs -> refs = refs' -> sound w refs'.
Proof. by intros ? <-. Qed.

Lemma sound_boot (k : K) : sound (boot k) ∅.
Proof. split; [apply wf_boot|by intros l o|apply conn_ok_boot]. Qed.

(** Only the heap, the statics and the libnl objects matter. *)
Lemma sound_frame w w' refs :
  sound w refs -> w_heap w' = w_heap w -> w_next w' = w_next w ->
  w_nlc w' = w_nlc w -> w_nl w' = w_nl w -> (w_nlnext w <= w_nlnext w')%positive ->
  sound w' refs.
Proof.
  intros [[Hh [N1 N2 N3]] Ht Hc] Eh En Ec El Ex. split; [split| |].
  - by rewrite Eh, En.
  - split; rewrite ?Ec, ?El; [done|done|]. intros c o Hc'. apply N3 in Hc'. lia.
  - by rewrite Eh.
  - apply (conn_ok_frame w); [done..|by rewrite Eh].
Qed.

(** Objects of which nothing is known yet to be users of the connection. *)
Lemma users_extends w w' :
  (forall i o, w_heap w !! i = Some o -> exists o', w_heap w' !! i = Some o' /\
    (is_user o -> is_user o')) ->
  (size (users_of (w_heap w)) <= size (users_of (w_heap w')))%nat.
Proof.
  intros Hu. apply subseteq_size. intros i (o & Hi & Ho)%elem_of_users.
  destruct (Hu i o Hi) as (o' & Hi' & Ho'). apply elem_of_users. eauto.
Qed.

Lemma sound_alloc w refs v :
  sound w refs -> simple v ->
  sound (set_next (Pos.succ (w_next w)) (set_heap (<[w_next w := Obj 1 v]> (w_heap w)) w))
    ({[+ w_next w +]} ⊎ refs).
Proof.
  intros [Hw Ht Hc] Hv. pose proof (wf_fresh_next _ _ _ (wf_hp _ _ Hw)) as Hf.
  split; [by apply wf_alloc_simple| |].
  - apply typed_from_new; [done..|by apply simple_typed].
  - apply (conn_ok_frame w); [done..|]. apply users_extends. intros i o Hi. exists o.
    split; [|done]. simpl. rewrite lookup_insert_ne; congruence.
Qed.

(** A new reference to an object held, or to a field of one. *)
Lemma sound_incref w refs l o :
  sound w refs -> w_heap w !! l = Some o -> 0 < ob_refcnt o ->
  sound (set_heap (<[l := Obj (ob_refcnt o + 1) (ob_val o)]> (w_heap w)) w)
    ({[+ l +]} ⊎ refs).
Proof.
  intros [Hw Ht Hc] Hl Ho. split.
  - apply (wf_set_heap _ _ _ _ Hw). by apply wf_incref; [apply Hw|..].
  - apply typed_from_count; [done..|lia].
  - apply (conn_ok_frame w); [done..|]. simpl. by rewrite (users_same _ _ o).
Qed.

Lemma extends_incref w l o :
  w_heap w !! l = Some o -> (forall ps, ob_val o <> VList ps) ->
  extends w (set_heap (<[l := Obj (ob_refcnt o + 1) (ob_val o)]> (w_heap w)) w).
Proof. intros Hl Hn. eapply extends_put; [done|simpl; lia|done..]. Qed.

(** ** References dropped *)

Definition addr_at (h : gmap positive obj) (p : ptr) : Prop :=
  exists l rc a, p = Loc l /\ h !! l = Some (Obj rc (VAddr a)).

(** A string, or a list of addresses. *)
Definition inert_val (h : gmap positive obj) (v : pyval) : Prop :=
  match v with VStr _ => True | VList ps => Forall (addr_at h) ps | _ => False end.

(** No list among them has another holder. *)
Definition inert (h : gmap positive obj) (leaked : gmultiset positive) : Prop :=
  forall i, i ∈ leaked -> exists rc v, h !! i = Some (Obj rc v) /\ inert_val h v /\
    (forall ps, v = VList ps -> rc = 1).

Lemma addr_at_extends w w' p : extends w w' -> addr_at (w_heap w) p -> addr_at (w_heap w') p.
Proof.
  intros He (l & rc & a & -> & Hl). destruct (ex_old _ _ He l _ Hl) as ([rc' v] & Hl' & _ & Hv).
  destruct Hv as [E|(e & e' & E & _)]; simpl in E; [|done]. subst v. by exists l, rc', a.
Qed.

Lemma inert_extends w w' leaked :
  extends w w' -> inert (w_heap w) leaked -> inert (w_heap w') leaked.
Proof.
  intros He Hi i Hin. destruct (Hi i Hin) as (rc & v & Hl & Hv & Hrc).
  destruct v; try done.
  - destruct (ex_old _ _ He i _ Hl) as ([rc' v'] & Hl' & _ & [E|(e & e' & E & _)]);
      simpl in E; [|done]. subst v'. by exists rc', (VStr s).
  - apply (ex_lists _ _ He) in Hl. exists rc, (VList items). split; [done|]. split; [|done].
    simpl in *. eapply list.Forall_impl; [exact Hv|]. intros p. by apply addr_at_extends.
Qed.

Lemma inert_union h a b : inert h (a ⊎ b) <-> inert h a /\ inert h b.
Proof.
  split.
  - intros Hi. split; intros i Hin; apply Hi; multiset_solver.
  - intros [Ha Hb] i [Hin|Hin]%gmultiset_elem_of_disj_union; [by apply Ha|by apply Hb].
Qed.

Lemma inert_empty h : inert h ∅.
Proof. intros i Hi. multiset_solver. Qed.

Lemma inert_str h p : str_at h p -> inert h (ptr_refs p).
Proof.
  intros (l & rc & s & -> & Hl) i Hi. simpl in Hi.
  apply gmultiset_elem_of_singleton in Hi as ->. by exists rc, (VStr s).
Qed.

(** What has another holder is no list that has leaked. *)
Lemma inert_shared w leaked rho l rc ps :
  wf w (leaked ⊎ rho) -> inert (w_heap w) leaked -> l ∈ rho \/ l ∈ heap_refs (w_heap w) ->
  w_heap w !! l = Some (Obj rc (VList ps)) -> l ∉ leaked.
Proof.
  intros [Hh _] Hi Hl Ho Hin. destruct (Hi l Hin) as (rc' & v & Hv & _ & Hrc).
  rewrite Ho in Hv. injection Hv as <- <-. specialize (Hrc ps eq_refl).
  pose proof (wf_count _ _ _ Hh l) as Hc. rewrite (refcnt_of_Some _ _ _ Ho) in Hc. simpl in Hc.
  rewrite !multiplicity_disj_union in Hc.
  rewrite elem_of_multiplicity in Hin. rewrite !elem_of_multiplicity in Hl. lia.
Qed.

Lemma inert_incref w leaked rho l o :
  wf w (leaked ⊎ rho) -> inert (w_heap w) leaked -> w_heap w !! l = Some o ->
  l ∈ rho \/ l ∈ heap_refs (w_heap w) ->
  inert (<[l := Obj (ob_refcnt o + 1) (ob_val o)]> (w_heap w)) leaked.
Proof.
  intros Hw Hi Hl Hsh i Hin. destruct (Hi i Hin) as (rc & v & Hv & Hiv & Hrc).
  assert (forall p, addr_at (w_heap w) p ->
    addr_at (<[l := Obj (ob_refcnt o + 1) (ob_val o)]> (w_heap w)) p) as Haddr.
  { intros p (j & rj & a & -> & Hj). destruct (decide (l = j)) as [->|Hne].
    - simplify_eq. exists j, (rj + 1), a. by rewrite lookup_insert_eq.
    - exists j, rj, a. by rewrite lookup_insert_ne. }
  assert (inert_val (<[l := Obj (ob_refcnt o + 1) (ob_val o)]> (w_heap w)) v) as Hiv'.
  { destruct v; try done. simpl in *. by eapply list.Forall_impl. }
  destruct (decide (l = i)) as [->|Hne].
  - rewrite Hl in Hv. injection Hv as ->. exists (rc + 1), v. rewrite lookup_insert_eq.
    split; [done|]. split; [done|]. intros ps ->. by destruct (inert_shared w leaked rho i rc ps).
  - exists rc, v. by rewrite lookup_insert_ne.
Qed.

(** Since [w0], references have been dropped; the code holds [keep]. *)
Record drips (refs keep : gmultiset positive) (w0 w : world K) : Prop := {
  dr_sound : exists leaked, sound w (keep ⊎ (leaked ⊎ refs)) /\ inert (w_heap w) leaked;
  dr_ext : extends w0 w;
}.

Lemma drips_start w refs : sound w refs -> drips refs ∅ w w.
Proof.
  intros Hs. split; [|done]. exists ∅. split; [|apply inert_empty].
  eapply sound_eq; [done|]. multiset_solver.
Qed.

Lemma drips_leak refs keep w0 w p :
  drips refs (ptr_refs p ⊎ keep) w0 w -> str_at (w_heap w) p -> drips refs keep w0 w.
Proof.
  intros [(leaked & Hs & Hi) He] Hp. split; [|done]. exists (ptr_refs p ⊎ leaked). split.
  - eapply sound_eq; [done|]. multiset_solver.
  - apply inert_union. split; [by apply inert_str|done].
Qed.

Lemma drips_eq refs keep keep' w0 w :
  drips refs keep w0 w -> keep = keep' -> drips refs keep' w0 w.
Proof. by intros ? <-. Qed.

Lemma drips_alloc refs keep w0 w v :
  drips refs keep w0 w -> simple v ->
  drips refs ({[+ w_next w +]} ⊎ keep) w0
    (set_next (Pos.succ (w_next w)) (set_heap (<[w_next w := Obj 1 v]> (w_heap w)) w)).
Proof.
  intros [(leaked & Hs & Hi) He] Hv.
  pose proof (extends_alloc w _ v (sd_wf _ _ Hs)) as Hx. split; [|by etrans].
  exists leaked. split; [|by eapply inert_extends].
  eapply sound_eq; [by apply sound_alloc|]. multiset_solver.
Qed.

(** The rest of the world may change. *)
Lemma drips_frame refs keep w0 w w' :
  drips refs keep w0 w -> w_heap w' = w_heap w -> w_next w' = w_next w ->
  w_nlc w' = w_nlc w -> w_nl w' = w_nl w -> (w_nlnext w <= w_nlnext w')%positive ->
  w_fds w' = w_fds w -> w_files w' = w_files w -> drips refs keep w0 w'.
Proof.
  intros [(leaked & Hs & Hi) He] Eh En Ec El Ex Ed Ef. split.
  - exists leaked. split; [by eapply sound_frame|by rewrite Eh].
  - etrans; [done|]. by apply extends_frame.
Qed.

Lemma drips_incref refs keep w0 w l o :
  drips refs keep w0 w -> w_heap w !! l = Some o -> 0 < ob_refcnt o ->
  (forall ps, ob_val o <> VList ps) ->
  drips refs ({[+ l +]} ⊎ keep) w0
    (set_heap (<[l := Obj (ob_refcnt o + 1) (ob_val o)]> (w_heap w)) w).
Proof.
  intros [(leaked & Hs & Hi) He] Hl Ho Hn. pose proof (extends_incref w l o Hl Hn) as Hx.
  split; [|by etrans]. exists leaked. split; [|by eapply inert_extends].
  eapply sound_eq; [by apply sound_incref|]. multiset_solver.
Qed.

(** ** Strings *)

(** [p] is a string with these characters. *)
Definition str_is (h : gmap positive obj) (p : ptr) (s : string) : Prop :=
  exists l rc, p = Loc l /\ h !! l = Some (Obj rc (VStr s)).

Lemma str_is_at h p s : str_is h p s -> str_at h p.
Proof. intros (l & rc & -> & Hl). by exists l, rc, s. Qed.

Lemma str_at_is h p : str_at h p -> exists s, str_is h p s.
Proof. intros (l & rc & s & -> & Hl). by exists s, l, rc. Qed.

Lemma str_is_extends w w' p s : extends w w' -> str_is (w_heap w) p s -> str_is (w_heap w') p s.
Proof.
  intros He (l & rc & -> & Hl). destruct (ex_old _ _ He l _ Hl) as ([rc' v] & Hl' & _ & Hv).
  destruct Hv as [E|(e & e' & E & _)]; simpl in E; [|done]. subst v. by exists l, rc'.
Qed.

Lemma str_is_not_null h p s : str_is h p s -> is_null p = false.
Proof. by intros (l & rc & -> & _). Qed.

Lemma str_is_peek w p s : str_is (w_heap w) p s -> peek p w = Ret (VStr s) w.
Proof. intros (l & rc & -> & Hl). by rewrite (peek_eq _ _ _ Hl). Qed.

Lemma as_string_eq w p s :
  str_is (w_heap w) p s -> PyStr_AsString_nonnull p w = Ret (cstr s) w.
Proof.
  intros Hp. unfold PyStr_AsString_nonnull, PyStr_AsString.
  by rewrite bind_assoc, (bind_Ret _ _ _ _ _ (str_is_peek _ _ _ Hp)).
Qed.

(** What an operation that makes the string [s] comes to. *)
Definition makes_str refs keep w0 (s : string) (w : world K) (p : ptr) (w' : world K) : Prop :=
  drips refs (ptr_refs p ⊎ keep) w0 w' /\ str_is (w_heap w') p s /\ extends w w' /\
  w_env w' = w_env w /\ only_new w w'.

Lemma alloc_str_ok refs keep w0 w s :
  drips refs keep w0 w -> wp (alloc (VStr s)) (makes_str refs keep w0 s w) w.
Proof.
  intros Hd. pose proof (dr_sound _ _ _ _ Hd) as (leaked & Hs & _).
  split; [by apply (drips_alloc _ _ _ _ (VStr s))|].
  split; [|split; [|split; [done|apply only_new_alloc]]].
  - exists (w_next w), 1. split; [done|]. apply lookup_insert_eq.
  - eapply extends_alloc, Hs.
Qed.

Lemma concat_ok refs keep w0 w p q s t :
  drips refs keep w0 w -> str_is (w_heap w) p s -> str_is (w_heap w) q t ->
  wp (PyStr_Concat p q) (makes_str refs keep w0 (s +:+ t) w) w.
Proof.
  intros Hd Hp Hq. unfold PyStr_Concat.
  eapply wp_step; [by apply str_is_peek|]. eapply wp_step; [by apply str_is_peek|].
  by apply alloc_str_ok.
Qed.

(** A concatenation that drops its left operand. *)
Lemma concat_drop_ok refs keep w0 w p q s t :
  drips refs (ptr_refs p ⊎ keep) w0 w -> str_is (w_heap w) p s -> str_is (w_heap w) q t ->
  wp (PyStr_Concat p q) (makes_str refs keep w0 (s +:+ t) w) w.
Proof.
  intros Hd Hp Hq. apply concat_ok; [|done..]. eapply drips_leak; [exact Hd|].
  by eapply str_is_at.
Qed.
End sound.
