(* ===== verification/Ioctl.v ===== *)
(** * ethtool.c: queries by [ioctl]

    The functions of the module that open a control socket, put one request to
    the kernel about the device named by the caller, close the socket and turn
    the answer into a Python object. *)
From S2P Require Import Prelude.
From S2P Require Import Platform.
From S2P Require Import CPython.
From S2P Require Import Stdio.
From S2P Require Import EthtoolH.

(** ** Requests *)

(** [memset(&ifr, 0, sizeof ifr)], [strncpy(&ifr.ifr_name[0], devname, n)],
    [ifr.ifr_name[IFNAMSIZ - 1] = 0]: the part of the name array [strncpy] does
    not reach keeps its zero. *)
Definition make_ifreq (n usize : nat) (devname : string) : ifreq :=
  Ifreq (<[pred IFNAMSIZ := x00]>
           (strncpy n devname ++ replicate (IFNAMSIZ - n) x00))
        (replicate usize x00).

(** [ifr.ifr_hwaddr.sa_data], and likewise [ifr_addr], [ifr_netmask] and
    [ifr_broadaddr]: a [struct sockaddr] holds a 16-bit family and the data. *)
Definition sa_data (r : ifreq) (i : nat) : byte :=
  default x00 (ifr_ifru r !! (2 + i)%nat).

(** [ifr.ifr_flags], a [short]. *)
Definition ifr_flags (r : ifreq) : Z := s16 (le_val (take 2 (ifr_ifru r))).

(** [(unsigned int)c % 256] for a [char] that is signed or not. *)
Definition char_mod_256 (signed_char : bool) (b : byte) : Z :=
  u32 (if signed_char then s8 (byte_val b) else byte_val b) mod 256.

Section ioctl.
Context {K : Type} `{Platform K}.
Local Abbreviation M := (M K).

(** The sequence every query repeats. *)
Definition dev_query (req : Z) (ifr : ifreq) (data : list mbyte)
    (failed : M ptr) (answer : ifreq -> list mbyte -> M ptr) : M ptr :=
  fd ← socket_dgram;
  if fd <? 0 then PyErr_SetFromErrno PyExc_OSError
  else
    '(err, ifr, data) ← ioctl fd req ifr data;
    if err <? 0 then
      PyErr_SetFromErrno PyExc_IOError;; close fd;; failed
    else close fd;; answer ifr data.

(** Parsing the device name and querying. *)
Definition name_query (req : Z) (n usize : nat) (data : list mbyte)
    (failed : string -> M ptr) (answer : ifreq -> list mbyte -> M ptr)
    (args : list ptr) : M ptr :=
  devname ← PyArg_ParseTuple_s args;
  match devname with
  | None => mret Null
  | Some devname =>
      dev_query req (make_ifreq n usize devname) data (failed devname) answer
  end.

Definition no_fallback (devname : string) : M ptr := mret Null.

(** [sprintf] into the [char[20]] buffers. *)
Definition fmt_hwaddr (v : nat -> Z) : string :=
  fmt_02x (v 0%nat) +:+ ":" +:+ fmt_02x (v 1%nat) +:+ ":" +:+ fmt_02x (v 2%nat)
    +:+ ":" +:+ fmt_02x (v 3%nat) +:+ ":" +:+ fmt_02x (v 4%nat) +:+ ":"
    +:+ fmt_02x (v 5%nat).

Definition fmt_ipv4 (v : nat -> Z) : string :=
  fmt_u (v 2%nat) +:+ "." +:+ fmt_u (v 3%nat) +:+ "." +:+ fmt_u (v 4%nat)
    +:+ "." +:+ fmt_u (v 5%nat).

Definition sprintf_limit : nat := 20.

Definition sprintf (s : string) : M string :=
  if decide (String.length s < sprintf_limit)%nat then mret s
  else raise OutOfBounds.

Context (signed_char : bool).

Definition sa_values (r : ifreq) (i : nat) : Z :=
  char_mod_256 signed_char (sa_data r i).

Definition get_hwaddress : list ptr -> M ptr :=
  name_query SIOCGIFHWADDR IFNAMSIZ IFRU_SIZE [] no_fallback (fun ifr _ =>
    hwaddr ← sprintf (fmt_hwaddr (sa_values ifr)); PyStr_FromString hwaddr).

Definition get_ipaddress : list ptr -> M ptr :=
  name_query SIOCGIFADDR IFNAMSIZ IFRU_SIZE [] no_fallback (fun ifr _ =>
    ipaddr ← sprintf (fmt_ipv4 (sa_values ifr)); PyStr_FromString ipaddr).

Definition get_netmask : list ptr -> M ptr :=
  name_query SIOCGIFNETMASK IFNAMSIZ IFRU_SIZE [] no_fallback (fun ifr _ =>
    netmask ← sprintf (fmt_ipv4 (sa_values ifr)); PyStr_FromString netmask).

Definition get_broadcast : list ptr -> M ptr :=
  name_query SIOCGIFBRDADDR IFNAMSIZ IFRU_SIZE [] no_fallback (fun ifr _ =>
    broadcast ← sprintf (fmt_ipv4 (sa_values ifr)); PyStr_FromString broadcast).

(** [Py_BuildValue("h", ifr.ifr_flags)]. *)
Definition get_flags : list ptr -> M ptr :=
  name_query SIOCGIFFLAGS IFNAMSIZ IFRU_SIZE [] no_fallback (fun ifr _ =>
    PyLong_FromLong (ifr_flags ifr)).

(** [strncpy(iwr.ifr_name, devname, IFNAMSIZ-1)]; [iwr.u.name] is the union. *)
Definition get_wireless_protocol : list ptr -> M ptr :=
  name_query SIOCGIWNAME (pred IFNAMSIZ) IWRU_SIZE [] no_fallback (fun iwr _ =>
    PyStr_FromArray (Some <$> ifr_ifru iwr)).

(** ** Driver information *)

(** [memcpy(&buf, &ecmd, sizeof(ecmd))] into a buffer of [n] bytes not yet
    written, [ecmd] being zero but for its [cmd]. *)
Definition drvinfo_buf (n : nat) : list mbyte :=
  (Some <$> le_bytes 4 ETHTOOL_GDRVINFO)
    ++ replicate (sizeof ethtool_cmd - 4) (Some x00)
    ++ replicate (n - sizeof ethtool_cmd) None.

Definition get_businfo : list ptr -> M ptr :=
  name_query SIOCETHTOOL IFNAMSIZ IFRU_SIZE (drvinfo_buf 1024) no_fallback
    (fun _ buf => PyStr_FromArray (drop (offsetof ethtool_drvinfo "bus_info") buf)).

Definition stab_path : string := "/var/lib/pcmcia/stab".

(** [sscanf(buf, "%*d\t%*s\t%100s\t%*d\t%100s\n", driver, dev)]: the number
    of assignments (a failure before the first counts as 0) and the arrays,
    whose contents stay when not assigned. *)
Definition scan_stab (buf : string) (driver dev : option string)
    : nat * option string * option string :=
  match scan_skip_d buf with
  | None => (0%nat, driver, dev)
  | Some s =>
      match scan_s (String.length s) s with
      | None => (0%nat, driver, dev)
      | Some (_, s) =>
          match scan_s 100 s with
          | None => (0%nat, driver, dev)
          | Some (w, s) =>
              match scan_skip_d s with
              | None => (1%nat, Some w, dev)
              | Some s =>
                  match scan_s 100 s with
                  | None => (1%nat, Some w, dev)
                  | Some (w', _) => (2%nat, Some w, Some w')
                  end
              end
          end
      end
  end.

(** [a[99] = '\0'] on an array holding a string, or nothing yet. *)
Definition cut_99 (a : option string) : option string :=
  String.substring 0 99 <$> a.

(** The loop over the PCMCIA table: the driver of the device, if found.
    [None] for an array means it was never written: comparing with it is
    undefined. *)
Fixpoint stab_loop (fuel : nat) (devname : string) (file : string) (eof : bool)
    (driver dev : option string) : M (option string) :=
  match fuel with
  | O => raise OutOfFuel
  | S fuel =>
      if eof then mret None
      else
        match fgets 2048 file with
        | None => mret None
        | Some (line, file, eof) =>
            let buf := cstr line in
            if String.prefix "Socket" buf then
              stab_loop fuel devname file eof driver dev
            else
              let '(n, driver, dev) := scan_stab buf driver dev in
              if (n =? 0)%nat then
                stab_loop fuel devname file eof driver dev
              else
                let driver := cut_99 driver in
                let dev := cut_99 dev in
                match dev with
                | None => raise UninitUse
                | Some d =>
                    if String.eqb devname d then mret driver
                    else stab_loop fuel devname file eof driver dev
                end
        end
  end.

(** Before bailing out, maybe it is a PCMCIA card. *)
Definition pcmcia_fallback (devname : string) : M ptr :=
  file ← fopen stab_path;
  match file with
  | None => mret Null
  | Some file =>
      driver ← stab_loop (S (String.length file)) devname file false None None;
      fclose;;
      match driver with
      | None => mret Null
      | Some driver => PyErr_Clear;; PyStr_FromString driver
      end
  end.

Definition get_module : list ptr -> M ptr :=
  name_query SIOCETHTOOL IFNAMSIZ IFRU_SIZE (drvinfo_buf 2048) pcmcia_fallback
    (fun _ buf => PyStr_FromArray (drop (offsetof ethtool_drvinfo "driver") buf)).

(** ** Single values and structures *)

(** [send_command]: the result, and what is left in [*value]. *)
Definition send_command (cmd : Z) (devname : string) (value : list mbyte)
    : M (Z * list mbyte) :=
  match write_u32 (offsetof ethtool_value "cmd") cmd value with
  | None => raise OutOfBounds
  | Some value =>
      fd ← socket_dgram;
      if fd <? 0 then PyErr_SetFromErrno PyExc_OSError;; mret (-1, value)
      else
        '(err, _, value) ←
          ioctl fd SIOCETHTOOL (make_ifreq IFNAMSIZ IFRU_SIZE devname) value;
        (if err <? 0 then PyErr_SetFromErrno PyExc_IOError;; mret tt else mret tt);;
        close fd;;
        mret (err, value)
  end.

Definition get_dev_value (cmd : Z) (args : list ptr) (value : list mbyte)
    : M (Z * list mbyte) :=
  devname ← PyArg_ParseTuple_s args;
  match devname with
  | Some devname => send_command cmd devname value
  | None => mret (-1, value)
  end.

(** A structure on the stack, before anything is stored in it. *)
Definition uninit_struct (fs : list cfield) : list mbyte :=
  replicate (sizeof fs) None.

(** The result and the variable [*value]. *)
Definition get_dev_int_value (cmd : Z) (args : list ptr) (value : Z)
    : M (Z * Z) :=
  '(rc, eval) ← get_dev_value cmd args (uninit_struct ethtool_value);
  if rc =? 0 then
    match read_u32 (offsetof ethtool_value "data") eval with
    | Some d => mret (rc, s32 d)
    | None => raise UninitUse
    end
  else mret (rc, value).

Definition dev_set_int_value (cmd : Z) (args : list ptr) : M Z :=
  p ← PyArg_ParseTuple_si args;
  match p with
  | None => mret (-1)
  | Some (devname, i) =>
      match write_u32 (offsetof ethtool_value "data") i
              (uninit_struct ethtool_value) with
      | None => raise OutOfBounds
      | Some eval => '(r, _) ← send_command cmd devname eval; mret r
      end
  end.

(** The bodies of the one-value getters and setters; [Py_BuildValue("b", n)]
    makes an integer of the [int] it is passed. *)
Definition get_value (cmd : Z) (args : list ptr) : M ptr :=
  '(r, value) ← get_dev_int_value cmd args 0;
  if r <? 0 then mret Null else PyLong_FromLong value.

Definition set_value (cmd : Z) (args : list ptr) : M ptr :=
  r ← dev_set_int_value cmd args;
  if r <? 0 then mret Null else mret PyNone.

Definition get_tso : list ptr -> M ptr := get_value ETHTOOL_GTSO.
Definition set_tso : list ptr -> M ptr := set_value ETHTOOL_STSO.
Definition get_ufo : list ptr -> M ptr := get_value ETHTOOL_GUFO.
Definition get_gso : list ptr -> M ptr := get_value ETHTOOL_GGSO.
Definition set_gso : list ptr -> M ptr := set_value ETHTOOL_SGSO.
Definition get_gro : list ptr -> M ptr := get_value ETHTOOL_GGRO.
Definition set_gro : list ptr -> M ptr := set_value ETHTOOL_SGRO.
Definition get_sg : list ptr -> M ptr := get_value ETHTOOL_GSG.
End ioctl.
