(* ===== verification/IoctlFacts.v ===== *)
(** * Properties of the queries by [ioctl] *)
From S2P Require Import Prelude.
From S2P Require Import Platform.
From S2P Require Import CPython.
From S2P Require Import RefCount.
From S2P Require Import Typing.
From S2P Require Import Containers.
From S2P Require Import Stdio.
From S2P Require Import EthtoolH.
From S2P Require Import Ioctl.
From S2P Require Import Testbed.

(** ** Changes that leave the Python side alone *)

(** Only the platform, [errno] and the descriptors moved, and no descriptor was
    left open. *)
Record calm {K} (w w' : world K) : Prop := {
  calm_heap : w_heap w' = w_heap w;
  calm_next : w_next w' = w_next w;
  calm_nlc : w_nlc w' = w_nlc w;
  calm_nl : w_nl w' = w_nl w;
  calm_nlnext : w_nlnext w' = w_nlnext w;
  calm_fds : w_fds w' ⊆ w_fds w;
  calm_files : w_files w' = w_files w;
}.

Lemma calm_refl {K} (w : world K) : calm w w.
Proof. by split. Qed.

Lemma calm_trans {K} (w1 w2 w3 : world K) : calm w1 w2 -> calm w2 w3 -> calm w1 w3.
Proof. intros [] []. split; [congruence..| |congruence]. by etrans. Qed.

Lemma wf_calm {K} (w w' : world K) rho : calm w w' -> wf w rho -> wf w' rho.
Proof.
  intros [] [Hh [H1 H2 H3]]. split; [congruence|].
  split; rewrite ?calm_nlc0, ?calm_nl0, ?calm_nlnext0; done.
Qed.

(** ** The contract of a function called from Python

    It returns a new reference and leaves no exception pending, or returns
    [NULL] with an exception; no descriptor or stream stays open; every
    reference is accounted for. *)
Definition api_post {K} (rho : gmultiset positive) (w : world K)
    (r : ptr) (w' : world K) : Prop :=
  wf w' (ptr_refs r ⊎ rho) /\ (r = Null <-> w_err w' <> None) /\
  w_fds w' ⊆ w_fds w /\ w_files w' = w_files w /\ grows w w'.

Lemma grows_calm {K} rho (w w' : world K) : wf w rho -> calm w w' -> grows w w'.
Proof.
  intros Hw [Hh Hn]. split; rewrite ?Hh, ?Hn; try done. apply typed_from_none, Hw.
Qed.

Lemma null_api {K} rho (w w' : world K) :
  wf w rho -> calm w w' -> w_err w' <> None -> api_post rho w Null w'.
Proof.
  intros Hw Hc Hx.
  split; [|split; [done|split; [apply Hc|split; [apply Hc|by eapply grows_calm]]]].
  simpl. rewrite (left_id_L ∅ (⊎)). by apply (wf_calm w).
Qed.

Lemma none_api {K} rho (w w' : world K) :
  wf w rho -> calm w w' -> w_err w' = None -> api_post rho w PyNone w'.
Proof.
  intros Hw Hc Hx.
  split; [|split; [by rewrite Hx|split; [apply Hc|split; [apply Hc|by eapply grows_calm]]]].
  simpl. rewrite (left_id_L ∅ (⊎)). by apply (wf_calm w).
Qed.

(** The result is a new object. *)
Lemma alloc_api {K} rho (w : world K) v :
  wf w rho -> w_err w = None -> simple v -> wp (alloc v) (api_post rho w) w.
Proof.
  intros Hw He Hv. split; [by apply wf_alloc_simple|]. split; [simpl; by rewrite He|].
  split; [done|]. split; [done|]. by eapply grows_simple.
Qed.

Lemma api_calm {K} rho (w w1 : world K) r w' :
  calm w w1 -> api_post rho w1 r w' -> api_post rho w r w'.
Proof.
  intros [] (H1 & H2 & H3 & H4 & []). split; [done|]. split; [done|].
  split; [by etrans|]. split; [congruence|].
  split; rewrite <- ?calm_heap0, <- ?calm_next0; congruence || done.
Qed.

Lemma calm_io {K} (w : world K) fd k x :
  calm w (set_err x (set_fds (w_fds w ∖ {[fd]}) (set_env k w))).
Proof. split; simpl; try done. set_solver. Qed.

(** Argument objects are there. *)
Definition args_ok {K} (w : world K) (args : list ptr) : Prop :=
  Forall (fun p => p = PyNone \/ exists l o, p = Loc l /\ w_heap w !! l = Some o) args.

Section facts.
Context {K : Type} `{Platform K}.
Implicit Types w : world K.

Lemma open_then_close (fd : Z) (fds : gset Z) :
  ({[fd]} ∪ fds) ∖ {[fd]} = fds ∖ {[fd]}.
Proof. set_solver. Qed.

Lemma just_opened (fd : Z) (fds : gset Z) : fd ∈ {[fd]} ∪ fds.
Proof. set_solver. Qed.

Lemma closed_not_open (fd : Z) (fds : gset Z) : ~ (fd ∈ fds ∖ {[fd]}).
Proof. set_solver. Qed.

(** ** Arguments *)

Lemma peek_ok w p :
  (p = PyNone \/ exists l o, p = Loc l /\ w_heap w !! l = Some o) ->
  exists v, peek p w = Ret v w.
Proof.
  intros [->|(l & o & -> & Hl)]; [by exists VOther|].
  exists (ob_val o). by apply peek_eq.
Qed.

Lemma conv_s_cases w p :
  (p = PyNone \/ exists l o, p = Loc l /\ w_heap w !! l = Some o) ->
  (exists s, conv_s p w = Ret (Some s) w /\ has_nul s = false
     /\ peek p w = Ret (VStr s) w)
  \/ exists k, conv_s p w = Ret None (set_err (Some (PyExc k ExcRuntime)) w).
Proof.
  intros Hp. destruct (peek_ok w p Hp) as [v Hv].
  unfold conv_s. erewrite bind_Ret by exact Hv.
  destruct v; try (right; eexists; reflexivity).
  destruct (has_nul s) eqn:E; [right; eexists; reflexivity|].
  left. exists s. by rewrite E.
Qed.

Lemma parse_s_cases w args :
  args_ok w args ->
  (exists s, PyArg_ParseTuple_s args w = Ret (Some s) w /\ has_nul s = false)
  \/ exists k, PyArg_ParseTuple_s args w
       = Ret None (set_err (Some (PyExc k ExcRuntime)) w).
Proof.
  intros Ha. destruct args as [|p [|q args]]; simpl.
  - right. by exists PyExc_TypeError.
  - apply Forall_cons_1 in Ha as [Ha _].
    destruct (conv_s_cases w p Ha) as [(s & ? & ? & ?)|?]; [left; by exists s|by right].
  - right. by exists PyExc_TypeError.
Qed.

Lemma parse_si_cases w args :
  args_ok w args ->
  (exists s i, PyArg_ParseTuple_si args w = Ret (Some (s, i)) w
     /\ INT_MIN <= i <= INT_MAX)
  \/ exists k, PyArg_ParseTuple_si args w
       = Ret None (set_err (Some (PyExc k ExcRuntime)) w).
Proof.
  intros Ha. destruct args as [|p [|q [|]]]; try (right; by exists PyExc_TypeError).
  apply Forall_cons_1 in Ha as [Hp [Hq _]%Forall_cons_1]. simpl.
  destruct (conv_s_cases w p Hp) as [(s & Hs & _)|[k Hs]];
    rewrite (bind_Ret _ _ _ _ _ Hs); [|right; by exists k].
  destruct (peek_ok w q Hq) as [v Hv]. unfold conv_i.
  rewrite bind_assoc, (bind_Ret _ _ _ _ _ Hv).
  destruct v; try (right; eexists; reflexivity).
  case_decide; [|right; eexists; reflexivity]. left. by exists s, z.
Qed.

(** ** One query *)

(** [dev_query] as what becomes of the world. *)
Lemma dev_query_eq req ifr data (failed : M K ptr) answer w :
  dev_query req ifr data failed answer w =
  let '((fd, e), k1) := sys_socket (w_env w) in
  if fd <? 0 then
    Ret Null (set_err (Some (PyExc PyExc_OSError (ExcErrno e)))
      (set_errno e (set_env k1 w)))
  else
    let '(rep, k2) := sys_ioctl fd req ifr data k1 in
    let w2 := set_fds (w_fds w ∖ {[fd]}) (set_env k2 w) in
    if io_ret rep <? 0 then
      failed (set_err (Some (PyExc PyExc_IOError (ExcErrno (io_errno rep))))
        (set_errno (io_errno rep) w2))
    else answer (io_ifr rep) (io_data rep) w2.
Proof.
  unfold dev_query, socket_dgram, ioctl, close.
  destruct w as [h n er x nlc nl nn fds fs se k]. mrun.
  destruct (sys_socket k) as [[fd e] k1]. mrun.
  destruct (fd <? 0) eqn:Efd; mrun; rewrite Efd; mrun; [done|].
  destruct (sys_ioctl fd req ifr data k1) as [rep k2].
  pose proof (open_then_close fd fds) as Ef.
  destruct (io_ret rep <? 0) eqn:Er; mrun; rewrite Er; mrun;
    (rewrite decide_True by apply just_opened); by rewrite Ef.
Qed.

(** ** Queries of a known device name *)

(** The argument tuple holds one string without NUL. *)
Definition name_arg w (args : list ptr) (s : string) : Prop :=
  has_nul s = false /\ exists l rc, args = [Loc l] /\ w_heap w !! l = Some (Obj rc (VStr s)).

Lemma parse_s_name w args s :
  name_arg w args s -> PyArg_ParseTuple_s args w = Ret (Some s) w.
Proof.
  intros (Hn & l & rc & -> & Hl). simpl. unfold conv_s.
  erewrite bind_Ret by (by apply peek_eq). simpl. by rewrite Hn.
Qed.

Lemma parse_si_name w l rc s l' rc' i :
  has_nul s = false -> w_heap w !! l = Some (Obj rc (VStr s)) ->
  w_heap w !! l' = Some (Obj rc' (VInt i)) -> INT_MIN <= i <= INT_MAX ->
  PyArg_ParseTuple_si [Loc l; Loc l'] w = Ret (Some (s, i)) w.
Proof.
  intros Hn Hl Hl' Hi. simpl. unfold conv_s. rewrite bind_assoc.
  erewrite bind_Ret by (by apply peek_eq). simpl. rewrite Hn. unfold conv_i.
  rewrite bind_ret_l, bind_assoc. erewrite bind_Ret by (by apply peek_eq).
  simpl. by rewrite decide_True.
Qed.

(** ** Requests to the ethtool interface *)

(** [send_command] as what becomes of the world. *)
Lemma send_command_eq cmd devname value value' w :
  write_u32 (offsetof ethtool_value "cmd") cmd value = Some value' ->
  send_command cmd devname value w =
  let '((fd, e), k1) := sys_socket (w_env w) in
  if fd <? 0 then
    Ret (-1, value') (set_err (Some (PyExc PyExc_OSError (ExcErrno e)))
      (set_errno e (set_env k1 w)))
  else
    let '(rep, k2) :=
      sys_ioctl fd SIOCETHTOOL (make_ifreq IFNAMSIZ IFRU_SIZE devname) value' k1 in
    let w2 := set_fds (w_fds w ∖ {[fd]}) (set_env k2 w) in
    Ret (io_ret rep, io_data rep)
      (if io_ret rep <? 0 then
         set_err (Some (PyExc PyExc_IOError (ExcErrno (io_errno rep))))
           (set_errno (io_errno rep) w2)
       else w2).
Proof.
  intros Hv. unfold send_command. rewrite Hv. unfold socket_dgram, ioctl, close.
  destruct w as [h n er x nlc nl nn fds fs se k]. mrun.
  destruct (sys_socket k) as [[fd e] k1]. mrun.
  destruct (fd <? 0) eqn:Efd; mrun; rewrite Efd; mrun; [done|].
  destruct (sys_ioctl fd _ _ value' k1) as [rep k2].
  pose proof (open_then_close fd fds) as Ef.
  destruct (io_ret rep <? 0) eqn:Er; mrun; rewrite Er; mrun;
    (rewrite decide_True by apply just_opened); by rewrite Ef.
Qed.

(** The buffer of a one-value request, with the value set or not. *)
Definition value_request (cmd : Z) (data : option Z) : list mbyte :=
  (Some <$> le_bytes 4 cmd)
    ++ match data with
       | Some i => Some <$> le_bytes 4 i
       | None => replicate 4 None
       end.

Lemma write_cmd_get cmd :
  write_u32 (offsetof ethtool_value "cmd") cmd (uninit_struct ethtool_value)
    = Some (value_request cmd None).
Proof. done. Qed.

Lemma write_data_set i :
  write_u32 (offsetof ethtool_value "data") i (uninit_struct ethtool_value)
    = Some (replicate 4 None ++ (Some <$> le_bytes 4 i)).
Proof. done. Qed.

Lemma write_cmd_set cmd i :
  write_u32 (offsetof ethtool_value "cmd") cmd
      (replicate 4 None ++ (Some <$> le_bytes 4 i))
    = Some (value_request cmd (Some i)).
Proof. done. Qed.

(** [get_value] when the name is known. *)
Lemma get_value_eq cmd args s w :
  PyArg_ParseTuple_s args w = Ret (Some s) w ->
  get_value cmd args w =
  let '((fd, e), k1) := sys_socket (w_env w) in
  if fd <? 0 then
    Ret Null (set_err (Some (PyExc PyExc_OSError (ExcErrno e)))
      (set_errno e (set_env k1 w)))
  else
    let '(rep, k2) := sys_ioctl fd SIOCETHTOOL (make_ifreq IFNAMSIZ IFRU_SIZE s)
      (value_request cmd None) k1 in
    let w2 := set_fds (w_fds w ∖ {[fd]}) (set_env k2 w) in
    if io_ret rep <? 0 then
      Ret Null (set_err (Some (PyExc PyExc_IOError (ExcErrno (io_errno rep))))
           (set_errno (io_errno rep) w2))
    else if io_ret rep =? 0 then
      match read_u32 4 (io_data rep) with
      | Some d => PyLong_FromLong (s32 d) w2
      | None => Fault UninitUse
      end
    else PyLong_FromLong 0 w2.
Proof.
  intros Hs. unfold get_value, get_dev_int_value, get_dev_value.
  rewrite bind_assoc, bind_assoc, (bind_Ret _ _ _ _ _ Hs). cbn beta iota.
  pose proof (send_command_eq cmd s _ _ w (write_cmd_get cmd)) as Hc.
  destruct (sys_socket (w_env w)) as [[fd e] k1].
  destruct (fd <? 0) eqn:Ef; [by rewrite (bind_Ret _ _ _ _ _ Hc)|].
  destruct (sys_ioctl fd SIOCETHTOOL _ _ k1) as [rep k2]. cbv zeta in *.
  rewrite (bind_Ret _ _ _ _ _ Hc). cbn beta iota.
  destruct (Z.eqb_spec (io_ret rep) 0) as [E|E].
  - rewrite E. simpl. change (offsetof ethtool_value "data") with 4%nat.
    by destruct (read_u32 4 (io_data rep)).
  - rewrite bind_ret_l. cbn beta iota. by destruct (io_ret rep <? 0).
Qed.

(** [set_value] on a name and an [int]. *)
Lemma set_value_eq cmd l rc s l' rc' i w :
  has_nul s = false -> w_heap w !! l = Some (Obj rc (VStr s)) ->
  w_heap w !! l' = Some (Obj rc' (VInt i)) -> INT_MIN <= i <= INT_MAX ->
  set_value cmd [Loc l; Loc l'] w =
  let '((fd, e), k1) := sys_socket (w_env w) in
  if fd <? 0 then
    Ret Null (set_err (Some (PyExc PyExc_OSError (ExcErrno e)))
      (set_errno e (set_env k1 w)))
  else
    let '(rep, k2) := sys_ioctl fd SIOCETHTOOL (make_ifreq IFNAMSIZ IFRU_SIZE s)
      (value_request cmd (Some i)) k1 in
    let w2 := set_fds (w_fds w ∖ {[fd]}) (set_env k2 w) in
    if io_ret rep <? 0 then
      Ret Null (set_err (Some (PyExc PyExc_IOError (ExcErrno (io_errno rep))))
           (set_errno (io_errno rep) w2))
    else Ret PyNone w2.
Proof.
  intros. unfold set_value, dev_set_int_value. rewrite bind_assoc.
  erewrite bind_Ret by (by eapply parse_si_name). cbn beta iota.
  rewrite write_data_set, bind_assoc.
  pose proof (send_command_eq cmd s _ _ w (write_cmd_set cmd i)) as Hc.
  destruct (sys_socket (w_env w)) as [[fd e] k1].
  destruct (fd <? 0) eqn:Ef; [by rewrite (bind_Ret _ _ _ _ _ Hc)|].
  destruct (sys_ioctl fd SIOCETHTOOL _ _ k1) as [rep k2]. cbv zeta in *.
  rewrite (bind_Ret _ _ _ _ _ Hc). rewrite bind_ret_l. cbn beta iota.
  by destruct (io_ret rep <? 0).
Qed.

End facts.

Section laws.
Context {K : Type} `{PL : PlatformLaws K}.
Implicit Types w : world K.

Lemma wp_dev_query req ifr data failed answer Q w :
  (forall e w', calm w w' -> w_err w' = Some (PyExc PyExc_OSError (ExcErrno e)) ->
     Q Null w') ->
  (forall e w', calm w w' -> w_err w' = Some (PyExc PyExc_IOError (ExcErrno e)) ->
     wp failed Q w') ->
  (forall ifr' data' w', calm w w' -> w_err w' = w_err w ->
     length (ifr_ifru ifr') = length (ifr_ifru ifr) ->
     wp (answer ifr' data') Q w') ->
  wp (dev_query req ifr data failed answer) Q w.
Proof.
  intros Hs Hf Ha. unfold wp in *. rewrite dev_query_eq.
  destruct (sys_socket (w_env w)) as [[fd e] k1] eqn:Es.
  destruct (fd <? 0); [by apply (Hs e)|].
  pose proof (ioctl_ifru_length fd req ifr data k1) as Hlen.
  destruct (sys_ioctl fd req ifr data k1) as [rep k2].
  assert (w_fds w ∖ {[fd]} ⊆ w_fds w) as Hsub by set_solver.
  destruct (io_ret rep <? 0).
  - by apply (Hf (io_errno rep)).
  - by apply Ha.
Qed.

(** A query whose answer keeps the contract keeps it. *)
Lemma name_query_api req n usize data answer args rho w :
  wf w rho -> w_err w = None -> args_ok w args ->
  (forall ifr data w', wf w' rho -> w_err w' = None ->
     length (ifr_ifru ifr) = usize ->
     wp (answer ifr data) (api_post rho w') w') ->
  wp (name_query req n usize data no_fallback answer args) (api_post rho w) w.
Proof.
  intros Hw He Ha Hans. unfold name_query.
  assert (forall w', calm w w' -> w_err w' <> None -> api_post rho w Null w') as Hnull
    by (intros; by apply null_api).
  destruct (parse_s_cases w args Ha) as [(s & Hs & _)|[k Hs]];
    (eapply wp_step; [exact Hs|]); cbn beta iota.
  - apply wp_dev_query.
    + intros e w' Hc Hx. apply Hnull; [done|by rewrite Hx].
    + intros e w' Hc Hx. apply Hnull; [done|by rewrite Hx].
    + intros ifr' data' w' Hc Hx Hlen. eapply wp_mono.
      { apply Hans; [by apply (wf_calm w)|congruence|].
        rewrite Hlen. apply length_replicate. }
      intros r w2. by apply api_calm.
  - apply Hnull; [by split|done].
Qed.

(** Making a string of ASCII text. *)
Lemma from_string_api s rho w :
  wf w rho -> w_err w = None -> is_ascii s = true -> has_nul s = false ->
  wp (PyStr_FromString s) (api_post rho w) w.
Proof.
  intros Hw He Ha Hn. unfold PyStr_FromString. rewrite cstr_no_nul by done.
  rewrite utf8_ascii by done. by apply alloc_api.
Qed.

Lemma from_array_api buf s rho w :
  wf w rho -> w_err w = None -> cstr_of_bytes buf = Some s ->
  wp (PyStr_FromArray buf) (api_post rho w) w.
Proof.
  intros Hw He Hs. unfold PyStr_FromArray. rewrite Hs. unfold PyStr_FromString.
  destruct (utf8_valid (cstr s)); [by apply alloc_api|by apply (null_api rho w)].
Qed.

Lemma from_long_api z rho w :
  wf w rho -> w_err w = None -> wp (PyLong_FromLong z) (api_post rho w) w.
Proof. intros Hw He. by apply alloc_api. Qed.

(** ** The text of an address *)

Lemma char_mod_256_val sc b : char_mod_256 sc b = byte_val b.
Proof.
  unfold char_mod_256. pose proof (byte_val_range b).
  destruct sc; unfold s8; int_lia.
Qed.

Lemma fmt_hwaddr_ascii v :
  (forall i, 0 <= v i < 256) ->
  is_ascii (fmt_hwaddr v) = true /\ has_nul (fmt_hwaddr v) = false /\
  String.length (fmt_hwaddr v) = 17%nat.
Proof.
  intros Hv. unfold fmt_hwaddr.
  rewrite !is_ascii_app, !has_nul_app, !string_app_length.
  pose proof (fun i => fmt_02x_byte (v i) (Hv i)) as Hf.
  split; [|split; [|done]].
  - by rewrite !(proj1 (Hf _)).
  - by rewrite !(proj1 (proj2 (Hf _))).
Qed.

Lemma fmt_ipv4_ascii v :
  (forall i, 0 <= v i < 256) ->
  is_ascii (fmt_ipv4 v) = true /\ has_nul (fmt_ipv4 v) = false /\
  (String.length (fmt_ipv4 v) <= 15)%nat.
Proof.
  intros Hv. unfold fmt_ipv4.
  rewrite !is_ascii_app, !has_nul_app, !string_app_length.
  pose proof (fun i => fmt_u_byte (v i) (Hv i)) as Hf.
  split; [|split].
  - by rewrite !(proj1 (Hf _)).
  - by rewrite !(proj1 (proj2 (Hf _))).
  - pose proof (fun i => proj2 (proj2 (Hf i))) as Hl. simpl.
    pose proof (Hl 2%nat). pose proof (Hl 3%nat). pose proof (Hl 4%nat).
    pose proof (Hl 5%nat). lia.
Qed.

Lemma sa_values_range sc r i : 0 <= sa_values sc r i < 256.
Proof. unfold sa_values. rewrite char_mod_256_val. apply byte_val_range. Qed.

Lemma fmt_ext (fmt : (nat -> Z) -> string) sc r :
  fmt = fmt_hwaddr \/ fmt = fmt_ipv4 ->
  fmt (sa_values sc r) = fmt (fun i => byte_val (sa_data r i)).
Proof.
  unfold sa_values.
  intros [-> | ->]; unfold fmt_hwaddr, fmt_ipv4; by rewrite !char_mod_256_val.
Qed.

(** The four queries that answer an address: the function, its request, and
    the text it makes of the address data. *)
Definition text_queries (sc : bool)
    : list ((list ptr -> M K ptr) * Z * ((nat -> Z) -> string)) :=
  [(get_hwaddress sc, SIOCGIFHWADDR, fmt_hwaddr);
   (get_ipaddress sc, SIOCGIFADDR, fmt_ipv4);
   (get_netmask sc, SIOCGIFNETMASK, fmt_ipv4);
   (get_broadcast sc, SIOCGIFBRDADDR, fmt_ipv4)].

Lemma text_queries_eq sc f req fmt :
  (f, req, fmt) ∈ text_queries sc ->
  (fmt = fmt_hwaddr \/ fmt = fmt_ipv4) /\
  f = name_query req IFNAMSIZ IFRU_SIZE [] no_fallback (fun ifr _ =>
        t ← sprintf (fmt (sa_values sc ifr)); PyStr_FromString t).
Proof.
  unfold text_queries. intros Hin.
  repeat (apply elem_of_cons in Hin as [[= -> -> ->]|Hin]; [by split; auto|]).
  by apply elem_of_nil in Hin.
Qed.

Lemma text_fits fmt sc r :
  fmt = fmt_hwaddr \/ fmt = fmt_ipv4 ->
  let t := fmt (sa_values sc r) in
  is_ascii t = true /\ has_nul t = false /\ (String.length t < sprintf_limit)%nat.
Proof.
  pose proof (sa_values_range sc r) as Hr.
  intros [-> | ->]; cbv zeta.
  - destruct (fmt_hwaddr_ascii _ Hr) as (? & ? & ->). unfold sprintf_limit. auto with lia.
  - destruct (fmt_ipv4_ascii _ Hr) as (? & ? & ?). unfold sprintf_limit. auto with lia.
Qed.

Lemma sprintf_eq t w :
  (String.length t < sprintf_limit)%nat -> sprintf t w = Ret t w.
Proof. intros. unfold sprintf. by rewrite decide_True. Qed.

(** What a query leaves, as a function of what the kernel answers. *)
Definition query_outcome (req : Z) (ifr : ifreq) (data : list mbyte)
    (answer : ifreq -> list mbyte -> ptr -> world K -> Prop)
    w (r : ptr) (w' : world K) : Prop :=
  let '((fd, e), k1) := sys_socket (w_env w) in
  if fd <? 0 then
    r = Null /\ w_err w' = Some (PyExc PyExc_OSError (ExcErrno e))
  else
    let '(rep, k2) := sys_ioctl fd req ifr data k1 in
    ~ (fd ∈ w_fds w') /\ w_env w' = k2 /\
    (if io_ret rep <? 0 then
       r = Null /\ w_err w' = Some (PyExc PyExc_IOError (ExcErrno (io_errno rep)))
     else answer (io_ifr rep) (io_data rep) r w').

Lemma outcome_mono req ifr data (P Q : ifreq -> list mbyte -> ptr -> world K -> Prop) w r w' :
  (forall ifr' data' r1 w1, P ifr' data' r1 w1 -> Q ifr' data' r1 w1) ->
  query_outcome req ifr data P w r w' -> query_outcome req ifr data Q w r w'.
Proof.
  intros Hpq. unfold query_outcome. destruct (sys_socket (w_env w)) as [[fd e] k1].
  destruct (fd <? 0); [done|]. destruct (sys_ioctl fd req ifr data k1) as [rep k2].
  intros (Hf & He & Hr). split; [done|]. split; [done|].
  destruct (io_ret rep <? 0); [done|by apply Hpq].
Qed.

Lemma name_query_outcome req n usize data answer Q args s w :
  name_arg w args s ->
  (forall fd ifr' data' w', w_fds w' = w_fds w ∖ {[fd]} -> w_heap w' = w_heap w ->
     w_next w' = w_next w -> w_err w' = w_err w ->
     wp (answer ifr' data') (fun r w'' => w_fds w'' = w_fds w' /\
       w_env w'' = w_env w' /\ Q ifr' data' r w'') w') ->
  wp (name_query req n usize data no_fallback answer args)
     (query_outcome req (make_ifreq n usize s) data Q w) w.
Proof.
  intros Hs Ha. unfold name_query. eapply wp_step; [by apply parse_s_name|].
  cbn beta iota. unfold wp, query_outcome. rewrite dev_query_eq.
  destruct (sys_socket (w_env w)) as [[fd e] k1].
  destruct (fd <? 0) eqn:Ef; [by rewrite ?Ef |].
  destruct (sys_ioctl fd req _ data k1) as [rep k2].
  destruct (io_ret rep <? 0) eqn:Er.
  - simpl. rewrite ?Ef, ?Er. split; [apply closed_not_open|done].
  - eapply wp_mono.
    { by apply (Ha fd (io_ifr rep) (io_data rep)
        (set_fds (w_fds w ∖ {[fd]}) (set_env k2 w))). }
    simpl. intros r w' (Hfd & Hk & Hq). rewrite ?Ef, ?Er. split; [|done].
    rewrite Hfd. apply closed_not_open.
Qed.

(** The kernel fills in the value of a one-value request it grants. *)
Definition kernel_fills_value w : Prop :=
  forall fd ifr d, length d = sizeof ethtool_value ->
    let rep := (sys_ioctl fd SIOCETHTOOL ifr d (sys_socket (w_env w)).2).1 in
    io_ret rep = 0 -> exists z, read_u32 4 (io_data rep) = Some z.

(** ** What Python sees *)

(** A new string, everything else but the heap and the descriptors as before. *)
Definition new_value (v : pyval) w (r : ptr) (w' : world K) : Prop :=
  r = Loc (w_next w) /\ w_heap w' = <[w_next w := Obj 1 v]> (w_heap w) /\
  w_err w' = w_err w.

(** The outcome of an address query. *)
Lemma address_query_outcome sc f req fmt args s w :
  (f, req, fmt) ∈ text_queries sc -> name_arg w args s ->
  wp (f args) (query_outcome req (make_ifreq IFNAMSIZ IFRU_SIZE s) []
    (fun ifr _ => new_value (VStr (fmt (fun i => byte_val (sa_data ifr i)))) w) w) w.
Proof.
  intros [Hf ->]%text_queries_eq Hs. apply name_query_outcome; [done|].
  intros fd ifr d w' Hfd Hh Hn He.
  destruct (text_fits fmt sc ifr Hf) as (Ha & H0 & Hl).
  eapply wp_step; [by apply sprintf_eq|]. unfold PyStr_FromString.
  rewrite cstr_no_nul, utf8_ascii by done. rewrite fmt_ext by done.
  unfold wp, new_value. rewrite alloc_eq. simpl. by rewrite Hh, Hn, He.
Qed.

(** C11: the address queries.  Each of [get_hwaddr], [get_ipaddr], [get_netmask]
    and [get_broadcast], called with a device name, asks the kernel exactly one
    question, on a socket of its own that is closed on every path; it raises
    [OSError] when there is no socket, [IOError] with the kernel's [errno] when
    the request fails, and otherwise returns a new string: the address data as
    unsigned bytes in the format of the query, whatever the sign of [char]. *)
Theorem address_query_spec sc f req fmt args s w :
  (f, req, fmt) ∈ text_queries sc -> name_arg w args s ->
  wp (f args) (query_outcome req (make_ifreq IFNAMSIZ IFRU_SIZE s) []
    (fun ifr _ => new_value (VStr (fmt (fun i => byte_val (sa_data ifr i)))) w) w) w.
Proof. apply address_query_outcome. Qed.

(** The outcome of [get_flags]. *)
Lemma get_flags_outcome args s w :
  name_arg w args s ->
  wp (get_flags args) (query_outcome SIOCGIFFLAGS
    (make_ifreq IFNAMSIZ IFRU_SIZE s) []
    (fun ifr _ => new_value (VInt (ifr_flags ifr)) w) w) w.
Proof.
  intros Hs. apply name_query_outcome; [done|].
  intros fd ifr d w' Hfd Hh Hn He. unfold PyLong_FromLong, wp. rewrite alloc_eq.
  split; [done|]. split; [done|]. unfold new_value. simpl. by rewrite Hh, Hn, He.
Qed.

(** A test of a flag sees the 16 bits of the word and not its sign. *)
Lemma land_s16 v c : 0 <= c < 2 ^ 16 -> Z.land (s16 v) c = Z.land v c.
Proof.
  intros Hc. apply Z.bits_inj'. intros k Hk. rewrite !Z.land_spec.
  destruct (Z.lt_ge_cases k 16); [by rewrite s16_testbit|].
  rewrite (bits_above c 16 k) by (try done; lia). by rewrite !andb_false_r.
Qed.

(** C28: [get_flags] returns the kernel's 16 flag bits as a signed [short]; its
    conjunction with any [IFF_] constant, all of them below 2^16, is that of
    the bits themselves, the sign notwithstanding. *)
Theorem get_flags_spec args s w :
  name_arg w args s ->
  wp (get_flags args) (query_outcome SIOCGIFFLAGS
    (make_ifreq IFNAMSIZ IFRU_SIZE s) []
    (fun ifr _ r w' => exists z, new_value (VInt z) w r w' /\
       - 2 ^ 15 <= z < 2 ^ 15 /\
       forall c, 0 <= c < 2 ^ 16 ->
         Z.land z c = Z.land (le_val (take 2 (ifr_ifru ifr))) c) w) w.
Proof.
  intros Hs. eapply wp_mono; [by apply get_flags_outcome|]. intros r w'. apply outcome_mono.
  intros ifr _ r1 w1 Hv. exists (ifr_flags ifr). split; [done|]. split; [apply s16_range|].
  intros c. apply land_s16.
Qed.

(** A one-value getter ([get_tso] and the like) sends its command with the
    value unset, closes its socket on every path, and returns as a signed
    [int] the word the kernel filled in; a positive result of the request,
    which stands for no value, gives 0. *)
Theorem get_value_spec cmd args s w :
  name_arg w args s ->
  kernel_fills_value w ->
  wp (get_value cmd args) (fun r w' =>
    let '((fd, e), k1) := sys_socket (w_env w) in
    if fd <? 0 then
      r = Null /\ w_err w' = Some (PyExc PyExc_OSError (ExcErrno e))
    else
      let '(rep, k2) := sys_ioctl fd SIOCETHTOOL (make_ifreq IFNAMSIZ IFRU_SIZE s)
        (value_request cmd None) k1 in
      ~ (fd ∈ w_fds w') /\ w_env w' = k2 /\
      (if io_ret rep <? 0 then
         r = Null /\ w_err w' = Some (PyExc PyExc_IOError (ExcErrno (io_errno rep)))
       else new_value (VInt (if io_ret rep =? 0
         then s32 (default 0 (read_u32 4 (io_data rep))) else 0)) w r w')) w.
Proof.
  intros Hs Hk. unfold wp, kernel_fills_value in *.
  pose proof (get_value_eq cmd args s w (parse_s_name _ _ _ Hs)) as Hg.
  destruct (sys_socket (w_env w)) as [[fd e] k1].
  destruct (fd <? 0); [by rewrite Hg|].
  specialize (Hk fd (make_ifreq IFNAMSIZ IFRU_SIZE s) (value_request cmd None) eq_refl).
  cbn [snd] in Hk.
  destruct (sys_ioctl fd SIOCETHTOOL _ _ k1) as [rep k2]. cbv zeta in Hg. rewrite Hg.
  destruct (io_ret rep <? 0); [by split; [apply closed_not_open|]|].
  destruct (Z.eqb_spec (io_ret rep) 0) as [E|_].
  - destruct (Hk E) as [z Hz]. simpl in Hz. rewrite Hz.
    split; [apply closed_not_open|done].
  - split; [apply closed_not_open|done].
Qed.

(** ** The contract with Python *)

Lemma text_query_api sc f req fmt args rho w :
  (f, req, fmt) ∈ text_queries sc ->
  wf w rho -> w_err w = None -> args_ok w args ->
  wp (f args) (api_post rho w) w.
Proof.
  intros [Hf ->]%text_queries_eq Hw He Ha. apply name_query_api; [done..|].
  intros ifr d w' Hw' He' _.
  destruct (text_fits fmt sc ifr Hf) as (? & ? & ?).
  eapply wp_step; [by apply sprintf_eq|]. by apply from_string_api.
Qed.

Lemma get_value_api cmd args rho w :
  kernel_fills_value w ->
  wf w rho -> w_err w = None -> args_ok w args ->
  wp (get_value cmd args) (api_post rho w) w.
Proof.
  intros Hk Hw He Ha. unfold kernel_fills_value in Hk.
  destruct (parse_s_cases w args Ha) as [(s & Hs & Hn)|[x Hx]].
  - unfold wp. rewrite (get_value_eq cmd args s w Hs).
    destruct (sys_socket (w_env w)) as [[fd e] k1].
    destruct (fd <? 0); [by apply (null_api rho w)|].
    specialize (Hk fd (make_ifreq IFNAMSIZ IFRU_SIZE s) (value_request cmd None) eq_refl).
  cbn [snd] in Hk.
    destruct (sys_ioctl fd SIOCETHTOOL _ _ k1) as [rep k2]. cbv zeta in *.
    destruct (io_ret rep <? 0).
    { apply null_api; [done| |done]. split; simpl; try done. set_solver. }
    assert (forall z, wp (PyLong_FromLong z) (api_post rho w)
      (set_fds (w_fds w ∖ {[fd]}) (set_env k2 w))) as Hz.
    { intros z. eapply wp_mono.
      { apply from_long_api; [|done]. eapply wf_calm; [|exact Hw].
        apply (calm_io w fd k2 (w_err w)). }
      intros r w'. apply api_calm, (calm_io w fd k2 (w_err w)). }
    destruct (Z.eqb_spec (io_ret rep) 0) as [E|_]; [|apply Hz].
    destruct (Hk E) as [z Hr]. simpl in Hr. rewrite Hr. apply Hz.
  - unfold get_value, get_dev_int_value, get_dev_value, wp.
    rewrite bind_assoc, bind_assoc, (bind_Ret _ _ _ _ _ Hx).
    by apply null_api.
Qed.

Lemma set_value_api cmd args rho w :
  wf w rho -> w_err w = None -> args_ok w args ->
  wp (set_value cmd args) (api_post rho w) w.
Proof.
  intros Hw He Ha. unfold set_value, dev_set_int_value, wp. rewrite bind_assoc.
  destruct (parse_si_cases w args Ha) as [(s & i & Hs & _)|[x Hx]].
  - rewrite (bind_Ret _ _ _ _ _ Hs). cbn beta iota.
    rewrite write_data_set, bind_assoc.
    pose proof (send_command_eq cmd s _ _ w (write_cmd_set cmd i)) as Hc.
    destruct (sys_socket (w_env w)) as [[fd e] k1].
    destruct (fd <? 0) eqn:Ef.
    { rewrite (bind_Ret _ _ _ _ _ Hc). simpl. by apply (null_api rho w). }
    destruct (sys_ioctl fd SIOCETHTOOL _ _ k1) as [rep k2]. cbv zeta in *.
    rewrite (bind_Ret _ _ _ _ _ Hc). rewrite bind_ret_l. cbn beta iota.
    destruct (io_ret rep <? 0).
    + apply null_api; [done| |done]. split; simpl; try done. set_solver.
    + apply none_api; [done|apply (calm_io w fd k2 (w_err w))|done].
  - rewrite (bind_Ret _ _ _ _ _ Hx). by apply null_api.
Qed.

(** The methods of this file that answer an address, a number or nothing. *)
Definition plain_queries (sc : bool) : list (list ptr -> M K ptr) :=
  [get_hwaddress sc; get_ipaddress sc; get_netmask sc; get_broadcast sc;
   get_flags; get_tso; set_tso; get_ufo; get_gso; set_gso; get_gro; set_gro;
   get_sg].

(** The contract of the plain queries with Python.  Whatever the argument
    tuple and whatever the kernel answers, each of them runs without fault,
    returns a new reference with no exception pending or [NULL] with one,
    accounts for every reference, and leaves no descriptor open; assumed is
    that the kernel fills in the value of an ethtool request it grants. *)
Theorem plain_query_contract sc f args rho w :
  f ∈ plain_queries sc ->
  kernel_fills_value w ->
  wf w rho -> w_err w = None -> args_ok w args ->
  wp (f args) (api_post rho w) w.
Proof.
  intros Hf Hk Hw He Ha. unfold plain_queries in Hf.
  repeat (apply elem_of_cons in Hf as [->|Hf]; [|]); try by apply elem_of_nil in Hf.
  all: try (by apply get_value_api); try (by apply set_value_api).
  - eapply (text_query_api sc _ SIOCGIFHWADDR fmt_hwaddr); [|done..]. set_solver.
  - eapply (text_query_api sc _ SIOCGIFADDR fmt_ipv4); [|done..]. set_solver.
  - eapply (text_query_api sc _ SIOCGIFNETMASK fmt_ipv4); [|done..]. set_solver.
  - eapply (text_query_api sc _ SIOCGIFBRDADDR fmt_ipv4); [|done..]. set_solver.
  - apply name_query_api; [done..|]. intros. by apply from_long_api.
Qed.

(** A one-value setter sends a buffer holding the command and the value,
    both complete words in which reading back gives the value, whatever its
    sign; it returns [None], or raises the error of the socket or the kernel. *)
Theorem set_value_spec cmd l rc s l' rc' i w :
  has_nul s = false -> w_heap w !! l = Some (Obj rc (VStr s)) ->
  w_heap w !! l' = Some (Obj rc' (VInt i)) -> INT_MIN <= i <= INT_MAX ->
  exists request,
    read_u32 0 request = Some (u32 cmd) /\ length request = sizeof ethtool_value /\
    s32 <$> read_u32 4 request = Some i /\
    wp (set_value cmd [Loc l; Loc l']) (fun r w' =>
      let '((fd, e), k1) := sys_socket (w_env w) in
      if fd <? 0 then
        r = Null /\ w_err w' = Some (PyExc PyExc_OSError (ExcErrno e))
      else
        let '(rep, k2) :=
          sys_ioctl fd SIOCETHTOOL (make_ifreq IFNAMSIZ IFRU_SIZE s) request k1 in
        ~ (fd ∈ w_fds w') /\ w_env w' = k2 /\
        (if io_ret rep <? 0 then
           r = Null /\ w_err w' = Some (PyExc PyExc_IOError (ExcErrno (io_errno rep)))
         else r = PyNone /\ w_err w' = w_err w)) w.
Proof.
  intros Hn Hl Hl' Hi. exists (value_request cmd (Some i)).
  pose proof (read_write_u32_same _ _ _ _ (write_cmd_set cmd i)) as H0.
  pose proof (read_write_u32_other 4 _ _ _ _ (write_cmd_set cmd i)
    ltac:(right; cbn; lia)) as H4.
  pose proof (read_write_u32_same _ _ _ _ (write_data_set i)) as H4'.
  split; [exact H0|]. split; [done|]. split.
  { rewrite H4. change (offsetof ethtool_value "data") with 4%nat in H4'.
    rewrite H4'. simpl. by rewrite s32_u32. }
  unfold wp. rewrite (set_value_eq cmd l rc s l' rc' i w) by done.
  destruct (sys_socket (w_env w)) as [[fd e] k1].
  destruct (fd <? 0); [done|].
  destruct (sys_ioctl fd SIOCETHTOOL _ _ k1) as [rep k2]. cbv zeta.
  destruct (io_ret rep <? 0); (split; [apply closed_not_open|done]).
Qed.
End laws.

(** ** The name in a request *)

Lemma ifr_name_eq n u s :
  n = IFNAMSIZ \/ n = pred IFNAMSIZ ->
  ifr_name (make_ifreq n u s) = strncpy (pred IFNAMSIZ) s ++ [x00].
Proof.
  intros Hn. unfold make_ifreq. cbn [ifr_name].
  assert (15 <= n <= 16)%nat as Hle by (unfold IFNAMSIZ in *; lia).
  change (pred IFNAMSIZ) with 15%nat. change IFNAMSIZ with 16%nat.
  apply list_eq_same_length with 16%nat.
  - by rewrite length_app, length_strncpy.
  - rewrite length_insert, length_app, length_strncpy, length_replicate. lia.
  - intros i x y Hi. destruct (decide (i = 15)%nat) as [->|Hne].
    + rewrite list_lookup_insert_eq.
      2:{ rewrite length_app, length_strncpy, length_replicate. lia. }
      rewrite lookup_app_r by (by rewrite length_strncpy).
      rewrite length_strncpy. simpl. congruence.
    + rewrite list_lookup_insert_ne by done.
      rewrite !lookup_app_l by (rewrite length_strncpy; lia).
      rewrite !strncpy_lookup by lia. congruence.
Qed.

(** C26: the name sent to the kernel.  The array of 16 characters always ends
    in a NUL, and two device names give the same request exactly when they
    agree on their first 15 characters: longer names are cut, none of the
    shorter ones is confused with another. *)
Theorem request_name u s t :
  has_nul s = false -> has_nul t = false ->
  length (ifr_name (make_ifreq IFNAMSIZ u s)) = IFNAMSIZ /\
  ifr_name (make_ifreq IFNAMSIZ u s) !! 15%nat = Some x00 /\
  make_ifreq (pred IFNAMSIZ) u s = make_ifreq IFNAMSIZ u s /\
  (make_ifreq IFNAMSIZ u s = make_ifreq IFNAMSIZ u t
     <-> substring 0 15 s = substring 0 15 t).
Proof.
  intros Hs%has_nul_bytes Ht%has_nul_bytes.
  assert (forall n s t, ifr_name (make_ifreq n u s) = ifr_name (make_ifreq IFNAMSIZ u t) ->
    make_ifreq n u s = make_ifreq IFNAMSIZ u t) as Hu.
  { unfold make_ifreq. cbn [ifr_name]. by intros ??? ->. }
  pose proof (fun s => ifr_name_eq IFNAMSIZ u s (or_introl eq_refl)) as E.
  rewrite (E s), length_app, length_strncpy.
  split; [done|]. split; [by rewrite lookup_app_r, length_strncpy by (by rewrite length_strncpy)|]. split; [|split].
  - apply Hu. by rewrite E, ifr_name_eq by auto.
  - intros Ei. apply (f_equal ifr_name) in Ei. rewrite !E in Ei.
    apply app_inj_tail in Ei as [Ei _]. apply take_pad_inj in Ei; [|cbn; lia|done..].
    apply list_byte_inj. by rewrite !list_byte_substring.
  - intros Ei. apply Hu. rewrite !E.
    change (pred IFNAMSIZ) with 15%nat.
    by rewrite <- (strncpy_substring _ s), <- (strncpy_substring _ t), Ei.
Qed.

(** ** Reading the texts back *)

Definition unhex (c : ascii) : option Z :=
  let n := Z.of_N (N_of_ascii c) in
  if decide (48 <= n <= 57) then Some (n - 48)
  else if decide (97 <= n <= 102) then Some (n - 87) else None.

(** Pairs of hexadecimal digits separated by colons. *)
Fixpoint parse_hwaddr (s : string) : option (list Z) :=
  match s with
  | String a (String b r) =>
      x ← unhex a; y ← unhex b;
      match r with
      | EmptyString => Some [16 * x + y]
      | String ":" r => zs ← parse_hwaddr r; Some (16 * x + y :: zs)
      | _ => None
      end
  | _ => None
  end.

(** Numbers in decimal separated by dots; [acc] is the number being read. *)
Fixpoint parse_ipv4 (acc : Z) (s : string) : option (list Z) :=
  match s with
  | EmptyString => Some [acc]
  | String c r =>
      if Ascii.eqb c "." then zs ← parse_ipv4 0 r; Some (acc :: zs)
      else if is_digit c
      then parse_ipv4 (10 * acc + (Z.of_N (N_of_ascii c) - 48)) r
      else None
  end.

Lemma unhex_digit z : 0 <= z < 16 -> unhex (hex_digit z) = Some z.
Proof.
  intros Hz. assert (List.In z (map Z.of_nat (seq 0 16))) as Hin.
  { apply in_map_iff. exists (Z.to_nat z). rewrite in_seq. lia. }
  revert Hin. by repeat (intros [<-|Hin]; [done|revert Hin]).
Qed.

Lemma parse_hwaddr_byte z r : 0 <= z < 256 ->
  parse_hwaddr (fmt_02x z +:+ ":" +:+ r) = zs ← parse_hwaddr r; Some (z :: zs).
Proof.
  intros Hz. unfold fmt_02x. 
  string_norm. cbn [parse_hwaddr].
  rewrite !unhex_digit by (Z.to_euclidean_division_equations; lia). simpl.
  destruct (parse_hwaddr r); simpl; [|done]. do 2 f_equal.
  Z.to_euclidean_division_equations; lia.
Qed.

Lemma parse_hwaddr_last z : 0 <= z < 256 -> parse_hwaddr (fmt_02x z) = Some [z].
Proof.
  intros Hz. unfold fmt_02x. 
  string_norm. cbn [parse_hwaddr].
  rewrite !unhex_digit by (Z.to_euclidean_division_equations; lia). simpl. do 2 f_equal. Z.to_euclidean_division_equations; lia.
Qed.

(** C27: the hardware address text is 17 characters, within the array the code
    prints it to, and reads back as the six bytes the kernel answered,
    whatever the sign of [char]. *)
Theorem hwaddr_text_roundtrip sc r :
  let t := fmt_hwaddr (sa_values sc r) in
  String.length t = 17%nat /\ (String.length t < sprintf_limit)%nat /\
  parse_hwaddr t = Some (map (fun i => byte_val (sa_data r i)) (seq 0 6)).
Proof.
  intros t. pose proof (sa_values_range sc r) as Hr.
  destruct (fmt_hwaddr_ascii _ Hr) as (_ & _ & Hl). fold t in Hl.
  split; [done|]. split; [rewrite Hl; unfold sprintf_limit; lia|].
  unfold t, fmt_hwaddr.
  rewrite !parse_hwaddr_byte, parse_hwaddr_last by apply Hr.
  unfold sa_values. by rewrite !char_mod_256_val.
Qed.

Fixpoint all_digits (s : string) : bool :=
  match s with
  | EmptyString => true
  | String c s => is_digit c && all_digits s
  end.

Fixpoint dec_value (acc : Z) (s : string) : Z :=
  match s with
  | EmptyString => acc
  | String c s => dec_value (10 * acc + (Z.of_N (N_of_ascii c) - 48)) s
  end.

Lemma parse_ipv4_digits s acc r :
  all_digits s = true -> parse_ipv4 acc (s +:+ r) = parse_ipv4 (dec_value acc s) r.
Proof.
  revert acc; induction s as [|c s IH]; intros acc; [done|].
  simpl all_digits. intros [Hc Hs]%andb_true_iff. rewrite string_cons_app.
  cbn [parse_ipv4 dec_value]. rewrite Hc.
  destruct (Ascii.eqb_spec c ".") as [->|_]; [done|]. by apply IH.
Qed.

Lemma fmt_u_digits z : 0 <= z < 256 ->
  all_digits (fmt_u z) = true /\ dec_value 0 (fmt_u z) = z.
Proof.
  intros Hz.
  pose proof (forall_byte_val (fun z => all_digits (fmt_u z)
    && (dec_value 0 (fmt_u z) =? z)) ltac:(vm_compute; reflexivity) z Hz) as Hb.
  rewrite andb_true_iff, Z.eqb_eq in Hb. exact Hb.
Qed.

Lemma parse_ipv4_byte z r : 0 <= z < 256 ->
  parse_ipv4 0 (fmt_u z +:+ "." +:+ r) = zs ← parse_ipv4 0 r; Some (z :: zs).
Proof.
  intros [Hd Hv]%fmt_u_digits. rewrite parse_ipv4_digits, Hv by done. done.
Qed.

Lemma parse_ipv4_last z : 0 <= z < 256 -> parse_ipv4 0 (fmt_u z) = Some [z].
Proof.
  intros [Hd Hv]%fmt_u_digits. rewrite <- (string_app_nil (fmt_u z)).
  by rewrite parse_ipv4_digits, Hv.
Qed.

(** An IPv4 text has at most 15 characters, within the array the code
    prints it to, and reads back as the four bytes at the place of the address
    in a [sockaddr_in]. *)
Theorem ipv4_text_roundtrip sc r :
  let t := fmt_ipv4 (sa_values sc r) in
  (String.length t <= 15)%nat /\ (String.length t < sprintf_limit)%nat /\
  parse_ipv4 0 t = Some (map (fun i => byte_val (sa_data r i)) (seq 2 4)).
Proof.
  intros t. pose proof (sa_values_range sc r) as Hr.
  destruct (fmt_ipv4_ascii _ Hr) as (_ & _ & Hl). fold t in Hl.
  split; [done|]. split; [unfold sprintf_limit; lia|].
  unfold t, fmt_ipv4. rewrite !parse_ipv4_byte, parse_ipv4_last by apply Hr.
  unfold sa_values. by rewrite !char_mod_256_val.
Qed.

(** ** Driver information *)

(** The two methods that ask for driver information: the function, the size of
    its buffer, the field it reads. *)
Definition drvinfo_queries {K} `{Platform K}
    : list ((list ptr -> M K ptr) * nat * string) :=
  [(get_businfo, 1024%nat, "bus_info"); (get_module, 2048%nat, "driver")].

(** C29: [get_businfo] and [get_module] on a driver that answers.  The request
    starts with the command, in a buffer whose first part is zeroed; the
    result is the C string in the field of [struct ethtool_drvinfo] the method
    is about, or [UnicodeDecodeError] when that is not UTF-8; the socket is
    closed. *)
Theorem driver_info_spec {K} `{PlatformLaws K} f n field args s (w : world K)
    fd e k1 rep k2 t :
  (f, n, field) ∈ drvinfo_queries -> name_arg w args s ->
  sys_socket (w_env w) = ((fd, e), k1) -> 0 <= fd ->
  sys_ioctl fd SIOCETHTOOL (make_ifreq IFNAMSIZ IFRU_SIZE s) (drvinfo_buf n) k1
    = (rep, k2) -> 0 <= io_ret rep ->
  cstr_of_bytes (drop (offsetof ethtool_drvinfo field) (io_data rep)) = Some t ->
  read_u32 0 (drvinfo_buf n) = Some ETHTOOL_GDRVINFO /\
  wp (f args) (fun r w' => ~ (fd ∈ w_fds w') /\ w_env w' = k2 /\
    if utf8_valid t then new_value (VStr t) w r w'
    else r = Null /\ w_err w' = Some (PyExc PyExc_UnicodeDecodeError ExcRuntime)) w.
Proof.
  intros Hf Hs Hsock Hfd Hio Hret Ht.
  assert (forall failed, wp (name_query SIOCETHTOOL IFNAMSIZ IFRU_SIZE (drvinfo_buf n)
    failed (fun _ buf => PyStr_FromArray (drop (offsetof ethtool_drvinfo field) buf))
    args) (fun r w' => ~ (fd ∈ w_fds w') /\ w_env w' = k2 /\
    if utf8_valid t then new_value (VStr t) w r w'
    else r = Null /\ w_err w' = Some (PyExc PyExc_UnicodeDecodeError ExcRuntime)) w)
    as Hq.
  { intros failed. unfold name_query.
    eapply wp_step; [by apply parse_s_name|]. cbn beta iota.
    unfold wp. rewrite dev_query_eq, Hsock.
    rewrite (proj2 (Z.ltb_ge _ _) Hfd), Hio, (proj2 (Z.ltb_ge _ _) Hret).
    unfold PyStr_FromArray. rewrite Ht. unfold PyStr_FromString.
    rewrite (cstr_of_bytes_cstr _ _ Ht).
    destruct (utf8_valid t); (split; [apply closed_not_open|done]). }
  unfold drvinfo_queries in Hf.
  repeat (apply elem_of_cons in Hf as [[= -> -> ->]|Hf];
    [split; [done|apply Hq]|]).
  by apply elem_of_nil in Hf.
Qed.

(** ** At work on a machine with a card *)

(** The arguments: a device name and a number. *)
Definition asked : world machine := Eval vm_compute in
  world_after (alloc (VStr "eth0");; alloc (VInt (-7))) (boot card).

Lemma asked_name : name_arg asked [Loc 1] "eth0".
Proof. split; [done|]. by exists 1%positive, 1. Qed.

Lemma asked_wf : wf asked {[+ 2%positive; 1%positive +]}.
Proof.
  pose proof (wf_boot card) as H0.
  apply (wf_eq _ _ (val_refs (VStr "eth0") ⊎ ∅)) in H0; [|by multiset_solver].
  apply alloc_wf in H0; [|by constructor].
  apply (wf_eq _ _ (val_refs (VInt (-7)) ⊎ {[+ 1%positive +]})) in H0;
    [|unfold val_refs; simpl; multiset_solver].
  apply alloc_wf in H0; [|by constructor].
  eapply wf_eq; [exact H0|]. simpl. multiset_solver.
Qed.

Lemma asked_args : args_ok asked [Loc 1].
Proof.
  apply Forall_singleton. right. by exists 1%positive, (Obj 1 (VStr "eth0")).
Qed.

Lemma card_ioctl_fills name d :
  length d = 8%nat ->
  let '(ret, _, _, d') := card_ioctl SIOCETHTOOL name d in
  ret = 0 -> exists z, read_u32 4 (resize (length d) (Some x00) d') = Some z.
Proof.
  intros Hd. do 8 (destruct d as [|? d]; [done|]). destruct d; [|done].
  unfold card_ioctl. destruct (bool_decide (name = _)); cbv [negb].
  - repeat (rewrite (proj2 (Z.eqb_neq _ _)) by discriminate). rewrite Z.eqb_refl.
    destruct (bool_decide _); intros _; eexists; reflexivity.
  - intros E. discriminate E.
Qed.

Lemma card_fills : kernel_fills_value asked.
Proof.
  intros fd ifr d Hd. pose proof (card_ioctl_fills (ifr_name ifr) d Hd) as Hc.
  change (sys_ioctl fd SIOCETHTOOL ifr d (sys_socket (w_env asked)).2)
    with (let '(ret, e, u, d') := card_ioctl SIOCETHTOOL (ifr_name ifr) d in
    (IoctlReply ret e
       (Ifreq (ifr_name ifr) (resize (length (ifr_ifru ifr)) x00 u))
       (resize (length d) (Some x00) d'), card)).
  destruct (card_ioctl SIOCETHTOOL (ifr_name ifr) d) as [[[ret e] u] d'].
  exact Hc.
Qed.

Lemma address_query_spec_witness :
  wp (get_hwaddress true [Loc 1]) (query_outcome SIOCGIFHWADDR
    (make_ifreq IFNAMSIZ IFRU_SIZE "eth0") []
    (fun ifr _ => new_value (VStr (fmt_hwaddr (fun i => byte_val (sa_data ifr i))))
       asked) asked) asked.
Proof.
  apply (address_query_spec true (get_hwaddress true) SIOCGIFHWADDR fmt_hwaddr);
    [|apply asked_name].
  apply elem_of_cons. by left.
Defined.

(** The query finds 52:54:00:12:ab:ff. *)
Example asked_hwaddr : exists w',
  get_hwaddress true [Loc 1] asked = Ret (Loc 3) w' /\
  ob_val <$> w_heap w' !! 3%positive = Some (VStr "52:54:00:12:ab:ff").
Proof. eexists. split; [vm_compute; reflexivity|reflexivity]. Qed.

Lemma plain_query_contract_witness :
  wp (get_tso [Loc 1]) (api_post {[+ 2%positive; 1%positive +]} asked) asked.
Proof.
  apply (plain_query_contract true).
  - unfold plain_queries. do 5 right. left.
  - apply card_fills.
  - apply asked_wf.
  - reflexivity.
  - apply asked_args.
Defined.

Lemma get_flags_spec_witness :
  wp (get_flags [Loc 1]) (query_outcome SIOCGIFFLAGS
    (make_ifreq IFNAMSIZ IFRU_SIZE "eth0") []
    (fun ifr _ r w' => exists z, new_value (VInt z) asked r w' /\
       - 2 ^ 15 <= z < 2 ^ 15 /\
       forall c, 0 <= c < 2 ^ 16 ->
         Z.land z c = Z.land (le_val (take 2 (ifr_ifru ifr))) c) asked) asked.
Proof. apply (get_flags_spec [Loc 1] "eth0" asked), asked_name. Defined.

Lemma get_value_spec_witness :
  wp (get_value ETHTOOL_GTSO [Loc 1]) (fun r w' =>
    let '((fd, e), k1) := sys_socket (w_env asked) in
    if fd <? 0 then
      r = Null /\ w_err w' = Some (PyExc PyExc_OSError (ExcErrno e))
    else
      let '(rep, k2) := sys_ioctl fd SIOCETHTOOL (make_ifreq IFNAMSIZ IFRU_SIZE "eth0")
        (value_request ETHTOOL_GTSO None) k1 in
      ~ (fd ∈ w_fds w') /\ w_env w' = k2 /\
      (if io_ret rep <? 0 then
         r = Null /\ w_err w' = Some (PyExc PyExc_IOError (ExcErrno (io_errno rep)))
       else new_value (VInt (if io_ret rep =? 0
         then s32 (default 0 (read_u32 4 (io_data rep))) else 0)) asked r w')) asked.
Proof.
  apply (get_value_spec ETHTOOL_GTSO [Loc 1] "eth0" asked);
    [apply asked_name|apply card_fills].
Defined.

Lemma set_value_spec_witness :
  exists request,
    read_u32 0 request = Some (u32 ETHTOOL_STSO) /\
    length request = sizeof ethtool_value /\
    s32 <$> read_u32 4 request = Some (-7) /\
    wp (set_value ETHTOOL_STSO [Loc 1; Loc 2]) (fun r w' =>
      let '((fd, e), k1) := sys_socket (w_env asked) in
      if fd <? 0 then
        r = Null /\ w_err w' = Some (PyExc PyExc_OSError (ExcErrno e))
      else
        let '(rep, k2) :=
          sys_ioctl fd SIOCETHTOOL (make_ifreq IFNAMSIZ IFRU_SIZE "eth0") request k1 in
        ~ (fd ∈ w_fds w') /\ w_env w' = k2 /\
        (if io_ret rep <? 0 then
           r = Null /\ w_err w' = Some (PyExc PyExc_IOError (ExcErrno (io_errno rep)))
         else r = PyNone /\ w_err w' = w_err asked)) asked.
Proof.
  apply (set_value_spec ETHTOOL_STSO 1 1 "eth0" 2 1 (-7) asked); try reflexivity.
  split; discriminate.
Defined.

Lemma request_name_witness :
  length (ifr_name (make_ifreq IFNAMSIZ IFRU_SIZE "very-long-name-1")) = IFNAMSIZ /\
  ifr_name (make_ifreq IFNAMSIZ IFRU_SIZE "very-long-name-1") !! 15%nat = Some x00 /\
  make_ifreq (pred IFNAMSIZ) IFRU_SIZE "very-long-name-1"
    = make_ifreq IFNAMSIZ IFRU_SIZE "very-long-name-1" /\
  (make_ifreq IFNAMSIZ IFRU_SIZE "very-long-name-1"
     = make_ifreq IFNAMSIZ IFRU_SIZE "very-long-name-2"
   <-> substring 0 15 "very-long-name-1" = substring 0 15 "very-long-name-2").
Proof. apply request_name; reflexivity. Defined.

Lemma driver_info_spec_witness :
  read_u32 0 (drvinfo_buf 2048) = Some ETHTOOL_GDRVINFO /\
  wp (get_module [Loc 1]) (fun r w' => ~ (3 ∈ w_fds w') /\ w_env w' = card /\
    if utf8_valid "e1000e" then new_value (VStr "e1000e") asked r w'
    else r = Null /\ w_err w' = Some (PyExc PyExc_UnicodeDecodeError ExcRuntime)) asked.
Proof.
  apply (driver_info_spec get_module 2048 "driver" [Loc 1] "eth0" asked 3 0 card
    (sys_ioctl 3 SIOCETHTOOL (make_ifreq IFNAMSIZ IFRU_SIZE "eth0")
       (drvinfo_buf 2048) card).1 card).
  - unfold drvinfo_queries. apply elem_of_cons. right. apply elem_of_cons. by left.
  - apply asked_name.
  - reflexivity.
  - lia.
  - vm_compute. reflexivity.
  - vm_compute. discriminate.
  - vm_compute. reflexivity.
Defined.
