(* ===== verification/StabFacts.v ===== *)
(** * Properties of the PCMCIA table lookup of get_module *)
From S2P Require Import Prelude.
From S2P Require Import Platform.
From S2P Require Import CPython.
From S2P Require Import Testbed.
From S2P Require Import RefCount.
From S2P Require Import Stdio.
From S2P Require Import EthtoolH.
From S2P Require Import Ioctl.
From S2P Require Import IoctlFacts.

(** ** A line of the table *)

(** A word: not empty, no blanks, no NUL. *)
Fixpoint no_blank (s : string) : bool :=
  match s with
  | EmptyString => true
  | String c s => negb (is_space c) && negb (Ascii.eqb c NUL) && no_blank s
  end.

Definition word (s : string) : bool :=
  match s with EmptyString => false | _ => no_blank s end.

Definition number (s : string) : bool :=
  match s with EmptyString => false | _ => all_digits s end.

Definition TAB : string := String "009" EmptyString.

(** A card: socket, class, driver, index, device, and what follows. *)
Record card_entry := CardEntry {
  ce_socket : string;
  ce_class : string;
  ce_driver : string;
  ce_index : string;
  ce_device : string;
  ce_rest : string;
}.

Definition card_line (c : card_entry) : string :=
  ce_socket c +:+ TAB +:+ ce_class c +:+ TAB +:+ ce_driver c +:+ TAB +:+ ce_index c
    +:+ TAB +:+ ce_device c +:+ TAB +:+ ce_rest c.

Record card_ok (c : card_entry) : Prop := {
  co_socket : number (ce_socket c) = true;
  co_class : word (ce_class c) = true;
  co_driver : word (ce_driver c) = true;
  co_index : number (ce_index c) = true;
  co_device : word (ce_device c) = true;
  co_driver_len : (String.length (ce_driver c) <= 99)%nat;
  co_device_len : (String.length (ce_device c) <= 99)%nat;
}.

(** ** Scanning *)

Lemma skip_space_tab s : skip_space (TAB +:+ s) = skip_space s.
Proof. done. Qed.

Lemma skip_space_word s t : word s = true -> skip_space (s +:+ t) = s +:+ t.
Proof.
  destruct s as [|c s]; [done|]. simpl word. rewrite !andb_true_iff, !negb_true_iff.
  intros [[Hc _] _]. rewrite string_cons_app. simpl. by rewrite Hc.
Qed.

Lemma take_word_app s t : forall max, no_blank s = true -> (String.length s <= max)%nat ->
  take_word max (s +:+ TAB +:+ t) = (s, TAB +:+ t).
Proof.
  induction s as [|c s IH]; intros [|max] Hs Hl; simpl in Hl; try lia; [done|done|].
  simpl in Hs. rewrite !andb_true_iff, !negb_true_iff in Hs. destruct Hs as [[Hc _] Hs].
  rewrite string_cons_app. cbn [take_word]. rewrite Hc, IH by (done || lia). done.
Qed.

Lemma scan_word max s t :
  word s = true -> (String.length s <= max)%nat ->
  scan_s max (TAB +:+ s +:+ TAB +:+ t) = Some (s, TAB +:+ t).
Proof.
  intros Hs Hl. unfold scan_s. rewrite skip_space_tab, skip_space_word by done.
  rewrite take_word_app; [by destruct s| |done]. by destruct s.
Qed.

Lemma skip_digits_app s t :
  all_digits s = true -> skip_digits (s +:+ TAB +:+ t) = TAB +:+ t.
Proof.
  induction s as [|c s IH]; [done|]. simpl all_digits.
  intros [Hc Hs]%andb_true_iff. rewrite string_cons_app. cbn [skip_digits].
  by rewrite Hc, IH.
Qed.

Lemma digit_facts c : is_digit c = true ->
  is_space c = false /\ Ascii.eqb c "-" = false /\ Ascii.eqb c "+" = false.
Proof. destruct c as [[] [] [] [] [] [] [] []]; by compute. Qed.

Lemma scan_number s t :
  number s = true -> scan_skip_d (s +:+ TAB +:+ t) = Some (TAB +:+ t).
Proof.
  destruct s as [|c s]; [done|]. unfold number. intros Hd. pose proof Hd as Hd'.
  simpl in Hd'. apply andb_true_iff in Hd' as [Hc _].
  destruct (digit_facts c Hc) as (H1 & H2 & H3).
  unfold scan_skip_d. rewrite string_cons_app. cbn [skip_space]. rewrite H1, H2, H3.
  cbn [orb]. rewrite Hc. rewrite <- string_cons_app. by rewrite skip_digits_app.
Qed.

Lemma scan_tab_number s t :
  number s = true -> scan_skip_d (TAB +:+ s +:+ TAB +:+ t) = Some (TAB +:+ t).
Proof. intros Hs. rewrite <- (scan_number s t Hs). done. Qed.

(** The two names of a card are found whatever was found before. *)
Lemma scan_card c t driver dev :
  card_ok c ->
  scan_stab (card_line c +:+ t) driver dev
    = (2%nat, Some (ce_driver c), Some (ce_device c)).
Proof.
  intros [H1 H2 H3 H4 H5 H6 H7]. unfold scan_stab, card_line.
  rewrite !string_app_assoc, scan_number by done.
  rewrite scan_word by (done || (rewrite !string_app_length; lia)).
  rewrite scan_word by (done || lia). rewrite scan_tab_number by done.
  by rewrite scan_word by (done || lia).
Qed.

(** ** The whole table *)

Inductive stab_entry := Socket (s : string) | Card (c : card_entry).

Definition stab_text (e : stab_entry) : string :=
  match e with Socket s => "Socket" +:+ s | Card c => card_line c end.

Record stab_ok (e : stab_entry) : Prop := {
  so_line : one_line (stab_text e) = true;
  so_nul : has_nul (stab_text e) = false;
  so_len : (String.length (stab_text e) < 2047)%nat;
  so_card : match e with Card c => card_ok c | Socket _ => True end;
}.

(** The driver of the first card that is the device. *)
Fixpoint find_driver (devname : string) (es : list stab_entry) : option string :=
  match es with
  | [] => None
  | Socket _ :: es => find_driver devname es
  | Card c :: es =>
      if String.eqb devname (ce_device c) then Some (ce_driver c)
      else find_driver devname es
  end.

Lemma substring_all n s : (String.length s <= n)%nat -> substring 0 n s = s.
Proof.
  revert n; induction s as [|c s IH]; intros [|n] Hn; simpl in *; try done; [lia|].
  by rewrite IH by lia.
Qed.

Lemma card_not_socket c t : card_ok c -> String.prefix "Socket" (card_line c +:+ t) = false.
Proof.
  intros [H1 _ _ _ _ _ _]. unfold card_line.
  destruct (ce_socket c) as [|a s]; [done|]. simpl in H1. apply andb_true_iff in H1 as [Ha _].
  rewrite !string_cons_app. cbn [String.prefix].
  destruct (ascii_dec "S" a) as [<-|]; done.
Qed.

Section lookup.
Context {K : Type} `{PL : PlatformLaws K}.
Implicit Types w : world K.

Lemma stab_loop_eq devname es : Forall stab_ok es ->
  forall fuel driver dev w, (String.length (lines (map stab_text es)) < fuel)%nat ->
  stab_loop fuel devname (lines (map stab_text es)) false driver dev w
    = Ret (find_driver devname es) w.
Proof.
  induction 1 as [|e es [H1 H2 H3 H4] _ IH]; intros [|fuel] driver dev w Hf; try lia;
    cbn [map lines stab_loop]; [done|].
  cbn [map lines] in Hf. rewrite string_app_length in Hf.
  assert (0 < String.length (line (stab_text e)))%nat as Hp.
  { unfold line. rewrite string_app_length. simpl. lia. }
  rewrite fgets_line by (done || lia).
  assert (cstr (line (stab_text e)) = line (stab_text e)) as ->.
  { apply cstr_no_nul. unfold line. by rewrite has_nul_app, H2. }
  destruct e as [s|c]; cbn [stab_text find_driver].
  - assert (String.prefix "Socket" (line ("Socket" +:+ s)) = true) as ->.
    { unfold line. rewrite !string_app_assoc, !string_cons_app. cbn [String.prefix].
      repeat (destruct (ascii_dec _ _); [|done]). by destruct (_ +:+ _). }
    apply IH. lia.
  - unfold line. rewrite card_not_socket, scan_card by done. cbn [Nat.eqb].
    unfold cut_99. cbn [fmap option_fmap option_map].
    rewrite !substring_all by apply H4.
    destruct (String.eqb devname (ce_device c)); [done|]. apply IH. lia.
Qed.

Lemma pcmcia_fallback_ok s w k3 es :
  Forall stab_ok es ->
  sys_fopen stab_path (w_env w) = (inr (lines (map stab_text es)), k3) ->
  (forall d, find_driver s es = Some d -> utf8_valid d = true /\ has_nul d = false) ->
  pcmcia_fallback s w = match find_driver s es with
    | Some d => alloc (VStr d) (set_err None (set_env k3 w))
    | None => Ret Null (set_env k3 w)
    end.
Proof.
  intros Hes Hopen Hd. unfold pcmcia_fallback.
  assert (fopen stab_path w = Ret (Some (lines (map stab_text es)))
    (set_files (S (w_files w)) (set_env k3 w))) as Hf.
  { unfold fopen, ask, mbind, M_bind. simpl. by rewrite Hopen. }
  rewrite (bind_Ret _ _ _ _ _ Hf). cbv beta iota zeta.
  erewrite bind_Ret by (apply (stab_loop_eq s es Hes); lia).
  erewrite bind_Ret by (unfold fclose; simpl; reflexivity).
  destruct (find_driver s es) as [d|]; [|by destruct w].
  destruct (Hd d eq_refl) as [Hu Hn]. unfold PyErr_Clear, PyStr_FromString.
  erewrite bind_Ret by reflexivity. rewrite cstr_no_nul, Hu by done. by destruct w.
Qed.

(** C34: the fallback of [get_module].  When the driver does not answer and the
    PCMCIA table can be read, a table of sockets and cards is searched for the
    device: the driver of the first card with its name is returned as a new
    string and the [IOError] withdrawn, otherwise [NULL] is returned with the
    [IOError] of the request; socket and stream are closed either way. *)
Theorem get_module_pcmcia args s w fd e k1 rep k2 k3 es :
  name_arg w args s -> Forall stab_ok es ->
  sys_socket (w_env w) = ((fd, e), k1) -> 0 <= fd ->
  sys_ioctl fd SIOCETHTOOL (make_ifreq IFNAMSIZ IFRU_SIZE s) (drvinfo_buf 2048) k1
    = (rep, k2) -> io_ret rep < 0 ->
  sys_fopen stab_path k2 = (inr (lines (map stab_text es)), k3) ->
  (forall d, find_driver s es = Some d -> utf8_valid d = true /\ has_nul d = false) ->
  wp (get_module args) (fun r w' =>
    ~ (fd ∈ w_fds w') /\ w_files w' = w_files w /\ w_env w' = k3 /\
    match find_driver s es with
    | Some d => r = Loc (w_next w) /\ w_err w' = None /\
        w_heap w' = <[w_next w := Obj 1 (VStr d)]> (w_heap w)
    | None => r = Null /\ w_heap w' = w_heap w /\
        w_err w' = Some (PyExc PyExc_IOError (ExcErrno (io_errno rep)))
    end) w.
Proof.
  intros Hs Hes Hsock Hfd Hio Hret Hopen Hd. unfold get_module, name_query.
  eapply wp_step; [by apply parse_s_name|]. cbv beta iota. unfold wp.
  rewrite dev_query_eq, Hsock, (proj2 (Z.ltb_ge _ _) Hfd), Hio.
  rewrite (proj2 (Z.ltb_lt _ _) Hret).
  cbv zeta. rewrite (pcmcia_fallback_ok s _ k3 es) by done.
  destruct (find_driver s es) as [d|]; [rewrite alloc_eq|];
    (split; [apply closed_not_open|done]).
Qed.
End lookup.

(** ** At work *)

Definition two_cards : list stab_entry :=
  [Socket " 0: Lucent WaveLAN";
   Card (CardEntry "0" "network" "orinoco_cs" "0" "eth1" "4 1");
   Socket " 1: 3Com 3c589D";
   Card (CardEntry "1" "network" "3c589_cs" "0" "eth0" "4 2")].

Definition pcmcia_machine : machine :=
  with_file stab_path (lines (map stab_text two_cards)) quiet.

Definition pcmcia_world : world machine := Eval vm_compute in
  world_after (alloc (VStr "eth0")) (boot pcmcia_machine).

Lemma get_module_pcmcia_witness :
  wp (get_module [Loc 1]) (fun r w' =>
    ~ (3 ∈ w_fds w') /\ w_files w' = w_files pcmcia_world /\ w_env w' = pcmcia_machine /\
    match find_driver "eth0" two_cards with
    | Some d => r = Loc (w_next pcmcia_world) /\ w_err w' = None /\
        w_heap w' = <[w_next pcmcia_world := Obj 1 (VStr d)]> (w_heap pcmcia_world)
    | None => r = Null /\ w_heap w' = w_heap pcmcia_world /\
        w_err w' = Some (PyExc PyExc_IOError (ExcErrno 95))
    end) pcmcia_world.
Proof.
  apply (get_module_pcmcia [Loc 1] "eth0" pcmcia_world 3 0 pcmcia_machine
    (sys_ioctl 3 SIOCETHTOOL (make_ifreq IFNAMSIZ IFRU_SIZE "eth0")
       (drvinfo_buf 2048) pcmcia_machine).1 pcmcia_machine pcmcia_machine two_cards).
  - split; [reflexivity|]. by exists 1%positive, 1.
  - repeat (constructor; [split; [reflexivity|reflexivity|apply Nat.ltb_lt; reflexivity|
      first [exact I|split; first [reflexivity|apply Nat.leb_le; reflexivity]]]|]).
    constructor.
  - vm_compute. reflexivity.
  - lia.
  - vm_compute. reflexivity.
  - vm_compute. reflexivity.
  - vm_compute. reflexivity.
  - intros d [= <-]. split; reflexivity.
Defined.
