(* ===== verification/StructDesc.v ===== *)
(** * ethtool.c: structures as dictionaries

    A table describes the fields of a C structure; one routine builds a
    dictionary from the structure, its converse fills the structure from a
    dictionary.  [get_coalesce] and [set_coalesce], [get_ringparam] and
    [set_ringparam] are these two over their tables. *)
From S2P Require Import Prelude.
From S2P Require Import Platform.
From S2P Require Import CPython.
From S2P Require Import Objects.
From S2P Require Import EthtoolH.
From S2P Require Import Ioctl.

Record struct_desc := StructDesc {
  sd_name : string;
  sd_offset : nat;
  sd_size : nat;
}.

Definition member_desc (fs : list cfield) (member_name : string) : struct_desc :=
  StructDesc member_name (offsetof fs member_name) (sizeof_field fs member_name).

Definition ethtool_coalesce_desc : list struct_desc :=
  map (member_desc ethtool_coalesce)
    ["rx_coalesce_usecs"; "rx_max_coalesced_frames";
     "rx_coalesce_usecs_irq"; "rx_max_coalesced_frames_irq";
     "tx_coalesce_usecs"; "tx_max_coalesced_frames";
     "tx_coalesce_usecs_irq"; "tx_max_coalesced_frames_irq";
     "stats_block_coalesce_usecs";
     "use_adaptive_rx_coalesce"; "use_adaptive_tx_coalesce";
     "pkt_rate_low";
     "rx_coalesce_usecs_low"; "rx_max_coalesced_frames_low";
     "tx_coalesce_usecs_low"; "tx_max_coalesced_frames_low";
     "pkt_rate_high";
     "rx_coalesce_usecs_high"; "rx_max_coalesced_frames_high";
     "tx_coalesce_usecs_high"; "tx_max_coalesced_frames_high";
     "rate_sample_interval"].

Definition ethtool_ringparam_desc : list struct_desc :=
  map (member_desc ethtool_ringparam)
    ["rx_max_pending"; "rx_mini_max_pending"; "rx_jumbo_max_pending";
     "tx_max_pending"; "rx_pending"; "rx_mini_pending"; "rx_jumbo_pending";
     "tx_pending"].

Section structdesc.
Context {K : Type} `{Platform K}.
Local Abbreviation M := (M K).

(** A 32-bit access to the structure at an offset. *)
Definition load_u32 (off : nat) (values : list mbyte) : M Z :=
  match read_u32 off values with
  | Some v => mret v
  | None => raise UninitUse
  end.

Definition store_u32 (off : nat) (v : Z) (to : list mbyte) : M (list mbyte) :=
  match write_u32 off v to with
  | Some to => mret to
  | None => raise OutOfBounds
  end.

Fixpoint create_entries (dict : ptr) (table : list struct_desc)
    (values : list mbyte) : M ptr :=
  match table with
  | [] => mret dict
  | d :: table =>
      objval ← (if (sd_size d =? 4)%nat
                then v ← load_u32 (sd_offset d) values; PyLong_FromLong v
                else mret Null);
      if is_null objval then Py_DECREF dict;; mret Null
      else
        r ← PyDict_SetItemString dict (sd_name d) objval;
        if negb (r =? 0) then
          Py_DECREF objval;; Py_DECREF dict;; mret Null
        else
          Py_DECREF objval;; create_entries dict table values
  end.

Definition __struct_desc_create_dict (table : list struct_desc)
    (values : list mbyte) : M ptr :=
  dict ← PyDict_New;
  if is_null dict then mret Null else create_entries dict table values.

Definition missing_entry (n : string) : string :=
  "Missing dict entry for field " +:+ n.
Definition invalid_size (size : nat) (n : string) : string :=
  "Invalid type size " +:+ fmt_d (Z.of_nat size) +:+ " for field " +:+ n.

(** The result and the structure [*to]. *)
Fixpoint __struct_desc_from_dict (table : list struct_desc)
    (to : list mbyte) (dict : ptr) : M (Z * list mbyte) :=
  match table with
  | [] => mret (0, to)
  | d :: table =>
      if (sd_size d =? 4)%nat then
        obj ← PyDict_GetItemString dict (sd_name d);
        if is_null obj then
          PyErr_SetString PyExc_IOError (missing_entry (sd_name d));;
          mret (-1, to)
        else
          v ← PyLong_AsLong obj;
          to ← store_u32 (sd_offset d) v to;
          __struct_desc_from_dict table to dict
      else
        PyErr_SetString PyExc_IOError (invalid_size (sd_size d) (sd_name d));;
        mret (-1, to)
  end.

(** The getters and setters of a structure [fs] described by a table. *)
Definition get_struct (cmd : Z) (fs : list cfield) (table : list struct_desc)
    (args : list ptr) : M ptr :=
  '(r, s) ← get_dev_value cmd args (uninit_struct fs);
  if r <? 0 then mret Null else __struct_desc_create_dict table s.

Definition set_struct (cmd : Z) (fs : list cfield) (table : list struct_desc)
    (args : list ptr) : M ptr :=
  p ← PyArg_ParseTuple_sO args;
  match p with
  | None => mret Null
  | Some (devname, dict) =>
      '(r, s) ← __struct_desc_from_dict table (uninit_struct fs) dict;
      if negb (r =? 0) then mret Null
      else
        '(r, _) ← send_command cmd devname s;
        if negb (r =? 0) then mret Null else mret PyNone
  end.

Definition get_coalesce : list ptr -> M ptr :=
  get_struct ETHTOOL_GCOALESCE ethtool_coalesce ethtool_coalesce_desc.
Definition set_coalesce : list ptr -> M ptr :=
  set_struct ETHTOOL_SCOALESCE ethtool_coalesce ethtool_coalesce_desc.
Definition get_ringparam : list ptr -> M ptr :=
  get_struct ETHTOOL_GRINGPARAM ethtool_ringparam ethtool_ringparam_desc.
Definition set_ringparam : list ptr -> M ptr :=
  set_struct ETHTOOL_SRINGPARAM ethtool_ringparam ethtool_ringparam_desc.
End structdesc.
