(* ===== verification/StructDescFacts.v ===== *)
(** * Properties of structures as dictionaries *)
From S2P Require Import Prelude.
From S2P Require Import Platform.
From S2P Require Import CPython.
From S2P Require Import Objects.
From S2P Require Import Testbed.
From S2P Require Import RefCount.
From S2P Require Import Typing.
From S2P Require Import Containers.
From S2P Require Import EthtoolH.
From S2P Require Import Ioctl.
From S2P Require Import IoctlFacts.
From S2P Require Import StructDesc.

(** ** The tables *)

(** The fields of a table are the 32-bit words of the structure after the
    first, in order, each once, under different names. *)
Record tiles (fs : list cfield) (table : list struct_desc) : Prop := {
  tile_offset i d : table !! i = Some d -> sd_offset d = (4 * S i)%nat;
  tile_size d : d ∈ table -> sd_size d = 4%nat;
  tile_names : NoDup (map sd_name table);
  tile_all : sizeof fs = (4 * S (length table))%nat;
  tile_cmd : offsetof fs "cmd" = 0%nat;
}.

Definition tiles_b (fs : list cfield) (table : list struct_desc) : bool :=
  bool_decide (map sd_offset table = map (fun i => 4 * S i)%nat (seq 0 (length table)))
  && bool_decide (map sd_size table = replicate (length table) 4%nat)
  && bool_decide (NoDup (map sd_name table))
  && bool_decide (sizeof fs = 4 * S (length table))%nat
  && bool_decide (offsetof fs "cmd" = 0%nat).

Lemma tiles_b_ok fs table : tiles_b fs table = true -> tiles fs table.
Proof.
  unfold tiles_b. rewrite !andb_true_iff, !bool_decide_eq_true.
  intros [[[[Ho Hs] Hn] Ha] Hc]. split; try done.
  - intros i d Hd. apply (f_equal (fun l => l !! i)) in Ho.
    rewrite !list_lookup_fmap, Hd in Ho. simpl in Ho.
    rewrite lookup_seq_lt in Ho by (by eapply lookup_lt_Some).
    injection Ho. lia.
  - intros d [i Hd]%list_elem_of_lookup. apply (f_equal (fun l => l !! i)) in Hs.
    rewrite list_lookup_fmap, Hd in Hs. simpl in Hs.
    rewrite lookup_replicate_2 in Hs by (by eapply lookup_lt_Some). congruence.
Qed.

Lemma coalesce_tiles : tiles ethtool_coalesce ethtool_coalesce_desc.
Proof. apply tiles_b_ok. vm_compute. reflexivity. Qed.

Lemma ring_tiles : tiles ethtool_ringparam ethtool_ringparam_desc.
Proof. apply tiles_b_ok. vm_compute. reflexivity. Qed.

(** The parameters of a structure: its fields in the header but the command. *)
Definition header_fields (fs : list cfield) : list string :=
  filter (fun n => n <> "cmd") (cf_name <$> fs).

(** The word of the structure in the field of that name. *)
Definition header_word (fs : list cfield) (n : string) (data : list mbyte) : option Z :=
  read_u32 (offsetof fs n) data.

(** A table with these fields, each under its own name. *)
Definition from_header (fs : list cfield) : list struct_desc :=
  map (member_desc fs) (header_fields fs).

Lemma coalesce_header : ethtool_coalesce_desc = from_header ethtool_coalesce.
Proof. vm_compute. reflexivity. Qed.

Lemma ring_header : ethtool_ringparam_desc = from_header ethtool_ringparam.
Proof. vm_compute. reflexivity. Qed.

Lemma header_names fs : map sd_name (from_header fs) = header_fields fs.
Proof. unfold from_header. rewrite map_map. apply map_id. Qed.

(** ** From the structure to a dictionary *)

Section create.
Context {K : Type} `{Platform K}.
Implicit Types w : world K.

(** An entry of the dictionary and the field it shows. *)
Definition shows (h : gmap positive obj) (values : list mbyte) (d : struct_desc)
    (e : string * ptr) : Prop :=
  e.1 = sd_name d /\ exists v, read_u32 (sd_offset d) values = Some v /\
    denotes h e.2 (DInt v).

Lemma shows_keeps h h' values d e :
  keeps_data h h' -> shows h values d e -> shows h' values d e.
Proof.
  intros Hk (Hn & v & Hv & Hd). split; [done|]. exists v. split; [done|].
  by eapply denotes_keeps.
Qed.

Lemma dict_get_notin (es : list (string * ptr)) k : k ∉ es.*1 -> dict_get es k = None.
Proof.
  induction es as [|[k' p] es IH]; [done|]. cbn [fmap list_fmap fst dict_get].
  intros [Hne Hk]%not_elem_of_cons. rewrite decide_False by done. by apply IH.
Qed.

(** The world after one turn of the loop. *)
Definition entry_added (ld : positive) (es : list (string * ptr)) (name : string) (v : Z) w : world K :=
  set_next (Pos.succ (w_next w)) (set_heap
    (<[ld := Obj 1 (VDict (es ++ [(name, Loc (w_next w))]))]>
      (<[w_next w := Obj 1 (VInt v)]> (w_heap w))) w).

Lemma create_step ld es d table values v w :
  w_heap w !! ld = Some (Obj 1 (VDict es)) -> (ld < w_next w)%positive ->
  dict_get es (sd_name d) = None -> sd_size d = 4%nat ->
  read_u32 (sd_offset d) values = Some v ->
  create_entries (Loc ld) (d :: table) values w =
  create_entries (Loc ld) table values (entry_added ld es (sd_name d) v w).
Proof.
  intros Hd Hlt Hk Hs Hv. cbn [create_entries]. rewrite Hs. change (4 =? 4)%nat with true.
  cbv iota. unfold load_u32. rewrite Hv. rewrite bind_assoc, bind_ret_l.
  unfold PyLong_FromLong. rewrite (bind_Ret _ _ _ _ _ (alloc_eq _ _)).
  cbn [is_null]. cbv iota.
  set (w1 := set_next _ _).
  assert (w_heap w1 !! ld = Some (Obj 1 (VDict es))) as Hd1.
  { unfold w1. simpl. rewrite lookup_insert_ne; [done|lia]. }
  assert (w_heap w1 !! w_next w = Some (Obj 1 (VInt v))) as Hn1.
  { unfold w1. simpl. apply lookup_insert_eq. }
  assert (ld <> w_next w) as Hne by lia.
  rewrite (bind_Ret _ _ _ _ _ (dict_add_owned _ _ _ _ _ _ _ Hd1 Hk Hn1 Hne)).
  change (negb (0 =? 0)) with false. cbv iota.
  rewrite (bind_Ret _ _ _ _ _ (dict_decref_owned _ 1 es (sd_name d) _ _ _ Hn1 Hne)).
  done.
Qed.

(** A dictionary of one's own is being filled, since [w0]. *)
Record filling (w0 : world K) (rho : gmultiset positive) (ld : positive)
    (es : list (string * ptr)) (w : world K) : Prop := {
  fl_dict : w_heap w !! ld = Some (Obj 1 (VDict es));
  fl_wf : wf w ({[+ ld +]} ⊎ rho);
  fl_new : only_new w0 w;
  fl_old : (w_next w0 <= ld)%positive;
  fl_made : made_from (w_next w0) (w_heap w);
}.

Lemma filling_fresh w0 rho ld es w : filling w0 rho ld es w -> (ld < w_next w)%positive.
Proof. intros [Hld Hw _ _ _]. exact (wf_fresh _ _ _ (wf_hp _ _ Hw) _ _ Hld). Qed.

Lemma entry_added_wf w0 rho ld es name v w :
  filling w0 rho ld es w -> wf (entry_added ld es name v w) ({[+ ld +]} ⊎ rho).
Proof.
  intros Hfl. pose proof (filling_fresh _ _ _ _ _ Hfl) as Hldn. destruct Hfl as [Hld Hw _ _ _].
  split; [|by destruct Hw as [_ []]]. eapply wf_move_in with (ln := w_next w) (v := VDict es).
  - apply wf_alloc; [|by constructor]. eapply wf_heap_eq; [apply Hw|].
    unfold val_refs. simpl. multiset_solver.
  - simpl. rewrite lookup_insert_ne; [done|lia].
  - done.
  - unfold val_refs. simpl. rewrite fmap_app, ptrs_refs_app. simpl. multiset_solver.
  - pose proof (wf_val _ _ _ (wf_hp _ _ Hw) _ _ Hld) as Hval.
    simpl in *. rewrite fmap_app. apply Forall_app. split; [by apply Hval|]. by constructor.
Qed.

Lemma entry_added_made w0 rho ld es name v w :
  filling w0 rho ld es w -> made_from (w_next w0) (w_heap (entry_added ld es name v w)).
Proof.
  intros Hfl. pose proof (filling_fresh _ _ _ _ _ Hfl) as Hldn. destruct Hfl as [Hld Hw Hon Hlt Hmd].
  pose proof (wf_fresh_next _ _ _ (wf_hp _ _ Hw)) as Hfr.
  assert (<[w_next w := Obj 1 (VInt v)]> (w_heap w) !! ld = Some (Obj 1 (VDict es))) as Hld'
    by (by rewrite lookup_insert_ne by lia).
  apply typed_from_insert; [by apply typed_from_new|by eapply keeps_kinds_insert|].
  destruct (decide (ld < w_next w0)%positive); [by left|right; split; [done|]].
  pose proof (proj2 (Hmd ld _ Hld ltac:(lia))) as Hty. simpl in *.
  rewrite fmap_app. apply Forall_app. split.
  - eapply list.Forall_impl; [exact Hty|]. intros p [Hp|[]]. left.
    eapply atom_at_keeps; [|exact Hp]. etrans; [by apply keeps_kinds_fresh|].
    by eapply keeps_kinds_insert.
  - constructor; [|done]. left. right. exists (w_next w), (Obj 1 (VInt v)).
    split; [done|]. rewrite lookup_insert_ne by lia. by rewrite lookup_insert_eq.
Qed.

Lemma filling_add w0 rho ld es name v w :
  filling w0 rho ld es w ->
  filling w0 rho ld (es ++ [(name, Loc (w_next w))]) (entry_added ld es name v w) /\
  keeps_data (w_heap w) (w_heap (entry_added ld es name v w)) /\
  denotes (w_heap (entry_added ld es name v w)) (Loc (w_next w)) (DInt v).
Proof.
  intros Hfl. pose proof (filling_fresh _ _ _ _ _ Hfl) as Hldn.
  pose proof (entry_added_wf w0 rho ld es name v w Hfl) as Hw1.
  pose proof (entry_added_made w0 rho ld es name v w Hfl) as Hmd1.
  destruct Hfl as [Hld Hw Hon Hlt _]. split; [|split].
  - split; [apply lookup_insert_eq|done| |done|done].
    exact (only_new_put w0 _ ld _ (transitivity Hon (only_new_alloc (VInt v) w)) Hlt).
  - etrans; [|eapply (keeps_insert_dict _ ld 1 es)].
    + apply keeps_insert_fresh. eapply wf_fresh_next, Hw.
    + rewrite lookup_insert_ne; [done|lia].
  - exists (w_next w). split; [done|]. simpl. rewrite lookup_insert_ne by lia.
    apply lookup_insert_eq.
Qed.

Lemma create_entries_ok table values ld rho w0 : forall w es,
  filling w0 rho ld es w -> NoDup (es.*1 ++ map sd_name table) ->
  (forall d, d ∈ table -> sd_size d = 4%nat /\
     exists v, read_u32 (sd_offset d) values = Some v) ->
  wp (create_entries (Loc ld) table values) (fun r w' => exists es',
    r = Loc ld /\ filling w0 rho ld (es ++ es') w' /\
    Forall2 (shows (w_heap w') values) table es' /\
    keeps_data (w_heap w) (w_heap w') /\ w_env w' = w_env w) w.
Proof.
  induction table as [|d table IH]; intros w es Hfl Hnd Ht.
  { exists []. rewrite app_nil_r. by repeat (split; [done|]). }
  destruct (Ht d) as [Hs [v Hv]]; [left|]. cbn [map] in Hnd.
  assert (dict_get es (sd_name d) = None) as Hk.
  { apply dict_get_notin. apply list.NoDup_app in Hnd as (_ & Hnd & _).
    intros Hin. apply (Hnd _ Hin). left. }
  pose proof (filling_fresh _ _ _ _ _ Hfl) as Hldn.
  unfold wp. rewrite (create_step ld es d table values v w) by (done || apply Hfl).
  destruct (filling_add w0 rho ld es (sd_name d) v w Hfl) as (Hfl1 & Hk1 & Hd1).
  eapply wp_mono.
  { apply (IH _ _ Hfl1); [|intros d' Hd'; apply Ht; by right].
    by rewrite fmap_app, <- app_assoc. }
  intros r w' (es' & -> & Hfl' & Hf & Hk' & He).
  exists ((sd_name d, Loc (w_next w)) :: es'). split; [done|].
  rewrite <- app_assoc in Hfl'. split; [exact Hfl'|]. split; [|split; [by etrans|exact He]].
  constructor; [|done]. split; [done|]. exists v. split; [done|]. by eapply denotes_keeps.
Qed.

Lemma create_dict_ok table values rho w :
  NoDup (map sd_name table) ->
  (forall d, d ∈ table -> sd_size d = 4%nat /\
     exists v, read_u32 (sd_offset d) values = Some v) ->
  wf w rho ->
  wp (__struct_desc_create_dict table values) (fun r w' => exists l es,
    r = Loc l /\ w_heap w' !! l = Some (Obj 1 (VDict es)) /\
    Forall2 (shows (w_heap w') values) table es /\
    wf w' ({[+ l +]} ⊎ rho) /\ only_new w w' /\ made_from (w_next w) (w_heap w') /\
    w_env w' = w_env w) w.
Proof.
  intros Hn Ht Hw. unfold __struct_desc_create_dict, PyDict_New.
  eapply wp_step; [apply alloc_eq|]. cbn [is_null]. cbv iota.
  eapply wp_mono.
  { apply (create_entries_ok table values (w_next w) rho w _ []); [|done|done]. split.
    - apply lookup_insert_eq.
    - apply alloc_wf; [|by constructor]. eapply wf_eq; [exact Hw|].
      unfold val_refs. simpl. multiset_solver.
    - apply only_new_alloc.
    - done.
    - apply typed_from_new; [apply typed_from_none, Hw|by eapply wf_fresh_next, Hw|done|].
      by constructor. }
  intros r w' (es & -> & [Hl Hw' Hon _ Hmd] & Hf & _ & He).
  by exists (w_next w), es.
Qed.
End create.

(** ** From a dictionary to the structure *)

(** What [PyLong_AsLong] makes of a value: a [long], and the exception when
    there is none. *)
Definition as_long (v : pyval) : Z * option exc_kind :=
  match v with
  | VInt z =>
      if decide (LONG_MIN <= z <= LONG_MAX) then (z, None)
      else (-1, Some PyExc_OverflowError)
  | _ => (-1, Some PyExc_TypeError)
  end.

Definition raised {K} (k : option exc_kind) (w : world K) : world K :=
  match k with
  | None => w
  | Some k => set_err (Some (PyExc k ExcRuntime)) w
  end.

(** The values stored one after the other at the offsets of the table, and the
    exceptions their conversion leaves behind. *)
Fixpoint store_all (table : list struct_desc) (vs : list pyval) (to : list mbyte)
    : list mbyte :=
  match table, vs with
  | d :: table, v :: vs =>
      store_all table vs (default to (write_u32 (sd_offset d) (as_long v).1 to))
  | _, _ => to
  end.

Fixpoint raise_all {K} (vs : list pyval) (w : world K) : world K :=
  match vs with
  | [] => w
  | v :: vs => raise_all vs (raised (as_long v).2 w)
  end.

(** The dictionary at [p] has the values [vs] under the names of the table. *)
Definition entries {K} (w : world K) (p : ptr) (table : list struct_desc)
    (vs : list pyval) : Prop :=
  exists l rc es, p = Loc l /\ w_heap w !! l = Some (Obj rc (VDict es)) /\
    Forall2 (fun d v => exists l' rc', dict_get es (sd_name d) = Some (Loc l') /\
      w_heap w !! l' = Some (Obj rc' v)) table vs.

Section from_dict.
Context {K : Type} `{Platform K}.
Implicit Types w : world K.

Lemma raised_heap k w : w_heap (raised k w) = w_heap w.
Proof. by destruct k. Qed.

Lemma raise_all_eq vs w :
  raise_all vs w = w \/ exists x, raise_all vs w = set_err (Some x) w.
Proof.
  revert w; induction vs as [|v vs IH]; intros w; simpl; [by left|].
  destruct (IH (raised (as_long v).2 w)) as [-> | [x ->]];
    destruct (as_long v).2; simpl; eauto.
Qed.

Lemma PyLong_AsLong_eq l rc v w :
  w_heap w !! l = Some (Obj rc v) ->
  PyLong_AsLong (Loc l) w = Ret (as_long v).1 (raised (as_long v).2 w).
Proof.
  intros Hl. unfold PyLong_AsLong. rewrite (bind_Ret _ _ _ _ _ (peek_eq _ _ _ Hl)).
  destruct v; try done. cbn [ob_val as_long]. by case_decide.
Qed.

Lemma write_u32_Some off z buf :
  (off + 4 <= length buf)%nat -> exists buf', write_u32 off z buf = Some buf'
    /\ length buf' = length buf.
Proof.
  intros Ho. unfold write_u32. rewrite write_bytes_Some by (by rewrite length_le_bytes).
  eexists. split; [done|]. eapply length_write_bytes.
  apply write_bytes_Some. by rewrite length_le_bytes.
Qed.

(** The loop over a prefix of the table that the dictionary covers. *)
Lemma from_dict_prefix table vs rest p : forall to w,
  entries w p table vs ->
  (forall d, d ∈ table -> sd_size d = 4%nat /\ (sd_offset d + 4 <= length to)%nat) ->
  __struct_desc_from_dict (table ++ rest) to p w
    = __struct_desc_from_dict rest (store_all table vs to) p (raise_all vs w).
Proof.
  revert vs; induction table as [|d table IH]; intros vs to w He Ht.
  { destruct He as (l & rc & es & _ & _ & Hf). by inversion Hf. }
  pose proof He as (l & rc & es & -> & Hl & Hf).
  apply Forall2_cons_inv_l in Hf as (v & vs' & (l' & rc' & Hg & Hl') & Hf & ->).
  destruct (Ht d) as [Hs Ho]; [left|].
  destruct (write_u32_Some (sd_offset d) (as_long v).1 to Ho) as (to' & Hto & Hlen).
  cbn [app __struct_desc_from_dict store_all raise_all]. rewrite Hs, Hto.
  change (4 =? 4)%nat with true. cbv iota. unfold PyDict_GetItemString.
  rewrite bind_assoc, (bind_Ret _ _ _ _ _ (peek_eq _ _ _ Hl)). cbn [ob_val].
  rewrite Hg, bind_ret_l. cbn [from_option id is_null]. cbv iota.
  rewrite (bind_Ret _ _ _ _ _ (PyLong_AsLong_eq _ _ _ _ Hl')).
  unfold store_u32. rewrite Hto, bind_ret_l. simpl. apply IH.
  - exists l, rc, es. rewrite raised_heap. done.
  - intros d' Hd'. rewrite Hlen. apply Ht. by right.
Qed.

Lemma from_dict_ok table vs p to w :
  entries w p table vs ->
  (forall d, d ∈ table -> sd_size d = 4%nat /\ (sd_offset d + 4 <= length to)%nat) ->
  __struct_desc_from_dict table to p w
    = Ret (0, store_all table vs to) (raise_all vs w).
Proof.
  intros He Ht. rewrite <- (app_nil_r table) at 1. by rewrite (from_dict_prefix table vs).
Qed.

(** A field the dictionary lacks. *)
Lemma from_dict_missing table d rest vs p l rc es to w :
  p = Loc l -> w_heap w !! l = Some (Obj rc (VDict es)) ->
  dict_get es (sd_name d) = None -> entries w p table vs -> sd_size d = 4%nat ->
  (forall d, d ∈ table -> sd_size d = 4%nat /\ (sd_offset d + 4 <= length to)%nat) ->
  __struct_desc_from_dict (table ++ d :: rest) to p w
    = Ret (-1, store_all table vs to)
        (set_err (Some (PyExc PyExc_IOError (ExcMsg (missing_entry (sd_name d))))) w).
Proof.
  intros -> Hl Hd He Hs Ht. rewrite (from_dict_prefix table vs) by done.
  cbn [__struct_desc_from_dict]. rewrite Hs. change (4 =? 4)%nat with true.
  cbv iota. unfold PyDict_GetItemString. rewrite bind_assoc.
  destruct (raise_all_eq vs w) as [-> | [x ->]];
    (erewrite bind_Ret by (by apply peek_eq)); cbn [ob_val]; by rewrite Hd.
Qed.
End from_dict.

(** ** The stored words *)

Lemma as_long_u32 z : 0 <= z < 2 ^ 32 -> as_long (VInt z) = (z, None).
Proof. intros Hz. simpl. rewrite decide_True; [done|]. int_lia. Qed.

Lemma dict_get_app pre es k :
  k ∉ pre.*1 -> dict_get (pre ++ es) k = dict_get es k.
Proof.
  induction pre as [|[k' p] pre IH]; [done|]. cbn [fmap list_fmap fst app dict_get].
  intros [Hne Hk]%not_elem_of_cons. rewrite decide_False by done. by apply IH.
Qed.

(** What a dictionary shows, as values found under the names. *)
Lemma shown_values h values table es : forall pre,
  Forall2 (shows h values) table es -> NoDup (pre.*1 ++ map sd_name table) ->
  exists zs, Forall2 (fun d z => read_u32 (sd_offset d) values = Some z) table zs /\
    Forall2 (fun d v => exists l' rc', dict_get (pre ++ es) (sd_name d) = Some (Loc l')
      /\ h !! l' = Some (Obj rc' v)) table (VInt <$> zs).
Proof.
  intros pre Hf. revert pre.
  induction Hf as [|d [k p] table es (Hn & v & Hv & l & Hp & Hl) Hf IH]; intros pre Hd.
  { by exists []. }
  simpl in Hn, Hp. subst k p. cbn [map] in Hd.
  destruct (IH (pre ++ [(sd_name d, Loc l)])) as (zs & Hz & He).
  { by rewrite fmap_app, <- app_assoc. }
  rewrite <- app_assoc in He. exists (v :: zs). split; [by constructor|].
  cbn [fmap list_fmap]. constructor; [|exact He].
  exists l, 1. rewrite dict_get_app.
  - cbn [dict_get]. by rewrite decide_True.
  - apply list.NoDup_app in Hd as (_ & Hd & _). intros Hin. apply (Hd _ Hin). left.
Qed.

Lemma length_store_all table vs to : length (store_all table vs to) = length to.
Proof.
  revert vs to; induction table as [|d table IH]; intros [|v vs] to; simpl; try done.
  rewrite IH. destruct (write_u32 _ _ to) as [to'|] eqn:E; [|done].
  by eapply length_write_bytes.
Qed.

(** A table in ascending order of offsets keeps later words apart. *)
Lemma store_all_other table vs off : forall to,
  (forall d, d ∈ table -> (off + 4 <= sd_offset d \/ sd_offset d + 4 <= off)%nat) ->
  read_u32 off (store_all table vs to) = read_u32 off to.
Proof.
  revert vs; induction table as [|d table IH]; intros [|v vs] to Hd; simpl; try done.
  rewrite IH by (intros; apply Hd; by right).
  destruct (write_u32 _ _ to) as [to'|] eqn:E; [|done].
  eapply read_write_u32_other; [done|]. apply Hd. left.
Qed.

(** Fields that lie one after the other. *)
Fixpoint apart (table : list struct_desc) : Prop :=
  match table with
  | [] => True
  | d :: table =>
      (forall d', d' ∈ table -> (sd_offset d + 4 <= sd_offset d')%nat) /\ apart table
  end.

Lemma store_all_read table : forall vs i d v to,
  apart table -> (forall d, d ∈ table -> (sd_offset d + 4 <= length to)%nat) ->
  table !! i = Some d -> vs !! i = Some v ->
  read_u32 (sd_offset d) (store_all table vs to) = Some (u32 (as_long v).1).
Proof.
  induction table as [|d0 table IH]; intros [|v0 vs] [|i] d v to Ha Ht Hd Hv;
    try done; destruct Ha as [Ha Ha']; simpl in *; simplify_eq.
  - destruct (write_u32_Some (sd_offset d) (as_long v).1 to) as (to' & Hto & Hlen).
    { apply Ht. left. }
    rewrite Hto. simpl. rewrite store_all_other.
    + by eapply read_write_u32_same.
    + intros d' Hd'. left. by apply Ha.
  - destruct (write_u32_Some (sd_offset d0) (as_long v0).1 to) as (to' & Hto & Hlen).
    { apply Ht. left. }
    rewrite Hto. simpl. eapply IH; [done| |done..].
    intros d' Hd'. rewrite Hlen. apply Ht. by right.
Qed.

Lemma tiles_shift fs table :
  tiles fs table -> forall i d, table !! i = Some d ->
  sd_offset d = (4 * S i)%nat /\ (sd_offset d + 4 <= sizeof fs)%nat.
Proof.
  intros Ht i d Hd. rewrite (tile_all _ _ Ht), (tile_offset _ _ Ht i d Hd).
  apply lookup_lt_Some in Hd. lia.
Qed.

Lemma tiles_apart fs table : tiles fs table -> apart table.
Proof.
  intros Ht.
  assert (forall k t, (forall i d, t !! i = Some d -> sd_offset d = (4 * (k + i))%nat) ->
    apart t) as Hg.
  { intros k t. revert k. induction t as [|d t IH]; intros k Hk; [done|]. split.
    - intros d' [i Hi]%list_elem_of_lookup. rewrite (Hk 0%nat d eq_refl).
      rewrite (Hk (S i) d' Hi). lia.
    - apply (IH (S k)). intros i d' Hi. rewrite (Hk (S i) d' Hi). lia. }
  apply (Hg 1%nat). intros i d Hd. rewrite (tile_offset _ _ Ht i d Hd). lia.
Qed.

Lemma tiles_fit fs table d : tiles fs table -> d ∈ table ->
  sd_size d = 4%nat /\ (sd_offset d + 4 <= sizeof fs)%nat.
Proof.
  intros Ht Hd. split; [by eapply tile_size|].
  apply list_elem_of_lookup in Hd as [i Hi]. by eapply tiles_shift.
Qed.

Lemma length_uninit fs : length (uninit_struct fs) = sizeof fs.
Proof. apply length_replicate. Qed.

(** C13: the two conversions are inverse.  Building a dictionary from a
    structure and filling a fresh structure from that dictionary succeeds,
    raises nothing, changes nothing else, and gives every described word the
    value it had. *)
Theorem dict_roundtrip {K} `{Platform K} fs table values rho (w : world K) :
  tiles fs table ->
  (forall d, d ∈ table -> exists v, read_u32 (sd_offset d) values = Some v) ->
  wf w rho ->
  wp (d ← __struct_desc_create_dict table values;
      __struct_desc_from_dict table (uninit_struct fs) d)
    (fun p w' => p.1 = 0 /\ only_new w w' /\ forall d, d ∈ table ->
       read_u32 (sd_offset d) p.2 = read_u32 (sd_offset d) values) w.
Proof.
  intros Ht Hv Hw. apply wp_bind. eapply wp_mono.
  { apply (create_dict_ok table values rho w); [by destruct Ht| |done].
    intros d Hd. split; [by eapply tile_size|by apply Hv]. }
  intros r w' (l & es & -> & Hl & Hf & _ & Hon & _).
  destruct (shown_values _ _ _ _ [] Hf (tile_names _ _ Ht)) as (zs & Hz & He).
  unfold wp. rewrite (from_dict_ok table (VInt <$> zs)).
  - split; [done|]. split.
    + replace (raise_all _ _) with w'; [done|]. clear -Hz.
      induction zs as [|z zs IH] in table, Hz |- *; [done|].
      apply Forall2_cons_inv_r in Hz as (d & t & Hd & Hz & ->).
      cbn [fmap list_fmap raise_all]. rewrite (as_long_u32 z); [by eapply IH|].
      by eapply read_u32_range.
    + intros d [i Hd]%list_elem_of_lookup. simpl.
      destruct (Forall2_lookup_l _ _ _ _ _ Hz Hd) as (z & Hzi & Hr).
      rewrite Hr. rewrite (store_all_read table (VInt <$> zs) i d (VInt z)).
      * rewrite as_long_u32 by (by eapply read_u32_range). simpl.
        by rewrite u32_small by (by eapply read_u32_range).
      * by eapply tiles_apart.
      * intros. rewrite length_uninit. by eapply tiles_fit.
      * done.
      * by rewrite list_lookup_fmap, Hzi.
  - exists l, 1, es. split; [done|]. split; [done|]. exact He.
  - intros. rewrite length_uninit. by eapply tiles_fit.
Qed.

(** ** The setters *)

Lemma parse_sO_name {K} (w : world K) l rc s p :
  has_nul s = false -> w_heap w !! l = Some (Obj rc (VStr s)) ->
  PyArg_ParseTuple_sO [Loc l; p] w = Ret (Some (s, p)) w.
Proof.
  intros Hn Hl. simpl. unfold conv_s. rewrite bind_assoc.
  erewrite bind_Ret by (by apply peek_eq). simpl. by rewrite Hn.
Qed.

(** The structure a setter sends. *)
Definition set_request (cmd : Z) (fs : list cfield) (table : list struct_desc)
    (vs : list pyval) : list mbyte :=
  let s := store_all table vs (uninit_struct fs) in
  default s (write_u32 0 cmd s).

Lemma set_request_eq cmd fs table vs :
  tiles fs table ->
  write_u32 0 cmd (store_all table vs (uninit_struct fs))
    = Some (set_request cmd fs table vs).
Proof.
  intros Ht. unfold set_request.
  destruct (write_u32_Some 0 cmd (store_all table vs (uninit_struct fs)))
    as (b & -> & _); [|done].
  rewrite length_store_all, length_uninit, (tile_all _ _ Ht). lia.
Qed.

Lemma set_request_words cmd fs table vs :
  tiles fs table -> length vs = length table ->
  length (set_request cmd fs table vs) = sizeof fs /\
  read_u32 0 (set_request cmd fs table vs) = Some (u32 cmd) /\
  forall i d v, table !! i = Some d -> vs !! i = Some v ->
    read_u32 (sd_offset d) (set_request cmd fs table vs) = Some (u32 (as_long v).1).
Proof.
  intros Ht Hlen. pose proof (set_request_eq cmd fs table vs Ht) as E.
  split; [|split].
  - by rewrite (length_write_bytes _ _ _ _ E), length_store_all, length_uninit.
  - by eapply read_write_u32_same.
  - intros i d v Hd Hv. rewrite (read_write_u32_other (sd_offset d) _ _ _ _ E).
    + eapply store_all_read; [by eapply tiles_apart| |done..].
      intros. rewrite length_uninit. by eapply tiles_fit.
    + rewrite (tile_offset _ _ Ht i d Hd). lia.
Qed.

(** Every byte of the request is set. *)
Lemma set_request_full cmd fs table vs i :
  tiles fs table -> length vs = length table -> (i < sizeof fs)%nat ->
  exists b, set_request cmd fs table vs !! i = Some (Some b).
Proof.
  intros Ht Hlen Hi. destruct (set_request_words cmd fs table vs Ht Hlen) as (_ & H0 & Hw).
  pose proof (Nat.div_mod i 4 ltac:(lia)) as Hdm.
  pose proof (Nat.mod_upper_bound i 4 ltac:(lia)) as Hm.
  destruct (i / 4)%nat as [|j] eqn:Ej.
  - rewrite Hdm. exact (read_u32_set 0 _ _ _ H0 Hm).
  - rewrite (tile_all _ _ Ht) in Hi.
    destruct (lookup_lt_is_Some_2 table j) as [d Hd]; [lia|].
    destruct (lookup_lt_is_Some_2 vs j) as [v Hv]; [lia|].
    pose proof (read_u32_set _ _ _ _ (Hw j d v Hd Hv) Hm) as Hr.
    rewrite (tile_offset _ _ Ht j d Hd) in Hr. by rewrite Hdm.
Qed.

Section set_struct.
Context {K : Type} `{Platform K}.
Implicit Types w : world K.

(** [set_struct] on a dictionary that has every field. *)
Lemma set_struct_eq cmd fs table vs l rc s p w :
  tiles fs table -> has_nul s = false -> w_heap w !! l = Some (Obj rc (VStr s)) ->
  entries w p table vs ->
  set_struct cmd fs table [Loc l; p] w =
  let '((fd, e), k1) := sys_socket (w_env w) in
  if fd <? 0 then
    Ret Null (set_err (Some (PyExc PyExc_OSError (ExcErrno e)))
      (set_errno e (set_env k1 (raise_all vs w))))
  else
    let '(rep, k2) := sys_ioctl fd SIOCETHTOOL (make_ifreq IFNAMSIZ IFRU_SIZE s)
      (set_request cmd fs table vs) k1 in
    let w2 := set_fds (w_fds w ∖ {[fd]}) (set_env k2 (raise_all vs w)) in
    if io_ret rep <? 0 then
      Ret Null (set_err (Some (PyExc PyExc_IOError (ExcErrno (io_errno rep))))
        (set_errno (io_errno rep) w2))
    else Ret (if io_ret rep =? 0 then PyNone else Null) w2.
Proof.
  intros Ht Hn Hl He. unfold set_struct.
  rewrite (bind_Ret _ _ _ _ _ (parse_sO_name _ _ _ _ p Hn Hl)). cbn beta iota.
  erewrite bind_Ret.
  2:{ apply (from_dict_ok table vs); [done|]. intros. rewrite length_uninit.
      by eapply tiles_fit. }
  cbn beta iota. change (negb (0 =? 0)) with false. cbv iota.
  assert (forall f : Z * list mbyte -> M K ptr,
    (send_command cmd s (store_all table vs (uninit_struct fs)) ≫= f) (raise_all vs w)
    = match send_command cmd s (store_all table vs (uninit_struct fs)) (raise_all vs w)
      with Ret a w' => f a w' | Fault x => Fault x end) as Hb by done.
  rewrite Hb, (send_command_eq _ _ _ _ _ (set_request_eq cmd fs table vs Ht)).
  assert (w_env (raise_all vs w) = w_env w /\ w_fds (raise_all vs w) = w_fds w)
    as [-> ->] by (by destruct (raise_all_eq vs w) as [-> | [x ->]]).
  destruct (sys_socket (w_env w)) as [[fd e] k1].
  destruct (fd <? 0); [done|].
  destruct (sys_ioctl fd SIOCETHTOOL _ _ k1) as [rep k2]. cbv zeta.
  cbv beta iota.
  destruct (io_ret rep <? 0) eqn:Er, (io_ret rep =? 0) eqn:E; try done; lia.
Qed.

(** C14: a structure setter ([set_coalesce], [set_ringparam]) given a device
    name and a dictionary with every field of the table.  It sends one
    request in which every byte is set, the first word is the command and each
    field is its value modulo 2^32; the socket is closed; the result is [None]
    when the kernel answers 0, and otherwise [NULL] with the error of the
    socket or the kernel. *)
Theorem set_struct_spec cmd fs table vs l rc s p w :
  tiles fs table -> has_nul s = false -> w_heap w !! l = Some (Obj rc (VStr s)) ->
  entries w p table vs -> Forall (fun v => (as_long v).2 = None) vs ->
  exists request, length request = sizeof fs /\
    (forall i, (i < sizeof fs)%nat -> exists b, request !! i = Some (Some b)) /\
    read_u32 0 request = Some (u32 cmd) /\
    (forall i d v, table !! i = Some d -> vs !! i = Some v ->
       read_u32 (sd_offset d) request = Some (u32 (as_long v).1)) /\
    wp (set_struct cmd fs table [Loc l; p]) (fun r w' =>
      let '((fd, e), k1) := sys_socket (w_env w) in
      if fd <? 0 then
        r = Null /\ w_err w' = Some (PyExc PyExc_OSError (ExcErrno e))
      else
        let '(rep, k2) :=
          sys_ioctl fd SIOCETHTOOL (make_ifreq IFNAMSIZ IFRU_SIZE s) request k1 in
        ~ (fd ∈ w_fds w') /\ w_env w' = k2 /\ w_heap w' = w_heap w /\
        (if io_ret rep <? 0 then
           r = Null /\ w_err w' = Some (PyExc PyExc_IOError (ExcErrno (io_errno rep)))
         else r = (if io_ret rep =? 0 then PyNone else Null)
           /\ w_err w' = w_err w)) w.
Proof.
  intros Ht Hn Hl He Hv. assert (length vs = length table) as Hlen.
  { destruct He as (? & ? & ? & _ & _ & Hf). by apply Forall2_length in Hf. }
  assert (raise_all vs w = w) as Hr.
  { clear -Hv. induction Hv as [|v vs Hv _ IH]; [done|]. simpl. by rewrite Hv. }
  destruct (set_request_words cmd fs table vs Ht Hlen) as (H0 & H1 & H2).
  exists (set_request cmd fs table vs). split; [done|].
  split; [intros; by eapply set_request_full|]. split; [done|]. split; [done|].
  unfold wp. rewrite (set_struct_eq cmd fs table vs l rc s p w) by done. rewrite Hr.
  destruct (sys_socket (w_env w)) as [[fd e] k1]. destruct (fd <? 0); [done|].
  destruct (sys_ioctl fd SIOCETHTOOL _ _ k1) as [rep k2]. cbv zeta.
  destruct (io_ret rep <? 0); (split; [apply closed_not_open|done]).
Qed.

(** C39: a value of the dictionary that is not an integer, or too big a one, is
    not an error to the setter: the conversion fails, -1 is stored, and the
    kernel is sent 2^32 - 1 for the field.  When the kernel accepts, the
    result is [None] with the exception of the conversion still pending. *)
Theorem set_struct_ignores_conversion cmd fs table vs l rc s p w i d v
    fd e k1 rep k2 :
  tiles fs table -> has_nul s = false -> w_heap w !! l = Some (Obj rc (VStr s)) ->
  entries w p table vs -> table !! i = Some d -> vs !! i = Some v ->
  (as_long v).2 <> None ->
  sys_socket (w_env w) = ((fd, e), k1) -> 0 <= fd ->
  sys_ioctl fd SIOCETHTOOL (make_ifreq IFNAMSIZ IFRU_SIZE s)
    (set_request cmd fs table vs) k1 = (rep, k2) -> io_ret rep = 0 ->
  read_u32 (sd_offset d) (set_request cmd fs table vs) = Some (2 ^ 32 - 1) /\
  wp (set_struct cmd fs table [Loc l; p])
     (fun r w' => r = PyNone /\ w_err w' <> None) w.
Proof.
  intros Ht Hn Hl He Hd Hv Hbad Hsock Hfd Hio Hret.
  assert (length vs = length table) as Hlen.
  { destruct He as (? & ? & ? & _ & _ & Hf). by apply Forall2_length in Hf. }
  destruct (set_request_words cmd fs table vs Ht Hlen) as (_ & _ & Hw). split.
  - rewrite (Hw i d v Hd Hv). replace (as_long v).1 with (-1); [done|].
    destruct v; try done. simpl in *. by case_decide.
  - unfold wp. rewrite (set_struct_eq cmd fs table vs l rc s p w) by done.
    rewrite Hsock, (proj2 (Z.ltb_ge _ _) Hfd), Hio, Hret. cbv zeta iota.
    change (0 <? 0) with false. change (0 =? 0) with true. cbv iota.
    split; [done|]. simpl.
    assert (forall vs w, w_err w <> None -> w_err (raise_all vs w) <> None) as Hkeep.
    { intros us; induction us as [|u us IH]; intros w1 Hw1; [done|]. simpl.
      apply IH. by destruct (as_long u).2. }
    clear -Hv Hbad Hkeep. revert i w Hv.
    induction vs as [|u vs IH]; intros [|i] w Hv; try done; simpl in *.
    + simplify_eq. apply Hkeep. by destruct (as_long v).2.
    + by eapply IH.
Qed.

(** A dictionary without one of the fields is refused with [IOError]
    naming the first field missing, before anything is asked of the kernel. *)
Theorem set_struct_missing cmd fs table0 d rest vs l rc s p rc' es w :
  tiles fs (table0 ++ d :: rest) -> has_nul s = false ->
  w_heap w !! l = Some (Obj rc (VStr s)) ->
  w_heap w !! p = Some (Obj rc' (VDict es)) -> dict_get es (sd_name d) = None ->
  entries w (Loc p) table0 vs ->
  wp (set_struct cmd fs (table0 ++ d :: rest) [Loc l; Loc p]) (fun r w' =>
    r = Null /\ w_env w' = w_env w /\ w_fds w' = w_fds w /\ w_heap w' = w_heap w /\
    w_err w' = Some (PyExc PyExc_IOError
      (ExcMsg ("Missing dict entry for field " +:+ sd_name d)))) w.
Proof.
  intros Ht Hn Hl Hp Hd He. unfold set_struct, wp.
  rewrite (bind_Ret _ _ _ _ _ (parse_sO_name _ _ _ _ (Loc p) Hn Hl)). cbn beta iota.
  erewrite bind_Ret.
  2:{ eapply (from_dict_missing table0); [done..| |].
      - eapply tile_size; [done|]. apply elem_of_app. right. left.
      - intros d' Hd'. rewrite length_uninit. eapply tiles_fit; [done|].
        apply elem_of_app. by left. }
  done.
Qed.
End set_struct.

(** ** The getters *)

Section get_struct.
Context {K : Type} `{Platform K}.
Implicit Types w : world K.

(** The structure a getter sends: the command, and nothing else set. *)
Definition get_request (cmd : Z) (fs : list cfield) : list mbyte :=
  (Some <$> le_bytes 4 cmd) ++ replicate (sizeof fs - 4) None.

Lemma get_request_eq cmd fs :
  (4 <= sizeof fs)%nat ->
  write_u32 0 cmd (uninit_struct fs) = Some (get_request cmd fs).
Proof.
  intros Hs. unfold write_u32. rewrite write_bytes_Some.
  2:{ rewrite length_uninit, length_le_bytes. lia. }
  unfold get_request, uninit_struct. rewrite length_le_bytes.
  by rewrite drop_replicate.
Qed.

(** What a getter leaves of the world. *)
Lemma get_struct_ok cmd fs table args s rho w :
  tiles fs table -> name_arg w args s -> wf w rho ->
  (forall fd e k1 rep k2 d, sys_socket (w_env w) = ((fd, e), k1) ->
     sys_ioctl fd SIOCETHTOOL (make_ifreq IFNAMSIZ IFRU_SIZE s)
       (get_request cmd fs) k1 = (rep, k2) -> 0 <= io_ret rep -> d ∈ table ->
     exists v, read_u32 (sd_offset d) (io_data rep) = Some v) ->
  wp (get_struct cmd fs table args) (fun r w' =>
    let '((fd, e), k1) := sys_socket (w_env w) in
    if fd <? 0 then
      r = Null /\ w_err w' = Some (PyExc PyExc_OSError (ExcErrno e)) /\ wf w' rho /\
      w_env w' = k1
    else
      let '(rep, k2) := sys_ioctl fd SIOCETHTOOL (make_ifreq IFNAMSIZ IFRU_SIZE s)
        (get_request cmd fs) k1 in
      ~ (fd ∈ w_fds w') /\ w_env w' = k2 /\
      (if io_ret rep <? 0 then
         r = Null /\ wf w' rho /\
         w_err w' = Some (PyExc PyExc_IOError (ExcErrno (io_errno rep)))
       else exists l es, r = Loc l /\
         w_heap w' !! l = Some (Obj 1 (VDict es)) /\
         Forall2 (shows (w_heap w') (io_data rep)) table es /\
         wf w' ({[+ l +]} ⊎ rho) /\ w_err w' = w_err w)) w.
Proof.
  intros Ht Hs Hw Hk. unfold wp, get_struct, get_dev_value.
  rewrite bind_assoc, (bind_Ret _ _ _ _ _ (parse_s_name _ _ _ Hs)). cbn beta iota.
  assert (4 <= sizeof fs)%nat as Hsz by (rewrite (tile_all _ _ Ht); lia).
  pose proof (send_command_eq cmd s _ _ w (get_request_eq cmd fs Hsz)) as Hc.
  destruct (sys_socket (w_env w)) as [[fd e] k1].
  destruct (fd <? 0).
  { rewrite (bind_Ret _ _ _ _ _ Hc). cbn. split; [done|]. split; [done|].
    split; [by apply (wf_calm w)|done]. }
  specialize (fun rep k2 d => Hk fd e k1 rep k2 d eq_refl).
  destruct (sys_ioctl fd SIOCETHTOOL _ _ k1) as [rep k2]. cbv zeta in Hc.
  specialize (fun d => Hk rep k2 d eq_refl).
  rewrite (bind_Ret _ _ _ _ _ Hc). cbn beta iota.
  destruct (io_ret rep <? 0) eqn:Er.
  { cbn. split; [apply closed_not_open|]. split; [done|]. split; [done|]. split; [|done].
    apply (wf_calm w); [|done]. split; simpl; try done. set_solver. }
  apply Z.ltb_ge in Er. eapply wp_mono.
  { apply (create_dict_ok table (io_data rep) rho); [by destruct Ht| |].
    - intros d Hd. split; [by eapply tile_size|by apply Hk].
    - apply (wf_calm w); [|exact Hw]. apply (calm_io w fd k2 (w_err w)). }
  intros r w' (l & es & -> & Hl & Hf & Hw' & Hon & _ & He). split; [|split; [exact He|]].
  - rewrite (on_fds _ _ Hon). apply closed_not_open.
  - exists l, es. repeat (split; [done|]). apply (on_err _ _ Hon).
Qed.

(** C15: a structure getter ([get_coalesce], [get_ringparam]).  It sends its
    command, closes its socket on every path, raises the error of the socket
    or the kernel, and otherwise returns a new dictionary that shows, under
    the names of the table, the words the kernel answered; every reference is
    accounted for. *)
Theorem get_struct_spec cmd fs table args s rho w :
  tiles fs table -> name_arg w args s -> wf w rho ->
  (forall fd e k1 rep k2 d, sys_socket (w_env w) = ((fd, e), k1) ->
     sys_ioctl fd SIOCETHTOOL (make_ifreq IFNAMSIZ IFRU_SIZE s)
       (get_request cmd fs) k1 = (rep, k2) -> 0 <= io_ret rep -> d ∈ table ->
     exists v, read_u32 (sd_offset d) (io_data rep) = Some v) ->
  wp (get_struct cmd fs table args) (fun r w' =>
    let '((fd, e), k1) := sys_socket (w_env w) in
    if fd <? 0 then
      r = Null /\ w_err w' = Some (PyExc PyExc_OSError (ExcErrno e)) /\ wf w' rho /\
      w_env w' = k1
    else
      let '(rep, k2) := sys_ioctl fd SIOCETHTOOL (make_ifreq IFNAMSIZ IFRU_SIZE s)
        (get_request cmd fs) k1 in
      ~ (fd ∈ w_fds w') /\ w_env w' = k2 /\
      (if io_ret rep <? 0 then
         r = Null /\ wf w' rho /\
         w_err w' = Some (PyExc PyExc_IOError (ExcErrno (io_errno rep)))
       else exists l es, r = Loc l /\
         w_heap w' !! l = Some (Obj 1 (VDict es)) /\
         Forall2 (shows (w_heap w') (io_data rep)) table es /\
         wf w' ({[+ l +]} ⊎ rho) /\ w_err w' = w_err w)) w.
Proof. apply get_struct_ok. Qed.

(** *** By the names of the header *)

(** What the functions of the module share with the header: a getter, its
    command, a setter, its command, and the structure. *)
Definition parameter_functions :
    list ((list ptr -> M K ptr) * Z * (list ptr -> M K ptr) * Z * list cfield) :=
  [(get_coalesce, ETHTOOL_GCOALESCE, set_coalesce, ETHTOOL_SCOALESCE, ethtool_coalesce);
   (get_ringparam, ETHTOOL_GRINGPARAM, set_ringparam, ETHTOOL_SRINGPARAM, ethtool_ringparam)].

Lemma parameter_tables get gcmd set scmd fs :
  (get, gcmd, set, scmd, fs) ∈ parameter_functions ->
  tiles fs (from_header fs) /\ get = get_struct gcmd fs (from_header fs) /\
  set = set_struct scmd fs (from_header fs).
Proof.
  unfold parameter_functions. rewrite !elem_of_cons, elem_of_nil.
  intros [[= -> -> -> -> ->]|[[= -> -> -> -> ->]|[]]].
  - rewrite <- coalesce_header. split; [apply coalesce_tiles|done].
  - rewrite <- ring_header. split; [apply ring_tiles|done].
Qed.

(** The dictionary shows the fields [ns] of the structure. *)
Definition shows_fields (h : gmap positive obj) (fs : list cfield) (data : list mbyte)
    (ns : list string) (es : list (string * ptr)) : Prop :=
  es.*1 = ns /\ forall n, n ∈ ns -> exists p v,
    dict_get es n = Some p /\ header_word fs n data = Some v /\ denotes h p (DInt v).

Lemma shows_by_name h fs data ns es :
  NoDup ns -> Forall2 (shows h data) (map (member_desc fs) ns) es ->
  shows_fields h fs data ns es.
Proof.
  intros Hn Hf. revert es Hf. induction Hn as [|n ns Hin Hn IH]; intros es Hf.
  - apply Forall2_nil_inv_l in Hf as ->. split; [done|]. by intros ? ?%elem_of_nil.
  - apply Forall2_cons_inv_l in Hf as ([k p] & es' & (Hk & v & Hv & Hp) & Hf & ->).
    cbn [fst snd member_desc sd_name sd_offset] in *. subst k. destruct (IH es' Hf) as [He Hs].
    split; [by rewrite <- He|]. intros m [->|Hm]%elem_of_cons; cbn [dict_get].
    + exists p, v. by rewrite decide_True.
    + rewrite decide_False by (by intros ->). by apply Hs.
Qed.

(** A dictionary with an integer of a [long] under every name. *)
Definition has_values (w : world K) (p : ptr) (ns : list string) (value : string -> Z) : Prop :=
  exists l rc es, p = Loc l /\ w_heap w !! l = Some (Obj rc (VDict es)) /\
    forall n, n ∈ ns -> LONG_MIN <= value n <= LONG_MAX /\ exists l' rc',
      dict_get es n = Some (Loc l') /\ w_heap w !! l' = Some (Obj rc' (VInt (value n))).

Lemma has_values_entries w p fs ns value :
  has_values w p ns value ->
  entries w p (map (member_desc fs) ns) (VInt <$> (value <$> ns)).
Proof.
  intros (l & rc & es & -> & Hl & Hv). exists l, rc, es. split; [done|]. split; [done|].
  induction ns as [|n ns IH]; [constructor|]. constructor.
  - by destruct (Hv n (list_elem_of_here _ _)) as (_ & ?).
  - apply IH. intros m Hm. apply Hv. by right.
Qed.

Lemma get_by_name cmd fs l s rho w fd e k1 :
  tiles fs (from_header fs) -> name_arg w [Loc l] s -> wf w rho ->
  sys_socket (w_env w) = ((fd, e), k1) -> 0 <= fd ->
  let '(rep, _) := sys_ioctl fd SIOCETHTOOL (make_ifreq IFNAMSIZ IFRU_SIZE s)
    (get_request cmd fs) k1 in
  0 <= io_ret rep ->
  (forall n, n ∈ header_fields fs -> is_Some (header_word fs n (io_data rep))) ->
  wp (get_struct cmd fs (from_header fs) [Loc l]) (fun r w' => exists d es, r = Loc d /\
    w_heap w' !! d = Some (Obj 1 (VDict es)) /\
    shows_fields (w_heap w') fs (io_data rep) (header_fields fs) es) w.
Proof.
  intros Ht Hs Hw Esock Hfd. destruct (sys_ioctl fd _ _ _ k1) as [rep k2] eqn:Eio.
  intros Hret Hk. eapply wp_mono.
  { apply (get_struct_ok cmd fs (from_header fs) [Loc l] s rho w Ht Hs Hw).
    rewrite Esock. intros ? ? ? ? ? d [= <- <- <-] E _ Hd. rewrite Eio in E.
    injection E as <- <-. apply list_elem_of_fmap in Hd as (n & -> & Hn). by apply Hk. }
  intros r w'. rewrite Esock. replace (fd <? 0) with false by lia. rewrite Eio.
  replace (io_ret rep <? 0) with false by lia.
  intros (_ & _ & d & es & -> & Hd & Hf & _). exists d, es. split; [done|]. split; [done|].
  apply shows_by_name; [|exact Hf]. rewrite <- header_names. apply (tile_names _ _ Ht).
Qed.

Lemma set_by_name cmd fs l s w fd e k1 p value :
  tiles fs (from_header fs) -> name_arg w [Loc l] s ->
  sys_socket (w_env w) = ((fd, e), k1) -> 0 <= fd -> has_values w p (header_fields fs) value ->
  exists request, length request = sizeof fs /\ header_word fs "cmd" request = Some (u32 cmd) /\
    (forall n, n ∈ header_fields fs -> header_word fs n request = Some (u32 (value n))) /\
    wp (set_struct cmd fs (from_header fs) [Loc l; p]) (fun _ w' => w_env w' =
      (sys_ioctl fd SIOCETHTOOL (make_ifreq IFNAMSIZ IFRU_SIZE s) request k1).2) w.
Proof.
  intros Ht (Hnul & l' & rc & [= <-] & Hl) Esock Hfd Hv.
  set (vs := VInt <$> (value <$> header_fields fs)).
  assert (length vs = length (from_header fs)) as Hlen
    by (unfold vs, from_header; by rewrite !length_fmap).
  destruct (set_request_words cmd fs (from_header fs) vs Ht Hlen) as (H0 & H1 & H2).
  exists (set_request cmd fs (from_header fs) vs).
  split; [exact H0|]. split; [unfold header_word; by rewrite (tile_cmd _ _ Ht)|]. split.
  - intros n [i Hi]%list_elem_of_lookup. etrans.
    { apply (H2 i (member_desc fs n) (VInt (value n))).
      - unfold from_header. by rewrite list_lookup_fmap, Hi.
      - unfold vs. by rewrite !list_lookup_fmap, Hi. }
    destruct Hv as (? & ? & ? & _ & _ & Hv).
    destruct (Hv n) as [Hr _]; [by eapply list_elem_of_lookup_2|].
    cbn [as_long]. by rewrite decide_True.
  - unfold wp. erewrite set_struct_eq; [|done|done|done|by apply has_values_entries].
    rewrite Esock. replace (fd <? 0) with false by lia. cbv zeta.
    destruct (sys_ioctl fd SIOCETHTOOL _ _ k1) as [rep k2]. by destruct (io_ret rep <? 0).
Qed.

(** C30: every parameter travels under the name it has in the header, at the
    place it has there.  Whatever the kernel answers to [get_coalesce] or
    [get_ringparam], when it grants them, the dictionary has exactly the fields
    of [struct ethtool_coalesce] or [struct ethtool_ringparam] but the command,
    in order, and under each name the word in the field of that name; and
    [set_coalesce] and [set_ringparam], given a dictionary with an integer of a
    [long] for each name, send the kernel, once the socket is open, the structure
    with its command in which the field of each name is that integer modulo 2^32. *)
Theorem parameters_by_name get gcmd set scmd fs l s rho w :
  (get, gcmd, set, scmd, fs) ∈ parameter_functions -> name_arg w [Loc l] s -> wf w rho ->
  let ifr := make_ifreq IFNAMSIZ IFRU_SIZE s in
  let '((fd, _), k1) := sys_socket (w_env w) in 0 <= fd ->
  (let '(rep, _) := sys_ioctl fd SIOCETHTOOL ifr (get_request gcmd fs) k1 in
   0 <= io_ret rep ->
   (forall n, n ∈ header_fields fs -> is_Some (header_word fs n (io_data rep))) ->
   wp (get [Loc l]) (fun r w' => exists d es, r = Loc d /\
     w_heap w' !! d = Some (Obj 1 (VDict es)) /\
     shows_fields (w_heap w') fs (io_data rep) (header_fields fs) es) w) /\
  (forall p value, has_values w p (header_fields fs) value ->
   exists request, length request = sizeof fs /\ header_word fs "cmd" request = Some (u32 scmd) /\
     (forall n, n ∈ header_fields fs -> header_word fs n request = Some (u32 (value n))) /\
     wp (set [Loc l; p]) (fun _ w' =>
       w_env w' = (sys_ioctl fd SIOCETHTOOL ifr request k1).2) w).
Proof.
  intros (Ht & -> & ->)%parameter_tables Hs Hw ifr.
  destruct (sys_socket (w_env w)) as [[fd e] k1] eqn:Esock. intros Hfd. split.
  - by apply (get_by_name gcmd fs l s rho w fd e k1).
  - intros p value Hv. by apply (set_by_name scmd fs l s w fd e k1 p value).
Qed.
End get_struct.

(** ** At work *)

Definition ring_words : list mbyte :=
  (Some <$> le_bytes 4 ETHTOOL_GRINGPARAM) ++ List.concat (map (fun z => Some <$> le_bytes 4 z)
    [4096; 0; 0; 4096; 256; 0; 0; 2 ^ 32 - 1]).

Lemma ring_words_set d : d ∈ ethtool_ringparam_desc ->
  exists v, read_u32 (sd_offset d) ring_words = Some v.
Proof.
  unfold ethtool_ringparam_desc. intros (n & -> & Hn)%list_elem_of_fmap.
  repeat (apply elem_of_cons in Hn as [-> | Hn]; [eexists; vm_compute; reflexivity|]).
  by apply elem_of_nil in Hn.
Qed.

Lemma dict_roundtrip_witness :
  wp (d ← __struct_desc_create_dict ethtool_ringparam_desc ring_words;
      __struct_desc_from_dict ethtool_ringparam_desc (uninit_struct ethtool_ringparam) d)
    (fun p w' => p.1 = 0 /\ only_new (boot quiet) w' /\
       forall d, d ∈ ethtool_ringparam_desc ->
       read_u32 (sd_offset d) p.2 = read_u32 (sd_offset d) ring_words) (boot quiet).
Proof.
  apply (dict_roundtrip ethtool_ringparam ethtool_ringparam_desc ring_words ∅).
  - apply ring_tiles.
  - apply ring_words_set.
  - apply wf_boot.
Defined.

(** A device name and a complete dictionary. *)
Lemma ring_dict_wf (m : machine) :
  wp (alloc (VStr "eth0");; __struct_desc_create_dict ethtool_ringparam_desc ring_words)
    (fun r w' => exists l, r = Loc l /\ wf w' ({[+ l +]} ⊎ {[+ 1%positive +]})) (boot m).
Proof.
  eapply wp_step; [apply alloc_eq|]. eapply wp_mono.
  - apply (create_dict_ok _ _ {[+ 1%positive +]}); [exact (tile_names _ _ ring_tiles)| |].
    + intros d Hd. split; [exact (tile_size _ _ ring_tiles d Hd)|]. by apply ring_words_set.
    + eapply (wf_eq _ ({[+ 1%positive +]} ⊎ ∅)); [|multiset_solver].
      apply alloc_wf; [|by constructor]. eapply wf_eq; [apply wf_boot|].
      unfold val_refs. simpl. multiset_solver.
  - intros r w' (l & es & -> & _ & _ & Hw & _). exists l. split; [reflexivity|exact Hw].
Qed.

(** And one with a string in it. *)
Definition ring_world : world machine := Eval vm_compute in
  world_after (alloc (VStr "eth0");;
    __struct_desc_create_dict ethtool_ringparam_desc ring_words) (boot card).

Definition ring_values : list pyval :=
  VInt <$> [4096; 0; 0; 4096; 256; 0; 0; 2 ^ 32 - 1].

Definition bad_ring_world : world machine := Eval vm_compute in
  world_after (s ← alloc (VStr "512");
    PyDict_SetItemString (Loc 2) "rx_pending" s) ring_world.

Definition bad_ring_values : list pyval :=
  <[4%nat := VStr "512"]> ring_values.

Ltac solve_entries :=
  do 3 eexists; split; [reflexivity|]; split; [reflexivity|];
  repeat (constructor; [do 2 eexists; split; vm_compute; reflexivity|]);
  constructor.

Lemma ring_entries : entries ring_world (Loc 2) ethtool_ringparam_desc ring_values.
Proof. solve_entries. Qed.

Lemma bad_ring_entries :
  entries bad_ring_world (Loc 2) ethtool_ringparam_desc bad_ring_values.
Proof. solve_entries. Qed.

Lemma set_struct_spec_witness :
  exists request, length request = sizeof ethtool_ringparam /\
    (forall i, (i < sizeof ethtool_ringparam)%nat ->
       exists b, request !! i = Some (Some b)) /\
    read_u32 0 request = Some (u32 ETHTOOL_SRINGPARAM) /\
    (forall i d v, ethtool_ringparam_desc !! i = Some d -> ring_values !! i = Some v ->
       read_u32 (sd_offset d) request = Some (u32 (as_long v).1)) /\
    wp (set_ringparam [Loc 1; Loc 2]) (fun r w' =>
      let '((fd, e), k1) := sys_socket (w_env ring_world) in
      if fd <? 0 then
        r = Null /\ w_err w' = Some (PyExc PyExc_OSError (ExcErrno e))
      else
        let '(rep, k2) :=
          sys_ioctl fd SIOCETHTOOL (make_ifreq IFNAMSIZ IFRU_SIZE "eth0") request k1 in
        ~ (fd ∈ w_fds w') /\ w_env w' = k2 /\ w_heap w' = w_heap ring_world /\
        (if io_ret rep <? 0 then
           r = Null /\ w_err w' = Some (PyExc PyExc_IOError (ExcErrno (io_errno rep)))
         else r = (if io_ret rep =? 0 then PyNone else Null)
           /\ w_err w' = w_err ring_world)) ring_world.
Proof.
  apply (set_struct_spec ETHTOOL_SRINGPARAM ethtool_ringparam ethtool_ringparam_desc
    ring_values 1 1 "eth0" (Loc 2) ring_world).
  - apply ring_tiles.
  - reflexivity.
  - reflexivity.
  - apply ring_entries.
  - repeat constructor.
Defined.

Lemma set_struct_ignores_conversion_witness :
  read_u32 20 (set_request ETHTOOL_SRINGPARAM ethtool_ringparam
    ethtool_ringparam_desc bad_ring_values) = Some (2 ^ 32 - 1) /\
  wp (set_ringparam [Loc 1; Loc 2])
     (fun r w' => r = PyNone /\ w_err w' <> None) bad_ring_world.
Proof.
  apply (set_struct_ignores_conversion ETHTOOL_SRINGPARAM ethtool_ringparam
    ethtool_ringparam_desc bad_ring_values 1 1 "eth0" (Loc 2) bad_ring_world 4
    (StructDesc "rx_pending" 20 4) (VStr "512") 3 0 card
    (sys_ioctl 3 SIOCETHTOOL (make_ifreq IFNAMSIZ IFRU_SIZE "eth0")
       (set_request ETHTOOL_SRINGPARAM ethtool_ringparam
          ethtool_ringparam_desc bad_ring_values) card).1 card).
  - apply ring_tiles.
  - reflexivity.
  - reflexivity.
  - apply bad_ring_entries.
  - reflexivity.
  - reflexivity.
  - discriminate.
  - reflexivity.
  - lia.
  - vm_compute. reflexivity.
  - vm_compute. reflexivity.
Defined.

Definition empty_dict_world : world machine := Eval vm_compute in
  world_after (alloc (VStr "eth0");; alloc (VDict [])) (boot card).

Lemma set_struct_missing_witness :
  wp (set_ringparam [Loc 1; Loc 2]) (fun r w' =>
    r = Null /\ w_env w' = w_env empty_dict_world /\
    w_fds w' = w_fds empty_dict_world /\ w_heap w' = w_heap empty_dict_world /\
    w_err w' = Some (PyExc PyExc_IOError
      (ExcMsg ("Missing dict entry for field " +:+ "rx_max_pending")))) empty_dict_world.
Proof.
  apply (set_struct_missing ETHTOOL_SRINGPARAM ethtool_ringparam []
    (StructDesc "rx_max_pending" 4 4) (List.tl ethtool_ringparam_desc) []
    1 1 "eth0" 2 1 [] empty_dict_world).
  - apply ring_tiles.
  - reflexivity.
  - reflexivity.
  - reflexivity.
  - reflexivity.
  - exists 2%positive, 1, []. by repeat (split; [reflexivity|]).
Defined.

Definition ring_answer : ioctl_reply := Eval vm_compute in
  (sys_ioctl 3 SIOCETHTOOL (make_ifreq IFNAMSIZ IFRU_SIZE "eth0")
    (get_request ETHTOOL_GRINGPARAM ethtool_ringparam) card).1.

Lemma ring_answer_set d : d ∈ ethtool_ringparam_desc ->
  exists v, read_u32 (sd_offset d) (io_data ring_answer) = Some v.
Proof.
  unfold ethtool_ringparam_desc. intros (n & -> & Hn)%list_elem_of_fmap.
  repeat (apply elem_of_cons in Hn as [-> | Hn]; [eexists; vm_compute; reflexivity|]).
  by apply elem_of_nil in Hn.
Qed.

Lemma get_struct_spec_witness :
  wp (get_ringparam [Loc 1]) (fun r w' =>
    let '((fd, e), k1) := sys_socket (w_env asked) in
    if fd <? 0 then
      r = Null /\ w_err w' = Some (PyExc PyExc_OSError (ExcErrno e))
      /\ wf w' {[+ 2%positive; 1%positive +]} /\ w_env w' = k1
    else
      let '(rep, k2) := sys_ioctl fd SIOCETHTOOL (make_ifreq IFNAMSIZ IFRU_SIZE "eth0")
        (get_request ETHTOOL_GRINGPARAM ethtool_ringparam) k1 in
      ~ (fd ∈ w_fds w') /\ w_env w' = k2 /\
      (if io_ret rep <? 0 then
         r = Null /\ wf w' {[+ 2%positive; 1%positive +]} /\
         w_err w' = Some (PyExc PyExc_IOError (ExcErrno (io_errno rep)))
       else exists l es, r = Loc l /\
         w_heap w' !! l = Some (Obj 1 (VDict es)) /\
         Forall2 (shows (w_heap w') (io_data rep)) ethtool_ringparam_desc es /\
         wf w' ({[+ l +]} ⊎ {[+ 2%positive; 1%positive +]}) /\
         w_err w' = w_err asked)) asked.
Proof.
  apply (get_struct_spec ETHTOOL_GRINGPARAM ethtool_ringparam ethtool_ringparam_desc
    [Loc 1] "eth0" {[+ 2%positive; 1%positive +]} asked).
  - apply ring_tiles.
  - apply asked_name.
  - apply asked_wf.
  - intros fd e k1 rep k2 d Hs Hio _ Hd.
    assert (((3, 0), card) = ((fd, e), k1)) as E by exact Hs. injection E as <- <- <-.
    assert ((ring_answer, card) = (rep, k2)) as E.
    { rewrite <- Hio. vm_compute. reflexivity. }
    injection E as <- <-. by apply ring_answer_set.
Defined.

(** Every parameter of the card has its own value. *)
Definition ring_param (n : string) : Z :=
  default 0 (header_word ethtool_ringparam n ring_words).

Lemma ring_world_wf : wf ring_world ({[+ 2%positive +]} ⊎ {[+ 1%positive +]}).
Proof.
  assert ((alloc (VStr "eth0");; __struct_desc_create_dict ethtool_ringparam_desc ring_words)
    (boot card) = Ret (Loc 2) ring_world) as E by (vm_compute; reflexivity).
  pose proof (ring_dict_wf card) as Hr. unfold wp in Hr. rewrite E in Hr.
  by destruct Hr as (l & [= <-] & Hr).
Qed.

Lemma ring_world_values : has_values ring_world (Loc 2) (header_fields ethtool_ringparam) ring_param.
Proof.
  do 3 eexists. split; [reflexivity|]. split; [reflexivity|].
  change (header_fields ethtool_ringparam) with (map sd_name ethtool_ringparam_desc).
  intros n Hn. unfold ethtool_ringparam_desc in Hn. cbn in Hn.
  repeat (apply elem_of_cons in Hn as [-> | Hn];
    [split; [vm_compute; by split|do 2 eexists; split; vm_compute; reflexivity]|]).
  by apply elem_of_nil in Hn.
Qed.

Lemma parameters_by_name_witness :
  wp (get_ringparam [Loc 1]) (fun r w' => exists d es, r = Loc d /\
    w_heap w' !! d = Some (Obj 1 (VDict es)) /\
    shows_fields (w_heap w') ethtool_ringparam (io_data ring_answer)
      (header_fields ethtool_ringparam) es) ring_world /\
  exists request, header_word ethtool_ringparam "tx_pending" request = Some (2 ^ 32 - 1) /\
    wp (set_ringparam [Loc 1; Loc 2]) (fun _ w' => w_env w' =
      (sys_ioctl 3 SIOCETHTOOL (make_ifreq IFNAMSIZ IFRU_SIZE "eth0") request card).2) ring_world.
Proof.
  pose proof (parameters_by_name get_ringparam ETHTOOL_GRINGPARAM set_ringparam ETHTOOL_SRINGPARAM
    ethtool_ringparam 1 "eth0" _ ring_world ltac:(by right; left)
    ltac:(split; [done|by exists 1%positive, 1]) ring_world_wf) as Hp.
  assert (sys_socket (w_env ring_world) = ((3, 0), card)) as Es by reflexivity.
  cbv zeta in Hp. rewrite Es in Hp. destruct (Hp ltac:(lia)) as [Hg Hs]. clear Hp Es.
  assert (sys_ioctl 3 SIOCETHTOOL (make_ifreq IFNAMSIZ IFRU_SIZE "eth0")
    (get_request ETHTOOL_GRINGPARAM ethtool_ringparam) card = (ring_answer, card)) as Eio
    by (vm_compute; reflexivity).
  rewrite Eio in Hg. split.
  - apply Hg; [vm_compute; discriminate|]. intros n Hn.
    assert (n ∈ map sd_name ethtool_ringparam_desc) as (d & -> & Hd)%list_elem_of_fmap by exact Hn.
    destruct (ring_answer_set d Hd) as [v Hv]. unfold ethtool_ringparam_desc in Hd.
    apply list_elem_of_fmap in Hd as (m & -> & _). by exists v.
  - destruct (Hs (Loc 2) ring_param ring_world_values) as (request & _ & _ & Hw & Hr).
    exists request. split; [|exact Hr]. rewrite Hw; [vm_compute; reflexivity|].
    apply (bool_decide_unpack _). vm_compute. exact I.
Defined.
