(* ===== verification/Devices.v ===== *)
(** * ethtool.c: listing devices

    [get_active_devices] over [getifaddrs], [get_devices] over /proc/net/dev,
    and [get_interfaces_info], which creates the [etherinfo] objects. *)
From S2P Require Import Prelude.
From S2P Require Import Platform.
From S2P Require Import CPython.
From S2P Require Import Netlink.
From S2P Require Import Objects.
From S2P Require Import Stdio.

(** ** Parsing a line of /proc/net/dev *)

(** The scan for the colon, which is overwritten by the end of the name. *)
Fixpoint until_colon (s : string) : string :=
  match s with
  | EmptyString => EmptyString
  | String c s =>
      if Ascii.eqb c NUL || Ascii.eqb c ":"%char then EmptyString
      else String c (until_colon s)
  end.

(** The scan over leading blanks. *)
Fixpoint skip_blanks (s : string) : string :=
  match s with
  | String c s' => if Ascii.eqb c " "%char then skip_blanks s' else s
  | EmptyString => EmptyString
  end.

Definition line_name (buffer : string) : string := skip_blanks (until_colon buffer).

Section devices.
Context {K : Type} `{Platform K}.
Local Abbreviation M := (M K).

Fixpoint active_loop (list_ : ptr) (ifa : list ifaddrs) : M unit :=
  match ifa with
  | [] => mret tt
  | i :: ifa =>
      str ← PyStr_FromString (ifa_name i);
      (* names are not unique (listed for both ipv4 and ipv6) *)
      c ← PySequence_Contains list_ str;
      (if (c =? 0) && negb (Z.land (ifa_flags i) IFF_UP =? 0)
       then PyList_Append list_ str;; mret tt else mret tt);;
      Py_DECREF str;;
      active_loop list_ ifa
  end.

Definition get_active_devices (args : list ptr) : M ptr :=
  r ← ask sys_getifaddrs;
  match r with
  | inl e => assign_errno e;; PyErr_SetFromErrno PyExc_OSError
  | inr ifaddr =>
      list_ ← PyList_New0;
      active_loop list_ ifaddr;;
      mret list_
  end.

Definition _PATH_PROCNET_DEV : string := "/proc/net/dev".

(** [while (!feof(fd))]. *)
Fixpoint devices_loop (fuel : nat) (list_ : ptr) (fd : string) (eof : bool)
    : M unit :=
  match fuel with
  | O => raise OutOfFuel
  | S fuel =>
      if eof then mret tt
      else
        match fgets 256 fd with
        | None => mret tt
        | Some (buffer, fd, eof) =>
            str ← PyStr_FromString (line_name buffer);
            PyList_Append list_ str;;
            Py_DECREF str;;
            devices_loop fuel list_ fd eof
        end
  end.

Definition get_devices (args : list ptr) : M ptr :=
  list_ ← PyList_New0;
  fd ← fopen _PATH_PROCNET_DEV;
  match fd with
  | None => PyErr_SetFromErrno PyExc_OSError
  | Some fd =>
      (* skip over first two lines *)
      let fd := match fgets 256 fd with Some (_, fd, _) => fd | None => fd end in
      match fgets 256 fd with
      | None => fclose;; PyErr_SetFromErrno PyExc_OSError
      | Some (_, fd, eof) =>
          devices_loop (S (String.length fd)) list_ fd eof;;
          fclose;;
          mret list_
      end
  end.

(** ** etherinfo objects *)

Definition bad_devices : string :=
  "Argument must be either a string, list or a tuple".

(** The strings among the elements of a tuple or list, in order, [None] for the
    [NULL] kept for one that has no UTF-8. *)
Definition name_of (p : ptr) : M (option string) :=
  s ← PyStr_AsString p; mret (cstr <$> s).

Fixpoint collect_names (get : Z -> M ptr) (i n : nat) : M (list (option string)) :=
  match n with
  | O => mret []
  | S n =>
      elmt ← get (Z.of_nat i);
      is_str ← (if is_null elmt then mret false else PyStr_Check elmt);
      if (is_str : bool) then
        s ← name_of elmt;
        names ← collect_names get (S i) n;
        mret (s :: names)
      else collect_names get (S i) n
  end.

(** The names in the argument, [None] for an argument of another type. *)
Definition fetch_devs (inargs : ptr) : M (option (list (option string))) :=
  if is_null inargs then mret (Some [])
  else
    is_str ← PyStr_Check inargs;
    if (is_str : bool) then
      s ← name_of inargs; mret (Some [s])
    else
      is_tuple ← PyTuple_Check inargs;
      if (is_tuple : bool) then
        n ← PyTuple_Size inargs;
        names ← collect_names (PyTuple_GetItem inargs) 0 (Z.to_nat n);
        mret (Some names)
      else
        is_list ← PyList_Check inargs;
        if (is_list : bool) then
          n ← PyList_Size inargs;
          names ← collect_names (PyList_GetItem inargs) 0 (Z.to_nat n);
          mret (Some names)
        else
          PyErr_SetString PyExc_LookupError bad_devices;; mret None.

(** [PyStr_FromString(fetch_devs[i])]: of [NULL] it takes the length. *)
Definition PyStr_FromString_of (s : option string) : M ptr :=
  match s with Some s => PyStr_FromString s | None => raise NullDeref end.

(** [dev->device = ...; dev->hwaddress = NULL; dev->index = -1;]: the flag
    [nlc_active] keeps what the memory held. *)
Fixpoint info_loop (devlist : ptr) (names : list (option string)) : M ptr :=
  match names with
  | [] => mret devlist
  | name :: names =>
      dev ← PyObject_New raw_ether;
      if is_null dev then PyErr_SetFromErrno PyExc_OSError
      else
        s ← PyStr_FromString_of name;
        e ← get_ether dev;
        put_val dev (VEther (MkEther s (-1) Null (nlc_active e)));;
        PyList_Append devlist dev;;
        Py_DECREF dev;;
        info_loop devlist names
  end.

Definition get_interfaces_info (args : list ptr) : M ptr :=
  inargs ← PyArg_ParseTuple_optO args;
  match inargs with
  | None => PyErr_SetString PyExc_LookupError bad_devices;; mret Null
  | Some inargs =>
      names ← fetch_devs inargs;
      match names with
      | None => mret Null
      | Some names => devlist ← PyList_New0; info_loop devlist names
      end
  end.
End devices.
