(* ===== verification/DevicesFacts.v ===== *)
(** * Properties of the device lists *)
From S2P Require Import Prelude.
From S2P Require Import Platform.
From S2P Require Import CPython.
From S2P Require Import Objects.
From S2P Require Import Testbed.
From S2P Require Import RefCount.
From S2P Require Import Typing.
From S2P Require Import Containers.
From S2P Require Import Stdio.
From S2P Require Import Devices.

(** ** /proc/net/dev *)

Section get_devices.
Context {K : Type} `{Platform K}.
Implicit Types w : world K.

(** The loop over what is left of the file. *)
Lemma devices_loop_ok w0 rho ll fd ls : reads 256 fd ls ->
  forall fuel ds w, (String.length fd < fuel)%nat ->
  building w0 rho ll ds w ->
  Forall (fun l => utf8_valid (cstr (line_name l)) = true) ls ->
  wp (devices_loop fuel (Loc ll) fd false) (fun _ w' =>
    building w0 rho ll (ds ++ map (fun l => DStr (cstr (line_name l))) ls) w'
    /\ w_env w' = w_env w) w.
Proof.
  induction 1 as [s Hs|s l r Hs|s l r ls Hs Hr IH]; intros [|fuel] ds w Hfuel Hb Hu;
    try lia; cbn [devices_loop]; rewrite Hs.
  - simpl. by rewrite app_nil_r.
  - apply Forall_cons_1 in Hu as [Hu _].
    destruct (building_str w0 rho ll ds w (line_name l)
      (fun _ => devices_loop fuel (Loc ll) r true) Hb Hu) as (w2 & Hb2 & He & Hk).
    unfold wp. rewrite Hk. apply fgets_shrinks in Hs.
    destruct fuel as [|fuel]; [lia|]. by split.
  - apply Forall_cons_1 in Hu as [Hu Hus].
    destruct (building_str w0 rho ll ds w (line_name l)
      (fun _ => devices_loop fuel (Loc ll) r false) Hb Hu) as (w2 & Hb2 & He & Hk).
    unfold wp. rewrite Hk. apply fgets_shrinks in Hs.
    eapply wp_mono; [apply (IH fuel (ds ++ [DStr (cstr (line_name l))]) w2); [lia|done..]|].
    intros _ w' [Hb' He']. rewrite <- app_assoc in Hb'. split; [exact Hb'|congruence].
Qed.

(** A name that is not UTF-8 stops it. *)
Definition text_name (l : string) : bool := utf8_valid (cstr (line_name l)).

Lemma devices_loop_dies w0 rho ll fd ls : reads 256 fd ls -> forallb text_name ls = false ->
  forall fuel ds w, (String.length fd < fuel)%nat ->
  building w0 rho ll ds w -> devices_loop fuel (Loc ll) fd false w = Fault NullDeref.
Proof.
  unfold text_name. intros Hr Hu.
  induction Hr as [s Hs|s l r Hs|s l r ls Hs Hr IH]; intros [|fuel] ds w Hfuel Hb;
    try lia; try done; cbn [devices_loop forallb] in *; rewrite Hs;
    destruct (utf8_valid (cstr (line_name l))) eqn:E; try done; try (
      unfold PyStr_FromString; rewrite E; unfold PyList_Append; mrun; by rewrite Py_DECREF_Null).
  destruct (building_str w0 rho ll ds w (line_name l)
    (fun _ => devices_loop fuel (Loc ll) r false) Hb E) as (w2 & Hb2 & _ & Hk).
  rewrite Hk. apply fgets_shrinks in Hs. eapply IH; [done|lia|done].
Qed.

(** What [get_devices] does once the file is open. *)
Lemma get_devices_ok args w rho contents k1 l1 c1 e1 l2 body eof ls :
  wf w rho -> sys_fopen _PATH_PROCNET_DEV (w_env w) = (inr contents, k1) ->
  fgets 256 contents = Some (l1, c1, e1) -> fgets 256 c1 = Some (l2, body, eof) ->
  (if eof then ls = [] else reads 256 body ls) ->
  Forall (fun l => utf8_valid (cstr (line_name l)) = true) ls ->
  wp (get_devices args) (fun r w' => exists ll, r = Loc ll /\
    building w rho ll (map (fun l => DStr (cstr (line_name l))) ls) w' /\
    w_env w' = k1) w.
Proof.
  intros Hw Hopen H1 H2 Hls Hu. unfold get_devices, PyList_New0.
  eapply wp_step; [apply alloc_eq|].
  pose proof (building_start w rho Hw) as Hb.
  apply (building_io _ _ _ _ _ (S (w_files w)) k1) in Hb.
  eapply wp_step.
  { unfold fopen, ask, mbind, M_bind. simpl. rewrite Hopen. reflexivity. }
  cbv beta iota zeta. rewrite H1, H2. apply wp_bind.
  match type of Hb with building ?a _ ?b _ ?c => set (w0 := a) in *; set (w1 := c) in * end.
  assert (wp (devices_loop (S (String.length body)) (Loc (w_next w)) body eof)
    (fun _ w' => building w0 rho (w_next w)
       (map (fun l => DStr (cstr (line_name l))) ls) w' /\ w_env w' = k1) w1) as Hl.
  { destruct eof; [subst ls; by split|].
    eapply wp_mono; [eapply (devices_loop_ok w0 rho _ _ ls Hls); [lia|exact Hb|done]|].
    by intros _ w' [? ->]. }
  eapply wp_mono; [exact Hl|]. intros _ w' [Hb' He].
  assert (w_files w' = S (w_files w)) as Hf by (apply (on_files _ _ (bld_new _ _ _ _ _ Hb'))).
  apply wp_bind. unfold wp at 1, fclose. rewrite Hf. exists (w_next w).
  split; [done|]. split; [|done]. by apply building_close in Hb'.
Qed.

Lemma get_devices_dies args w rho contents k1 l1 c1 e1 l2 body ls :
  wf w rho -> sys_fopen _PATH_PROCNET_DEV (w_env w) = (inr contents, k1) ->
  fgets 256 contents = Some (l1, c1, e1) -> fgets 256 c1 = Some (l2, body, false) ->
  reads 256 body ls -> forallb text_name ls = false ->
  get_devices args w = Fault NullDeref.
Proof.
  intros Hw Hopen H1 H2 Hls Hu. unfold get_devices, PyList_New0.
  rewrite (bind_Ret _ _ _ _ _ (alloc_eq _ _)).
  pose proof (building_start w rho Hw) as Hb.
  apply (building_io _ _ _ _ _ (S (w_files w)) k1) in Hb.
  erewrite bind_Ret.
  2:{ unfold fopen, ask, mbind, M_bind. simpl. rewrite Hopen. reflexivity. }
  cbv beta iota zeta. rewrite H1, H2. apply bind_Fault.
  eapply devices_loop_dies; [exact Hls|exact Hu|lia|exact Hb].
Qed.
End get_devices.

(** A line of the table: the name right-aligned by blanks, a colon, the
    counters. *)
Fixpoint blanks (n : nat) : string :=
  match n with O => EmptyString | S n => String " " (blanks n) end.

Definition dev_line (e : nat * string * string) : string :=
  let '(indent, name, stats) := e in blanks indent +:+ name +:+ ":" +:+ stats.

(** No colon and no NUL. *)
Fixpoint plain_name (s : string) : bool :=
  match s with
  | EmptyString => true
  | String c s => negb (Ascii.eqb c NUL || Ascii.eqb c ":"%char) && plain_name s
  end.

Lemma until_colon_app s t :
  plain_name s = true -> until_colon (s +:+ ":" +:+ t) = s.
Proof.
  induction s as [|c s IH]; [done|]. simpl plain_name.
  intros [Hc%negb_true_iff Hs]%andb_true_iff. rewrite string_cons_app.
  cbn [until_colon]. by rewrite Hc, IH.
Qed.

Lemma plain_blanks n s : plain_name (blanks n +:+ s) = plain_name s.
Proof. induction n as [|n IH]; [done|]. exact IH. Qed.

Lemma skip_blanks_app n s :
  String.get 0 s <> Some " "%char -> skip_blanks (blanks n +:+ s) = s.
Proof.
  intros Hs. induction n as [|n IH]; [|exact IH].
  destruct s as [|c s]; [done|]. rewrite string_nil_app. simpl in *.
  destruct (Ascii.eqb_spec c " "); [congruence|done].
Qed.

Lemma line_name_dev_line indent name stats :
  plain_name name = true -> String.get 0 name <> Some " "%char ->
  line_name (line (dev_line (indent, name, stats))) = name.
Proof.
  intros Hp Hb. unfold line_name, line, dev_line.
  replace ((blanks indent +:+ name +:+ ":" +:+ stats) +:+ String newline "")
    with ((blanks indent +:+ name) +:+ ":" +:+ (stats +:+ String newline ""))
    by (by rewrite !string_app_assoc).
  rewrite until_colon_app by (by rewrite plain_blanks). by apply skip_blanks_app.
Qed.

Lemma plain_no_nul s : plain_name s = true -> has_nul s = false.
Proof.
  induction s as [|c s IH]; simpl; [done|].
  rewrite andb_true_iff, negb_true_iff, orb_false_iff. intros [[-> _] Hs]. by apply IH.
Qed.

Section get_devices_thms.
Context {K : Type} `{Platform K}.
Implicit Types w : world K.

(** C12: [get_devices] reads the kernel's table back.  On a file of two heading
    lines and one line for each device, the name right-aligned before a colon,
    it returns a new list of exactly the names, in the order of the file; the
    stream is closed, nothing older changes and every reference is accounted
    for. *)
Theorem get_devices_table args w rho k1 h1 h2 devs :
  wf w rho ->
  sys_fopen _PATH_PROCNET_DEV (w_env w)
    = (inr (lines (h1 :: h2 :: map dev_line devs)), k1) ->
  Forall (fun l => one_line l = true /\ (String.length l < 255)%nat)
    (h1 :: h2 :: map dev_line devs) ->
  Forall (fun e => plain_name e.1.2 = true /\ String.get 0 e.1.2 <> Some " "%char
    /\ utf8_valid e.1.2 = true) devs ->
  wp (get_devices args) (fun r w' => exists ll, r = Loc ll /\
    building w rho ll (map (fun e => DStr e.1.2) devs) w' /\ w_env w' = k1) w.
Proof.
  intros Hw Hopen Hlines Hdevs.
  apply Forall_cons_1 in Hlines as [[H1 H1'] [[H2 H2'] Hlines]%Forall_cons_1].
  cbn [lines] in Hopen.
  assert (map (fun l => DStr (cstr (line_name l))) (map line (map dev_line devs))
    = map (fun e : nat * string * string => DStr e.1.2) devs /\
    Forall (fun l => utf8_valid (cstr (line_name l)) = true)
      (map line (map dev_line devs))) as [<- Hu].
  { clear -Hdevs. induction Hdevs as [|[[i n] s] devs (Hp & Hb & Hv) _ [IH1 IH2]]; [done|].
    cbn [map fst snd] in *. rewrite IH1, line_name_dev_line by done.
    rewrite cstr_no_nul by (by apply plain_no_nul). split; [done|].
    constructor; [|done]. rewrite line_name_dev_line by done.
    by rewrite cstr_no_nul by (by apply plain_no_nul). }
  eapply get_devices_ok; [done|done|apply fgets_line; [done|lia]|
    apply fgets_line; [done|lia]| |exact Hu].
  apply reads_lines; [lia|]. eapply list.Forall_impl; [exact Hlines|].
  intros l [? ?]. split; [done|lia].
Qed.

(** What is left of a file after one read. *)
Definition read_past (s : string) : string :=
  match fgets 256 s with Some (_, r, _) => r | None => s end.

(** A file without a second line. *)
Lemma get_devices_short args w rho contents k1 :
  wf w rho -> sys_fopen _PATH_PROCNET_DEV (w_env w) = (inr contents, k1) ->
  fgets 256 (read_past contents) = None ->
  wp (get_devices args) (fun r w' => r = Null /\
    w_err w' = Some (PyExc PyExc_OSError (ExcErrno (w_errno w))) /\
    w_files w' = w_files w /\ w_env w' = k1 /\
    w_heap w' !! w_next w = Some (Obj 1 (VList [])) /\
    wf w' ({[+ w_next w +]} ⊎ rho)) w.
Proof.
  intros Hw Hopen H2. unfold read_past in H2. unfold get_devices, PyList_New0.
  eapply wp_step; [apply alloc_eq|]. pose proof (building_start w rho Hw) as Hb.
  eapply wp_step.
  { unfold fopen, ask, mbind, M_bind. simpl. rewrite Hopen. reflexivity. }
  cbv beta iota zeta. rewrite H2. do 4 (split; [done|]). split; [apply lookup_insert_eq|].
  destruct Hb as [_ [Hh [N1 N2 N3]] _ _]. split; [exact Hh|by split].
Qed.

(** C33: [get_devices] ends on any file.  Whatever /proc/net/dev holds: without a
    second line [OSError] is raised (with an [errno] from before, and the list is
    leaked); otherwise the loop ends after the reads [ls] of at most 255
    characters, and if each gives a name that is UTF-8 the result is a new list of
    these names: the part before a colon or NUL, without leading blanks.  (So a
    line too long for the buffer gives several entries.)  A name that is not UTF-8
    stops the process: [Py_DECREF] is given [NULL]. *)
Theorem get_devices_any args w rho contents k1 :
  wf w rho -> sys_fopen _PATH_PROCNET_DEV (w_env w) = (inr contents, k1) ->
  match fgets 256 (read_past contents) with
  | None =>
      wp (get_devices args) (fun r w' => r = Null /\
        w_err w' = Some (PyExc PyExc_OSError (ExcErrno (w_errno w))) /\
        w_files w' = w_files w /\ w_env w' = k1 /\
        w_heap w' !! w_next w = Some (Obj 1 (VList [])) /\
        wf w' ({[+ w_next w +]} ⊎ rho)) w
  | Some (_, body, eof) =>
      exists ls, (if eof then ls = [] else reads 256 body ls) /\
        if forallb text_name ls then
          wp (get_devices args) (fun r w' => exists ll, r = Loc ll /\
            building w rho ll (map (fun l => DStr (cstr (line_name l))) ls) w' /\
            w_env w' = k1) w
        else get_devices args w = Fault NullDeref
  end.
Proof.
  intros Hw Hopen. destruct (fgets 256 (read_past contents)) as [[[l2 body] eof]|] eqn:H2;
    [|by apply (get_devices_short args w rho contents k1)].
  unfold read_past in H2. destruct (fgets 256 contents) as [[[l1 c1] e1]|] eqn:H1;
    [|congruence].
  assert (exists ls, if eof then ls = [] else reads 256 body ls) as [ls Hls].
  { destruct eof; [by exists []|]. apply reads_total. }
  exists ls. split; [done|]. destruct (forallb text_name ls) eqn:Hu.
  - eapply (get_devices_ok _ _ _ contents); [done..|].
    apply list.Forall_forall. intros l Hl.
    apply (proj1 (forallb_forall _ _) Hu l), list_elem_of_In, Hl.
  - destruct eof; [by subst|]. by eapply (get_devices_dies _ _ rho contents).
Qed.

(** When /proc/net/dev cannot be opened, [get_devices] raises [OSError],
    and the list it had made stays behind with a reference nobody holds. *)
Lemma get_devices_leaks args w rho e k1 :
  wf w rho -> sys_fopen _PATH_PROCNET_DEV (w_env w) = (inl e, k1) ->
  wp (get_devices args) (fun r w' => r = Null /\
    w_err w' = Some (PyExc PyExc_OSError (ExcErrno e)) /\
    w_heap w' !! w_next w = Some (Obj 1 (VList [])) /\
    wf w' ({[+ w_next w +]} ⊎ rho)) w.
Proof.
  intros Hw Hopen. unfold get_devices, PyList_New0.
  eapply wp_step; [apply alloc_eq|]. pose proof (building_start w rho Hw) as Hb.
  eapply wp_step.
  { unfold fopen, ask, mbind, M_bind. simpl. rewrite Hopen. reflexivity. }
  cbv beta iota. split; [done|]. split; [done|]. split; [apply lookup_insert_eq|].
  destruct Hb as [_ [Hh [N1 N2 N3]] _ _]. split; [exact Hh|by split].
Qed.

(** A name that is not UTF-8 stops the interpreter: [PyUnicode_FromString]
    gives [NULL], which [get_devices] hands to [Py_DECREF]. *)
Theorem get_devices_bad_name args w rho k1 h1 h2 indent name stats more :
  wf w rho ->
  sys_fopen _PATH_PROCNET_DEV (w_env w)
    = (inr (lines (h1 :: h2 :: dev_line (indent, name, stats) :: more)), k1) ->
  Forall (fun l => one_line l = true /\ (String.length l < 255)%nat)
    [h1; h2; dev_line (indent, name, stats)] ->
  plain_name name = true -> String.get 0 name <> Some " "%char ->
  utf8_valid name = false ->
  get_devices args w = Fault NullDeref.
Proof.
  intros Hw Hopen Hlines Hp Hb Hu.
  apply Forall_cons_1 in Hlines as [[H1 H1'] [[H2 H2'] [[H3 H3'] _]%Forall_cons_1]%Forall_cons_1].
  cbn [lines] in Hopen. destruct (reads_total 256 (lines more)) as [ls Hls].
  eapply (get_devices_dies args w rho); [done|done|apply fgets_line; [done|lia]|
    apply fgets_line; [done|lia]|eapply reads_more; [apply fgets_line; [done|lia]|exact Hls]|].
  cbn [forallb]. unfold text_name at 1. rewrite line_name_dev_line by done.
  by rewrite cstr_no_nul, Hu by (by apply plain_no_nul).
Qed.
End get_devices_thms.


(** ** Active devices *)

Section active.
Context {K : Type} `{Platform K}.
Implicit Types w : world K.

Lemma contains_str_eq ps ns s w :
  Forall2 (fun p n => denotes (w_heap w) p (DStr n)) ps ns ->
  contains_str ps s w = Ret (bool_decide (s ∈ ns)) w.
Proof.
  induction 1 as [|p n ps ns (l & -> & Hl) _ IH]; [done|].
  cbn [contains_str]. rewrite (bind_Ret _ _ _ _ _ (peek_eq _ _ _ Hl)). cbn [ob_val].
  destruct (decide (s = n)) as [<-|E].
  - rewrite bool_decide_eq_true_2; [done|left].
  - rewrite IH. f_equal. apply bool_decide_ext. rewrite elem_of_cons. naive_solver.
Qed.

Lemma contains_eq ll rc ps ns l rc' s w :
  w_heap w !! ll = Some (Obj rc (VList ps)) -> w_heap w !! l = Some (Obj rc' (VStr s)) ->
  Forall2 (fun p n => denotes (w_heap w) p (DStr n)) ps ns ->
  PySequence_Contains (Loc ll) (Loc l) w = Ret (Z.b2z (bool_decide (s ∈ ns))) w.
Proof.
  intros Hll Hl Hf. unfold PySequence_Contains.
  rewrite (bind_Ret _ _ _ _ _ (get_val_eq _ _ _ Hll)). cbn [ob_val].
  destruct ps as [|p ps].
  - by inversion Hf.
  - rewrite (bind_Ret _ _ _ _ _ (peek_eq _ _ _ Hl)). cbn [ob_val].
    by rewrite (bind_Ret _ _ _ _ _ (contains_str_eq _ _ _ _ Hf)).
Qed.

(** The names of the devices that are up, each once, in order, after those
    already seen. *)
Fixpoint active_names (seen : list string) (ifa : list ifaddrs) : list string :=
  match ifa with
  | [] => seen
  | i :: ifa =>
      if bool_decide (ifa_name i ∈ seen) || (Z.land (ifa_flags i) IFF_UP =? 0)
      then active_names seen ifa
      else active_names (seen ++ [ifa_name i]) ifa
  end.

Lemma active_loop_ok w0 rho ll ifa : forall seen w,
  building w0 rho ll (DStr <$> seen) w ->
  Forall (fun i => utf8_valid (ifa_name i) = true /\ has_nul (ifa_name i) = false) ifa ->
  wp (active_loop (Loc ll) ifa) (fun _ w' =>
    building w0 rho ll (DStr <$> active_names seen ifa) w' /\ w_env w' = w_env w) w.
Proof.
  induction ifa as [|i ifa IH]; intros seen w Hb Hu; [by split|].
  apply Forall_cons_1 in Hu as [[Hu Hn] Hus]. cbn [active_loop active_names].
  destruct (bld_items _ _ _ _ _ Hb) as (ps & Hps & Hf).
  rewrite list.Forall2_fmap_r in Hf.
  pose proof (bld_wf _ _ _ _ _ Hb) as Hw.
  pose proof (wf_fresh _ _ _ (wf_hp _ _ Hw) _ _ Hps) as Hlow.
  pose proof (wf_fresh_next _ _ _ (wf_hp _ _ Hw)) as Hfr.
  unfold wp, PyStr_FromString. rewrite cstr_no_nul, Hu by done.
  rewrite (bind_Ret _ _ _ _ _ (alloc_eq _ _)).
  set (w1 := set_next _ _).
  assert (keeps_data (w_heap w) (w_heap w1)) as Hk1 by (by apply keeps_insert_fresh).
  assert (w_heap w1 !! w_next w = Some (Obj 1 (VStr (ifa_name i)))) as Hl1
    by apply lookup_insert_eq.
  assert (w_heap w1 !! ll = Some (Obj 1 (VList ps))) as Hps1.
  { unfold w1. simpl. rewrite lookup_insert_ne; [done|lia]. }
  assert (Forall2 (fun p n => denotes (w_heap w1) p (DStr n)) ps seen) as Hf1.
  { eapply list.Forall2_impl; [exact Hf|]. intros p n. by apply denotes_keeps. }
  rewrite (bind_Ret _ _ _ _ _ (contains_eq ll 1 ps seen _ 1 _ _ Hps1 Hl1 Hf1)).
  assert (forall b : bool, (Z.b2z b =? 0) && negb (Z.land (ifa_flags i) IFF_UP =? 0)
    = negb (b || (Z.land (ifa_flags i) IFF_UP =? 0))) as -> by (by intros []).
  destruct (_ || _); cbn [negb].
  - rewrite bind_ret_l, (bind_Ret _ _ _ _ _ (decref_str _ _ _ Hl1)).
    assert (set_heap (delete (w_next w) (w_heap w1)) w1 = set_next (Pos.succ (w_next w)) w)
      as ->.
    { unfold w1. destruct w. simpl in *. unfold set_heap, set_next. simpl.
      by rewrite delete_insert_id. }
    exact (IH seen _ (building_skip _ _ _ _ _ Hb) Hus).
  - rewrite bind_assoc.
    destruct (building_append w0 rho ll (DStr <$> seen) w w1 (w_next w)
      (VStr (ifa_name i)) (DStr (ifa_name i)) (fun _ => active_loop (Loc ll) ifa))
      as (w2 & Hb2 & He & Hk); [done|apply only_new_alloc| |done..| |done| |].
    + apply alloc_wf; [|by constructor]. eapply wf_eq; [exact Hw|].
      unfold val_refs. simpl. multiset_solver.
    + exists (w_next w). by split.
    + by eapply (made_simple w), I; apply Hw.
    + match goal with |- match ?m with _ => _ end => change m with
        ((PyList_Append (Loc ll) (Loc (w_next w));; Py_DECREF (Loc (w_next w)) ≫=
          fun _ => active_loop (Loc ll) ifa) w1) end.
      rewrite Hk. eapply wp_mono; [apply (IH (seen ++ [ifa_name i])); [|done]|].
      * by rewrite fmap_app.
      * intros _ w' [? ?]. split; [done|]. rewrite He in *. done.
Qed.

Lemma active_names_spec ifa : forall seen, NoDup seen ->
  NoDup (active_names seen ifa) /\
  (forall n, n ∈ active_names seen ifa <->
     n ∈ seen \/ exists i, i ∈ ifa /\ ifa_name i = n /\ Z.land (ifa_flags i) IFF_UP <> 0) /\
  exists new, active_names seen ifa = seen ++ new /\
    new `sublist_of` (ifa_name <$> filter (fun i => Z.land (ifa_flags i) IFF_UP <> 0) ifa).
Proof.
  induction ifa as [|i ifa IH]; intros seen Hs; cbn [active_names].
  { split; [done|]. split; [|exists []; by rewrite app_nil_r].
    intros n. split; [by left|]. intros [?|(i & Hi & _)]; [done|]. by apply elem_of_nil in Hi. }
  rewrite filter_cons.
  destruct (bool_decide _) eqn:Eb; cbn [orb]; [|destruct (Z.eqb_spec (Z.land (ifa_flags i) IFF_UP) 0) as [Ez|Ez]].
  - apply bool_decide_eq_true in Eb. destruct (IH seen Hs) as (H1 & H2 & new & H3 & H4).
    split; [done|]. split.
    + intros n. rewrite H2. setoid_rewrite elem_of_cons. naive_solver.
    + exists new. split; [done|]. case_decide; [|done]. by apply sublist_cons.
  - destruct (IH seen Hs) as (H1 & H2 & new & H3 & H4). split; [done|]. split.
    + intros n. rewrite H2. setoid_rewrite elem_of_cons. naive_solver.
    + exists new. split; [done|]. by rewrite decide_False by naive_solver.
  - apply bool_decide_eq_false in Eb.
    destruct (IH (seen ++ [ifa_name i])) as (H1 & H2 & new & H3 & H4).
    { apply list.NoDup_app. split; [done|]. split; [|by apply NoDup_singleton].
      intros n Hn Hi%list_elem_of_singleton. by subst n. }
    split; [done|]. split.
    + intros n. rewrite H2, elem_of_app, list_elem_of_singleton.
      setoid_rewrite elem_of_cons. naive_solver.
    + exists (ifa_name i :: new). rewrite H3, <- app_assoc. split; [done|].
      rewrite decide_True by done. by apply sublist_skip.
Qed.

(** The first of each of the elements of a list. *)
Fixpoint firsts (ns : list string) : list string :=
  match ns with
  | [] => []
  | n :: ns => n :: filter (fun m => m <> n) (firsts ns)
  end.

Definition is_up (i : ifaddrs) : Prop := Z.land (ifa_flags i) IFF_UP <> 0.
#[global] Instance is_up_dec i : Decision (is_up i).
Proof. unfold is_up. apply _. Defined.

Lemma active_names_firsts ifa : forall seen,
  active_names seen ifa
    = seen ++ filter (fun n => n ∉ seen) (firsts (ifa_name <$> filter is_up ifa)).
Proof.
  induction ifa as [|i ifa IH]; intros seen; cbn [active_names]; [by rewrite app_nil_r|].
  rewrite filter_cons. unfold is_up at 1.
  destruct (Z.eqb_spec (Z.land (ifa_flags i) IFF_UP) 0) as [Ez|Ez].
  { rewrite orb_true_r, IH. by rewrite decide_False by (by intros []). }
  rewrite orb_false_r, decide_True by done. csimpl.
  case_bool_decide as Hin; rewrite IH; rewrite filter_cons.
  - rewrite decide_False by (by intros Hn). f_equal. rewrite list_filter_filter.
    apply list_filter_iff. intros n. split; [|by intros []]. intros Hn. split; [done|].
    by intros ->.
  - rewrite decide_True, <- app_assoc by done. cbn [app]. do 2 f_equal.
    rewrite list_filter_filter. apply list_filter_iff. intros n.
    rewrite elem_of_app, list_elem_of_singleton. tauto.
Qed.

Lemma active_devices_ok args w rho ifa k1 :
  wf w rho -> sys_getifaddrs (w_env w) = (inr ifa, k1) ->
  Forall (fun i => utf8_valid (ifa_name i) = true /\ has_nul (ifa_name i) = false) ifa ->
  wp (get_active_devices args) (fun r w' => exists ll, r = Loc ll /\
    building w rho ll (DStr <$> active_names [] ifa) w' /\ w_env w' = k1) w.
Proof.
  intros Hw Ha Hu. unfold get_active_devices.
  eapply wp_step; [unfold ask; by rewrite Ha|]. cbv beta iota.
  eapply wp_step; [apply alloc_eq|].
  pose proof (building_start w rho Hw) as Hb.
  apply (building_io _ _ _ _ _ (w_files w) k1) in Hb.
  apply wp_bind. eapply wp_mono; [apply (active_loop_ok _ rho _ ifa [] _ Hb Hu)|].
  intros _ w' [Hb' He]. exists (w_next w). split; [done|]. split; [|exact He].
  assert (w_files w' = w_files w) as Hf by apply (on_files _ _ (bld_new _ _ _ _ _ Hb')).
  apply building_close in Hb'. rewrite <- Hf in Hb'. by destruct w'.
Qed.

(** C24: [get_active_devices] returns a new list of the names of the entries of
    [getifaddrs] that are up: each name once however many addresses the device
    has, where its first such entry is ([firsts]).  Every reference, those to the
    duplicates included, is accounted for.  The names are taken to be UTF-8. *)
Theorem get_active_devices_spec args w rho ifa k1 :
  wf w rho -> sys_getifaddrs (w_env w) = (inr ifa, k1) ->
  Forall (fun i => utf8_valid (ifa_name i) = true /\ has_nul (ifa_name i) = false) ifa ->
  wp (get_active_devices args) (fun r w' => exists ll names, r = Loc ll /\
    building w rho ll (DStr <$> names) w' /\
    names = firsts (ifa_name <$> filter is_up ifa) /\ NoDup names /\
    (forall n, n ∈ names <->
       exists i, i ∈ ifa /\ ifa_name i = n /\ Z.land (ifa_flags i) IFF_UP <> 0) /\
    names `sublist_of` (ifa_name <$> filter is_up ifa)) w.
Proof.
  intros Hw Ha Hu. eapply wp_mono; [by eapply active_devices_ok|].
  intros r w' (ll & -> & Hb & _). exists ll, (active_names [] ifa).
  split; [done|]. split; [done|]. split.
  { rewrite active_names_firsts. cbn [app]. induction (firsts _) as [|n ns IH]; [done|].
    rewrite filter_cons, decide_True by apply not_elem_of_nil. by rewrite IH. }
  destruct (active_names_spec ifa []) as (H1 & H2 & new & H3 & H4); [constructor|].
  split; [done|]. split.
  - intros n. rewrite H2. split; [|by right]. intros [Hn|?]; [|done].
    by apply elem_of_nil in Hn.
  - by rewrite H3.
Qed.
End active.

(** ** etherinfo objects *)

Section info.
Context {K : Type} `{Platform K}.
Implicit Types w : world K.

(** An item that is a string: its text, if UTF-8 can encode it. *)
Definition str_of w (p : ptr) : option (option string) :=
  match p with
  | Loc l => match w_heap w !! l with
             | Some (Obj _ (VStr s)) => Some (Some (cstr s))
             | Some (Obj _ VSurrogates) => Some None
             | _ => None
             end
  | _ => None
  end.

(** Items of a tuple or list. *)
Definition items_ok w (ps : list ptr) : Prop :=
  Forall (fun p => p = PyNone \/ exists l o, p = Loc l /\ w_heap w !! l = Some o) ps.

Lemma item_at_eq ps i p w : ps !! i = Some p -> item_at ps (Z.of_nat i) w = Ret p w.
Proof.
  intros Hp. unfold item_at. rewrite decide_True by lia. by rewrite Nat2Z.id, Hp.
Qed.

Lemma collect_names_eq get ps w :
  (forall i p, ps !! i = Some p -> get (Z.of_nat i) w = Ret p w) -> items_ok w ps ->
  None ∉ omap (str_of w) ps -> forall n i, (i + n = length ps)%nat ->
  collect_names get i n w = Ret (omap (str_of w) (drop i ps)) w.
Proof.
  intros Hget Hok Hnone. induction n as [|n IH]; intros i Hi.
  { simpl. rewrite drop_ge by lia. done. }
  destruct (lookup_lt_is_Some_2 ps i) as [p Hp]; [lia|].
  cbn [collect_names]. rewrite (bind_Ret _ _ _ _ _ (Hget i p Hp)).
  rewrite (drop_S _ _ _ Hp). cbn [omap list_omap].
  destruct (proj1 (Forall_lookup _ _) Hok i p Hp) as [->|(l & o & -> & Hl)].
  - cbn [is_null]. unfold PyStr_Check. cbn [peek]. rewrite bind_assoc, !bind_ret_l.
    by rewrite IH by lia.
  - cbn [is_null]. unfold PyStr_Check. rewrite bind_assoc.
    rewrite (bind_Ret _ _ _ _ _ (peek_eq _ _ _ Hl)). rewrite bind_ret_l.
    unfold str_of at 1. rewrite Hl. destruct o as [rc [s| | | | | | | |]]; cbn [ob_val];
      try (rewrite IH by lia; done).
    2:{ destruct Hnone. apply list_elem_of_omap. exists (Loc l).
        split; [by eapply list_elem_of_lookup_2|]. simpl. by rewrite Hl. }
    unfold name_of, PyStr_AsString. rewrite bind_assoc, bind_assoc.
    rewrite (bind_Ret _ _ _ _ _ (peek_eq _ _ _ Hl)). cbn [ob_val].
    rewrite bind_ret_l, bind_ret_l. rewrite (bind_Ret _ _ _ _ _ (IH (S i) ltac:(lia))).
    done.
Qed.

(** The device names an argument tuple asks for. *)
Inductive asks w : list ptr -> list (option string) -> Prop :=
  | asks_nothing : asks w [] []
  | asks_str l rc s : w_heap w !! l = Some (Obj rc (VStr s)) -> asks w [Loc l] [Some (cstr s)]
  | asks_surrogates l rc : w_heap w !! l = Some (Obj rc VSurrogates) -> asks w [Loc l] [None]
  | asks_tuple l rc ps : w_heap w !! l = Some (Obj rc (VTuple ps)) -> items_ok w ps ->
      asks w [Loc l] (omap (str_of w) ps)
  | asks_list l rc ps : w_heap w !! l = Some (Obj rc (VList ps)) -> items_ok w ps ->
      asks w [Loc l] (omap (str_of w) ps).

Lemma fetch_devs_eq w args names :
  asks w args (Some <$> names) ->
  exists p, PyArg_ParseTuple_optO args w = Ret (Some p) w /\
    fetch_devs p w = Ret (Some (Some <$> names)) w.
Proof.
  intros Ha. assert (None ∉ Some <$> names) as Hno.
  { by intros (s & [=] & _)%list_elem_of_fmap. }
  revert Ha Hno. generalize (Some <$> names). clear names.
  intros names [|l rc s Hl|l rc Hl|l rc ps Hl Hok|l rc ps Hl Hok] Hno.
  - by exists Null.
  - exists (Loc l). split; [done|]. unfold fetch_devs, PyStr_Check. cbn [is_null].
    rewrite bind_assoc, (bind_Ret _ _ _ _ _ (peek_eq _ _ _ Hl)). cbn [ob_val].
    rewrite bind_ret_l. unfold name_of, PyStr_AsString.
    rewrite !bind_assoc, (bind_Ret _ _ _ _ _ (peek_eq _ _ _ Hl)). done.
  - by destruct Hno; left.
  - exists (Loc l). split; [done|].
    unfold fetch_devs, PyStr_Check, PyTuple_Check, PyTuple_Size. cbn [is_null].
    rewrite bind_assoc, (bind_Ret _ _ _ _ _ (peek_eq _ _ _ Hl)). cbn [ob_val].
    rewrite bind_ret_l, bind_assoc, (bind_Ret _ _ _ _ _ (peek_eq _ _ _ Hl)).
    cbn [ob_val].
    rewrite bind_ret_l, bind_assoc, (bind_Ret _ _ _ _ _ (peek_eq _ _ _ Hl)).
    cbn [ob_val]. rewrite bind_ret_l, Nat2Z.id.
    erewrite bind_Ret by (apply (collect_names_eq _ ps); [|done|done|done];
      intros i p Hp; unfold PyTuple_GetItem;
      rewrite (bind_Ret _ _ _ _ _ (peek_eq _ _ _ Hl)); by apply item_at_eq).
    done.
  - exists (Loc l). split; [done|].
    unfold fetch_devs, PyStr_Check, PyTuple_Check, PyList_Check, PyList_Size.
    cbn [is_null].
    do 3 (rewrite bind_assoc, (bind_Ret _ _ _ _ _ (peek_eq _ _ _ Hl)); cbn [ob_val];
      rewrite bind_ret_l).
    rewrite bind_assoc, (bind_Ret _ _ _ _ _ (peek_eq _ _ _ Hl)). cbn [ob_val].
    rewrite bind_ret_l, Nat2Z.id.
    erewrite bind_Ret by (apply (collect_names_eq _ ps); [|done|done|done];
      intros i p Hp; unfold PyList_GetItem;
      rewrite (bind_Ret _ _ _ _ _ (peek_eq _ _ _ Hl)); by apply item_at_eq).
    done.
Qed.

(** A new object and its name, the object filled in last. *)
Definition with_ether w (name : string) (g : Z) : world K :=
  set_next (Pos.succ (Pos.succ (w_next w))) (set_heap
    (<[w_next w := Obj 1 (VEther (MkEther (Loc (Pos.succ (w_next w))) (-1) Null g))]>
      (<[Pos.succ (w_next w) := Obj 1 (VStr name)]> (w_heap w))) w).

Lemma with_ether_wf w rho name g :
  wf w rho -> wf (with_ether w name g) ({[+ w_next w +]} ⊎ rho).
Proof.
  intros Hw. set (ln := w_next w). set (ls := Pos.succ ln).
  assert (ln <> ls) as Hne by lia.
  (* the same world, by way of a blank object *)
  set (w1 := set_next ls (set_heap (<[ln := Obj 1 VOther]> (w_heap w)) w)).
  assert (wf w1 ({[+ ln +]} ⊎ rho)) as Hw1.
  { apply (alloc_wf VOther w rho); [|by constructor].
    eapply wf_eq; [exact Hw|]. unfold val_refs. simpl. multiset_solver. }
  assert (wf (set_next (Pos.succ ls) (set_heap
    (<[ls := Obj 1 (VStr name)]> (w_heap w1)) w1)) ({[+ ls +]} ⊎ ({[+ ln +]} ⊎ rho)))
    as Hwb.
  { apply (alloc_wf (VStr name) w1); [|by constructor].
    eapply wf_eq; [exact Hw1|]. unfold val_refs. simpl. multiset_solver. }
  assert (w_heap (with_ether w name g) = <[ln := Obj 1 (VEther (MkEther (Loc ls) (-1) Null g))]>
    (<[ls := Obj 1 (VStr name)]> (w_heap w1))) as Hh.
  { simpl. by rewrite (insert_over _ ln ls). }
  split; [|by destruct Hwb as [_ []]]. rewrite Hh.
  eapply (wf_move_in _ _ _ ls); [apply Hwb| |done| |].
  - simpl. rewrite lookup_insert_ne by done. apply lookup_insert_eq.
  - unfold val_refs. simpl. multiset_solver.
  - by split.
Qed.

Lemma made_ether w rho name g :
  wf w rho -> made_from (w_next w) (w_heap (with_ether w name g)).
Proof.
  intros Hw. pose proof (wf_fresh_next _ _ _ (wf_hp _ _ Hw)) as Hn.
  pose proof (wf_fresh_succ _ _ _ (wf_hp _ _ Hw)) as Hs. simpl.
  apply typed_from_new.
  - apply typed_from_new; [apply typed_from_none, Hw|done..].
  - rewrite lookup_insert_ne by lia. exact Hn.
  - done.
  - split; [|by left]. simpl. eexists _, 1, name. split; [done|].
    rewrite lookup_insert_ne by lia. apply lookup_insert_eq.
Qed.

(** One new object, as the loop makes it. *)
Lemma info_step w0 rho ll ds w name names :
  building w0 rho ll ds w -> (py_malloc (w_env w)).1 <> None ->
  utf8_valid (cstr name) = true ->
  exists w2, building w0 rho ll (ds ++ [DEther (cstr name) (-1)]) w2 /\
    w_env w2 = (py_malloc (w_env w)).2 /\
    info_loop (Loc ll) (Some name :: names) w = info_loop (Loc ll) names w2.
Proof.
  intros Hb Hm Hu. cbn [info_loop]. unfold PyObject_New.
  rewrite bind_assoc. unfold ask at 1, mbind at 1, M_bind at 1.
  destruct (py_malloc (w_env w)) as [[g|] k1]; [|done].
  set (w1 := set_env k1 w).
  rewrite (bind_Ret _ _ _ _ _ (alloc_eq _ w1)). cbn [is_null]. cbv iota.
  unfold PyStr_FromString_of, PyStr_FromString. rewrite Hu.
  rewrite (bind_Ret _ _ _ _ _ (alloc_eq _ _)).
  pose proof (bld_wf _ _ _ _ _ Hb) as Hw.
  set (ln := w_next w). set (ls := Pos.succ ln).
  erewrite bind_Ret.
  2:{ eapply get_ether_eq. simpl. rewrite lookup_insert_ne by (unfold ls; simpl; lia).
      apply lookup_insert_eq. }
  erewrite bind_Ret.
  2:{ eapply put_val_eq. simpl. rewrite lookup_insert_ne by (unfold ls; simpl; lia).
      apply lookup_insert_eq. }
  cbn [ob_refcnt nlc_active].
  set (e := MkEther (Loc ls) (-1) Null (u16 g)).
  set (w3 := with_ether w1 (cstr name) (u16 g)).
  assert (forall l o, w_heap w !! l = Some o -> w_heap w3 !! l = Some o) as Hold.
  { intros l o Hl. pose proof (wf_fresh _ _ _ (wf_hp _ _ Hw) _ _ Hl).
    simpl. by rewrite !lookup_insert_ne by lia. }
  destruct (building_append w0 rho ll ds w w3 ln (VEther e)
    (DEther (cstr name) (-1)) (fun _ => info_loop (Loc ll) names))
    as (w2 & Hb2 & He & Hk).
  - done.
  - split; simpl; try done; [|unfold ls, ln; lia].
    intros l Hl. by rewrite !lookup_insert_ne by (unfold ls, ln; lia).
  - apply (with_ether_wf w1). destruct Hw as [Hh [N1 N2 N3]]. split; [exact Hh|by split].
  - apply lookup_insert_eq.
  - intros l v Hl. destruct v; try done; by apply Hold.
  - exists ln, e. do 4 (split; [done || apply lookup_insert_eq|]).
    exists ls. split; [done|]. simpl.
    rewrite lookup_insert_ne by (unfold ls; simpl; lia). apply lookup_insert_eq.
  - unfold ln. lia.
  - apply (made_ether w1 ({[+ ll +]} ⊎ rho)). destruct Hw as [Hh [N1 N2 N3]]. split; [exact Hh|by split].
  - exists w2. split; [done|]. split; [by rewrite He|].
    rewrite <- Hk. f_equal. unfold w3, with_ether, set_heap, set_next. simpl. f_equal.
    by rewrite !(insert_over _ (w_next w) (Pos.succ (w_next w))) by lia.
Qed.

Lemma info_loop_ok w0 rho ll names : forall ds w,
  building w0 rho ll ds w -> memory_for (length names) (w_env w) ->
  Forall (fun n => utf8_valid (cstr n) = true) names ->
  wp (info_loop (Loc ll) (Some <$> names)) (fun r w' => r = Loc ll /\
    building w0 rho ll (ds ++ map (fun n => DEther (cstr n) (-1)) names) w') w.
Proof.
  induction names as [|n names IH]; intros ds w Hb Hm Hu.
  { split; [done|]. by rewrite app_nil_r. }
  apply Forall_cons_1 in Hu as [Hu Hus]. destruct Hm as [Hm Hms].
  destruct (info_step w0 rho ll ds w n (Some <$> names) Hb Hm Hu) as (w2 & Hb2 & He & Hk).
  rewrite fmap_cons. unfold wp. rewrite Hk. eapply wp_mono.
  { apply (IH (ds ++ [DEther (cstr n) (-1)])); [done|by rewrite He|done]. }
  intros r w' [-> Hb']. by rewrite <- app_assoc in Hb'.
Qed.

Lemma interfaces_info_ok args names w rho :
  wf w rho -> asks w args (Some <$> names) -> memory_for (length names) (w_env w) ->
  Forall (fun n => utf8_valid (cstr n) = true) names ->
  wp (get_interfaces_info args) (fun r w' => exists ll, r = Loc ll /\
    building w rho ll (map (fun n => DEther (cstr n) (-1)) names) w') w.
Proof.
  intros Hw Ha Hm Hu. destruct (fetch_devs_eq w args names Ha) as (p & Hp & Hf).
  unfold get_interfaces_info. eapply wp_step; [exact Hp|]. cbv beta iota.
  eapply wp_step; [exact Hf|]. cbv beta iota.
  eapply wp_step; [apply alloc_eq|].
  eapply wp_mono; [apply (info_loop_ok w rho _ names []); [by apply building_start|done|done]|].
  intros r w' [-> Hb]. by exists (w_next w).
Qed.

(** Any other argument is refused, before anything is made. *)
Lemma interfaces_info_refuses args w :
  (exists p q ps, args = p :: q :: ps) \/
  args = [PyNone] \/
  (exists l rc v, args = [Loc l] /\ w_heap w !! l = Some (Obj rc v) /\
     match v with VStr _ | VSurrogates | VList _ | VTuple _ => False | _ => True end) ->
  get_interfaces_info args w
    = Ret Null (set_err (Some (PyExc PyExc_LookupError
        (ExcMsg "Argument must be either a string, list or a tuple"))) w).
Proof.
  intros [(p & q & ps & ->)|[->|(l & rc & v & -> & Hl & Hv)]]; [done|done|].
  unfold get_interfaces_info, PyArg_ParseTuple_optO, fetch_devs.
  unfold PyStr_Check, PyTuple_Check, PyList_Check.
  destruct w as [h n er x nlc nl nn fds fs se k]. simpl in Hl. mrun.
  destruct v; try done; repeat (rewrite Hl; mrun); done.
Qed.

(** A name that UTF-8 cannot encode stops the process: the [NULL] that stands for
    it is made a string. *)
Lemma interfaces_info_surrogates l rc w :
  w_heap w !! l = Some (Obj rc VSurrogates) -> (py_malloc (w_env w)).1 <> None ->
  get_interfaces_info [Loc l] w = Fault NullDeref.
Proof.
  intros Hl Hm. unfold get_interfaces_info, PyArg_ParseTuple_optO, fetch_devs, PyStr_Check.
  rewrite bind_ret_l. cbn [is_null].
  rewrite bind_assoc, bind_assoc, (bind_Ret _ _ _ _ _ (peek_eq _ _ _ Hl)). cbn [ob_val].
  rewrite bind_ret_l. unfold name_of, PyStr_AsString.
  rewrite !bind_assoc, (bind_Ret _ _ _ _ _ (peek_eq _ _ _ Hl)). cbn [ob_val].
  unfold PyErr_Internal, PyErr_Set, PyList_New0, info_loop, PyObject_New. mrun.
  destruct (py_malloc _) as [[g|] k]; [|by destruct Hm]. done.
Qed.

(** C23: [get_interfaces_info] returns a new list with one new [etherinfo]
    object for each string it is given (a single name, or the strings of a
    list or tuple, whatever else that holds), in order; each knows its device
    name, has no index yet and no hardware address.  Called without an argument
    it asks for nothing and gets an empty list, although its comment speaks of
    all interfaces.  Nothing older changes and every reference is accounted for.
    The strings are ones UTF-8 can encode ([interfaces_info_surrogates] for the
    others), and there is memory for the objects. *)
Theorem get_interfaces_info_spec args names w rho :
  wf w rho -> asks w args (Some <$> names) -> memory_for (length names) (w_env w) ->
  Forall (fun n => utf8_valid (cstr n) = true) names ->
  wp (get_interfaces_info args) (fun r w' => exists ll, r = Loc ll /\
    building w rho ll (map (fun n => DEther (cstr n) (-1)) names) w') w.
Proof. apply interfaces_info_ok. Qed.
End info.

(** ** At work *)

Definition head1 : string := "Inter-|   Receive                  |  Transmit".
Definition head2 : string := " face |bytes    packets errs drop|bytes    packets".
Definition two_devs : list (nat * string * string) :=
  [(4%nat, "lo", " 1234 12 0 0 1234 12"); (2%nat, "eth0", "99887766 812 0 0 12 1")].

Definition proc_machine (contents : string) : machine :=
  with_file _PATH_PROCNET_DEV contents quiet.

Definition two_machine : machine :=
  proc_machine (lines (head1 :: head2 :: map dev_line two_devs)).

Lemma get_devices_table_witness :
  wp (get_devices []) (fun r w' => exists ll, r = Loc ll /\
    building (boot two_machine) ∅ ll (map (fun e => DStr e.1.2) two_devs) w' /\
    w_env w' = two_machine) (boot two_machine).
Proof.
  apply (get_devices_table [] (boot two_machine) ∅ two_machine head1 head2 two_devs).
  - apply wf_boot.
  - vm_compute. reflexivity.
  - repeat (constructor; [split; [reflexivity|apply Nat.ltb_lt; reflexivity]|]). constructor.
  - repeat (constructor; [split; [reflexivity|split; [discriminate|reflexivity]]|]).
    constructor.
Defined.

Definition short_machine : machine := proc_machine (lines [head1; head2]).

Lemma get_devices_any_witness :
  exists ls, reads 256 EmptyString ls /\
    if forallb text_name ls then
      wp (get_devices []) (fun r w' => exists ll, r = Loc ll /\
        building (boot short_machine) ∅ ll
          (map (fun l => DStr (cstr (line_name l))) ls) w' /\
        w_env w' = short_machine) (boot short_machine)
    else get_devices [] (boot short_machine) = Fault NullDeref.
Proof.
  exact (get_devices_any [] (boot short_machine) ∅ (lines [head1; head2]) short_machine
    (wf_boot _) eq_refl).
Defined.

Lemma get_devices_leaks_witness :
  wp (get_devices []) (fun r w' => r = Null /\
    w_err w' = Some (PyExc PyExc_OSError (ExcErrno 2)) /\
    w_heap w' !! 1%positive = Some (Obj 1 (VList [])) /\
    wf w' ({[+ 1%positive +]} ⊎ ∅)) (boot quiet).
Proof.
  apply (get_devices_leaks [] (boot quiet) ∅ 2 quiet); [apply wf_boot|reflexivity].
Defined.

Definition bad_name : string := String "255" "eth".
Definition bad_machine : machine :=
  proc_machine (lines [head1; head2; dev_line (1%nat, bad_name, " 0")]).

Lemma get_devices_bad_name_witness :
  get_devices [] (boot bad_machine) = Fault NullDeref.
Proof.
  apply (get_devices_bad_name [] (boot bad_machine) ∅ bad_machine head1 head2
    1 bad_name " 0" []).
  - apply wf_boot.
  - vm_compute. reflexivity.
  - repeat (constructor; [split; [reflexivity|apply Nat.ltb_lt; reflexivity]|]). constructor.
  - reflexivity.
  - discriminate.
  - reflexivity.
Defined.

Lemma get_active_devices_spec_witness :
  wp (get_active_devices []) (fun r w' => exists ll names, r = Loc ll /\
    building (boot quiet) ∅ ll (DStr <$> names) w' /\
    names = firsts (ifa_name <$> filter is_up [Ifaddrs "lo" IFF_UP; Ifaddrs "eth0" IFF_UP]) /\
    NoDup names /\
    (forall n, n ∈ names <-> exists i, i ∈ [Ifaddrs "lo" IFF_UP; Ifaddrs "eth0" IFF_UP]
       /\ ifa_name i = n /\ Z.land (ifa_flags i) IFF_UP <> 0) /\
    names `sublist_of` (ifa_name <$> filter is_up
      [Ifaddrs "lo" IFF_UP; Ifaddrs "eth0" IFF_UP])) (boot quiet).
Proof.
  apply (get_active_devices_spec [] (boot quiet) ∅ _ quiet).
  - apply wf_boot.
  - reflexivity.
  - repeat (constructor; [split; reflexivity|]). constructor.
Defined.

(** A tuple of two names and a number. *)
Definition tuple_world : world machine := Eval vm_compute in
  world_after (a ← alloc (VStr "lo"); b ← alloc (VInt 3); c ← alloc (VStr "eth0");
    alloc (VTuple [a; b; PyNone; c])) (boot quiet).

Lemma tuple_world_wf : wf tuple_world {[+ 4%positive +]}.
Proof.
  pose proof (wf_boot quiet) as H0.
  apply (wf_eq _ _ (val_refs (VStr "lo") ⊎ ∅)) in H0; [|by multiset_solver].
  apply alloc_wf in H0; [|by constructor].
  apply (wf_eq _ _ (val_refs (VInt 3) ⊎ {[+ 1%positive +]})) in H0;
    [|unfold val_refs; simpl; multiset_solver].
  apply alloc_wf in H0; [|by constructor].
  apply (wf_eq _ _ (val_refs (VStr "eth0") ⊎ {[+ 1%positive; 2%positive +]})) in H0;
    [|unfold val_refs; simpl; multiset_solver].
  apply alloc_wf in H0; [|by constructor].
  apply (wf_eq _ _ (val_refs (VTuple [Loc 1; Loc 2; PyNone; Loc 3]) ⊎ ∅)) in H0;
    [|unfold val_refs; simpl; multiset_solver].
  apply alloc_wf in H0; [|by repeat constructor].
  eapply wf_eq; [exact H0|]. simpl. multiset_solver.
Qed.

Lemma tuple_asks : asks tuple_world [Loc 4] (Some <$> ["lo"; "eth0"]).
Proof.
  apply (asks_tuple tuple_world 4 1 [Loc 1; Loc 2; PyNone; Loc 3]); [reflexivity|].
  repeat (apply List.Forall_cons;
    [first [left; reflexivity|right; do 2 eexists; split; reflexivity]|]).
  constructor.
Qed.

Lemma get_interfaces_info_spec_witness :
  wp (get_interfaces_info [Loc 4]) (fun r w' => exists ll, r = Loc ll /\
    building tuple_world {[+ 4%positive +]} ll
      (map (fun n => DEther (cstr n) (-1)) ["lo"; "eth0"]) w') tuple_world.
Proof.
  apply (get_interfaces_info_spec [Loc 4] ["lo"; "eth0"]).
  - apply tuple_world_wf.
  - apply tuple_asks.
  - by repeat split.
  - repeat (constructor; [reflexivity|]). constructor.
Defined.
