(* ===== verification/NetlinkAddress.v ===== *)
(** * netlink-address.c: NetlinkIPaddress objects

    Building a Python object from a libnl address, and its attributes and
    representation.  (Its deallocator is in Objects.v.) *)
From S2P Require Import Prelude.
From S2P Require Import Platform.
From S2P Require Import CPython.
From S2P Require Import Objects.

Section address.
Context {K : Type} `{Platform K}.
Local Abbreviation M := (M K).

(** Assignments to the fields. *)
Definition with_family (x : Z) (a : PyNetlinkIPaddress) : PyNetlinkIPaddress :=
  MkAddr x (local a) (peer a) (ipv4_broadcast a) (prefixlen a) (scope a).
Definition with_local (x : ptr) (a : PyNetlinkIPaddress) : PyNetlinkIPaddress :=
  MkAddr (family a) x (peer a) (ipv4_broadcast a) (prefixlen a) (scope a).
Definition with_peer (x : ptr) (a : PyNetlinkIPaddress) : PyNetlinkIPaddress :=
  MkAddr (family a) (local a) x (ipv4_broadcast a) (prefixlen a) (scope a).
Definition with_ipv4_broadcast (x : ptr) (a : PyNetlinkIPaddress) : PyNetlinkIPaddress :=
  MkAddr (family a) (local a) (peer a) x (prefixlen a) (scope a).
Definition with_prefixlen (x : Z) (a : PyNetlinkIPaddress) : PyNetlinkIPaddress :=
  MkAddr (family a) (local a) (peer a) (ipv4_broadcast a) x (scope a).
Definition with_scope (x : ptr) (a : PyNetlinkIPaddress) : PyNetlinkIPaddress :=
  MkAddr (family a) (local a) (peer a) (ipv4_broadcast a) (prefixlen a) x.

Definition upd_addr (f : PyNetlinkIPaddress -> PyNetlinkIPaddress) (p : ptr)
    : M unit :=
  a ← get_addr p; put_val p (VAddr (f a)).
Definition set_family (x : Z) : ptr -> M unit := upd_addr (with_family x).
Definition set_local (x : ptr) : ptr -> M unit := upd_addr (with_local x).
Definition set_peer (x : ptr) : ptr -> M unit := upd_addr (with_peer x).
Definition set_ipv4_broadcast (x : ptr) : ptr -> M unit := upd_addr (with_ipv4_broadcast x).
Definition set_prefixlen (x : Z) : ptr -> M unit := upd_addr (with_prefixlen x).
Definition set_scope (x : ptr) : ptr -> M unit := upd_addr (with_scope x).

(** [nl_addr_get_binary_addr]. *)
Definition binary_addr (a : option nl_addr) : M (list byte) :=
  match a with
  | Some a => mret (nla_binary a)
  | None => raise NullDeref
  end.

(** [inet_ntop] into [buf]: [None] for [NULL], with [errno]. *)
Definition ntop (f : Z) (b : list byte) (size : nat) : M (option string) :=
  match inet_ntop f b size with
  | inl e => assign_errno e;; mret None
  | inr s => mret (Some s)
  end.

Definition buf_size : nat := INET6_ADDRSTRLEN + 1.

Definition supported_family (f : Z) : bool := (f =? AF_INET) || (f =? AF_INET6).

Definition unsupported_msg : string :=
  "Only IPv4 (AF_INET) and IPv6 (AF_INET6) address types are supported".

(** The label [error]. *)
Definition from_rtnl_error (py_obj : ptr) : M ptr := Py_DECREF py_obj;; mret Null.

(** From the scope on, nothing is checked. *)
Definition from_rtnl_scope (py_obj : ptr) (addr : rtnl_addr) : M ptr :=
  s ← PyStr_FromString (rtnl_scope2str (ra_scope addr) buf_size);
  set_scope s py_obj;;
  mret py_obj.

Definition from_rtnl_broadcast (py_obj : ptr) (addr : rtnl_addr) : M ptr :=
  set_prefixlen (ra_prefixlen addr) py_obj;;
  set_ipv4_broadcast Null py_obj;;
  o ← get_addr py_obj;
  match ra_broadcast addr with
  | Some brdcst =>
      if family o =? AF_INET then
        buf ← ntop AF_INET (nla_binary brdcst) buf_size;
        match buf with
        | None =>
            PyErr_SetFromErrno PyExc_RuntimeError;; from_rtnl_error py_obj
        | Some buf =>
            s ← PyStr_FromString buf;
            set_ipv4_broadcast s py_obj;;
            if is_null s then from_rtnl_error py_obj
            else from_rtnl_scope py_obj addr
        end
      else from_rtnl_scope py_obj addr
  | None => from_rtnl_scope py_obj addr
  end.

Definition from_rtnl_peer (py_obj : ptr) (addr : rtnl_addr) : M ptr :=
  match ra_peer addr with
  | Some peer_addr =>
      s ← PyStr_FromString (nl_addr2str (Some peer_addr) buf_size);
      set_peer s py_obj;;
      (* the source looks at the local address again here *)
      o ← get_addr py_obj;
      if is_null (local o) then from_rtnl_error py_obj
      else from_rtnl_broadcast py_obj addr
  | None => set_peer Null py_obj;; from_rtnl_broadcast py_obj addr
  end.

Definition PyNetlinkIPaddress_from_rtnl_addr (addr : rtnl_addr) : M ptr :=
  py_obj ← PyObject_New raw_addr;
  if is_null py_obj then mret Null
  else
    set_family (ra_family addr) py_obj;;
    if negb (supported_family (ra_family addr)) then
      PyErr_SetString PyExc_RuntimeError unsupported_msg;;
      from_rtnl_error py_obj
    else
      bin ← binary_addr (ra_local addr);
      buf ← ntop (ra_family addr) bin buf_size;
      match buf with
      | None => PyErr_SetFromErrno PyExc_RuntimeError;; from_rtnl_error py_obj
      | Some buf =>
          s ← PyStr_FromString buf;
          set_local s py_obj;;
          if is_null s then from_rtnl_error py_obj
          else from_rtnl_peer py_obj addr
      end.

Definition make_python_address_from_rtnl_addr (addr : rtnl_addr) : M ptr :=
  if supported_family (ra_family addr)
  then PyNetlinkIPaddress_from_rtnl_addr addr
  else PyErr_SetFromErrno PyExc_RuntimeError.

(** ** Representation *)

(** [result = PyStr_Concat(result, PyStr_FromFormat(...))]. *)
Definition append_str (result : ptr) (s : string) : M ptr :=
  tmp ← PyStr_FromFormat s; PyStr_Concat result tmp.

Definition netlink_ip_address_repr (p : ptr) : M ptr :=
  result ← PyStr_FromString "ethtool.NetlinkIPaddress(family=";
  o ← get_addr p;
  loc ← PyStr_AsString_nonnull (local o);
  result ← append_str result
    (cstr (nl_af2str (family o) 256) +:+ ", address='" +:+ loc);
  result ←
    (if family o =? AF_INET then
       append_str result ("', netmask=" +:+ fmt_d (prefixlen o))
     else if family o =? AF_INET6 then
       append_str result ("/" +:+ fmt_d (prefixlen o) +:+ "'")
     else mret result);
  pe ← use_ptr (peer o);
  result ←
    (if is_null pe then mret result
     else s ← PyStr_AsString_nonnull pe;
          append_str result (", peer_address='" +:+ s +:+ "'"));
  result ←
    (if (family o =? AF_INET) && negb (is_null (ipv4_broadcast o)) then
       s ← PyStr_AsString_nonnull (ipv4_broadcast o);
       append_str result (", broadcast='" +:+ s +:+ "'")
     else mret result);
  s ← PyStr_AsString_nonnull (scope o);
  append_str result (", scope=" +:+ s +:+ ")").

(** ** Attributes

    A member is given by its type, the field at its offset and its flags.  With
    none of the flags set it can be read, assigned and deleted. *)
Record field (A : Type) := Field {
  fget : PyNetlinkIPaddress -> A;
  fset : A -> PyNetlinkIPaddress -> PyNetlinkIPaddress;
}.
#[global] Arguments Field {A}.
#[global] Arguments fget {A}.
#[global] Arguments fset {A}.

Inductive member_type :=
  | T_OBJECT_EX (f : field ptr)  (** [NULL]: AttributeError *)
  | T_OBJECT (f : field ptr)     (** [NULL]: None *)
  | T_INT (f : field Z).

Record PyMemberDef := Member {
  m_type : member_type;
  m_flags : Z;
}.
Definition READONLY : Z := 1.

Definition _ethtool_netlink_ip_address_members : list (string * PyMemberDef) :=
  [("address", Member (T_OBJECT_EX (Field local with_local)) 0);
   ("peer_address", Member (T_OBJECT_EX (Field peer with_peer)) 0);
   ("netmask", Member (T_INT (Field prefixlen with_prefixlen)) 0);
   ("broadcast", Member (T_OBJECT (Field ipv4_broadcast with_ipv4_broadcast)) 0);
   ("scope", Member (T_OBJECT_EX (Field scope with_scope)) 0)].

(** What the interpreter does for a member that is read. *)
Definition get_member (m : PyMemberDef) (p : ptr) : M ptr :=
  a ← get_addr p;
  match m_type m with
  | T_INT f => PyLong_FromLong (fget f a)
  | T_OBJECT f =>
      q ← use_ptr (fget f a);
      if is_null q then mret PyNone else Py_INCREF q;; mret q
  | T_OBJECT_EX f =>
      q ← use_ptr (fget f a);
      if is_null q then PyErr_Internal PyExc_AttributeError;; mret Null
      else Py_INCREF q;; mret q
  end.

(** Assigned, or deleted with [Null]; -1 with an exception, or 0.  The warning a
    number beyond an [int] gives is taken not to be made an exception. *)
Definition Py_XINCREF (v : ptr) : M unit :=
  if is_null v then mret tt else Py_INCREF v.

Definition set_object (f : field ptr) (p v : ptr) : M Z :=
  a ← get_addr p;
  Py_XINCREF v;;
  upd_addr (fset f v) p;;
  Py_XDECREF (fget f a);;
  mret 0.

Definition refuse_member (k : exc_kind) : M Z := PyErr_Internal k;; mret (-1).

Definition set_member (m : PyMemberDef) (p v : ptr) : M Z :=
  if negb (Z.land (m_flags m) READONLY =? 0) then refuse_member PyExc_AttributeError
  else
    match m_type m with
    | T_INT f =>
        if is_null v then refuse_member PyExc_TypeError
        else
          z ← PyLong_AsLong v;
          err ← PyErr_Occurred;
          if (z =? -1) && err then mret (-1)
          else upd_addr (fset f (s32 z)) p;; mret 0
    | T_OBJECT f => set_object f p v
    | T_OBJECT_EX f =>
        a ← get_addr p;
        q ← use_ptr (fget f a);
        if is_null v && is_null q then refuse_member PyExc_AttributeError
        else set_object f p v
    end.
End address.
