(* ===== verification/AddressFacts.v ===== *)
(** * Properties of NetlinkIPaddress objects *)
From S2P Require Import Prelude.
From S2P Require Import Platform.
From S2P Require Import CPython.
From S2P Require Import Netlink.
From S2P Require Import Objects.
From S2P Require Import Testbed.
From S2P Require Import RefCount.
From S2P Require Import Typing.
From S2P Require Import Containers.
From S2P Require Import NetlinkAddress.

(** ** An object being filled in

    The new object at [l] has the value [a], some of its fields possibly not
    set yet.  Taken as a blank, the heap is well-formed; [vin] are the
    references its fields hold already. *)
Record making {K} (w0 : world K) (rho : gmultiset positive) (l : positive)
    (a : PyNetlinkIPaddress) (vin : gmultiset positive) (w : world K) : Prop := {
  mk_val : w_heap w !! l = Some (Obj 1 (VAddr a));
  mk_wf : wf (set_heap (<[l := Obj 1 VOther]> (w_heap w)) w)
            (vin ⊎ ({[+ l +]} ⊎ rho));
  mk_new : only_new w0 w;
  mk_loc : (w_next w0 <= l)%positive;
  mk_env : w_env w = w_env w0;
  mk_made : made_from (w_next w0) (delete l (w_heap w));
}.

Section making.
Context {K : Type} `{Platform K}.
Implicit Types w : world K.

Lemma making_start w rho g k1 :
  wf w rho ->
  making (set_env k1 w) rho (w_next w) (MkAddr g Uninit Uninit Uninit g Uninit) ∅
    (set_next (Pos.succ (w_next w))
      (set_heap (<[w_next w := Obj 1 (raw_addr g)]> (w_heap w)) (set_env k1 w))).
Proof.
  intros Hw. split.
  - apply lookup_insert_eq.
  - assert (wf (set_env k1 w) (val_refs VOther ⊎ rho)) as Hv.
    { destruct Hw as [Hh [N1 N2 N3]]. split; [|by split].
      eapply wf_heap_eq; [exact Hh|]. unfold val_refs. simpl. multiset_solver. }
    pose proof (alloc_wf VOther _ rho Hv ltac:(by constructor)) as [Hh [N1 N2 N3]].
    simpl in *. split; [|by split]. simpl. rewrite insert_insert_eq.
    eapply wf_heap_eq; [exact Hh|]. multiset_solver.
  - split; simpl; try done; [|lia]. auto with pyheap.
  - done.
  - done.
  - simpl. rewrite delete_insert_id by (by eapply wf_fresh_next, Hw).
    apply typed_from_none, Hw.
Qed.

(** Strings seen elsewhere stay. *)
Lemma is_str_put l a o h p s :
  h !! l = Some (Obj 1 (VAddr a)) -> is_str h p s -> is_str (<[l := o]> h) p s.
Proof.
  intros Hl (l' & -> & Hl'). exists l'. split; [done|].
  rewrite lookup_insert_ne; [done|]. intros ->. congruence.
Qed.

Lemma is_str_or_null_put l a o h p s :
  h !! l = Some (Obj 1 (VAddr a)) -> is_str_or_null h p s ->
  is_str_or_null (<[l := o]> h) p s.
Proof. destruct s; [apply is_str_put|done]. Qed.

(** Setting a field. *)
Lemma making_put w0 rho l a vin w f :
  making w0 rho l a vin w ->
  exists w', upd_addr f (Loc l) w = Ret tt w' /\ making w0 rho l (f a) vin w' /\
    w_heap w' = <[l := Obj 1 (VAddr (f a))]> (w_heap w).
Proof.
  intros [Hv Hw Hn Hl He Hmd]. unfold upd_addr.
  rewrite (bind_Ret _ _ _ _ _ (get_addr_eq _ _ _ _ Hv)).
  rewrite (put_val_eq _ _ _ _ Hv). eexists. split; [done|]. split; [|done].
  split; simpl.
  - apply lookup_insert_eq.
  - unfold set_heap in *. simpl in *. by rewrite insert_insert_eq.
  - by apply only_new_put.
  - done.
  - done.
  - by rewrite delete_insert_eq.
Qed.

(** Making a string for a field. *)
Lemma making_str w0 rho l a vin w s :
  making w0 rho l a vin w -> utf8_valid (cstr s) = true ->
  exists w' ls, PyStr_FromString s w = Ret (Loc ls) w' /\
    making w0 rho l a ({[+ ls +]} ⊎ vin) w' /\ is_str (w_heap w') (Loc ls) (cstr s) /\
    (forall p t, is_str (w_heap w) p t -> is_str (w_heap w') p t).
Proof.
  intros [Hv Hw Hn Hl He Hmd] Hs. unfold PyStr_FromString. rewrite Hs, alloc_eq.
  do 2 eexists. split; [done|].
  assert (w_heap w !! w_next w = None /\ l <> w_next w) as [Hfr Hne].
  { pose proof (wf_fresh_next _ _ _ (wf_hp _ _ Hw)) as Hf. simpl in Hf.
    rewrite lookup_insert_None in Hf. tauto. }
  split; [|split].
  - split; simpl.
    + by rewrite lookup_insert_ne.
    + assert (wf (set_heap (<[l := Obj 1 VOther]> (w_heap w)) w)
        (val_refs (VStr (cstr s)) ⊎ (vin ⊎ ({[+ l +]} ⊎ rho)))) as Hw1.
      { eapply wf_eq; [exact Hw|]. unfold val_refs. simpl. multiset_solver. }
      pose proof (alloc_wf (VStr (cstr s)) _ _ Hw1 ltac:(by constructor)) as [Hh [N1 N2 N3]].
      simpl in *. split; [|by split]. simpl. rewrite insert_insert_ne by done.
      eapply wf_heap_eq; [exact Hh|]. multiset_solver.
    + etrans; [exact Hn|]. apply only_new_alloc.
    + done.
    + done.
    + rewrite delete_insert_ne by done.
      apply typed_from_new; [done|by rewrite lookup_delete_ne|done..].
  - exists (w_next w). split; [done|]. apply lookup_insert_eq.
  - intros p t. apply is_str_keeps. by apply keeps_insert_fresh.
Qed.

(** The object complete. *)
Lemma making_done w0 rho l a vin w :
  making w0 rho l a vin w -> val_refs (VAddr a) = vin -> val_ok (VAddr a) ->
  wf w ({[+ l +]} ⊎ rho).
Proof.
  intros [Hv [Hh [N1 N2 N3]] Hn Hl _ _] Hvin Hok. split; [|by split].
  pose proof (wf_move_in_all _ _ _ vin l 1 VOther (VAddr a) Hh
    ltac:(apply lookup_insert_eq) ltac:(done)
    ltac:(rewrite Hvin; unfold val_refs; simpl; multiset_solver) Hok) as Hd.
  simpl in Hd. rewrite insert_insert_eq in Hd. by rewrite insert_id in Hd.
Qed.

Lemma making_typed w0 rho l a vin w fam loc pe bc plen sc :
  making w0 rho l a vin w -> denotes (w_heap w) (Loc l) (DAddr fam loc pe bc plen sc) ->
  made_from (w_next w0) (w_heap w).
Proof.
  intros Hm (l' & a' & [= <-] & Hl & _ & _ & Hlo & Hpe & Hbc & Hsc).
  rewrite <- (insert_delete_id _ _ _ Hl).
  apply typed_from_new; [apply Hm|apply lookup_delete_eq|done|].
  rewrite (insert_delete_id _ _ _ Hl).
  split; [by eapply is_str_at|]. split; [by eapply is_str_or_null_at|].
  split; [by eapply is_str_or_null_at|by eapply is_str_at].
Qed.
End making.

(** ** What an address becomes *)

Section from_rtnl.
Context {K : Type} `{PL : PlatformLaws K}.
Implicit Types w : world K.

Definition right {A B} (x : A + B) : option B :=
  match x with inr b => Some b | inl _ => None end.

(** The broadcast address: [None] on failure, [Some None] when the object has
    none. *)
Definition bcast_text (addr : rtnl_addr) : option (option string) :=
  match ra_broadcast addr with
  | Some b =>
      if ra_family addr =? AF_INET
      then s ← right (inet_ntop AF_INET (nla_binary b) buf_size); Some (Some (cstr s))
      else Some None
  | None => Some None
  end.

(** The data of the object, [None] where the conversion fails. *)
Definition addr_data (addr : rtnl_addr) : option pydata :=
  if supported_family (ra_family addr) then
    la ← ra_local addr;
    loc ← right (inet_ntop (ra_family addr) (nla_binary la) buf_size);
    bc ← bcast_text addr;
    Some (DAddr (ra_family addr) (cstr loc)
      (p ← ra_peer addr; Some (cstr (nl_addr2str (Some p) buf_size))) bc
      (ra_prefixlen addr) (cstr (rtnl_scope2str (ra_scope addr) buf_size)))
  else None.

(** The scope, and the end. *)
Lemma from_rtnl_scope_ok w0 rho l a vin w addr loc pe bc :
  making w0 rho l a vin w -> scope a = Uninit ->
  is_str (w_heap w) (local a) loc -> is_str_or_null (w_heap w) (peer a) pe ->
  is_str_or_null (w_heap w) (ipv4_broadcast a) bc ->
  ptr_refs (local a) ⊎ (ptr_refs (peer a) ⊎ ptr_refs (ipv4_broadcast a)) = vin ->
  wp (from_rtnl_scope (Loc l) addr) (fun r w' => r = Loc l /\
    denotes (w_heap w') (Loc l) (DAddr (family a) loc pe bc (prefixlen a)
      (cstr (rtnl_scope2str (ra_scope addr) buf_size))) /\
    w_heap w' !! l <> None /\
    wf w' ({[+ l +]} ⊎ rho) /\ only_new w0 w' /\ w_env w' = w_env w0 /\
    made_from (w_next w0) (w_heap w')) w.
Proof.
  intros Hm Hsc Hlo Hpe Hbc Hvin. unfold from_rtnl_scope.
  destruct (making_str w0 rho l a vin w (rtnl_scope2str (ra_scope addr) buf_size) Hm)
    as (w1 & ls & Hs & Hm1 & Hls & Hk); [apply scope2str_utf8|].
  eapply wp_step; [exact Hs|].
  destruct (making_put w0 rho l a _ w1 (fun a => MkAddr (family a) (local a) (peer a)
    (ipv4_broadcast a) (prefixlen a) (Loc ls)) Hm1) as (w2 & Hp & Hm2 & Hh2).
  eapply wp_step; [exact Hp|]. split; [done|].
  assert (forall p s, is_str_or_null (w_heap w) p s -> is_str_or_null (w_heap w1) p s)
    as Hk' by (intros p [s|]; [apply Hk|done]).
  assert (denotes (w_heap w2) (Loc l) (DAddr (family a) loc pe bc (prefixlen a)
    (cstr (rtnl_scope2str (ra_scope addr) buf_size)))) as Hden.
  { eexists l, _. split; [done|]. split; [apply (mk_val _ _ _ _ _ _ Hm2)|].
    split; [done|]. split; [done|]. rewrite Hh2. cbn [local peer ipv4_broadcast scope].
    pose proof (mk_val _ _ _ _ _ _ Hm1) as Hv1.
    split; [eapply is_str_put; eauto|]. split; [eapply is_str_or_null_put; eauto|].
    split; [eapply is_str_or_null_put; eauto|]. eapply is_str_put; eauto. }
  split; [exact Hden|]. split; [|split; [|split; [|split]]].
  - by rewrite (mk_val _ _ _ _ _ _ Hm2).
  - eapply making_done; [exact Hm2| |].
    + unfold val_refs. rewrite <- Hvin. simpl. multiset_solver.
    + destruct Hlo as (? & Hlo & _). simpl. rewrite Hlo. split; [done|].
      split; [|split; [|done]].
      * destruct pe; [destruct Hpe as (? & -> & _)|rewrite Hpe]; done.
      * destruct bc; [destruct Hbc as (? & -> & _)|rewrite Hbc]; done.
  - apply (mk_new _ _ _ _ _ _ Hm2).
  - apply (mk_env _ _ _ _ _ _ Hm2).
  - by eapply making_typed.
Qed.

(** What the caller gets. *)
Definition address_made (w0 : world K) rho (l : positive) (d : pydata) (r : ptr)
    (w' : world K) : Prop :=
  r = Loc l /\ denotes (w_heap w') (Loc l) d /\ w_heap w' !! l <> None /\
  wf w' ({[+ l +]} ⊎ rho) /\ only_new w0 w' /\ w_env w' = w_env w0 /\
  made_from (w_next w0) (w_heap w').

(** The prefix length, the broadcast address, and on. *)
Lemma from_rtnl_broadcast_ok w0 rho l a vin w addr loc pe bc :
  making w0 rho l a vin w -> scope a = Uninit -> family a = ra_family addr ->
  is_str (w_heap w) (local a) loc -> is_str_or_null (w_heap w) (peer a) pe ->
  ptr_refs (local a) ⊎ ptr_refs (peer a) = vin -> bcast_text addr = Some bc ->
  wp (from_rtnl_broadcast (Loc l) addr) (address_made w0 rho l
    (DAddr (ra_family addr) loc pe bc (ra_prefixlen addr)
      (cstr (rtnl_scope2str (ra_scope addr) buf_size)))) w.
Proof.
  intros Hm Hsc Hfa Hlo Hpe Hvin Hbc. unfold from_rtnl_broadcast.
  destruct (making_put w0 rho l a vin w (fun a => MkAddr (family a) (local a) (peer a)
    (ipv4_broadcast a) (ra_prefixlen addr) (scope a)) Hm) as (w1 & Hp1 & Hm1 & Hh1).
  eapply wp_step; [exact Hp1|].
  destruct (making_put _ _ _ _ _ w1 (fun a => MkAddr (family a) (local a) (peer a)
    Null (prefixlen a) (scope a)) Hm1) as (w2 & Hp2 & Hm2 & Hh2).
  eapply wp_step; [exact Hp2|].
  eapply wp_step; [eapply get_addr_eq, Hm2|]. cbn [family local peer ipv4_broadcast prefixlen scope].
  cbn [family local peer ipv4_broadcast prefixlen scope] in Hm2.
  pose proof (mk_val _ _ _ _ _ _ Hm) as Hv. pose proof (mk_val _ _ _ _ _ _ Hm1) as Hv1.
  assert (is_str (w_heap w2) (local a) loc) as Hlo2.
  { rewrite Hh2, Hh1. eapply is_str_put; [apply lookup_insert_eq|].
    by eapply is_str_put. }
  assert (is_str_or_null (w_heap w2) (peer a) pe) as Hpe2.
  { rewrite Hh2, Hh1. eapply is_str_or_null_put; [apply lookup_insert_eq|].
    by eapply is_str_or_null_put. }
  unfold bcast_text in Hbc. rewrite <- Hfa in *.
  destruct (ra_broadcast addr) as [b|]; [destruct (family a =? AF_INET)|].
  2,3: injection Hbc as <-; eapply (from_rtnl_scope_ok w0 rho l _ vin w2 addr loc pe None Hm2);
    [done|done|done|done|]; rewrite <- Hvin; simpl; multiset_solver.
  destruct (inet_ntop AF_INET (nla_binary b) buf_size) as [e|t] eqn:En; [done|].
  simpl in Hbc. injection Hbc as <-.
  eapply wp_step; [unfold ntop; by rewrite En|]. cbv beta iota.
  destruct (making_str w0 rho l _ vin w2 t Hm2) as (w3 & ls & Hs & Hm3 & Hls & Hk3);
    [by eapply ntop_utf8|].
  eapply wp_step; [exact Hs|].
  destruct (making_put _ _ _ _ _ w3 (fun a => MkAddr (family a) (local a) (peer a)
    (Loc ls) (prefixlen a) (scope a)) Hm3) as (w4 & Hp4 & Hm4 & Hh4).
  eapply wp_step; [exact Hp4|]. cbn [is_null]. cbv iota.
  pose proof (mk_val _ _ _ _ _ _ Hm3) as Hv3.
  eapply (from_rtnl_scope_ok w0 rho l _ _ w4 addr loc pe (Some (cstr t)) Hm4);
    cbn [family local peer ipv4_broadcast prefixlen scope].
  - done.
  - rewrite Hh4. eapply is_str_put; [exact Hv3|]. by apply Hk3.
  - rewrite Hh4. eapply is_str_or_null_put; [exact Hv3|].
    destruct pe; [by apply Hk3|done].
  - rewrite Hh4. eapply is_str_put; [exact Hv3|exact Hls].
  - rewrite <- Hvin. simpl. multiset_solver.
Qed.

(** The peer address, and on. *)
Lemma from_rtnl_peer_ok w0 rho l a vin w addr loc bc :
  making w0 rho l a vin w -> scope a = Uninit -> family a = ra_family addr ->
  is_str (w_heap w) (local a) loc -> ptr_refs (local a) = vin ->
  bcast_text addr = Some bc ->
  wp (from_rtnl_peer (Loc l) addr) (address_made w0 rho l
    (DAddr (ra_family addr) loc
      (p ← ra_peer addr; Some (cstr (nl_addr2str (Some p) buf_size))) bc
      (ra_prefixlen addr) (cstr (rtnl_scope2str (ra_scope addr) buf_size)))) w.
Proof.
  intros Hm Hsc Hfa Hlo Hvin Hbc. unfold from_rtnl_peer.
  destruct (ra_peer addr) as [p|].
  - destruct (making_str w0 rho l a vin w (nl_addr2str (Some p) buf_size) Hm)
      as (w1 & ls & Hs & Hm1 & Hls & Hk1); [apply addr2str_utf8|].
    eapply wp_step; [exact Hs|].
    destruct (making_put _ _ _ _ _ w1 (fun a => MkAddr (family a) (local a) (Loc ls)
      (ipv4_broadcast a) (prefixlen a) (scope a)) Hm1) as (w2 & Hp & Hm2 & Hh2).
    eapply wp_step; [exact Hp|]. eapply wp_step; [eapply get_addr_eq, Hm2|].
    cbn [local]. pose proof (mk_val _ _ _ _ _ _ Hm1) as Hv1.
    assert (is_null (local a) = false) as -> by (by destruct Hlo as (? & -> & _)).
    eapply (from_rtnl_broadcast_ok w0 rho l _ _ w2 addr loc
      (Some (cstr (nl_addr2str (Some p) buf_size))) bc Hm2); [done|done| | | |done];
      cbn [local peer].
    + rewrite Hh2. eapply is_str_put; [exact Hv1|]. by apply Hk1.
    + rewrite Hh2. eapply is_str_put; [exact Hv1|exact Hls].
    + rewrite <- Hvin. simpl. multiset_solver.
  - destruct (making_put _ _ _ _ _ w (fun a => MkAddr (family a) (local a) Null
      (ipv4_broadcast a) (prefixlen a) (scope a)) Hm) as (w2 & Hp & Hm2 & Hh2).
    eapply wp_step; [exact Hp|].
    eapply (from_rtnl_broadcast_ok w0 rho l _ _ w2 addr loc None bc Hm2);
      [done|done| |done| |done]; cbn [local peer].
    + rewrite Hh2. eapply is_str_put; [|exact Hlo]. apply Hm.
    + rewrite <- Hvin. simpl. multiset_solver.
Qed.

Lemma from_rtnl_ok w rho addr d :
  wf w rho -> (py_malloc (w_env w)).1 <> None -> addr_data addr = Some d ->
  wp (PyNetlinkIPaddress_from_rtnl_addr addr) (fun r w' =>
    address_made (set_env (py_malloc (w_env w)).2 w) rho (w_next w) d r w') w.
Proof.
  intros Hw Hm Hd. unfold PyNetlinkIPaddress_from_rtnl_addr, PyObject_New.
  apply wp_bind, wp_bind. unfold ask, wp at 1.
  destruct (py_malloc (w_env w)) as [[g|] k1]; [|done]. cbn [fst snd].
  unfold wp at 1. rewrite alloc_eq. cbn [is_null]. cbv iota.
  pose proof (making_start w rho g k1 Hw) as Hm0.
  rename Hm0 into Hm1. simpl in Hm1 |- *.
  destruct (making_put _ _ _ _ _ _ (fun a => MkAddr (ra_family addr) (local a) (peer a)
    (ipv4_broadcast a) (prefixlen a) (scope a)) Hm1) as (w2 & Hp & Hm2 & Hh2).
  eapply wp_step; [exact Hp|]. unfold addr_data in Hd.
  destruct (supported_family (ra_family addr)); [|done]. cbn [negb]. cbv iota.
  destruct (ra_local addr) as [la|]; [|done]. simpl in Hd.
  destruct (inet_ntop (ra_family addr) (nla_binary la) buf_size) as [e|t] eqn:En; [done|].
  simpl in Hd. destruct (bcast_text addr) as [bc|] eqn:Ebc; [|done].
  simpl in Hd. simplify_eq.
  eapply wp_step; [done|]. eapply wp_step; [unfold ntop; by rewrite En|]. cbv beta iota.
  destruct (making_str _ _ _ _ _ w2 t Hm2) as (w3 & ls & Hs & Hm3 & Hls & Hk3);
    [by eapply ntop_utf8|].
  eapply wp_step; [exact Hs|].
  destruct (making_put _ _ _ _ _ w3 (fun a => MkAddr (family a) (Loc ls) (peer a)
    (ipv4_broadcast a) (prefixlen a) (scope a)) Hm3) as (w4 & Hp4 & Hm4 & Hh4).
  eapply wp_step; [exact Hp4|]. cbn [is_null]. cbv iota.
  eapply (from_rtnl_peer_ok _ rho _ _ _ w4 addr (cstr t) bc Hm4); [done|done| | |done];
    cbn [local].
  - rewrite Hh4. eapply is_str_put; [apply Hm3|exact Hls].
  - simpl. multiset_solver.
Qed.

(** C20: [make_python_address_from_rtnl_addr].  An IPv4 or IPv6 address whose
    parts can be formatted becomes a new object with its family, local
    address, peer address if any, broadcast address (IPv4 only, [NULL] when
    there is none), prefix length and scope name; nothing older changes and
    every reference, those of the fields included, is accounted for. *)
Theorem make_python_address_spec addr d w rho :
  wf w rho -> (py_malloc (w_env w)).1 <> None -> addr_data addr = Some d ->
  wp (make_python_address_from_rtnl_addr addr) (fun r w' => exists l, r = Loc l /\
    denotes (w_heap w') r d /\ wf w' ({[+ l +]} ⊎ rho) /\
    only_new (set_env (py_malloc (w_env w)).2 w) w') w.
Proof.
  intros Hw Hm Hd. unfold make_python_address_from_rtnl_addr.
  assert (supported_family (ra_family addr) = true) as ->.
  { unfold addr_data in Hd. by destruct (supported_family (ra_family addr)). }
  eapply wp_mono; [by apply (from_rtnl_ok w rho addr d)|].
  intros r w' (-> & Hden & _ & Hw' & Hon & _). by exists (w_next w).
Qed.
End from_rtnl.

(** ** Errors *)

Section errors.
Context {K : Type} `{Platform K}.
Implicit Types w : world K.

Lemma Py_DECREF_fuel_Uninit n w : Py_DECREF_fuel n Uninit w = Fault UninitUse.
Proof. by destruct n. Qed.

Lemma decref_unset l a w :
  w_heap w !! l = Some (Obj 1 (VAddr a)) -> local a = Uninit ->
  Py_DECREF (Loc l) w = Fault UninitUse.
Proof.
  intros Hl Ha. unfold Py_DECREF.
  assert (exists n, size (w_heap w) = S n) as [n ->].
  { destruct (size (w_heap w)) eqn:E; [|by exists n].
    apply map_size_empty_iff in E. by rewrite E in Hl. }
  cbn [Py_DECREF_fuel]. unfold tp_dealloc, netlink_ip_address_dealloc.
  destruct w as [h nx er x nlc nl nn fd fs se k]. cbn [w_heap] in *. mrun.
  rewrite Hl. mrun. change (1 =? 1) with true. mrun.
  do 2 (rewrite lookup_insert_eq; mrun). rewrite Ha.
  by rewrite Py_DECREF_fuel_Uninit.
Qed.

(** C40: the error path of the conversion releases an object whose fields were
    never set: when the family is not supported or the local address cannot be
    formatted, the deallocator is run on whatever the memory held. *)
Theorem address_error_path addr w g k1 :
  py_malloc (w_env w) = (Some g, k1) ->
  supported_family (ra_family addr) = false \/
    (exists la e, ra_local addr = Some la /\
       inet_ntop (ra_family addr) (nla_binary la) buf_size = inl e) ->
  PyNetlinkIPaddress_from_rtnl_addr addr w = Fault UninitUse.
Proof.
  intros Hm Hbad. unfold PyNetlinkIPaddress_from_rtnl_addr, PyObject_New.
  rewrite bind_assoc. unfold ask, mbind at 1, M_bind at 1. rewrite Hm.
  rewrite (bind_Ret _ _ _ _ _ (alloc_eq _ _)). cbn [is_null]. cbv iota.
  unfold set_family, upd_addr. rewrite bind_assoc.
  erewrite bind_Ret by (eapply get_addr_eq; apply lookup_insert_eq).
  erewrite bind_Ret by (eapply put_val_eq; apply lookup_insert_eq).
  destruct Hbad as [-> | (la & e & Hla & He)]; cbn [negb]; cbv iota.
  - erewrite bind_Ret by reflexivity. apply bind_Fault.
    eapply decref_unset; [apply lookup_insert_eq|done].
  - destruct (negb _).
    { erewrite bind_Ret by reflexivity. apply bind_Fault.
      eapply decref_unset; [apply lookup_insert_eq|done]. }
    rewrite Hla. cbn [binary_addr]. rewrite bind_ret_l. unfold ntop. rewrite He.
    erewrite bind_Ret by reflexivity. cbv beta iota.
    erewrite bind_Ret by reflexivity. apply bind_Fault.
    eapply decref_unset; [apply lookup_insert_eq|done].
Qed.
End errors.

(** ** The representation *)

Section repr.
Context {K : Type} `{PL : PlatformLaws K}.
Implicit Types w : world K.

(** The text of an address object; each piece is appended separately. *)
Definition repr_pieces (fam : Z) (loc : string) (pe bc : option string) (plen : Z)
    (sc : string) : list string :=
  [cstr (nl_af2str fam 256) +:+ ", address='" +:+ loc] ++
  (if fam =? AF_INET then ["', netmask=" +:+ fmt_d plen]
   else if fam =? AF_INET6 then ["/" +:+ fmt_d plen +:+ "'"] else []) ++
  match pe with Some p => [", peer_address='" +:+ p +:+ "'"] | None => [] end ++
  (if fam =? AF_INET
   then match bc with Some b => [", broadcast='" +:+ b +:+ "'"] | None => [] end
   else []) ++
  [", scope=" +:+ sc +:+ ")"].

Definition repr_head : string := "ethtool.NetlinkIPaddress(family=".

Fixpoint join (s : string) (pieces : list string) : string :=
  match pieces with [] => s | p :: pieces => join (s +:+ p) pieces end.

Lemma join_app s ps qs : join s (ps ++ qs) = join (join s ps) qs.
Proof. revert s; induction ps as [|p ps IH]; intros s; [done|]. apply IH. Qed.

(** The text so far, at [lr]; [n] strings were dropped without being released
    on the way. *)
Record text_at w0 rho (lr : positive) (text : string) (n : nat) w : Prop := {
  tx_str : w_heap w !! lr = Some (Obj 1 (VStr text));
  tx_wf : exists leaked, wf w ({[+ lr +]} ⊎ (leaked ⊎ rho)) /\ size leaked = n;
  tx_new : only_new w0 w;
}.

Lemma append_str_ok w0 rho lr text n w s :
  text_at w0 rho lr text n w ->
  exists lr' w', append_str (Loc lr) s w = Ret (Loc lr') w' /\
    text_at w0 rho lr' (text +:+ s) (2 + n) w'.
Proof.
  intros [Ht (lk & Hw & Hn) Hon].
  pose proof (wf_fresh _ _ _ (wf_hp _ _ Hw) _ _ Ht) as Hlt.
  unfold append_str, PyStr_FromFormat, PyStr_Concat.
  rewrite (bind_Ret _ _ _ _ _ (alloc_eq _ _)).
  erewrite bind_Ret.
  2:{ apply peek_eq. simpl. rewrite lookup_insert_ne by lia. exact Ht. }
  erewrite bind_Ret by (apply peek_eq; simpl; apply lookup_insert_eq).
  cbn [ob_val]. rewrite alloc_eq. do 2 eexists. split; [done|]. simpl.
  assert (wf w (val_refs (VStr s) ⊎ ({[+ lr +]} ⊎ (lk ⊎ rho)))) as Hw1.
  { eapply wf_eq; [exact Hw|]. unfold val_refs. simpl. multiset_solver. }
  apply alloc_wf in Hw1; [|by constructor].
  eapply (wf_eq _ _ (val_refs (VStr (text +:+ s)) ⊎
    ({[+ w_next w +]} ⊎ ({[+ lr +]} ⊎ (lk ⊎ rho))))) in Hw1;
    [|unfold val_refs; simpl; multiset_solver].
  apply alloc_wf in Hw1; [|by constructor]. simpl in Hw1.
  split; simpl.
  - apply lookup_insert_eq.
  - exists ({[+ w_next w; lr +]} ⊎ lk). split.
    + eapply wf_eq; [exact Hw1|]. multiset_solver.
    + rewrite !gmultiset_size_disj_union, !gmultiset_size_singleton. lia.
  - etrans; [exact Hon|]. etrans; [apply (only_new_alloc (VStr s) w)|].
    exact (only_new_alloc (VStr (text +:+ s))
      (set_next (Pos.succ (w_next w)) (set_heap (<[w_next w := Obj 1 (VStr s)]> (w_heap w)) w))).
Qed.

Lemma as_string_ok w l rc s :
  w_heap w !! l = Some (Obj rc (VStr s)) -> has_nul s = false ->
  PyStr_AsString_nonnull (Loc l) w = Ret s w.
Proof.
  intros Hl Hn. unfold PyStr_AsString_nonnull, PyStr_AsString.
  rewrite bind_assoc, (bind_Ret _ _ _ _ _ (peek_eq _ _ _ Hl)). cbn [ob_val].
  rewrite bind_ret_l. by rewrite cstr_no_nul.
Qed.

(** A computation that appends pieces to the text it is given. *)
Definition emits w0 rho (m : ptr -> M K ptr) (ps : list string) : Prop :=
  forall lr text n w, text_at w0 rho lr text n w ->
  wp (m (Loc lr)) (fun r w' => exists lr', r = Loc lr' /\
    text_at w0 rho lr' (join text ps) (2 * length ps + n) w') w.

Lemma emits_nothing w0 rho : emits w0 rho mret [].
Proof. intros lr text n w Ht. by exists lr. Qed.

Lemma emits_piece w0 rho s : emits w0 rho (fun r => append_str r s) [s].
Proof.
  intros lr text n w Ht. destruct (append_str_ok _ _ _ _ _ _ s Ht) as (lr' & w' & E & Ht').
  unfold wp. rewrite E. by exists lr'.
Qed.

Lemma emits_apply {B} w0 rho (m : ptr -> M K ptr) ps (f : ptr -> M K B) Q lr text n w :
  emits w0 rho m ps -> text_at w0 rho lr text n w ->
  (forall lr' w', text_at w0 rho lr' (join text ps) (2 * length ps + n) w' ->
     wp (f (Loc lr')) Q w') ->
  wp (m (Loc lr) ≫= f) Q w.
Proof.
  intros Hm Ht Hf. apply wp_bind. eapply wp_mono; [by apply Hm|].
  intros r w1 (lr1 & -> & Ht1). by apply Hf.
Qed.

(** Reading something of the object first. *)
Lemma emits_read {A} w0 rho (g : M K A) x f ps :
  (forall w, only_new w0 w -> g w = Ret x w) -> emits w0 rho (f x) ps ->
  emits w0 rho (fun r => g ≫= fun a => f a r) ps.
Proof.
  intros Hg Hf lr text n w Ht. eapply wp_step; [apply Hg, Ht|]. by apply Hf.
Qed.

(** What was there before is there still, strings among them. *)
Lemma older_same w rho w' i o :
  wf w rho -> only_new w w' -> w_heap w !! i = Some o -> w_heap w' !! i = Some o.
Proof.
  intros Hw Hon Hi. rewrite (on_heap _ _ Hon); [done|].
  by apply (wf_fresh _ _ _ (wf_hp _ _ Hw) i o).
Qed.

Lemma older_str w rho p s w' :
  wf w rho -> is_str (w_heap w) p s -> has_nul s = false -> only_new w w' ->
  PyStr_AsString_nonnull p w' = Ret s w'.
Proof.
  intros Hw (i & -> & Hi) Hn Hon. eapply as_string_ok; [|exact Hn].
  by eapply older_same.
Qed.

(** A piece for a field that may be missing. *)
Lemma emits_optional w rho p os fmt :
  wf w rho -> is_str_or_null (w_heap w) p os ->
  (forall s, os = Some s -> has_nul s = false) ->
  emits w rho (fun r => if is_null p then mret r
      else s ← PyStr_AsString_nonnull p; append_str r (fmt s))
    (match os with Some s => [fmt s] | None => [] end).
Proof.
  intros Hw Hp Hn. destruct os as [s|]; simpl in Hp; [|subst p; apply emits_nothing].
  pose proof Hp as (l & -> & _). cbn [is_null].
  eapply (emits_read w rho _ s (fun s r => append_str r _)); [|apply emits_piece].
  intros w' Hon. by eapply older_str; auto.
Qed.

(** The first text. *)
Lemma text_start w rho s :
  wf w rho -> text_at w rho (w_next w) s 0 (set_next (Pos.succ (w_next w))
    (set_heap (<[w_next w := Obj 1 (VStr s)]> (w_heap w)) w)).
Proof.
  intros Hw. split; [apply lookup_insert_eq| |apply only_new_alloc]. exists ∅.
  split; [|done].
  eapply wf_eq; [apply (alloc_wf (VStr s) w rho); [|by constructor]|].
  - eapply wf_eq; [exact Hw|]. unfold val_refs. simpl. multiset_solver.
  - multiset_solver.
Qed.

(** C35: the representation of an address object is its pieces in order: the
    family and address, the prefix length in the form of its family, the peer
    address when there is one, an IPv4 broadcast address, the scope.  It is a
    new string; of the strings made on the way, two for each piece are never
    released. *)
Theorem netlink_ip_address_repr_spec l fam loc pe bc plen sc w rho :
  wf w rho -> denotes (w_heap w) (Loc l) (DAddr fam loc pe bc plen sc) ->
  has_nul loc = false -> has_nul sc = false ->
  (forall s, pe = Some s \/ bc = Some s -> has_nul s = false) ->
  wp (netlink_ip_address_repr (Loc l)) (fun r w' => exists lr leaked, r = Loc lr /\
    w_heap w' !! lr = Some (Obj 1 (VStr
      (join repr_head (repr_pieces fam loc pe bc plen sc)))) /\
    wf w' ({[+ lr +]} ⊎ (leaked ⊎ rho)) /\
    size leaked = (2 * length (repr_pieces fam loc pe bc plen sc))%nat /\
    only_new w w') w.
Proof.
  intros Hw (l' & a & [= <-] & Hl & Hfa & Hpl & Hlo & Hpe & Hbc & Hsc) Nlo Nsc Nopt.
  unfold netlink_ip_address_repr. pose proof (text_start w rho repr_head Hw) as Ht0.
  eapply wp_step.
  { unfold PyStr_FromString. rewrite cstr_no_nul, utf8_ascii by done. apply alloc_eq. }
  eapply wp_step; [eapply get_addr_eq; eapply older_same; [exact Hw|apply Ht0|exact Hl]|].
  cbv beta. rewrite Hfa, Hpl.
  eapply wp_step; [eapply older_str; [exact Hw|exact Hlo|exact Nlo|apply Ht0]|].
  eapply (emits_apply w rho (fun r => append_str r _)); [apply emits_piece|exact Ht0|].
  intros l1 w1 Ht1.
  eapply (emits_apply w rho (fun r => if fam =? AF_INET then append_str r _
    else if fam =? AF_INET6 then append_str r _ else mret r)
    (if fam =? AF_INET then _ else if fam =? AF_INET6 then _ else _)); [|exact Ht1|].
  { destruct (fam =? AF_INET); [apply emits_piece|].
    destruct (fam =? AF_INET6); [apply emits_piece|apply emits_nothing]. }
  intros l2 w2 Ht2.
  assert (use_ptr (peer a) w2 = Ret (peer a) w2) as Hu.
  { destruct pe; [destruct Hpe as (? & -> & _)|rewrite Hpe]; done. }
  eapply wp_step; [exact Hu|].
  eapply (emits_apply w rho (fun r => if is_null (peer a) then mret r
    else s ← PyStr_AsString_nonnull (peer a); append_str r _)
    (match pe with Some p => [", peer_address='" +:+ p +:+ "'"] | None => [] end));
    [|exact Ht2|].
  { apply (emits_optional w rho (peer a) pe (fun p => ", peer_address='" +:+ p +:+ "'"));
      auto. }
  intros l3 w3 Ht3.
  eapply (emits_apply w rho (fun r => if (fam =? AF_INET) && negb (is_null (ipv4_broadcast a))
    then s ← PyStr_AsString_nonnull (ipv4_broadcast a); append_str r _ else mret r)
    (if fam =? AF_INET
     then match bc with Some b => [", broadcast='" +:+ b +:+ "'"] | None => [] end
     else [])); [|exact Ht3|].
  { destruct (fam =? AF_INET); [|apply emits_nothing].
    pose proof (emits_optional w rho _ bc (fun b => ", broadcast='" +:+ b +:+ "'") Hw Hbc)
      as Ho. cbn [andb]. destruct (is_null (ipv4_broadcast a)); apply Ho; auto. }
  intros l4 w4 Ht4.
  eapply wp_step; [eapply older_str; [exact Hw|exact Hsc|exact Nsc|apply Ht4]|].
  eapply wp_mono; [apply (emits_piece w rho _ _ _ _ _ Ht4)|].
  intros r w5 (l5 & -> & [T1 (lk & T2 & T3) T4]). exists l5, lk.
  split; [done|]. unfold repr_pieces. rewrite !join_app, !length_app.
  split; [exact T1|]. split; [exact T2|]. split; [|exact T4].
  rewrite T3. cbn [length]. lia.
Qed.
End repr.

(** ** At work *)

Definition eth0_data : pydata :=
  DAddr AF_INET "192.168.1.10" (Some "192.168.1.10") (Some "192.168.1.255") 24 "global".

Lemma make_python_address_spec_witness :
  wp (make_python_address_from_rtnl_addr eth0_addr) (fun r w' => exists l, r = Loc l /\
    denotes (w_heap w') r eth0_data /\ wf w' ({[+ l +]} ⊎ ∅) /\
    only_new (set_env (py_malloc (w_env (boot quiet))).2 (boot quiet)) w') (boot quiet).
Proof.
  apply (make_python_address_spec eth0_addr eth0_data (boot quiet) ∅).
  - apply wf_boot.
  - discriminate.
  - vm_compute. reflexivity.
Defined.

Lemma address_error_path_witness :
  PyNetlinkIPaddress_from_rtnl_addr (RtnlAddr 2 7 None None None 0 0) (boot quiet)
    = Fault UninitUse.
Proof.
  apply (address_error_path (RtnlAddr 2 7 None None None 0 0) (boot quiet) 0 quiet).
  - reflexivity.
  - left. reflexivity.
Defined.

(** A world with the object of the first card's address. *)
Definition addr_world : world machine :=
  world_after (PyNetlinkIPaddress_from_rtnl_addr eth0_addr) (boot quiet).

Lemma addr_world_ok :
  wf addr_world {[+ 1%positive +]} /\ denotes (w_heap addr_world) (Loc 1) eth0_data.
Proof.
  assert (addr_data eth0_addr = Some eth0_data) as Hd by (vm_compute; reflexivity).
  assert ((py_malloc (w_env (boot quiet))).1 <> None) as Hm by discriminate.
  pose proof (from_rtnl_ok (boot quiet) ∅ eth0_addr eth0_data (wf_boot _) Hm Hd) as Hok.
  clear Hd.
  apply world_after_wp in Hok as (r & _ & Hd & _ & Hw & _ & _). split; [|exact Hd].
  eapply wf_eq; [exact Hw|]. simpl. multiset_solver.
Qed.

Lemma netlink_ip_address_repr_spec_witness :
  wp (netlink_ip_address_repr (Loc 1)) (fun r w' => exists lr leaked, r = Loc lr /\
    w_heap w' !! lr = Some (Obj 1 (VStr (join repr_head
      (repr_pieces AF_INET "192.168.1.10" (Some "192.168.1.10") (Some "192.168.1.255")
         24 "global")))) /\
    wf w' ({[+ lr +]} ⊎ (leaked ⊎ {[+ 1%positive +]})) /\
    size leaked = (2 * length (repr_pieces AF_INET "192.168.1.10" (Some "192.168.1.10")
      (Some "192.168.1.255") 24 "global"))%nat /\
    only_new addr_world w') addr_world.
Proof.
  apply (netlink_ip_address_repr_spec 1 AF_INET "192.168.1.10" (Some "192.168.1.10")
    (Some "192.168.1.255") 24 "global" addr_world {[+ 1%positive +]}).
  - apply addr_world_ok.
  - apply addr_world_ok.
  - reflexivity.
  - reflexivity.
  - intros s [[= <-]|[= <-]]; reflexivity.
Defined.

Example eth0_repr : join repr_head (repr_pieces AF_INET "192.168.1.10"
    (Some "192.168.1.10") (Some "192.168.1.255") 24 "global")
  = "ethtool.NetlinkIPaddress(family=inet, address='192.168.1.10', netmask=24, peer_address='192.168.1.10', broadcast='192.168.1.255', scope=global)".
Proof. vm_compute. reflexivity. Qed.
