(* ===== verification/EtherInfo.v ===== *)
(** * etherinfo.c: querying NETLINK for a device

    Finding the interface index of an [etherinfo] object, its hardware address
    and its IP addresses, through libnl's caches and callbacks. *)
From S2P Require Import Prelude.
From S2P Require Import Platform.
From S2P Require Import CPython.
From S2P Require Import Netlink.
From S2P Require Import Objects.
From S2P Require Import NetlinkAddress.

Inductive nlQuery := NLQRY_ADDR4 | NLQRY_ADDR6.

Definition query_family (q : nlQuery) : Z :=
  match q with NLQRY_ADDR4 => AF_INET | NLQRY_ADDR6 => AF_INET6 end.

Section etherinfo.
Context {K : Type} `{Platform K}.
Local Abbreviation M := (M K).

(** Assignments to the fields. *)
Definition set_index (self : ptr) (i : Z) : M unit :=
  e ← get_ether self;
  put_val self (VEther (MkEther (device e) i (hwaddress e) (nlc_active e))).
Definition set_hwaddress (self p : ptr) : M unit :=
  e ← get_ether self;
  put_val self (VEther (MkEther (device e) (index e) p (nlc_active e))).

(** ** libnl caches *)

Definition sock_connected (sock : positive) : M bool :=
  o ← nl_get sock;
  match o with NlSock b => mret b | _ => raise BadHandle end.

Definition rtnl_link_alloc_cache (sock : positive) : M (Z + positive) :=
  b ← sock_connected sock;
  r ← ask (link_cache_reply b);
  match r with
  | inl e => mret (inl e)
  | inr ls => h ← nl_new (NlLinkCache ls); mret (inr h)
  end.

Definition rtnl_addr_alloc_cache (sock : positive) : M (Z + positive) :=
  b ← sock_connected sock;
  r ← ask (addr_cache_reply b);
  match r with
  | inl e => mret (inl e)
  | inr l => h ← nl_new (NlAddrCache l); mret (inr h)
  end.

Definition link_cache (h : positive) : M (list rtnl_link) :=
  o ← nl_get h;
  match o with NlLinkCache ls => mret ls | _ => raise BadHandle end.

Definition addr_cache (h : positive) : M (list rtnl_addr) :=
  o ← nl_get h;
  match o with NlAddrCache l => mret l | _ => raise BadHandle end.

(** The link comes with a reference of its own. *)
Definition rtnl_link_get_by_name (cache : positive) (name : string)
    : M (option (positive * rtnl_link)) :=
  ls ← link_cache cache;
  match link_by_name ls name with
  | None => mret None
  | Some l => h ← nl_new (NlLink l); mret (Some (h, l))
  end.

Definition rtnl_link_put (h : positive) : M unit := nl_free h.
Definition rtnl_addr_put (h : positive) : M unit := nl_free h.
Definition nl_cache_free (h : positive) : M unit := nl_free h.

(** A new link or address without attributes, used as a filter. *)
Definition rtnl_link_alloc : M (option positive) :=
  ok ← ask rtnl_link_alloc_ok;
  if (ok : bool) then h ← nl_new (NlLinkFilter None); mret (Some h) else mret None.
Definition rtnl_addr_alloc : M (option positive) :=
  ok ← ask rtnl_addr_alloc_ok;
  if (ok : bool) then h ← nl_new (NlAddrFilter None None); mret (Some h)
  else mret None.

Fixpoint foreach {A} (cb : A -> M unit) (l : list A) : M unit :=
  match l with
  | [] => mret tt
  | x :: l => cb x;; foreach cb l
  end.

(** [nl_cache_foreach_filter]: the callback on each match, in cache order. *)
Definition foreach_link (cache flt : positive) (cb : rtnl_link -> M unit) : M unit :=
  ls ← link_cache cache;
  f ← nl_get flt;
  match f with
  | NlLinkFilter i => foreach cb (List.filter (link_matches i) ls)
  | _ => raise BadHandle
  end.
Definition foreach_addr (cache flt : positive) (cb : rtnl_addr -> M unit) : M unit :=
  l ← addr_cache cache;
  f ← nl_get flt;
  match f with
  | NlAddrFilter i fam => foreach cb (List.filter (addr_matches i fam) l)
  | _ => raise BadHandle
  end.

(** ** Callbacks *)

Definition callback_nl_link (ethi : ptr) (link : rtnl_link) : M unit :=
  if is_null ethi then mret tt
  else
    e ← get_ether ethi;
    hw ← use_ptr (hwaddress e);
    if negb (is_null hw) then mret tt
    else
      hw ← use_ptr (hwaddress e);
      (if negb (is_null hw) then Py_XDECREF hw else mret tt);;
      s ← PyStr_FromFormat (cstr (nl_addr2str (rl_addr link) 130));
      set_hwaddress ethi s.

Definition callback_nl_address (py_addrlist : ptr) (rtaddr : rtnl_addr) : M unit :=
  if is_null py_addrlist then mret tt
  else if negb (supported_family (ra_family rtaddr)) then mret tt
  else
    addr_obj ← make_python_address_from_rtnl_addr rtaddr;
    if is_null addr_obj then mret tt
    else PyList_Append py_addrlist addr_obj;; Py_DECREF addr_obj.

(** ** The interface index *)

(** A character pointer that a libnl function will read. *)
Definition char_ptr (s : option string) : M string :=
  match s with Some s => mret (cstr s) | None => raise NullDeref end.

Definition _set_device_index (self : ptr) : M Z :=
  e ← get_ether self;
  if index e <? 0 then
    sock ← get_nlc;
    r ← rtnl_link_alloc_cache sock;
    match r with
    | inl err =>
        assign_errno err;;
        PyErr_SetString PyExc_OSError (nl_geterror err);;
        mret 0
    | inr cache =>
        assign_errno 0;;
        s ← PyStr_AsString (device e);
        name ← char_ptr s;
        link ← rtnl_link_get_by_name cache name;
        match link with
        | None =>
            assign_errno ENODEV;;
            PyErr_SetFromErrno PyExc_IOError;;
            nl_cache_free cache;;
            mret 0
        | Some (h, link) =>
            set_index self (rl_ifindex link);;
            if rl_ifindex link <=? 0 then
              assign_errno ENODEV;;
              PyErr_SetFromErrno PyExc_IOError;;
              rtnl_link_put h;;
              nl_cache_free cache;;
              mret 0
            else
              rtnl_link_put h;;
              nl_cache_free cache;;
              mret 1
        end
    end
  else mret 1.

(** ** Link and addresses *)

Definition could_not_open (name : string) : string :=
  "Could not open a NETLINK connection for " +:+ name.

Definition open_failed (self : ptr) : M unit :=
  e ← get_ether self;
  name ← PyStr_AsString_nonnull (device e);
  PyErr_SetString PyExc_RuntimeError (could_not_open name).

Definition get_etherinfo_link (self : ptr) : M Z :=
  if is_null self then mret 0
  else
    o ← open_netlink self;
    if o =? 0 then open_failed self;; mret 0
    else
      i ← _set_device_index self;
      if negb (i =? 1) then mret 0
      else
        sock ← get_nlc;
        r ← rtnl_link_alloc_cache sock;
        match r with
        | inl err =>
            PyErr_SetString PyExc_OSError (nl_geterror err);; mret 0
        | inr cache =>
            link ← rtnl_link_alloc;
            match link with
            | None =>
                assign_errno ENOMEM;;
                PyErr_SetFromErrno PyExc_OSError;;
                mret 0
            | Some link =>
                e ← get_ether self;
                nl_put link (NlLinkFilter (Some (index e)));;
                foreach_link cache link (callback_nl_link self);;
                rtnl_link_put link;;
                nl_cache_free cache;;
                mret 1
            end
        end.

(** When the cache cannot be allocated, [addr_cache] has no value yet, and the
    source passes it to [nl_cache_free]. *)
Definition get_etherinfo_address (self : ptr) (query : nlQuery) : M ptr :=
  if is_null self then mret Null
  else
    o ← open_netlink self;
    if o =? 0 then open_failed self;; mret Null
    else
      i ← _set_device_index self;
      if i =? 0 then mret Null
      else
        sock ← get_nlc;
        r ← rtnl_addr_alloc_cache sock;
        match r with
        | inl err =>
            PyErr_SetString PyExc_OSError (nl_geterror err);;
            raise UninitUse
        | inr cache =>
            addr ← rtnl_addr_alloc;
            match addr with
            | None =>
                assign_errno ENOMEM;;
                PyErr_SetFromErrno PyExc_OSError
            | Some addr =>
                e ← get_ether self;
                nl_put addr (NlAddrFilter (Some (index e)) None);;
                nl_put addr (NlAddrFilter (Some (index e))
                               (Some (query_family query)));;
                addrlist ← PyList_New0;
                foreach_addr cache addr (callback_nl_address addrlist);;
                rtnl_addr_put addr;;
                nl_cache_free cache;;
                mret addrlist
            end
        end.
End etherinfo.
