(* ===== verification/EtherInfoFacts.v ===== *)
(** * Properties of the queries over NETLINK *)
From S2P Require Import Prelude.
From S2P Require Import Platform.
From S2P Require Import CPython.
From S2P Require Import Netlink.
From S2P Require Import Objects.
From S2P Require Import Testbed.
From S2P Require Import RefCount.
From S2P Require Import Typing.
From S2P Require Import Containers.
From S2P Require Import NetlinkAddress.
From S2P Require Import AddressFacts.
From S2P Require Import EtherInfo.

(** ** An object in session

    The [etherinfo] object [e], with [rc] references, is at [l]; the shared
    connection [c] exists, [b] telling whether it is connected. *)
Record session {K} (w : world K) (l : positive) (rc : Z) (e : PyEtherInfo)
    (c : positive) (b : bool) : Prop := {
  se_obj : w_heap w !! l = Some (Obj rc (VEther e));
  se_conn : nlconnection (w_nlc w) = Some c;
  se_sock : w_nl w !! c = Some (NlSock b);
  se_nl : wf_nl w;
}.

(** The world with the object replaced. *)
Definition put_ether {K} (l : positive) (rc : Z) (e : PyEtherInfo) (w : world K)
    : world K :=
  set_heap (<[l := Obj rc (VEther e)]> (w_heap w)) w.

(** ** libnl objects made and freed *)

Section nl.
Context {K : Type} `{Platform K}.
Implicit Types w : world K.

(** [n] libnl objects came and went. *)
Definition nl_past (n : positive) w : world K := set_nlnext n w.

Lemma nl_fresh w : wf_nl w -> w_nl w !! w_nlnext w = None.
Proof.
  intros Hw. destruct (w_nl w !! w_nlnext w) as [o|] eqn:E; [|done].
  apply (wf_nlfresh _ Hw) in E. lia.
Qed.

Lemma nl_fresh_succ w : wf_nl w -> w_nl w !! Pos.succ (w_nlnext w) = None.
Proof.
  intros Hw. destruct (w_nl w !! Pos.succ (w_nlnext w)) as [o|] eqn:E; [|done].
  apply (wf_nlfresh _ Hw) in E. lia.
Qed.

Definition with_index (i : Z) (e : PyEtherInfo) : PyEtherInfo :=
  MkEther (device e) i (hwaddress e) (nlc_active e).

(** ** The interface index *)

(** [_set_device_index] in session, as what becomes of the world. *)
Lemma set_device_index_eq w l rc e c b ld rcd name :
  session w l rc e c b -> index e < 0 ->
  device e = Loc ld -> w_heap w !! ld = Some (Obj rcd (VStr name)) ->
  _set_device_index (Loc l) w =
  match link_cache_reply b (w_env w) with
  | (inl err, k1) =>
      Ret 0 (set_err (Some (PyExc PyExc_OSError (ExcMsg (nl_geterror err))))
        (set_errno err (set_env k1 w)))
  | (inr ls, k1) =>
      match link_by_name ls (cstr name) with
      | None =>
          Ret 0 (set_err (Some (PyExc PyExc_IOError (ExcErrno ENODEV)))
            (set_errno ENODEV (set_nlnext (Pos.succ (w_nlnext w)) (set_env k1 w))))
      | Some lk =>
          let w1 := set_nlnext (Pos.succ (Pos.succ (w_nlnext w)))
            (put_ether l rc (with_index (rl_ifindex lk) e) (set_env k1 w)) in
          if rl_ifindex lk <=? 0 then
            Ret 0 (set_err (Some (PyExc PyExc_IOError (ExcErrno ENODEV)))
              (set_errno ENODEV w1))
          else Ret 1 (set_errno 0 w1)
      end
  end.
Proof.
  intros [Ho Hc Hs Hn] Hi Hd Hld.
  pose proof (nl_fresh w Hn) as Hf. pose proof (nl_fresh_succ w Hn) as Hf'.
  unfold _set_device_index, get_nlc, get_nlconnection, rtnl_link_alloc_cache,
    sock_connected, rtnl_link_get_by_name, link_cache, set_index, rtnl_link_put,
    nl_cache_free, PyStr_AsString, char_ptr, put_ether, with_index.
  destruct w as [h nx er x [cc u m] nl nn fd fs se k]. simpl in *.
  mrun. rewrite Ho. mrun. rewrite (proj2 (Z.ltb_lt _ _) Hi), Hc. mrun.
  rewrite Hs. mrun. destruct (link_cache_reply b k) as [[err|ls] k1]; mrun; [done|].
  rewrite Hd. mrun. rewrite Hld. mrun. rewrite lookup_insert_eq. mrun.
  destruct (link_by_name ls (cstr name)) as [lk|]; mrun.
  - rewrite Ho. mrun. rewrite Ho. mrun.
    assert ((<[nn:=NlLinkCache ls]> nl) !! Pos.succ nn = None) as Hi2.
    { rewrite lookup_insert_ne; [exact Hf'|lia]. }
    destruct (rl_ifindex lk <=? 0); mrun;
      rewrite lookup_insert_eq; mrun; rewrite (delete_insert_id _ _ _ Hi2); mrun;
      rewrite lookup_insert_eq; mrun; by rewrite (delete_insert_id _ _ _ Hf), Hd.
  - rewrite lookup_insert_eq. mrun. by rewrite delete_insert_id.
Qed.

(** C22: the lookup of the interface index.  A known index is kept without
    asking.  Otherwise the kernel's links are searched for the device name:
    the link's index is stored, and 1 returned when it is positive; 0 with
    [OSError] when the links cannot be had, 0 with [IOError] when no link has
    the name or its index is not positive.  Every libnl object made is freed,
    and nothing but the index changes. *)
Theorem set_device_index_spec w l rc e c b ld rcd name :
  session w l rc e c b -> device e = Loc ld ->
  w_heap w !! ld = Some (Obj rcd (VStr name)) ->
  (0 <= index e -> _set_device_index (Loc l) w = Ret 1 w) /\
  (index e < 0 -> wp (_set_device_index (Loc l)) (fun r w' =>
    w_nl w' = w_nl w /\ w_nlc w' = w_nlc w /\
    match (link_cache_reply b (w_env w)).1 with
    | inl err => r = 0 /\ w_heap w' = w_heap w /\
        w_err w' = Some (PyExc PyExc_OSError (ExcMsg (nl_geterror err)))
    | inr ls =>
        match link_by_name ls (cstr name) with
        | None => r = 0 /\ w_heap w' = w_heap w /\
            w_err w' = Some (PyExc PyExc_IOError (ExcErrno ENODEV))
        | Some lk =>
            w_heap w' = <[l := Obj rc (VEther (with_index (rl_ifindex lk) e))]> (w_heap w)
            /\ (if rl_ifindex lk <=? 0 then r = 0 /\
                  w_err w' = Some (PyExc PyExc_IOError (ExcErrno ENODEV))
                else r = 1 /\ w_err w' = w_err w)
        end
    end) w).
Proof.
  intros Hs Hd Hld. split.
  - intros Hi. unfold _set_device_index.
    rewrite (bind_Ret _ _ _ _ _ (get_ether_eq _ _ _ _ (se_obj _ _ _ _ _ _ Hs))).
    by rewrite (proj2 (Z.ltb_ge _ _) Hi).
  - intros Hi. unfold wp.
    rewrite (set_device_index_eq w l rc e c b ld rcd name) by done.
    destruct (link_cache_reply b (w_env w)) as [[err|ls] k1]; [done|]. cbn [fst].
    destruct (link_by_name ls (cstr name)) as [lk|]; [|done]. cbv zeta.
    by destruct (rl_ifindex lk <=? 0).
Qed.

(** An interface index of 0 is refused once only.  A link with index 0 (or
    none) makes the first call fail with [IOError], but the 0 has been stored,
    and the next call takes it for a known index. *)
Theorem zero_index_accepted w l rc e c b ld rcd name ls k1 lk :
  session w l rc e c b -> index e < 0 -> device e = Loc ld ->
  w_heap w !! ld = Some (Obj rcd (VStr name)) ->
  link_cache_reply b (w_env w) = (inr ls, k1) ->
  link_by_name ls (cstr name) = Some lk -> rl_ifindex lk = 0 ->
  wp (r0 ← _set_device_index (Loc l); r1 ← _set_device_index (Loc l); mret (r0, r1))
     (fun p _ => p = (0, 1)) w.
Proof.
  intros Hs Hi Hd Hld Hr Hlk H0. unfold wp.
  erewrite bind_Ret.
  2:{ rewrite (set_device_index_eq w l rc e c b ld rcd name) by done.
      rewrite Hr, Hlk, H0. reflexivity. }
  erewrite bind_Ret; [reflexivity|]. unfold _set_device_index.
  erewrite bind_Ret by (eapply get_ether_eq; apply lookup_insert_eq).
  reflexivity.
Qed.

(** ** Opening again *)

(** [open_netlink] in session. *)
Definition opened (l : positive) (rc : Z) (e : PyEtherInfo) (c : positive) w
    : world K :=
  mark l rc e 1
    (if nlc_active e =? 0
     then set_nlc (MkNlc (Some c) (u32 (nlconnection_users (w_nlc w) + 1)) false) w
     else w).

Lemma open_eq w l rc e c b :
  session w l rc e c b -> open_netlink (Loc l) w = Ret 1 (opened l rc e c w).
Proof.
  intros [Ho Hc Hs Hn]. apply open_netlink_reuse; [apply Hn|done|done].
Qed.

Lemma opened_session w l rc e c b :
  session w l rc e c b -> session (opened l rc e c w) l rc (with_active 1 e) c b.
Proof.
  intros [Ho Hc Hs [N1 N2 N3]]. unfold opened, mark.
  destruct (nlc_active e =? 0); (split; simpl; [apply lookup_insert_eq|done|done|]);
    split; simpl; try done. intros c' [= <-]. by exists b.
Qed.

(** Changing the object's own data. *)
Lemma wf_put_ether w l rc e e' rho :
  wf w rho -> w_heap w !! l = Some (Obj rc (VEther e)) -> 0 < rc ->
  device e' = device e -> hwaddress e' = hwaddress e ->
  wf (put_ether l rc e' w) rho.
Proof.
  intros Hw Hl Hrc Hd Hh. apply (wf_set_heap _ _ _ _ Hw).
  eapply (wf_move_in_all _ _ _ ∅); [|exact Hl|done| |].
  - eapply wf_heap_eq; [apply Hw|]. multiset_solver.
  - unfold val_refs. simpl. rewrite Hd, Hh. multiset_solver.
  - pose proof (wf_val _ _ _ (wf_hp _ _ Hw) _ _ Hl Hrc) as [H1 H2].
    by split; rewrite ?Hd, ?Hh.
Qed.

Lemma opened_wf w l rc e c b rho :
  session w l rc e c b -> 0 < rc -> wf w rho -> wf (opened l rc e c w) rho.
Proof.
  intros Hs Hrc Hw. destruct (opened_session _ _ _ _ _ _ Hs) as [_ _ _ Hn].
  pose proof (wf_put_ether w l rc e (with_active 1 e) rho Hw (se_obj _ _ _ _ _ _ Hs)
    Hrc eq_refl eq_refl) as [Hh _].
  split; [|exact Hn]. unfold opened, mark. by destruct (nlc_active e =? 0).
Qed.
End nl.

(** ** The addresses of a device *)

Lemma only_new_env {K} (w w' : world K) k : only_new (set_env k w) w' -> only_new w w'.
Proof. intros []. by split. Qed.

Lemma only_new_keeps {K} (w w' : world K) rho :
  wf w rho -> only_new w w' -> keeps_data (w_heap w) (w_heap w').
Proof.
  intros Hw Hon l v Hl. pose proof (wf_fresh _ _ _ (wf_hp _ _ Hw) _ _ Hl) as Hlt.
  destruct v; try done; by rewrite (on_heap _ _ Hon).
Qed.

Lemma filter_decide {A} (f : A -> bool) (P : A -> Prop) `{!forall x, Decision (P x)} l :
  (forall x, f x = true <-> P x) -> List.filter f l = filter P l.
Proof.
  intros Hf. induction l as [|x l IH]; [done|]. rewrite filter_cons. simpl.
  rewrite IH. destruct (f x) eqn:E; case_decide as Hp; try done.
  - apply Hf in E. done.
  - apply Hf in Hp. congruence.
Qed.

Section addresses.
Context {K : Type} `{PL : PlatformLaws K}.
Implicit Types w : world K.

(** The callback on each address that can be converted. *)
Lemma address_loop_ok w0 rho ll : forall addrs ds0 ds w,
  building w0 rho ll ds0 w ->
  Forall2 (fun a d => addr_data a = Some d) addrs ds ->
  memory_for (length ds) (w_env w) ->
  wp (foreach (callback_nl_address (Loc ll)) addrs) (fun _ w' =>
    building w0 rho ll (ds0 ++ ds) w') w.
Proof.
  induction addrs as [|a addrs IH]; intros ds0 ds w Hb Hds Hm.
  { inversion Hds; subst. by rewrite app_nil_r. }
  apply Forall2_cons_inv_l in Hds as (d & ds' & Hd & Hds & ->).
  destruct Hm as [Hm Hms]. cbn [foreach].
  assert (callback_nl_address (Loc ll) a =
    (p ← PyNetlinkIPaddress_from_rtnl_addr a;
     if is_null p then mret tt else PyList_Append (Loc ll) p;; Py_DECREF p)) as ->.
  { unfold callback_nl_address, make_python_address_from_rtnl_addr.
    unfold addr_data in Hd. by destruct (supported_family (ra_family a)). }
  pose proof (from_rtnl_ok w _ a d (bld_wf _ _ _ _ _ Hb) Hm Hd) as Hok.
  apply wp_Ret in Hok as (r & w1 & E & -> & Hden & Hlv & Hw1 & Hon & He & Hmd).
  apply only_new_env in Hon.
  unfold wp. rewrite bind_assoc, (bind_Ret _ _ _ _ _ E). cbn [is_null]. cbv iota.
  destruct d as [| |fam loc pe bc plen sc|]; try by (unfold addr_data in Hd;
    destruct (supported_family _), (ra_local a); simpl in Hd; try done;
    destruct (right _); simpl in Hd; try done; destruct (bcast_text a)).
  pose proof Hden as (l' & a' & [= <-] & Hl & _).
  destruct (building_append w0 rho ll ds0 w w1 (w_next w) (VAddr a')
    (DAddr fam loc pe bc plen sc)
    (fun _ => foreach (callback_nl_address (Loc ll)) addrs)) as (w2 & Hb2 & He2 & Hk);
    [done|done|done|done| |done|done|exact Hmd|].
  { eapply only_new_keeps; [apply (bld_wf _ _ _ _ _ Hb)|done]. }
  rewrite <- bind_assoc in Hk. rewrite Hk.
  eapply wp_mono; [apply (IH (ds0 ++ [DAddr fam loc pe bc plen sc]) ds' w2); [done|done|]|].
  - by rewrite He2, He.
  - intros u w'. by rewrite <- app_assoc.
Qed.

(** libnl objects may come and go around a list. *)
Lemma building_nl w0 rho ll ds w m n :
  building w0 rho ll ds w -> wf_nl (set_nlnext n (set_nl m w)) ->
  building (set_nlnext n (set_nl m w0)) rho ll ds (set_nlnext n (set_nl m w)).
Proof.
  intros [H1 [Hh _] [] H4 H5] Hn.
  split; [exact H1|by split|by split|exact H4|exact H5].
Qed.

(** The addresses of interface [i] in family [f]. *)
Definition addresses_of (i f : Z) (addrs : list rtnl_addr) : list rtnl_addr :=
  filter (fun a => ra_ifindex a = i /\ ra_family a = f) addrs.

(** The query up to the loop over the addresses. *)
Lemma get_address_eq w l rc e c b q addrs k1 k2 :
  session w l rc e c b -> 0 <= index e ->
  addr_cache_reply b (w_env w) = (inr addrs, k1) ->
  rtnl_addr_alloc_ok k1 = (true, k2) ->
  get_etherinfo_address (Loc l) q w =
  let w1 := opened l rc e c w in
  let h := w_nlnext w in
  let w2 := set_env k2 (set_nlnext (Pos.succ (Pos.succ h))
    (set_nl (<[Pos.succ h := NlAddrFilter (Some (index e)) (Some (query_family q))]>
      (<[h := NlAddrCache addrs]> (w_nl w))) w1)) in
  let w3 := set_next (Pos.succ (w_next w))
    (set_heap (<[w_next w := Obj 1 (VList [])]> (w_heap w2)) w2) in
  (foreach (callback_nl_address (Loc (w_next w)))
     (List.filter (addr_matches (Some (index e)) (Some (query_family q))) addrs);;
   nl_free (Pos.succ h);; nl_free h;; mret (Loc (w_next w))) w3.
Proof.
  intros Hs Hi Hr Ha. unfold get_etherinfo_address. cbn [is_null]. cbv iota.
  rewrite (bind_Ret _ _ _ _ _ (open_eq _ _ _ _ _ _ Hs)).
  change (1 =? 0) with false. cbv iota.
  pose proof (opened_session _ _ _ _ _ _ Hs) as [Ho Hc Hsk Hn].
  assert (w_nl (opened l rc e c w) = w_nl w /\ w_nlnext (opened l rc e c w) = w_nlnext w
    /\ w_env (opened l rc e c w) = w_env w /\ w_next (opened l rc e c w) = w_next w)
    as (E1 & E2 & E3 & E4)
    by (unfold opened, mark; by destruct (nlc_active e =? 0)).
  rewrite <- E3 in Hr.
  rewrite <- ?E1, <- ?E2, <- ?E4.
  set (w1 := opened l rc e c w) in *.
  clearbody w1. cbv zeta.
  unfold _set_device_index. erewrite bind_Ret.
  2:{ erewrite bind_Ret by (eapply get_ether_eq; exact Ho).
      cbn [index with_active]. rewrite (proj2 (Z.ltb_ge _ _) Hi). reflexivity. }
  change (1 =? 0) with false. cbv iota.
  unfold get_nlc, get_nlconnection, rtnl_addr_alloc_cache, sock_connected,
    rtnl_addr_alloc, foreach_addr, addr_cache, PyList_New0, rtnl_addr_put, nl_cache_free.
  destruct w1 as [h nx er x nlc nl nn fd fs se k]. simpl in *.
  mrun. unfold nlconnection in Hc. rewrite Hc. mrun. rewrite Hsk. mrun.
  rewrite Hr. mrun. rewrite Ha. mrun. rewrite Ho. mrun.
  rewrite !lookup_insert_eq. mrun.
  rewrite !insert_insert_eq.
  rewrite (lookup_insert_ne _ (Pos.succ nn) nn) by lia. rewrite lookup_insert_eq. mrun.
  rewrite lookup_insert_eq. mrun. done.
Qed.

Lemma opened_fields w l rc e c :
  w_nl (opened l rc e c w) = w_nl w /\ w_nlnext (opened l rc e c w) = w_nlnext w /\
  w_env (opened l rc e c w) = w_env w /\ w_next (opened l rc e c w) = w_next w.
Proof. unfold opened, mark. by destruct (nlc_active e =? 0). Qed.

Lemma nl_free_eq w h o :
  w_nl w !! h = Some o -> nl_free h w = Ret tt (set_nl (delete h (w_nl w)) w).
Proof. intros Hh. unfold nl_free, nl_get, mbind, M_bind. by rewrite Hh. Qed.

(** The world after the query, but for the list. *)
Definition asked_addresses (l : positive) (rc : Z) (e : PyEtherInfo) (c : positive)
    (k : K) w : world K :=
  set_env k (nl_past (Pos.succ (Pos.succ (w_nlnext w))) (opened l rc e c w)).

(** The cache and the filter of a query, and the world while it lasts. *)
Definition query_objects (i f : Z) (addrs : list rtnl_addr) w : gmap positive nlobj :=
  <[Pos.succ (w_nlnext w) := NlAddrFilter (Some i) (Some f)]>
    (<[w_nlnext w := NlAddrCache addrs]> (w_nl w)).

Definition querying (l : positive) (rc : Z) (e : PyEtherInfo) (c : positive) (q : nlQuery)
    (addrs : list rtnl_addr) (k : K) w : world K :=
  set_env k (set_nlnext (Pos.succ (Pos.succ (w_nlnext w)))
    (set_nl (query_objects (index e) (query_family q) addrs w) (opened l rc e c w))).

Lemma querying_wf w l rc e c b q addrs k rho :
  session w l rc e c b -> 0 < rc -> wf w rho -> wf (querying l rc e c q addrs k w) rho.
Proof.
  intros Hs Hrc Hw. pose proof (opened_wf w l rc e c b rho Hs Hrc Hw) as [Hh [N1 N2 N3]].
  destruct (opened_fields w l rc e c) as (E1 & E2 & _ & _).
  pose proof (nl_fresh w (se_nl _ _ _ _ _ _ Hs)) as Hf.
  pose proof (nl_fresh_succ w (se_nl _ _ _ _ _ _ Hs)) as Hf'.
  split; [exact Hh|]. split; simpl; unfold query_objects; [exact N1| |].
  - intros c0 Hc0. destruct (N2 c0 Hc0) as [b0 Hb0]. exists b0. rewrite E1 in Hb0.
    rewrite !lookup_insert_ne by congruence. exact Hb0.
  - intros c0 o0.
    intros [[<- _]|[_ [[<- _]|[_ Hc0]]%lookup_insert_Some]]%lookup_insert_Some; [lia|lia|].
    rewrite <- E1 in Hc0. apply N3 in Hc0. rewrite E2 in Hc0. lia.
Qed.

(** Once the list is made both are freed. *)
Lemma query_freed w l rc e c b q addrs k rho ll ds w' :
  session w l rc e c b -> 0 < rc -> wf w rho ->
  building (querying l rc e c q addrs k w) rho ll ds w' ->
  wp (nl_free (Pos.succ (w_nlnext w));; nl_free (w_nlnext w);; mret (Loc ll)) (fun r w' =>
    r = Loc ll /\ building (asked_addresses l rc e c k w) rho ll ds w') w'.
Proof.
  intros Hs Hrc Hw Hb. pose proof (opened_wf w l rc e c b rho Hs Hrc Hw) as Hwo.
  destruct (opened_fields w l rc e c) as (E1 & E2 & _ & _).
  pose proof (nl_fresh w (se_nl _ _ _ _ _ _ Hs)) as Hf.
  pose proof (nl_fresh_succ w (se_nl _ _ _ _ _ _ Hs)) as Hf'.
  pose proof (on_nl _ _ (bld_new _ _ _ _ _ Hb)) as Em.
  pose proof (on_nlnext _ _ (bld_new _ _ _ _ _ Hb)) as En.
  pose proof (on_nlc _ _ (bld_new _ _ _ _ _ Hb)) as Ec.
  unfold querying, query_objects in Em, En, Ec. simpl in Em, En, Ec.
  set (h := w_nlnext w) in *. set (wo := opened l rc e c w) in *.
  eapply wp_step; [eapply nl_free_eq; rewrite Em; apply lookup_insert_eq|].
  rewrite Em, (delete_insert_id _ (Pos.succ h)) by (rewrite lookup_insert_ne; [exact Hf'|lia]).
  eapply wp_step; [eapply nl_free_eq; apply lookup_insert_eq|].
  split; [done|]. simpl. rewrite (delete_insert_id _ h) by exact Hf. rewrite <- E1.
  assert (wf_nl (set_nlnext (Pos.succ (Pos.succ h)) (set_nl (w_nl wo) w'))) as Hnl.
  { destruct Hwo as [_ [N1 N2 N3]]. split; simpl; rewrite ?Ec; [done|done|].
    intros c0 o0 Hc0. apply N3 in Hc0. rewrite E2 in Hc0. unfold h. lia. }
  pose proof (building_nl _ _ _ _ _ _ _ Hb Hnl) as Hb'.
  assert (forall n m, w_nlnext w' = n -> set_nlnext n (set_nl (w_nl wo) w')
    = set_nl (w_nl wo) (set_nl m w')) as Ew by (intros n m <-; by destruct w').
  rewrite (Ew _ (<[h := NlAddrCache addrs]> (w_nl wo)) En) in Hb'. exact Hb'.
Qed.

Lemma get_address_ok w l rc e c b q addrs ds k1 k2 rho :
  session w l rc e c b -> 0 < rc -> 0 <= index e -> wf w rho ->
  addr_cache_reply b (w_env w) = (inr addrs, k1) ->
  rtnl_addr_alloc_ok k1 = (true, k2) ->
  Forall2 (fun a d => addr_data a = Some d)
    (addresses_of (index e) (query_family q) addrs) ds ->
  memory_for (length ds) k2 ->
  wp (get_etherinfo_address (Loc l) q) (fun r w' => r = Loc (w_next w) /\
    building (asked_addresses l rc e c k2 w) rho (w_next w) ds w') w.
Proof.
  intros Hs Hrc Hi Hw Hr Ha Hds Hm. unfold wp.
  rewrite (get_address_eq w l rc e c b q addrs k1 k2) by done. cbv zeta.
  rewrite (filter_decide _ _ _ (addr_matches_spec (index e) (query_family q))).
  pose proof (querying_wf w l rc e c b q addrs k2 rho Hs Hrc Hw) as Hw2.
  pose proof (building_start _ rho Hw2) as Hb0.
  assert (w_next (querying l rc e c q addrs k2 w) = w_next w) as En2
    by apply (opened_fields w l rc e c).
  rewrite En2 in Hb0. apply wp_bind. eapply wp_mono.
  { apply (address_loop_ok _ rho (w_next w) _ [] ds _ Hb0 Hds Hm). }
  intros u w' Hb. by apply (query_freed w l rc e c b q addrs k2).
Qed.

(** C19: [get_etherinfo_address] on an object whose index is known, while the
    connection stands.  It returns a new list with one address object for each
    entry of the kernel's table that belongs to the device and the family
    asked for, in the order of the table, showing that entry; the object is
    marked a user of the connection, every libnl object made is freed, nothing
    older changes, and every reference is accounted for. *)
Theorem get_etherinfo_address_spec w l rc e c b q addrs ds k1 k2 rho :
  session w l rc e c b -> 0 < rc -> 0 <= index e -> wf w rho ->
  addr_cache_reply b (w_env w) = (inr addrs, k1) ->
  rtnl_addr_alloc_ok k1 = (true, k2) ->
  Forall2 (fun a d => addr_data a = Some d)
    (addresses_of (index e) (query_family q) addrs) ds ->
  memory_for (length ds) k2 ->
  wp (get_etherinfo_address (Loc l) q) (fun r w' => exists ll, r = Loc ll /\
    building (asked_addresses l rc e c k2 w) rho ll ds w' /\ w_nl w' = w_nl w) w.
Proof.
  intros Hs Hrc Hi Hw Hr Ha Hds Hm.
  eapply wp_mono; [by apply (get_address_ok w l rc e c b q addrs ds k1 k2 rho)|].
  intros r w' [-> Hb]. exists (w_next w). split; [done|]. split; [done|].
  rewrite (on_nl _ _ (bld_new _ _ _ _ _ Hb)).
  change (w_nl (opened l rc e c w) = w_nl w). apply opened_fields.
Qed.

(** When the kernel's addresses cannot be had, the error path of
    [get_etherinfo_address] frees a cache pointer that was never set. *)
Theorem address_cache_failure w l rc e c b q err k1 :
  session w l rc e c b -> 0 <= index e ->
  addr_cache_reply b (w_env w) = (inl err, k1) ->
  get_etherinfo_address (Loc l) q w = Fault UninitUse.
Proof.
  intros Hs Hi Hr. unfold get_etherinfo_address. cbn [is_null]. cbv iota.
  rewrite (bind_Ret _ _ _ _ _ (open_eq _ _ _ _ _ _ Hs)).
  change (1 =? 0) with false. cbv iota.
  pose proof (opened_session _ _ _ _ _ _ Hs) as [Ho Hc Hsk Hn].
  destruct (opened_fields w l rc e c) as (E1 & E2 & E3 & E4). rewrite <- E3 in Hr.
  set (w1 := opened l rc e c w) in *. clearbody w1.
  unfold _set_device_index. erewrite bind_Ret.
  2:{ erewrite bind_Ret by (eapply get_ether_eq; exact Ho).
      cbn [index with_active]. rewrite (proj2 (Z.ltb_ge _ _) Hi). reflexivity. }
  change (1 =? 0) with false. cbv iota.
  unfold get_nlc, get_nlconnection, rtnl_addr_alloc_cache, sock_connected.
  destruct w1 as [h nx er x nlc nl nn fd fs se k]. simpl in *.
  mrun. unfold nlconnection in Hc. rewrite Hc. mrun. rewrite Hsk. mrun.
  rewrite Hr. mrun. done.
Qed.
End addresses.

(** ** The hardware address *)

Section link.
Context {K : Type} `{PL : PlatformLaws K}.
Implicit Types w : world K.

(** The links with interface index [i]. *)
Definition links_of (i : Z) (ls : list rtnl_link) : list rtnl_link :=
  filter (fun lk => rl_ifindex lk = i) ls.

Definition hw_text (lk : rtnl_link) : string := cstr (nl_addr2str (rl_addr lk) 130).

Definition with_hw (p : ptr) (e : PyEtherInfo) : PyEtherInfo :=
  MkEther (device e) (index e) p (nlc_active e).

(** Once there is an address the callback does nothing. *)
Lemma foreach_link_known l rc e p ls w :
  w_heap w !! l = Some (Obj rc (VEther e)) -> hwaddress e = Loc p ->
  foreach (callback_nl_link (Loc l)) ls w = Ret tt w.
Proof.
  intros Hl Hp. induction ls as [|lk ls IH]; [done|]. cbn [foreach].
  erewrite bind_Ret; [exact IH|]. unfold callback_nl_link. cbn [is_null]. cbv iota.
  rewrite (bind_Ret _ _ _ _ _ (get_ether_eq _ _ _ _ Hl)), Hp. done.
Qed.

(** What the callbacks leave. *)
Definition linked l rc e ls w : world K :=
  match hwaddress e, ls with
  | Null, lk :: _ =>
      put_ether l rc (with_hw (Loc (w_next w)) e)
        (set_next (Pos.succ (w_next w))
          (set_heap (<[w_next w := Obj 1 (VStr (hw_text lk))]> (w_heap w)) w))
  | _, _ => w
  end.

Lemma foreach_link_eq l rc e ls w :
  w_heap w !! l = Some (Obj rc (VEther e)) -> w_heap w !! w_next w = None ->
  (hwaddress e = Null \/ exists p, hwaddress e = Loc p) ->
  foreach (callback_nl_link (Loc l)) ls w = Ret tt (linked l rc e ls w).
Proof.
  intros Hl Hf [Hn|[p Hp]]; unfold linked.
  2:{ rewrite Hp. by eapply foreach_link_known. }
  rewrite Hn. destruct ls as [|lk ls]; [done|]. cbn [foreach].
  assert (l <> w_next w) as Hne by congruence.
  set (w1 := set_next (Pos.succ (w_next w))
    (set_heap (<[w_next w := Obj 1 (VStr (hw_text lk))]> (w_heap w)) w)).
  assert (w_heap w1 !! l = Some (Obj rc (VEther e))) as Hl1.
  { simpl. by rewrite lookup_insert_ne. }
  assert (callback_nl_link (Loc l) lk w
    = Ret tt (put_ether l rc (with_hw (Loc (w_next w)) e) w1)) as Hcb.
  { unfold callback_nl_link. cbn [is_null]. cbv iota.
    rewrite (bind_Ret _ _ _ _ _ (get_ether_eq _ _ _ _ Hl)), Hn.
    cbn [use_ptr]. do 2 (rewrite bind_ret_l; cbn [is_null negb]; cbv iota).
    rewrite bind_ret_l.
    unfold PyStr_FromFormat. rewrite (bind_Ret _ _ _ _ _ (alloc_eq _ _)).
    unfold set_hwaddress. fold (hw_text lk). fold w1.
    rewrite (bind_Ret _ _ _ _ _ (get_ether_eq _ _ _ _ Hl1)).
    by rewrite (put_val_eq _ _ _ _ Hl1). }
  rewrite (bind_Ret _ _ _ _ _ Hcb).
  eapply (foreach_link_known l rc (with_hw (Loc (w_next w)) e) (w_next w));
    [apply lookup_insert_eq|done].
Qed.

Lemma get_link_eq w l rc e c b ls k1 k2 :
  session w l rc e c b -> 0 <= index e ->
  link_cache_reply b (w_env w) = (inr ls, k1) ->
  rtnl_link_alloc_ok k1 = (true, k2) ->
  get_etherinfo_link (Loc l) w =
  let w1 := opened l rc e c w in
  let h := w_nlnext w in
  let w2 := set_env k2 (set_nlnext (Pos.succ (Pos.succ h))
    (set_nl (<[Pos.succ h := NlLinkFilter (Some (index e))]>
      (<[h := NlLinkCache ls]> (w_nl w))) w1)) in
  (foreach (callback_nl_link (Loc l)) (List.filter (link_matches (Some (index e))) ls);;
   nl_free (Pos.succ h);; nl_free h;; mret 1) w2.
Proof.
  intros Hs Hi Hr Ha. unfold get_etherinfo_link. cbn [is_null]. cbv iota.
  rewrite (bind_Ret _ _ _ _ _ (open_eq _ _ _ _ _ _ Hs)).
  change (1 =? 0) with false. cbv iota.
  pose proof (opened_session _ _ _ _ _ _ Hs) as [Ho Hc Hsk Hn].
  destruct (opened_fields w l rc e c) as (E1 & E2 & E3 & E4).
  rewrite <- E3 in Hr. rewrite <- ?E1, <- ?E2.
  set (w1 := opened l rc e c w) in *. clearbody w1. cbv zeta.
  unfold _set_device_index. erewrite bind_Ret.
  2:{ erewrite bind_Ret by (eapply get_ether_eq; exact Ho).
      cbn [index with_active]. rewrite (proj2 (Z.ltb_ge _ _) Hi). reflexivity. }
  change (negb (1 =? 1)) with false. cbv iota.
  unfold get_nlc, get_nlconnection, rtnl_link_alloc_cache, sock_connected,
    rtnl_link_alloc, foreach_link, link_cache, rtnl_link_put, nl_cache_free.
  destruct w1 as [h nx er x nlc nl nn fd fs se k]. simpl in *.
  mrun. unfold nlconnection in Hc. rewrite Hc. mrun. rewrite Hsk. mrun.
  rewrite Hr. mrun. rewrite Ha. mrun. rewrite Ho. mrun.
  rewrite !lookup_insert_eq. mrun.
  rewrite !insert_insert_eq.
  rewrite (lookup_insert_ne _ (Pos.succ nn) nn) by lia. rewrite lookup_insert_eq. mrun.
  rewrite lookup_insert_eq. mrun. done.
Qed.

(** [get_etherinfo_link] as what becomes of the world. *)
Lemma get_link_ok w l rc e c b ls k1 k2 rho :
  session w l rc e c b -> 0 < rc -> 0 <= index e -> wf w rho ->
  (hwaddress e = Null \/ exists p, hwaddress e = Loc p) ->
  link_cache_reply b (w_env w) = (inr ls, k1) ->
  rtnl_link_alloc_ok k1 = (true, k2) ->
  get_etherinfo_link (Loc l) w = Ret 1 (set_env k2
    (nl_past (Pos.succ (Pos.succ (w_nlnext w)))
      (linked l rc (with_active 1 e) (links_of (index e) ls) (opened l rc e c w)))).
Proof.
  intros Hs Hrc Hi Hw Hhw Hr Ha.
  rewrite (get_link_eq w l rc e c b ls k1 k2) by done. cbv zeta.
  rewrite (filter_decide _ _ _ (link_matches_spec (index e))). fold (links_of (index e) ls).
  destruct (opened_fields w l rc e c) as (E1 & E2 & E3 & E4).
  pose proof (opened_wf w l rc e c b rho Hs Hrc Hw) as Hwo.
  pose proof (opened_session _ _ _ _ _ _ Hs) as [Ho _ _ _].
  pose proof (nl_fresh w (se_nl _ _ _ _ _ _ Hs)) as Hf.
  pose proof (nl_fresh_succ w (se_nl _ _ _ _ _ _ Hs)) as Hf'.
  pose proof (wf_fresh_next _ _ _ (wf_hp _ _ Hwo)) as Hnx.
  set (h := w_nlnext w) in *. set (wo := opened l rc e c w) in *. clearbody wo.
  rewrite <- E1 in *.
  erewrite bind_Ret by (eapply foreach_link_eq; [exact Ho|exact Hnx|exact Hhw]).
  assert (forall m n k, linked l rc (with_active 1 e) (links_of (index e) ls)
    (set_env k (set_nlnext n (set_nl m wo))) = set_env k (set_nlnext n (set_nl m
    (linked l rc (with_active 1 e) (links_of (index e) ls) wo)))) as Hcomm.
  { intros m n k. unfold linked. cbn [hwaddress with_active].
    destruct (hwaddress e), (links_of (index e) ls); done. }
  rewrite Hcomm.
  set (wl := linked l rc (with_active 1 e) (links_of (index e) ls) wo).
  assert (w_nl wl = w_nl wo) as Enl.
  { unfold wl, linked. cbn [hwaddress with_active].
    by destruct (hwaddress e), (links_of (index e) ls). }
  erewrite bind_Ret by (eapply nl_free_eq; apply lookup_insert_eq). simpl.
  rewrite delete_insert_id by (rewrite lookup_insert_ne; [exact Hf'|lia]).
  erewrite bind_Ret by (eapply nl_free_eq; apply lookup_insert_eq). simpl.
  rewrite delete_insert_id by exact Hf. rewrite <- Enl. clearbody wl. by destruct wl.
Qed.

Lemma linked_wf l rc e ls w rho :
  w_heap w !! l = Some (Obj rc (VEther e)) -> 0 < rc -> wf w rho ->
  wf (linked l rc e ls w) rho.
Proof.
  intros Hl Hrc Hw. unfold linked. destruct (hwaddress e) eqn:Eh, ls as [|lk ls]; try done.
  pose proof (wf_fresh_next _ _ _ (wf_hp _ _ Hw)) as Hf.
  assert (wf w (val_refs (VStr (hw_text lk)) ⊎ rho)) as Hw1.
  { eapply wf_eq; [exact Hw|]. unfold val_refs. simpl. multiset_solver. }
  apply alloc_wf in Hw1; [|by constructor].
  apply (wf_set_heap _ _ _ _ Hw1).
  eapply (wf_move_in _ _ _ (w_next w)); [apply Hw1| |exact Hrc| |].
  - simpl. rewrite lookup_insert_ne by congruence. exact Hl.
  - unfold val_refs. simpl. rewrite Eh. simpl. multiset_solver.
  - pose proof (wf_val _ _ _ (wf_hp _ _ Hw) _ _ Hl Hrc) as [H1 _]. by split.
Qed.

(** C21: [get_etherinfo_link] on an object whose index is known, while the
    connection stands.  An object without a hardware address takes that of the
    first link with its index, as text; an object that has one keeps it (it is
    never refreshed).  No other object changes, every libnl object made is
    freed and every reference is accounted for. *)
Theorem get_etherinfo_link_spec w l rc e c b ls k1 k2 rho :
  session w l rc e c b -> 0 < rc -> 0 <= index e -> wf w rho ->
  (hwaddress e = Null \/ exists p, hwaddress e = Loc p) ->
  link_cache_reply b (w_env w) = (inr ls, k1) ->
  rtnl_link_alloc_ok k1 = (true, k2) ->
  wp (get_etherinfo_link (Loc l)) (fun r w' => r = 1 /\ w_nl w' = w_nl w /\
    w_err w' = w_err w /\ wf w' rho /\
    (forall i o, w_heap w !! i = Some o -> i <> l -> w_heap w' !! i = Some o) /\
    exists e', w_heap w' !! l = Some (Obj rc (VEther e')) /\ device e' = device e /\
      index e' = index e /\ nlc_active e' = 1 /\
      match hwaddress e, links_of (index e) ls with
      | Null, lk :: _ => is_str (w_heap w') (hwaddress e') (hw_text lk)
      | _, _ => hwaddress e' = hwaddress e
      end) w.
Proof.
  intros Hs Hrc Hi Hw Hhw Hr Ha. unfold wp.
  rewrite (get_link_ok w l rc e c b ls k1 k2 rho) by done.
  destruct (opened_fields w l rc e c) as (E1 & E2 & E3 & E4).
  pose proof (opened_wf w l rc e c b rho Hs Hrc Hw) as Hwo.
  pose proof (opened_session _ _ _ _ _ _ Hs) as [Ho _ _ Hno].
  pose proof (linked_wf l rc _ (links_of (index e) ls) _ rho Ho Hrc Hwo) as Hwl.
  assert (w_err (opened l rc e c w) = w_err w /\
    forall i o, w_heap w !! i = Some o -> i <> l ->
      w_heap (opened l rc e c w) !! i = Some o) as [E5 E6].
  { unfold opened, mark.
    destruct (nlc_active e =? 0); (split; [done|]); intros i o Hi' Hne; simpl;
      by rewrite lookup_insert_ne. }
  pose proof (wf_fresh_next _ _ _ (wf_hp _ _ Hwo)) as Hnx.
  set (wo := opened l rc e c w) in *. clearbody wo.
  assert (l <> w_next wo) as Hne by congruence.
  split; [done|]. split; [|split; [|split; [|split]]].
  - unfold linked. cbn [hwaddress with_active].
    destruct (hwaddress e), (links_of (index e) ls); exact E1.
  - unfold linked. cbn [hwaddress with_active].
    destruct (hwaddress e), (links_of (index e) ls); exact E5.
  - destruct Hwl as [Hh [N1 N2 N3]]. split; [exact Hh|]. split; [exact N1|exact N2|].
    intros c0 o0 Hc0. apply N3 in Hc0. revert Hc0. unfold linked.
    cbn [hwaddress with_active].
    destruct (hwaddress e), (links_of (index e) ls); simpl; rewrite ?E2; lia.
  - intros i o Hio Hni. apply E6 in Hio; [|done]. unfold linked.
    cbn [hwaddress with_active].
    destruct (hwaddress e), (links_of (index e) ls); simpl; try exact Hio.
    rewrite !lookup_insert_ne; [exact Hio|congruence|congruence].
  - unfold linked. cbn [hwaddress with_active].
    destruct (hwaddress e) eqn:Eh, (links_of (index e) ls) as [|lk lks]; simpl;
      try (eexists; split; [exact Ho|]; done).
    eexists. split; [apply lookup_insert_eq|]. repeat (split; [done|]).
    exists (w_next wo). split; [done|]. rewrite lookup_insert_ne by done.
    apply lookup_insert_eq.
Qed.
End link.

(** ** At work *)

(** A machine with some state: an [etherinfo] object for [eth0], with index
    [i], that has opened the connection. *)
Definition eth0_session (i : Z) (k : machine) : M machine ptr :=
  s ← alloc (VStr "eth0"); p ← alloc (VEther (MkEther s i Null 0));
  open_netlink p;; mret p.

Definition eth0_obj (i : Z) : PyEtherInfo := MkEther (Loc 1) i Null 1.

(** The world that leaves. *)
Definition eth0_world (i : Z) (k : machine) : world machine :=
  World {[2%positive := Obj 1 (VEther (eth0_obj i)); 1%positive := Obj 1 (VStr "eth0")]}
    3 0 None (MkNlc (Some 1%positive) 1 false) {[1%positive := NlSock true]} 2 ∅ 0 [] k.

Example eth0_world_reached :
  world_after (eth0_session 2 quiet) (boot quiet) = eth0_world 2 quiet.
Proof. vm_compute. reflexivity. Qed.

Lemma eth0_in_session i k : session (eth0_world i k) 2 1 (eth0_obj i) 1 true.
Proof.
  split; try reflexivity. split; simpl; [done| |].
  - intros c [= <-]. by exists true.
  - intros c o [<- _]%lookup_singleton_Some. lia.
Qed.

Lemma eth0_world_wf i k : wf (eth0_world i k) {[+ 2%positive +]}.
Proof.
  split; [|apply (eth0_in_session i k)].
  pose proof (wf_boot quiet) as H0.
  apply (wf_eq _ _ (val_refs (VStr "eth0") ⊎ ∅)) in H0; [|by multiset_solver].
  apply alloc_wf in H0; [|by constructor].
  apply (wf_eq _ _ (val_refs (VEther (eth0_obj i)) ⊎ ∅)) in H0;
    [|unfold val_refs; simpl; multiset_solver].
  apply alloc_wf in H0; [|done].
  eapply wf_heap_eq; [apply H0|]. simpl. multiset_solver.
Qed.

Lemma set_device_index_spec_witness :
  (0 <= -1 -> _set_device_index (Loc 2) (eth0_world (-1) quiet)
     = Ret 1 (eth0_world (-1) quiet)) /\
  (-1 < 0 -> wp (_set_device_index (Loc 2)) (fun r w' =>
    w_nl w' = w_nl (eth0_world (-1) quiet) /\ w_nlc w' = w_nlc (eth0_world (-1) quiet) /\
    match (link_cache_reply true (w_env (eth0_world (-1) quiet))).1 with
    | inl err => r = 0 /\ w_heap w' = w_heap (eth0_world (-1) quiet) /\
        w_err w' = Some (PyExc PyExc_OSError (ExcMsg (nl_geterror err)))
    | inr ls =>
        match link_by_name ls (cstr "eth0") with
        | None => r = 0 /\ w_heap w' = w_heap (eth0_world (-1) quiet) /\
            w_err w' = Some (PyExc PyExc_IOError (ExcErrno ENODEV))
        | Some lk =>
            w_heap w' = <[2%positive := Obj 1
              (VEther (with_index (rl_ifindex lk) (eth0_obj (-1))))]>
                (w_heap (eth0_world (-1) quiet))
            /\ (if rl_ifindex lk <=? 0 then r = 0 /\
                  w_err w' = Some (PyExc PyExc_IOError (ExcErrno ENODEV))
                else r = 1 /\ w_err w' = w_err (eth0_world (-1) quiet))
        end
    end) (eth0_world (-1) quiet)).
Proof.
  apply (set_device_index_spec (eth0_world (-1) quiet) 2 1 (eth0_obj (-1)) 1 true 1 1 "eth0").
  - apply eth0_in_session.
  - reflexivity.
  - reflexivity.
Defined.

(** A machine that gives the card no index. *)
Definition with_links (ls : list rtnl_link) (k : machine) : machine :=
  Machine (mc_socket k) (mc_ioctl k) (mc_ifaddrs k) (mc_files k) (mc_malloc k)
    (mc_connect k) (inr ls) (mc_addrs k) (mc_nl_memory k).
Definition with_addrs (r : Z + list rtnl_addr) (k : machine) : machine :=
  Machine (mc_socket k) (mc_ioctl k) (mc_ifaddrs k) (mc_files k) (mc_malloc k)
    (mc_connect k) (mc_links k) r (mc_nl_memory k).

Definition indexless : machine := with_links [RtnlLink "eth0" 0 None] quiet.

Lemma zero_index_accepted_witness :
  wp (r0 ← _set_device_index (Loc 2); r1 ← _set_device_index (Loc 2); mret (r0, r1))
     (fun p _ => p = (0, 1)) (eth0_world (-1) indexless).
Proof.
  apply (zero_index_accepted (eth0_world (-1) indexless) 2 1 (eth0_obj (-1)) 1 true 1 1
    "eth0" [RtnlLink "eth0" 0 None] indexless (RtnlLink "eth0" 0 None));
    try reflexivity. apply eth0_in_session.
Defined.

Lemma get_etherinfo_address_spec_witness :
  wp (get_etherinfo_address (Loc 2) NLQRY_ADDR4) (fun r w' => exists ll, r = Loc ll /\
    building (asked_addresses 2 1 (eth0_obj 2) 1 quiet (eth0_world 2 quiet))
      {[+ 2%positive +]} ll [eth0_data] w' /\
    w_nl w' = w_nl (eth0_world 2 quiet)) (eth0_world 2 quiet).
Proof.
  apply (get_etherinfo_address_spec (eth0_world 2 quiet) 2 1 (eth0_obj 2) 1 true
    NLQRY_ADDR4 [lo_addr; eth0_addr] [eth0_data] quiet quiet).
  - apply eth0_in_session.
  - lia.
  - simpl. lia.
  - apply eth0_world_wf.
  - reflexivity.
  - reflexivity.
  - constructor; [vm_compute; reflexivity|constructor].
  - by split.
Defined.

Definition no_addresses : machine := with_addrs (inl (-5)) quiet.

Lemma address_cache_failure_witness :
  get_etherinfo_address (Loc 2) NLQRY_ADDR4 (eth0_world 2 no_addresses)
    = Fault UninitUse.
Proof.
  apply (address_cache_failure (eth0_world 2 no_addresses) 2 1 (eth0_obj 2) 1 true
    NLQRY_ADDR4 (-5) no_addresses).
  - apply eth0_in_session.
  - simpl. lia.
  - reflexivity.
Defined.

Lemma get_etherinfo_link_spec_witness :
  wp (get_etherinfo_link (Loc 2)) (fun r w' => r = 1 /\
    w_nl w' = w_nl (eth0_world 2 quiet) /\ w_err w' = w_err (eth0_world 2 quiet) /\
    wf w' {[+ 2%positive +]} /\
    (forall i o, w_heap (eth0_world 2 quiet) !! i = Some o -> i <> 2%positive ->
       w_heap w' !! i = Some o) /\
    exists e', w_heap w' !! 2%positive = Some (Obj 1 (VEther e')) /\
      device e' = device (eth0_obj 2) /\ index e' = index (eth0_obj 2) /\
      nlc_active e' = 1 /\
      match hwaddress (eth0_obj 2), links_of (index (eth0_obj 2)) [lo_link; eth0_link] with
      | Null, lk :: _ => is_str (w_heap w') (hwaddress e') (hw_text lk)
      | _, _ => hwaddress e' = hwaddress (eth0_obj 2)
      end) (eth0_world 2 quiet).
Proof.
  apply (get_etherinfo_link_spec (eth0_world 2 quiet) 2 1 (eth0_obj 2) 1 true
    [lo_link; eth0_link] quiet quiet {[+ 2%positive +]}).
  - apply eth0_in_session.
  - lia.
  - simpl. lia.
  - apply eth0_world_wf.
  - by left.
  - reflexivity.
  - reflexivity.
Defined.
