(* ===== verification/EtherSound.v ===== *)
(** * The queries of an etherinfo object, from any state

    The theorems of EtherInfoFacts.v take the connection as it stands and an
    object that knows its index.  Here the queries start anywhere: opening the
    connection and looking the index up are idempotent, so a query runs as it
    would after both ([query_prefix]).  Whatever happens, on a system where
    NETLINK is there ([NetlinkUp]), the world stays sound. *)
From S2P Require Import Prelude.
From S2P Require Import Platform.
From S2P Require Import CPython.
From S2P Require Import Netlink.
From S2P Require Import Objects.
From S2P Require Import Testbed.
From S2P Require Import NetlinkSpec.
From S2P Require Import RefCount.
From S2P Require Import Typing.
From S2P Require Import Containers.
From S2P Require Import Sound.
From S2P Require Import NetlinkAddress.
From S2P Require Import AddressFacts.
From S2P Require Import EtherInfo.
From S2P Require Import EtherInfoFacts.

(** ** A system with NETLINK

    Sockets can be made and connected, filters and objects allocated, and the
    addresses had, each of a kind the extension can convert.  Links may fail
    to come. *)
Class NetlinkUp (K : Type) `{Platform K} := {
  up_socket (k : K) : (nl_socket_alloc_ok k).1 = true;
  up_connect (k : K) : 0 <= (nl_connect_ret k).1;
  up_link_filter (k : K) : (rtnl_link_alloc_ok k).1 = true;
  up_addr_filter (k : K) : (rtnl_addr_alloc_ok k).1 = true;
  up_addresses (k : K) : exists addrs, (addr_cache_reply true k).1 = inr addrs /\
    Forall (fun a => supported_family (ra_family a) = true -> is_Some (addr_data a)) addrs;
  up_memory (k : K) n : memory_for n k;
}.

(** The flag and the index of the object at [l] are all that changes. *)
Definition ether_at {K} (l : positive) (rc : Z) (e : PyEtherInfo) (w : world K) : Prop :=
  w_heap w !! l = Some (Obj rc (VEther e)) /\ 0 < rc.

(** Fewer objects than the user count can count. *)
Definition countable {K} (w : world K) : Prop := Z.of_nat (size (w_heap w)) < 2 ^ 32.

Section ether.
Context {K : Type} `{PL : PlatformLaws K} {UP : NetlinkUp K}.
Implicit Types (w : world K) (refs : gmultiset positive).

Lemma users_size (h : gmap positive obj) : (size (users_of h) <= size h)%nat.
Proof. unfold users_of. rewrite size_dom. apply map_size_filter. Qed.

Lemma size_replace (h : gmap positive obj) l o o' :
  h !! l = Some o -> size (<[l := o']> h) = size h.
Proof. intros Hl. apply map_size_insert_Some. by exists o. Qed.

(** Replacing an object's own data. *)
Lemma sound_put_ether w refs l rc e e' :
  sound w refs -> ether_at l rc e w -> device e' = device e ->
  hwaddress e' = hwaddress e -> nlc_active e' = nlc_active e ->
  sound (put_ether l rc e' w) refs /\ extends w (put_ether l rc e' w).
Proof.
  intros [Hw Ht Hc] [Hl Hrc] Hd Hh Ha. split; [split|].
  - by eapply wf_put_ether.
  - apply typed_from_insert; [done|by eapply keeps_kinds_insert|]. right. split; [done|].
    simpl. rewrite Hd, Hh. pose proof (Ht l _ Hl ltac:(lia)) as [_ [Hty1 Hty2]].
    assert (keeps_kinds (w_heap w) (<[l := Obj rc (VEther e')]> (w_heap w))) as Hk
      by (by eapply keeps_kinds_insert).
    split; [by eapply str_at_keeps|by eapply str_or_null_keeps].
  - apply (conn_ok_frame w); [done..|]. simpl. rewrite (users_same _ _ _ _ Hl); [done|].
    unfold is_user. simpl. by rewrite Ha.
  - eapply extends_put; [done|simpl; lia| |done]. right. by exists e, e'.
Qed.

(** ** Opening the connection *)

(** The object is a user of a connection that stands. *)
Record at_work l rc e c w : Prop := {
  aw_session : session w l rc e c true;
  aw_rc : 0 < rc;
  aw_active : nlc_active e = 1;
}.

Lemma at_work_ether l rc e c w : at_work l rc e c w -> ether_at l rc e w.
Proof. intros [[Hl _ _ _] Hrc _]. by split. Qed.

Lemma open_ok w refs l rc e :
  sound w refs -> ether_at l rc e w -> countable w ->
  exists c w1, open_netlink (Loc l) w = Ret 1 w1 /\ at_work l rc (with_active 1 e) c w1 /\
    sound w1 refs /\ extends w w1 /\ w_err w1 = w_err w /\ w_next w1 = w_next w /\
    w_heap w1 = <[l := Obj rc (VEther (with_active 1 e))]> (w_heap w).
Proof.
  intros [Hw Ht Hc] [Hl Hrc] Hn.
  assert (exists c w1, open_netlink (Loc l) w = Ret 1 w1 /\
    session w1 l rc (with_active 1 e) c true /\ w_err w1 = w_err w /\ w_next w1 = w_next w /\
    w_fds w1 = w_fds w /\ w_files w1 = w_files w /\
    w_heap w1 = <[l := Obj rc (VEther (with_active 1 e))]> (w_heap w))
    as (c & w1 & Ho & Hs & Ee & En & Ed & Ef & Eh).
  { pose proof (co_nl _ Hc) as Hnl. pose proof (wf_netlink _ _ Hw) as Hwn.
    destruct (nlconnection (w_nlc w)) as [c|] eqn:Ec.
    - assert (session w l rc e c true) as Hs.
      { split; [done|done| |done]. rewrite Hnl. apply lookup_singleton_eq. }
      exists c, (opened l rc e c w). split; [by eapply open_eq|].
      split; [by apply opened_session|]. unfold opened, mark.
      by destruct (nlc_active e =? 0).
    - pose proof (up_socket (w_env w)) as H1.
      destruct (nl_socket_alloc_ok (w_env w)) as [[] k1] eqn:Ha; [|done].
      pose proof (up_connect k1) as H2. destruct (nl_connect_ret k1) as [r k2] eqn:Hr.
      destruct (sys_fcntl_cloexec k2) as [[f en] k3] eqn:Hf.
      exists (w_nlnext w). eexists. split.
      { eapply (open_netlink_first w l rc e); [apply Hwn|done..]. }
      split; [|done]. unfold mark. split; simpl.
      + apply lookup_insert_eq.
      + done.
      + apply lookup_insert_eq.
      + split; simpl; [done| |].
        * intros c [= <-]. exists true. apply lookup_insert_eq.
        * intros c o [[<- _]|[_ Hco]]%lookup_insert_Some; [lia|].
          apply (wf_nlfresh _ Hwn) in Hco. lia. }
  assert (Z.of_nat (size (users_of (w_heap w1))) < 2 ^ 32) as Hb.
  { pose proof (users_size (w_heap w1)) as Hu. rewrite Eh in Hu at 2.
    rewrite (size_replace _ _ _ _ Hl) in Hu. unfold countable in Hn. lia. }
  exists c, w1. split; [done|]. split; [by split|].
  assert (extends w w1) as Hx.
  { destruct (extends_put w l (Obj rc (VEther e)) (Obj rc (VEther (with_active 1 e))))
      as [X1 X2 XL X3 X4]; [done|simpl; lia|right; by exists e, (with_active 1 e)|done|].
    split; [by rewrite En|by rewrite Eh|by rewrite Eh|done|done]. }
  split; [|done]. split.
  - split; [|apply Hs]. rewrite Eh, En.
    exact (wf_hp _ _ (wf_put_ether w l rc e (with_active 1 e) refs Hw Hl Hrc eq_refl eq_refl)).
  - rewrite Eh. apply typed_from_insert; [done|by eapply keeps_kinds_insert|]. right. split; [done|].
    eapply typed_val_keeps; [by eapply keeps_kinds_insert|]. apply (Ht l _ Hl). lia.
  - eapply conn_ok_open; [done|apply Hw|done|exact Hb|exact Ho].
Qed.

(** Opening again changes nothing. *)
Lemma open_again w l rc e c :
  at_work l rc e c w -> open_netlink (Loc l) w = Ret 1 w.
Proof.
  intros [Hs Hrc Ha]. rewrite (open_eq _ _ _ _ _ _ Hs). f_equal. unfold opened, mark.
  rewrite Ha. simpl. destruct Hs as [Hl _ _ _].
  assert (with_active 1 e = e) as -> by (destruct e; simpl in *; by subst).
  rewrite insert_id by done. by destruct w.
Qed.

(** ** Looking the index up *)

Lemma at_work_frame l rc e c w e' w' :
  at_work l rc e c w -> w_heap w' !! l = Some (Obj rc (VEther e')) ->
  nlc_active e' = nlc_active e -> w_nlc w' = w_nlc w -> w_nl w' = w_nl w ->
  (w_nlnext w <= w_nlnext w')%positive -> at_work l rc e' c w'.
Proof.
  intros [[_ Hc Hs [N1 N2 N3]] Hrc Ha] Hl' Ha' Ec En Ex.
  split; [|done|congruence]. split; rewrite ?Ec, ?En; try done.
  split; rewrite ?Ec, ?En; [done|done|]. intros i o Hi. apply N3 in Hi. lia.
Qed.

(** An index that is known stays; one that is not comes from the kernel's link
    with the name of the device, or stays. *)
Definition index_from (name : string) (i i' : Z) : Prop :=
  0 <= i /\ i' = i \/
  i < 0 /\ (i' = i \/ exists (k : K) ls lk, (link_cache_reply true k).1 = inr ls /\
    link_by_name ls (cstr name) = Some lk /\ i' = rl_ifindex lk).

(** The kernel would not say: no links to be had, none of that name, or no
    index. *)
Definition unresolved (name : string) : Prop :=
  exists k : K, match (link_cache_reply true k).1 with
  | inl _ => True
  | inr ls => match link_by_name ls (cstr name) with
              | None => True
              | Some lk => rl_ifindex lk <= 0
              end
  end.

Lemma index_from_refl name i : index_from name i i.
Proof. destruct (Z.leb_spec 0 i); [by left|right]. split; [done|by left]. Qed.

Lemma index_from_trans name i j k :
  index_from name i j -> index_from name j k -> index_from name i k.
Proof.
  intros [[Hi ->]|[Hi H1]]; [done|].
  intros [[Hj ->]|[Hj [->|H2]]]; right; (split; [done|]); [exact H1|exact H1|by right].
Qed.

Lemma index_ok w refs l rc e c name :
  at_work l rc e c w -> sound w refs -> str_is (w_heap w) (device e) name ->
  exists r w1 e1, _set_device_index (Loc l) w = Ret r w1 /\ at_work l rc e1 c w1 /\
    sound w1 refs /\ extends w w1 /\ device e1 = device e /\ hwaddress e1 = hwaddress e /\
    index_from name (index e) (index e1) /\
    (0 <= index e -> w1 = w /\ e1 = e) /\
    (r = 1 /\ 0 <= index e1 /\ w_err w1 = w_err w \/ r = 0 /\ index e < 0 /\ unresolved name).
Proof.
  intros Ha Hs (ld & rcd & Hd & Hld). pose proof (aw_session _ _ _ _ _ Ha) as Hse.
  pose proof (se_obj _ _ _ _ _ _ Hse) as Hl.
  destruct (Z.ltb_spec (index e) 0) as [Hi|Hi].
  2:{ exists 1, w, e. split; [|do 5 (split; [done|]); split; [apply index_from_refl|];
        split; [done|by left]]. unfold _set_device_index.
      rewrite (bind_Ret _ _ _ _ _ (get_ether_eq _ _ _ _ Hl)).
      by rewrite (proj2 (Z.ltb_ge _ _) Hi). }
  pose proof (set_device_index_eq w l rc e c true ld rcd name Hse Hi Hd Hld) as Eq.
  assert (forall w', w_heap w' = w_heap w -> w_next w' = w_next w -> w_nlc w' = w_nlc w ->
    w_nl w' = w_nl w -> (w_nlnext w <= w_nlnext w')%positive -> w_fds w' = w_fds w ->
    w_files w' = w_files w -> at_work l rc e c w' /\ sound w' refs /\ extends w w') as Hfr.
  { intros w' E1 E2 E3 E4 E5 E6 E7. split; [|split].
    - eapply at_work_frame; [done|by rewrite E1|done..].
    - by eapply sound_frame.
    - by apply extends_frame. }
  destruct (link_cache_reply true (w_env w)) as [[err|ls] k1] eqn:Er.
  { do 2 eexists. exists e. split; [exact Eq|].
    match goal with |- at_work _ _ _ _ ?w' /\ _ => destruct (Hfr w') as (H1 & H2 & H3) end;
      [simpl; done || lia..|do 5 (split; [done|]); split; [apply index_from_refl|];
       split; [lia|right]]. do 2 (split; [done|]). exists (w_env w). by rewrite Er. }
  destruct (link_by_name ls (cstr name)) as [lk|] eqn:El.
  2:{ do 2 eexists. exists e. split; [exact Eq|].
      match goal with |- at_work _ _ _ _ ?w' /\ _ => destruct (Hfr w') as (H1 & H2 & H3) end;
      [simpl; done || lia..|do 5 (split; [done|]); split; [apply index_from_refl|];
       split; [lia|right]]. do 2 (split; [done|]). exists (w_env w). rewrite Er. simpl. by rewrite El. }
  destruct (sound_put_ether w refs l rc e (with_index (rl_ifindex lk) e) Hs
    (at_work_ether _ _ _ _ _ Ha) eq_refl eq_refl eq_refl) as [Hs1 Hx1].
  assert (index_from name (index e) (rl_ifindex lk)) as Hfrom.
  { right. split; [done|]. right. exists (w_env w), ls, lk. by rewrite Er. }
  assert (forall w', w_heap w' = <[l := Obj rc (VEther (with_index (rl_ifindex lk) e))]> (w_heap w) ->
    w_next w' = w_next w -> w_nlc w' = w_nlc w ->
    w_nl w' = w_nl w -> (w_nlnext w <= w_nlnext w')%positive -> w_fds w' = w_fds w ->
    w_files w' = w_files w ->
    at_work l rc (with_index (rl_ifindex lk) e) c w' /\ sound w' refs /\ extends w w') as Hfr'.
  { intros w' E1 E2 E3 E4 E5 E6 E7. split; [|split].
    - eapply at_work_frame; [exact Ha|by rewrite E1, lookup_insert_eq|done..].
    - by eapply (sound_frame (put_ether l rc (with_index (rl_ifindex lk) e) w)).
    - etrans; [exact Hx1|]. by apply extends_frame. }
  cbv zeta in Eq. destruct (Z.leb_spec (rl_ifindex lk) 0) as [Hz|Hz];
    (do 2 eexists; exists (with_index (rl_ifindex lk) e); split; [exact Eq|];
     match goal with |- at_work _ _ _ _ ?w' /\ _ => destruct (Hfr' w') as (H1 & H2 & H3) end;
     [simpl; done || lia..|do 6 (split; [done|]); split; [lia|]]).
  - right. do 2 (split; [done|]). exists (w_env w). rewrite Er. simpl. by rewrite El.
  - left. split; [done|]. simpl. split; [lia|done].
Qed.

Lemma index_again w l rc e c :
  at_work l rc e c w -> 0 <= index e -> _set_device_index (Loc l) w = Ret 1 w.
Proof.
  intros Ha Hi. unfold _set_device_index.
  rewrite (bind_Ret _ _ _ _ _ (get_ether_eq _ _ _ _ (se_obj _ _ _ _ _ _ (aw_session _ _ _ _ _ Ha)))).
  by rewrite (proj2 (Z.ltb_ge _ _) Hi).
Qed.

(** The queries up to there: they stop, or go on as they would if the index had
    been known. *)
Lemma query_prefix w refs l rc e c name :
  at_work l rc e c w -> sound w refs -> str_is (w_heap w) (device e) name ->
  exists w1 e1, at_work l rc e1 c w1 /\ sound w1 refs /\ extends w w1 /\
    device e1 = device e /\ hwaddress e1 = hwaddress e /\
    index_from name (index e) (index e1) /\
    (index e < 0 /\ unresolved name /\ get_etherinfo_link (Loc l) w = Ret 0 w1 /\
     (forall q, get_etherinfo_address (Loc l) q w = Ret Null w1) \/
     0 <= index e1 /\ w_err w1 = w_err w /\
     get_etherinfo_link (Loc l) w = get_etherinfo_link (Loc l) w1 /\
     (forall q, get_etherinfo_address (Loc l) q w = get_etherinfo_address (Loc l) q w1)).
Proof.
  intros Ha Hs Hn. pose proof (open_again _ _ _ _ _ Ha) as Ho.
  destruct (index_ok w refs l rc e c name Ha Hs Hn)
    as (r & w1 & e1 & Hi & Ha1 & Hs1 & Hx1 & Hd & Hh & Hf & _ & Hr).
  exists w1, e1. do 6 (split; [done|]).
  unfold get_etherinfo_link, get_etherinfo_address. cbn [is_null]. cbv iota.
  destruct Hr as [(-> & Hi1 & Her) | (-> & Hneg & Hun)].
  - right. do 2 (split; [done|]).
    split; [|intros q]; rewrite (bind_Ret _ _ _ _ _ Ho);
      rewrite (bind_Ret _ _ _ _ _ (open_again _ _ _ _ _ Ha1));
      change (1 =? 0) with false; cbv iota;
      by rewrite (bind_Ret _ _ _ _ _ Hi), (bind_Ret _ _ _ _ _ (index_again _ _ _ _ _ Ha1 Hi1)).
  - left. do 2 (split; [done|]). split; [|intros q]; rewrite (bind_Ret _ _ _ _ _ Ho);
      change (1 =? 0) with false; cbv iota; by rewrite (bind_Ret _ _ _ _ _ Hi).
Qed.

(** From any state, they run as they would with the connection open. *)
Lemma query_open w refs l rc e :
  sound w refs -> ether_at l rc e w -> countable w ->
  exists c w0, at_work l rc (with_active 1 e) c w0 /\ sound w0 refs /\ extends w w0 /\
    w_err w0 = w_err w /\ get_etherinfo_link (Loc l) w = get_etherinfo_link (Loc l) w0 /\
    forall q, get_etherinfo_address (Loc l) q w = get_etherinfo_address (Loc l) q w0.
Proof.
  intros Hs He Hn.
  destruct (open_ok w refs l rc e Hs He Hn) as (c & w0 & Ho & Ha0 & Hs0 & Hx0 & Her & _).
  exists c, w0. do 4 (split; [done|]).
  unfold get_etherinfo_link, get_etherinfo_address. cbn [is_null]. cbv iota.
  split; [|intros q]; by rewrite (bind_Ret _ _ _ _ _ Ho),
    (bind_Ret _ _ _ _ _ (open_again _ _ _ _ _ Ha0)).
Qed.

(** ** The hardware address *)

Lemma opened_again w l rc e c : at_work l rc e c w -> opened l rc e c w = w.
Proof.
  intros Ha. pose proof (open_again w l rc e c Ha) as Ho.
  rewrite (open_eq _ _ _ _ _ _ (aw_session _ _ _ _ _ Ha)) in Ho. by injection Ho.
Qed.

Lemma active_same w l rc e c : at_work l rc e c w -> with_active 1 e = e.
Proof. intros [_ _ Ha]. destruct e. simpl in *. by subst. Qed.

Lemma linked_sound w refs l rc e ls :
  sound w refs -> ether_at l rc e w ->
  sound (linked l rc e ls w) refs /\ extends w (linked l rc e ls w).
Proof.
  intros Hs [Hl Hrc]. unfold linked.
  pose proof (linked_wf l rc e ls w refs Hl Hrc (sd_wf _ _ Hs)) as Hwl. revert Hwl.
  unfold linked. destruct (hwaddress e) eqn:Eh, ls as [|lk ls]; try by split.
  intros Hwl. pose proof (sound_alloc w refs (VStr (hw_text lk)) Hs I) as [_ Ht Hc].
  pose proof (extends_alloc w refs (VStr (hw_text lk)) (sd_wf _ _ Hs)) as Hx.
  pose proof (wf_fresh_next _ _ _ (wf_hp _ _ (sd_wf _ _ Hs))) as Hf.
  set (w1 := set_next _ _) in *.
  assert (w_heap w1 !! l = Some (Obj rc (VEther e))) as Hl1.
  { simpl. rewrite lookup_insert_ne; [done|congruence]. }
  split; [split; [exact Hwl| |]|].
  - apply typed_from_insert; [exact Ht|by eapply keeps_kinds_insert|]. right. split; [done|].
    simpl. destruct (Ht l _ Hl1 ltac:(lia)) as [_ [Hty _]].
    split; [eapply str_at_keeps; [by eapply keeps_kinds_insert|exact Hty]|].
    right. exists (w_next w), 1, (hw_text lk). split; [done|].
    rewrite lookup_insert_ne by congruence. apply lookup_insert_eq.
  - apply (conn_ok_frame w1); [done..|]. simpl.
    rewrite (users_same (w_heap w1) l _ _ Hl1); done.
  - etrans; [exact Hx|]. eapply extends_put; [exact Hl1|simpl; lia| |done]. right.
    by exists e, (with_hw (Loc (w_next w)) e).
Qed.

(** The hardware address an object gets from the links with its index. *)
Definition hw_from (e e' : PyEtherInfo) (ls : list rtnl_link) (h : gmap positive obj) : Prop :=
  match hwaddress e, ls with
  | Null, lk :: _ => str_is h (hwaddress e') (hw_text lk)
  | _, _ => hwaddress e' = hwaddress e
  end.

Lemma linked_at_work w refs l rc e c ls :
  at_work l rc e c w -> sound w refs ->
  exists e', at_work l rc e' c (linked l rc e ls w) /\
    device e' = device e /\ index e' = index e /\
    hw_from e e' ls (w_heap (linked l rc e ls w)).
Proof.
  intros Ha Hs. pose proof (wf_fresh_next _ _ _ (wf_hp _ _ (sd_wf _ _ Hs))) as Hf.
  unfold linked, hw_from. destruct (hwaddress e) eqn:Eh, ls as [|lk ls]; try by exists e.
  exists (with_hw (Loc (w_next w)) e).
  split; [eapply at_work_frame; [exact Ha|apply lookup_insert_eq|done..]|].
  split; [done|]. split; [done|]. exists (w_next w), 1. split; [done|]. simpl.
  destruct (aw_session _ _ _ _ _ Ha) as [Hl _ _ _].
  rewrite lookup_insert_ne by congruence. apply lookup_insert_eq.
Qed.

Lemma get_link_fails w l rc e c err k1 :
  at_work l rc e c w -> 0 <= index e -> link_cache_reply true (w_env w) = (inl err, k1) ->
  get_etherinfo_link (Loc l) w
    = Ret 0 (set_err (Some (PyExc PyExc_OSError (ExcMsg (nl_geterror err)))) (set_env k1 w)).
Proof.
  intros Ha Hi Hr. unfold get_etherinfo_link. cbn [is_null]. cbv iota.
  rewrite (bind_Ret _ _ _ _ _ (open_again _ _ _ _ _ Ha)).
  change (1 =? 0) with false. cbv iota.
  rewrite (bind_Ret _ _ _ _ _ (index_again _ _ _ _ _ Ha Hi)).
  change (negb (1 =? 1)) with false. cbv iota.
  destruct (aw_session _ _ _ _ _ Ha) as [Hl Hc Hsk _].
  unfold get_nlc, get_nlconnection, rtnl_link_alloc_cache, sock_connected.
  destruct w as [h nx er x nlc nl nn fd fs se k]. simpl in *.
  mrun. unfold nlconnection in Hc. rewrite Hc. mrun. rewrite Hsk. mrun.
  rewrite Hr. mrun. done.
Qed.

(** What a link query says of the hardware address: nothing, or that of the
    link with the index. *)
Definition hw_asked (name : string) (e e' : PyEtherInfo) (h : gmap positive obj) : Prop :=
  hwaddress e' = hwaddress e /\ unresolved name \/
  0 <= index e' /\ exists (k : K) ls, (link_cache_reply true k).1 = inr ls /\
    hw_from e e' (links_of (index e') ls) h.

(** [get_etherinfo_link] keeps the world sound. *)
Lemma link_at_work w refs l rc e c name :
  at_work l rc e c w -> sound w refs -> str_is (w_heap w) (device e) name ->
  wp (get_etherinfo_link (Loc l)) (fun _ w' => sound w' refs /\ extends w w' /\
    exists e', at_work l rc e' c w' /\ device e' = device e /\
      index_from name (index e) (index e') /\ hw_asked name e e' (w_heap w')) w.
Proof.
  intros Ha0 Hs Hn.
  destruct (query_prefix w refs l rc e c name Ha0 Hs Hn)
    as (w1 & e1 & Ha & Hs1 & Hx & Hd & Hh & Hf & [(Hneg & Hun & E & _)|(Hi & _ & E & _)]);
    unfold wp; rewrite E.
  { split; [done|]. split; [done|]. exists e1. do 3 (split; [done|]). by left. }
  destruct (link_cache_reply true (w_env w1)) as [[err|ls] k1] eqn:Er.
  { rewrite (get_link_fails _ _ _ _ _ _ _ Ha Hi Er).
    split; [by eapply sound_frame|]. split.
    - etrans; [exact Hx|]. by apply extends_frame.
    - exists e1. split; [eapply at_work_frame; [exact Ha|apply Ha|done..]|].
      do 2 (split; [done|]). left. split; [done|]. exists (w_env w1). by rewrite Er. }
  pose proof (up_link_filter k1) as H1.
  destruct (rtnl_link_alloc_ok k1) as [[] k2] eqn:Ek; [|done].
  pose proof (at_work_ether _ _ _ _ _ Ha) as He1.
  destruct (sd_typed _ _ Hs1 l _ (proj1 He1) ltac:(lia)) as [_ [_ Hhw]].
  rewrite (get_link_ok w1 l rc e1 c true ls k1 k2 refs); [|by apply Ha|by apply Ha|done|
    by apply Hs1|destruct Hhw as [->|(p & ? & ? & -> & _)]; eauto|done..].
  rewrite (opened_again _ _ _ _ _ Ha), (active_same _ _ _ _ _ Ha).
  destruct (linked_sound w1 refs l rc e1 (links_of (index e1) ls) Hs1 He1) as [Hs2 Hx2].
  destruct (linked_at_work w1 refs l rc e1 c (links_of (index e1) ls) Ha Hs1)
    as (e' & Ha' & Hd' & Hi' & Hhw').
  assert (w_nlnext (linked l rc e1 (links_of (index e1) ls) w1) = w_nlnext w1) as En.
  { unfold linked. by destruct (hwaddress e1), (links_of (index e1) ls). }
  split; [eapply (sound_frame _ _ _ Hs2); simpl; done || lia|]. split.
  - etrans; [exact Hx|]. etrans; [exact Hx2|]. by apply extends_frame.
  - exists e'.
    split; [eapply at_work_frame; [exact Ha'|apply Ha'|done..|simpl; lia]|].
    split; [congruence|]. split; [by rewrite Hi'|]. right. rewrite Hi'.
    split; [done|]. exists (w_env w1), ls. rewrite Er. split; [done|]. unfold hw_from in *. by rewrite <- Hh.
Qed.

Lemma link_ok w refs l rc e name :
  sound w refs -> ether_at l rc e w -> countable w -> str_is (w_heap w) (device e) name ->
  wp (get_etherinfo_link (Loc l)) (fun _ w' => sound w' refs /\ extends w w' /\
    exists e' c, at_work l rc e' c w' /\ device e' = device e /\
      index_from name (index e) (index e') /\ hw_asked name e e' (w_heap w')) w.
Proof.
  intros Hs He Hc Hn. destruct (query_open w refs l rc e Hs He Hc)
    as (c & w0 & Ha & Hs0 & Hx & _ & E & _). unfold wp. rewrite E.
  eapply wp_mono; [apply (link_at_work w0 refs l rc (with_active 1 e) c name Ha Hs0);
    by eapply str_is_extends|].
  intros _ w' (Hs' & Hx' & e' & Ha' & Hd & Hk). split; [done|]. split; [by etrans|].
  by exists e', c.
Qed.

(** ** The addresses *)

(** What the kernel lists for a device, by its index, and a family. *)
Definition kernel_lists (i : Z) (q : nlQuery) (ds : list pydata) : Prop :=
  0 <= i /\ exists (k : K) addrs, (addr_cache_reply true k).1 = inr addrs /\
    Forall2 (fun a d => addr_data a = Some d) (addresses_of i (query_family q) addrs) ds.

(** A list of address objects that shows it. *)
Definition addr_list (h : gmap positive obj) (i : Z) (q : nlQuery) (ll : positive) : Prop :=
  exists ps ds, h !! ll = Some (Obj 1 (VList ps)) /\ Forall2 (denotes h) ps ds /\
    kernel_lists i q ds.

Lemma denotes_addr h p fam loc pe bc plen sc :
  denotes h p (DAddr fam loc pe bc plen sc) -> addr_at h p.
Proof. intros (l & a & -> & Hl & _). by exists l, 1, a. Qed.

Lemma addr_data_is a d :
  addr_data a = Some d -> exists fam loc pe bc plen sc, d = DAddr fam loc pe bc plen sc.
Proof.
  unfold addr_data. destruct (supported_family _), (ra_local a); simpl; try done.
  destruct (right _); simpl; [|done]. destruct (bcast_text a); simpl; [|done].
  intros [= <-]. by do 6 eexists.
Qed.

(** Every address of a device in a family can be converted. *)
Lemma addresses_data i q addrs :
  Forall (fun a => supported_family (ra_family a) = true -> is_Some (addr_data a)) addrs ->
  exists ds, Forall2 (fun a d => addr_data a = Some d)
    (addresses_of i (query_family q) addrs) ds.
Proof.
  intros Ha. unfold addresses_of. induction Ha as [|a addrs Ha _ [ds IH]]; [by exists []|].
  rewrite filter_cons. case_decide as Hf; [|by exists ds].
  destruct Ha as [d Hd]; [by destruct Hf as [_ ->], q|]. exists (d :: ds). by constructor.
Qed.

(** What a finished query leaves: the list, and a sound world. *)
Lemma building_sound w refs ll ds w' :
  sound w refs -> building w refs ll ds w' -> sound w' ({[+ ll +]} ⊎ refs) /\ extends w w'.
Proof.
  intros [Hw Ht Hc] [_ Hwf Hon _ Hmd].
  assert (forall i o, w_heap w !! i = Some o -> w_heap w' !! i = Some o) as Hold.
  { intros i o Hi. rewrite (on_heap _ _ Hon); [done|]. by eapply (wf_fresh _ _ _ (wf_hp _ _ Hw)). }
  split; [split; [exact Hwf| |]|].
  - eapply (typed_from_trans _ _ _ nothing);
      [exact Ht|apply Hon|apply Hw|by unfold nothing|exact Hmd].
  - apply (conn_ok_frame w); [done|apply Hon|apply Hon|]. apply users_extends. eauto.
  - split; [apply Hon| |by eauto|apply Hon|apply Hon]. intros i o Hi. exists o.
    split; [by apply Hold|]. split; [lia|done].
Qed.

(** [get_etherinfo_address] keeps the world sound, and returns a new list of
    addresses, or [NULL]. *)
Lemma address_at_work w refs l rc e c q name :
  at_work l rc e c w -> sound w refs -> str_is (w_heap w) (device e) name ->
  wp (get_etherinfo_address (Loc l) q) (fun r w' => sound w' (ptr_refs r ⊎ refs) /\
    extends w w' /\ exists e', at_work l rc e' c w' /\ device e' = device e /\
      index_from name (index e) (index e') /\
      (r = Null /\ index e < 0 /\ unresolved name \/
       exists ll, r = Loc ll /\ w_err w' = w_err w /\ addr_list (w_heap w') (index e') q ll)) w.
Proof.
  intros Ha0 Hs Hn.
  destruct (query_prefix w refs l rc e c name Ha0 Hs Hn)
    as (w1 & e1 & Ha & Hs1 & Hx & Hd & _ & Hk & [(Hneg & Hun & _ & E)|(Hi & Her & _ & E)]);
    unfold wp; rewrite E.
  { split; [eapply sound_eq; [done|simpl; multiset_solver]|]. split; [done|].
    exists e1. do 3 (split; [done|]). by left. }
  destruct (up_addresses (w_env w1)) as (addrs & Hr & Hcv).
  destruct (addr_cache_reply true (w_env w1)) as [r1 k1] eqn:Er. simpl in Hr. subst r1.
  pose proof (up_addr_filter k1) as H1.
  destruct (rtnl_addr_alloc_ok k1) as [[] k2] eqn:Ek; [|done].
  destruct (addresses_data (index e1) q addrs Hcv) as [ds Hds].
  eapply wp_mono.
  { apply (get_address_ok w1 l rc e1 c true q addrs ds k1 k2 refs); [by apply Ha|by apply Ha|
      done|by apply Hs1|done..|apply up_memory]. }
  intros r w' [-> Hb]. unfold asked_addresses in Hb.
  rewrite (opened_again _ _ _ _ _ Ha) in Hb.
  set (wa := set_env k2 _) in Hb.
  assert (sound wa refs) as Hsa by (eapply (sound_frame _ _ _ Hs1); simpl; done || lia).
  destruct (building_sound _ _ _ _ _ Hsa Hb) as [Hs' Hx'].
  assert (extends w1 w') as Hx1 by (etrans; [|exact Hx']; by apply extends_frame).
  pose proof (at_work_ether _ _ _ _ _ Ha) as He1.
  split; [exact Hs'|]. split; [by etrans|]. pose proof (bld_new _ _ _ _ _ Hb) as Hon.
  exists e1. split; [|split; [done|split; [done|right]]].
  - eapply at_work_frame; [exact Ha| |done|apply Hon|apply Hon|].
    + rewrite (on_heap _ _ Hon); [apply He1|].
      apply (wf_fresh _ _ _ (wf_hp _ _ (sd_wf _ _ Hsa)) _ _ (proj1 He1)).
    + rewrite (on_nlnext _ _ Hon). simpl. lia.
  - eexists. split; [done|]. split; [by rewrite (on_err _ _ Hon)|]. destruct (bld_items _ _ _ _ _ Hb) as (ps & Hl & Hf).
    exists ps, ds. do 2 (split; [done|]). split; [done|].
    exists (w_env w1), addrs. by rewrite Er.
Qed.

Lemma address_ok w refs l rc e q name :
  sound w refs -> ether_at l rc e w -> countable w -> str_is (w_heap w) (device e) name ->
  wp (get_etherinfo_address (Loc l) q) (fun r w' => sound w' (ptr_refs r ⊎ refs) /\
    extends w w' /\ exists e' c, at_work l rc e' c w' /\ device e' = device e /\
      index_from name (index e) (index e') /\
      (r = Null /\ index e < 0 /\ unresolved name \/
       exists ll, r = Loc ll /\ w_err w' = w_err w /\ addr_list (w_heap w') (index e') q ll)) w.
Proof.
  intros Hs He Hc Hn. destruct (query_open w refs l rc e Hs He Hc)
    as (c & w0 & Ha & Hs0 & Hx & Her & _ & E). unfold wp. rewrite E.
  eapply wp_mono; [apply (address_at_work w0 refs l rc (with_active 1 e) c q name Ha Hs0);
    by eapply str_is_extends|].
  intros r w' (Hs' & Hx' & e' & Ha' & Hd). split; [done|]. split; [by etrans|].
  rewrite <- Her. by exists e', c.
Qed.
End ether.
