(* ===== verification/EtherInfoObj.v ===== *)
(** * etherinfo_obj.c: the methods and attributes of etherinfo objects

    (The deallocator is in Objects.v.) *)
From S2P Require Import Prelude.
From S2P Require Import Platform.
From S2P Require Import CPython.
From S2P Require Import Netlink.
From S2P Require Import Objects.
From S2P Require Import NetlinkAddress.
From S2P Require Import EtherInfo.

Section etherinfo_obj.
Context {K : Type} `{Platform K}.
Local Abbreviation M := (M K).

(** The last address of a list, a borrowed reference or [NULL]. *)
Definition get_last_ipv4_address (addrlist : ptr) : M ptr :=
  if is_null addrlist then mret Null
  else
    is_list ← PyList_Check addrlist;
    if negb is_list then mret Null
    else
      size ← PyList_Size addrlist;
      if 0 <? size then
        item ← PyList_GetItem addrlist (size - 1);
        ok ← is_netlink_ip_address item;
        if (ok : bool) then mret item else mret Null
      else mret Null.

Definition tab : string := String "009" EmptyString.
Definition eol : string := String "010" EmptyString.

(** One line per IPv4 address, from the [i]-th, [n] of them. *)
Fixpoint str_ipv4_loop (addrs ret : ptr) (i n : nat) : M ptr :=
  match n with
  | O => mret ret
  | S n =>
      py_addr ← PyList_GetItem addrs (Z.of_nat i);
      tmp ← PyStr_FromFormat (tab +:+ "IPv4 address: ");
      a ← get_addr py_addr;
      tmp ← PyStr_Concat tmp (local a);
      tmp ← append_str tmp ("/" +:+ fmt_d (prefixlen a));
      b ← use_ptr (ipv4_broadcast a);
      tmp ←
        (if negb (is_null b) then
           s ← PyStr_AsString_nonnull b;
           append_str tmp (tab +:+ "Broadcast: " +:+ s +:+ eol)
         else append_str tmp eol);
      ret ← PyStr_Concat ret tmp;
      str_ipv4_loop addrs ret (S i) n
  end.

Fixpoint str_ipv6_loop (addrs ret : ptr) (i n : nat) : M ptr :=
  match n with
  | O => mret ret
  | S n =>
      py_addr ← PyList_GetItem addrs (Z.of_nat i);
      a ← get_addr py_addr;
      sc ← PyStr_AsString_nonnull (scope a);
      lo ← PyStr_AsString_nonnull (local a);
      tmp ← PyStr_FromFormat (tab +:+ "IPv6 address: [" +:+ sc +:+ "] " +:+ lo
        +:+ "/" +:+ fmt_d (prefixlen a) +:+ eol);
      ret ← PyStr_Concat ret tmp;
      str_ipv6_loop addrs ret (S i) n
  end.

Definition _ethtool_etherinfo_str (self : ptr) : M ptr :=
  if is_null self then
    PyErr_SetString PyExc_AttributeError "No data available";; mret Null
  else
    get_etherinfo_link self;;
    e ← get_ether self;
    name ← PyStr_AsString_nonnull (device e);
    ret ← PyStr_FromFormat ("Device " +:+ name +:+ ":" +:+ eol);
    hw ← use_ptr (hwaddress e);
    ret ←
      (if negb (is_null hw) then
         s ← PyStr_AsString_nonnull hw;
         append_str ret (tab +:+ "MAC address: " +:+ s +:+ eol)
       else mret ret);
    ipv4addrs ← get_etherinfo_address self NLQRY_ADDR4;
    ret ←
      (if negb (is_null ipv4addrs) then
         n ← PyList_Size ipv4addrs;
         str_ipv4_loop ipv4addrs ret 0 (Z.to_nat n)
       else mret ret);
    ipv6addrs ← get_etherinfo_address self NLQRY_ADDR6;
    if negb (is_null ipv6addrs) then
      n ← PyList_Size ipv6addrs;
      str_ipv6_loop ipv6addrs ret 0 (Z.to_nat n)
    else mret ret.

Definition no_data : M ptr :=
  PyErr_SetString PyExc_AttributeError "No data available";; mret Null.

Definition _ethtool_etherinfo_get_ipv4_addresses (self : ptr) : M ptr :=
  if is_null self then no_data else get_etherinfo_address self NLQRY_ADDR4.

Definition _ethtool_etherinfo_get_ipv6_addresses (self : ptr) : M ptr :=
  if is_null self then no_data else get_etherinfo_address self NLQRY_ADDR6.

Definition _ethtool_etherinfo_methods : list (string * (ptr -> M ptr)) :=
  [("get_ipv4_addresses", _ethtool_etherinfo_get_ipv4_addresses);
   ("get_ipv6_addresses", _ethtool_etherinfo_get_ipv6_addresses)].

(** ** Attributes *)

Definition get_device (self : ptr) : M ptr :=
  e ← get_ether self;
  d ← use_ptr (device e);
  if negb (is_null d) then Py_INCREF d;; mret d else mret PyNone.

Definition get_mac_addr (self : ptr) : M ptr :=
  get_etherinfo_link self;;
  e ← get_ether self;
  hw ← use_ptr (hwaddress e);
  (if negb (is_null hw) then Py_INCREF hw else mret tt);;
  mret hw.

(** The end of the three IPv4 getters. *)
Definition unless_error (r : M ptr) : M ptr :=
  b ← PyErr_Occurred;
  if (b : bool) then mret Null else r.

Definition get_ipv4_addr (self : ptr) : M ptr :=
  addrlist ← get_etherinfo_address self NLQRY_ADDR4;
  (* For compatiblity with old approach, return last IPv4 address: *)
  py_addr ← get_last_ipv4_address addrlist;
  if negb (is_null py_addr) then
    a ← get_addr py_addr;
    l ← use_ptr (local a);
    if negb (is_null l) then Py_INCREF l;; mret l
    else unless_error (mret PyNone)
  else unless_error (mret PyNone).

Definition get_ipv4_mask (self : ptr) : M ptr :=
  addrlist ← get_etherinfo_address self NLQRY_ADDR4;
  py_addr ← get_last_ipv4_address addrlist;
  if negb (is_null py_addr) then
    a ← get_addr py_addr; PyLong_FromLong (prefixlen a)
  else unless_error (PyLong_FromLong 0).

Definition get_ipv4_bcast (self : ptr) : M ptr :=
  addrlist ← get_etherinfo_address self NLQRY_ADDR4;
  py_addr ← get_last_ipv4_address addrlist;
  if negb (is_null py_addr) then
    a ← get_addr py_addr;
    b ← use_ptr (ipv4_broadcast a);
    if negb (is_null b) then Py_INCREF b;; mret b
    else unless_error (PyStr_FromString "0.0.0.0")
  else unless_error (PyStr_FromString "0.0.0.0").

Definition _ethtool_etherinfo_attributes : list (string * (ptr -> M ptr)) :=
  [("device", get_device);
   ("mac_address", get_mac_addr);
   ("ipv4_address", get_ipv4_addr);
   ("ipv4_netmask", get_ipv4_mask);
   ("ipv4_broadcast", get_ipv4_bcast)].
End etherinfo_obj.
