(* ===== verification/EtherText.v ===== *)
(** * The text of an etherinfo object

    [str()] of an [etherinfo] object, line by line: what the text is made of,
    in any sound world, and what becomes of the strings and lists made on the
    way. *)
From S2P Require Import Prelude.
From S2P Require Import Platform.
From S2P Require Import CPython.
From S2P Require Import Netlink.
From S2P Require Import Objects.
From S2P Require Import RefCount.
From S2P Require Import Typing.
From S2P Require Import Containers.
From S2P Require Import Sound.
From S2P Require Import NetlinkAddress.
From S2P Require Import AddressFacts.
From S2P Require Import EtherInfo.
From S2P Require Import EtherInfoFacts.
From S2P Require Import EtherSound.
From S2P Require Import EtherInfoObj.

(** ** Address objects, whoever shares them *)

Definition opt_is (h : gmap positive obj) (p : ptr) (s : option string) : Prop :=
  match s with None => p = Null | Some s => str_is h p s end.

(** The object at [p] shows the data [d]. *)
Definition views (h : gmap positive obj) (p : ptr) (d : pydata) : Prop :=
  match d with
  | DAddr fam loc pe bc plen sc => exists l rc a, p = Loc l /\
      h !! l = Some (Obj rc (VAddr a)) /\ family a = fam /\ prefixlen a = plen /\
      str_is h (local a) loc /\ opt_is h (peer a) pe /\
      opt_is h (ipv4_broadcast a) bc /\ str_is h (scope a) sc
  | _ => False
  end.

Lemma is_str_is h p s : is_str h p s -> str_is h p s.
Proof. intros (l & -> & Hl). by exists l, 1. Qed.

Lemma is_str_or_null_is h p s : is_str_or_null h p s -> opt_is h p s.
Proof. destruct s; [apply is_str_is|done]. Qed.

Lemma denotes_views h p fam loc pe bc plen sc :
  denotes h p (DAddr fam loc pe bc plen sc) -> views h p (DAddr fam loc pe bc plen sc).
Proof.
  intros (l & a & -> & Hl & Hf & Hp & Hlo & Hpe & Hbc & Hsc). exists l, 1, a.
  split_and!; auto using is_str_is, is_str_or_null_is.
Qed.

Lemma opt_at_is h p : str_or_null_at h p -> exists s, opt_is h p s.
Proof. intros [->|[s Hs]%str_at_is]; [by exists None|by exists (Some s)]. Qed.

Lemma typed_views h l rc a :
  typed h -> h !! l = Some (Obj rc (VAddr a)) -> exists d, views h (Loc l) d.
Proof.
  intros Ht Hl. destruct (Ht l _ Hl ltac:(lia)) as (_ & H1 & H2 & H3 & H4).
  apply str_at_is in H1 as [lo H1]. apply opt_at_is in H2 as [pe H2].
  apply opt_at_is in H3 as [bc H3]. apply str_at_is in H4 as [sc H4].
  exists (DAddr (family a) lo pe bc (prefixlen a) sc). exists l, rc, a. done.
Qed.

Section text.
Context {K : Type} `{PL : PlatformLaws K}.
Implicit Types (w : world K) (refs keep : gmultiset positive).

Lemma opt_is_extends w w' p s :
  extends w w' -> opt_is (w_heap w) p s -> opt_is (w_heap w') p s.
Proof. destruct s; [apply str_is_extends|done]. Qed.

Lemma views_extends w w' p d :
  extends w w' -> views (w_heap w) p d -> views (w_heap w') p d.
Proof.
  intros He. destruct d; try done.
  intros (l & rc & a & -> & Hl & Hf & Hp & Hlo & Hpe & Hbc & Hsc).
  destruct (ex_old _ _ He l _ Hl) as ([rc' v] & Hl' & _ & Hv).
  destruct Hv as [E|(e & e' & E & _)]; simpl in E; [|done]. subst v.
  exists l, rc', a. split_and!; eauto using str_is_extends, opt_is_extends.
Qed.

(** ** Appending to a text *)

(** A computation that appends [t] to the text it is given, dropping that. *)
Definition appends refs keep w0 (m : ptr -> M K ptr) (t : string) (w : world K) : Prop :=
  forall p s w1, drips refs (ptr_refs p ⊎ keep) w0 w1 -> str_is (w_heap w1) p s ->
  extends w w1 -> wp (m p) (makes_str refs keep w0 (s +:+ t) w1) w1.

Lemma appends_nothing refs keep w0 w : appends refs keep w0 mret "" w.
Proof.
  intros p s w1 Hd Hp _. split; [exact Hd|]. split; [|done].
  by rewrite string_app_nil.
Qed.

Lemma appends_str refs keep w0 w t : appends refs keep w0 (fun p => append_str p t) t w.
Proof.
  intros p s w1 Hd Hp _. unfold append_str, PyStr_FromFormat. apply wp_bind.
  eapply wp_mono; [by apply (alloc_str_ok refs _ w0 w1 t Hd)|].
  intros q w2 (Hd2 & Hq & Hx & He & Hr). eapply wp_mono.
  { eapply (concat_drop_ok refs keep w0 w2 p q s t); [|by eapply str_is_extends|done].
    eapply drips_leak; [|by eapply str_is_at].
    eapply drips_eq; [exact Hd2|]. multiset_solver. }
  intros r w3 (Hd3 & Hs3 & Hx3 & He3 & Hr3). split; [done|]. split; [done|].
  split; [by etrans|]. split; [congruence|by etrans].
Qed.

Lemma appends_seq refs keep w0 w m t f u :
  appends refs keep w0 m t w -> appends refs keep w0 f u w ->
  appends refs keep w0 (fun p => m p ≫= f) (t +:+ u) w.
Proof.
  intros Hm Hf p s w1 Hd Hp Hx. apply wp_bind. eapply wp_mono; [by apply Hm|].
  intros q w2 (Hd2 & Hq & Hx2 & He2 & Hr2). eapply wp_mono; [apply Hf; [done..|by etrans]|].
  intros r w3 (Hd3 & Hs3 & Hx3 & He3 & Hr3). split; [done|].
  rewrite <- string_app_assoc. split; [done|]. split; [by etrans|]. split; [congruence|by etrans].
Qed.

(** Reading something first that does not change. *)
Lemma appends_read {A} refs keep w0 w (g : M K A) x f t :
  (forall w1, extends w w1 -> g w1 = Ret x w1) -> appends refs keep w0 (f x) t w ->
  appends refs keep w0 (fun p => g ≫= fun a => f a p) t w.
Proof.
  intros Hg Hf p s w1 Hd Hp Hx. eapply wp_step; [by apply Hg|]. by apply Hf.
Qed.

Lemma appends_field refs keep w0 w q s f t :
  str_is (w_heap w) q s -> appends refs keep w0 (f (cstr s)) t w ->
  appends refs keep w0 (fun p => PyStr_AsString_nonnull q ≫= fun a => f a p) t w.
Proof.
  intros Hq. apply appends_read. intros w1 Hx. apply as_string_eq. by eapply str_is_extends.
Qed.

(** ** The lines of the addresses *)

Definition ipv4_line (d : pydata) : string :=
  match d with
  | DAddr _ loc _ bc plen _ =>
      (tab +:+ "IPv4 address: ") +:+ loc +:+ ("/" +:+ fmt_d plen) +:+
      match bc with
      | Some b => tab +:+ "Broadcast: " +:+ cstr b +:+ eol
      | None => eol
      end
  | _ => ""
  end.

Definition ipv6_line (d : pydata) : string :=
  match d with
  | DAddr _ loc _ _ plen sc =>
      tab +:+ "IPv6 address: [" +:+ cstr sc +:+ "] " +:+ cstr loc
        +:+ "/" +:+ fmt_d plen +:+ eol
  | _ => ""
  end.

Lemma getitem_eq w ll rc ps i p :
  w_heap w !! ll = Some (Obj rc (VList ps)) -> ps !! i = Some p ->
  PyList_GetItem (Loc ll) (Z.of_nat i) w = Ret p w.
Proof.
  intros Hl Hp. unfold PyList_GetItem. rewrite (bind_Ret _ _ _ _ _ (peek_eq _ _ _ Hl)).
  cbn [ob_val]. unfold item_at. rewrite decide_True by lia. by rewrite Nat2Z.id, Hp.
Qed.

Lemma list_extends w w' ll rc ps :
  extends w w' -> w_heap w !! ll = Some (Obj rc (VList ps)) ->
  exists rc', w_heap w' !! ll = Some (Obj rc' (VList ps)).
Proof.
  intros He Hl. destruct (ex_old _ _ He ll _ Hl) as ([rc' v] & Hl' & _ & Hv).
  destruct Hv as [E|(e & e' & E & _)]; simpl in E; [|done]. subst v. by exists rc'.
Qed.

Lemma appends_concat refs keep w0 w q t :
  str_is (w_heap w) q t -> appends refs keep w0 (fun p => PyStr_Concat p q) t w.
Proof.
  intros Hq p s w1 Hd Hp Hx. eapply concat_drop_ok; [exact Hd|exact Hp|].
  by eapply str_is_extends.
Qed.

(** The end of a line: the optional broadcast address. *)
Lemma appends_broadcast refs keep w0 w b bc :
  opt_is (w_heap w) b bc ->
  appends refs keep w0 (fun tmp => b ← use_ptr b;
    if negb (is_null b) then
      s ← PyStr_AsString_nonnull b;
      append_str tmp (tab +:+ "Broadcast: " +:+ s +:+ eol)
    else append_str tmp eol)
    (match bc with Some b => tab +:+ "Broadcast: " +:+ cstr b +:+ eol | None => eol end) w.
Proof.
  intros Hb. destruct bc as [t|]; simpl in Hb.
  - pose proof Hb as (l & rc & -> & _).
    eapply (appends_read _ _ _ _ (use_ptr (Loc l)) (Loc l) (fun b tmp => if negb (is_null b)
      then s ← PyStr_AsString_nonnull b; append_str tmp _ else append_str tmp eol)); [done|].
    cbn [is_null negb]. eapply (appends_field _ _ _ _ _ _ (fun s p => append_str p _));
      [exact Hb|]. apply appends_str.
  - subst b. eapply (appends_read _ _ _ _ (use_ptr Null) Null (fun b tmp => if negb (is_null b)
      then s ← PyStr_AsString_nonnull b; append_str tmp _ else append_str tmp eol)); [done|].
    apply appends_str.
Qed.

(** The text of several lines. *)
Fixpoint lines_of (f : pydata -> string) (ds : list pydata) : string :=
  match ds with [] => "" | d :: ds => f d +:+ lines_of f ds end.

(** Going on with what has been made. *)
Lemma wp_make {A} refs keep w0 w (m : M K ptr) s (f : ptr -> M K A) Q :
  wp m (makes_str refs keep w0 s w) w ->
  (forall p w1, drips refs (ptr_refs p ⊎ keep) w0 w1 -> str_is (w_heap w1) p s ->
     extends w w1 -> w_env w1 = w_env w -> only_new w w1 -> wp (f p) Q w1) ->
  wp (m ≫= f) Q w.
Proof.
  intros Hm Hf. apply wp_bind. eapply wp_mono; [exact Hm|].
  intros p w1 (Hd & Hs & Hx & He & Hr). by apply Hf.
Qed.

Lemma makes_str_trans refs keep w0 s w w1 p w' :
  extends w w1 -> w_env w1 = w_env w -> only_new w w1 ->
  makes_str refs keep w0 s w1 p w' -> makes_str refs keep w0 s w p w'.
Proof.
  intros Hx He Hr (Hd & Hs & Hx' & He' & Hr'). split; [done|]. split; [done|].
  split; [by etrans|]. split; [congruence|by etrans].
Qed.

Lemma ipv4_loop_appends refs keep w0 w ll rc ps ds :
  w_heap w !! ll = Some (Obj rc (VList ps)) -> Forall2 (views (w_heap w)) ps ds ->
  forall n i, (i + n = length ps)%nat ->
  appends refs keep w0 (fun ret => str_ipv4_loop (Loc ll) ret i n)
    (lines_of ipv4_line (drop i ds)) w.
Proof.
  intros Hl Hf n. induction n as [|n IH]; intros i Hi.
  { rewrite drop_ge by (rewrite <- (Forall2_length Hf); lia). apply appends_nothing. }
  destruct (lookup_lt_is_Some_2 ps i) as [p Hp]; [lia|].
  destruct (Forall2_lookup_l _ _ _ _ _ Hf Hp) as (d & Hd & Hv).
  rewrite (drop_S _ _ _ Hd). cbn [lines_of str_ipv4_loop].
  destruct d as [| |fam loc pe bc plen sc|]; try done.
  intros ret s w1 Hw1 Hs Hx.
  destruct (list_extends _ _ _ _ _ Hx Hl) as [rc' Hl'].
  eapply wp_step; [by eapply getitem_eq|].
  apply (views_extends _ _ _ _ Hx) in Hv.
  destruct Hv as (la & rca & a & -> & Ha & _ & Hpl & Hlo & _ & Hbc & _).
  eapply wp_make; [by apply alloc_str_ok|]. intros t1 w2 D1 S1 X1 E1 R1.
  destruct (ex_old _ _ X1 la _ Ha) as ([rc2 v2] & Ha2 & _ & [Ev|(? & ? & ? & _)]); [|done].
  simpl in Ev. subst v2. eapply wp_step; [by eapply get_addr_eq|].
  eapply wp_make; [by eapply (appends_concat _ _ _ w1); [exact Hlo|..]|].
  intros t2 w3 D2 S2 X2 E2 R2.
  eapply wp_make; [by eapply (appends_str _ _ _ w1); [..|etrans]|].
  intros t3 w4 D3 S3 X3 E3 R3.
  assert (extends w1 w4) as X14 by (do 2 (etrans; [done|]); done).
  pose proof (appends_broadcast refs (ptr_refs ret ⊎ keep) w0 w1 _ _ Hbc t3 _ w4 D3 S3 X14) as Hb.
  apply wp_assoc. eapply wp_make; [exact Hb|]. intros t4 w5 D4 S4 X4 E4 R4.
  assert (extends w1 w5) as X15 by (by etrans).
  eapply wp_make.
  { eapply (concat_drop_ok refs keep w0 w5 ret t4); [|by eapply str_is_extends|exact S4].
    eapply drips_leak; [exact D4|]. by eapply str_is_at. }
  intros r w6 D5 S5 X5 E5 R5. eapply wp_mono.
  { apply (IH (S i) ltac:(lia) r _ w6 D5 S5). by do 2 (etrans; [done|]). }
  intros r' w' Hm. eapply (makes_str_trans _ _ _ _ w1 w6) in Hm; [|chain|congruence|chain].
  subst plen. revert Hm. cbn [ipv4_line]. by rewrite !string_app_assoc.
Qed.

Lemma ipv6_loop_appends refs keep w0 w ll rc ps ds :
  w_heap w !! ll = Some (Obj rc (VList ps)) -> Forall2 (views (w_heap w)) ps ds ->
  forall n i, (i + n = length ps)%nat ->
  appends refs keep w0 (fun ret => str_ipv6_loop (Loc ll) ret i n)
    (lines_of ipv6_line (drop i ds)) w.
Proof.
  intros Hl Hf n. induction n as [|n IH]; intros i Hi.
  { rewrite drop_ge by (rewrite <- (Forall2_length Hf); lia). apply appends_nothing. }
  destruct (lookup_lt_is_Some_2 ps i) as [p Hp]; [lia|].
  destruct (Forall2_lookup_l _ _ _ _ _ Hf Hp) as (d & Hd & Hv).
  rewrite (drop_S _ _ _ Hd). cbn [lines_of str_ipv6_loop].
  destruct d as [| |fam loc pe bc plen sc|]; try done.
  intros ret s w1 Hw1 Hs Hx.
  destruct (list_extends _ _ _ _ _ Hx Hl) as [rc' Hl'].
  eapply wp_step; [by eapply getitem_eq|].
  apply (views_extends _ _ _ _ Hx) in Hv.
  destruct Hv as (la & rca & a & -> & Ha & _ & Hpl & Hlo & _ & _ & Hsc).
  eapply wp_step; [by eapply get_addr_eq|].
  eapply wp_step; [by apply as_string_eq|]. eapply wp_step; [by apply as_string_eq|].
  eapply wp_make; [by apply alloc_str_ok|]. intros t1 w2 D1 S1 X1 E1 R1.
  eapply wp_make.
  { eapply (concat_drop_ok refs keep w0 w2 ret t1); [|by eapply str_is_extends|exact S1].
    eapply drips_leak; [exact D1|]. by eapply str_is_at. }
  intros r w3 D2 S2 X2 E2 R2. eapply wp_mono.
  { apply (IH (S i) ltac:(lia) r _ w3 D2 S2). by do 2 (etrans; [done|]). }
  intros r' w' Hm. eapply (makes_str_trans _ _ _ _ w1 w3) in Hm; [|chain|congruence|chain].
  subst plen. revert Hm. cbn [ipv6_line]. by rewrite !string_app_assoc.
Qed.
End text.

(** ** The queries while something is held *)

Section queries.
Context {K : Type} `{PL : PlatformLaws K} {UP : NetlinkUp K}.
Implicit Types (w : world K) (refs keep : gmultiset positive).

(** The object can be asked: it is at work, or can be put to work. *)
Definition ready l rc e w : Prop :=
  ether_at l rc e w /\ (countable w \/ exists c, at_work l rc e c w).

Lemma ready_at_work l rc e c w : at_work l rc e c w -> ready l rc e w.
Proof. intros Ha. split; [by eapply at_work_ether|]. right. by exists c. Qed.

(** The object as a query leaves it: the device stays, and the index is known or
    asked for. *)
Definition asked l rc name (e e' : PyEtherInfo) w : Prop :=
  (exists c, at_work l rc e' c w) /\ device e' = device e /\
  index_from (K := K) name (index e) (index e').

Lemma link_drips refs keep w0 w l rc e name :
  drips refs keep w0 w -> ready l rc e w -> str_is (w_heap w) (device e) name ->
  wp (get_etherinfo_link (Loc l)) (fun _ w' => drips refs keep w0 w' /\ extends w w' /\
    exists e', asked l rc name e e' w' /\ hw_asked (K := K) name e e' (w_heap w')) w.
Proof.
  intros [(leaked & Hs & Hi) Hx] [He Hr] Hd.
  assert (wp (get_etherinfo_link (Loc l)) (fun _ w' => sound w' (keep ⊎ (leaked ⊎ refs)) /\
    extends w w' /\ exists e', asked l rc name e e' w' /\
      hw_asked (K := K) name e e' (w_heap w')) w) as Hq.
  { destruct Hr as [Hn|[c Ha]]; eapply wp_mono.
    - by apply (link_ok w _ l rc e name Hs He Hn).
    - intros _ w' (Hs' & Hx' & e' & c & Ha' & Hd' & Hk & Hh). do 2 (split; [done|]).
      exists e'. split; [|done]. split; [by exists c|done].
    - by apply (link_at_work w _ l rc e c name Ha Hs).
    - intros _ w' (Hs' & Hx' & e' & Ha' & Hd' & Hk & Hh). do 2 (split; [done|]).
      exists e'. split; [|done]. split; [by exists c|done]. }
  eapply wp_mono; [exact Hq|]. intros _ w' (Hs' & Hx' & He'). split; [|done].
  split; [|by etrans]. exists leaked. split; [done|]. by eapply inert_extends.
Qed.

(** A list of address objects at [r], for what the kernel lists of the device
    and family, whoever shares the objects. *)
Definition address_views (i : Z) (q : nlQuery) (r : ptr) (ds : list pydata)
    (h : gmap positive obj) : Prop :=
  exists ll ps, r = Loc ll /\ h !! ll = Some (Obj 1 (VList ps)) /\
    Forall2 (views h) ps ds /\ kernel_lists (K := K) i q ds.

Lemma denoted_views i q h ps ds :
  Forall2 (denotes h) ps ds -> kernel_lists (K := K) i q ds -> Forall2 (views h) ps ds.
Proof.
  intros Hf (_ & k & addrs & _ & Hd). revert ps Hf.
  induction Hd as [|a d as' ds Hd _ IH]; intros ps Hf.
  - apply Forall2_nil_inv_r in Hf as ->. constructor.
  - apply Forall2_cons_inv_r in Hf as (p & ps' & Hp & Hf & ->).
    constructor; [|by apply IH].
    destruct (addr_data_is _ _ Hd) as (? & ? & ? & ? & ? & ? & ->). by apply denotes_views.
Qed.

Lemma views_addr h p d : views h p d -> addr_at h p.
Proof. destruct d; try done. intros (l & rc & a & -> & Hl & _). by exists l, rc, a. Qed.

Lemma address_views_inert i q r ds h : address_views i q r ds h -> inert h (ptr_refs r).
Proof.
  intros (ll & ps & -> & Hl & Hv & _) j Hj. simpl in Hj.
  apply gmultiset_elem_of_singleton in Hj as ->. exists 1, (VList ps). split; [done|].
  split; [|done]. simpl. clear -Hv. induction Hv; constructor; [|done]. by eapply views_addr.
Qed.

Lemma address_drips refs keep w0 w l rc e q name :
  drips refs keep w0 w -> ready l rc e w -> str_is (w_heap w) (device e) name ->
  wp (get_etherinfo_address (Loc l) q) (fun r w' =>
    drips refs (ptr_refs r ⊎ keep) w0 w' /\ extends w w' /\
    exists e', asked l rc name e e' w' /\
      (r = Null /\ index e < 0 /\ unresolved (K := K) name \/
       exists ds, address_views (index e') q r ds (w_heap w'))) w.
Proof.
  intros [(leaked & Hs & Hi) Hx] [He Hr] Hd.
  assert (wp (get_etherinfo_address (Loc l) q) (fun r w' =>
    sound w' (ptr_refs r ⊎ (keep ⊎ (leaked ⊎ refs))) /\ extends w w' /\
    exists e', asked l rc name e e' w' /\
      (r = Null /\ index e < 0 /\ unresolved (K := K) name \/
       exists ll, r = Loc ll /\ w_err w' = w_err w /\
         addr_list (K := K) (w_heap w') (index e') q ll)) w) as Hq.
  { destruct Hr as [Hn|[c Ha]]; eapply wp_mono.
    - by apply (address_ok w _ l rc e q name Hs He Hn).
    - intros r w' (Hs' & Hx' & e' & c & Ha' & Hd' & Hk & Hl). do 2 (split; [done|]).
      exists e'. split; [|done]. by split; [exists c|].
    - by apply (address_at_work w _ l rc e c q name Ha Hs).
    - intros r w' (Hs' & Hx' & e' & Ha' & Hd' & Hk & Hl). do 2 (split; [done|]).
      exists e'. split; [|done]. by split; [exists c|]. }
  eapply wp_mono; [exact Hq|]. intros r w' (Hs' & Hx' & e' & Ha' & Hl).
  split; [|split; [done|]].
  - split; [|by etrans]. exists leaked. split; [|by eapply inert_extends].
    eapply sound_eq; [exact Hs'|]. multiset_solver.
  - exists e'. split; [done|].
    destruct Hl as [Hl|(ll & -> & _ & ps & ds & Hl & Hf & Hds)]; [by left|].
    right. exists ds, ll, ps. split; [done|]. split; [done|].
    split; [by eapply denoted_views|done].
Qed.

(** A list that is dropped. *)
Lemma drips_leak_list refs keep w0 w i q r ds :
  drips refs (ptr_refs r ⊎ keep) w0 w -> address_views i q r ds (w_heap w) ->
  drips refs keep w0 w.
Proof.
  intros [(leaked & Hs & Hi) He] Hr. split; [|done]. exists (ptr_refs r ⊎ leaked). split.
  - eapply sound_eq; [exact Hs|]. multiset_solver.
  - apply inert_union. split; [by eapply address_views_inert|done].
Qed.

Lemma address_views_extends w w' i q r ds :
  extends w w' -> address_views i q r ds (w_heap w) -> address_views i q r ds (w_heap w').
Proof.
  intros Hx (ll & ps & -> & Hl & Hv & Hk). exists ll, ps.
  split; [done|]. split; [by apply (ex_lists _ _ Hx)|]. split; [|done].
  eapply list.Forall2_impl; [exact Hv|]. intros p d. by apply views_extends.
Qed.
End queries.

(** ** The text of an etherinfo object *)

Definition ether_text (name : string) (hw : option string) (ds4 ds6 : list pydata) : string :=
  ("Device " +:+ cstr name +:+ ":" +:+ eol) +:+
  match hw with Some hw => tab +:+ "MAC address: " +:+ cstr hw +:+ eol | None => "" end +:+
  lines_of ipv4_line ds4 +:+ lines_of ipv6_line ds6.

Section str.
Context {K : Type} `{PL : PlatformLaws K} {UP : NetlinkUp K}.
Implicit Types (w : world K) (refs keep : gmultiset positive).

Lemma ether_typed w refs l rc e :
  sound w refs -> ether_at l rc e w ->
  (exists name, str_is (w_heap w) (device e) name) /\
  exists hw, opt_is (w_heap w) (hwaddress e) hw.
Proof.
  intros Hs [Hl Hrc]. destruct (sd_typed _ _ Hs l _ Hl ltac:(lia)) as [_ [H1 H2]].
  split; [by apply str_at_is|by apply opt_at_is].
Qed.

Lemma drips_wf refs keep w0 w : drips refs keep w0 w -> exists leaked,
  sound w (keep ⊎ (leaked ⊎ refs)).
Proof. intros [(leaked & Hs & _) _]. by exists leaked. Qed.

Lemma at_work_only_new w refs l rc e c w' :
  wf w refs -> at_work l rc e c w -> only_new w w' -> at_work l rc e c w'.
Proof.
  intros Hw Ha Hon. pose proof (at_work_ether _ _ _ _ _ Ha) as [Hl _].
  eapply at_work_frame; [exact Ha| |done|apply Hon|apply Hon|by rewrite (on_nlnext _ _ Hon)].
  rewrite (on_heap _ _ Hon); [done|]. by eapply (wf_fresh _ _ _ (wf_hp _ _ Hw)).
Qed.

(** The lines of a query, when it gave any. *)
Lemma query_lines (loop : ptr -> ptr -> nat -> nat -> M K ptr) f refs keep w0 w i q r ds :
  (forall refs keep w0 w ll rc ps ds, w_heap w !! ll = Some (Obj rc (VList ps)) ->
     Forall2 (views (w_heap w)) ps ds -> forall n i, (i + n = length ps)%nat ->
     appends refs keep w0 (fun ret => loop (Loc ll) ret i n) (lines_of f (drop i ds)) w) ->
  (r = Null /\ ds = [] \/ address_views (K := K) i q r ds (w_heap w)) ->
  appends refs keep w0 (fun ret => if negb (is_null r)
    then n ← PyList_Size r; loop r ret 0%nat (Z.to_nat n) else mret ret) (lines_of f ds) w.
Proof.
  intros Hloop [[-> ->]|(ll & ps & -> & Hl & Hv & _)]; [apply appends_nothing|].
  cbn [is_null negb].
  eapply (appends_read _ _ _ _ (PyList_Size (Loc ll)) (Z.of_nat (length ps))
    (fun n ret => loop (Loc ll) ret 0%nat (Z.to_nat n))).
  - intros w1 Hx. destruct (list_extends _ _ _ _ _ Hx Hl) as [rc' Hl'].
    unfold PyList_Size. by rewrite (bind_Ret _ _ _ _ _ (peek_eq _ _ _ Hl')).
  - rewrite Nat2Z.id. apply (Hloop _ _ _ _ ll 1 ps ds Hl Hv _ 0%nat). lia.
Qed.

(** The line of the hardware address. *)
Lemma appends_mac refs keep w0 w p hw :
  opt_is (w_heap w) p hw ->
  appends refs keep w0 (fun ret => hw ← use_ptr p;
    if negb (is_null hw) then
      s ← PyStr_AsString_nonnull hw;
      append_str ret (tab +:+ "MAC address: " +:+ s +:+ eol)
    else mret ret)
    (match hw with Some hw => tab +:+ "MAC address: " +:+ cstr hw +:+ eol | None => "" end) w.
Proof.
  intros Hp. destruct hw as [t|]; simpl in Hp.
  - pose proof Hp as (l & rc & -> & _).
    eapply (appends_read _ _ _ _ (use_ptr (Loc l)) (Loc l) (fun b ret => if negb (is_null b)
      then s ← PyStr_AsString_nonnull b; append_str ret _ else mret ret)); [done|].
    cbn [is_null negb]. eapply (appends_field _ _ _ _ _ _ (fun s p => append_str p _));
      [exact Hp|]. apply appends_str.
  - subst p. eapply (appends_read _ _ _ _ (use_ptr Null) Null (fun b ret => if negb (is_null b)
      then s ← PyStr_AsString_nonnull b; append_str ret _ else mret ret)); [done|].
    apply appends_nothing.
Qed.

(** What the queries on the way found.  The index is the one the object knows or
    that of the link with the name of the device; when the kernel would not say,
    nothing is found. *)
Definition found_hw (name : string) (e : PyEtherInfo) (h : gmap positive obj)
    (hw : option string) : Prop :=
  opt_is h (hwaddress e) hw /\ unresolved (K := K) name \/
  exists (k : K) ls i, (link_cache_reply true k).1 = inr ls /\ 0 <= i /\
    index_from (K := K) name (index e) i /\
    match hwaddress e, links_of i ls with
    | Null, lk :: _ => hw = Some (hw_text lk)
    | _, _ => opt_is h (hwaddress e) hw
    end.

Definition found_addresses (name : string) (i0 : Z) (q : nlQuery) (ds : list pydata) : Prop :=
  ds = [] /\ i0 < 0 /\ unresolved (K := K) name \/
  exists i, index_from (K := K) name i0 i /\ kernel_lists (K := K) i q ds.

Lemma str_is_inj h p s t : str_is h p s -> str_is h p t -> s = t.
Proof. intros (l & rc & -> & Hl) (l' & rc' & [= <-] & Hl'). congruence. Qed.

Lemma opt_is_inj h p s t : opt_is h p s -> opt_is h p t -> s = t.
Proof.
  destruct s, t; simpl; intros H1 H2; subst; try done.
  - f_equal. by eapply str_is_inj.
  - by destruct H1 as (? & ? & ? & _).
  - by destruct H2 as (? & ? & ? & _).
Qed.

Lemma hw_found w refs l rc e e' w' hw name :
  sound w refs -> ether_at l rc e w -> extends w w' ->
  hw_asked (K := K) name e e' (w_heap w') -> index_from (K := K) name (index e) (index e') ->
  opt_is (w_heap w') (hwaddress e') hw -> found_hw name e (w_heap w) hw.
Proof.
  intros Hs He Hx Hk Hi Hhw.
  destruct (ether_typed w refs l rc e Hs He) as [_ [hw0 Hhw0]].
  assert (hwaddress e' = hwaddress e -> opt_is (w_heap w) (hwaddress e) hw) as Hsame.
  { intros E. rewrite E in Hhw. apply (opt_is_extends _ _ _ _ Hx) in Hhw0 as Hhw1.
    by rewrite (opt_is_inj _ _ _ _ Hhw Hhw1). }
  destruct Hk as [[E Hu]|(Hi0 & k & ls & Hr & Hk)]; [left; by split; [apply Hsame|]|].
  right. exists k, ls, (index e'). do 3 (split; [done|]).
  unfold hw_from in Hk. destruct (hwaddress e) eqn:Eh, (links_of (index e') ls);
    try by apply Hsame.
  destruct hw as [hw|]; simpl in Hhw.
  - f_equal. by eapply str_is_inj.
  - rewrite Hhw in Hk. by destruct Hk as (? & ? & ? & _).
Qed.

(** An address query as part of the text. *)
Lemma address_step refs keep w0 w l rc e q name :
  drips refs keep w0 w -> ready l rc e w -> str_is (w_heap w) (device e) name ->
  wp (get_etherinfo_address (Loc l) q) (fun r w' =>
    drips refs (ptr_refs r ⊎ keep) w0 w' /\ extends w w' /\
    exists e' ds, asked l rc name e e' w' /\
      (r = Null /\ ds = [] \/ address_views (K := K) (index e') q r ds (w_heap w')) /\
      found_addresses name (index e) q ds) w.
Proof.
  intros Hd Hr Hn. eapply wp_mono; [by apply (address_drips refs keep w0 w l rc e q name)|].
  intros r w' (Hd' & Hx & e' & Ha & Hv). split; [done|]. split; [done|]. exists e'.
  destruct Hv as [(-> & Hneg & Hu)|[ds Hv]].
  - exists []. split; [done|]. split; by left.
  - exists ds. split; [done|]. split; [by right|]. right. destruct Ha as (_ & _ & Hk).
    destruct Hv as (ll & ps & _ & _ & _ & Hv). by exists (index e').
Qed.

(** The list of a query is dropped once its lines are made. *)
Lemma drips_leak_query refs t r ds w0 w w' i q :
  extends w w' -> (r = Null /\ ds = [] \/ address_views (K := K) i q r ds (w_heap w)) ->
  drips refs (ptr_refs t ⊎ ptr_refs r) w0 w' -> drips refs (ptr_refs t) w0 w'.
Proof.
  intros Hx [[-> ->]|Hv] Hd.
  - eapply drips_eq; [exact Hd|]. simpl. multiset_solver.
  - eapply drips_leak_list; [|by eapply address_views_extends].
    eapply drips_eq; [exact Hd|]. multiset_solver.
Qed.

Lemma found_from name i j q ds :
  index_from (K := K) name i j -> found_addresses name j q ds -> found_addresses name i q ds.
Proof.
  intros Hi [(-> & Hneg & Hu)|(i' & Hj & Hds)].
  - left. split; [done|]. split; [|done]. destruct Hi as [[? ->]|[? _]]; lia.
  - right. exists i'. split; [by eapply index_from_trans|done].
Qed.

(** The text of an object in any sound world, and what it is made of. *)
Lemma etherinfo_str_ok w refs l rc e name :
  sound w refs -> ready l rc e w -> str_is (w_heap w) (device e) name ->
  wp (_ethtool_etherinfo_str (Loc l)) (fun r w' => drips refs (ptr_refs r) w w' /\
    exists hw ds4 ds6, str_is (w_heap w') r (ether_text name hw ds4 ds6) /\
      found_hw name e (w_heap w) hw /\ found_addresses name (index e) NLQRY_ADDR4 ds4 /\
      found_addresses name (index e) NLQRY_ADDR6 ds6) w.
Proof.
  intros Hs Hr Hname. pose proof (proj1 Hr) as He.
  unfold _ethtool_etherinfo_str. cbn [is_null]. cbv iota.
  apply wp_bind. eapply wp_mono.
  { by apply (link_drips refs ∅ w w l rc e name (drips_start w refs Hs)). }
  intros _ w1 (D1 & X1 & e1 & ((c & A1) & Hd1 & Hi1) & Hk1).
  destruct (drips_wf _ _ _ _ D1) as [lk1 S1].
  destruct (ether_typed _ _ _ _ _ S1 (at_work_ether _ _ _ _ _ A1)) as [_ [hw Hhw]].
  assert (str_is (w_heap w1) (device e1) name) as Hname1
    by (rewrite Hd1; by eapply str_is_extends).
  eapply wp_step; [eapply get_ether_eq, A1|]. cbv beta.
  eapply wp_step; [by apply as_string_eq|].
  eapply wp_make; [by apply alloc_str_ok|]. intros t1 w2 D2 T2 X2 _ N2.
  apply wp_assoc. eapply wp_make.
  { eapply (appends_mac refs ∅ w w1 _ hw Hhw t1 _ w2); [|exact T2|exact X2].
    exact D2. }
  intros t2 w3 D3 T3 X3 _ N3.
  assert (at_work l rc e1 c w3) as A3.
  { eapply at_work_only_new; [exact (sd_wf _ _ S1)|exact A1|chain]. }
  apply wp_bind. eapply wp_mono.
  { apply (address_step refs _ w w3 l rc e1 NLQRY_ADDR4 name D3); [by eapply ready_at_work|].
    eapply str_is_extends; [|exact Hname1]. chain. }
  intros r4 w4 (D4 & X4 & e4 & ds4 & ((c4 & A4) & Hd4 & Hi4) & V4 & F4).
  destruct (drips_wf _ _ _ _ D4) as [lk4 S4].
  eapply wp_make.
  { eapply (query_lines str_ipv4_loop ipv4_line refs (ptr_refs r4) w w4 (index e4)
      NLQRY_ADDR4 r4 ds4); [intros; by eapply ipv4_loop_appends|exact V4| |
      by eapply str_is_extends|done].
    eapply drips_eq; [exact D4|]. multiset_solver. }
  intros t3 w5 D5 T5 X5 _ N5.
  apply (drips_leak_query _ _ _ _ _ _ _ _ _ X5 V4) in D5.
  assert (at_work l rc e4 c4 w5) as A5.
  { eapply at_work_only_new; [exact (sd_wf _ _ S4)|exact A4|exact N5]. }
  assert (str_is (w_heap w5) (device e4) name) as Hname5.
  { rewrite Hd4. eapply str_is_extends; [|exact Hname1]. chain. }
  apply wp_bind. eapply wp_mono.
  { by apply (address_step refs _ w w5 l rc e4 NLQRY_ADDR6 name D5); [eapply ready_at_work|]. }
  intros r6 w6 (D6 & X6 & e6 & ds6 & _ & V6 & F6).
  eapply wp_mono.
  { eapply (query_lines str_ipv6_loop ipv6_line refs (ptr_refs r6) w w6 _ NLQRY_ADDR6 r6 ds6);
      [intros; by eapply ipv6_loop_appends|exact V6| |by eapply str_is_extends|done].
    eapply drips_eq; [exact D6|]. multiset_solver. }
  intros r w7 (D7 & T7 & X7 & _ & N7).
  apply (drips_leak_query _ _ _ _ _ _ _ _ _ X7 V6) in D7.
  split; [exact D7|]. exists hw, ds4, ds6. split; [|split; [|split]].
  - unfold ether_text. by rewrite !string_app_assoc in *.
  - by eapply (hw_found w refs l rc e e1 w1).
  - by eapply found_from.
  - eapply found_from; [|exact F6]. by eapply index_from_trans.
Qed.
End str.
