(* ===== verification/EtherObjSound.v ===== *)
(** * Attributes, methods and representations, from any state

    The promise of everything Python can do with an object of the two types: on
    a system where NETLINK is there each of them runs without fault from any
    sound world, and leaves one ([drips]: what is not accounted for by the
    result was leaked, and is a string or a list of addresses). *)
From S2P Require Import Prelude.
From S2P Require Import Platform.
From S2P Require Import CPython.
From S2P Require Import Netlink.
From S2P Require Import Objects.
From S2P Require Import RefCount.
From S2P Require Import Typing.
From S2P Require Import Containers.
From S2P Require Import Sound.
From S2P Require Import NetlinkAddress.
From S2P Require Import AddressFacts.
From S2P Require Import EtherInfo.
From S2P Require Import EtherInfoFacts.
From S2P Require Import EtherSound.
From S2P Require Import EtherInfoObj.
From S2P Require Import EtherText.

(** What is held is alive. *)
Lemma held_live {K} (w : world K) (refs : gmultiset positive) l :
  wf w refs -> l ∈ refs -> exists o, w_heap w !! l = Some o /\ 0 < ob_refcnt o.
Proof.
  intros [Hh _] Hl. apply (wf_held _ (w_next w) l (refs ∖ {[+ l +]})).
  eapply wf_heap_eq; [exact Hh|]. multiset_solver.
Qed.

Section attributes.
Context {K : Type} `{PL : PlatformLaws K} {UP : NetlinkUp K}.
Implicit Types (w : world K) (refs keep : gmultiset positive).

(** The promise of a function that returns a new reference, or [NULL]. *)
Definition gives refs w (m : M K ptr) : Prop :=
  wp m (fun r w' => drips refs (ptr_refs r) w w' /\ is_ref_or_null r) w.

Lemma field_live w refs l o i :
  wf w refs -> w_heap w !! l = Some o -> 0 < ob_refcnt o -> Loc i ∈ val_ptrs (ob_val o) ->
  exists o', w_heap w !! i = Some o' /\ 0 < ob_refcnt o'.
Proof.
  intros [Hh _] Hl Ho Hi. eapply wf_field; [done..|]. by apply elem_ptrs_refs.
Qed.

(** Handing out a field that is a string. *)
Lemma give_field {A} refs keep w0 w l o p s (f : unit -> M K A) Q :
  drips refs keep w0 w -> w_heap w !! l = Some o -> 0 < ob_refcnt o ->
  p ∈ val_ptrs (ob_val o) -> str_is (w_heap w) p s ->
  (forall w', drips refs (ptr_refs p ⊎ keep) w0 w' -> extends w w' ->
     str_is (w_heap w') p s -> wp (f tt) Q w') ->
  wp (Py_INCREF p ≫= f) Q w.
Proof.
  intros Hd Hl Ho Hp Hs Hf. destruct (drips_wf _ _ _ _ Hd) as [lk Hsd].
  pose proof Hs as (i & rc & -> & Hi).
  destruct (field_live _ _ _ _ _ (sd_wf _ _ Hsd) Hl Ho Hp) as (o' & Hi' & Ho').
  simplify_eq. eapply wp_step; [by apply incref_eq|].
  pose proof (extends_incref w i _ Hi ltac:(done)) as Hx.
  apply Hf; [by apply drips_incref|exact Hx|by eapply str_is_extends].
Qed.

Lemma get_device_ok refs w l rc e :
  sound w refs -> ether_at l rc e w ->
  wp (get_device (Loc l)) (fun r w' => drips refs (ptr_refs r) w w' /\ r = device e) w.
Proof.
  intros Hs [Hl Hrc]. destruct (ether_typed w refs l rc e Hs (conj Hl Hrc)) as [[name Hn] _].
  unfold get_device. eapply wp_step; [by eapply get_ether_eq|].
  assert (use_ptr (device e) w = Ret (device e) w) as Hu
    by (by destruct Hn as (? & ? & -> & _)).
  eapply wp_step; [exact Hu|]. rewrite (str_is_not_null _ _ _ Hn). cbn [negb]. cbv iota.
  eapply (give_field refs ∅ w w l); [by apply drips_start|done|done|left|exact Hn|].
  intros w' Hd _ _. split; [|done]. eapply drips_eq; [exact Hd|]. multiset_solver.
Qed.

Lemma get_mac_addr_ok refs w l rc e name :
  sound w refs -> ready l rc e w -> str_is (w_heap w) (device e) name ->
  wp (get_mac_addr (Loc l)) (fun r w' => drips refs (ptr_refs r) w w' /\
    exists hw, found_hw (K := K) name e (w_heap w) hw /\ opt_is (w_heap w') r hw) w.
Proof.
  intros Hs Hr Hn. unfold get_mac_addr. apply wp_bind.
  eapply wp_mono; [by apply (link_drips refs ∅ w w l rc e name (drips_start w refs Hs))|].
  intros _ w1 (D1 & X1 & e1 & ((c & A1) & _ & Hi1) & Hk1).
  destruct (drips_wf _ _ _ _ D1) as [lk S1]. apply at_work_ether in A1 as [Hl1 Hrc1].
  destruct (ether_typed _ _ _ _ _ S1 (conj Hl1 Hrc1)) as [_ [hw Hhw]].
  assert (found_hw (K := K) name e (w_heap w) hw) as Hf
    by (eapply (hw_found w refs l rc e e1 w1); [done|apply Hr|done..]).
  eapply wp_step; [by eapply get_ether_eq|].
  destruct hw as [t|]; simpl in Hhw.
  - assert (use_ptr (hwaddress e1) w1 = Ret (hwaddress e1) w1) as Hu
      by (by destruct Hhw as (? & ? & -> & _)).
    eapply wp_step; [exact Hu|]. rewrite (str_is_not_null _ _ _ Hhw). cbn [negb]. cbv iota.
    eapply (give_field refs ∅ w w1 l); [done|done|done|right; left|exact Hhw|].
    intros w' Hd _ Ht. split; [eapply drips_eq; [exact Hd|]; multiset_solver|].
    by exists (Some t).
  - rewrite Hhw. split; [exact D1|]. by exists None.
Qed.

(** ** The last IPv4 address *)

Lemma last_views w i q r ds :
  (r = Null /\ ds = [] \/ address_views (K := K) i q r ds (w_heap w)) ->
  exists p, get_last_ipv4_address r w = Ret p w /\
    match list.last ds with
    | Some d => views (w_heap w) p d /\
        exists ll rc ps, r = Loc ll /\ w_heap w !! ll = Some (Obj rc (VList ps)) /\ p ∈ ps
    | None => p = Null
    end.
Proof.
  intros [[-> ->]|(ll & ps & -> & Hl & Hv & _)]; [by exists Null|].
  unfold get_last_ipv4_address, PyList_Check, PyList_Size, is_netlink_ip_address.
  cbn [is_null]. cbv iota.
  assert (peek (Loc ll) w = Ret (VList ps) w) as Hpk by (by rewrite (peek_eq _ _ _ Hl)).
  rewrite bind_assoc, (bind_Ret _ _ _ _ _ Hpk), bind_ret_l. cbn [negb]. cbv iota.
  rewrite bind_assoc, (bind_Ret _ _ _ _ _ Hpk), bind_ret_l.
  destruct (list.last ds) as [d|] eqn:El.
  - apply last_Some in El as [ds0 ->].
    apply Forall2_app_inv_r in Hv as (ps0 & ps1 & Hv0 & Hv1 & ->).
    apply Forall2_cons_inv_r in Hv1 as (p & ps2 & Hp & Hv2 & ->).
    apply Forall2_nil_inv_r in Hv2 as ->. exists p.
    split; [|split; [done|]; exists ll, 1, (ps0 ++ [p]); by rewrite elem_of_app, elem_of_cons; auto].
    rewrite length_app. cbn [length]. rewrite (proj2 (Z.ltb_lt _ _)) by lia.
    replace (Z.of_nat (length ps0 + 1) - 1) with (Z.of_nat (length ps0)) by lia.
    erewrite bind_Ret by (eapply getitem_eq; [exact Hl|by apply list_lookup_middle]).
    destruct (views_addr _ _ _ Hp) as (la & rca & a & -> & Ha).
    by rewrite bind_assoc, (bind_Ret _ _ _ _ _ (peek_eq _ _ _ Ha)).
  - apply last_None in El as ->. apply Forall2_nil_inv_r in Hv as ->. by exists Null.
Qed.

(** An item of a list that is held is live. *)
Lemma item_live refs keep w0 w ll rc ps i :
  drips refs (ptr_refs (Loc ll) ⊎ keep) w0 w ->
  w_heap w !! ll = Some (Obj rc (VList ps)) -> Loc i ∈ ps ->
  exists o, w_heap w !! i = Some o /\ 0 < ob_refcnt o.
Proof.
  intros Hd Hl Hi. destruct (drips_wf _ _ _ _ Hd) as [lk Hs].
  destruct (held_live w _ ll (sd_wf _ _ Hs)) as (o & Hl' & Ho); [simpl; multiset_solver|].
  simplify_eq. by eapply field_live; [apply (sd_wf _ _ Hs)|exact Hl|..].
Qed.

(** A computation that makes something [good]. *)
Definition obtains refs keep w0 (good : ptr -> world K -> Prop) (m : M K ptr) w : Prop :=
  wp m (fun r w' => drips refs (ptr_refs r ⊎ keep) w0 w' /\ extends w w' /\ good r w') w.

Lemma obtains_field refs keep w0 w l o p s :
  drips refs keep w0 w -> w_heap w !! l = Some o -> 0 < ob_refcnt o ->
  p ∈ val_ptrs (ob_val o) -> str_is (w_heap w) p s ->
  obtains refs keep w0 (fun r w' => str_is (w_heap w') r s) (Py_INCREF p;; mret p) w.
Proof. intros Hd Hl Ho Hp Hs. by eapply give_field. Qed.

Lemma obtains_new refs keep w0 w v :
  drips refs keep w0 w -> simple v ->
  obtains refs keep w0 (fun r w' => exists l rc, r = Loc l /\ w_heap w' !! l = Some (Obj rc v))
    (alloc v) w.
Proof.
  intros Hd Hv. destruct (drips_wf _ _ _ _ Hd) as [lk Hs].
  split; [by apply drips_alloc|]. split; [by eapply extends_alloc, Hs|].
  exists (w_next w), 1. split; [done|]. apply lookup_insert_eq.
Qed.

(** The result is [good], or [NULL] with an exception. *)
Definition or_error (good : ptr -> world K -> Prop) (r : ptr) (w' : world K) : Prop :=
  good r w' \/ r = Null /\ w_err w' <> None.

(** The value for an object without address, unless an exception is pending. *)
Lemma obtains_default refs keep w0 w good m :
  drips refs keep w0 w -> obtains refs keep w0 good m w ->
  obtains refs keep w0 (or_error good) (unless_error m) w.
Proof.
  intros Hd Hm. unfold unless_error, PyErr_Occurred, obtains.
  assert (gets w_err w = Ret (w_err w) w) as Hg by done.
  unfold wp. rewrite bind_assoc, (bind_Ret _ _ _ _ _ Hg), bind_ret_l.
  destruct (w_err w) as [x|] eqn:Ex.
  - split; [|split; [done|right; by rewrite Ex]]. eapply drips_eq; [exact Hd|].
    simpl. multiset_solver.
  - eapply wp_mono; [exact Hm|]. intros r w' (? & ? & ?). split; [done|]. split; [done|].
    by left.
Qed.

(** The three getters ask for the addresses and use the last. *)
Lemma last_ipv4_ok refs w l rc e name (some : PyNetlinkIPaddress -> M K ptr) none shows dflt :
  sound w refs -> ready l rc e w -> str_is (w_heap w) (device e) name ->
  (forall keep w1, drips refs keep w w1 -> obtains refs keep w dflt none w1) ->
  (forall keep w1 la rca a loc bc, drips refs keep w w1 ->
     w_heap w1 !! la = Some (Obj rca (VAddr a)) -> 0 < rca ->
     str_is (w_heap w1) (local a) loc -> opt_is (w_heap w1) (ipv4_broadcast a) bc ->
     obtains refs keep w (shows loc bc (prefixlen a)) (some a) w1) ->
  wp (r ← get_etherinfo_address (Loc l) NLQRY_ADDR4; p ← get_last_ipv4_address r;
      if negb (is_null p) then a ← get_addr p; some a else none)
    (fun r w' => drips refs (ptr_refs r) w w' /\ exists ds,
      found_addresses (K := K) name (index e) NLQRY_ADDR4 ds /\
      match list.last ds with
      | Some (DAddr _ loc _ bc plen _) => shows loc bc plen r w'
      | _ => dflt r w'
      end) w.
Proof.
  intros Hs Hr Hname Hnone Hsome. apply wp_bind. eapply wp_mono.
  { apply (address_step refs ∅ w w l rc e NLQRY_ADDR4 name (drips_start w refs Hs) Hr Hname). }
  intros r w1 (D1 & X1 & e1 & ds & _ & V1 & F1).
  destruct (last_views w1 _ _ r ds V1) as (p & Hp & Hlast).
  eapply wp_step; [exact Hp|].
  assert (drips refs (ptr_refs r) w w1) as D by (eapply drips_eq; [exact D1|multiset_solver]).
  assert (forall good m, obtains refs (ptr_refs r) w good m w1 ->
    wp m (fun r w' => drips refs (ptr_refs r) w w' /\ good r w') w1) as Hend.
  { intros good m Hm. eapply wp_mono; [exact Hm|]. intros t w2 (D2 & X2 & G). split; [|done].
    eapply drips_leak_query; [exact X2|exact V1|exact D2]. }
  destruct (list.last ds) as [d|] eqn:El.
  - destruct Hlast as [Hv (ll & rcl & ps & -> & Hl & Hin)].
    destruct d as [| |fam loc pe bc plen sc|]; try done.
    destruct Hv as (la & rca & a & -> & Ha & _ & <- & Hlo & _ & Hbc & _).
    destruct (item_live _ _ _ _ _ _ _ _ D1 Hl Hin) as (o & Hla & Ho). simplify_eq.
    cbn [is_null negb]. cbv iota. eapply wp_step; [by eapply get_addr_eq|].
    eapply wp_mono; [by eapply Hend, (Hsome _ w1 la)|].
    intros t w2 [D2 G]. split; [done|]. exists ds. by rewrite El.
  - subst p. eapply wp_mono; [by eapply Hend, Hnone|].
    intros t w2 [D2 G]. split; [done|]. exists ds. by rewrite El.
Qed.

Definition int_is (h : gmap positive obj) (p : ptr) (z : Z) : Prop :=
  exists l rc, p = Loc l /\ h !! l = Some (Obj rc (VInt z)).

Lemma get_ipv4_addr_ok refs w l rc e name :
  sound w refs -> ready l rc e w -> str_is (w_heap w) (device e) name ->
  wp (get_ipv4_addr (Loc l)) (fun r w' => drips refs (ptr_refs r) w w' /\ exists ds,
    found_addresses (K := K) name (index e) NLQRY_ADDR4 ds /\
    match list.last ds with
    | Some (DAddr _ loc _ _ _ _) => str_is (w_heap w') r loc
    | _ => or_error (fun r _ => r = PyNone) r w'
    end) w.
Proof.
  intros Hs Hr Hn. apply (last_ipv4_ok refs w l rc e name _ (unless_error (mret PyNone))
    (fun loc _ _ r w' => str_is (w_heap w') r loc) _ Hs Hr Hn).
  - intros keep w1 D. apply obtains_default; [done|]. split; [|done].
    eapply drips_eq; [exact D|]. simpl. multiset_solver.
  - intros keep w1 la rca a loc bc D Ha Hrc Hlo _. unfold obtains.
    assert (use_ptr (local a) w1 = Ret (local a) w1) as Hu by (by destruct Hlo as (? & ? & -> & _)).
    eapply wp_step; [exact Hu|]. rewrite (str_is_not_null _ _ _ Hlo). cbn [negb]. cbv iota.
    by apply (obtains_field refs keep w w1 la (Obj rca (VAddr a))); [..|left|].
Qed.

Lemma get_ipv4_mask_ok refs w l rc e name :
  sound w refs -> ready l rc e w -> str_is (w_heap w) (device e) name ->
  wp (get_ipv4_mask (Loc l)) (fun r w' => drips refs (ptr_refs r) w w' /\ exists ds,
    found_addresses (K := K) name (index e) NLQRY_ADDR4 ds /\
    match list.last ds with
    | Some (DAddr _ _ _ _ plen _) => int_is (w_heap w') r plen
    | _ => or_error (fun r w' => int_is (w_heap w') r 0) r w'
    end) w.
Proof.
  intros Hs Hr Hn. apply (last_ipv4_ok refs w l rc e name _ (unless_error (PyLong_FromLong 0))
    (fun _ _ plen r w' => int_is (w_heap w') r plen) _ Hs Hr Hn).
  - intros keep w1 D. apply obtains_default; [done|]. by apply obtains_new.
  - intros keep w1 la rca a loc bc D Ha Hrc _ _. by apply obtains_new.
Qed.

Lemma get_ipv4_bcast_ok refs w l rc e name :
  sound w refs -> ready l rc e w -> str_is (w_heap w) (device e) name ->
  wp (get_ipv4_bcast (Loc l)) (fun r w' => drips refs (ptr_refs r) w w' /\ exists ds,
    found_addresses (K := K) name (index e) NLQRY_ADDR4 ds /\
    match list.last ds with
    | Some (DAddr _ _ _ (Some bc) _ _) => str_is (w_heap w') r bc
    | _ => or_error (fun r w' => str_is (w_heap w') r "0.0.0.0") r w'
    end) w.
Proof.
  intros Hs Hr Hname.
  assert (forall keep w1, drips refs keep w w1 -> obtains refs keep w
    (or_error (fun r w' => str_is (w_heap w') r "0.0.0.0"))
    (unless_error (PyStr_FromString "0.0.0.0")) w1) as Hnone.
  { intros keep w1 D. apply obtains_default; [done|]. unfold PyStr_FromString.
    rewrite utf8_ascii by done. by apply obtains_new. }
  eapply wp_mono.
  { apply (last_ipv4_ok refs w l rc e name _ (unless_error (PyStr_FromString "0.0.0.0"))
      (fun _ bc _ r w' => match bc with Some bc => str_is (w_heap w') r bc | None =>
        or_error (fun r w' => str_is (w_heap w') r "0.0.0.0") r w' end) _ Hs Hr Hname Hnone).
    intros keep w1 la rca a loc bc D Ha Hrc _ Hbc. destruct bc as [bc|]; simpl in Hbc.
    - assert (use_ptr (ipv4_broadcast a) w1 = Ret (ipv4_broadcast a) w1) as Hu
        by (by destruct Hbc as (? & ? & -> & _)).
      unfold obtains. eapply wp_step; [exact Hu|].
      rewrite (str_is_not_null _ _ _ Hbc). cbn [negb]. cbv iota.
      by apply (obtains_field refs keep w w1 la (Obj rca (VAddr a))); [..|do 2 right; left|].
    - rewrite Hbc. by apply Hnone. }
  intros r w' (D & ds & F & G). split; [done|]. exists ds. split; [done|].
  destruct (list.last ds) as [[| |? ? ? [bc|] ? ?|]|]; exact G.
Qed.
End attributes.

(** ** The tables of the two types *)

Section tables.
Context {K : Type} `{PL : PlatformLaws K} {UP : NetlinkUp K}.
Implicit Types (w : world K) (refs keep : gmultiset positive).

Lemma str_is_ref h p s : str_is h p s -> is_ref_or_null p.
Proof. by intros (? & ? & -> & _). Qed.

Lemma or_error_ref (good : ptr -> world K -> Prop) r w :
  (good r w -> is_ref_or_null r) -> or_error good r w -> is_ref_or_null r.
Proof. intros Hg [?|[-> _]]; [by apply Hg|done]. Qed.

Lemma last_shown (ds : list pydata) (shows : option string -> string -> Z -> Prop) dflt P :
  (forall loc bc plen, shows bc loc plen -> P) -> (dflt -> P) ->
  match list.last ds with Some (DAddr _ loc _ bc plen _) => shows bc loc plen | _ => dflt end ->
  P.
Proof. intros H1 H2. destruct (list.last ds) as [[]|]; eauto. Qed.

Lemma attributes_ok :
  Forall (fun m => forall refs w l rc e, sound w refs -> ready l rc e w ->
    gives refs w (m.2 (Loc l))) (_ethtool_etherinfo_attributes (K := K)).
Proof.
  unfold _ethtool_etherinfo_attributes, gives.
  repeat (constructor; [intros refs w l rc e Hs Hr; cbn [snd];
    destruct (ether_typed w refs l rc e Hs (proj1 Hr)) as [[name Hname] _]|]); [..|constructor].
  - eapply wp_mono; [exact (get_device_ok refs w l rc e Hs (proj1 Hr))|]. intros r w' [Hd ->]. split; [done|].
    by eapply str_is_ref.
  - eapply wp_mono; [exact (get_mac_addr_ok refs w l rc e name Hs Hr Hname)|].
    intros r w' (Hd & hw & _ & Hhw). split; [done|].
    destruct hw; simpl in Hhw; [by eapply str_is_ref|by subst].
  - eapply wp_mono; [exact (get_ipv4_addr_ok refs w l rc e name Hs Hr Hname)|]. intros r w' (Hd & ds & _ & Hv).
    split; [done|]. revert Hv. apply (last_shown ds (fun _ loc _ => str_is (w_heap w') r loc)).
    + intros ? _ _. apply str_is_ref.
    + apply or_error_ref. by intros ->.
  - eapply wp_mono; [exact (get_ipv4_mask_ok refs w l rc e name Hs Hr Hname)|]. intros r w' (Hd & ds & _ & Hv).
    split; [done|]. revert Hv. apply (last_shown ds (fun _ _ z => int_is (w_heap w') r z)).
    + intros _ _ ? (? & ? & -> & _). done.
    + apply or_error_ref. by intros (? & ? & -> & _).
  - eapply wp_mono; [exact (get_ipv4_bcast_ok refs w l rc e name Hs Hr Hname)|]. intros r w' (Hd & ds & _ & Hv).
    split; [done|]. destruct (list.last ds) as [[| |? ? ? [bc|] ? ?|]|];
      first [by eapply str_is_ref|eapply or_error_ref; [|exact Hv]; apply str_is_ref].
Qed.

Lemma address_query_ok q refs w l rc e :
  sound w refs -> ready l rc e w -> gives refs w (get_etherinfo_address (Loc l) q).
Proof.
  intros Hs Hr. destruct (ether_typed w refs l rc e Hs (proj1 Hr)) as [[name Hn] _].
  eapply wp_mono.
  { apply (address_drips refs ∅ w w l rc e q name (drips_start w refs Hs) Hr Hn). }
  intros r w' (Hd & _ & e' & _ & Hv). split.
  - eapply drips_eq; [exact Hd|]. multiset_solver.
  - destruct Hv as [[-> _]|(ds & ll & ? & -> & _)]; done.
Qed.

Lemma methods_ok :
  Forall (fun m => forall refs w l rc e, sound w refs -> ready l rc e w ->
    gives refs w (m.2 (Loc l))) (_ethtool_etherinfo_methods (K := K)).
Proof.
  unfold _ethtool_etherinfo_methods.
  repeat (constructor; [intros refs w l rc e Hs Hr; cbn [snd];
    exact (address_query_ok _ refs w l rc e Hs Hr)|]).
  constructor.
Qed.

Lemma str_gives refs w l rc e :
  sound w refs -> ready l rc e w -> gives refs w (_ethtool_etherinfo_str (Loc l)).
Proof.
  intros Hs Hr. destruct (ether_typed w refs l rc e Hs (proj1 Hr)) as [[name Hn] _].
  eapply wp_mono; [exact (etherinfo_str_ok w refs l rc e name Hs Hr Hn)|].
  intros r w' (Hd & hw & ds4 & ds6 & Ht & _). split; [done|].
  by eapply str_is_ref.
Qed.

(** *** Address objects *)

Lemma give_optional refs w l o p s (none : M K ptr) :
  sound w refs -> w_heap w !! l = Some o -> 0 < ob_refcnt o -> p ∈ val_ptrs (ob_val o) ->
  opt_is (w_heap w) p s -> gives refs w none ->
  gives refs w (q ← use_ptr p; if is_null q then none else Py_INCREF q;; mret q).
Proof.
  intros Hs Hl Ho Hp Hv Hnone. destruct s as [t|]; simpl in Hv; [|by rewrite Hv].
  assert (use_ptr p w = Ret p w) as Hu by (by destruct Hv as (? & ? & -> & _)).
  unfold gives. eapply wp_step; [exact Hu|]. rewrite (str_is_not_null _ _ _ Hv).
  eapply wp_mono.
  { eapply (obtains_field refs ∅ w w l o p t); [by apply drips_start|done..]. }
  intros r w' (Hd & _ & Hr). split; [|by eapply str_is_ref].
  eapply drips_eq; [exact Hd|]. multiset_solver.
Qed.

Lemma members_ok :
  Forall (fun m => forall refs w l rc a, sound w refs ->
    w_heap w !! l = Some (Obj rc (VAddr a)) -> 0 < rc -> gives refs w (get_member m.2 (Loc l)))
    _ethtool_netlink_ip_address_members.
Proof.
  assert (forall refs w, sound w refs -> gives refs w (mret PyNone)) as Hnone.
  { intros refs w Hs. split; [by apply drips_start|done]. }
  assert (forall refs w, sound w refs ->
    gives refs w (PyErr_Internal PyExc_AttributeError;; mret Null)) as Hexc.
  { intros refs w Hs. split; [|done]. eapply drips_frame; [by apply drips_start|done..]. }
  unfold _ethtool_netlink_ip_address_members.
  repeat (constructor; [intros refs w l rc a Hs Hl Hrc; unfold get_member; cbn [snd m_type fget];
    destruct (typed_views _ _ _ _ (sd_typed _ _ Hs) Hl)
      as [[| |fam loc pe bc plen sc|] Hv]; try done;
    destruct Hv as (l' & rc' & a' & [= <-] & Hl' & _ & _ & Hlo & Hpe & Hbc & Hsc);
    simplify_eq; unfold gives; (eapply wp_step; [by eapply get_addr_eq|]); cbv beta;
    [..]|]); [..|constructor].
  - apply (give_optional refs w l (Obj rc (VAddr a)) (local a) (Some loc)); auto. left.
  - apply (give_optional refs w l (Obj rc (VAddr a)) (peer a) pe); auto. do 1 right. left.
  - eapply wp_mono; [by apply (obtains_new refs ∅ w w (VInt (prefixlen a)));
      [apply drips_start|]|].
    intros r w' (Hd & _ & (? & ? & -> & _)). split; [|done].
    eapply drips_eq; [exact Hd|]. multiset_solver.
  - apply (give_optional refs w l (Obj rc (VAddr a)) (ipv4_broadcast a) bc); auto.
    do 2 right. left.
  - apply (give_optional refs w l (Obj rc (VAddr a)) (scope a) (Some sc)); auto.
    do 3 right. left.
Qed.

(** A piece for a field that may be missing. *)
Lemma appends_optional refs keep w0 w p s (fmt : string -> string) :
  opt_is (w_heap w) p s ->
  appends refs keep w0 (fun r => if is_null p then mret r
      else s ← PyStr_AsString_nonnull p; append_str r (fmt s))
    (match s with Some s => fmt (cstr s) | None => "" end) w.
Proof.
  intros Hp. destruct s as [t|]; simpl in Hp; [|subst p; apply appends_nothing].
  rewrite (str_is_not_null _ _ _ Hp).
  eapply (appends_field _ _ _ _ _ _ (fun s r => append_str r (fmt s))); [exact Hp|].
  apply appends_str.
Qed.

(** Whatever the text. *)
Lemma makes_some refs keep w0 w s (m : M K ptr) :
  wp m (makes_str refs keep w0 s w) w ->
  wp m (fun p w' => exists s, makes_str refs keep w0 s w p w') w.
Proof. intros Hm. eapply wp_mono; [exact Hm|]. intros p w' Hp. by exists s. Qed.

Lemma wp_make_some {A} refs keep w0 w (m : M K ptr) (f : ptr -> M K A) Q :
  wp m (fun p w' => exists s, makes_str refs keep w0 s w p w') w ->
  (forall p s w1, drips refs (ptr_refs p ⊎ keep) w0 w1 -> str_is (w_heap w1) p s ->
     extends w w1 -> w_env w1 = w_env w -> only_new w w1 -> wp (f p) Q w1) ->
  wp (m ≫= f) Q w.
Proof.
  intros Hm Hf. apply wp_bind. eapply wp_mono; [exact Hm|].
  intros p w1 (s & Hd & Hs & Hx & He & Hr). by eapply Hf.
Qed.

Lemma repr_gives refs w l rc a :
  sound w refs -> w_heap w !! l = Some (Obj rc (VAddr a)) -> 0 < rc ->
  gives refs w (netlink_ip_address_repr (Loc l)).
Proof.
  intros Hs Hl Hrc. destruct (typed_views _ _ _ _ (sd_typed _ _ Hs) Hl)
    as [[| |fam loc pe bc plen sc|] Hv]; try done.
  destruct Hv as (l' & rc' & a' & [= <-] & Hl' & _ & _ & Hlo & Hpe & Hbc & Hsc).
  simplify_eq. unfold netlink_ip_address_repr, PyStr_FromString, gives.
  rewrite utf8_ascii by done.
  eapply wp_make; [apply (alloc_str_ok refs ∅ w); by apply drips_start|].
  intros t1 w1 D1 T1 X1 _ N1.
  assert (w_heap w1 !! l = Some (Obj rc (VAddr a))) as Hl1.
  { rewrite (on_heap _ _ N1); [done|]. by eapply (wf_fresh _ _ _ (wf_hp _ _ (sd_wf _ _ Hs))). }
  eapply wp_step; [by eapply get_addr_eq|].
  eapply wp_step; [apply as_string_eq; by eapply str_is_extends|].
  eapply wp_make; [by eapply (appends_str refs ∅ w w)|]. intros t2 w2 D2 T2 X2 _ N2.
  eapply wp_make_some.
  { destruct (family a =? AF_INET);
      [eapply makes_some; by eapply (appends_str refs ∅ w w); [..|chain]|].
    destruct (family a =? AF_INET6);
      [eapply makes_some; by eapply (appends_str refs ∅ w w); [..|chain]|].
    eapply makes_some. by eapply (appends_nothing refs ∅ w w); [..|chain]. }
  intros t3 s3 w3 D3 T3 X3 _ N3.
  assert (use_ptr (peer a) w3 = Ret (peer a) w3) as Hu.
  { destruct pe; simpl in Hpe; [by destruct Hpe as (? & ? & -> & _)|by rewrite Hpe]. }
  eapply wp_step; [exact Hu|].
  eapply wp_make.
  { eapply (appends_optional refs ∅ w w (peer a) pe (fun s => ", peer_address='" +:+ s +:+ "'"));
      [done..|chain]. }
  intros t4 w4 D4 T4 X4 _ N4.
  eapply wp_make_some.
  { destruct (family a =? AF_INET); cbn [andb]; eapply makes_some.
    - pose proof (appends_optional refs ∅ w w (ipv4_broadcast a) bc
        (fun s => ", broadcast='" +:+ s +:+ "'") Hbc t4 _ w4 D4 T4 ltac:(chain)) as Hb.
      destruct (is_null (ipv4_broadcast a)); exact Hb.
    - by eapply (appends_nothing refs ∅ w w); [..|chain]. }
  intros t5 s5 w5 D5 T5 X5 _ N5.
  eapply wp_step; [apply as_string_eq; eapply str_is_extends; [|exact Hsc]; chain|].
  eapply wp_mono; [by eapply (appends_str refs ∅ w w); [..|chain]|].
  intros r w6 (D6 & T6 & _). split; [|by eapply str_is_ref].
  eapply drips_eq; [exact D6|]. multiset_solver.
Qed.
End tables.
