(* ===== verification/EtherInfoObjFacts.v ===== *)
(** * Properties of the attributes of etherinfo objects *)
From S2P Require Import Prelude.
From S2P Require Import Platform.
From S2P Require Import CPython.
From S2P Require Import Netlink.
From S2P Require Import Objects.
From S2P Require Import Testbed.
From S2P Require Import RefCount.
From S2P Require Import Typing.
From S2P Require Import Containers.
From S2P Require Import NetlinkAddress.
From S2P Require Import AddressFacts.
From S2P Require Import EtherInfo.
From S2P Require Import EtherInfoFacts.
From S2P Require Import EtherInfoObj.

Section attributes.
Context {K : Type} `{PL : PlatformLaws K}.
Implicit Types w : world K.

(** ** The last address *)

(** The last item of a list of addresses. *)
Lemma last_address_ok w0 rho ll ds d w :
  building w0 rho ll (ds ++ [d]) w ->
  (exists fam loc pe bc plen sc, d = DAddr fam loc pe bc plen sc) ->
  exists la, get_last_ipv4_address (Loc ll) w = Ret (Loc la) w /\
    denotes (w_heap w) (Loc la) d.
Proof.
  intros [(ps & Hps & Hf) _ _ _ _] (fam & loc & pe & bc & plen & sc & ->).
  apply Forall2_app_inv_r in Hf as (ps0 & ps1 & Hf0 & Hf1 & ->).
  apply Forall2_cons_inv_r in Hf1 as (p & ps2 & Hp & Hf2 & ->).
  apply Forall2_nil_inv_r in Hf2 as ->.
  pose proof Hp as (la & a & -> & Hl & _). exists la. split; [|exact Hp].
  unfold get_last_ipv4_address, PyList_Check, PyList_Size, PyList_GetItem,
    is_netlink_ip_address. cbn [is_null]. cbv iota.
  rewrite bind_assoc, (bind_Ret _ _ _ _ _ (peek_eq _ _ _ Hps)). cbn [ob_val].
  rewrite bind_ret_l. cbn [negb]. cbv iota.
  rewrite bind_assoc. rewrite (bind_Ret _ _ _ _ _ (peek_eq _ _ _ Hps)). cbn [ob_val].
  rewrite bind_ret_l. rewrite length_app. cbn [length].
  rewrite (proj2 (Z.ltb_lt _ _)) by lia.
  erewrite bind_Ret.
  2:{ rewrite (bind_Ret _ _ _ _ _ (peek_eq _ _ _ Hps)). cbn [ob_val].
      replace (Z.of_nat (length ps0 + 1) - 1) with (Z.of_nat (length ps0)) by lia.
      unfold item_at. rewrite decide_True by lia. rewrite Nat2Z.id.
      rewrite list_lookup_middle by done. reflexivity. }
  rewrite bind_assoc, (bind_Ret _ _ _ _ _ (peek_eq _ _ _ Hl)). done.
Qed.

Lemma last_address_none w0 rho ll w :
  building w0 rho ll [] w -> get_last_ipv4_address (Loc ll) w = Ret Null w.
Proof.
  intros [(ps & Hps & Hf) _ _ _ _]. apply Forall2_nil_inv_r in Hf as ->.
  unfold get_last_ipv4_address, PyList_Check, PyList_Size. cbn [is_null]. cbv iota.
  rewrite bind_assoc, (bind_Ret _ _ _ _ _ (peek_eq _ _ _ Hps)). cbn [ob_val].
  rewrite bind_ret_l. cbn [negb]. cbv iota.
  by rewrite bind_assoc, (bind_Ret _ _ _ _ _ (peek_eq _ _ _ Hps)).
Qed.

(** The attribute [ipv4_address] is the local address of the last IPv4
    address the kernel lists for the device, [None] when there is none.  The
    list of all of them, made for the purpose, is never released: it stays
    with one reference that nobody holds. *)
Theorem ipv4_address_spec w l rc e c b addrs ds k1 k2 rho :
  session w l rc e c b -> 0 < rc -> 0 <= index e -> wf w rho -> w_err w = None ->
  addr_cache_reply b (w_env w) = (inr addrs, k1) ->
  rtnl_addr_alloc_ok k1 = (true, k2) ->
  Forall2 (fun a d => addr_data a = Some d)
    (addresses_of (index e) AF_INET addrs) ds ->
  memory_for (length ds) k2 ->
  wp (get_ipv4_addr (Loc l)) (fun r w' =>
    wf w' (ptr_refs r ⊎ ({[+ w_next w +]} ⊎ rho)) /\ w_err w' = None /\
    (exists ps, w_heap w' !! w_next w = Some (Obj 1 (VList ps))) /\
    match list.last ds with
    | Some (DAddr _ loc _ _ _ _) =>
        exists lr rc', r = Loc lr /\ w_heap w' !! lr = Some (Obj rc' (VStr loc))
    | _ => r = PyNone
    end) w.
Proof.
  intros Hs Hrc Hi Hw He Hr Ha Hds Hm. unfold get_ipv4_addr. apply wp_bind.
  eapply wp_mono; [by apply (get_address_ok w l rc e c b NLQRY_ADDR4 addrs ds k1 k2 rho)|].
  intros r w1 [-> Hb].
  assert (w_err w1 = None) as He1.
  { rewrite (on_err _ _ (bld_new _ _ _ _ _ Hb)). unfold asked_addresses, opened, mark.
    simpl. by destruct (nlc_active e =? 0). }
  destruct (list.last ds) as [d|] eqn:El.
  - apply last_Some in El as [ds0 ->].
    assert (exists fam loc pe bc plen sc, d = DAddr fam loc pe bc plen sc) as Hd.
    { apply Forall2_app_inv_r in Hds as (as0 & as1 & _ & Hd & _).
      apply Forall2_cons_inv_r in Hd as (a & ? & Hd & _ & _). clear -Hd.
      unfold addr_data in Hd. destruct (supported_family _), (ra_local a); simpl in Hd;
        try done. destruct (right _); simpl in Hd; [|done].
      destruct (bcast_text a); simplify_eq/=. by do 6 eexists. }
    destruct (last_address_ok _ _ _ _ _ _ Hb Hd) as (la & Hla & Hden).
    destruct Hd as (fam & loc & pe & bc & plen & sc & ->).
    destruct Hden as (la' & a & [= <-] & Hl & _ & _ & (lr & Elo & Hlo) & _).
    eapply wp_step; [exact Hla|]. cbn [is_null negb]. cbv iota.
    eapply wp_step; [by eapply get_addr_eq|]. rewrite Elo.
    eapply wp_step; [done|]. cbn [is_null negb]. cbv iota.
    eapply wp_step; [by apply incref_eq|]. cbn [ob_refcnt ob_val].
    pose proof (bld_wf _ _ _ _ _ Hb) as Hw1.
    destruct (bld_items _ _ _ _ _ Hb) as (ps & Hps & _).
    split; [|split; [exact He1|split]].
    + apply (wf_set_heap _ _ _ _ Hw1). simpl.
      exact (wf_incref _ _ lr (Obj 1 (VStr loc)) _ (wf_hp _ _ Hw1) Hlo eq_refl).
    + exists ps. simpl. rewrite lookup_insert_ne; [done|congruence].
    + exists lr, 2. split; [done|]. apply lookup_insert_eq.
  - apply last_None in El as ->.
    eapply wp_step; [by eapply last_address_none|]. cbn [is_null negb]. cbv iota.
    unfold unless_error, PyErr_Occurred.
    assert (gets w_err w1 = Ret None w1) as Hg by (unfold gets; by rewrite He1).
    unfold wp. rewrite bind_assoc, (bind_Ret _ _ _ _ _ Hg).
    split; [|split; [exact He1|split; [|done]]].
    + eapply wf_eq; [apply (bld_wf _ _ _ _ _ Hb)|]. simpl. multiset_solver.
    + destruct (bld_items _ _ _ _ _ Hb) as (ps & Hps & _). by exists ps.
Qed.

(** ** The hardware address *)

(** [mac_address] breaks the contract with the interpreter when the device
    has gone: no link has the index any more, so the address stays [NULL],
    which is returned although no exception is pending. *)
Theorem mac_address_null_without_exception w l rc e c b ls k1 k2 rho :
  session w l rc e c b -> 0 < rc -> 0 <= index e -> wf w rho -> w_err w = None ->
  hwaddress e = Null -> link_cache_reply b (w_env w) = (inr ls, k1) ->
  rtnl_link_alloc_ok k1 = (true, k2) -> links_of (index e) ls = [] ->
  wp (get_mac_addr (Loc l)) (fun r w' => r = Null /\ w_err w' = None) w.
Proof.
  intros Hs Hrc Hi Hw He Hhw Hr Ha Hls. unfold get_mac_addr.
  eapply wp_step; [apply (get_link_ok w l rc e c b ls k1 k2 rho); auto|].
  unfold linked. rewrite Hls. cbn [hwaddress with_active]. rewrite Hhw.
  pose proof (opened_session _ _ _ _ _ _ Hs) as [Ho _ _ _].
  eapply wp_step; [eapply get_ether_eq; exact Ho|].
  cbn [hwaddress with_active]. rewrite Hhw. split; [done|]. rewrite <- He.
  simpl. unfold opened, mark. by destruct (nlc_active e =? 0).
Qed.

(** And the other way round when the links cannot be had: the address found
    earlier is returned as a result, with the exception of the failed query
    pending. *)
Theorem mac_address_with_exception w l rc e c b err k1 p rcp s :
  session w l rc e c b -> 0 <= index e -> hwaddress e = Loc p ->
  w_heap w !! p = Some (Obj rcp (VStr s)) ->
  link_cache_reply b (w_env w) = (inl err, k1) ->
  wp (get_mac_addr (Loc l)) (fun r w' => r = Loc p /\
    w_err w' = Some (PyExc PyExc_OSError (ExcMsg (nl_geterror err)))) w.
Proof.
  intros Hs Hi Hp Hlp Hr. unfold get_mac_addr, get_etherinfo_link. cbn [is_null]. cbv iota.
  unfold wp. rewrite bind_assoc, (bind_Ret _ _ _ _ _ (open_eq _ _ _ _ _ _ Hs)).
  change (1 =? 0) with false. cbv iota.
  pose proof (opened_session _ _ _ _ _ _ Hs) as [Ho Hc Hsk Hn].
  destruct (opened_fields w l rc e c) as (E1 & E2 & E3 & E4). rewrite <- E3 in Hr.
  assert (w_heap (opened l rc e c w) !! p = Some (Obj rcp (VStr s))) as Hlp1.
  { pose proof (se_obj _ _ _ _ _ _ Hs). unfold opened, mark.
    destruct (nlc_active e =? 0); simpl; (rewrite lookup_insert_ne; [done|congruence]). }
  set (w1 := opened l rc e c w) in *. clearbody w1.
  unfold _set_device_index. rewrite bind_assoc. erewrite bind_Ret.
  2:{ erewrite bind_Ret by (eapply get_ether_eq; exact Ho).
      cbn [index with_active]. rewrite (proj2 (Z.ltb_ge _ _) Hi). reflexivity. }
  change (negb (1 =? 1)) with false. cbv iota.
  unfold get_nlc, get_nlconnection, rtnl_link_alloc_cache, sock_connected, Py_INCREF.
  destruct w1 as [h nx er x nlc nl nn fd fs se k]. simpl in *.
  mrun. unfold nlconnection in Hc. rewrite Hc. mrun. rewrite Hsk. mrun.
  rewrite Hr. mrun. rewrite Ho. mrun. cbn [hwaddress with_active]. rewrite Hp. mrun.
  cbn [negb]. mrun. rewrite Hlp1. mrun. done.
Qed.
End attributes.

(** ** At work *)

Lemma ipv4_address_spec_witness :
  wp (get_ipv4_addr (Loc 2)) (fun r w' =>
    wf w' (ptr_refs r ⊎ ({[+ 3%positive +]} ⊎ {[+ 2%positive +]})) /\ w_err w' = None /\
    (exists ps, w_heap w' !! 3%positive = Some (Obj 1 (VList ps))) /\
    match list.last [eth0_data] with
    | Some (DAddr _ loc _ _ _ _) =>
        exists lr rc', r = Loc lr /\ w_heap w' !! lr = Some (Obj rc' (VStr loc))
    | _ => r = PyNone
    end) (eth0_world 2 quiet).
Proof.
  apply (ipv4_address_spec (eth0_world 2 quiet) 2 1 (eth0_obj 2) 1 true
    [lo_addr; eth0_addr] [eth0_data] quiet quiet {[+ 2%positive +]}).
  - apply eth0_in_session.
  - lia.
  - simpl. lia.
  - apply eth0_world_wf.
  - reflexivity.
  - reflexivity.
  - reflexivity.
  - constructor; [vm_compute; reflexivity|constructor].
  - by split.
Defined.

(** The card has been unplugged. *)
Definition unplugged : machine := with_links [lo_link] quiet.

Lemma mac_address_null_without_exception_witness :
  wp (get_mac_addr (Loc 2)) (fun r w' => r = Null /\ w_err w' = None)
     (eth0_world 2 unplugged).
Proof.
  apply (mac_address_null_without_exception (eth0_world 2 unplugged) 2 1 (eth0_obj 2) 1
    true [lo_link] unplugged unplugged {[+ 2%positive +]}).
  - apply eth0_in_session.
  - lia.
  - simpl. lia.
  - apply eth0_world_wf.
  - reflexivity.
  - reflexivity.
  - reflexivity.
  - reflexivity.
  - reflexivity.
Defined.

Definition no_links : machine :=
  Machine (mc_socket quiet) (mc_ioctl quiet) (mc_ifaddrs quiet) (mc_files quiet)
    (mc_malloc quiet) (mc_connect quiet) (inl (-5)) (mc_addrs quiet) (mc_nl_memory quiet).

(** The object after its address was found, the kernel no longer answering. *)
Definition known_hw_world : world machine :=
  set_next 4 (set_heap (<[2%positive := Obj 1 (VEther (with_hw (Loc 3) (eth0_obj 2)))]>
    (<[3%positive := Obj 1 (VStr "52:54:00:12:34:56")]>
      (w_heap (eth0_world 2 no_links)))) (eth0_world 2 no_links)).

Lemma known_hw_session :
  session known_hw_world 2 1 (with_hw (Loc 3) (eth0_obj 2)) 1 true.
Proof. destruct (eth0_in_session 2 no_links) as [_ H1 H2 [N1 N2 N3]]. by repeat split. Qed.

Lemma mac_address_with_exception_witness :
  wp (get_mac_addr (Loc 2)) (fun r w' => r = Loc 3 /\
    w_err w' = Some (PyExc PyExc_OSError (ExcMsg (nl_geterror (-5))))) known_hw_world.
Proof.
  apply (mac_address_with_exception known_hw_world 2 1 (with_hw (Loc 3) (eth0_obj 2)) 1
    true (-5) no_links 3 1 "52:54:00:12:34:56").
  - apply known_hw_session.
  - simpl. lia.
  - reflexivity.
  - reflexivity.
  - reflexivity.
Defined.
