(* ===== verification/EthtoolModule.v ===== *)
(** * ethtool.c: the module

    The method table that connects the names Python sees to the functions, the
    two types, and the initialisation of the module. *)
From S2P Require Import Prelude.
From S2P Require Import Platform.
From S2P Require Import CPython.
From S2P Require Import Objects.
From S2P Require Import Ioctl.
From S2P Require Import StructDesc.
From S2P Require Import Devices.
From S2P Require Import NetlinkAddress.
From S2P Require Import EtherInfoObj.

Section ethtool_module.
Context {K : Type} `{Platform K}.
Context (signed_char : bool).
Local Abbreviation M := (M K).

Definition PyEthModuleMethods : list (string * (list ptr -> M ptr)) :=
  [("get_module", get_module);
   ("get_businfo", get_businfo);
   ("get_hwaddr", get_hwaddress signed_char);
   ("get_ipaddr", get_ipaddress signed_char);
   ("get_interfaces_info", get_interfaces_info);
   ("get_netmask", get_netmask signed_char);
   ("get_broadcast", get_broadcast signed_char);
   ("get_coalesce", get_coalesce);
   ("set_coalesce", set_coalesce);
   ("get_devices", get_devices);
   ("get_active_devices", get_active_devices);
   ("get_ringparam", get_ringparam);
   ("set_ringparam", set_ringparam);
   ("get_tso", get_tso);
   ("set_tso", set_tso);
   ("get_ufo", get_ufo);
   ("get_gso", get_gso);
   ("set_gso", set_gso);
   ("get_gro", get_gro);
   ("set_gro", set_gro);
   ("get_sg", get_sg);
   ("get_flags", get_flags);
   ("get_wireless_protocol", get_wireless_protocol)].

(** What a module is made of; the interpreter's structure, or with Python 2 the
    header's. *)
Record PyModuleDef := MkModuleDef {
  m_base : Z;
  m_name : string;
  m_doc : string;
  m_size : Z;
  m_methods : list (string * (list ptr -> M ptr));
}.

Definition PyModuleDef_HEAD_INIT : Z := 0.

Definition moduledef : PyModuleDef := {|
  m_base := PyModuleDef_HEAD_INIT;
  m_name := "ethtool";
  m_doc := "Python ethtool module";
  m_size := -1;
  m_methods := PyEthModuleMethods;
|}.

(** [ethtool.name(args)]. *)
Definition call_method (name : string) (args : list ptr) : option (M ptr) :=
  match List.find (fun p => String.eqb p.1 name) PyEthModuleMethods with
  | Some p => Some (p.2 args)
  | None => None
  end.
End ethtool_module.

(** [PyModule_AddIntConstant] of the initialisation function. *)
Definition int_constants : list (string * Z) :=
  [("IFF_UP", IFF_UP); ("IFF_BROADCAST", IFF_BROADCAST); ("IFF_DEBUG", IFF_DEBUG);
   ("IFF_LOOPBACK", IFF_LOOPBACK); ("IFF_POINTOPOINT", IFF_POINTOPOINT);
   ("IFF_NOTRAILERS", IFF_NOTRAILERS); ("IFF_RUNNING", IFF_RUNNING);
   ("IFF_NOARP", IFF_NOARP); ("IFF_PROMISC", IFF_PROMISC);
   ("IFF_ALLMULTI", IFF_ALLMULTI); ("IFF_MASTER", IFF_MASTER);
   ("IFF_SLAVE", IFF_SLAVE); ("IFF_MULTICAST", IFF_MULTICAST);
   ("IFF_PORTSEL", IFF_PORTSEL); ("IFF_AUTOMEDIA", IFF_AUTOMEDIA);
   ("IFF_DYNAMIC", IFF_DYNAMIC); ("AF_INET", AF_INET); ("AF_INET6", AF_INET6)].

(** ** The types, by what the interpreter finds in them *)

Section types.
Context {K : Type} `{Platform K}.
Local Abbreviation M := (M K).

Record PyTypeObject := MkType {
  tp_name : string;
  tp_str : option (ptr -> M ptr);
  tp_repr : option (ptr -> M ptr);
  tp_getset : list (string * (ptr -> M ptr));
  tp_methods : list (string * (ptr -> M ptr));
  tp_members : list (string * PyMemberDef);
}.

Definition PyEtherInfo_Type : PyTypeObject := {|
  tp_name := "ethtool.etherinfo";
  tp_str := Some _ethtool_etherinfo_str;
  tp_repr := None;
  tp_getset := _ethtool_etherinfo_attributes;
  tp_methods := _ethtool_etherinfo_methods;
  tp_members := [];
|}.

Definition ethtool_netlink_ip_address_Type : PyTypeObject := {|
  tp_name := "ethtool.NetlinkIPaddress";
  tp_str := None;
  tp_repr := Some netlink_ip_address_repr;
  tp_getset := [];
  tp_methods := [];
  tp_members := _ethtool_netlink_ip_address_members;
|}.
End types.
Arguments PyTypeObject : clear implicits.

(** ** Initialisation *)

Section init.
Context {K : Type} `{Platform K}.
Context (signed_char : bool).
(** The version of the build; the interpreter's answers to [PyType_Ready]; and
    where the two static type objects are. *)
Context (VERSION : string) (type_ready : string -> bool).
Context (etherinfo_type address_type : positive).
Local Abbreviation M := (M K).

(** The value goes to the module, which takes over the reference. *)
Definition PyModule_AddObject (m : ptr) (name : string) (value : ptr) : M Z :=
  if is_null value then PyErr_Internal PyExc_TypeError;; mret (-1)
  else
    r ← PyDict_SetItemString m name value;
    if negb (r =? 0) then mret (-1) else Py_DECREF value;; mret 0.

Definition PyModule_AddIntConstant (m : ptr) (name : string) (value : Z) : M Z :=
  o ← PyLong_FromLong value;
  if is_null o then mret (-1) else PyModule_AddObject m name o.

Definition PyModule_AddStringConstant (m : ptr) (name value : string) : M Z :=
  o ← PyStr_FromString value;
  if is_null o then mret (-1) else PyModule_AddObject m name o.

(** A function object for each entry of the table. *)
Fixpoint add_functions (m : ptr) (names : list string) : M unit :=
  match names with
  | [] => mret tt
  | n :: names => f ← alloc VOther; PyModule_AddObject m n f;; add_functions m names
  end.

(** The module, given as its dictionary. *)
Definition PyModule_Create (def : PyModuleDef (K := K)) : M ptr :=
  g ← ask py_malloc;
  match g with
  | None => PyErr_Internal PyExc_MemoryError;; mret Null
  | Some _ =>
      m ← PyDict_New;
      add_functions m (m_methods def).*1;;
      mret m
  end.

Definition PyType_Ready (t : PyTypeObject K) : M Z :=
  if type_ready (tp_name t) then mret 0 else PyErr_Internal PyExc_SystemError;; mret (-1).

Fixpoint add_int_constants (m : ptr) (cs : list (string * Z)) : M unit :=
  match cs with
  | [] => mret tt
  | (n, z) :: cs => PyModule_AddIntConstant m n z;; add_int_constants m cs
  end.

Definition PyInit_ethtool : M ptr :=
  m ← PyModule_Create (moduledef signed_char);
  if is_null m then mret Null
  else
    r ← PyType_Ready PyEtherInfo_Type;
    if r <? 0 then mret Null
    else
      r ← PyType_Ready ethtool_netlink_ip_address_Type;
      if negb (r =? 0) then mret Null
      else
        add_int_constants m int_constants;;
        PyModule_AddStringConstant m "version" ("python-ethtool v" +:+ VERSION);;
        Py_INCREF (Loc etherinfo_type);;
        PyModule_AddObject m "etherinfo" (Loc etherinfo_type);;
        Py_INCREF (Loc address_type);;
        PyModule_AddObject m "NetlinkIPaddress" (Loc address_type);;
        mret m.
End init.
