(* ===== verification/Py3cMacros.v ===== *)
(** * include/py3c/compat.h: the names of the two builds

    The macros of the header, and the part of the preprocessor they need.  The
    C files are written with the names of the header; [preprocess] says which
    functions of the interpreter they come to in each build.  The header is
    shown to offer the same strings and numbers in both, under names that differ
    by their prefix; with Python 2 the module is initialised by a function of
    another name, which calls the one written here. *)
From S2P Require Import Prelude.

Declare Scope macro_scope.
Open Scope macro_scope.

(** ** The preprocessor *)

(** A token is a string; tokens are written apart. *)
Abbreviation tokens := (list string).

Inductive macro :=
  | Object (body : tokens)
  | Function (params : list string) (body : tokens).

(** [#define name tokens]. *)
Notation "n ≔ b" := (pair n (Object (String.words b))) (at level 60) : macro_scope.
(** [#define name(p, q) tokens]. *)
Notation "n '⟨' p '⟩' ≔ b" := (pair n (Function (String.words p) (String.words b)))
  (at level 60, p at level 9) : macro_scope.

Definition macro_of (table : list (string * macro)) (n : string) : option macro :=
  snd <$> List.find (fun m => String.eqb m.1 n) table.

(** The arguments of a call, from behind its opening bracket: the tokens up to
    the closing one, parted by the commas that no bracket encloses. *)
Fixpoint arguments (depth : nat) (arg : tokens) (ts : tokens) : option (list tokens * tokens) :=
  match ts with
  | [] => None
  | t :: ts =>
      if String.eqb t "(" then arguments (S depth) (arg ++ [t]) ts
      else if String.eqb t ")" then
        match depth with
        | O => Some ([arg], ts)
        | S depth => arguments depth (arg ++ [t]) ts
        end
      else if String.eqb t "," && (depth =? 0)%nat then
        '(args, rest) ← arguments depth [] ts; Some (arg :: args, rest)
      else arguments depth (arg ++ [t]) ts
  end.

(** Parameters replaced: by the argument as written next to [##], by the
    argument expanded elsewhere. *)
Fixpoint substitute (raw expanded : list (string * tokens)) (joined : bool) (body : tokens)
    : tokens :=
  match body with
  | [] => []
  | t :: body =>
      let pasted := joined || bool_decide (head body = Some "##") in
      let args := if pasted then raw else expanded in
      from_option snd [t] (List.find (fun a => String.eqb a.1 t) args)
        ++ substitute raw expanded (String.eqb t "##") body
  end.

(** The tokens on both sides of [##] become one. *)
Fixpoint paste (ts : tokens) : tokens :=
  match ts with
  | [] => []
  | t :: ts =>
      match paste ts with
      | "##" :: u :: us => (t +:+ u) :: us
      | us => t :: us
      end
  end.

(** Expansion.  A macro does not expand again in its own expansion: its name is
    [hidden] there.  Names are looked up in what a macro leaves and in what
    follows it separately, since no expansion of the header ends in the name of
    a macro with parameters. *)
Fixpoint expand (table : list (string * macro)) (fuel : nat) (hidden : list string)
    (ts : tokens) : tokens :=
  match fuel, ts with
  | O, _ | _, [] => ts
  | S fuel, t :: ts =>
      let go := expand table fuel in
      match (if bool_decide (t ∈ hidden) then None else macro_of table t), ts with
      | Some (Object body), _ => go (t :: hidden) (paste body) ++ go hidden ts
      | Some (Function params body), "(" :: us =>
          match arguments 0 [] us with
          | Some (args, rest) =>
              go (t :: hidden)
                (paste (substitute (zip params args) (zip params (go hidden <$> args)) false body))
                ++ go hidden rest
          | None => t :: go hidden ts
          end
      | _, _ => t :: go hidden ts
      end
  end.

(** ** The header *)

Inductive build := Python2 | Python3.

(** *** Python 3 *)

(** Strings. *)
Definition strings3 : list (string * macro) :=
  ["PyStr_Type" ≔ "PyUnicode_Type";
   "PyStr_Check" ≔ "PyUnicode_Check";
   "PyStr_CheckExact" ≔ "PyUnicode_CheckExact";
   "PyStr_FromString" ≔ "PyUnicode_FromString";
   "PyStr_FromStringAndSize" ≔ "PyUnicode_FromStringAndSize";
   "PyStr_FromFormat" ≔ "PyUnicode_FromFormat";
   "PyStr_FromFormatV" ≔ "PyUnicode_FromFormatV";
   "PyStr_AsString" ≔ "PyUnicode_AsUTF8";
   "PyStr_Concat" ≔ "PyUnicode_Concat";
   "PyStr_Format" ≔ "PyUnicode_Format";
   "PyStr_InternInPlace" ≔ "PyUnicode_InternInPlace";
   "PyStr_InternFromString" ≔ "PyUnicode_InternFromString";
   "PyStr_Decode" ≔ "PyUnicode_Decode";
   "PyStr_AsUTF8String" ≔ "PyUnicode_AsUTF8String";
   "PyStr_AsUTF8" ≔ "PyUnicode_AsUTF8";
   "PyStr_AsUTF8AndSize" ≔ "PyUnicode_AsUTF8AndSize"].

(** Ints. *)
Definition ints3 : list (string * macro) :=
  ["PyInt_Type" ≔ "PyLong_Type";
   "PyInt_Check" ≔ "PyLong_Check";
   "PyInt_CheckExact" ≔ "PyLong_CheckExact";
   "PyInt_FromString" ≔ "PyLong_FromString";
   "PyInt_FromLong" ≔ "PyLong_FromLong";
   "PyInt_FromSsize_t" ≔ "PyLong_FromSsize_t";
   "PyInt_FromSize_t" ≔ "PyLong_FromSize_t";
   "PyInt_AsLong" ≔ "PyLong_AsLong";
   "PyInt_AS_LONG" ≔ "PyLong_AS_LONG";
   "PyInt_AsUnsignedLongLongMask" ≔ "PyLong_AsUnsignedLongLongMask";
   "PyInt_AsSsize_t" ≔ "PyLong_AsSsize_t"].

(** Module init. *)
Definition module_init3 : list (string * macro) :=
  ["MODULE_INIT_FUNC" ⟨"name"⟩ ≔
     "PyMODINIT_FUNC PyInit_ ## name ( void ) ;
      PyMODINIT_FUNC PyInit_ ## name ( void )"].

(** *** Python 2 *)

(** Strings.  [PyStr_Concat] is a function, see Py3c.v. *)
Definition strings2 : list (string * macro) :=
  ["PyStr_Type" ≔ "PyString_Type";
   "PyStr_Check" ≔ "PyString_Check";
   "PyStr_CheckExact" ≔ "PyString_CheckExact";
   "PyStr_FromString" ≔ "PyString_FromString";
   "PyStr_FromStringAndSize" ≔ "PyString_FromStringAndSize";
   "PyStr_FromFormat" ≔ "PyString_FromFormat";
   "PyStr_FromFormatV" ≔ "PyString_FromFormatV";
   "PyStr_AsString" ≔ "PyString_AsString";
   "PyStr_Format" ≔ "PyString_Format";
   "PyStr_InternInPlace" ≔ "PyString_InternInPlace";
   "PyStr_InternFromString" ≔ "PyString_InternFromString";
   "PyStr_Decode" ≔ "PyString_Decode"].

Definition utf8_strings2 : list (string * macro) :=
  ["PyStr_AsUTF8String" ⟨"str"⟩ ≔ "( Py_INCREF ( str ) , ( str ) )";
   "PyStr_AsUTF8" ≔ "PyString_AsString";
   "PyStr_AsUTF8AndSize" ⟨"pystr sizeptr"⟩ ≔
     "( ( * sizeptr = PyString_Size ( pystr ) ) , PyString_AsString ( pystr ) )"].

(** Bytes. *)
Definition bytes2 : list (string * macro) :=
  ["PyBytes_Type" ≔ "PyString_Type";
   "PyBytes_Check" ≔ "PyString_Check";
   "PyBytes_CheckExact" ≔ "PyString_CheckExact";
   "PyBytes_FromString" ≔ "PyString_FromString";
   "PyBytes_FromStringAndSize" ≔ "PyString_FromStringAndSize";
   "PyBytes_FromFormat" ≔ "PyString_FromFormat";
   "PyBytes_FromFormatV" ≔ "PyString_FromFormatV";
   "PyBytes_Size" ≔ "PyString_Size";
   "PyBytes_GET_SIZE" ≔ "PyString_GET_SIZE";
   "PyBytes_AsString" ≔ "PyString_AsString";
   "PyBytes_AS_STRING" ≔ "PyString_AS_STRING";
   "PyBytes_AsStringAndSize" ≔ "PyString_AsStringAndSize";
   "PyBytes_Concat" ≔ "PyString_Concat";
   "PyBytes_ConcatAndDel" ≔ "PyString_ConcatAndDel";
   "_PyBytes_Resize" ≔ "_PyString_Resize"].

(** Floats. *)
Definition floats2 : list (string * macro) :=
  ["PyFloat_FromString" ⟨"str"⟩ ≔ "PyFloat_FromString ( str , NULL )"].

(** Module init. *)
Definition head_init2 : list (string * macro) := ["PyModuleDef_HEAD_INIT" ≔ "0"].

Definition module_init2 : list (string * macro) :=
  ["PyModule_Create" ⟨"def"⟩ ≔
     "Py_InitModule3 ( ( def ) -> m_name , ( def ) -> m_methods , ( def ) -> m_doc )";
   "MODULE_INIT_FUNC" ⟨"name"⟩ ≔
     "static PyObject * PyInit_ ## name ( void ) ;
      PyMODINIT_FUNC init ## name ( void ) ;
      PyMODINIT_FUNC init ## name ( void ) { PyInit_ ## name ( ) ; }
      static PyObject * PyInit_ ## name ( void )"].

Definition IS_PY3 (b : build) : list (string * macro) :=
  match b with
  | Python3 => ["IS_PY3" ≔ "1"]
  | Python2 => ["IS_PY3" ≔ "0"]
  end.

Definition compat (b : build) : list (string * macro) :=
  IS_PY3 b ++
  match b with
  | Python3 => strings3 ++ ints3 ++ module_init3
  | Python2 => strings2 ++ utf8_strings2 ++ bytes2 ++ floats2 ++ head_init2 ++ module_init2
  end.

Definition preprocess (b : build) (ts : tokens) : tokens :=
  expand (compat b) (100 + length ts) [] ts.

(** ** What the names come to *)

(** A name of the header with its prefix changed. *)
Definition prefixes (b : build) : list (string * string) :=
  match b with
  | Python3 => [("PyStr_", "PyUnicode_"); ("PyInt_", "PyLong_")]
  | Python2 => [("PyStr_", "PyString_"); ("PyBytes_", "PyString_"); ("_PyBytes_", "_PyString_")]
  end.

Definition with_prefix (q : string) (n p : string) : string :=
  q +:+ String.substring (String.length p) (String.length n - String.length p) n.

Definition renamed (b : build) (n : string) : string :=
  match List.find (fun p => String.prefix p.1 n) (prefixes b) with
  | Some (p, q) => with_prefix q n p
  | None => n
  end.

(** A text is in UTF-8 with Python 3, and bytes with Python 2, where the
    function for text has no counterpart. *)
Definition api (b : build) (n : string) : string :=
  match b with
  | Python3 => if String.eqb n "PyStr_AsString" then "PyUnicode_AsUTF8" else renamed b n
  | Python2 => if String.eqb n "PyStr_AsUTF8" then "PyString_AsString" else renamed b n
  end.

Definition constants : list string := ["IS_PY3"; "PyModuleDef_HEAD_INIT"].

Lemma macro_of_elem table n m : macro_of table n = Some m -> (n, m) ∈ table.
Proof.
  unfold macro_of. destruct (List.find _ table) as [[k v]|] eqn:E; [|done].
  apply List.find_some in E as [Hin%list_elem_of_In He%String.eqb_eq].
  simpl in *. intros [= ->]. by subst.
Qed.

Lemma elem_macro_of table n m :
  NoDup table.*1 -> (n, m) ∈ table -> macro_of table n = Some m.
Proof.
  unfold macro_of. induction table as [|[k v] table IH]; simpl; [by intros _ ?%elem_of_nil|].
  intros [Hk Hnd]%list.NoDup_cons [[= -> ->]|Hin]%elem_of_cons; [by rewrite String.eqb_refl|].
  destruct (String.eqb_spec k n) as [->|_]; [|by apply IH].
  exfalso. apply Hk, list_elem_of_fmap. by exists (n, m).
Qed.

(** Text without the header's names passes through. *)
Lemma preprocess_other b ts :
  (forall t, t ∈ ts -> macro_of (compat b) t = None) -> preprocess b ts = ts.
Proof.
  unfold preprocess. generalize (100 + length ts)%nat as fuel. intros fuel Hn.
  revert ts Hn. induction fuel as [|fuel IH]; intros [|t ts] Hn; simpl; [done..|].
  rewrite (Hn t) by left. rewrite IH by (intros; apply Hn; by right).
  destruct (bool_decide (t ∈ ([] : list string))); by destruct ts.
Qed.

(** No name is defined twice. *)
Lemma compat_names b : NoDup (compat b).*1.
Proof. apply (bool_decide_unpack _). by destruct b; vm_compute. Qed.

(** Every macro of the header without parameters, save two constants, comes to
    the function of the interpreter of the same name with the other prefix. *)
Lemma compat_renames b n m :
  macro_of (compat b) n = Some (Object m) -> n ∉ constants ->
  m = [api b n] /\ preprocess b [n] = [api b n].
Proof.
  intros Hin%macro_of_elem Hc.
  assert (Forall (fun nm : string * macro =>
    match nm.2 with
    | Object m => nm.1 ∈ constants \/ m = [api b nm.1] /\ preprocess b [nm.1] = [api b nm.1]
    | Function _ _ => True
    end) (compat b)) as Hall.
  { destruct b; repeat apply Forall_cons_2; cbv beta iota; cbn [snd fst]; try exact I;
      try (right; split; vm_compute; reflexivity);
      try (left; apply (bool_decide_unpack _); vm_compute; exact I). }
  destruct (proj1 (list.Forall_forall _ _) Hall _ Hin) as [?|?]; done.
Qed.

(** The names the C files use, with what each is in the two builds. *)
Definition used : list (string * (string * string)) :=
  [("PyStr_Check", ("PyString_Check", "PyUnicode_Check"));
   ("PyStr_FromString", ("PyString_FromString", "PyUnicode_FromString"));
   ("PyStr_FromFormat", ("PyString_FromFormat", "PyUnicode_FromFormat"));
   ("PyStr_AsString", ("PyString_AsString", "PyUnicode_AsUTF8"));
   ("PyStr_Concat", ("PyStr_Concat", "PyUnicode_Concat"));
   ("PyInt_FromLong", ("PyInt_FromLong", "PyLong_FromLong"));
   ("PyModuleDef_HEAD_INIT", ("0", "PyModuleDef_HEAD_INIT"))].

Lemma used_names n n2 n3 :
  (n, (n2, n3)) ∈ used -> preprocess Python2 [n] = [n2] /\ preprocess Python3 [n] = [n3].
Proof.
  intros Hin. assert (Forall (fun u : string * (string * string) =>
    preprocess Python2 [u.1] = [u.2.1] /\ preprocess Python3 [u.1] = [u.2.2]) used) as Hall
    by (repeat constructor; vm_compute; reflexivity).
  apply (proj1 (list.Forall_forall _ _) Hall _ Hin).
Qed.

(** Lines 997 and 1000 of ethtool.c: with Python 2 what the file defines is a
    function of its own, called by the one the interpreter looks for. *)
Definition init_line : tokens := String.words "MODULE_INIT_FUNC ( ethtool )".
Definition create_line : tokens := String.words "m = PyModule_Create ( & moduledef ) ;".

Lemma init_python3 :
  preprocess Python3 (init_line ++ create_line) = String.words
    "PyMODINIT_FUNC PyInit_ethtool ( void ) ; PyMODINIT_FUNC PyInit_ethtool ( void )
     m = PyModule_Create ( & moduledef ) ;".
Proof. vm_compute. reflexivity. Qed.

Lemma init_python2 :
  preprocess Python2 (init_line ++ create_line) = String.words
    "static PyObject * PyInit_ethtool ( void ) ; PyMODINIT_FUNC initethtool ( void ) ;
     PyMODINIT_FUNC initethtool ( void ) { PyInit_ethtool ( ) ; }
     static PyObject * PyInit_ethtool ( void )
     m = Py_InitModule3 ( ( & moduledef ) -> m_name , ( & moduledef ) -> m_methods ,
       ( & moduledef ) -> m_doc ) ;".
Proof. vm_compute. reflexivity. Qed.

Lemma macro_of_names table n : is_Some (macro_of table n) <-> n ∈ table.*1.
Proof.
  split.
  - intros [m Hm%macro_of_elem]. apply list_elem_of_fmap. by exists (n, m).
  - intros ([k m] & -> & Hin)%list_elem_of_fmap. unfold macro_of.
    destruct (List.find _ table) as [f|] eqn:E; [by eexists|].
    apply list_elem_of_In in Hin. pose proof (List.find_none _ _ E _ Hin) as Hk.
    simpl in Hk. by rewrite String.eqb_refl in Hk.
Qed.

(** Both builds have the same names for texts: those of [PyStr_]. *)
Lemma same_strings n :
  String.prefix "PyStr_" n = true ->
  n ∈ (compat Python3).*1 <-> n ∈ (compat Python2).*1 \/ n = "PyStr_Concat".
Proof.
  assert (Forall (fun n => String.prefix "PyStr_" n = true ->
    n ∈ (compat Python2).*1 \/ n = "PyStr_Concat") (compat Python3).*1) as H3
    by (apply (bool_decide_unpack _); vm_compute; exact I).
  assert (Forall (fun n => String.prefix "PyStr_" n = true -> n ∈ (compat Python3).*1)
    ("PyStr_Concat" :: (compat Python2).*1)) as H2
    by (apply (bool_decide_unpack _); vm_compute; exact I).
  intros Hp. split.
  - intros Hn. by apply (proj1 (list.Forall_forall _ _) H3 n).
  - intros Hn. apply (proj1 (list.Forall_forall _ _) H2 n); [|done].
    apply elem_of_cons. naive_solver.
Qed.

(** The two builds side by side.  Both offer the same names for texts (with
    Python 2, [PyStr_Concat] as a function); a name that is a macro without
    parameters, save two constants, is preprocessed to the function [api] gives:
    that of the same name under the other prefix, but [PyUnicode_AsUTF8] for
    [PyStr_AsString] with Python 3, and [PyString_AsString] for [PyStr_AsUTF8]
    with Python 2.  The line that defines the module names the function each
    interpreter looks for; [init_python3] and [init_python2] have the whole. *)
Theorem builds_agree :
  (forall n, String.prefix "PyStr_" n = true ->
     is_Some (macro_of (compat Python3) n) <->
     is_Some (macro_of (compat Python2) n) \/ n = "PyStr_Concat") /\
  (forall b n m, macro_of (compat b) n = Some (Object m) -> n ∉ constants ->
     m = [api b n] /\ preprocess b [n] = [api b n]) /\
  "PyInit_ethtool" ∈ preprocess Python3 init_line /\
  "initethtool" ∈ preprocess Python2 init_line.
Proof.
  split; [|split; [|split]].
  - intros n Hp. rewrite !macro_of_names. by apply same_strings.
  - intros b n m. apply compat_renames.
  - apply (bool_decide_unpack _). vm_compute. exact I.
  - apply (bool_decide_unpack _). vm_compute. exact I.
Qed.

(** A macro that names itself is expanded once. *)
Example float_once :
  preprocess Python2 (String.words "PyFloat_FromString ( PyStr_FromString ( f ( a , b ) ) )") =
    String.words "PyFloat_FromString ( PyString_FromString ( f ( a , b ) ) , NULL )".
Proof. vm_compute. reflexivity. Qed.
