(* ===== verification/Py3c.v ===== *)
(** * include/py3c/compat.h: the one function of the compatibility header

    The header maps the names the source uses to those of Python 2 or Python 3.
    With Python 3, which the rest of this development follows, the names are
    all there is to it; with Python 2, [PyStr_Concat] is a function over a
    primitive that takes the left operand away.  It is shown to do what Python
    3's does, so what the other files say of the texts the module builds (and
    of what their concatenation leaks) holds of both builds. *)
From S2P Require Import Prelude.
From S2P Require Import Platform.
From S2P Require Import CPython.
From S2P Require Import Objects.
From S2P Require Import Testbed.
From S2P Require Import RefCount.

Section py3c.
Context {K : Type} `{Platform K}.
Implicit Types w : world K.
Local Abbreviation M := (M K).

(** Python 2's [PyString_Concat]: the new value of the variable.  The reference
    it held is stolen whatever happens. *)
Definition PyString_Concat (string newpart : ptr) : M ptr :=
  if is_null string then mret Null
  else if is_null newpart then Py_DECREF string;; mret Null
  else
    a ← peek string; b ← peek newpart;
    v ← match a, b with
        | VStr a, VStr b => alloc (VStr (a +:+ b))
        | VStr _, _ => PyErr_Internal PyExc_TypeError;; mret Null
        | _, _ => mret Null
        end;
    Py_DECREF string;; mret v.

Definition PyStr_Concat_py2 (left right : ptr) : M ptr :=
  let str := left in
  Py_INCREF left;;   (* reference to old left will be stolen *)
  str ← PyString_Concat str right;
  if negb (is_null str) then mret str else mret Null.

(** A reference taken, an object made, the reference given back. *)
Lemma incref_alloc_decref w l rc s n v :
  w_heap w !! l = Some (Obj rc (VStr s)) -> 0 < rc -> l <> n ->
  Py_DECREF (Loc l) (set_next (Pos.succ n) (set_heap (<[n := Obj 1 v]>
      (<[l := Obj (rc + 1) (VStr s)]> (w_heap w))) w))
    = Ret tt (set_next (Pos.succ n) (set_heap (<[n := Obj 1 v]> (w_heap w)) w)).
Proof.
  intros Hl Hrc Hn. erewrite Py_DECREF_shared.
  2:{ simpl. rewrite lookup_insert_ne by done. apply lookup_insert_eq. }
  2:{ simpl. lia. }
  simpl. f_equal. unfold set_next, set_heap. simpl. f_equal.
  rewrite (insert_insert_ne _ n l) by done. rewrite insert_insert_eq.
  replace (rc + 1 - 1) with rc by lia. rewrite insert_id; [done|].
  by rewrite lookup_insert_ne.
Qed.

(** The two builds agree.  On a string that is held and another string,
    Python 2's [PyStr_Concat] gives what Python 3's gives: the same new string
    at the same place, neither operand released, nothing else touched. *)
Theorem py2_concat_agrees w l r rcl rcr s t :
  w_heap w !! l = Some (Obj rcl (VStr s)) -> 0 < rcl ->
  w_heap w !! r = Some (Obj rcr (VStr t)) -> w_heap w !! w_next w = None ->
  PyStr_Concat_py2 (Loc l) (Loc r) w = PyStr_Concat (Loc l) (Loc r) w /\
  PyStr_Concat (Loc l) (Loc r) w
    = Ret (Loc (w_next w)) (set_next (Pos.succ (w_next w))
        (set_heap (<[w_next w := Obj 1 (VStr (s +:+ t))]> (w_heap w)) w)).
Proof.
  intros Hl Hrc Hr Hf.
  assert (PyStr_Concat (Loc l) (Loc r) w
    = Ret (Loc (w_next w)) (set_next (Pos.succ (w_next w))
        (set_heap (<[w_next w := Obj 1 (VStr (s +:+ t))]> (w_heap w)) w))) as Hc.
  { unfold PyStr_Concat. by rewrite (bind_Ret _ _ _ _ _ (peek_eq _ _ _ Hl)),
      (bind_Ret _ _ _ _ _ (peek_eq _ _ _ Hr)). }
  split; [|exact Hc]. rewrite Hc. unfold PyStr_Concat_py2, PyString_Concat. cbv zeta.
  rewrite (bind_Ret _ _ _ _ _ (incref_eq _ _ _ Hl)). cbn [is_null ob_refcnt ob_val]. cbv iota.
  set (w1 := set_heap _ w).
  assert (w_heap w1 !! l = Some (Obj (rcl + 1) (VStr s))) as Hl1 by apply lookup_insert_eq.
  assert (exists rc, w_heap w1 !! r = Some (Obj rc (VStr t))) as [rc1 Hr1].
  { destruct (decide (l = r)) as [<-|Hne].
    - rewrite Hl in Hr. injection Hr as _ <-. eexists. exact Hl1.
    - exists rcr. simpl. by rewrite lookup_insert_ne. }
  rewrite bind_assoc, (bind_Ret _ _ _ _ _ (peek_eq _ _ _ Hl1)).
  rewrite bind_assoc, (bind_Ret _ _ _ _ _ (peek_eq _ _ _ Hr1)). cbn [ob_val].
  rewrite bind_assoc, (bind_Ret _ _ _ _ _ (alloc_eq _ _)).
  rewrite bind_assoc. erewrite bind_Ret.
  2:{ apply (incref_alloc_decref w l rcl s (w_next w)); [done|done|congruence]. }
  by rewrite bind_ret_l.
Qed.
End py3c.

Definition two_strings : world machine := Eval vm_compute in
  world_after (alloc (VStr "a");; alloc (VStr "b")) (boot quiet).

Lemma py2_concat_agrees_witness :
  PyStr_Concat_py2 (Loc 1) (Loc 2) two_strings = PyStr_Concat (Loc 1) (Loc 2) two_strings.
Proof.
  apply (py2_concat_agrees two_strings 1 2 1 1 "a" "b"); reflexivity.
Defined.
