(* ===== verification/ModuleFacts.v ===== *)
(** * The module as the initialisation leaves it

    What [import ethtool] gives: a module with every function, constant and type
    under its name, each reference accounted for; and what is leaked when the
    interpreter refuses a type. *)
From S2P Require Import Prelude.
From S2P Require Import Platform.
From S2P Require Import CPython.
From S2P Require Import Objects.
From S2P Require Import Testbed.
From S2P Require Import RefCount.
From S2P Require Import Typing.
From S2P Require Import Containers.
From S2P Require Import Ioctl.
From S2P Require Import StructDesc.
From S2P Require Import StructDescFacts.
From S2P Require Import EthtoolModule.

(** What is under a name. *)
Inductive entry :=
  | EFunction
  | EInt (z : Z)
  | EStr (s : string)
  | EType (l : positive).

Definition entry_is (h : gmap positive obj) (p : ptr) (e : entry) : Prop :=
  match e with
  | EFunction => exists l rc, p = Loc l /\ h !! l = Some (Obj rc VOther)
  | EInt z => exists l rc, p = Loc l /\ h !! l = Some (Obj rc (VInt z))
  | EStr s => exists l rc, p = Loc l /\ h !! l = Some (Obj rc (VStr s))
  | EType l => p = Loc l
  end.

Definition entry_of (v : pyval) : entry :=
  match v with VInt z => EInt z | VStr s => EStr s | _ => EFunction end.

(** Objects other than the module keep their value. *)
Definition keeps_vals (ld : positive) (h h' : gmap positive obj) : Prop :=
  forall l o, h !! l = Some o -> l <> ld -> exists rc, h' !! l = Some (Obj rc (ob_val o)).

Lemma entry_keeps ld h h' p e :
  keeps_vals ld h h' -> (exists rc es, h !! ld = Some (Obj rc (VDict es))) ->
  entry_is h p e -> entry_is h' p e.
Proof.
  intros Hk (rcd & es & Hd) He. destruct e as [|z|s|l]; [..|done];
    destruct He as (l & rc & -> & Hl);
    (destruct (Hk l _ Hl) as [rc' Hl']; [congruence|]); by exists l, rc'.
Qed.

(** In [w] the module at [ld], held once by its maker, has these entries. *)
Record module_is {K} (ld : positive) (ds : list (string * entry))
    (refs : gmultiset positive) (w : world K) : Prop := {
  mi_entries : exists es, w_heap w !! ld = Some (Obj 1 (VDict es)) /\
    Forall2 (fun d e => e.1 = d.1 /\ entry_is (w_heap w) e.2 d.2) ds es;
  mi_wf : wf w ({[+ ld +]} ⊎ refs);
}.

(** Everything but the module and new objects stays. *)
Record adds {K} (ld : positive) (w w' : world K) : Prop := {
  ad_next : (w_next w <= w_next w')%positive;
  ad_old l : (l < w_next w)%positive -> l <> ld -> w_heap w' !! l = w_heap w !! l;
  ad_err : w_err w' = w_err w;
  ad_env : w_env w' = w_env w;
}.

#[export] Instance adds_preorder {K} ld : PreOrder (@adds K ld).
Proof.
  split; [intros w; split; done || lia|]. intros w1 w2 w3 [A1 A2 A3 A4] [B1 B2 B3 B4].
  split; [lia| |congruence..]. intros l Hl Hne. rewrite B2, A2 by (done || lia). done.
Qed.

Section module.
Context {K : Type} `{PL : PlatformLaws K}.
Implicit Types (w : world K) (refs : gmultiset positive).

(** A reference moves from its holder to the module. *)
Lemma add_object_eq ld es w ln rc v k :
  w_heap w !! ld = Some (Obj 1 (VDict es)) -> k ∉ es.*1 ->
  w_heap w !! ln = Some (Obj rc v) -> 0 < rc -> ld <> ln ->
  PyModule_AddObject (Loc ld) k (Loc ln) w
    = Ret 0 (set_heap (<[ld := Obj 1 (VDict (es ++ [(k, Loc ln)]))]> (w_heap w)) w).
Proof.
  intros Hl Hk Hn Hrc Hne. unfold PyModule_AddObject. cbn [is_null]. cbv iota.
  unfold PyDict_SetItemString. rewrite bind_assoc, (bind_Ret _ _ _ _ _ (peek_eq _ _ _ Hl)).
  cbn [ob_val]. rewrite bind_assoc, (bind_Ret _ _ _ _ _ (incref_eq _ _ _ Hn)).
  rewrite bind_assoc. erewrite bind_Ret.
  2:{ eapply put_val_eq. simpl. by rewrite lookup_insert_ne. }
  rewrite (dict_get_notin es k Hk), bind_assoc, bind_ret_l, bind_ret_l. simpl.
  erewrite bind_Ret.
  2:{ eapply Py_DECREF_shared; [|instantiate (1 := Obj (rc + 1) v); simpl; lia].
      simpl. rewrite lookup_insert_ne by done. apply lookup_insert_eq. }
  simpl. unfold mret, M_ret. f_equal. unfold set_heap. simpl. f_equal.
  replace (rc + 1 - 1) with rc by lia.
  replace (dict_set es k (Loc ln)) with (es ++ [(k, Loc ln)]).
  - rewrite (insert_insert_ne _ ld ln) by done. rewrite insert_insert_eq.
    apply insert_id. by rewrite lookup_insert_ne.
  - clear -Hk. induction es as [|[k' p] es IH]; simpl in *; [done|].
    apply not_elem_of_cons in Hk as [? ?]. case_decide; [done|]. by rewrite IH.
Qed.

Lemma entry_names ds (es : list (string * ptr)) (h : gmap positive obj) :
  Forall2 (fun d e => e.1 = d.1 /\ entry_is h e.2 d.2) ds es -> es.*1 = ds.*1.
Proof. induction 1 as [|d e ds es [Hn _] _ IH]; [done|]. by rewrite !fmap_cons, Hn, IH. Qed.

Lemma add_object_ok ld ds refs w ln rc v k d :
  module_is ld ds ({[+ ln +]} ⊎ refs) w -> k ∉ ds.*1 -> ld <> ln ->
  w_heap w !! ln = Some (Obj rc v) -> 0 < rc -> entry_is (w_heap w) (Loc ln) d ->
  wp (PyModule_AddObject (Loc ld) k (Loc ln))
    (fun r w' => r = 0 /\ module_is ld (ds ++ [(k, d)]) refs w' /\ adds ld w w') w.
Proof.
  intros [(es & Hl & Hes) Hw] Hk Hne Hn Hrc Hd. unfold wp.
  rewrite (add_object_eq ld es w ln rc v k); [|done|by rewrite (entry_names _ _ _ Hes)|done..].
  assert (keeps_vals ld (w_heap w)
    (<[ld := Obj 1 (VDict (es ++ [(k, Loc ln)]))]> (w_heap w))) as Hkeep.
  { intros l [rcl vl] Hl' Hnl. exists rcl. by rewrite lookup_insert_ne. }
  split; [done|]. split; [split|].
  - exists (es ++ [(k, Loc ln)]). simpl. split; [apply lookup_insert_eq|].
    apply Forall2_app.
    + eapply list.Forall2_impl; [exact Hes|]. intros x y [E He]. split; [done|].
      eapply entry_keeps; [exact Hkeep|by exists 1, es|done].
    + constructor; [|constructor]. split; [done|].
      eapply entry_keeps; [exact Hkeep|by exists 1, es|done].
  - apply (wf_set_heap _ _ _ _ Hw). eapply (wf_move_in _ _ _ ln ld 1 (VDict es)).
    + eapply wf_heap_eq; [apply Hw|]. multiset_solver.
    + done.
    + lia.
    + unfold val_refs. simpl. rewrite fmap_app, ptrs_refs_app. simpl. multiset_solver.
    + pose proof (wf_val _ _ _ (wf_hp _ _ Hw) _ _ Hl ltac:(simpl; lia)) as Hval. simpl in *.
      rewrite fmap_app. apply Forall_app. split; [done|]. by constructor.
  - split; simpl; [lia| |done..]. intros l Hl' Hnl. by rewrite lookup_insert_ne.
Qed.

(** A new object for the module. *)
Lemma add_new_ok ld ds refs w v k :
  module_is ld ds refs w -> k ∉ ds.*1 -> simple v -> v <> VSurrogates ->
  wp (p ← alloc v; PyModule_AddObject (Loc ld) k p)
    (fun r w' => r = 0 /\ module_is ld (ds ++ [(k, entry_of v)]) refs w' /\ adds ld w w') w.
Proof.
  intros [(es & Hl & Hes) Hw] Hk Hv Hvs. pose proof (wf_fresh _ _ _ (wf_hp _ _ Hw) _ _ Hl) as Hlt.
  pose proof (wf_fresh_next _ _ _ (wf_hp _ _ Hw)) as Hfr.
  set (w1 := set_next (Pos.succ (w_next w)) (set_heap (<[w_next w := Obj 1 v]> (w_heap w)) w)).
  assert (keeps_vals ld (w_heap w) (w_heap w1)) as Hkeep.
  { intros l [rcl vl] Hl' _. exists rcl. simpl. rewrite lookup_insert_ne by congruence. done. }
  assert (adds ld w w1) as Had.
  { split; simpl; [lia| |done..]. intros l Hl' _. rewrite lookup_insert_ne by lia. done. }
  eapply wp_step; [apply alloc_eq|]. eapply wp_mono.
  - eapply (add_object_ok ld ds refs w1 (w_next w) 1 v k (entry_of v)).
    + split.
      * exists es. simpl. rewrite lookup_insert_ne by lia. split; [done|].
        eapply list.Forall2_impl; [exact Hes|]. intros x y [E He]. split; [done|].
        eapply entry_keeps; [exact Hkeep|by exists 1, es|done].
      * eapply wf_eq; [by apply (wf_alloc_simple w _ v Hw)|]. multiset_solver.
    + done.
    + lia.
    + apply lookup_insert_eq.
    + lia.
    + destruct v; try done; simpl; eexists _, _; (split; [done|apply lookup_insert_eq]).
  - intros r w' (-> & Hm & Ha). split; [done|]. split; [done|]. by etrans.
Qed.

Lemma NoDup_next {A} (ds : list (string * A)) k rest :
  NoDup (ds.*1 ++ k :: rest) -> k ∉ ds.*1.
Proof.
  intros (_ & Hd & _)%list.NoDup_app Hin. apply (Hd k Hin). left.
Qed.

(** The two loops. *)
Lemma add_functions_ok ld refs names : forall ds w,
  module_is ld ds refs w -> NoDup (ds.*1 ++ names) ->
  wp (add_functions (Loc ld) names) (fun _ w' =>
    module_is ld (ds ++ map (fun n => (n, EFunction)) names) refs w' /\ adds ld w w') w.
Proof.
  induction names as [|n names IH]; intros ds w Hm Hnd; simpl.
  { rewrite app_nil_r. by split. }
  apply wp_assoc, wp_bind.
  eapply wp_mono; [apply (add_new_ok ld ds refs w VOther n Hm)|];
    [by eapply NoDup_next|done|done|].
  intros r w1 (_ & Hm1 & Ha1). eapply wp_mono.
  - apply (IH _ _ Hm1). by rewrite fmap_app, <- app_assoc.
  - intros _ w2 [Hm2 Ha2]. rewrite <- app_assoc in Hm2. split; [done|]. by etrans.
Qed.

Lemma add_constants_ok ld refs cs : forall ds w,
  module_is ld ds refs w -> NoDup (ds.*1 ++ cs.*1) ->
  wp (add_int_constants (Loc ld) cs) (fun _ w' =>
    module_is ld (ds ++ map (fun c => (c.1, EInt c.2)) cs) refs w' /\ adds ld w w') w.
Proof.
  induction cs as [|[n z] cs IH]; intros ds w Hm Hnd; simpl.
  { rewrite app_nil_r. by split. }
  apply wp_bind.
  eapply wp_mono; [apply (add_new_ok ld ds refs w (VInt z) n Hm)|];
    [by eapply NoDup_next|done|done|].
  intros r w1 (_ & Hm1 & Ha1). eapply wp_mono.
  - apply (IH _ _ Hm1). by rewrite fmap_app, <- app_assoc.
  - intros _ w2 [Hm2 Ha2]. rewrite <- app_assoc in Hm2. split; [done|]. by etrans.
Qed.
End module.

Section initialised.
Context {K : Type} `{PL : PlatformLaws K}.
Context (signed_char : bool) (VERSION : string) (type_ready : string -> bool).
Context (etherinfo_type address_type : positive).
Implicit Types (w : world K) (refs : gmultiset positive).

(** *** The module object *)

Definition function_entries : list (string * entry) :=
  map (fun n => (n, EFunction)) (PyEthModuleMethods (K := K) signed_char).*1.

Definition constant_entries : list (string * entry) :=
  map (fun c => (c.1, EInt c.2)) int_constants.

(** Everything in the module, in order. *)
Definition module_entries : list (string * entry) :=
  function_entries ++ constant_entries ++
  [("version", EStr (cstr ("python-ethtool v" +:+ VERSION)));
   ("etherinfo", EType etherinfo_type); ("NetlinkIPaddress", EType address_type)].

Lemma module_names : NoDup module_entries.*1.
Proof. by apply (bool_decide_unpack _). Qed.

(** The platform and the exception do not matter. *)
Lemma wf_outside w w' refs :
  wf w refs -> w_heap w' = w_heap w -> w_next w' = w_next w -> w_nlc w' = w_nlc w ->
  w_nl w' = w_nl w -> w_nlnext w' = w_nlnext w -> wf w' refs.
Proof. intros [Hh [N1 N2 N3]] Eh En Ec El Ex. split; [by rewrite Eh, En|]. split; by rewrite ?Ec, ?El, ?Ex. Qed.

Lemma create_ok refs w :
  wf w refs ->
  wp (PyModule_Create (moduledef signed_char)) (fun r w' =>
    match (py_malloc (w_env w)).1 with
    | None => r = Null /\ w_err w' <> None /\ wf w' refs
    | Some _ => exists ld, r = Loc ld /\ (w_next w <= ld)%positive /\
        module_is ld function_entries refs w' /\ w_err w' = w_err w /\
        (forall l, (l < w_next w)%positive -> w_heap w' !! l = w_heap w !! l)
    end) w.
Proof.
  intros Hw. unfold PyModule_Create. destruct (py_malloc (w_env w)) as [g k] eqn:Eg.
  eapply wp_step; [unfold ask; by rewrite Eg|]. cbn [fst].
  set (w0 := set_env k w). assert (wf w0 refs) as Hw0 by (by apply (wf_outside w)).
  destruct g as [g|]; [|split; [done|split; [done|by apply (wf_outside w)]]].
  eapply wp_step; [apply alloc_eq|]. apply wp_bind.
  pose proof (wf_fresh_next _ _ _ (wf_hp _ _ Hw0)) as Hfr.
  eapply wp_mono.
  - apply (add_functions_ok (w_next w0) refs _ []).
    + split.
      * exists []. split; [apply lookup_insert_eq|constructor].
      * apply alloc_wf; [|by constructor]. eapply wf_eq; [exact Hw0|].
        unfold val_refs. simpl. multiset_solver.
    + by apply (bool_decide_unpack _).
  - intros _ w' [Hm [A1 A2 A3 A4]]. simpl in *. exists (w_next w). split; [done|].
    split; [lia|]. split; [exact Hm|]. split; [done|].
    intros l Hl. rewrite A2 by lia. by rewrite lookup_insert_ne by lia.
Qed.

(** A type object is shared with the module. *)
Lemma add_type_ok ld ds refs w ln rc v k :
  module_is ld ds refs w -> k ∉ ds.*1 -> ln <> ld ->
  w_heap w !! ln = Some (Obj rc v) -> 0 < rc ->
  wp (Py_INCREF (Loc ln);; PyModule_AddObject (Loc ld) k (Loc ln))
    (fun _ w' => module_is ld (ds ++ [(k, EType ln)]) refs w' /\
       w_heap w' !! ln = Some (Obj (rc + 1) v) /\ w_err w' = w_err w /\
       (forall l, (l < w_next w)%positive -> l <> ld -> l <> ln ->
          w_heap w' !! l = w_heap w !! l) /\ w_next w' = w_next w) w.
Proof.
  intros [(es & Hl & Hes) Hw] Hk Hne Hn Hrc.
  set (w1 := set_heap (<[ln := Obj (rc + 1) v]> (w_heap w)) w).
  apply (wp_step _ _ _ w tt w1); [exact (incref_eq _ _ _ Hn)|].
  assert (w_heap w1 !! ld = Some (Obj 1 (VDict es))) as Hl1
    by (simpl; by rewrite lookup_insert_ne).
  assert (w_heap w1 !! ln = Some (Obj (rc + 1) v)) as Hn1 by apply lookup_insert_eq.
  assert (module_is ld ds ({[+ ln +]} ⊎ refs) w1) as Hm1.
  { split.
    - exists es. split; [done|]. eapply list.Forall2_impl; [exact Hes|].
      intros x y [E He]. split; [done|].
      eapply (entry_keeps ld (w_heap w)); [|by exists 1, es|done].
      intros l [rcl vl] Hl' _. destruct (decide (ln = l)) as [<-|Hnl].
      + simplify_eq. by exists (rc + 1).
      + exists rcl. simpl. by rewrite lookup_insert_ne.
    - eapply wf_eq; [apply (wf_set_heap _ _ _ _ Hw)|].
      + by apply (wf_incref _ _ _ (Obj rc v)); [apply Hw|..].
      + multiset_solver. }
  pose proof (add_object_ok ld ds refs w1 ln (rc + 1) v k (EType ln) Hm1 Hk
    (not_eq_sym Hne) Hn1 ltac:(lia) eq_refl) as Ha.
  pose proof (add_object_eq ld es w1 ln (rc + 1) v k Hl1
    ltac:(by rewrite (entry_names _ _ _ Hes)) Hn1 ltac:(lia) (not_eq_sym Hne)) as Heq.
  unfold wp in *. cbv beta. rewrite Heq in Ha. rewrite Heq. destruct Ha as (_ & Hm & _). split; [exact Hm|]. simpl.
  rewrite lookup_insert_ne by done. rewrite lookup_insert_eq.
  split; [done|]. split; [done|]. split; [|done].
  intros l _ H1 H2. by rewrite !lookup_insert_ne by done.
Qed.

(** What [import ethtool] leaves. *)
Definition initialised refs w (rc1 rc2 : Z) (v1 v2 : pyval) (r : ptr) (w' : world K) : Prop :=
  match (py_malloc (w_env w)).1 with
  | None => r = Null /\ w_err w' <> None /\ wf w' refs
  | Some _ => exists ld,
      if type_ready "ethtool.etherinfo" && type_ready "ethtool.NetlinkIPaddress"
      then r = Loc ld /\ module_is ld module_entries refs w' /\ w_err w' = w_err w /\
        w_heap w' !! etherinfo_type = Some (Obj (rc1 + 1) v1) /\
        w_heap w' !! address_type = Some (Obj (rc2 + 1) v2)
      else r = Null /\ w_err w' <> None /\ module_is ld function_entries refs w'
  end.

Lemma init_ok refs w rc1 v1 rc2 v2 :
  wf w refs -> utf8_valid (cstr ("python-ethtool v" +:+ VERSION)) = true ->
  etherinfo_type <> address_type ->
  w_heap w !! etherinfo_type = Some (Obj rc1 v1) -> 0 < rc1 ->
  w_heap w !! address_type = Some (Obj rc2 v2) -> 0 < rc2 ->
  wp (PyInit_ethtool signed_char VERSION type_ready etherinfo_type address_type)
    (initialised refs w rc1 rc2 v1 v2) w.
Proof.
  intros Hw Hu Hne H1 Hrc1 H2 Hrc2. unfold PyInit_ethtool, initialised.
  pose proof (wf_fresh _ _ _ (wf_hp _ _ Hw) _ _ H1) as Hlt1.
  pose proof (wf_fresh _ _ _ (wf_hp _ _ Hw) _ _ H2) as Hlt2.
  apply wp_bind. eapply wp_mono; [by apply create_ok|]. cbv beta.
  destruct (py_malloc (w_env w)).1 as [g|]; [|by intros r w' (-> & ? & ?)].
  intros r w1 (ld & -> & Hld & Hm1 & He1 & Hold). cbn [is_null]. cbv iota.
  unfold PyType_Ready. cbn [tp_name PyEtherInfo_Type ethtool_netlink_ip_address_Type].
  assert (forall x, module_is ld function_entries refs (set_err x w1)) as Hmx.
  { intros x. destruct Hm1 as [Hes Hwf]. split; [done|by apply (wf_outside w1)]. }
  destruct (type_ready "ethtool.etherinfo"); cbn [andb].
  2:{ eapply wp_step; [done|]. exists ld. split; [done|]. split; [done|]. apply Hmx. }
  eapply wp_step; [done|]. change (0 <? 0) with false. cbv iota.
  destruct (type_ready "ethtool.NetlinkIPaddress").
  2:{ eapply wp_step; [done|]. exists ld. split; [done|]. split; [done|]. apply Hmx. }
  eapply wp_step; [done|]. change (0 =? 0) with true. cbn [negb]. cbv iota.
  apply wp_bind. eapply wp_mono.
  { apply (add_constants_ok ld refs int_constants function_entries w1 Hm1).
    by apply (bool_decide_unpack _). }
  intros _ w2 [Hm2 [N2 O2 E2 _]].
  apply wp_bind. unfold PyModule_AddStringConstant, PyStr_FromString. rewrite Hu.
  eapply wp_mono.
  { eapply (add_new_ok ld _ refs w2 (VStr (cstr ("python-ethtool v" +:+ VERSION))) "version" Hm2);
      [|done|done]. by apply (bool_decide_unpack _). }
  intros r w3 (_ & Hm3 & [N3 O3 E3 _]).
  assert (ld < w_next w1)%positive as Hld1.
  { destruct (mi_entries _ _ _ _ Hm1) as (es1 & Hld1 & _).
    by eapply (wf_fresh _ _ _ (wf_hp _ _ (mi_wf _ _ _ _ Hm1))). }
  assert (forall l, (l < w_next w)%positive -> w_heap w3 !! l = w_heap w !! l) as Ho3
    by (intros l Hl; rewrite O3, O2, Hold by lia; done).
  apply wp_assoc, wp_bind. eapply wp_mono.
  { eapply (add_type_ok ld _ refs w3 etherinfo_type rc1 v1 "etherinfo" Hm3);
      [by apply (bool_decide_unpack _)|lia|by rewrite Ho3|done]. }
  intros _ w4 (Hm4 & T4 & E4 & O4 & N4).
  apply wp_assoc, wp_bind. eapply wp_mono.
  { eapply (add_type_ok ld _ refs w4 address_type rc2 v2 "NetlinkIPaddress" Hm4);
      [by apply (bool_decide_unpack _)|lia| |done].
    rewrite O4 by (done || lia). by rewrite Ho3. }
  intros _ w5 (Hm5 & T5 & E5 & O5 & N5). exists ld. split; [done|].
  split; [|split; [congruence|split; [|done]]].
  - unfold module_entries. by rewrite <- !app_assoc in Hm5.
  - rewrite O5 by (done || lia). done.
Qed.
(** C18: importing the module.  The module object has every function of the
    table, every constant, the version and both types under their names and
    nothing else, each type gains the one reference the module holds, and every
    reference is accounted for.  Without memory nothing is made; and when the
    interpreter refuses a type the import fails with its exception and the module
    object made before is leaked. *)
Theorem module_init_spec refs w rc1 v1 rc2 v2 :
  wf w refs -> utf8_valid (cstr ("python-ethtool v" +:+ VERSION)) = true ->
  etherinfo_type <> address_type ->
  w_heap w !! etherinfo_type = Some (Obj rc1 v1) -> 0 < rc1 ->
  w_heap w !! address_type = Some (Obj rc2 v2) -> 0 < rc2 ->
  wp (PyInit_ethtool signed_char VERSION type_ready etherinfo_type address_type)
    (initialised refs w rc1 rc2 v1 v2) w.
Proof. apply init_ok. Qed.
End initialised.

(** Two static type objects, at work on a quiet machine. *)
Definition types_world : world machine := Eval vm_compute in
  world_after (alloc VOther;; alloc VOther) (boot quiet).

Lemma types_world_wf : wf types_world ({[+ 2%positive +]} ⊎ {[+ 1%positive +]}).
Proof.
  apply (wf_alloc_simple (world_after (alloc VOther) (boot quiet)) _ VOther); [|done].
  eapply wf_eq; [apply (wf_alloc_simple (boot quiet) ∅ VOther); [apply wf_boot|done]|].
  simpl. multiset_solver.
Qed.

Lemma module_init_spec_witness :
  wp (PyInit_ethtool true "0.14" (fun _ => true) 1 2)
    (initialised true "0.14" (fun _ => true) 1 2
       ({[+ 2%positive +]} ⊎ {[+ 1%positive +]}) types_world 1 1 VOther VOther) types_world.
Proof.
  apply module_init_spec.
  - exact types_world_wf.
  - vm_compute. reflexivity.
  - discriminate.
  - reflexivity.
  - reflexivity.
  - reflexivity.
  - reflexivity.
Defined.
