(* ===== verification/Contract.v ===== *)
(** * The contract of the module with the interpreter

    A function of a C extension promises the interpreter to run without fault,
    to return a new reference with no exception pending or [NULL] with one, to
    account for every reference and to leave no descriptor or stream open
    ([api_post]).  The class [Honours] is this promise as an interface; each
    method has an instance, and the last theorem is that every entry of the
    method table honours it on a system that behaves as documented.  What is
    asked of the system ([well_behaved]) is what the source relies on without
    a test; the theorems on error paths in the other files show that the
    hypotheses on memory, names, files and values cannot be dropped. *)
From S2P Require Import Prelude.
From S2P Require Import Platform.
From S2P Require Import CPython.
From S2P Require Import Objects.
From S2P Require Import Testbed.
From S2P Require Import RefCount.
From S2P Require Import Typing.
From S2P Require Import Containers.
From S2P Require Import Stdio.
From S2P Require Import EthtoolH.
From S2P Require Import Ioctl.
From S2P Require Import IoctlFacts.
From S2P Require Import StabFacts.
From S2P Require Import StructDesc.
From S2P Require Import StructDescFacts.
From S2P Require Import Devices.
From S2P Require Import DevicesFacts.
From S2P Require Import EthtoolModule.

(** ** What the methods rely on *)

Section behaved.
Context {K : Type} `{Platform K}.
Implicit Types w : world K.

(** The kernel's answer to an ethtool request on a new socket, and its state
    afterwards. *)
Definition ethtool_answer (k : K) (fd : Z) (ifr : ifreq) (d : list mbyte) :=
  sys_ioctl fd SIOCETHTOOL ifr d (sys_socket k).2.

(** A PCMCIA table, when there is one, is made of lines [get_module] reads. *)
Definition stab_readable (k : K) : Prop :=
  match (sys_fopen stab_path k).1 with
  | inl _ => True
  | inr t => exists es, t = lines (map stab_text es) /\ Forall stab_ok es /\
      forall s d, find_driver s es = Some d -> utf8_valid d = true /\ has_nul d = false
  end.

(** /proc/net/dev is there, with two lines of heading, and names are text. *)
Definition procnet_readable (k : K) : Prop :=
  exists t l1 c1 e1 l2 body eof ls,
    (sys_fopen _PATH_PROCNET_DEV k).1 = inr t /\
    fgets 256 t = Some (l1, c1, e1) /\ fgets 256 c1 = Some (l2, body, eof) /\
    (if eof then ls = [] else reads 256 body ls) /\
    Forall (fun l => utf8_valid (cstr (line_name l)) = true) ls.

Definition getifaddrs_text (k : K) : Prop :=
  match (sys_getifaddrs k).1 with
  | inl _ => True
  | inr ifa => Forall (fun i => utf8_valid (ifa_name i) = true /\
                                has_nul (ifa_name i) = false) ifa
  end.

(** The system, from its state [k] on. *)
Record system_ok (k : K) : Prop := {
  (** Requests to the ethtool interface succeed with 0; a granted one fills in
      the structure after the command, or the driver's strings. *)
  so_ret fd ifr d : io_ret (ethtool_answer k fd ifr d).1 <= 0;
  so_words fd ifr d fs :
    fs ∈ [ethtool_value; ethtool_coalesce; ethtool_ringparam] ->
    length d = sizeof fs -> io_ret (ethtool_answer k fd ifr d).1 = 0 ->
    forall off, (4 <= off)%nat -> (off + 4 <= sizeof fs)%nat ->
    exists z, read_u32 off (io_data (ethtool_answer k fd ifr d).1) = Some z;
  so_info fd ifr n field :
    n ∈ [1024%nat; 2048%nat] -> field ∈ ["driver"; "bus_info"] ->
    io_ret (ethtool_answer k fd ifr (drvinfo_buf n)).1 = 0 ->
    exists s, cstr_of_bytes (drop (offsetof ethtool_drvinfo field)
      (io_data (ethtool_answer k fd ifr (drvinfo_buf n)).1)) = Some s;
  (** So does a granted wireless request. *)
  so_wireless fd ifr :
    let rep := (sys_ioctl fd SIOCGIWNAME ifr [] (sys_socket k).2).1 in
    0 <= io_ret rep -> exists s, cstr_of_bytes (Some <$> ifr_ifru (io_ifr rep)) = Some s;
  so_stab fd ifr : stab_readable (ethtool_answer k fd ifr (drvinfo_buf 2048)).2;
  so_procnet : procnet_readable k;
  so_ifaddrs : getifaddrs_text k;
  so_memory n : memory_for n k;
}.

(** The arguments: names are text UTF-8 can encode, up to any NUL, the caller
    holds what it passes, and a dictionary holds integers of a [long]. *)
Definition text (n : option string) : Prop :=
  exists s, n = Some s /\ utf8_valid (cstr s) = true.

Record args_fit w (args : list ptr) : Prop := {
  af_text names : asks w args names -> Forall text names;
  af_held l o : Loc l ∈ args -> w_heap w !! l = Some o -> 0 < ob_refcnt o;
  af_dict l rc es k p : Loc l ∈ args -> w_heap w !! l = Some (Obj rc (VDict es)) ->
    dict_get es k = Some p -> exists l' rc' z, p = Loc l' /\
      w_heap w !! l' = Some (Obj rc' (VInt z)) /\ LONG_MIN <= z <= LONG_MAX;
}.

Record well_behaved w (args : list ptr) : Prop := {
  wb_system : system_ok (w_env w);
  wb_args : args_fit w args;
}.

Lemma texts names : Forall text names ->
  exists ss, names = Some <$> ss /\ Forall (fun s => utf8_valid (cstr s) = true) ss.
Proof.
  induction 1 as [|n names (s & -> & Hs) _ (ss & -> & Hss)]; [by exists []|].
  exists (s :: ss). split; [done|by constructor].
Qed.

Lemma asks_text w l rc s names :
  w_heap w !! l = Some (Obj rc (VStr s)) -> utf8_valid (cstr s) = true ->
  asks w [Loc l] names -> Forall text names.
Proof.
  intros Hl Hu Ha. inversion Ha; simplify_eq. constructor; [|constructor].
  exists (cstr s). split; [done|]. by rewrite cstr_idemp.
Qed.

(** The promise of a method. *)
Class Honours (f : list ptr -> M K ptr) : Prop :=
  honours args rho w :
    well_behaved w args -> wf w rho -> w_err w = None -> args_ok w args ->
    wp (f args) (api_post rho w) w.
End behaved.

(** ** Queries about a device name *)

Section queries.
Context {K : Type} `{PL : PlatformLaws K}.
Implicit Types w : world K.

Lemma name_query_ok req n usize data failed answer args rho w :
  wf w rho -> w_err w = None -> args_ok w args ->
  (forall s fd e k1 rep k2 w', sys_socket (w_env w) = ((fd, e), k1) ->
     sys_ioctl fd req (make_ifreq n usize s) data k1 = (rep, k2) ->
     calm w w' -> w_env w' = k2 ->
     if io_ret rep <? 0 then
       w_err w' = Some (PyExc PyExc_IOError (ExcErrno (io_errno rep))) ->
       wp (failed s) (api_post rho w) w'
     else w_err w' = None ->
       wp (answer (io_ifr rep) (io_data rep)) (api_post rho w) w') ->
  wp (name_query req n usize data failed answer args) (api_post rho w) w.
Proof.
  intros Hw He Ha Hans. unfold name_query.
  destruct (parse_s_cases w args Ha) as [(s & Hs & _)|[x Hs]];
    (eapply wp_step; [exact Hs|]); cbn beta iota; [|by apply null_api].
  unfold wp. rewrite dev_query_eq. specialize (Hans s).
  destruct (sys_socket (w_env w)) as [[fd e] k1].
  specialize (Hans fd e k1). destruct (fd <? 0); [by apply (null_api rho w)|].
  destruct (sys_ioctl fd req _ data k1) as [rep k2].
  assert (forall x n, calm w (set_err x (set_errno n
    (set_fds (w_fds w ∖ {[fd]}) (set_env k2 w))))) as Hc.
  { split; simpl; try done. set_solver. }
  specialize (fun w' => Hans rep k2 w' eq_refl eq_refl).
  destruct (io_ret rep <? 0).
  - by apply Hans.
  - apply Hans; [|done..]. split; simpl; try done. set_solver.
Qed.

Lemma text_query_honours sc f req fmt :
  (f, req, fmt) ∈ text_queries sc -> Honours f.
Proof. intros Hf args rho w _ Hw He Ha. by eapply text_query_api. Qed.

#[export] Instance get_hwaddress_honours sc : Honours (get_hwaddress sc).
Proof. eapply (text_query_honours sc). left. Qed.
#[export] Instance get_ipaddress_honours sc : Honours (get_ipaddress sc).
Proof. eapply (text_query_honours sc). do 1 right. left. Qed.
#[export] Instance get_netmask_honours sc : Honours (get_netmask sc).
Proof. eapply (text_query_honours sc). do 2 right. left. Qed.
#[export] Instance get_broadcast_honours sc : Honours (get_broadcast sc).
Proof. eapply (text_query_honours sc). do 3 right. left. Qed.

#[export] Instance get_flags_honours : Honours get_flags.
Proof.
  intros args rho w _ Hw He Ha. apply name_query_api; [done..|].
  intros. by apply from_long_api.
Qed.

Lemma fills_value w : system_ok (w_env w) -> kernel_fills_value w.
Proof.
  intros Hb fd ifr d Hd rep Hr.
  apply (so_words _ Hb fd ifr d ethtool_value); [left|done|done|done|].
  vm_compute. lia.
Qed.

#[export] Instance get_value_honours cmd : Honours (get_value cmd).
Proof. intros args rho w [Hb%fills_value _] Hw He Ha. by apply get_value_api. Qed.

#[export] Instance set_value_honours cmd : Honours (set_value cmd).
Proof. intros args rho w _ Hw He Ha. by apply set_value_api. Qed.

(** A string read from an answer. *)
Lemma answer_text buf s rho w w' :
  wf w rho -> calm w w' -> w_err w' = None -> cstr_of_bytes buf = Some s ->
  wp (PyStr_FromArray buf) (api_post rho w) w'.
Proof.
  intros Hw Hc He Hs. eapply wp_mono.
  - eapply from_array_api; [by eapply wf_calm|done|done].
  - intros r w2. by apply api_calm.
Qed.

#[export] Instance get_wireless_protocol_honours : Honours get_wireless_protocol.
Proof.
  intros args rho w Hb Hw He Ha. apply name_query_ok; [done..|].
  intros s fd e k1 rep k2 w' Hs Hio Hc _.
  pose proof (so_wireless _ (wb_system _ _ Hb) fd (make_ifreq (pred IFNAMSIZ) IWRU_SIZE s)) as Hx.
  rewrite Hs in Hx. cbn [snd] in Hx. rewrite Hio in Hx. cbn [fst] in Hx.
  destruct (Z.ltb_spec (io_ret rep) 0).
  - intros Hx'. apply null_api; [done..|]. by rewrite Hx'.
  - intros He'. destruct Hx as [t Ht]; [done|]. by eapply answer_text.
Qed.

(** ** Driver information *)

(** What [well_behaved] says of the answer to a particular request. *)
Lemma info_answer w args fd e k1 ifr n field rep k2 :
  well_behaved w args -> n ∈ [1024%nat; 2048%nat] -> field ∈ ["driver"; "bus_info"] ->
  sys_socket (w_env w) = ((fd, e), k1) ->
  sys_ioctl fd SIOCETHTOOL ifr (drvinfo_buf n) k1 = (rep, k2) -> 0 <= io_ret rep ->
  exists s, cstr_of_bytes (drop (offsetof ethtool_drvinfo field) (io_data rep)) = Some s.
Proof.
  intros Hb Hn Hf Hs Hio Hr.
  pose proof (so_ret _ (wb_system _ _ Hb) fd ifr (drvinfo_buf n)) as H0.
  pose proof (so_info _ (wb_system _ _ Hb) fd ifr n field Hn Hf) as Hx.
  unfold ethtool_answer in *. rewrite Hs in H0, Hx. cbn [snd] in *.
  rewrite Hio in H0, Hx. cbn [fst] in *. apply Hx. lia.
Qed.

#[export] Instance get_businfo_honours : Honours get_businfo.
Proof.
  intros args rho w Hb Hw He Ha. apply name_query_ok; [done..|].
  intros s fd e k1 rep k2 w' Hs Hio Hc _. destruct (Z.ltb_spec (io_ret rep) 0).
  - intros Hx. apply null_api; [done..|]. by rewrite Hx.
  - intros He'. edestruct (info_answer w args fd e k1) as [t Ht]; [done| |..|done|].
    + left.
    + right. left.
    + done.
    + done.
    + by eapply answer_text.
Qed.

Lemma pcmcia_fallback_api s rho w w' :
  wf w rho -> calm w w' -> w_err w' <> None -> stab_readable (w_env w') ->
  wp (pcmcia_fallback s) (api_post rho w) w'.
Proof.
  intros Hw Hc Hx Hs. unfold stab_readable in Hs. unfold wp.
  destruct (sys_fopen stab_path (w_env w')) as [[n|t] k] eqn:Eo; cbn [fst] in Hs.
  - unfold pcmcia_fallback, fopen, ask, mbind, M_bind. rewrite Eo.
    apply null_api; [done| |done]. by destruct Hc.
  - destruct Hs as (es & -> & Hes & Hd).
    rewrite (pcmcia_fallback_ok s w' k es Hes Eo (Hd s)).
    destruct (find_driver s es) as [d|].
    + assert (calm w (set_err None (set_env k w'))) as Hc' by (by destruct Hc).
      eapply (api_calm rho w); [exact Hc'|].
      apply (alloc_api rho (set_err None (set_env k w')) (VStr d)); [|done|done].
      by eapply (wf_calm w).
    + apply null_api; [done| |done]. by destruct Hc.
Qed.

#[export] Instance get_module_honours : Honours get_module.
Proof.
  intros args rho w Hb Hw He Ha. apply name_query_ok; [done..|].
  intros s fd e k1 rep k2 w' Hs Hio Hc Hk. destruct (Z.ltb_spec (io_ret rep) 0).
  - intros Hx. apply pcmcia_fallback_api; [done|done|by rewrite Hx|].
    pose proof (so_stab _ (wb_system _ _ Hb) fd (make_ifreq IFNAMSIZ IFRU_SIZE s)) as Ht.
    unfold ethtool_answer in Ht. rewrite Hs in Ht. cbn [snd] in Ht.
    rewrite Hio in Ht. by rewrite Hk.
  - intros He'. edestruct (info_answer w args fd e k1) as [t Ht]; [done| |..|done|].
    + right. left.
    + left.
    + done.
    + done.
    + by eapply answer_text.
Qed.
End queries.

(** ** Structures *)

Section structures.
Context {K : Type} `{PL : PlatformLaws K}.
Implicit Types w : world K.

Lemma io_calm w fd k x n :
  calm w (set_err x (set_errno n (set_fds (w_fds w ∖ {[fd]}) (set_env k w)))).
Proof. split; simpl; try done. set_solver. Qed.

Lemma get_struct_honours cmd fs table :
  tiles fs table -> fs ∈ [ethtool_value; ethtool_coalesce; ethtool_ringparam] ->
  Honours (get_struct cmd fs table).
Proof.
  intros Ht Hfs args rho w Hb Hw He Ha. unfold wp, get_struct, get_dev_value.
  rewrite bind_assoc.
  destruct (parse_s_cases w args Ha) as [(s & Hs & _)|[x Hx]].
  2:{ rewrite (bind_Ret _ _ _ _ _ Hx). by apply null_api. }
  rewrite (bind_Ret _ _ _ _ _ Hs). cbn beta iota.
  assert (4 <= sizeof fs)%nat as Hsz by (rewrite (tile_all _ _ Ht); lia).
  pose proof (send_command_eq cmd s _ _ w (get_request_eq cmd fs Hsz)) as Hc.
  assert (length (get_request cmd fs) = sizeof fs) as Hlen.
  { unfold get_request. rewrite length_app, length_fmap, length_le_bytes,
      length_replicate. lia. }
  pose proof (fun fd ifr => so_words _ (wb_system _ _ Hb) fd ifr _ fs Hfs Hlen) as Hx.
  pose proof (fun fd ifr => so_ret _ (wb_system _ _ Hb) fd ifr (get_request cmd fs)) as H0.
  unfold ethtool_answer in *.
  destruct (sys_socket (w_env w)) as [[fd e] k1]. specialize (Hx fd). specialize (H0 fd).
  destruct (fd <? 0).
  { rewrite (bind_Ret _ _ _ _ _ Hc). by apply (null_api rho w). }
  cbn [snd] in *. specialize (Hx (make_ifreq IFNAMSIZ IFRU_SIZE s)).
  specialize (H0 (make_ifreq IFNAMSIZ IFRU_SIZE s)).
  destruct (sys_ioctl fd SIOCETHTOOL _ _ k1) as [rep k2]. cbv zeta in Hc.
  rewrite (bind_Ret _ _ _ _ _ Hc). cbn [fst] in *. cbn beta iota.
  destruct (Z.ltb_spec (io_ret rep) 0); [by apply null_api; [|apply io_calm|]|].
  eapply wp_mono.
  { apply (create_dict_ok table (io_data rep) rho); [by destruct Ht| |].
    - intros d Hd. destruct (tiles_fit fs table d Ht Hd). split; [done|].
      apply Hx; [lia| |done]. apply list_elem_of_lookup in Hd as [i Hd].
      rewrite (tile_offset _ _ Ht i d Hd). lia.
    - apply (wf_calm w); [|exact Hw]. apply (calm_io w fd k2 (w_err w)). }
  intros r w' (l & es & -> & Hl & _ & Hw' & Hon & Hmd & _).
  eapply (api_calm rho w); [apply (calm_io w fd k2 (w_err w))|].
  split; [done|]. split; [|split; [|split; [|by apply only_new_grows]]].
  - rewrite (on_err _ _ Hon). simpl. by rewrite He.
  - by rewrite (on_fds _ _ Hon).
  - by rewrite (on_files _ _ Hon).
Qed.

Lemma parse_sO_cases w args :
  args_ok w args ->
  (exists s p q, args = [p; q] /\ PyArg_ParseTuple_sO args w = Ret (Some (s, q)) w)
  \/ exists k, PyArg_ParseTuple_sO args w
       = Ret None (set_err (Some (PyExc k ExcRuntime)) w).
Proof.
  intros Ha. destruct args as [|p [|q [|]]]; try (right; by exists PyExc_TypeError).
  apply Forall_cons_1 in Ha as [Hp [Hq _]%Forall_cons_1]. simpl.
  destruct (conv_s_cases w p Hp) as [(s & Hs & _)|[k Hs]];
    rewrite (bind_Ret _ _ _ _ _ Hs); [left; by exists s, p, q|right; by exists k].
Qed.

(** Filling a structure from an argument: it is filled, or an entry is
    missing, and nothing else happens. *)
Lemma from_dict_cases table q w : forall to,
  (forall d, d ∈ table -> sd_size d = 4%nat /\ (sd_offset d + 4 <= length to)%nat) ->
  (q = PyNone \/ exists l o, q = Loc l /\ w_heap w !! l = Some o) ->
  (forall l rc es k p, q = Loc l -> w_heap w !! l = Some (Obj rc (VDict es)) ->
    dict_get es k = Some p -> exists l' rc' z, p = Loc l' /\
      w_heap w !! l' = Some (Obj rc' (VInt z)) /\ LONG_MIN <= z <= LONG_MAX) ->
  exists to', length to' = length to /\
    (__struct_desc_from_dict table to q w = Ret (0, to') w \/
     exists x, __struct_desc_from_dict table to q w = Ret (-1, to') (set_err (Some x) w)).
Proof.
  induction table as [|d table IH]; intros to Ht Hq Hd; [by exists to; auto|].
  destruct (Ht d) as [Hs Ho]; [left|]. cbn [__struct_desc_from_dict]. rewrite Hs.
  change (4 =? 4)%nat with true. cbv iota.
  assert (PyDict_GetItemString q (sd_name d) w = Ret Null w \/
    exists l' rc' z, PyDict_GetItemString q (sd_name d) w = Ret (Loc l') w /\
      w_heap w !! l' = Some (Obj rc' (VInt z)) /\ LONG_MIN <= z <= LONG_MAX) as Hg.
  { unfold PyDict_GetItemString. destruct Hq as [->|(l & [rc v] & -> & Hl)]; [by left|].
    rewrite (bind_Ret _ _ _ _ _ (peek_eq _ _ _ Hl)).
    destruct v as [| | | |es| | | |]; try by left.
    cbn [ob_val]. destruct (dict_get es (sd_name d)) as [p|] eqn:Eg; [|by left].
    destruct (Hd l rc es _ p eq_refl Hl Eg) as (l' & rc' & z & -> & ? & ?).
    right. by exists l', rc', z. }
  destruct Hg as [Hg|(l' & rc' & z & Hg & Hl' & Hz)]; rewrite (bind_Ret _ _ _ _ _ Hg).
  - exists to. split; [done|]. right. eexists. reflexivity.
  - cbn [is_null]. cbv iota. rewrite (bind_Ret _ _ _ _ _ (PyLong_AsLong_eq _ _ _ _ Hl')).
    cbn [as_long]. rewrite decide_True by done. cbn [fst snd raised]. unfold store_u32.
    destruct (write_u32_Some (sd_offset d) z to Ho) as (to1 & -> & Hlen).
    rewrite bind_ret_l. rewrite <- Hlen. apply IH; [|done..].
    intros d' Hd'. rewrite Hlen. apply Ht. by right.
Qed.

Lemma set_struct_honours cmd fs table :
  tiles fs table -> Honours (set_struct cmd fs table).
Proof.
  intros Ht args rho w Hb Hw He Ha. unfold set_struct.
  destruct (parse_sO_cases w args Ha) as [(s & p & q & -> & Hs)|[x Hx]].
  2:{ eapply wp_step; [exact Hx|]. by apply null_api. }
  eapply wp_step; [exact Hs|]. cbn beta iota.
  destruct (from_dict_cases table q w (uninit_struct fs)) as (to & Hlen & Hf).
  { intros d Hd. rewrite length_uninit. by eapply tiles_fit. }
  { by apply Forall_cons_1 in Ha as [_ [Hq _]%Forall_cons_1]. }
  { intros l rc es k v -> Hl Hg. eapply (af_dict _ _ (wb_args _ _ Hb)); [|done..]. right. left. }
  destruct Hf as [Hf|[x Hf]]; (eapply wp_step; [exact Hf|]); cbn beta iota;
    [|by apply null_api].
  change (negb (0 =? 0)) with false. cbv iota.
  rewrite length_uninit, (tile_all _ _ Ht) in Hlen.
  destruct (write_u32_Some 0 cmd to) as (rq & Hrq & _); [lia|].
  pose proof (send_command_eq cmd s _ _ w Hrq) as Hc.
  pose proof (fun fd ifr => so_ret _ (wb_system _ _ Hb) fd ifr rq) as H0. unfold ethtool_answer in H0.
  unfold wp. destruct (sys_socket (w_env w)) as [[fd e] k1]. specialize (H0 fd).
  destruct (fd <? 0).
  { rewrite (bind_Ret _ _ _ _ _ Hc). by apply (null_api rho w). }
  cbn [snd] in H0. specialize (H0 (make_ifreq IFNAMSIZ IFRU_SIZE s)).
  destruct (sys_ioctl fd SIOCETHTOOL _ _ k1) as [rep k2]. cbv zeta in Hc.
  rewrite (bind_Ret _ _ _ _ _ Hc). cbn [fst] in H0. cbn beta iota.
  destruct (Z.ltb_spec (io_ret rep) 0).
  - rewrite (proj2 (Z.eqb_neq _ _)) by lia. by apply null_api; [|apply io_calm|].
  - rewrite (proj2 (Z.eqb_eq _ _)) by lia.
    by apply none_api; [|apply (calm_io w fd k2 (w_err w))|].
Qed.

#[export] Instance get_coalesce_honours : Honours get_coalesce.
Proof.
  apply get_struct_honours; [apply coalesce_tiles|]. do 1 right. left.
Qed.
#[export] Instance get_ringparam_honours : Honours get_ringparam.
Proof. apply get_struct_honours; [apply ring_tiles|]. do 2 right. left. Qed.
#[export] Instance set_coalesce_honours : Honours set_coalesce.
Proof. apply set_struct_honours, coalesce_tiles. Qed.
#[export] Instance set_ringparam_honours : Honours set_ringparam.
Proof. apply set_struct_honours, ring_tiles. Qed.
End structures.

(** ** Lists *)

Section lists.
Context {K : Type} `{PL : PlatformLaws K}.
Implicit Types w : world K.

Lemma building_api rho w ll ds w' :
  building w rho ll ds w' -> w_err w = None -> api_post rho w (Loc ll) w'.
Proof.
  intros [_ Hw Hon _ Hmd] He.
  split; [done|]. split; [|split; [|split; [|by apply only_new_grows]]].
  - by rewrite (on_err _ _ Hon), He.
  - by rewrite (on_fds _ _ Hon).
  - apply (on_files _ _ Hon).
Qed.

#[export] Instance get_devices_honours : Honours get_devices.
Proof.
  intros args rho w Hb Hw He _.
  destruct (so_procnet _ (wb_system _ _ Hb))
    as (t & l1 & c1 & e1 & l2 & body & eof & ls & Ho & H1 & H2 & Hls & Hu).
  destruct (sys_fopen _PATH_PROCNET_DEV (w_env w)) as [r k1] eqn:Eo. simpl in Ho. subst r.
  eapply wp_mono; [by eapply (get_devices_ok args w rho t k1)|].
  intros r w' (ll & -> & Hl & _). by eapply building_api.
Qed.

#[export] Instance get_active_devices_honours : Honours get_active_devices.
Proof.
  intros args rho w Hb Hw He _.
  pose proof (so_ifaddrs _ (wb_system _ _ Hb)) as Hi. unfold getifaddrs_text in Hi.
  destruct (sys_getifaddrs (w_env w)) as [[n|ifa] k] eqn:Es; cbn [fst] in Hi.
  - unfold get_active_devices. eapply wp_step; [unfold ask; by rewrite Es|].
    by apply (null_api rho w).
  - eapply wp_mono; [by eapply active_devices_ok|].
    intros r w' (ll & -> & Hl & _). by eapply building_api.
Qed.

(** What a live container holds is there. *)
Lemma live_items w rho l rc v ps :
  wf w rho -> w_heap w !! l = Some (Obj rc v) -> 0 < rc ->
  v = VTuple ps \/ v = VList ps -> items_ok w ps.
Proof.
  intros [Hh _] Hl Hrc Hv. apply list.Forall_forall. intros p Hp.
  assert (val_ok v) as Hok by exact (wf_val _ _ _ Hh l _ Hl Hrc).
  assert (Forall is_ref ps) as Hr by (by destruct Hv as [-> | ->]).
  apply (proj1 (list.Forall_forall _ _) Hr) in Hp as Hp'.
  destruct p as [| | |l']; try done; [by left|]. right.
  destruct (wf_field _ _ l _ l' _ Hh Hl Hrc) as (o & Ho & _); [|by exists l', o].
  unfold val_refs. destruct Hv as [-> | ->]; by apply elem_ptrs_refs.
Qed.

#[export] Instance get_interfaces_info_honours : Honours get_interfaces_info.
Proof.
  intros args rho w Hb Hw He Ha.
  assert (forall names, asks w args names ->
    wp (get_interfaces_info args) (api_post rho w) w) as Hyes.
  { intros names Hn. destruct (texts _ (af_text _ _ (wb_args _ _ Hb) _ Hn)) as (ss & -> & Hss).
    eapply wp_mono.
    - apply (interfaces_info_ok args ss w rho); [done..| |done].
      exact (so_memory _ (wb_system _ _ Hb) _).
    - intros r w' (ll & -> & Hl). by eapply building_api. }
  assert (get_interfaces_info args w
    = Ret Null (set_err (Some (PyExc PyExc_LookupError
        (ExcMsg "Argument must be either a string, list or a tuple"))) w) ->
    wp (get_interfaces_info args) (api_post rho w) w) as Hno.
  { intros E. unfold wp. rewrite E. by apply null_api. }
  destruct args as [|p [|q ps]].
  - apply (Hyes []). constructor.
  - apply Forall_cons_1 in Ha as [[->|(l & [rc v] & -> & Hl)] _].
    { apply Hno, interfaces_info_refuses. auto. }
    pose proof (af_held _ _ (wb_args _ _ Hb) l _ ltac:(left) Hl) as Hrc. simpl in Hrc.
    destruct v as [s|z|items|items|es|a|e| |].
    2,5-8: apply Hno, interfaces_info_refuses; right; right; by eexists _, _, _.
    + apply (Hyes [Some (cstr s)]). by econstructor.
    + eapply Hyes, asks_list; [done|eapply live_items; eauto].
    + eapply Hyes, asks_tuple; [done|eapply live_items; eauto].
    + eapply Hyes. by eapply asks_surrogates.
  - apply Hno, interfaces_info_refuses. left. by eexists _, _, _.
Qed.

(** ** The method table *)

(** Instances are found by the name of the method. *)
#[local] Typeclasses Opaque get_hwaddress get_ipaddress get_netmask get_broadcast
  get_flags get_value set_value get_wireless_protocol get_businfo get_module
  get_coalesce set_coalesce get_ringparam set_ringparam get_devices
  get_active_devices get_interfaces_info.

Lemma table_honours sc : Forall (fun m => Honours m.2) (PyEthModuleMethods sc).
Proof.
  unfold PyEthModuleMethods, get_tso, set_tso, get_ufo, get_gso, set_gso, get_gro,
    set_gro, get_sg.
  repeat (constructor; [cbn [snd]; apply _|]). constructor.
Qed.

Lemma call_api sc name args m rho w :
  call_method sc name args = Some m ->
  well_behaved w args -> wf w rho -> w_err w = None -> args_ok w args ->
  wp m (api_post rho w) w.
Proof.
  unfold call_method. intros Hm Hb Hw He Ha.
  destruct (List.find _ _) as [p|] eqn:Ef; [|done]. simplify_eq.
  apply List.find_some in Ef as [Hin%list_elem_of_In _].
  by apply (proj1 (list.Forall_forall _ _) (table_honours sc) p Hin).
Qed.

(** C8: the contract of the module with the interpreter.  The system behaves as
    [system_ok] says: memory can be had, a granted request is filled in, strings
    of drivers end within their field, a PCMCIA table has lines of the form read,
    /proc/net/dev is there with two lines of heading, and the names in it and of
    [getifaddrs] are UTF-8.  Then calling any method of
    the module by its name, with any number of arguments of any type as long as
    they fit ([args_fit]: held by the caller, a string taken for a name one UTF-8
    can encode, the values of a dictionary integers of a [long]), runs without
    fault, returns a new reference with no exception pending or [NULL] with one,
    accounts for every reference, and leaves no descriptor and no stream open. *)
Theorem module_contract sc name args m rho w :
  call_method sc name args = Some m ->
  well_behaved w args -> wf w rho -> w_err w = None -> args_ok w args ->
  wp m (api_post rho w) w.
Proof. by apply call_api. Qed.
End lists.

(** ** At work: a machine with a card and its kernel's table *)

Definition contract_machine : machine :=
  with_file _PATH_PROCNET_DEV (lines (head1 :: head2 :: map dev_line two_devs)) card.

(** A device name and a complete dictionary. *)
Definition contract_run : M machine ptr :=
  alloc (VStr "eth0");;
  __struct_desc_create_dict ethtool_ringparam_desc ring_words.

Definition contract_world : world machine := Eval vm_compute in
  world_after contract_run (boot contract_machine).

Lemma contract_world_wf : wf contract_world ({[+ 2%positive +]} ⊎ {[+ 1%positive +]}).
Proof.
  assert (contract_run (boot contract_machine) = Ret (Loc 2) contract_world) as E
    by (vm_compute; reflexivity).
  pose proof (ring_dict_wf contract_machine) as Hr. change (wp contract_run
    (fun r w' => exists l, r = Loc l /\ wf w' ({[+ l +]} ⊎ {[+ 1%positive +]}))
    (boot contract_machine)) in Hr.
  unfold wp in Hr. rewrite E in Hr. by destruct Hr as (l & [= <-] & Hr).
Qed.

(** The card fills in what it is asked for. *)
Lemma card_words name d off : (length d <= 132)%nat ->
  let '(ret, _, _, d') := card_ioctl SIOCETHTOOL name d in
  ret = 0 -> (4 <= off)%nat -> (off + 4 <= length d)%nat ->
  exists z, read_u32 off (resize (length d) (Some x00) d') = Some z.
Proof.
  intros Hd. unfold card_ioctl. destruct (bool_decide (name = _)); cbv [negb];
    [|intros E; discriminate E].
  repeat (rewrite (proj2 (Z.eqb_neq _ _)) by discriminate). rewrite Z.eqb_refl.
  destruct (bool_decide _); intros _ H4 Ho; apply read_u32_all; intros i Hi;
    unfold resize; rewrite lookup_take_lt by lia.
  - rewrite <- !app_assoc, lookup_app_r by (rewrite length_take; lia).
    unfold c_array. rewrite !app_assoc, <- !fmap_app, <- app_assoc.
    rewrite lookup_app_l by (rewrite length_fmap, !length_app, !length_strncpy,
      length_take; lia).
    rewrite list_lookup_fmap.
    destruct (lookup_lt_is_Some_2 ((strncpy 32 "e1000e" ++ strncpy 64 "")
      ++ strncpy 32 "0000:00:19.0") (off + i - length (take 4 d))) as [b ->];
      [rewrite !length_app, !length_strncpy, length_take; lia|by exists b].
  - rewrite lookup_app_l by (unfold fill; rewrite length_fmap; lia).
    unfold fill. rewrite list_lookup_fmap.
    destruct (lookup_lt_is_Some_2 d (off + i)) as [b ->]; [lia|]. by eexists.
Qed.

Lemma card_answer fd ifr d :
  ethtool_answer contract_machine fd ifr d =
  let '(ret, e, u, d') := card_ioctl SIOCETHTOOL (ifr_name ifr) d in
  (IoctlReply ret e (Ifreq (ifr_name ifr) (resize (length (ifr_ifru ifr)) x00 u))
     (resize (length d) (Some x00) d'), contract_machine).
Proof. reflexivity. Qed.

Lemma card_ret name d : (card_ioctl SIOCETHTOOL name d).1.1.1 <= 0.
Proof.
  unfold card_ioctl. destruct (bool_decide (name = _)); cbv [negb]; [|discriminate].
  repeat (rewrite (proj2 (Z.eqb_neq _ _)) by discriminate). rewrite Z.eqb_refl.
  by destruct (bool_decide _).
Qed.

Lemma card_no_wireless name d : (card_ioctl SIOCGIWNAME name d).1.1.1 < 0.
Proof.
  unfold card_ioctl. destruct (bool_decide (name = _)); cbv [negb]; [|reflexivity].
  by repeat (rewrite (proj2 (Z.eqb_neq _ _)) by discriminate).
Qed.

Lemma card_strings name n field :
  n ∈ [1024%nat; 2048%nat] -> field ∈ ["driver"; "bus_info"] ->
  let '(ret, _, _, d') := card_ioctl SIOCETHTOOL name (drvinfo_buf n) in
  ret = 0 -> exists s, cstr_of_bytes (drop (offsetof ethtool_drvinfo field)
    (resize (length (drvinfo_buf n)) (Some x00) d')) = Some s /\
    utf8_valid (K := machine) s = true.
Proof.
  intros Hn Hf. unfold card_ioctl. destruct (bool_decide (name = _)); cbv [negb];
    [|intros E; discriminate E].
  repeat (rewrite (proj2 (Z.eqb_neq _ _)) by discriminate). rewrite Z.eqb_refl.
  repeat (apply elem_of_cons in Hn as [-> | Hn]); [..|by apply elem_of_nil in Hn];
    (repeat (apply elem_of_cons in Hf as [-> | Hf]); [..|by apply elem_of_nil in Hf]);
    intros _; eexists; (split; [vm_compute; reflexivity|vm_compute; reflexivity]).
Qed.

Lemma ring_dict_ints k p :
  dict_get (map (fun i => (sd_name (nth i ethtool_ringparam_desc (StructDesc "" 0 0)),
    Loc (Pos.of_nat (3 + i)))) (seq 0 8)) k = Some p ->
  exists l' rc' z, p = Loc l' /\
    w_heap contract_world !! l' = Some (Obj rc' (VInt z)) /\ LONG_MIN <= z <= LONG_MAX.
Proof.
  cbn [map seq dict_get].
  repeat (case_decide; [intros [= <-]; do 3 eexists; split; [reflexivity|];
    split; [vm_compute; reflexivity|split; discriminate]|]). done.
Qed.

Lemma contract_objects l rc v :
  w_heap contract_world !! l = Some (Obj rc v) -> 0 < rc.
Proof.
  assert (map_Forall (fun _ o => 0 < ob_refcnt o) (w_heap contract_world)) as Ha.
  { apply map_Forall_to_list.
    match goal with |- Forall _ ?m => let l := eval vm_compute in m in change m with l end.
    repeat (constructor; [done|]). constructor. }
  intros Hl. exact (Ha l _ Hl).
Qed.

Lemma contract_system : system_ok contract_machine.
Proof.
  split.
  - intros fd ifr d. rewrite card_answer. pose proof (card_ret (ifr_name ifr) d) as Hr.
    by destruct (card_ioctl _ _ _) as [[[ret e] u] d'].
  - intros fd ifr d fs Hfs Hd. rewrite card_answer.
    pose proof (fun off H => card_words (ifr_name ifr) d off H) as Hw.
    destruct (card_ioctl _ _ _) as [[[ret e] u] d']. cbn. intros Hr off H4 Ho.
    apply Hw; [|done..|by rewrite Hd]. rewrite Hd. clear -Hfs.
    repeat (apply elem_of_cons in Hfs as [-> | Hfs]; [apply Nat.leb_le; reflexivity|]).
    by apply elem_of_nil in Hfs.
  - intros fd ifr n field Hn Hf. rewrite card_answer.
    pose proof (card_strings (ifr_name ifr) n field Hn Hf) as Hs.
    destruct (card_ioctl _ _ _) as [[[ret e] u] d']. cbn. intros Hr.
    destruct (Hs Hr) as (s & Hs' & _). by exists s.
  - intros fd ifr rep Hr. subst rep. exfalso. revert Hr.
    pose proof (card_no_wireless (ifr_name ifr) []) as Hr.
    change (sys_ioctl fd SIOCGIWNAME ifr [] (sys_socket contract_machine).2)
      with (let '(ret, e, u, d') := card_ioctl SIOCGIWNAME (ifr_name ifr) [] in
      (IoctlReply ret e (Ifreq (ifr_name ifr) (resize (length (ifr_ifru ifr)) x00 u))
        (resize 0 (Some x00) d'), contract_machine)).
    destruct (card_ioctl _ _ _) as [[[ret e] u] d']. cbn in *. lia.
  - intros fd ifr. rewrite card_answer.
    by destruct (card_ioctl _ _ _) as [[[ret e] u] d'].
  - exists (lines (head1 :: head2 :: map dev_line two_devs)).
    do 6 eexists. exists (map line (map dev_line two_devs)).
    split; [reflexivity|]. split; [vm_compute; reflexivity|].
    split; [vm_compute; reflexivity|]. split.
    + apply (reads_lines 256 (map dev_line two_devs)); [lia|].
      repeat (constructor; [split; [reflexivity|apply Nat.ltb_lt; reflexivity]|]).
      constructor.
    + repeat (constructor; [vm_compute; reflexivity|]). constructor.
  - exact I.
  - intros n. induction n as [|n IH]; [exact I|]. split; [discriminate|exact IH].
Qed.

Lemma contract_well_behaved : well_behaved contract_world [Loc 1; Loc 2].
Proof.
  split; [apply contract_system|split].
  - intros names Ha. inversion Ha.
  - intros l [rc v] _ Hl. by apply contract_objects in Hl.
  - intros l rc es k p Hin Hl Hg. apply ring_dict_ints with k. rewrite <- Hg. f_equal.
    repeat (apply elem_of_cons in Hin as [[= ->] | Hin]); [..|by apply elem_of_nil in Hin];
      vm_compute in Hl; [discriminate Hl|]. injection Hl as _ <-. reflexivity.
Qed.

(** Setting the ring parameters of the card. *)
Lemma module_contract_witness :
  wp (set_ringparam [Loc 1; Loc 2])
     (api_post ({[+ 2%positive +]} ⊎ {[+ 1%positive +]}) contract_world) contract_world.
Proof.
  apply (module_contract true "set_ringparam" [Loc 1; Loc 2]).
  - reflexivity.
  - apply contract_well_behaved.
  - apply contract_world_wf.
  - reflexivity.
  - repeat (constructor; [right; do 2 eexists; split; reflexivity|]). constructor.
Defined.
