(* ===== verification/Stores.v ===== *)
(** * Changing containers

    A program may change a dictionary it holds, such as one of coalescing
    parameters before it is sent back, or a list.  What is replaced is released,
    and with it whatever only that held, an [etherinfo] object included.  The
    change keeps a sound world sound as long as nothing becomes circular: what
    is put in holds no items, or is older than the container.  What has leaked
    is out of reach: a list among it has no other holder ([inert_shared]). *)
From S2P Require Import Prelude.
From S2P Require Import Platform.
From S2P Require Import CPython.
From S2P Require Import Netlink.
From S2P Require Import Objects.
From S2P Require Import NetlinkSpec.
From S2P Require Import RefCount.
From S2P Require Import Typing.
From S2P Require Import Containers.
From S2P Require Import Sound.
From S2P Require Import EtherSound.
From S2P Require Import EtherObjSound.

(** ** The entries of a dictionary *)

Lemma dict_get_elem es k q : dict_get es k = Some q -> q ∈ es.*2.
Proof.
  induction es as [|[k' q'] es IH]; simpl; [done|].
  case_decide; [intros [= ->]; by left|]. intros Hq. right. by apply IH.
Qed.

Lemma dict_set_Forall (P : ptr -> Prop) es k p :
  Forall P es.*2 -> P p -> Forall P (dict_set es k p).*2.
Proof.
  induction es as [|[k' q] es IH]; simpl; intros Hes Hp; [by repeat constructor|].
  apply list.Forall_cons in Hes as [Hq Hes]. case_decide; constructor; auto.
Qed.

(** What a store takes in and gives out. *)
Lemma dict_set_refs es k p :
  ptrs_refs (dict_set es k p).*2 ⊎ from_option ptr_refs ∅ (dict_get es k)
    = ptr_refs p ⊎ ptrs_refs es.*2.
Proof.
  induction es as [|[k' q] es IH]; csimpl; [multiset_solver|].
  case_decide; csimpl; [multiset_solver|].
  apply gmultiset_eq. intros i. apply (f_equal (multiplicity i)) in IH.
  rewrite !multiplicity_disj_union in *. lia.
Qed.

(** Reading gives what was stored, and what else was there. *)
Lemma dict_get_set es k p k' :
  dict_get (dict_set es k p) k' = if decide (k' = k) then Some p else dict_get es k'.
Proof.
  induction es as [|[k0 q] es IH]; simpl; [done|].
  repeat (case_decide; simpl; simplify_eq); done.
Qed.

(** ** Lists *)

(** [l\[:\] = ps], of which [append], [del l\[i\]], [l\[i\] = p] and the like are cases:
    references to the new items, the list changed, the old items released, the
    last first. *)
Section lists.
Context {K : Type} `{Platform K}.

Fixpoint each_ptr (f : ptr -> M K unit) (ps : list ptr) : M K unit :=
  match ps with
  | [] => mret tt
  | p :: ps => f p;; each_ptr f ps
  end.

Definition list_assign (l : ptr) (ps : list ptr) : M K unit :=
  v ← peek l;
  match v with
  | VList old =>
      each_ptr Py_INCREF ps;;
      put_val l (VList ps);;
      each_ptr Py_XDECREF (reverse old)
  | _ => PyErr_Internal PyExc_TypeError
  end.
End lists.

(** ** Changes keep the world sound *)

Section store.
Context {K : Type} `{PL : PlatformLaws K}.
Implicit Types (w : world K) (refs leaked rho : gmultiset positive).

(** What may be put in the container at [d]. *)
Definition storable w (d : positive) (p : ptr) : Prop :=
  atom_at (w_heap w) p \/ older d p.

(** Containers and addresses. *)
Definition changeable (v : pyval) : bool :=
  match v with VAddr _ => true | _ => container v end.

Lemma storable_not_self w d o p :
  w_heap w !! d = Some o -> container (ob_val o) = true -> storable w d p -> p <> Loc d.
Proof.
  intros Hd Hc Hst ->.
  destruct Hst as [[?|(l & ol & [= <-] & Hl & Hc')]|(l & [= <-] & ?)]; [done| |lia].
  simplify_eq. congruence.
Qed.

(** The items of a container change; those taken out are still held, by nobody. *)
Lemma sound_put_items w refs d rc v v' (vin vout : gmultiset positive) :
  sound w (vin ⊎ refs) -> w_heap w !! d = Some (Obj rc v) -> 0 < rc ->
  same_kind v v' -> changeable v = true -> val_ok v' ->
  typed_val (older d) (w_heap w) v' -> val_refs v' ⊎ vout = vin ⊎ val_refs v ->
  sound (set_heap (<[d := Obj rc v']> (w_heap w)) w) (vout ⊎ refs).
Proof.
  intros [Hw Ht Hc] Hd Hrc Hk Hcv Hok Htv Hr.
  assert (keeps_kinds (w_heap w) (<[d := Obj rc v']> (w_heap w))) as Hks
    by (by eapply keeps_kinds_insert).
  split.
  - apply (wf_set_heap _ _ _ _ Hw). eapply wf_update; [apply Hw|exact Hd|simpl; lia|done|].
    intros i. pose proof (f_equal (multiplicity i) Hr) as Hm.
    unfold obj_refs. simpl. rewrite (proj2 (Z.ltb_lt _ _) Hrc).
    rewrite !multiplicity_disj_union in *. case_decide; lia.
  - apply typed_from_insert; [exact Ht|exact Hks|]. right. split; [done|].
    by apply (typed_val_keeps _ _ _ _ Hks).
  - apply (conn_ok_frame w); [done..|]. simpl. rewrite (users_same _ _ _ _ Hd); [done|].
    unfold is_user. simpl. by destruct v, v'.
Qed.

(** What has leaked is not touched by a release. *)
Lemma addr_at_evolves w w' refs l o ps :
  wf w' refs -> evolves None w w' -> w_heap w' !! l = Some o -> 0 < ob_refcnt o ->
  ob_val o = VList ps -> Forall (addr_at (w_heap w)) ps -> Forall (addr_at (w_heap w')) ps.
Proof.
  intros Hw He Hl Ho Hv Hps. apply list.Forall_forall. intros p Hp.
  destruct (proj1 (list.Forall_forall _ _) Hps p Hp) as (i & rc & a & -> & Hi).
  destruct (field_live w' refs l o i Hw Hl Ho) as ([rc' v'] & Hi' & Hrc');
    [by rewrite Hv|].
  destruct (ev_live _ _ _ He i _ Hi' Hrc') as (o0 & Hi0 & Hv0 & _). simpl in Hv0.
  rewrite Hi in Hi0. injection Hi0 as <-. simpl in Hv0. subst v'. by exists i, rc', a.
Qed.

Lemma inert_evolves w w' leaked refs :
  wf w' (leaked ⊎ refs) -> evolves None w w' -> inert (w_heap w) leaked ->
  inert (w_heap w') leaked.
Proof.
  intros Hw He Hi i Hin. destruct (Hi i Hin) as (rc & v & Hl & Hv & Hone).
  destruct (held_live w' (leaked ⊎ refs) i Hw) as ([rc' v'] & Hl' & Hrc'); [multiset_solver|].
  destruct (ev_live _ _ _ He i _ Hl' Hrc') as (o0 & Hl0 & Hv0 & Hle).
  rewrite Hl in Hl0. injection Hl0 as <-. simpl in Hv0, Hle, Hrc'. subst v'. exists rc', v.
  split; [done|]. split; [|intros ps ->; specialize (Hone ps eq_refl); lia].
  destruct v; try done. simpl in *. by eapply addr_at_evolves.
Qed.

(** What may change and has not leaked may change. *)
Lemma inert_put h d rc v v' leaked :
  h !! d = Some (Obj rc v) -> same_kind v v' -> d ∉ leaked ->
  inert h leaked -> inert (<[d := Obj rc v']> h) leaked.
Proof.
  intros Hd Hk Hn Hi i Hin. destruct (Hi i Hin) as (rci & vi & Hv & Hiv & Hone).
  exists rci, vi. rewrite lookup_insert_ne by (by intros ->). split; [done|]. split; [|done].
  destruct vi; try done. simpl in *. eapply list.Forall_impl; [exact Hiv|].
  intros q (j & rj & a & -> & Hj). destruct (decide (j = d)) as [->|Hne].
  - rewrite Hd in Hj. injection Hj as <- ->. destruct v'; try done.
    eexists d, rc, _. split; [done|]. apply lookup_insert_eq.
  - exists j, rj, a. by rewrite lookup_insert_ne.
Qed.

(** References of the container's own to what the program holds. *)
Lemma increfs_ok ps d o leaked rho : forall w acc,
  sound w (acc ⊎ (leaked ⊎ rho)) -> inert (w_heap w) leaked -> w_heap w !! d = Some o ->
  Loc d ∉ ps -> Forall is_ref ps -> (forall l, Loc l ∈ ps -> l ∈ rho) ->
  Forall (storable w d) ps ->
  wp (each_ptr Py_INCREF ps)
    (fun _ w' => sound w' (ptrs_refs ps ⊎ (acc ⊎ (leaked ⊎ rho))) /\
       inert (w_heap w') leaked /\ w_heap w' !! d = Some o /\
       keeps_kinds (w_heap w) (w_heap w') /\
       w_fds w' = w_fds w /\ w_files w' = w_files w /\ w_err w' = w_err w) w.
Proof.
  induction ps as [|p ps IH]; intros w acc Hs Hi Hd Hc Hp Hin Hst.
  { split; [|by repeat split]. eapply sound_eq; [exact Hs|]. simpl. multiset_solver. }
  apply not_elem_of_cons in Hc as [Hd0 Hc].
  apply list.Forall_cons in Hp as [Hp Hps]. apply list.Forall_cons in Hst as [Hst Hsts].
  assert (forall l, Loc l ∈ ps -> l ∈ rho) as Hin' by (intros l Hl; apply Hin; by right).
  cbn [each_ptr]. destruct p as [| | |l]; try done.
  - eapply wp_step; [done|]. eapply wp_mono; [by apply (IH w acc)|]. intros _ w' [Hs' ?].
    split; [|done]. eapply sound_eq; [exact Hs'|]. csimpl. multiset_solver.
  - assert (l ∈ rho) as Hl by (apply Hin; left).
    destruct (held_live w (acc ⊎ (leaked ⊎ rho)) l) as (ol & Hol & Hrc);
      [apply Hs|multiset_solver|].
    assert (l <> d) as Hne by congruence.
    set (w1 := set_heap (<[l := Obj (ob_refcnt ol + 1) (ob_val ol)]> (w_heap w)) w).
    assert (keeps_kinds (w_heap w) (w_heap w1)) as Hk by (by eapply keeps_kinds_insert).
    eapply wp_step; [by apply incref_eq|]. eapply wp_mono.
    { apply (IH w1 ({[+ l +]} ⊎ acc)); [| |by simpl; rewrite lookup_insert_ne|done..|].
      - eapply sound_eq; [by apply sound_incref|]. multiset_solver.
      - apply (inert_incref w leaked (acc ⊎ rho)); [|done|done|left; multiset_solver].
        eapply wf_eq; [apply Hs|]. multiset_solver.
      - eapply list.Forall_impl; [exact Hsts|]. intros q [Ha|?]; [left|by right].
        by eapply atom_at_keeps. }
    intros _ w' (Hs' & Hi' & Hd' & Hk' & Hfd & Hfi & He). split.
    { eapply sound_eq; [exact Hs'|]. simpl. multiset_solver. }
    do 2 (split; [done|]). split; [by etrans|done].
Qed.

Lemma releases_ok qs : forall w refs,
  Forall is_ref_or_null qs -> wf w (ptrs_refs qs ⊎ refs) ->
  wp (each_ptr Py_XDECREF qs) (fun _ w' => wf w' refs /\ evolves None w w') w.
Proof.
  induction qs as [|q qs IH]; intros w refs Hq Hw.
  { split; [|apply evolves_refl]. eapply wf_eq; [exact Hw|]. simpl. multiset_solver. }
  apply list.Forall_cons in Hq as [Hq Hqs]. apply wp_bind.
  eapply wp_mono; [apply (Py_XDECREF_ok q w (ptrs_refs qs ⊎ refs) Hq)|].
  { eapply wf_eq; [exact Hw|]. simpl. multiset_solver. }
  intros _ w1 [Hw1 He1]. eapply wp_mono; [by apply IH|].
  intros _ w2 [Hw2 He2]. split; [done|by eapply evolves_trans].
Qed.

(** A change of the container at [d], whose items become those of [v'], the old
    ones [qs] released. *)
Definition kept_sound leaked rho w w' : Prop :=
  sound w' (leaked ⊎ rho) /\ inert (w_heap w') leaked /\
  w_fds w' = w_fds w /\ w_files w' = w_files w.

Definition changed leaked rho d v' w w' : Prop :=
  kept_sound leaked rho w w' /\ w_err w' = w_err w /\
  exists rc', w_heap w' !! d = Some (Obj rc' v').

Lemma changed_kept leaked rho d v' w w' :
  changed leaked rho d v' w w' -> kept_sound leaked rho w w'.
Proof. by intros []. Qed.

Lemma change_ok w leaked rho d rc v v' ps qs :
  sound w (leaked ⊎ rho) -> inert (w_heap w) leaked -> w_heap w !! d = Some (Obj rc v) ->
  d ∈ rho -> changeable v = true -> same_kind v v' -> Loc d ∉ ps ->
  Forall is_ref ps -> (forall l, Loc l ∈ ps -> l ∈ rho) -> Forall (storable w d) ps ->
  (0 < rc -> val_ok v -> val_ok v' /\ Forall is_ref_or_null qs) ->
  (forall h, keeps_kinds (w_heap w) h -> typed_val (older d) h v ->
     Forall (fun p => atom_at h p \/ older d p) ps -> typed_val (older d) h v') ->
  val_refs v' ⊎ ptrs_refs qs = ptrs_refs ps ⊎ val_refs v ->
  wp (each_ptr Py_INCREF ps;; put_val (Loc d) v';; each_ptr Py_XDECREF qs)
    (fun _ w' => changed leaked rho d v' w w') w.
Proof.
  intros Hs Hi Hd Hin Hc Hk Hself Hp Hps Hst Hok Hty Hr.
  assert (0 < rc) as Hrc.
  { destruct (held_live w (leaked ⊎ rho) d) as (o & Ho & ?); [apply Hs|multiset_solver|].
    by simplify_eq. }
  destruct (Hok Hrc (wf_val _ _ _ (wf_hp _ _ (sd_wf _ _ Hs)) _ _ Hd Hrc)) as [Hv' Hqs].
  assert (d ∉ leaked) as Hleak.
  { destruct v; try done; [|intros (? & ? & Hd' & Hx & _)%Hi; by simplify_eq..].
    eapply inert_shared; [apply Hs|exact Hi|by left|exact Hd]. }
  apply wp_bind. eapply wp_mono.
  { apply (increfs_ok ps d (Obj rc v) leaked rho w ∅); [|done..].
    eapply sound_eq; [exact Hs|]. multiset_solver. }
  intros _ w1 (Hs1 & Hi1 & Hd1 & Hk1 & Hfd & Hfi & He1).
  assert (Forall (fun p => atom_at (w_heap w1) p \/ older d p) ps) as Hst1.
  { eapply list.Forall_impl; [exact Hst|]. intros p [Ha|?]; [left|by right].
    by eapply atom_at_keeps. }
  pose proof (proj2 (sd_typed _ _ Hs1 d _ Hd1 ltac:(lia))) as Ht1.
  assert (sound w1 (ptrs_refs ps ⊎ (leaked ⊎ rho))) as Hs1'
    by (eapply sound_eq; [exact Hs1|]; multiset_solver).
  eapply wp_step; [exact (put_val_eq _ _ _ _ Hd1)|]. cbn [ob_refcnt].
  pose proof (sound_put_items w1 _ d rc v v' _ _ Hs1' Hd1 Hrc Hk Hc Hv' (Hty _ Hk1 Ht1 Hst1) Hr)
    as Hs2.
  pose proof (inert_put _ d rc v v' leaked Hd1 Hk Hleak Hi1) as Hi2.
  eapply wp_mono; [apply releases_ok; [exact Hqs|apply Hs2]|].
  intros _ w3 [Hw3 Hev]. split; [split; [|split; [by eapply inert_evolves|]]|split].
  - split; [exact Hw3|by eapply typed_evolves; [apply Hs2|..]|by eapply ev_conn, Hs2].
  - rewrite (ev_fds _ _ _ Hev), (ev_files _ _ _ Hev). by split.
  - rewrite (ev_err _ _ _ Hev). exact He1.
  - destruct (held_live w3 (leaked ⊎ rho) d) as ([rc' vd] & Hd3 & Hrc'); [done|multiset_solver|].
    destruct (ev_live _ _ _ Hev d _ Hd3 Hrc') as (o2 & Hd2 & Hv2 & _).
    simpl in Hd2, Hv2. rewrite lookup_insert_eq in Hd2. injection Hd2 as <-. simpl in Hv2.
    subst vd. by exists rc'.
Qed.

(** [d\[k\] = p] and [l\[:\] = ps]. *)
Lemma dict_store_ok w leaked rho d rc es k p :
  sound w (leaked ⊎ rho) -> inert (w_heap w) leaked ->
  w_heap w !! d = Some (Obj rc (VDict es)) -> d ∈ rho ->
  is_ref p -> (forall l, p = Loc l -> l ∈ rho) -> storable w d p ->
  wp (PyDict_SetItemString (Loc d) k p) (fun _ w' => kept_sound leaked rho w w') w.
Proof.
  intros Hs Hi Hd Hin Hp Hl Hst.
  set (qs := match dict_get es k with Some q => [q] | None => [] end).
  assert (ptrs_refs qs = from_option ptr_refs ∅ (dict_get es k)) as Hqs.
  { unfold qs. destruct (dict_get es k); simpl; multiset_solver. }
  assert (wp (each_ptr Py_INCREF [p];; put_val (Loc d) (VDict (dict_set es k p));;
    each_ptr Py_XDECREF qs) (fun _ w' => kept_sound leaked rho w w') w) as Hc.
  { eapply wp_mono; [|intros a w'; apply (changed_kept leaked rho d (VDict (dict_set es k p)))].
    apply (change_ok w leaked rho d rc (VDict es)); try done.
    - intros [= <-]%list_elem_of_singleton.
      by apply (storable_not_self w d _ (Loc d) Hd).
    - by constructor.
    - intros l [= <-]%list_elem_of_singleton. by apply Hl.
    - by constructor.
    - intros _ Hes. split; [by apply dict_set_Forall|]. unfold qs. simpl in Hes.
      destruct (dict_get es k) as [q|] eqn:E; [|constructor]. constructor; [|constructor].
      apply dict_get_elem in E. pose proof (proj1 (list.Forall_forall _ _) Hes _ E) as Hq.
      by destruct q.
    - intros h _ Hes Hps. apply dict_set_Forall; [exact Hes|].
      by apply list.Forall_cons in Hps as [? _].
    - rewrite Hqs. unfold val_refs. simpl. rewrite dict_set_refs. multiset_solver. }
  unfold PyDict_SetItemString. eapply wp_step; [exact (peek_eq _ _ _ Hd)|]. cbn [ob_val].
  apply wp_bind_inv in Hc. apply wp_bind.
  apply (wp_bind_inv (Py_INCREF p) (fun _ => mret tt)) in Hc. eapply wp_mono; [exact Hc|].
  intros [] w1 Hc1. apply wp_bind. eapply wp_mono; [exact (wp_bind_inv _ _ _ _ Hc1)|].
  intros [] w2 Hc2. apply wp_bind. unfold qs in Hc2.
  destruct (dict_get es k) as [q|]; [|exact Hc2].
  eapply wp_mono; [exact (wp_bind_inv (Py_XDECREF q) (fun _ => mret tt) _ _ Hc2)|done].
Qed.

Lemma list_assign_ok w leaked rho l rc old ps :
  sound w (leaked ⊎ rho) -> inert (w_heap w) leaked ->
  w_heap w !! l = Some (Obj rc (VList old)) -> l ∈ rho ->
  Forall is_ref ps -> (forall i, Loc i ∈ ps -> i ∈ rho) -> Forall (storable w l) ps ->
  wp (list_assign (Loc l) ps) (fun _ w' => kept_sound leaked rho w w') w.
Proof.
  intros Hs Hi Hl Hin Hp Hps Hst. unfold list_assign.
  eapply wp_step; [exact (peek_eq _ _ _ Hl)|]. cbn [ob_val].
  eapply wp_mono; [|intros a w'; apply (changed_kept leaked rho l (VList ps))].
  apply (change_ok w leaked rho l rc (VList old)); try done.
  - intros Hx. pose proof (proj1 (list.Forall_forall _ _) Hst _ Hx).
    by apply (storable_not_self w l _ (Loc l) Hl).
  - intros _ Hold. split; [done|]. apply Forall_reverse.
    eapply list.Forall_impl; [exact Hold|]. by intros [].
  - unfold val_refs. simpl. by rewrite ptrs_refs_reverse.
Qed.

(** An item is referred to. *)
Lemma field_shared (h : gmap positive obj) l o i :
  h !! l = Some o -> 0 < ob_refcnt o -> Loc i ∈ val_ptrs (ob_val o) -> i ∈ heap_refs h.
Proof.
  intros Hl Ho Hi%elem_ptrs_refs. rewrite (heap_refs_delete h l o) by done.
  unfold obj_refs. rewrite (proj2 (Z.ltb_lt _ _) Ho). fold (val_refs (ob_val o)) in *.
  multiset_solver.
Qed.

(** Another reference to what a sound world has. *)
Lemma incref_reachable w leaked rho l o :
  sound w (leaked ⊎ rho) -> inert (w_heap w) leaked -> w_heap w !! l = Some o ->
  0 < ob_refcnt o -> l ∈ rho \/ l ∈ heap_refs (w_heap w) ->
  let w' := set_heap (<[l := Obj (ob_refcnt o + 1) (ob_val o)]> (w_heap w)) w in
  sound w' (leaked ⊎ ({[+ l +]} ⊎ rho)) /\ inert (w_heap w') leaked.
Proof.
  intros Hs Hi Hl Ho Hsh. split; [|by eapply inert_incref; [apply Hs|..]].
  eapply sound_eq; [by apply sound_incref|]. multiset_solver.
Qed.
End store.
