(* ===== verification/AddressMembers.v ===== *)
(** * The members of an address, assigned and deleted

    The flags of the members of [NetlinkIPaddress] are 0, so that a program may
    assign and delete them.  An assignment that leaves a string where the C code
    expects one keeps the world sound, and is read back; the others leave an
    object that brings the process down when it is printed or released. *)
From S2P Require Import Prelude.
From S2P Require Import Platform.
From S2P Require Import CPython.
From S2P Require Import Netlink.
From S2P Require Import Objects.
From S2P Require Import Testbed.
From S2P Require Import NetlinkSpec.
From S2P Require Import RefCount.
From S2P Require Import Typing.
From S2P Require Import Containers.
From S2P Require Import Sound.
From S2P Require Import StructDescFacts.
From S2P Require Import NetlinkAddress.
From S2P Require Import EtherSound.
From S2P Require Import EtherText.
From S2P Require Import EtherObjSound.
From S2P Require Import Stores.

(** What may be put in a member, [Null] to delete it: a string; nothing in the
    two the code tests; whatever is not a number is refused by [netmask]. *)
Definition member_fits (h : gmap positive obj) (name : string) (p : ptr) : Prop :=
  name = "netmask" \/ str_at h p \/
  p = Null /\ (name = "peer_address" \/ name = "broadcast").

(** A field that holds an object, or [NULL] if [null]. *)
Record object_field (f : field ptr) (null : bool) : Prop := {
  of_refs v a : val_refs (VAddr (fset f v a)) ⊎ ptr_refs (fget f a)
    = ptr_refs v ⊎ val_refs (VAddr a);
  of_get v a : fget f (fset f v a) = v;
  of_old a : fget f a ∈ val_ptrs (VAddr a);
  of_old_ok a : val_ok (VAddr a) -> is_ref_or_null (fget f a);
  of_ok v a : val_ok (VAddr a) -> is_ref v \/ null = true /\ v = Null ->
    val_ok (VAddr (fset f v a));
  of_typed R h v a : typed_val R h (VAddr a) -> str_at h v \/ null = true /\ v = Null ->
    typed_val R h (VAddr (fset f v a));
}.

Ltac solve_ref := match goal with |- is_ref_or_null ?p => by destruct p end.
Ltac solve_field :=
  split; [intros v a; unfold val_refs; simpl; multiset_solver|done|..];
  intros; simpl in *; unfold str_or_null_at in *; rewrite ?elem_of_cons;
  destruct_and?; destruct_or?; destruct_and?; subst; simpl; try done;
  auto 8; repeat (split; [first [tauto|solve_ref]|]); first [tauto|solve_ref].

Lemma address_field : object_field (Field local with_local) false.
Proof. solve_field. Qed.
Lemma peer_address_field : object_field (Field peer with_peer) true.
Proof. solve_field. Qed.
Lemma broadcast_field : object_field (Field ipv4_broadcast with_ipv4_broadcast) true.
Proof. solve_field. Qed.
Lemma scope_field : object_field (Field scope with_scope) false.
Proof. solve_field. Qed.
Section assign.
Context {K : Type} `{PL : PlatformLaws K}.
Implicit Types (w : world K) (refs leaked rho : gmultiset positive).

Definition given (p : ptr) : list ptr := if is_null p then [] else [p].

Lemma set_object_eq f l rc a p w :
  w_heap w !! l = Some (Obj rc (VAddr a)) -> p <> Loc l ->
  set_object f (Loc l) p w
    = (each_ptr Py_INCREF (given p);; put_val (Loc l) (VAddr (fset f p a));;
       each_ptr Py_XDECREF [fget f a];; mret 0) w.
Proof.
  intros Hl Hne. unfold set_object. rewrite (bind_Ret _ _ _ _ _ (get_addr_eq _ _ _ _ Hl)).
  assert (forall w1, w_heap w1 !! l = Some (Obj rc (VAddr a)) ->
    (upd_addr (fset f p) (Loc l);; Py_XDECREF (fget f a);; mret 0) w1
    = (put_val (Loc l) (VAddr (fset f p a));; each_ptr Py_XDECREF [fget f a];; mret 0) w1) as Hrest.
  { intros w1 Hl1. unfold upd_addr. rewrite bind_assoc, (bind_Ret _ _ _ _ _ (get_addr_eq _ _ _ _ Hl1)).
    rewrite !(bind_Ret _ _ _ _ _ (put_val_eq _ _ _ _ Hl1)). cbn [each_ptr]. rewrite bind_assoc.
    unfold mbind, M_bind. by destruct (Py_XDECREF _ _). }
  unfold Py_XINCREF, given. destruct (is_null p) eqn:En; cbn [each_ptr].
  - rewrite !bind_ret_l. by apply Hrest.
  - rewrite bind_assoc. destruct (Py_INCREF p w) as [[] w1|x] eqn:Ei.
    + rewrite !(bind_Ret _ _ _ _ _ Ei), bind_ret_l. apply Hrest.
      destruct p as [| | |i]; try done; [by injection Ei as <-|].
      unfold Py_INCREF in Ei. mrun in Ei. destruct w as [h nx er x nlc nl nn fd fs se k].
      simpl in *. destruct (h !! i) eqn:Hi; [|done]. injection Ei as <-. simpl.
      by rewrite lookup_insert_ne by congruence.
    + by rewrite !(bind_Fault _ _ _ _ Ei).
Qed.

Lemma set_object_ok f null w leaked rho l rc a p :
  object_field f null -> sound w (leaked ⊎ rho) -> inert (w_heap w) leaked ->
  w_heap w !! l = Some (Obj rc (VAddr a)) -> l ∈ rho -> (forall i, p = Loc i -> i ∈ rho) ->
  str_at (w_heap w) p \/ null = true /\ p = Null ->
  wp (set_object f (Loc l) p)
    (fun r w' => r = 0 /\ changed leaked rho l (VAddr (fset f p a)) w w') w.
Proof.
  intros Hf Hs Hi Hl Hin Hp Hfit.
  assert (p <> Loc l) as Hne.
  { intros ->. destruct Hfit as [(? & ? & ? & [= <-] & ?)|[_ ?]]; by simplify_eq. }
  unfold wp. rewrite (set_object_eq f l rc a p w Hl Hne).
  pose proof (sd_wf _ _ Hs) as Hw.
  assert (wp (each_ptr Py_INCREF (given p);; put_val (Loc l) (VAddr (fset f p a));;
    each_ptr Py_XDECREF [fget f a]) (fun _ w' => changed leaked rho l (VAddr (fset f p a)) w w') w)
    as Hc.
  { apply (change_ok w leaked rho l rc (VAddr a)); try done.
    - unfold given. destruct (is_null p); [apply not_elem_of_nil|].
      by intros Hx%list_elem_of_singleton.
    - unfold given. destruct Hfit as [(? & ? & ? & -> & _)|[_ ->]]; by repeat constructor.
    - unfold given. intros i Hg. destruct (is_null p); [by apply elem_of_nil in Hg|].
      apply list_elem_of_singleton in Hg. by apply Hp.
    - unfold given. destruct Hfit as [(i & ? & t & -> & Hi')|[_ ->]]; [|constructor].
      constructor; [|constructor]. left. right. by exists i, (Obj x (VStr t)).
    - intros _ Hok. split.
      + apply (of_ok _ _ Hf); [done|]. destruct Hfit as [(? & ? & ? & -> & _)|?]; [by left|by right].
      + constructor; [|constructor]. by apply (of_old_ok _ _ Hf).
    - intros h Hk Ht _. apply (of_typed _ _ Hf); [done|].
      destruct Hfit; [left; by eapply str_at_keeps|by right].
    - simpl. rewrite gmultiset_disj_union_right_id, (of_refs _ _ Hf). f_equal.
      unfold given. destruct p; simpl; multiset_solver. }
  change (wp (each_ptr Py_INCREF (given p);; put_val (Loc l) (VAddr (fset f p a));;
    each_ptr Py_XDECREF [fget f a];; mret 0)
    (fun r w' => r = 0 /\ changed leaked rho l (VAddr (fset f p a)) w w') w).
  apply wp_bind_inv in Hc. apply wp_bind. eapply wp_mono; [exact Hc|].
  intros [] w1 Hc1. apply wp_bind_inv in Hc1. apply wp_bind. eapply wp_mono; [exact Hc1|].
  intros [] w2 Hc2. apply wp_bind. eapply wp_mono; [exact Hc2|]. by intros [] w3 Hc3.
Qed.

(** ** What an assignment comes to *)

Definition int_of w (p : ptr) : option Z :=
  match p with
  | Loc i => match w_heap w !! i with
             | Some (Obj _ (VInt z)) => Some z
             | _ => None
             end
  | _ => None
  end.

(** The object afterwards; [None] where the assignment is refused. *)
Definition assigned w (m : PyMemberDef) (p : ptr) (a : PyNetlinkIPaddress)
    : option PyNetlinkIPaddress :=
  match m_type m with
  | T_INT f =>
      z ← int_of w p;
      if decide (LONG_MIN <= z <= LONG_MAX) then Some (fset f (s32 z) a) else None
  | T_OBJECT f => Some (fset f p a)
  | T_OBJECT_EX f => if is_null p && is_null (fget f a) then None else Some (fset f p a)
  end.

(** Reading the member afterwards. *)
Definition read_back w (m : PyMemberDef) (p : ptr) (q : ptr) (w' : world K) : Prop :=
  match m_type m with
  | T_INT f => exists z, int_of w p = Some z /\ int_is (w_heap w') q (s32 z)
  | T_OBJECT f => q = if is_null p then PyNone else p
  | T_OBJECT_EX f => q = p /\
      (p = Null -> w_err w' = Some (PyExc PyExc_AttributeError ExcRuntime))
  end.

Lemma member_cases name m :
  (name, m) ∈ _ethtool_netlink_ip_address_members -> m_flags m = 0 /\
  (name = "netmask" /\ m_type m = T_INT (Field prefixlen with_prefixlen) \/
   name <> "netmask" /\ exists f null, object_field f null /\
     (m_type m = T_OBJECT f \/ m_type m = T_OBJECT_EX f) /\
     (null = false -> name <> "peer_address" /\ name <> "broadcast")).
Proof.
  unfold _ethtool_netlink_ip_address_members. rewrite !elem_of_cons, elem_of_nil.
  intros [[= -> ->]|[[= -> ->]|[[= -> ->]|[[= -> ->]|[[= -> ->]|[]]]]]]; (split; [done|]);
    [..|by left| |]; right; (split; [done|]).
  - eexists _, _. split; [exact address_field|]. split; [by right|done].
  - eexists _, _. split; [exact peer_address_field|]. split; [by right|done].
  - eexists _, _. split; [exact broadcast_field|]. split; [by left|done].
  - eexists _, _. split; [exact scope_field|]. split; [by right|done].
Qed.

(** A member assigned, whatever has leaked. *)
Definition member_set leaked rho m l p a w (r : Z) (w' : world K) : Prop :=
  kept_sound leaked rho w w' /\
  match assigned w m p a with
  | Some a' => r = 0 /\ w_err w' = w_err w /\
      exists rc', w_heap w' !! l = Some (Obj rc' (VAddr a'))
  | None => r = -1 /\ w_err w' <> None /\
      exists rc', w_heap w' !! l = Some (Obj rc' (VAddr a))
  end.

Lemma refused_set leaked rho m l p a rc w k :
  sound w (leaked ⊎ rho) -> inert (w_heap w) leaked -> w_heap w !! l = Some (Obj rc (VAddr a)) ->
  assigned w m p a = None ->
  member_set leaked rho m l p a w (-1) (set_err (Some (PyExc k ExcRuntime)) w).
Proof.
  intros Hs Hi Hl Ha. unfold member_set. rewrite Ha. split; [|by eauto].
  split; [|by split]. eapply sound_frame; [exact Hs|done..|simpl; lia].
Qed.

Lemma set_int_ok f w leaked rho l rc a p :
  (forall x a, val_ptrs (VAddr (fset f x a)) = val_ptrs (VAddr a)) ->
  (forall R h x a, typed_val R h (VAddr a) -> typed_val R h (VAddr (fset f x a))) ->
  (forall x a, val_ok (VAddr a) -> val_ok (VAddr (fset f x a))) ->
  sound w (leaked ⊎ rho) -> inert (w_heap w) leaked -> w_err w = None ->
  w_heap w !! l = Some (Obj rc (VAddr a)) -> l ∈ rho -> (forall i, p = Loc i -> i ∈ rho) ->
  p <> Uninit ->
  wp (set_member (Member (T_INT f) 0) (Loc l) p)
    (member_set leaked rho (Member (T_INT f) 0) l p a w) w.
Proof.
  intros Hrefs Htyped Hval Hs Hi He Hl Hin Hp Hu. unfold set_member. cbn [m_type m_flags].
  change (negb (Z.land 0 READONLY =? 0)) with false. cbv iota.
  destruct p as [| | |i]; try done; cbn [is_null]; cbv iota.
  { by eapply refused_set. }
  { eapply wp_step; [reflexivity|]. eapply wp_step; [reflexivity|]. by eapply refused_set. }
  destruct (held_live w (leaked ⊎ rho) i) as ([rci v] & Hv & _); [apply Hs|specialize (Hp i eq_refl); multiset_solver|].
  eapply wp_step; [exact (PyLong_AsLong_eq _ _ _ _ Hv)|]. eapply wp_step; [reflexivity|].
  assert (assigned w (Member (T_INT f) 0) (Loc i) a =
    match (as_long v).2 with None => Some (fset f (s32 (as_long v).1) a) | Some _ => None end) as Ha.
  { unfold assigned, int_of. cbn [m_type]. rewrite Hv. destruct v; try done. simpl. by case_decide. }
  destruct (as_long v) as [z [k|]] eqn:Ev; cbn [fst snd raised] in *.
  - assert (z = -1) as -> by (destruct v; simpl in Ev; try case_decide; congruence).
    by eapply refused_set.
  - rewrite He, andb_false_r. cbv iota. unfold member_set. rewrite Ha.
    eapply wp_mono with (Q := fun r w' => r = 0 /\ changed leaked rho l (VAddr (fset f (s32 z) a)) w w');
      [|by intros r w' [-> [? ?]]].
    assert (wp (each_ptr Py_INCREF [];; put_val (Loc l) (VAddr (fset f (s32 z) a));;
      each_ptr Py_XDECREF [])
      (fun _ w' => changed leaked rho l (VAddr (fset f (s32 z) a)) w w') w) as Hc.
    { apply (change_ok w leaked rho l rc (VAddr a)); try done.
      - apply not_elem_of_nil.
      - by intros ? ?%elem_of_nil.
      - intros _ Hok. split; [|done]. by apply Hval.
      - intros h _ Ht _. by apply Htyped.
      - unfold val_refs. rewrite Hrefs. simpl. multiset_solver. }
    unfold upd_addr. apply wp_bind. eapply wp_step; [exact (get_addr_eq _ _ _ _ Hl)|].
    apply wp_bind_inv in Hc. unfold wp at 1 in Hc. cbn [each_ptr mret M_ret] in Hc.
    apply wp_bind_inv in Hc. eapply wp_mono; [exact Hc|]. by intros [] w' ?.
Qed.

(** The members of the table. *)
Lemma set_member_ok w leaked rho l rc a name m p :
  sound w (leaked ⊎ rho) -> inert (w_heap w) leaked -> w_err w = None ->
  w_heap w !! l = Some (Obj rc (VAddr a)) -> l ∈ rho ->
  (name, m) ∈ _ethtool_netlink_ip_address_members ->
  (forall i, p = Loc i -> i ∈ rho) -> p <> Uninit -> member_fits (w_heap w) name p ->
  wp (set_member m (Loc l) p) (member_set leaked rho m l p a w) w.
Proof.
  intros Hs Hi He Hl Hin Hm Hp Hu Hfit.
  destruct (member_cases name m Hm) as [Hfl [[-> Ht]|(Hnn & f & null & Hf & Ht & Hnull)]].
  - destruct m as [t fl]. simpl in Hfl, Ht. subst t fl. by eapply set_int_ok.
  - assert (str_at (w_heap w) p \/ null = true /\ p = Null) as Hfit'.
    { destruct Hfit as [?|[?|[-> Hname]]]; [done|by left|right]. destruct null; [done|].
      destruct (Hnull eq_refl). by destruct Hname. }
    pose proof (set_object_ok f null w leaked rho l rc a p Hf Hs Hi Hl Hin Hp Hfit') as Hc.
    unfold set_member. rewrite Hfl. change (negb (Z.land 0 READONLY =? 0)) with false. cbv iota.
    destruct Ht as [Ht|Ht]; rewrite Ht.
    + eapply wp_mono; [exact Hc|]. intros r w' [-> [? ?]]. split; [done|].
      unfold assigned. by rewrite Ht.
    + eapply wp_step; [exact (get_addr_eq _ _ _ _ Hl)|].
      destruct (held_live w (leaked ⊎ rho) l) as (o & Ho & Hrc); [apply Hs|multiset_solver|].
      simplify_eq. simpl in Hrc.
      pose proof (of_old_ok _ _ Hf a (wf_val _ _ _ (wf_hp _ _ (sd_wf _ _ Hs)) _ _ Hl Hrc)) as Hold.
      eapply (wp_step _ _ _ _ (fget f a) w); [by destruct (fget f a)|].
      destruct (is_null p && is_null (fget f a)) eqn:En.
      * eapply refused_set; [done..|]. unfold assigned. by rewrite Ht, En.
      * eapply wp_mono; [exact Hc|]. intros r w' [-> [? ?]]. split; [done|].
        unfold assigned. by rewrite Ht, En.
Qed.

(** Reading a member after it has been assigned. *)
Lemma get_after_set w w' refs l rc a a' name m p :
  (name, m) ∈ _ethtool_netlink_ip_address_members -> p <> Uninit ->
  (p = PyNone -> name = "netmask") -> sound w' refs -> l ∈ refs ->
  assigned w m p a = Some a' -> w_heap w' !! l = Some (Obj rc (VAddr a')) ->
  wp (get_member m (Loc l)) (read_back w m p) w'.
Proof.
  intros Hm Hu Hnone Hs Hin Ha Hl. unfold get_member, read_back.
  eapply wp_step; [exact (get_addr_eq _ _ _ _ Hl)|]. unfold assigned in Ha.
  destruct (member_cases name m Hm) as [_ [[-> Ht]|(Hnn & f & null & Hf & Ht & Hnull)]].
  - rewrite Ht in *. destruct (int_of w p) as [z|]; [|done]. simpl in Ha. case_decide; [|done].
    injection Ha as <-. simpl. exists z. split; [done|]. eexists _, 1. split; [done|].
    apply lookup_insert_eq.
  - assert (a' = fset f p a) as ->.
    { destruct Ht as [Ht|Ht]; rewrite Ht in Ha; [|destruct (_ && _)]; congruence. }
    destruct (held_live w' refs l) as (o & Ho & Hrc); [apply Hs|done|]. simplify_eq.
    pose proof (of_old _ _ Hf (fset f p a)) as Hold. rewrite (of_get _ _ Hf) in Hold.
    assert (forall i, p = Loc i -> exists o, w_heap w' !! i = Some o) as Hlive.
    { intros i ->. destruct (field_live w' refs l (Obj rc (VAddr (fset f (Loc i) a))) i) as (o & Hi & _);
        [apply Hs|done..|]. by exists o. }
    destruct Ht as [Ht|Ht]; rewrite Ht; rewrite (of_get _ _ Hf);
      (destruct p as [| | |i]; [| |by specialize (Hnone eq_refl)|]; try done);
      (eapply wp_step; [reflexivity|]; try (apply wp_ret; done); try (by split));
      cbn [is_null]; destruct (Hlive i eq_refl) as [o Hi];
      (eapply wp_step; [by apply incref_eq|]); by apply wp_ret.
Qed.

(** ** What does not fit *)

Lemma xdecref_str i rc t w :
  w_heap w !! i = Some (Obj rc (VStr t)) ->
  exists w', Py_XDECREF (Loc i) w = Ret tt w' /\ w_next w' = w_next w /\
    w_err w' = w_err w /\ forall j, j <> i -> w_heap w' !! j = w_heap w !! j.
Proof.
  intros Hi. unfold Py_XDECREF, Py_XDECREF_with. destruct (decide (rc = 1)) as [->|Hrc].
  - eexists. split; [by eapply decref_str|]. do 2 (split; [done|]). intros j Hj. simpl.
    by rewrite lookup_delete_ne.
  - eexists. split; [by apply (Py_DECREF_shared _ _ _ Hi)|]. do 2 (split; [done|]).
    intros j Hj. simpl. by rewrite lookup_insert_ne.
Qed.

(** Whether a string is where the text of an address should be. *)
Definition no_text w (l : positive) (p : ptr) : Prop :=
  p = Null \/ p = PyNone \/
  exists i o, p = Loc i /\ i <> l /\ w_heap w !! i = Some o /\ forall t, ob_val o <> VStr t.

(** The address itself: whatever is no text is put in place. *)
Lemma set_address_eq w refs l rc a p :
  sound w refs -> w_heap w !! l = Some (Obj rc (VAddr a)) -> no_text w l p ->
  exists w', set_object (Field local with_local) (Loc l) p w = Ret 0 w' /\
    w_heap w' !! l = Some (Obj rc (VAddr (with_local p a))) /\ no_text w' l p /\
    w_next w' = w_next w /\ w_err w' = w_err w.
Proof.
  intros Hs Hl Hp. destruct (sd_typed _ _ Hs l _ Hl ltac:(lia)) as (_ & (s & rcs & t & Hlo & Hst) & _).
  assert (s <> l) as Hsl by (intros ->; by simplify_eq).
  assert (p <> Loc l) as Hpl by (by destruct Hp as [->|[->|(? & ? & -> & ? & _)]]; [..|intros [= ->]]).
  rewrite (set_object_eq _ l rc a p w Hl Hpl). cbn [fget each_ptr].
  assert (exists w1, each_ptr Py_INCREF (given p) w = Ret tt w1 /\
    w_heap w1 !! l = Some (Obj rc (VAddr a)) /\ w_heap w1 !! s = Some (Obj rcs (VStr t)) /\
    no_text w1 l p /\ w_next w1 = w_next w /\ w_err w1 = w_err w) as (w1 & E1 & Hl1 & Hs1 & Hp1 & N1 & R1).
  { destruct Hp as [->|[->|(i & o & -> & Hil & Hi & Hno)]].
    - exists w. do 3 (split; [done|]). split; [by left|done].
    - exists w. do 3 (split; [done|]). split; [by right; left|done].
    - eexists. split; [simpl; rewrite (bind_Ret _ _ _ _ _ (incref_eq _ _ _ Hi)); reflexivity|].
      simpl. assert (i <> s) by (intros ->; simplify_eq; by destruct (Hno t)).
      rewrite !lookup_insert_ne by done. do 2 (split; [done|]). split; [|done].
      right. right. eexists i, _. split; [done|]. split; [done|].
      split; [apply lookup_insert_eq|done]. }
  rewrite (bind_Ret _ _ _ _ _ E1), (bind_Ret _ _ _ _ _ (put_val_eq _ _ _ _ Hl1)), Hlo.
  cbn [ob_refcnt fset].
  destruct (xdecref_str s rcs t (set_heap (<[l := Obj rc (VAddr (with_local p a))]> (w_heap w1)) w1))
    as (w2 & E2 & N2 & R2 & H2); [simpl; by rewrite lookup_insert_ne|].
  exists w2. rewrite bind_assoc, (bind_Ret _ _ _ _ _ E2). split; [done|].
  simpl in *. split; [rewrite H2 by done; apply lookup_insert_eq|]. split; [|split; congruence].
  destruct Hp1 as [->|[->|(i & o & -> & Hil & Hi & Hno)]]; [by left|by right; left|].
  right. right. exists i, o. do 2 (split; [done|]). split; [|done].
  rewrite H2 by (intros ->; simplify_eq; by destruct (Hno t)). by rewrite lookup_insert_ne.
Qed.

Lemma repr_dies w l rc a :
  w_heap w !! l = Some (Obj rc (VAddr a)) -> (l < w_next w)%positive -> no_text w l (local a) ->
  (forall i, local a = Loc i -> (i < w_next w)%positive) ->
  netlink_ip_address_repr (Loc l) w = Fault NullDeref.
Proof.
  intros Hl Hn Hp Hpn. unfold netlink_ip_address_repr, PyStr_FromString.
  rewrite utf8_ascii by reflexivity. rewrite (bind_Ret _ _ _ _ _ (alloc_eq _ _)).
  erewrite bind_Ret; [|eapply get_addr_eq; simpl; rewrite lookup_insert_ne by lia; exact Hl].
  apply bind_Fault. unfold PyStr_AsString_nonnull, PyStr_AsString. rewrite bind_assoc.
  destruct Hp as [->|[->|(i & o & Ei & Hil & Hi & Hno)]]; [done|done|].
  specialize (Hpn i Ei). rewrite Ei.
  erewrite bind_Ret; [|apply peek_eq; simpl; rewrite lookup_insert_ne by lia; exact Hi].
  destruct (ob_val o) eqn:Eo; try done. by destruct (Hno s).
Qed.

Lemma release_dies w l a :
  w_heap w !! l = Some (Obj 1 (VAddr a)) -> local a = Null ->
  Py_DECREF (Loc l) w = Fault NullDeref.
Proof.
  intros Hl Ha. unfold Py_DECREF.
  destruct (size (w_heap w)) as [|n] eqn:En.
  { apply map_size_empty_inv in En. rewrite En in Hl. done. }
  destruct w as [h nx er x nlc nl nn fd fs se k]. simpl in *. cbn [Py_DECREF_fuel].
  mrun. rewrite Hl. mrun. change (1 =? 1) with true. cbv iota.
  unfold tp_dealloc. mrun. rewrite lookup_insert_eq. mrun.
  unfold netlink_ip_address_dealloc. mrun. rewrite lookup_insert_eq. mrun. rewrite Ha.
  by destruct n.
Qed.
End assign.
