(* ===== verification/Session.v ===== *)
(** * Sessions: what a Python program can do with the module

    The module as its users meet it: a program holds references, makes objects
    of its own, takes items out of containers, calls functions, asks objects
    of the two types for what they offer, prints them, and drops references,
    assigns and deletes members of an address, and changes dictionaries and
    lists, in any order.  [py_step] is one such operation on the world and the
    multiset of references held.  Arguments fit the contract of Contract.v, what
    is put in a member fits it (AddressMembers.v; the code crashes on the
    others), and the system is as [NetlinkUp] and [SystemUp] say.

    The invariant [in_order] is kept by every such operation, none of which can
    fault; and once a program has dropped all it held, no [etherinfo] object is
    left and the NETLINK connection is closed, although the code drops
    temporaries ([inert]).  The interpreter reports an exception before it goes
    on, so none is pending between operations.  A program may change the
    dictionaries and lists it holds, but not so that one holds itself. *)
From stdpp Require Import relations.
From S2P Require Import Prelude.
From S2P Require Import Platform.
From S2P Require Import CPython.
From S2P Require Import Netlink.
From S2P Require Import Objects.
From S2P Require Import Testbed.
From S2P Require Import NetlinkSpec.
From S2P Require Import RefCount.
From S2P Require Import Typing.
From S2P Require Import Containers.
From S2P Require Import Sound.
From S2P Require Import Ioctl.
From S2P Require Import IoctlFacts.
From S2P Require Import StructDesc.
From S2P Require Import DevicesFacts.
From S2P Require Import NetlinkAddress.
From S2P Require Import EtherInfo.
From S2P Require Import EtherSound.
From S2P Require Import EtherInfoObj.
From S2P Require Import EtherText.
From S2P Require Import EtherObjSound.
From S2P Require Import EthtoolModule.
From S2P Require Import Contract.
From S2P Require Import Stores.
From S2P Require Import AddressMembers.

(** ** Operations *)

Inductive op :=
  | OpNew (v : pyval)        (** a string, a number or a container of what is held *)
  | OpTake (l : positive)    (** another reference to what can be reached *)
  | OpDrop (l : positive)    (** [del] *)
  | OpStore (d : positive) (k : string) (p : ptr)   (** [d[k] = p] for a dictionary *)
  | OpAssign (l : positive) (ps : list ptr)      (** [l[:] = ps] for a list *)
  | OpCall (name : string) (args : list ptr)     (** [ethtool.name(args)] *)
  | OpAttr (name : string) (l : positive)        (** [l.name] *)
  | OpMethod (name : string) (l : positive)      (** [l.name()] *)
  | OpStr (l : positive)                         (** [str(l)] *)
  | OpMember (name : string) (l : positive)      (** [l.name] of an address *)
  | OpSetMember (name : string) (l : positive) (p : ptr)
      (** [l.name = p] of an address; with [Null], [del l.name] *)
  | OpRepr (l : positive).                       (** [repr(l)] of an address *)

Definition by_name {A} (name : string) (table : list (string * A)) : option A :=
  snd <$> List.find (fun p => String.eqb p.1 name) table.

Lemma by_name_in {A} name (table : list (string * A)) f :
  by_name name table = Some f -> (name, f) ∈ table.
Proof.
  unfold by_name. destruct (List.find _ table) as [[n g]|] eqn:E; [|done].
  intros [= <-]. apply List.find_some in E as [Hin%list_elem_of_In En%String.eqb_eq].
  simpl in En. by subst n.
Qed.

Lemma by_name_elem {A} name (table : list (string * A)) f :
  by_name name table = Some f -> exists n, (n, f) ∈ table.
Proof. intros Hf%by_name_in. by exists name. Qed.

Section session.
Context {K : Type} `{Platform K}.
Context (signed_char : bool).
Implicit Types (w : world K) (rho : gmultiset positive).

Definition op_code (o : op) : option (M K ptr) :=
  match o with
  | OpNew v => Some (alloc v)
  | OpTake l => Some (Py_INCREF (Loc l);; mret (Loc l))
  | OpDrop l => Some (Py_DECREF (Loc l);; mret Null)
  | OpStore d k p => Some (PyDict_SetItemString (Loc d) k p;; mret Null)
  | OpAssign l ps => Some (list_assign (Loc l) ps;; mret Null)
  | OpCall name args => call_method signed_char name args
  | OpAttr name l => (fun f => f (Loc l)) <$> by_name name (tp_getset PyEtherInfo_Type)
  | OpMethod name l => (fun f => f (Loc l)) <$> by_name name (tp_methods PyEtherInfo_Type)
  | OpStr l => (fun f => f (Loc l)) <$> tp_str PyEtherInfo_Type
  | OpSetMember name l p =>
      (fun m => set_member m (Loc l) p;; mret Null)
        <$> by_name name (tp_members ethtool_netlink_ip_address_Type)
  | OpMember name l =>
      (fun m => get_member m (Loc l)) <$> by_name name (tp_members ethtool_netlink_ip_address_Type)
  | OpRepr l => (fun f => f (Loc l)) <$> tp_repr ethtool_netlink_ip_address_Type
  end.

(** The references held afterwards, given the result. *)
Definition refs_after (o : op) (r : ptr) rho : gmultiset positive :=
  match o with
  | OpNew v => ptr_refs r ⊎ (rho ∖ val_refs v)
  | OpDrop l => rho ∖ {[+ l +]}
  | _ => ptr_refs r ⊎ rho
  end.

(** What a program can reach: what it holds, and the items of a container. *)
Definition reachable_obj w rho (l : positive) : Prop :=
  l ∈ rho \/ exists l' rc v, l' ∈ rho /\ w_heap w !! l' = Some (Obj rc v) /\
    container v = true /\ Loc l ∈ val_ptrs v.

Definition python_made (v : pyval) : Prop :=
  match v with VAddr _ | VEther _ => False | _ => True end.

Definition held rho (p : ptr) : Prop :=
  match p with Loc l => l ∈ rho | PyNone => True | _ => False end.

Definition enabled w rho (o : op) : Prop :=
  match o with
  | OpNew v => python_made v /\ Forall (held rho) (val_ptrs v) /\ val_refs v ⊆ rho
  | OpTake l => reachable_obj w rho l
  | OpDrop l => l ∈ rho
  | OpStore d _ p =>
      d ∈ rho /\ held rho p /\ storable w d p /\
      exists rc es, w_heap w !! d = Some (Obj rc (VDict es))
  | OpAssign l ps =>
      l ∈ rho /\ Forall (held rho) ps /\ Forall (storable w l) ps /\
      exists rc old, w_heap w !! l = Some (Obj rc (VList old))
  | OpCall _ args => Forall (held rho) args /\ args_fit w args
  | OpAttr _ l | OpMethod _ l | OpStr l =>
      l ∈ rho /\ countable w /\ exists rc e, w_heap w !! l = Some (Obj rc (VEther e))
  | OpSetMember name l p =>
      l ∈ rho /\ (p = Null \/ held rho p) /\ member_fits (w_heap w) name p /\
      exists rc a, w_heap w !! l = Some (Obj rc (VAddr a))
  | OpMember _ l | OpRepr l =>
      l ∈ rho /\ exists rc a, w_heap w !! l = Some (Obj rc (VAddr a))
  end.

Definition config : Type := world K * gmultiset positive.

Inductive py_step : config -> config -> Prop :=
  | py_op o m w rho r w' :
      op_code o = Some m -> enabled w rho o -> m w = Ret r w' ->
      py_step (w, rho) (set_err None w', refs_after o r rho).

(** Dropping what is held, nothing else. *)
Inductive drop_step : config -> config -> Prop :=
  | drop_op l w rho w' :
      l ∈ rho -> Py_DECREF (Loc l) w = Ret tt w' ->
      drop_step (w, rho) (set_err None w', rho ∖ {[+ l +]}).

Lemma drop_is_step s s' : drop_step s s' -> py_step s s'.
Proof.
  intros [l w rho w' Hl Hd]. apply (py_op (OpDrop l) (Py_DECREF (Loc l);; mret Null) w rho Null);
    [done|done|].
  by rewrite (bind_Ret _ _ _ _ _ Hd).
Qed.
End session.

(** One operation at the head of a run. *)
Lemma py_step_then {K} `{Platform K} signed_char o m (w : world K) rho r w' rho' s :
  op_code signed_char o = Some m -> enabled w rho o -> m w = Ret r w' ->
  rho' = refs_after o r rho -> rtc (py_step signed_char) (set_err None w', rho') s ->
  rtc (py_step signed_char) (w, rho) s.
Proof. intros Hm He Hr -> Hs. eapply rtc_l; [by eapply py_op|exact Hs]. Qed.

Arguments config : clear implicits.

(** The system as documented, whatever happens to it. *)
Class SystemUp (K : Type) `{Platform K} := system_up (k : K) : system_ok k.

(** ** What is in order between operations *)

Record in_order {K} (w : world K) (rho : gmultiset positive) : Prop := {
  io_sound : exists leaked, sound w (leaked ⊎ rho) /\ inert (w_heap w) leaked;
  io_err : w_err w = None;
  io_fds : w_fds w = ∅;
  io_files : w_files w = 0%nat;
}.

Section order.
Context {K : Type} `{PL : PlatformLaws K} {UP : NetlinkUp K} {SU : SystemUp K}.
Context (signed_char : bool).
Implicit Types (w : world K) (rho refs leaked : gmultiset positive) (s : config K).

Lemma in_order_boot (k : K) : in_order (boot k) ∅.
Proof.
  split; [|done..]. exists ∅. split; [|apply inert_empty].
  eapply sound_eq; [apply sound_boot|]. multiset_solver.
Qed.

Lemma sound_err w refs x : sound w refs -> sound (set_err x w) refs.
Proof. intros Hs. eapply sound_frame; [exact Hs|done..|simpl; lia]. Qed.

(** An operation that [drips]. *)
Lemma in_order_drips w rho leaked r w' :
  in_order w rho -> inert (w_heap w) leaked ->
  drips (leaked ⊎ rho) (ptr_refs r) w w' -> in_order (set_err None w') (ptr_refs r ⊎ rho).
Proof.
  intros [_ _ Hd Hf] Hi [(lk & Hs & Hlk) He].
  split; [|done|by simpl; rewrite (ex_fds _ _ He)|by simpl; rewrite (ex_files _ _ He)].
  exists (lk ⊎ leaked). split.
  - eapply sound_eq; [by apply sound_err|]. multiset_solver.
  - apply inert_union. split; [done|by apply (inert_extends w w')].
Qed.

(** *** Making objects *)

Lemma sound_new w refs v :
  sound w (val_refs v ⊎ refs) -> val_ok v -> python_made v ->
  sound (set_next (Pos.succ (w_next w)) (set_heap (<[w_next w := Obj 1 v]> (w_heap w)) w))
    ({[+ w_next w +]} ⊎ refs).
Proof.
  intros [Hw Ht Hc] Hv Hp. pose proof (wf_fresh_next _ _ _ (wf_hp _ _ Hw)) as Hf.
  assert (forall ps, Forall is_ref ps -> (forall p, p ∈ ps -> p ∈ val_ptrs v) ->
    Forall (fun p => atom_at (<[w_next w := Obj 1 v]> (w_heap w)) p \/ older (w_next w) p) ps)
    as Hitems.
  { intros ps Hps Hin. apply list.Forall_forall. intros p Hp'.
    pose proof (proj1 (list.Forall_forall _ _) Hps p Hp') as Hr.
    destruct p as [| | |i]; try done; [by left; left|right]. exists i. split; [done|].
    destruct (held_live w _ i Hw) as (o & Hi & _);
      [unfold val_refs; pose proof (elem_ptrs_refs _ _ (Hin _ Hp')); multiset_solver|].
    by eapply wf_fresh; [apply Hw|]. }
  split; [by apply alloc_wf| |].
  - apply typed_from_new; [done..|]. destruct v; try done; simpl in *; by apply Hitems.
  - apply (conn_ok_frame w); [done..|]. apply users_extends. intros i o Hi. exists o.
    split; [|done]. simpl. rewrite lookup_insert_ne; congruence.
Qed.

Lemma held_val_ok w rho v :
  python_made v -> Forall (held rho) (val_ptrs v) -> val_ok v.
Proof.
  intros Hp Hh. assert (Forall is_ref (val_ptrs v)) as Hr
    by (eapply list.Forall_impl; [exact Hh|by intros []]).
  by destruct v.
Qed.

Lemma new_ok w rho v :
  in_order w rho -> python_made v -> Forall (held rho) (val_ptrs v) -> val_refs v ⊆ rho ->
  wp (alloc v) (fun r w' => in_order (set_err None w') (ptr_refs r ⊎ (rho ∖ val_refs v))) w.
Proof.
  intros [(lk & Hs & Hi) He Hd Hf] Hp Hh Hsub.
  assert (val_ok v) as Hok by (by eapply held_val_ok).
  split; [|done..]. exists lk. split.
  - apply sound_err. eapply sound_eq; [apply (sound_new w (lk ⊎ (rho ∖ val_refs v)) v); [|done..]|].
    + eapply sound_eq; [exact Hs|]. multiset_solver.
    + simpl. multiset_solver.
  - eapply inert_extends; [|exact Hi].
    etrans; [eapply extends_alloc, Hs|by apply extends_frame].
Qed.

Lemma reachable_live w rho leaked l :
  sound w (leaked ⊎ rho) -> reachable_obj w rho l ->
  exists o, w_heap w !! l = Some o /\ 0 < ob_refcnt o /\
    (l ∈ rho \/ l ∈ heap_refs (w_heap w)).
Proof.
  intros Hs [Hl|(l' & rc & v & Hl' & Hv & _ & Hin)].
  - destruct (held_live w (leaked ⊎ rho) l) as (o & ? & ?); [apply Hs|multiset_solver|].
    exists o. eauto.
  - destruct (held_live w (leaked ⊎ rho) l') as (o & Ho & Hrc); [apply Hs|multiset_solver|].
    simplify_eq. destruct (field_live w (leaked ⊎ rho) l' (Obj rc v) l) as (o & ? & ?);
      [apply Hs|exact Hv|done..|].
    exists o. do 2 (split; [done|]). right. by eapply (field_shared _ l' (Obj rc v)).
Qed.

Lemma incref_in_order w rho l o :
  in_order w rho -> w_heap w !! l = Some o -> 0 < ob_refcnt o ->
  l ∈ rho \/ l ∈ heap_refs (w_heap w) ->
  in_order (set_err None (set_heap (<[l := Obj (ob_refcnt o + 1) (ob_val o)]> (w_heap w)) w))
    ({[+ l +]} ⊎ rho).
Proof.
  intros [(lk & Hs & Hi) He Hd Hf] Hl Ho Hsh. split; [|done..].
  destruct (incref_reachable w lk rho l o) as [Hs' Hi']; [done..|].
  exists lk. split; [by apply sound_err|done].
Qed.

Lemma take_ok w rho l :
  in_order w rho -> reachable_obj w rho l ->
  wp (Py_INCREF (Loc l);; mret (Loc l))
    (fun r w' => in_order (set_err None w') (ptr_refs r ⊎ rho)) w.
Proof.
  intros Ho Hr. pose proof (io_sound _ _ Ho) as (lk & Hs & Hi).
  destruct (reachable_live _ _ _ _ Hs Hr) as (o & Hl & Hrc & Hsh).
  eapply wp_step; [by apply incref_eq|]. by eapply incref_in_order.
Qed.

(** *** Dropping a reference *)

Lemma drop_ok w rho l :
  in_order w rho -> l ∈ rho ->
  wp (Py_DECREF (Loc l)) (fun _ w' => in_order (set_err None w') (rho ∖ {[+ l +]})) w.
Proof.
  intros [(lk & [Hw Ht Hc] & Hi) He Hd Hf] Hl.
  assert (wf w (ptr_refs (Loc l) ⊎ (lk ⊎ (rho ∖ {[+ l +]})))) as Hw'.
  { eapply wf_eq; [exact Hw|]. simpl. multiset_solver. }
  eapply wp_mono; [by eapply (Py_DECREF_ok (Loc l))|]. intros _ w' [Hw2 Hev].
  split; [|done|by simpl; rewrite (ev_fds _ _ _ Hev)|by simpl; rewrite (ev_files _ _ _ Hev)].
  exists lk. split; [|by eapply (inert_evolves w w')].
  apply sound_err. split; [done|by eapply typed_evolves|by eapply ev_conn].
Qed.

(** *** Changing a container *)

Lemma kept_in_order w rho leaked w' :
  in_order w rho -> kept_sound leaked rho w w' -> in_order (set_err None w') rho.
Proof.
  intros [_ _ Hd Hf] (Hs & Hi & Hfd & Hfi).
  split; [|done|by simpl; rewrite Hfd|by simpl; rewrite Hfi].
  exists leaked. split; [by apply sound_err|done].
Qed.

Lemma store_ok w rho d k p rc es :
  in_order w rho -> d ∈ rho -> held rho p -> storable w d p ->
  w_heap w !! d = Some (Obj rc (VDict es)) ->
  wp (PyDict_SetItemString (Loc d) k p) (fun _ w' => in_order (set_err None w') rho) w.
Proof.
  intros Ho Hl Hp Hst Hes. pose proof (io_sound _ _ Ho) as (lk & Hs & Hi).
  eapply wp_mono; [|intros a w'; by apply (kept_in_order w rho lk)].
  eapply (dict_store_ok w lk rho); [done..|by destruct p| |done]. by intros i ->.
Qed.

Lemma assign_ok w rho l ps rc old :
  in_order w rho -> l ∈ rho -> Forall (held rho) ps -> Forall (storable w l) ps ->
  w_heap w !! l = Some (Obj rc (VList old)) ->
  wp (list_assign (Loc l) ps) (fun _ w' => in_order (set_err None w') rho) w.
Proof.
  intros Ho Hl Hp Hst Hes. pose proof (io_sound _ _ Ho) as (lk & Hs & Hi).
  eapply wp_mono; [|intros a w'; by apply (kept_in_order w rho lk)].
  eapply (list_assign_ok w lk rho); [done..| | |done].
  - eapply list.Forall_impl; [exact Hp|]. by intros [].
  - intros i Hin. exact (proj1 (list.Forall_forall _ _) Hp _ Hin).
Qed.

Lemma member_ok w rho l rc a name m p :
  in_order w rho -> l ∈ rho -> p = Null \/ held rho p -> member_fits (w_heap w) name p ->
  w_heap w !! l = Some (Obj rc (VAddr a)) ->
  (name, m) ∈ _ethtool_netlink_ip_address_members ->
  wp (set_member m (Loc l) p) (fun _ w' => in_order (set_err None w') rho) w.
Proof.
  intros Ho Hl Hp Hfit Ha Hm. pose proof (io_sound _ _ Ho) as (lk & Hs & Hi).
  eapply wp_mono; [eapply (set_member_ok w lk rho l rc a name m p); try done|].
  - apply Ho.
  - intros i ->. by destruct Hp as [[=]|?].
  - intros ->. by destruct Hp as [[=]|?].
  - intros r w' [Hk _]. by apply (kept_in_order w rho lk).
Qed.

(** *** Calling a function of the module *)

Lemma args_held w rho leaked args :
  wf w (leaked ⊎ rho) -> Forall (held rho) args -> args_ok w args.
Proof.
  intros Hw Ha. eapply list.Forall_impl; [exact Ha|]. intros [| | |l]; try done; [by left|].
  intros Hl. right. destruct (held_live w (leaked ⊎ rho) l Hw) as (o & Ho & _);
    [simpl in Hl; multiset_solver|]. by exists l, o.
Qed.

Lemma sound_grows w w' refs refs' :
  sound w refs -> grows w w' -> wf w' refs' -> sound w' refs'.
Proof.
  intros [Hw Ht Hc] [Ga Gn Gc Gl Gm] Hw'. split; [done| |].
  - eapply (typed_from_trans 1 (w_next w)); [exact Ht|exact Ga|apply Hw| |exact Gm].
    by unfold nothing.
  - apply (conn_ok_frame w); [done..|]. apply users_extends. intros i o Hi. exists o.
    rewrite Ga; [done|]. by eapply wf_fresh; [apply Hw|].
Qed.

Lemma inert_grows w w' refs leaked :
  wf w refs -> grows w w' -> inert (w_heap w) leaked -> inert (w_heap w') leaked.
Proof.
  intros Hw [Ga _ _ _ _] Hi.
  assert (forall i o, w_heap w !! i = Some o -> w_heap w' !! i = Some o) as Hold.
  { intros i o Hl. rewrite Ga; [done|]. by eapply wf_fresh; [apply Hw|]. }
  intros i Hin. destruct (Hi i Hin) as (rc & v & Hl & Hv & Hone). exists rc, v.
  split; [by apply Hold|]. split; [|done]. destruct v; try done. simpl in *. eapply list.Forall_impl; [exact Hv|].
  intros p (j & rj & a & -> & Hj). exists j, rj, a. split; [done|by apply Hold].
Qed.

(** What a C function leaves: everything in order, and every older object with a
    value related to its own by [R]. *)
Definition lasts (R : pyval -> pyval -> Prop) (h h' : gmap positive obj) : Prop :=
  forall i o, h !! i = Some o ->
    exists o', h' !! i = Some o' /\ R (ob_val o) (ob_val o').

Definition follows R rho w (r : ptr) (w' : world K) : Prop :=
  in_order (set_err None w') (ptr_refs r ⊎ rho) /\ lasts R (w_heap w) (w_heap w').

Lemma call_ok w rho name args m :
  in_order w rho -> call_method signed_char name args = Some m ->
  Forall (held rho) args -> args_fit w args ->
  wp m (follows eq rho w) w.
Proof.
  intros [(lk & Hs & Hi) He Hd Hf] Hm Ha Hfit. pose proof (sd_wf _ _ Hs) as Hw.
  eapply wp_mono.
  { eapply (call_api signed_char name args m (lk ⊎ rho) w Hm); [|done..|].
    - split; [apply SU|exact Hfit].
    - by eapply args_held. }
  intros r w' (Hw' & _ & Hfds & Hfiles & Hg). split.
  - split; [|done|simpl; set_solver|simpl; congruence]. exists lk. split.
    + apply sound_err. eapply sound_grows; [exact Hs|exact Hg|].
      eapply wf_eq; [exact Hw'|]. multiset_solver.
    + by eapply (inert_grows w w').
  - intros i o Hio. exists o. split; [|done]. rewrite (gr_heap _ _ Hg); [done|].
    by eapply wf_fresh; [apply Hw|].
Qed.

(** *** Asking an object *)

Lemma gives_ok w rho m :
  in_order w rho -> (forall refs, sound w refs -> rho ⊆ refs -> gives refs w m) ->
  wp m (fun r w' => follows same_val rho w r w' /\ is_ref_or_null r) w.
Proof.
  intros Ho Hm. pose proof (io_sound _ _ Ho) as (lk & Hs & Hi).
  eapply wp_mono; [apply Hm; [exact Hs|multiset_solver]|].
  intros r w' [Hd Hr]. split; [split; [by eapply in_order_drips|]|done].
  intros i o Hio. destruct (ex_old _ _ (dr_ext _ _ _ _ Hd) i o Hio) as (o' & H1 & _ & H2).
  by exists o'.
Qed.

(** Of an operation that asks an object only the order is kept. *)
Lemma gives_in_order w rho m :
  in_order w rho -> (forall refs, sound w refs -> rho ⊆ refs -> gives refs w m) ->
  wp m (fun r w' => in_order (set_err None w') (ptr_refs r ⊎ rho)) w.
Proof.
  intros Ho Hm. eapply wp_mono; [by apply gives_ok|]. by intros r w' [[? _] _].
Qed.

Lemma held_ready w refs rho l rc e :
  sound w refs -> rho ⊆ refs -> l ∈ rho -> countable w ->
  w_heap w !! l = Some (Obj rc (VEther e)) -> ready l rc e w.
Proof.
  intros Hs Hsub Hl Hc He. destruct (held_live w refs l) as (o & Ho & Hrc);
    [apply Hs|multiset_solver|]. simplify_eq. split; [by split|by left].
Qed.

(** Every operation runs, and leaves everything in order. *)
Lemma op_ok w rho o m :
  in_order w rho -> op_code signed_char o = Some m -> enabled w rho o ->
  wp m (fun r w' => in_order (set_err None w') (refs_after o r rho)) w.
Proof.
  intros Ho Hm He. destruct o as [v|l|l|d k p|l ps|name args|name l|name l|l|name l|name l p|l]; simpl in Hm.
  - simplify_eq. destruct He as (? & ? & ?). by apply new_ok.
  - simplify_eq. by apply take_ok.
  - simplify_eq. apply wp_bind. eapply wp_mono; [by apply drop_ok|]. by intros [].
  - simplify_eq. destruct He as (? & ? & ? & rc & es & ?). apply wp_bind.
    eapply wp_mono; [by eapply store_ok|]. intros a w' Ho'. apply wp_ret. simpl.
    by replace (∅ ⊎ rho) with rho by multiset_solver.
  - simplify_eq. destruct He as (? & ? & ? & rc & old & ?). apply wp_bind.
    eapply wp_mono; [by eapply assign_ok|]. intros a w' Ho'. apply wp_ret. simpl.
    by replace (∅ ⊎ rho) with rho by multiset_solver.
  - destruct He as [? ?]. eapply wp_mono; [by eapply call_ok|]. by intros r w' [? _].
  - apply fmap_Some in Hm as (f & Ef & ->).
    apply by_name_elem in Ef as [n Hin]. destruct He as (Hl & Hc & rc & e & He).
    apply gives_in_order; [done|]. intros refs Hs Hsub.
    eapply (proj1 (list.Forall_forall _ _) attributes_ok _ Hin); [done|by eapply held_ready].
  - apply fmap_Some in Hm as (f & Ef & ->).
    apply by_name_elem in Ef as [n Hin]. destruct He as (Hl & Hc & rc & e & He).
    apply gives_in_order; [done|]. intros refs Hs Hsub.
    eapply (proj1 (list.Forall_forall _ _) methods_ok _ Hin); [done|by eapply held_ready].
  - simplify_eq. destruct He as (Hl & Hc & rc & e & He). apply gives_in_order; [done|].
    intros refs Hs Hsub. eapply str_gives; [done|by eapply held_ready].
  - apply fmap_Some in Hm as (f & Ef & ->).
    apply by_name_elem in Ef as [n Hin]. destruct He as (Hl & rc & a & Ha).
    apply gives_in_order; [done|]. intros refs Hs Hsub.
    destruct (held_live w refs l) as (o & Ho' & Hrc); [apply Hs|multiset_solver|]. simplify_eq.
    by eapply (proj1 (list.Forall_forall _ _) members_ok _ Hin).
  - apply fmap_Some in Hm as (f & Ef%by_name_in & ->).
    destruct He as (Hl & Hp & Hfit & rc & a & Ha). apply wp_bind.
    eapply wp_mono; [by eapply member_ok|]. intros r w' Ho'. apply wp_ret. simpl.
    by replace (∅ ⊎ rho) with rho by multiset_solver.
  - simplify_eq. destruct He as (Hl & rc & a & Ha).
    apply gives_in_order; [done|]. intros refs Hs Hsub.
    destruct (held_live w refs l) as (o & Ho' & Hrc); [apply Hs|multiset_solver|]. simplify_eq.
    by eapply repr_gives.
Qed.

Lemma py_step_in_order s s' :
  py_step signed_char s s' -> in_order s.1 s.2 -> in_order s'.1 s'.2.
Proof.
  intros [o m w rho r w' Hc He Hm] Ho. pose proof (op_ok w rho o m Ho Hc He) as Hw.
  unfold wp in Hw. by rewrite Hm in Hw.
Qed.

Lemma reachable_in_order (k : K) s :
  rtc (py_step signed_char) (boot k, ∅) s -> in_order s.1 s.2.
Proof.
  intros Hr. remember (boot k, ∅) as s0 eqn:E.
  assert (in_order s0.1 s0.2) as H0 by (subst; apply in_order_boot). clear E.
  induction Hr as [|s0 s1 s2 Hs _ IH]; [done|]. by eapply IH, py_step_in_order.
Qed.

(** ** When everything has been dropped *)

Lemma elem_of_heap_refs (h : gmap positive obj) l :
  l ∈ heap_refs h ->
  exists i o, h !! i = Some o /\ 0 < ob_refcnt o /\ l ∈ val_refs (ob_val o).
Proof.
  induction h as [|i o h Hi IH] using map_ind.
  - rewrite heap_refs_empty. multiset_solver.
  - rewrite heap_refs_insert by done.
    intros [Ho|Hh]%gmultiset_elem_of_disj_union.
    + exists i, o. rewrite lookup_insert_eq. split; [done|]. unfold obj_refs in Ho.
      destruct (Z.ltb_spec 0 (ob_refcnt o)); [done|multiset_solver].
    + destruct (IH Hh) as (j & oj & Hj & Hrest). exists j, oj.
      rewrite lookup_insert_ne by congruence. done.
Qed.

Lemma elem_ptrs_refs_inv l ps : l ∈ ptrs_refs ps -> Loc l ∈ ps.
Proof.
  induction ps as [|p ps IH]; simpl; [multiset_solver|].
  intros [Hp|Hps]%gmultiset_elem_of_disj_union; [|by right; apply IH].
  destruct p; simpl in Hp; multiset_solver.
Qed.

(** Who refers to an object that is not a string: a container, and the older of
    two containers is inside. *)
Lemma referrer_container w refs i o l ol :
  sound w refs -> w_heap w !! i = Some o -> l ∈ val_refs (ob_val o) ->
  w_heap w !! l = Some ol -> (forall t, ob_val ol <> VStr t) ->
  container (ob_val o) = true /\ (container (ob_val ol) = true -> (l < i)%positive).
Proof.
  intros Hs Hi Hin%elem_ptrs_refs_inv Hl Hstr.
  destruct (sd_typed _ _ Hs i o Hi ltac:(lia)) as [_ Ht].
  assert (~ str_at (w_heap w) (Loc l)) as Hns.
  { intros (l' & rc & s & [= <-] & Hl'). simplify_eq. by apply (Hstr s). }
  assert (~ str_or_null_at (w_heap w) (Loc l)) as Hns' by (by intros [?|?]).
  assert (forall ps, Loc l ∈ ps ->
    Forall (fun p => atom_at (w_heap w) p \/ older i p) ps ->
    container (ob_val ol) = true -> (l < i)%positive) as Hitems.
  { intros ps Hp Hps Hc. destruct (proj1 (list.Forall_forall _ _) Hps _ Hp)
      as [[?|(l' & ol' & [= <-] & Hl' & Hc')]|(l' & [= <-] & Hlt)]; [done| |done].
    simplify_eq. congruence. }
  destruct (ob_val o) as [s|z|items|items|es|a|e| |]; simpl in Hin, Ht;
    try (by apply elem_of_nil in Hin); try (split; [done|by eapply Hitems]).
  - exfalso. rewrite !elem_of_cons, elem_of_nil in Hin.
    destruct Hin as [E|[E|[E|[E|[]]]]]; rewrite <- E in Ht; tauto.
  - exfalso. rewrite !elem_of_cons, elem_of_nil in Hin.
    destruct Hin as [E|[E|[]]]; rewrite <- E in Ht; tauto.
Qed.

(** Every object has a holder. *)
Lemma holder w refs l o :
  sound w refs -> w_heap w !! l = Some o -> l ∈ refs \/
  exists i oi, w_heap w !! i = Some oi /\ l ∈ val_refs (ob_val oi).
Proof.
  intros Hs Hl. destruct (sd_typed _ _ Hs l o Hl ltac:(lia)) as [Hrc _].
  pose proof (wf_count _ _ _ (wf_hp _ _ (sd_wf _ _ Hs)) l) as Hc.
  rewrite (refcnt_of_Some _ _ _ Hl) in Hc.
  assert (l ∈ heap_refs (w_heap w) ⊎ refs) as Hin by (apply elem_of_multiplicity; lia).
  apply gmultiset_elem_of_disj_union in Hin as [Hh|Hr]; [right|by left].
  destruct (elem_of_heap_refs _ _ Hh) as (i & oi & Hi & _ & Hin). by exists i, oi.
Qed.

(** What is left then: strings and lists of addresses. *)
Lemma leaked_containers w leaked :
  sound w leaked -> inert (w_heap w) leaked -> forall l o,
  w_heap w !! l = Some o -> container (ob_val o) = true -> inert_val (w_heap w) (ob_val o).
Proof.
  intros Hs Hi l.
  assert (exists n, (Pos.to_nat (w_next w) - Pos.to_nat l < n)%nat) as [n Hn]
    by (exists (S (Pos.to_nat (w_next w))); lia).
  revert l Hn.
  induction n as [|n IH]; intros l Hn o Hl Hc; [lia|].
  destruct (holder w leaked l o Hs Hl) as [Hin|(i & oi & Hi' & Hin)].
  - destruct (Hi l Hin) as (rc & v & Hl' & Hv & _). by simplify_eq.
  - destruct (referrer_container w leaked i oi l o Hs Hi' Hin Hl) as [Hci Hlt];
      [by intros s E; rewrite E in Hc|].
    specialize (Hlt Hc). pose proof (wf_fresh _ _ _ (wf_hp _ _ (sd_wf _ _ Hs)) _ _ Hi').
    assert (inert_val (w_heap w) (ob_val oi)) as Hv by (apply (IH i); [lia|done..]).
    apply elem_ptrs_refs_inv in Hin. destruct (ob_val oi) as [| |items| | | | | |]; try done.
    simpl in Hv, Hin. destruct (proj1 (list.Forall_forall _ _) Hv _ Hin)
      as (l' & rc & a & [= <-] & Hl'). by simplify_eq.
Qed.

Lemma leaked_no_ether w leaked l rc e :
  sound w leaked -> inert (w_heap w) leaked -> w_heap w !! l <> Some (Obj rc (VEther e)).
Proof.
  intros Hs Hi Hl. destruct (holder w leaked l _ Hs Hl) as [Hin|(i & oi & Hi' & Hin)].
  - destruct (Hi l Hin) as (rc' & v & Hl' & Hv & _). by simplify_eq.
  - destruct (referrer_container w leaked i oi l _ Hs Hi' Hin Hl) as [Hci _]; [done|].
    pose proof (leaked_containers w leaked Hs Hi i oi Hi' Hci) as Hv.
    apply elem_ptrs_refs_inv in Hin. destruct (ob_val oi) as [| |items| | | | | |]; try done.
    simpl in Hv, Hin. destruct (proj1 (list.Forall_forall _ _) Hv _ Hin)
      as (l' & rc' & a & [= <-] & Hl'). by simplify_eq.
Qed.

(** No object of the type is left, and nothing of the connection. *)
Record released w : Prop := {
  re_objects l rc e : w_heap w !! l <> Some (Obj rc (VEther e));
  re_conn : nlconnection (w_nlc w) = None;
  re_users : nlconnection_users (w_nlc w) = 0;
  re_nl : w_nl w = ∅;
  re_fds : w_fds w = ∅;
  re_files : w_files w = 0%nat;
}.

Lemma in_order_released w : in_order w ∅ -> released w.
Proof.
  intros [(lk & Hs & Hi) _ Hd Hf].
  assert (sound w lk) as Hs' by (eapply sound_eq; [exact Hs|multiset_solver]).
  assert (forall l rc e, w_heap w !! l <> Some (Obj rc (VEther e))) as Hne
    by (intros; by eapply leaked_no_ether).
  assert (users_of (w_heap w) = ∅) as Hu.
  { apply set_eq. intros l. rewrite elem_of_users. split; [|set_solver].
    intros ([rc v] & Hl & Hv). unfold is_user in Hv. simpl in Hv. destruct v; try done.
    by apply Hne in Hl. }
  destruct (sd_conn _ _ Hs') as [Hn Hc]. rewrite Hu, size_empty in Hc.
  destruct (nlconnection (w_nlc w)) as [c|] eqn:Ec; [lia|]. by split.
Qed.

(** Whatever is held can be dropped, one reference at a time and in any order. *)
Lemma drop_next w rho :
  in_order w rho -> rho <> ∅ -> exists s', drop_step (w, rho) s'.
Proof.
  intros Ho Hne. destruct (gmultiset_choose_or_empty rho) as [[l Hl]|]; [|done].
  pose proof (drop_ok w rho l Ho Hl) as Hd. unfold wp in Hd.
  destruct (Py_DECREF (Loc l) w) as [[] w1|] eqn:E; [|done]. eexists. by constructor.
Qed.

Lemma drop_steps n s s' :
  nsteps drop_step n s s' -> in_order s.1 s.2 ->
  in_order s'.1 s'.2 /\ size s.2 = (n + size s'.2)%nat.
Proof.
  induction 1 as [|n s1 s2 s3 Hs _ IH]; intros Ho; [by split|].
  assert (in_order s2.1 s2.2) as Ho2
    by (eapply (py_step_in_order s1); [by apply drop_is_step|done]).
  destruct (IH Ho2) as [Ho3 Hn]. split; [done|].
  destruct Hs as [l w rho w' Hl _]. simpl in *.
  rewrite gmultiset_size_difference, gmultiset_size_singleton in Hn by multiset_solver.
  assert (size rho <> 0)%nat; [|lia]. intros E%gmultiset_size_empty_inv. multiset_solver.
Qed.

End order.

(** C1: a program cannot break the module, on a system that grants NETLINK and
    behaves ([NetlinkUp], [SystemUp]).  The operations are all the module offers
    Python, and those of Python on strings, numbers and containers; a program may
    make one when its arguments are what Contract.v asks ([args_fit]: names UTF-8
    can encode, numbers of a [long] in a dictionary), an assignment to a member of
    an address when it fits ([member_fits]), a store when nothing becomes circular
    ([storable]), and a query while there are fewer than 2^32 objects.  Then,
    whatever operations it makes and in whatever order from start-up, the state is
    in order: every count is right, every object is of the type the C code casts it
    to, the connection stands exactly as its user count says, no descriptor or
    stream is open and no exception is pending; and every operation it may make
    next runs without fault. *)
Theorem session_safe {K} `{PL : PlatformLaws K} (netlink : NetlinkUp K) (system : SystemUp K)
    signed_char (k : K) s :
  rtc (py_step signed_char) (boot k, ∅) s ->
  in_order s.1 s.2 /\
  forall o m, op_code signed_char o = Some m -> enabled s.1 s.2 o ->
  exists r w', m s.1 = Ret r w'.
Proof.
  intros Hr. pose proof (reachable_in_order signed_char k s Hr) as Ho. split; [done|].
  intros o m Hm He. pose proof (op_ok signed_char _ _ o m Ho Hm He) as Hw. unfold wp in Hw.
  destruct (m s.1) as [r w'|]; [by exists r, w'|done].
Qed.

(** C2: the connection is given back, on a system that grants NETLINK and behaves.
    From any state a program can reach by the operations it may make (as in C1),
    it can go on dropping references, in whatever order, until it holds none; by
    then no [etherinfo] object exists, the NETLINK connection is closed, its user
    count is zero and nothing of libnl is left. *)
Theorem connection_released {K} `{PL : PlatformLaws K} (netlink : NetlinkUp K)
    (system : SystemUp K) signed_char (k : K) s n s' :
  rtc (py_step signed_char) (boot k, ∅) s -> nsteps drop_step n s s' ->
  (n <= size s.2)%nat /\
  (n < size s.2 -> exists s2, drop_step s' s2)%nat /\
  (n = size s.2 -> released s'.1).
Proof.
  intros Hr Hd. pose proof (reachable_in_order signed_char k s Hr) as Ho.
  destruct (drop_steps signed_char n s s' Hd Ho) as [Ho' Hn]. split; [lia|]. split; intros E.
  - destruct s' as [w' rho']. apply drop_next; [done|]. simpl in *. intros ->.
    rewrite gmultiset_size_empty in Hn. lia.
  - apply in_order_released. assert (size s'.2 = 0%nat) as E0%gmultiset_size_empty_inv by lia.
    by rewrite <- E0.
Qed.

(** ** At work: a system that always answers alike *)

Definition steady : machine := Machine (mc_socket contract_machine)
  (mc_ioctl contract_machine) (mc_ifaddrs quiet) (mc_files contract_machine)
  (mc_malloc contract_machine) [] (mc_links quiet) (mc_addrs quiet) true.

Definition still {A B} (q : machine -> A * machine) (_ : B) : A * unit := ((q steady).1, tt).

#[export] Instance steady_platform : Platform unit := {
  sys_socket := still sys_socket;
  sys_ioctl fd req r d := still (sys_ioctl fd req r d);
  sys_fcntl_cloexec := still sys_fcntl_cloexec;
  sys_getifaddrs := still sys_getifaddrs;
  sys_fopen p := still (sys_fopen p);
  strerror := strerror (K := machine);
  py_malloc := still py_malloc;
  utf8_valid := utf8_valid (K := machine);
  nl_socket_alloc_ok := still nl_socket_alloc_ok;
  nl_connect_ret := still nl_connect_ret;
  link_cache_reply b := still (link_cache_reply b);
  addr_cache_reply b := still (addr_cache_reply b);
  rtnl_link_alloc_ok := still rtnl_link_alloc_ok;
  rtnl_addr_alloc_ok := still rtnl_addr_alloc_ok;
  link_by_name := link_by_name (K := machine);
  link_matches := link_matches (K := machine);
  addr_matches := addr_matches (K := machine);
  nl_addr2str := nl_addr2str (K := machine);
  inet_ntop := inet_ntop (K := machine);
  rtnl_scope2str := rtnl_scope2str (K := machine);
  nl_af2str := nl_af2str (K := machine);
  nl_geterror := nl_geterror (K := machine);
}.

#[export] Instance steady_laws : PlatformLaws unit.
Proof.
  split.
  - intros. exact (ioctl_name_length fd req r d steady).
  - intros. exact (ioctl_ifru_length fd req r d steady).
  - intros. exact (ioctl_data_length fd req r d steady).
  - exact (link_by_name_Some (K := machine)).
  - exact (link_by_name_None (K := machine)).
  - exact (link_matches_spec (K := machine)).
  - exact (addr_matches_spec (K := machine)).
  - exact (utf8_ascii (K := machine)).
  - exact (addr2str_utf8 (K := machine)).
  - exact (scope2str_utf8 (K := machine)).
  - exact (ntop_utf8 (K := machine)).
Qed.

Lemma steady_memory n : memory_for n tt.
Proof. induction n as [|n IH]; [exact I|]. split; [discriminate|exact IH]. Qed.

#[export] Instance steady_up : NetlinkUp unit.
Proof.
  split; intros; try done.
  - exists [lo_addr; eth0_addr]. split; [done|].
    repeat (constructor; [by eexists|]). constructor.
  - destruct k. apply steady_memory.
Qed.

Lemma steady_ioctl fd req ifr d :
  (sys_ioctl fd req ifr d tt).1 = (sys_ioctl fd req ifr d contract_machine).1.
Proof. simpl. by destruct (card_ioctl _ _ _) as [[[]]]. Qed.

Lemma steady_answer fd ifr d :
  (ethtool_answer tt fd ifr d).1 = (ethtool_answer contract_machine fd ifr d).1.
Proof. apply steady_ioctl. Qed.

#[export] Instance steady_system : SystemUp unit.
Proof.
  intros []. destruct contract_system as [S1 S2 S3 S4 S5 S6 S7 S8]. split.
  - intros fd ifr d. rewrite steady_answer. apply S1.
  - intros fd ifr d fs. rewrite steady_answer. apply S2.
  - intros fd ifr n field. rewrite steady_answer. apply S3.
  - intros fd ifr. cbv zeta. rewrite steady_ioctl. apply S4.
  - intros fd ifr. exact I.
  - exact S6.
  - repeat (constructor; [by split|]). constructor.
  - exact steady_memory.
Qed.

(** A program: [l = ethtool.get_interfaces_info("eth0"); x = l[0]; l[:] = []; str(x)]. *)
Definition demo_ops : list op :=
  [OpNew (VStr "eth0"); OpCall "get_interfaces_info" [Loc 1]; OpTake 3; OpAssign 2 []; OpStr 3].

Fixpoint play {K} `{Platform K} (ops : list op) (w : world K) : world K :=
  match ops with
  | [] => w
  | o :: ops =>
      match op_code true o with
      | Some m => play ops (set_err None (world_after m w))
      | None => w
      end
  end.

Definition demo (n : nat) : world unit := play (take n demo_ops) (boot tt).

(** What the program holds: the string, the list, the object. *)
Definition demo_held : gmultiset positive :=
  {[+ 3%positive +]} ⊎ ({[+ 2%positive +]} ⊎ ({[+ 1%positive +]} ⊎ (∅ ∖ val_refs (VStr "eth0")))).

Lemma demo_held_3 : 3%positive ∈ demo_held.
Proof. unfold demo_held. multiset_solver. Qed.

Lemma demo_reached : rtc (py_step true) (boot tt, ∅) (demo 4, demo_held).
Proof.
  eapply (py_step_then true (OpNew (VStr "eth0")) _ _ _ (Loc 1) (demo 1)); [reflexivity| | |reflexivity|].
  { split; [done|]. split; [constructor|]. unfold val_refs. simpl. multiset_solver. }
  { vm_compute. reflexivity. }
  change (set_err None (demo 1)) with (demo 1).
  eapply (py_step_then true (OpCall "get_interfaces_info" [Loc 1]) _ _ _ (Loc 2) (demo 2));
    [reflexivity| | |reflexivity|].
  { split; [constructor; [|constructor]; simpl; multiset_solver|]. split.
    - intros names Ha. eapply (asks_text (demo 1) 1 1 "eth0"); [|reflexivity|exact Ha].
      vm_compute. reflexivity.
    - intros l o [= ->]%list_elem_of_singleton Hl. vm_compute in Hl. by injection Hl as <-.
    - intros l rc es k p [= ->]%list_elem_of_singleton Hl. vm_compute in Hl. discriminate. }
  { vm_compute. reflexivity. }
  eapply (py_step_then true (OpTake 3) _ _ _ (Loc 3) (demo 3)); [reflexivity| | |reflexivity|].
  { right. exists 2%positive, 1, (VList [Loc 3]). split; [simpl; multiset_solver|].
    split; [vm_compute; reflexivity|]. split; [reflexivity|left]. }
  { vm_compute. reflexivity. }
  eapply (py_step_then true (OpAssign 2 []) _ _ _ Null (demo 4)); [reflexivity| |vm_compute; reflexivity| |].
  { split; [simpl; multiset_solver|]. do 2 (split; [constructor|]). exists 1, [Loc 3].
    vm_compute. reflexivity. }
  { symmetry. apply gmultiset_disj_union_left_id. }
  apply rtc_refl.
Qed.

Lemma session_safe_witness :
  exists r w', _ethtool_etherinfo_str (Loc 3) (demo 4) = Ret r w'.
Proof.
  apply (proj2 (session_safe steady_up steady_system true tt (demo 4, demo_held) demo_reached) (OpStr 3));
    [reflexivity|].
  split; [exact demo_held_3|]. split; [vm_compute; reflexivity|].
  exists 1. eexists. vm_compute. reflexivity.
Defined.

(** The text is had, the connection stands; then everything is dropped. *)
Lemma demo_reached_str :
  rtc (py_step true) (boot tt, ∅) (demo 5, {[+ 21%positive +]} ⊎ demo_held).
Proof.
  eapply rtc_r; [exact demo_reached|].
  apply (py_op true (OpStr 3) (_ethtool_etherinfo_str (Loc 3)) (demo 4) demo_held (Loc 21) (demo 5));
    [reflexivity| |vm_compute; reflexivity].
  split; [exact demo_held_3|]. split; [vm_compute; reflexivity|].
  exists 1. eexists. vm_compute. reflexivity.
Qed.

Fixpoint drop_play (ls : list positive) (w : world unit) : world unit :=
  match ls with
  | [] => w
  | l :: ls => drop_play ls (set_err None (world_after (Py_DECREF (Loc l)) w))
  end.

Fixpoint drop_held (ls : list positive) (rho : gmultiset positive) : gmultiset positive :=
  match ls with
  | [] => rho
  | l :: ls => drop_held ls (rho ∖ {[+ l +]})
  end.

Fixpoint drops_run (ls : list positive) (w : world unit) : bool :=
  match ls with
  | [] => true
  | l :: ls =>
      match Py_DECREF (Loc l) w with
      | Ret _ w' => drops_run ls (set_err None w')
      | Fault _ => false
      end
  end.

Lemma drop_play_steps ls : forall w rho,
  drops_run ls w = true -> ptrs_refs (Loc <$> ls) ⊆ rho ->
  nsteps drop_step (length ls) (w, rho) (drop_play ls w, drop_held ls rho).
Proof.
  induction ls as [|l ls IH]; intros w rho Hr Hin; [apply nsteps_O|]. simpl in *.
  unfold world_after. destruct (Py_DECREF (Loc l) w) as [[] w1|] eqn:E; [|done].
  eapply nsteps_l; [apply (drop_op l); [multiset_solver|exact E]|].
  apply IH; [exact Hr|multiset_solver].
Qed.

Lemma connection_released_witness :
  nlconnection (w_nlc (demo 5)) = Some 1%positive /\
  released (drop_play [3; 2; 1; 21]%positive (demo 5)).
Proof.
  split; [vm_compute; reflexivity|].
  apply (proj2 (proj2 (connection_released steady_up steady_system true tt _ 4 _ demo_reached_str
    (drop_play_steps [3; 2; 1; 21]%positive (demo 5) _ ltac:(vm_compute; reflexivity)
      ltac:(unfold demo_held; simpl; multiset_solver))))).
  vm_compute. reflexivity.
Defined.
