(* ===== verification/SessionFaults.v ===== *)
(** * Sessions on a system that refuses

    The theorems of Session.v ask that connecting to NETLINK succeeds
    ([NetlinkUp]).  This is needed: wherever the connection is refused, asking
    twice for the addresses of an object whose index is known, while there is no
    connection, brings the process down; and a program gets there from start-up
    by operations it may make.  Three faults of the code meet.  An object that never
    asked for anything closes the connection of one that did when it is dropped
    ([unused_close_disconnects]); the connection refused afterwards is kept as if
    it stood ([refused_connection_reused]); and the cache of addresses that this
    connection then fails to give is freed although it was never set
    ([address_cache_failure]). *)
From stdpp Require Import relations.
From S2P Require Import Prelude.
From S2P Require Import Platform.
From S2P Require Import CPython.
From S2P Require Import Netlink.
From S2P Require Import Objects.
From S2P Require Import Testbed.
From S2P Require Import NetlinkSpec.
From S2P Require Import RefCount.
From S2P Require Import Sound.
From S2P Require Import NetlinkAddress.
From S2P Require Import EtherInfo.
From S2P Require Import EtherInfoFacts.
From S2P Require Import EtherSound.
From S2P Require Import EtherInfoObj.
From S2P Require Import EthtoolModule.
From S2P Require Import Contract.
From S2P Require Import Session.

(** ** Any such system *)

Section refused.
Context {K : Type} `{PL : PlatformLaws K}.
Implicit Types (w : world K) (rho : gmultiset positive).

Lemma open_refused w l rc e name k1 r k2 q :
  w_heap w !! l = Some (Obj rc (VEther e)) -> str_is (w_heap w) (device e) name ->
  nlconnection (w_nlc w) = None -> nl_socket_alloc_ok (w_env w) = (true, k1) ->
  nl_connect_ret k1 = (r, k2) -> r < 0 ->
  exists w1, get_etherinfo_address (Loc l) q w = Ret Null w1 /\ w_err w1 <> None /\
    w_heap w1 = w_heap w /\ nlconnection (w_nlc w1) = Some (w_nlnext w) /\
    w_nl w1 = <[w_nlnext w := NlSock false]> (w_nl w) /\
    nlc_counter_mtx (w_nlc w1) = nlc_counter_mtx (w_nlc w) /\
    w_nlnext w1 = Pos.succ (w_nlnext w) /\ w_env w1 = k2.
Proof.
  intros Hl (d & rcd & Hd & Hs) Hc Ha Hr Hr0. unfold get_etherinfo_address. cbn [is_null].
  cbv iota. rewrite (bind_Ret _ _ _ _ _ (open_netlink_refused w l k1 r k2 Hc Ha Hr Hr0)).
  change (0 =? 0) with true. cbv iota. unfold open_failed.
  destruct w as [h n er x [cc u m] nl nn fd fs se k]. simpl in *.
  rewrite bind_assoc. erewrite bind_Ret by (eapply get_ether_eq; exact Hl).
  rewrite bind_assoc, Hd. unfold PyStr_AsString_nonnull, PyStr_AsString. rewrite !bind_assoc.
  erewrite bind_Ret by (apply peek_eq; exact Hs).
  eexists. split; [reflexivity|]. do 6 (split; [done|]). done.
Qed.

(** The two methods that list addresses. *)
Definition address_method (name : string) : option nlQuery :=
  if decide (name = "get_ipv4_addresses") then Some NLQRY_ADDR4
  else if decide (name = "get_ipv6_addresses") then Some NLQRY_ADDR6 else None.

Lemma address_method_code signed_char name q l :
  address_method name = Some q ->
  op_code (K := K) signed_char (OpMethod name l) = Some (get_etherinfo_address (Loc l) q).
Proof.
  unfold address_method. case_decide as E1; [intros [= <-]; by subst|].
  case_decide as E2; [intros [= <-]; by subst|done].
Qed.

(** C36: asking twice where a connection is refused.  On any system: a program
    holds an object whose index is known while there is no connection (another
    object, dropped, has closed it), the system refuses to connect a socket it
    gave, and does not give the table of addresses over a socket that is not
    connected.  Then the program may ask the object for its addresses, gets an
    exception, and may ask again; and this uses memory that was never set. *)
Theorem refused_session_dies signed_char w rho l rc e dev name q k1 r k2 err k3 :
  wf_nl w -> nlconnection (w_nlc w) = None -> l ∈ rho -> countable w ->
  w_heap w !! l = Some (Obj rc (VEther e)) -> str_is (w_heap w) (device e) dev ->
  0 <= index e -> address_method name = Some q ->
  nl_socket_alloc_ok (w_env w) = (true, k1) -> nl_connect_ret k1 = (r, k2) -> r < 0 ->
  addr_cache_reply false k2 = (inl err, k3) ->
  exists m w1, op_code signed_char (OpMethod name l) = Some m /\
    m w = Ret Null w1 /\ w_err w1 <> None /\
    py_step signed_char (w, rho) (set_err None w1, rho) /\
    enabled (set_err None w1) rho (OpMethod name l) /\ m (set_err None w1) = Fault UninitUse.
Proof.
  intros Hw Hc Hin Hcnt Hl Hd Hi Hq Ha Hr Hr0 Hk.
  destruct (open_refused w l rc e dev k1 r k2 q Hl Hd Hc Ha Hr Hr0)
    as (w1 & E & He & Hh & Hcn & Hnl & Hm & Hnx & Henv).
  exists (get_etherinfo_address (Loc l) q), w1.
  pose proof (address_method_code signed_char name q l Hq) as Hcode.
  do 3 (split; [done|]). split.
  { rewrite <- (gmultiset_disj_union_left_id rho) at 2.
    eapply (py_op signed_char (OpMethod name l) _ w rho Null); [exact Hcode| |exact E].
    split; [exact Hin|]. split; [exact Hcnt|]. by exists rc, e. }
  split.
  { split; [exact Hin|]. unfold countable. simpl. rewrite Hh. split; [exact Hcnt|]. by exists rc, e. }
  eapply (address_cache_failure (set_err None w1) l rc e (w_nlnext w) false); [|exact Hi|].
  - split; simpl; [by rewrite Hh|exact Hcn|rewrite Hnl; apply lookup_insert_eq|].
    destruct Hw as [H1 H2 H3]. split; simpl.
    + congruence.
    + intros c. rewrite Hcn. intros [= <-]. exists false. rewrite Hnl. apply lookup_insert_eq.
    + intros c o. rewrite Hnl, Hnx. intros [[<- <-]|[? Ho]]%lookup_insert_Some; [lia|].
      apply H3 in Ho. lia.
  - simpl. by rewrite Henv.
Qed.
End refused.

(** ** A run that leads there *)

Definition with_connects (connects : list Z) (k : machine) : machine :=
  Machine (mc_socket k) (mc_ioctl k) (mc_ifaddrs k) (mc_files k) (mc_malloc k)
    connects (mc_links k) (mc_addrs k) (mc_nl_memory k).

(** It accepts one connection and refuses the next. *)
Definition refuses_second : machine := with_connects [0; -12] quiet.

(** [a, = ethtool.get_interfaces_info("eth0")], [a.get_ipv4_addresses()],
    [ethtool.get_interfaces_info("eth0")] whose result is dropped, and
    [a.get_ipv4_addresses()] again, the exception ignored. *)
Definition ask : op := OpMethod "get_ipv4_addresses" 3.
Definition fatal_ops : list op :=
  [OpNew (VStr "eth0"); OpCall "get_interfaces_info" [Loc 1]; OpTake 3; ask;
   OpCall "get_interfaces_info" [Loc 1]; OpDrop 11; ask].

Definition fatal (n : nat) : world machine := play (firstn n fatal_ops) (boot refuses_second).

(** A name is a fit argument. *)
Lemma args_fit_name {K} `{Platform K} (w : world K) l rc s :
  w_heap w !! l = Some (Obj rc (VStr s)) -> 0 < rc -> utf8_valid (cstr s) = true ->
  args_fit w [Loc l].
Proof.
  intros Hl Hrc Hs. split.
  - intros names. by eapply asks_text.
  - intros l' o [= ->]%list_elem_of_singleton Ho. by simplify_eq.
  - intros l' rc' es k p [= ->]%list_elem_of_singleton Ho. by simplify_eq.
Qed.

(** The next operation of [fatal_ops]: what is left is that it is enabled. *)
Lemma fatal_op n o m rho r rho' s :
  op_code true o = Some m -> enabled (fatal n) rho o ->
  m (fatal n) = Ret r (world_after m (fatal n)) ->
  set_err None (world_after m (fatal n)) = fatal (S n) -> rho' = refs_after o r rho ->
  rtc (py_step true) (fatal (S n), rho') s -> rtc (py_step true) (fatal n, rho) s.
Proof. intros Hm He Hr <-. by eapply py_step_then. Qed.

Ltac play_op n o r :=
  eapply (fatal_op n o _ _ r);
    [reflexivity| |vm_compute; reflexivity|vm_compute; reflexivity|reflexivity|].

Lemma held_after_drop (l l' : positive) (rho : gmultiset positive) : l ∈ rho -> l <> l' -> l ∈ rho ∖ {[+ l' +]}.
Proof. multiset_solver. Qed.

Lemma held_new (l : positive) (rho : gmultiset positive) : l ∈ {[+ l +]} ⊎ rho.
Proof. multiset_solver. Qed.

Lemma held_still (l : positive) (a rho : gmultiset positive) : l ∈ rho -> l ∈ a ⊎ rho.
Proof. multiset_solver. Qed.

(** Among the references taken so far. *)
Ltac is_held := simpl; repeat match goal with
  | |- ?l ∈ {[+ ?l +]} ⊎ _ => apply held_new
  | |- _ ∈ _ ∖ {[+ _ +]} => apply held_after_drop; [|done]
  | |- _ ∈ _ ⊎ _ => apply held_still
  end.

Lemma ask_enabled n rho :
  3%positive ∈ rho -> countable (fatal n) ->
  (exists rc e, w_heap (fatal n) !! 3%positive = Some (Obj rc (VEther e))) ->
  enabled (fatal n) rho ask.
Proof. by repeat split. Qed.

Lemma name_enabled n rho name :
  1%positive ∈ rho -> w_heap (fatal n) !! 1%positive = Some (Obj 1 (VStr "eth0")) ->
  enabled (fatal n) rho (OpCall name [Loc 1]).
Proof. intros Hin Hl. split; [by repeat constructor|]. by eapply args_fit_name. Qed.

Lemma fatal_reached : exists rho, 3%positive ∈ rho /\
  rtc (py_step true) (boot refuses_second, ∅) (fatal 6, rho).
Proof.
  eexists. split; cycle 1.
  { change (boot refuses_second) with (fatal 0). play_op 0%nat (OpNew (VStr "eth0")) (Loc 1).
    { split; [done|]. split; [constructor|]. unfold val_refs. simpl. multiset_solver. }
    play_op 1%nat (OpCall "get_interfaces_info" [Loc 1]) (Loc 2).
    { apply (name_enabled 1); [is_held|vm_compute; reflexivity]. }
    play_op 2%nat (OpTake 3) (Loc 3).
    { right. exists 2%positive, 1, (VList [Loc 3]). split; [is_held|].
      split; [vm_compute; reflexivity|]. split; [reflexivity|left]. }
    play_op 3%nat ask (Loc 5).
    { apply (ask_enabled 3); [is_held|vm_compute; reflexivity|].
      do 2 eexists. vm_compute. reflexivity. }
    play_op 4%nat (OpCall "get_interfaces_info" [Loc 1]) (Loc 11).
    { apply (name_enabled 4); [is_held|vm_compute; reflexivity]. }
    play_op 5%nat (OpDrop 11) Null.
    { is_held. }
    apply rtc_refl. }
  is_held.
Qed.

(** The object is asked while it has the connection, another one is made and
    dropped, and the system refuses the second connection. *)
Lemma refused_session_dies_witness : exists rho,
  rtc (py_step true) (boot refuses_second, ∅) (fatal 6, rho) /\
  exists m w1, op_code true (OpMethod "get_ipv4_addresses" 3) = Some m /\
    m (fatal 6) = Ret Null w1 /\ w_err w1 <> None /\
    py_step true (fatal 6, rho) (set_err None w1, rho) /\
    enabled (set_err None w1) rho (OpMethod "get_ipv4_addresses" 3) /\
    m (set_err None w1) = Fault UninitUse.
Proof.
  destruct fatal_reached as (rho & Hin & Hr). exists rho. split; [exact Hr|].
  set (k1 := (nl_socket_alloc_ok (w_env (fatal 6))).2).
  set (k2 := (nl_connect_ret k1).2).
  apply (refused_session_dies true (fatal 6) rho 3 2 (MkEther (Loc 4) 2 Null 1) "eth0"
    "get_ipv4_addresses" NLQRY_ADDR4 k1 (-12) k2 (-3) (addr_cache_reply false k2).2).
  - split; [vm_compute; reflexivity| |]; intros c; vm_compute; discriminate.
  - vm_compute. reflexivity.
  - exact Hin.
  - vm_compute. reflexivity.
  - vm_compute. reflexivity.
  - exists 4%positive, 1. split; [reflexivity|vm_compute; reflexivity].
  - discriminate.
  - reflexivity.
  - vm_compute. reflexivity.
  - vm_compute. reflexivity.
  - reflexivity.
  - vm_compute. reflexivity.
Defined.
