(* ===== verification/EtherSpecs.v ===== *)
(** * Objects as a program sees them

    The five attributes and [str] of an [etherinfo] object in any state a
    program can reach: the object may be new, its index unknown, the connection
    closed or shared.  What is shown is what the kernel's tables say of the
    device when they are asked; when there is nothing to show, the documented
    defaults.  NETLINK is taken to be granted ([NetlinkUp]).  Then the members of
    an address object, assigned and deleted, for which nothing is asked of the
    system. *)
From S2P Require Import Prelude.
From S2P Require Import Platform.
From S2P Require Import CPython.
From S2P Require Import Netlink.
From S2P Require Import Objects.
From S2P Require Import Testbed.
From S2P Require Import RefCount.
From S2P Require Import Typing.
From S2P Require Import Containers.
From S2P Require Import Sound.
From S2P Require Import NetlinkAddress.
From S2P Require Import AddressFacts.
From S2P Require Import EtherInfo.
From S2P Require Import EtherInfoFacts.
From S2P Require Import EtherSound.
From S2P Require Import EtherInfoObj.
From S2P Require Import EtherText.
From S2P Require Import EtherObjSound.
From S2P Require Import EthtoolModule.
From S2P Require Import Stores.
From S2P Require Import AddressMembers.
From S2P Require Import Session.

Section specs.
Context {K : Type}.
Implicit Types (w : world K).

(** What an IPv4 attribute shows of the last address, if there is one. *)
Definition shows_address (last : option pydata) (r : ptr) w : Prop :=
  match last with
  | Some (DAddr _ loc _ _ _ _) => str_is (w_heap w) r loc
  | _ => or_error (fun r _ => r = PyNone) r w
  end.

Definition shows_netmask (last : option pydata) (r : ptr) w : Prop :=
  match last with
  | Some (DAddr _ _ _ _ plen _) => int_is (w_heap w) r plen
  | _ => or_error (fun r w => int_is (w_heap w) r 0) r w
  end.

Definition shows_broadcast (last : option pydata) (r : ptr) w : Prop :=
  match last with
  | Some (DAddr _ _ _ (Some bc) _ _) => str_is (w_heap w) r bc
  | _ => or_error (fun r w => str_is (w_heap w) r "0.0.0.0") r w
  end.

End specs.

(** C17: the IPv4 attributes, on a system that grants NETLINK ([NetlinkUp]: sockets
    and filters can be had, connecting succeeds, the table of addresses is given,
    each of a kind the extension converts, and there is memory), with fewer than
    2^32 objects for the user count, or an object that counts already ([ready]).
    [ipv4_address], [ipv4_netmask] and [ipv4_broadcast] of any [etherinfo] object
    of a sound world show the local address, the prefix length and the broadcast
    address of the last entry of the kernel's table with the index of the device
    and the IPv4 family, or None, 0 and 0.0.0.0 when there is none ([NULL] if an
    exception is pending); an index not known yet is that of the link with the
    device's name.  The result is a new reference, and what is leaked is strings
    and lists of addresses.  (Where the table is refused, the code dies:
    [address_cache_failure].) *)
Theorem ipv4_attributes_spec {K} `{PL : PlatformLaws K} (netlink : NetlinkUp K)
    (refs : gmultiset positive) (w : world K) l rc e name attr shows :
  (attr, shows) ∈ [("ipv4_address", shows_address); ("ipv4_netmask", shows_netmask);
    ("ipv4_broadcast", shows_broadcast)] ->
  sound w refs -> ready l rc e w -> str_is (w_heap w) (device e) name ->
  exists f, by_name attr (tp_getset (PyEtherInfo_Type (K := K))) = Some f /\
  wp (f (Loc l)) (fun r w' => drips refs (ptr_refs r) w w' /\ exists ds,
    found_addresses (K := K) name (index e) NLQRY_ADDR4 ds /\ shows (list.last ds) r w') w.
Proof.
  intros Ha Hs Hr Hn.
  repeat (apply elem_of_cons in Ha as [[= -> ->]|Ha];
    [eexists; split; [reflexivity|]|]); [..|by apply elem_of_nil in Ha].
  - exact (get_ipv4_addr_ok refs w l rc e name Hs Hr Hn).
  - exact (get_ipv4_mask_ok refs w l rc e name Hs Hr Hn).
  - exact (get_ipv4_bcast_ok refs w l rc e name Hs Hr Hn).
Qed.

(** C16: the text of an object, on a system that grants NETLINK ([NetlinkUp], as for
    C17), ready as there.  [str] of any [etherinfo] object of a sound world is the device name, the
    hardware address if the object has one or the kernel has a link with its index,
    and one line for each IPv4 and each IPv6 address the kernel lists for the
    device, in the order of its tables. *)
Theorem etherinfo_str_spec {K} `{PL : PlatformLaws K} (netlink : NetlinkUp K)
    (refs : gmultiset positive) (w : world K) l rc e name :
  sound w refs -> ready l rc e w -> str_is (w_heap w) (device e) name ->
  wp (_ethtool_etherinfo_str (Loc l)) (fun r w' => drips refs (ptr_refs r) w w' /\
    exists hw ds4 ds6, str_is (w_heap w') r (ether_text name hw ds4 ds6) /\
      found_hw (K := K) name e (w_heap w) hw /\
      found_addresses (K := K) name (index e) NLQRY_ADDR4 ds4 /\
      found_addresses (K := K) name (index e) NLQRY_ADDR6 ds6) w.
Proof. apply etherinfo_str_ok. Qed.

(** ** At work: a new object *)

Definition new_ether : PyEtherInfo := MkEther (Loc 4) (-1) Null 0.

Lemma demo_sound : exists refs, sound (demo 4) refs /\ ready 3 1 new_ether (demo 4).
Proof.
  destruct (io_sound _ _ (reachable_in_order true tt _ demo_reached)) as (lk & Hs & _).
  exists (lk ⊎ demo_held). split; [exact Hs|].
  split; [split; [vm_compute; reflexivity|reflexivity]|]. left. vm_compute. reflexivity.
Qed.

Lemma demo_device : str_is (w_heap (demo 4)) (device new_ether) "eth0".
Proof. exists 4%positive, 1. split; [reflexivity|vm_compute; reflexivity]. Qed.

Lemma ipv4_attributes_spec_witness :
  exists refs, wp (get_ipv4_mask (Loc 3)) (fun r w' => drips refs (ptr_refs r) (demo 4) w' /\
    exists ds, found_addresses (K := unit) "eth0" (-1) NLQRY_ADDR4 ds /\
      shows_netmask (list.last ds) r w') (demo 4).
Proof.
  destruct demo_sound as (refs & Hs & Hr). exists refs.
  destruct (ipv4_attributes_spec steady_up refs (demo 4) 3 1 new_ether "eth0" "ipv4_netmask"
    shows_netmask) as (f & [= <-] & Hf); [right; left|exact Hs|exact Hr|exact demo_device|].
  exact Hf.
Defined.

Lemma etherinfo_str_spec_witness :
  exists refs, wp (_ethtool_etherinfo_str (Loc 3)) (fun r w' =>
    drips refs (ptr_refs r) (demo 4) w' /\ exists hw ds4 ds6,
      str_is (w_heap w') r (ether_text "eth0" hw ds4 ds6) /\
      found_hw (K := unit) "eth0" new_ether (w_heap (demo 4)) hw /\
      found_addresses (K := unit) "eth0" (-1) NLQRY_ADDR4 ds4 /\
      found_addresses (K := unit) "eth0" (-1) NLQRY_ADDR6 ds6) (demo 4).
Proof.
  destruct demo_sound as (refs & Hs & Hr). exists refs.
  apply (etherinfo_str_spec steady_up refs (demo 4) 3 1 new_ether "eth0");
    [exact Hs|exact Hr|exact demo_device].
Defined.

Section members.
Context {K : Type} `{PL : PlatformLaws K}.
Implicit Types (w : world K) (refs : gmultiset positive).

(** C31: assigning and deleting a member of an address.  On a sound world, with
    what [member_fits] the member (a string; or nothing, for the two members the
    code tests; anything at all for [netmask]), the assignment runs without fault
    and leaves the world sound, every object of the type the C code takes it for.
    It has its effect, what was there is released, and the member then reads as
    it was assigned, a number cut to an [int]; or it is refused with an exception
    and changes nothing: a [netmask] that is deleted or no number of a [long], and
    the deletion of a [peer_address] that is not there. *)
Theorem set_member_spec w refs l rc a name m p :
  sound w refs -> w_err w = None -> w_heap w !! l = Some (Obj rc (VAddr a)) -> l ∈ refs ->
  (name, m) ∈ _ethtool_netlink_ip_address_members ->
  (forall i, p = Loc i -> i ∈ refs) -> p <> Uninit -> member_fits (w_heap w) name p ->
  wp (set_member m (Loc l) p) (fun r w' => sound w' refs /\
    match assigned w m p a with
    | Some a' => r = 0 /\ w_err w' = None /\
        (exists rc', w_heap w' !! l = Some (Obj rc' (VAddr a'))) /\
        wp (get_member m (Loc l)) (read_back w m p) w'
    | None => r = -1 /\ w_err w' <> None /\
        exists rc', w_heap w' !! l = Some (Obj rc' (VAddr a))
    end) w.
Proof.
  intros Hs He Hl Hin Hm Hp Hu Hfit. eapply wp_mono.
  { eapply (set_member_ok w ∅ refs l rc a name m p); [|apply inert_empty|done..].
    eapply sound_eq; [exact Hs|]. multiset_solver. }
  intros r w' [(Hs' & _ & _ & _) Hr].
  assert (sound w' refs) as Hs2 by (eapply sound_eq; [exact Hs'|]; multiset_solver).
  split; [exact Hs2|]. destruct (assigned w m p a) as [a'|] eqn:Ea; [|exact Hr].
  destruct Hr as (-> & He' & rc' & Hl'). rewrite He' in *. do 2 (split; [done|]).
  split; [by exists rc'|].
  eapply (get_after_set w w' refs l rc' a a' name); [done..| |done|done|exact Ea|exact Hl'].
  intros ->. by destruct Hfit as [?|[(? & ? & ? & ? & _)|[? _]]].
Qed.

(** C32: the members of an address can be assigned and deleted, their flags being
    0, and the C code does not look whether they still are what it put there.
    After the address is deleted, or given a value that is no text UTF-8 can
    encode, [repr] of the object passes [NULL] for a [%s]; and after it is
    deleted, releasing the last reference passes [NULL] to [Py_DECREF]. *)
Theorem unfit_address_dies w refs l rc a m p :
  sound w refs -> w_heap w !! l = Some (Obj rc (VAddr a)) ->
  ("address", m) ∈ _ethtool_netlink_ip_address_members -> no_text w l p ->
  wp (set_member m (Loc l) p) (fun r w' => r = 0 /\ w_err w' = w_err w /\
    netlink_ip_address_repr (Loc l) w' = Fault NullDeref /\
    (p = Null -> rc = 1 -> Py_DECREF (Loc l) w' = Fault NullDeref)) w.
Proof.
  intros Hs Hl Hm Hp.
  assert (m = Member (T_OBJECT_EX (Field local with_local)) 0) as ->.
  { unfold _ethtool_netlink_ip_address_members in Hm. rewrite !elem_of_cons, elem_of_nil in Hm.
    by destruct Hm as [[=]|[[=]|[[=]|[[=]|[[=]|[]]]]]]. }
  destruct (set_address_eq w refs l rc a p Hs Hl Hp) as (w' & E & Hl' & Hp' & Hn & He).
  destruct (sd_typed _ _ Hs l _ Hl ltac:(lia)) as (_ & (s & rcs & t & Hlo & Hst) & _).
  pose proof (wf_hp _ _ (sd_wf _ _ Hs)) as Hh.
  unfold wp, set_member. cbn [m_type m_flags fget].
  change (negb (Z.land 0 READONLY =? 0)) with false. cbv iota.
  rewrite (bind_Ret _ _ _ _ _ (get_addr_eq _ _ _ _ Hl)), Hlo.
  rewrite (bind_Ret (use_ptr (Loc s)) _ _ (Loc s) w eq_refl). cbn [is_null].
  rewrite andb_false_r, E. do 2 (split; [done|]). split.
  - apply (repr_dies w' l rc (with_local p a)); [done|rewrite Hn; by eapply wf_fresh|done|].
    intros i Ei. simpl in Ei. subst p. rewrite Hn.
    destruct Hp as [[=]|[[=]|(i' & o & [= <-] & _ & Hi & _)]]. by eapply wf_fresh.
  - intros -> ->. by apply (release_dies w' l (with_local Null a)).
Qed.
End members.

(** ** At work: the address of a device, held by the program alone *)

Definition address_ops : list op :=
  firstn 4 demo_ops ++ [OpMethod "get_ipv4_addresses" 3; OpTake 6; OpDrop 5].

Definition address_world (n : nat) : world unit := play (firstn n address_ops) (boot tt).

Definition address_held : gmultiset positive :=
  ({[+ 6%positive +]} ⊎ ({[+ 5%positive +]} ⊎ demo_held)) ∖ {[+ 5%positive +]}.

Lemma address_reached : rtc (py_step true) (boot tt, ∅) (address_world 7, address_held).
Proof.
  etrans; [exact demo_reached|].
  eapply (py_step_then true (OpMethod "get_ipv4_addresses" 3) _ _ _ (Loc 5) (address_world 5));
    [reflexivity| |vm_compute; reflexivity|reflexivity|].
  { split; [exact demo_held_3|]. split; [vm_compute; reflexivity|].
    exists 1. eexists. vm_compute. reflexivity. }
  eapply (py_step_then true (OpTake 6) _ _ _ (Loc 6) (address_world 6));
    [reflexivity| |vm_compute; reflexivity|reflexivity|].
  { right. exists 5%positive, 1, (VList [Loc 6]). split; [simpl; multiset_solver|].
    split; [vm_compute; reflexivity|]. split; [reflexivity|left]. }
  eapply (py_step_then true (OpDrop 5) _ _ _ Null (address_world 7));
    [reflexivity| |vm_compute; reflexivity|reflexivity|apply rtc_refl].
  simpl. multiset_solver.
Qed.

Definition eth0_address_made : PyNetlinkIPaddress :=
  MkAddr AF_INET (Loc 7) (Loc 8) (Loc 9) 24 (Loc 10).

Lemma address_lookup :
  w_heap (address_world 7) !! 6%positive = Some (Obj 1 (VAddr eth0_address_made)).
Proof. vm_compute. reflexivity. Qed.

Lemma address_sound : exists lk, sound (address_world 7) (lk ⊎ address_held).
Proof.
  destruct (io_sound _ _ (reachable_in_order true tt _ address_reached)) as (lk & Hs & _).
  by exists lk.
Qed.

Definition member_at (n : nat) : string * PyMemberDef :=
  nth n _ethtool_netlink_ip_address_members ("", Member (T_INT (Field prefixlen with_prefixlen)) 0).

(** [a.address = "eth0"], the string the program has. *)
Lemma set_member_spec_witness : exists refs,
  wp (set_member (member_at 0).2 (Loc 6) (Loc 1)) (fun r w' => sound w' refs /\
    match assigned (address_world 7) (member_at 0).2 (Loc 1) eth0_address_made with
    | Some a' => r = 0 /\ w_err w' = None /\
        (exists rc', w_heap w' !! 6%positive = Some (Obj rc' (VAddr a'))) /\
        wp (get_member (member_at 0).2 (Loc 6))
          (read_back (address_world 7) (member_at 0).2 (Loc 1)) w'
    | None => r = -1 /\ w_err w' <> None /\
        exists rc', w_heap w' !! 6%positive = Some (Obj rc' (VAddr eth0_address_made))
    end) (address_world 7).
Proof.
  destruct address_sound as (lk & Hs). exists (lk ⊎ address_held).
  apply (set_member_spec (address_world 7) (lk ⊎ address_held) 6 1 eth0_address_made "address"
    (member_at 0).2 (Loc 1)).
  - exact Hs.
  - vm_compute. reflexivity.
  - exact address_lookup.
  - unfold address_held. multiset_solver.
  - left.
  - intros i [= <-]. unfold address_held, demo_held. multiset_solver.
  - done.
  - right. left. exists 1%positive, 1, "eth0". split; [reflexivity|vm_compute; reflexivity].
Defined.

(** [del a.address]. *)
Lemma unfit_address_dies_witness :
  wp (set_member (member_at 0).2 (Loc 6) Null) (fun r w' => r = 0 /\
    w_err w' = w_err (address_world 7) /\
    netlink_ip_address_repr (Loc 6) w' = Fault NullDeref /\
    (Null = Null -> 1 = 1 -> Py_DECREF (Loc 6) w' = Fault NullDeref)) (address_world 7).
Proof.
  destruct address_sound as (lk & Hs).
  apply (unfit_address_dies (address_world 7) (lk ⊎ address_held) 6 1 eth0_address_made
    (member_at 0).2 Null Hs address_lookup); left; reflexivity.
Defined.
