(* ===== verification/Script.v ===== *)
(** * The Python scripts: what they are written in

    scripts/pifconfig and scripts/pethtool are clients of the module.  A
    script is a computation over what it prints, its two globals and the module
    behind the interface [Ethtool], which gives each function's result as a
    Python value or the exception it raises.  [str] methods and [int] are
    modelled on ASCII text, which is what the scripts handle. *)
From S2P Require Import Prelude.

(** An exception with its class and text, the end of the program, or the death
    of the process inside the module, which no handler sees. *)
Inductive pyexc :=
  | Raised (cls msg : string)
  | SystemExit (code : Z)
  | Crashed.

#[export] Instance pyexc_eq_decision : EqDecision pyexc.
Proof. solve_decision. Defined.

Record term (S : Type) := Term {
  t_env : S;
  t_out : string;
  t_tab : string;                 (** the global [tab] of pethtool *)
  t_devices : list string;        (** its global [all_devices] *)
}.
Arguments Term {S}.
Arguments t_env {S}.
Arguments t_out {S}.
Arguments t_tab {S}.
Arguments t_devices {S}.

Definition script (S A : Type) : Type := term S -> (pyexc + A) * term S.

#[export] Instance script_ret {S} : MRet (script S) := fun A a t => (inr a, t).
#[export] Instance script_bind {S} : MBind (script S) := fun A B f m t =>
  match m t with
  | (inr a, t) => f a t
  | (inl e, t) => (inl e, t)
  end.

Section script.
Context {S : Type}.
Implicit Types t : term S.

Definition throw {A} (e : pyexc) : script S A := fun t => (inl e, t).

(** [try: m] with the handlers for the exceptions [catches] accepts. *)
Definition try_except {A} (m : script S A) (catches : pyexc -> bool)
    (handler : pyexc -> script S A) : script S A := fun t =>
  match m t with
  | (inl Crashed, t) => (inl Crashed, t)
  | (inl e, t) => if catches e then handler e t else (inl e, t)
  | r => r
  end.

Definition is_io_error (e : pyexc) : bool :=
  match e with Raised cls _ => String.eqb cls "IOError" | _ => false end.
(** [except Exception], which [SystemExit] is not. *)
Definition is_exception (e : pyexc) : bool :=
  match e with Raised _ _ => true | _ => false end.
Definition exc_text (e : pyexc) : string :=
  match e with
  | Raised _ msg => msg
  | SystemExit code => pretty code
  | Crashed => EmptyString
  end.

Definition newline : string := String "010" EmptyString.

(** [print(s, end="")]. *)
Definition write (s : string) : script S unit := fun t =>
  (inr tt, Term (t_env t) (t_out t +:+ s) (t_tab t) (t_devices t)).
Definition print (s : string) : script S unit := write (s +:+ newline).

Definition call {A} (f : S -> (pyexc + A) * S) : script S A := fun t =>
  let '(r, k) := f (t_env t) in (r, Term k (t_out t) (t_tab t) (t_devices t)).

Fixpoint for_each {A} (l : list A) (body : A -> script S unit) : script S unit :=
  match l with
  | [] => mret tt
  | x :: l => body x;; for_each l body
  end.

Lemma print_eq s t :
  print s t = (inr tt, Term (t_env t) (t_out t +:+ (s +:+ newline)) (t_tab t) (t_devices t)).
Proof. done. Qed.

Lemma script_step {A B} (m : script S A) (f : A -> script S B) t a t' :
  m t = (inr a, t') -> (m ≫= f) t = f a t'.
Proof. unfold mbind, script_bind. by intros ->. Qed.

Lemma script_raise {A B} (m : script S A) (f : A -> script S B) t e t' :
  m t = (inl e, t') -> (m ≫= f) t = (inl e, t').
Proof. unfold mbind, script_bind. by intros ->. Qed.

(** ** A logic of scripts

    From a terminal that satisfies [I] the script leaves one that does, and its
    result is one of [P] or an exception of [E]. *)
Definition leaves {A} (I : term S -> Prop) (E : pyexc -> Prop) (P : A -> Prop)
    (r : (pyexc + A) * term S) : Prop :=
  I r.2 /\ match r.1 with inr a => P a | inl e => E e end.

Definition keeps {A} (I : term S -> Prop) (E : pyexc -> Prop) (m : script S A)
    (P : A -> Prop) : Prop :=
  forall t, I t -> leaves I E P (m t).

Section logic.
Context (I : term S -> Prop) (E : pyexc -> Prop).

Lemma keeps_ret {A} (a : A) (P : A -> Prop) : P a -> keeps I E (mret a) P.
Proof. by intros Ha t Ht. Qed.

Lemma keeps_throw {A} e (P : A -> Prop) : E e -> keeps I E (throw e) P.
Proof. by intros He t Ht. Qed.

Lemma keeps_bind {A B} (m : script S A) (f : A -> script S B) P Q :
  keeps I E m P -> (forall a, P a -> keeps I E (f a) Q) -> keeps I E (m ≫= f) Q.
Proof.
  intros Hm Hf t Ht. specialize (Hm t Ht). unfold mbind, script_bind.
  destruct (m t) as [[e|a] t'], Hm as [Ht' Hr]; [done|]. by apply (Hf a Hr).
Qed.

Lemma keeps_mono {A} (m : script S A) (P Q : A -> Prop) :
  keeps I E m P -> (forall a, P a -> Q a) -> keeps I E m Q.
Proof.
  intros Hm Hpq t Ht. destruct (Hm t Ht) as [Ht' Hr]. split; [done|].
  destruct (m t).1; [done|by apply Hpq].
Qed.

Lemma keeps_for_each {A} (l : list A) body :
  (forall a, a ∈ l -> keeps I E (body a) (fun _ => True)) ->
  keeps I E (for_each l body) (fun _ => True).
Proof.
  induction l as [|a l IH]; intros Hb; [by apply keeps_ret|].
  apply (keeps_bind _ _ (fun _ => True)); [apply Hb; left|].
  intros _ _. apply IH. intros b Hin. apply Hb. by right.
Qed.

(** [E'] is what [m] may raise; what the handler does not see is of [E]. *)
Lemma keeps_try {A} (E' : pyexc -> Prop) (m : script S A) catches handler P :
  keeps I E' m P ->
  (forall e, E' e -> e <> Crashed -> catches e = true -> keeps I E (handler e) P) ->
  (forall e, E' e -> e = Crashed \/ catches e = false -> E e) ->
  keeps I E (try_except m catches handler) P.
Proof.
  intros Hm Hh Hn t Ht. specialize (Hm t Ht). unfold try_except.
  destruct (m t) as [[e|a] t'], Hm as [Ht' Hr]; [|done]. cbn in Ht', Hr.
  assert (leaves I E P (if catches e then handler e t' else (inl e, t')) \/ e = Crashed)
    as [Hl| ->].
  { destruct (decide (e = Crashed)) as [->|Hc]; [by right|left].
    destruct (catches e) eqn:Ec; [by apply Hh|]. split; [done|]. apply Hn; auto. }
  - destruct e; try done. split; [done|]. apply Hn; auto.
  - split; [done|]. apply Hn; auto.
Qed.
End logic.

Lemma keeps_weaken {A} I (E E' : pyexc -> Prop) (m : script S A) P :
  keeps I E m P -> (forall e, E e -> E' e) -> keeps I E' m P.
Proof.
  intros Hm He t Ht. destruct (Hm t Ht) as [Ht' Hr]. split; [done|].
  destruct (m t).1; [by apply He|done].
Qed.

(** *** What a script writes

    From a module in the state [s] the script writes a text and gives a result,
    with [Q] of the two and the state it leaves, or writes a text and raises an
    exception, with [E] of the two.  What is on the terminal, and the globals,
    stay. *)
Definition writes {A} (E : pyexc -> string -> Prop) (m : script S A)
    (Q : A -> string -> S -> Prop) (s : S) : Prop :=
  forall out tab devs, exists o,
    match m (Term s out tab devs) with
    | (inl e, t) => t_out t = out +:+ o /\ E e o
    | (inr a, t) => exists s', t = Term s' (out +:+ o) tab devs /\ Q a o s'
    end.

Lemma writes_ret {A} E (a : A) (Q : A -> string -> S -> Prop) s :
  Q a "" s -> writes E (mret a) Q s.
Proof. intros Hq out tab devs. exists "". exists s. by rewrite string_app_nil. Qed.

Lemma writes_throw {A} (E : pyexc -> string -> Prop) e (Q : A -> string -> S -> Prop) s :
  E e "" -> writes E (throw e) Q s.
Proof. intros He out tab devs. exists "". by rewrite string_app_nil. Qed.

Lemma writes_write E x (Q : unit -> string -> S -> Prop) s : Q tt x s -> writes E (write x) Q s.
Proof. intros Hq out tab devs. exists x, s. done. Qed.

Lemma writes_call {A} (E : pyexc -> string -> Prop) (f : S -> (pyexc + A) * S)
    (Q : A -> string -> S -> Prop) s :
  match f s with (inl e, _) => E e "" | (inr a, s') => Q a "" s' end -> writes E (call f) Q s.
Proof.
  intros Hf out tab devs. exists "". unfold call. cbn [t_env t_out t_tab t_devices].
  destruct (f s) as [[e|a] s']; [|exists s']; by rewrite string_app_nil.
Qed.

Lemma writes_bind {A B} E (m : script S A) (f : A -> script S B) Q s :
  writes E m (fun a o s' => writes (fun e o' => E e (o +:+ o')) (f a)
    (fun b o' s'' => Q b (o +:+ o') s'') s') s ->
  writes E (m ≫= f) Q s.
Proof.
  intros Hm out tab devs. destruct (Hm out tab devs) as [o Ho]. unfold mbind, script_bind.
  destruct (m _) as [[e|a] t]; [by exists o|]. destruct Ho as (s' & -> & Hf).
  destruct (Hf (out +:+ o) tab devs) as [o' Ho']. exists (o +:+ o').
  destruct (f a _) as [[e|b] t'].
  - by rewrite string_app_assoc in Ho'.
  - destruct Ho' as (s'' & -> & Hq). exists s''. by rewrite string_app_assoc.
Qed.

Lemma writes_mono {A} (E : pyexc -> string -> Prop) (m : script S A)
    (P Q : A -> string -> S -> Prop) s :
  writes E m P s -> (forall a o s', P a o s' -> Q a o s') -> writes E m Q s.
Proof.
  intros Hm Hq out tab devs. destruct (Hm out tab devs) as [o Ho]. exists o.
  destruct (m _) as [[e|a] t]; [done|]. destruct Ho as (s' & -> & Hp). exists s'. auto.
Qed.

Fixpoint all_text (l : list string) : string :=
  match l with [] => "" | s :: l => s +:+ all_text l end.

Lemma writes_raise {A} (E E' : pyexc -> string -> Prop) (m : script S A) Q s :
  writes E m Q s -> (forall e o, E e o -> E' e o) -> writes E' m Q s.
Proof.
  intros Hm He out tab devs. destruct (Hm out tab devs) as [o Ho]. exists o.
  destruct (m _) as [[e|a] t]; [|done]. destruct Ho. split; [done|by apply He].
Qed.

(** A loop whose body writes a text for each item and leaves the module alone. *)
Lemma writes_for_each {A} (P : pyexc -> Prop) (l : list A) body (text : A -> string)
    (ok : A -> Prop) s :
  (forall a, a ∈ l ->
     writes (fun e _ => P e) (body a) (fun _ o s' => ok a /\ o = text a /\ s' = s) s) ->
  writes (fun e _ => P e) (for_each l body)
    (fun _ o s' => Forall ok l /\ o = all_text (text <$> l) /\ s' = s) s.
Proof.
  intros Hb. induction l as [|a l IH]; [by apply writes_ret|]. cbn [for_each].
  apply writes_bind. eapply writes_mono; [apply Hb; left|]. intros [] o s' (Ha & -> & ->).
  eapply writes_mono; [apply IH; intros b Hin; apply Hb; by right|]. intros [] o s' (Hl & -> & ->).
  by split; [constructor|].
Qed.
End script.

(** What is only said of the module and the devices listed. *)
Definition state_inv {S} (J : S -> Prop) (named : string -> Prop) (t : term S) : Prop :=
  J (t_env t) /\ Forall named (t_devices t).

(** A function of the module that keeps [J] and gives a [P] or raises an [E]. *)
Definition answers {S A} (J : S -> Prop) (E : pyexc -> Prop)
    (f : S -> (pyexc + A) * S) (P : A -> Prop) : Prop :=
  forall s, J s -> J (f s).2 /\ match (f s).1 with inr a => P a | inl e => E e end.

Section state.
Context {S : Type} (J : S -> Prop) (named : string -> Prop) (E : pyexc -> Prop).

Lemma keeps_call {A} (f : S -> (pyexc + A) * S) P :
  answers J E f P -> keeps (state_inv J named) E (call f) P.
Proof.
  intros Hf t [Ht Hd]. specialize (Hf (t_env t) Ht). unfold call.
  by destruct (f (t_env t)) as [r k], Hf.
Qed.

Lemma keeps_print s : keeps (state_inv J named) E (print s) (fun _ => True).
Proof. by intros t Ht. Qed.

Lemma keeps_write s : keeps (state_inv J named) E (write s) (fun _ => True).
Proof. by intros t Ht. Qed.
End state.

(** ** The module, as a program sees it *)

(** A [NetlinkIPaddress]. *)
Record address := Address {
  a_address : string;
  a_netmask : Z;
  a_broadcast : option string;    (** [None] for Python's None *)
  a_scope : string;
}.

(** Dictionaries of integers, in the order of insertion. *)
Abbreviation pydict := (list (string * Z)).

Class Ethtool (S : Type) := {
  etherinfo : Type;
  et_get_flags : string -> S -> (pyexc + Z) * S;
  et_get_interfaces_info : string -> S -> (pyexc + list etherinfo) * S;
  et_get_ipv4_addresses : etherinfo -> S -> (pyexc + list address) * S;
  et_get_ipv6_addresses : etherinfo -> S -> (pyexc + list address) * S;
  et_get_hwaddr : string -> S -> (pyexc + string) * S;
  et_get_active_devices : S -> (pyexc + list string) * S;
  et_get_devices : S -> (pyexc + list string) * S;
  et_get_coalesce : string -> S -> (pyexc + pydict) * S;
  et_set_coalesce : string -> pydict -> S -> (pyexc + unit) * S;
  et_get_ringparam : string -> S -> (pyexc + pydict) * S;
  et_set_ringparam : string -> pydict -> S -> (pyexc + unit) * S;
  (** [get_sg], [get_tso], ... and [set_tso], ... by name. *)
  et_get_value : string -> string -> S -> (pyexc + Z) * S;
  et_set_value : string -> string -> Z -> S -> (pyexc + unit) * S;
  et_get_module : string -> S -> (pyexc + string) * S;
  et_get_businfo : string -> S -> (pyexc + string) * S;
}.

(** ** Strings and numbers *)

Definition is_space (c : ascii) : bool :=
  let n := N_of_ascii c in
  (n =? 32)%N || ((9 <=? n)%N && (n <=? 13)%N).

Fixpoint lstrip (s : string) : string :=
  match s with
  | String c r => if is_space c then lstrip r else s
  | EmptyString => EmptyString
  end.
Fixpoint rstrip (s : string) : string :=
  match s with
  | EmptyString => EmptyString
  | String c r =>
      match rstrip r with
      | EmptyString => if is_space c then EmptyString else String c EmptyString
      | r => String c r
      end
  end.
Definition strip (s : string) : string := lstrip (rstrip s).

Definition lower_char (c : ascii) : ascii :=
  let n := N_of_ascii c in
  if ((65 <=? n)%N && (n <=? 90)%N) then ascii_of_N (n + 32) else c.
Fixpoint lower (s : string) : string :=
  match s with
  | EmptyString => EmptyString
  | String c s => String (lower_char c) (lower s)
  end.

(** The digits of [int]: single underscores may stand between them. *)
Fixpoint int_digits (acc : Z) (s : string) : option Z :=
  match s with
  | EmptyString => Some acc
  | String c r =>
      let d := Z.of_N (N_of_ascii c) - 48 in
      if (0 <=? d) && (d <=? 9) then int_digits (10 * acc + d) r
      else if Ascii.eqb c "_" then
        match r with
        | String c' r' =>
            let d := Z.of_N (N_of_ascii c') - 48 in
            if (0 <=? d) && (d <=? 9) then int_digits (10 * acc + d) r' else None
        | EmptyString => None
        end
      else None
  end.
Definition int_unsigned (s : string) : option Z :=
  match s with
  | EmptyString => None
  | String c _ => if Ascii.eqb c "_" then None else int_digits 0 s
  end.
(** [int(s)], [None] for ValueError. *)
Definition py_int (s : string) : option Z :=
  match strip s with
  | String "-" r => Z.opp <$> int_unsigned r
  | String "+" r => int_unsigned r
  | r => int_unsigned r
  end.

(** Assignment to and lookup in a dictionary. *)
Fixpoint pd_get (d : pydict) (k : string) : option Z :=
  match d with
  | [] => None
  | (k', v) :: d => if decide (k = k') then Some v else pd_get d k
  end.
Fixpoint pd_set (d : pydict) (k : string) (v : Z) : pydict :=
  match d with
  | [] => [(k, v)]
  | (k', v') :: d => if decide (k = k') then (k', v) :: d else (k', v') :: pd_set d k v
  end.

Lemma pd_set_keys d k v : is_Some (pd_get d k) -> (pd_set d k v).*1 = d.*1.
Proof.
  induction d as [|[k' v'] d IH]; simpl; [by intros []|].
  case_decide; [done|]. intros Hd. rewrite !fmap_cons. by rewrite IH.
Qed.

Lemma pd_get_set d k v k' :
  pd_get (pd_set d k v) k' = if decide (k' = k) then Some v else pd_get d k'.
Proof.
  induction d as [|[k1 v1] d IH]; simpl; [done|].
  destruct (decide (k = k1)) as [<-|Hne]; simpl.
  - by repeat case_decide.
  - rewrite IH. repeat case_decide; congruence.
Qed.

Lemma pd_get_keys d k : is_Some (pd_get d k) <-> k ∈ d.*1.
Proof.
  induction d as [|[k' v] d IH]; simpl.
  - split; [by intros []|by intros ?%elem_of_nil].
  - rewrite elem_of_cons. case_decide as E; [subst; split; [by left|by eexists]|].
    rewrite IH. split; [by right|by intros [?|?]].
Qed.
