(* ===== verification/Pethtool.v ===== *)
(** * The pethtool script (src/scripts/pethtool)

    Queries and settings of devices from the command line, every function of the
    script included, with the part of Python's [getopt] it uses.  A function
    that is given [None] for its arguments takes [None : option _]. *)
From S2P Require Import Prelude.
From S2P Require Import Script.

Definition usage_lines : list string :=
  ["Usage: pethtool [OPTIONS] [<interface>]";
   "    -h|--help               Give this help list";
   "    -c|--show-coalesce      Show coalesce options";
   "    -C|--coalesce        Set coalesce options";
   "        [adaptive-rx on|off]";
   "        [adaptive-tx on|off]";
   "        [rx-usecs N]";
   "        [rx-frames N]";
   "        [rx-usecs-irq N]";
   "        [rx-frames-irq N]";
   "        [tx-usecs N]";
   "        [tx-frames N]";
   "        [tx-usecs-irq N]";
   "        [tx-frames-irq N]";
   "        [stats-block-usecs N]";
   "        [pkt-rate-low N]";
   "        [rx-usecs-low N]";
   "        [rx-frames-low N]";
   "        [tx-usecs-low N]";
   "        [tx-frames-low N]";
   "        [pkt-rate-high N]";
   "        [rx-usecs-high N]";
   "        [rx-frames-high N]";
   "        [tx-usecs-high N]";
   "        [tx-frames-high N]";
   "        [sample-interval N]";
   "    -g|--show-ring          Show ring parameters";
   "    -G|--set-ring           Set ring parameters";
   "        [rx N]";
   "        [rx-mini N]";
   "        [rx-jumbo N]";
   "        [tx N]";
   "    -i|--driver             Show driver information";
   "    -k|--show-offload       Get protocol offload information";
   "    -K|--offload            Set protocol offload";
   "        [ tso on|off ]"].

(** ** The options of the coalescing parameters *)

(** An entry of [ethtool_coalesce_msgs]: the string ['\n'] or a pair. *)
Inductive coalesce_msg :=
  | Separator
  | Tunable (option_name field : string).

Definition ethtool_coalesce_msgs : list coalesce_msg :=
  [Tunable "stats-block-usecs" "stats_block_coalesce_usecs";
   Tunable "sample-interval" "rate_sample_interval";
   Tunable "pkt-rate-low" "pkt_rate_low";
   Tunable "pkt-rate-high" "pkt_rate_high";
   Separator;
   Tunable "rx-usecs" "rx_coalesce_usecs";
   Tunable "rx-frames" "rx_max_coalesced_frames";
   Tunable "rx-usecs-irq" "rx_coalesce_usecs_irq";
   Tunable "rx-frames-irq" "rx_max_coalesced_frames_irq";
   Separator;
   Tunable "tx-usecs" "tx_coalesce_usecs";
   Tunable "tx-frames" "tx_max_coalesced_frames";
   Tunable "tx-usecs-irq" "tx_coalesce_usecs_irq";
   Tunable "tx-frames-irq" "tx_max_coalesced_frames_irq";
   Separator;
   Tunable "rx-usecs-low" "rx_coalesce_usecs_low";
   Tunable "rx-frame-low" "rx_max_coalesced_frames_low";
   Tunable "tx-usecs-low" "tx_coalesce_usecs_low";
   Tunable "tx-frame-low" "tx_max_coalesced_frames_low";
   Separator;
   Tunable "rx-usecs-high" "rx_coalesce_usecs_high";
   Tunable "rx-frame-high" "rx_max_coalesced_frames_high";
   Tunable "tx-usecs-high" "tx_coalesce_usecs_high";
   Tunable "tx-frame-high" "tx_max_coalesced_frames_high"].

Definition tab_char : string := String "009" EmptyString.

(** One line of a ring report: a heading or a value. *)
Inductive ring_msg :=
  | Heading (text : string)
  | RingValue (text field : string).

Definition ethtool_ringparam_msgs : list ring_msg :=
  [Heading "Pre-set maximums";
   RingValue ("RX:" +:+ tab_char +:+ tab_char) "rx_max_pending";
   RingValue ("RX Mini:" +:+ tab_char) "rx_mini_max_pending";
   RingValue ("RX Jumbo:" +:+ tab_char) "rx_jumbo_max_pending";
   RingValue ("TX:" +:+ tab_char +:+ tab_char) "tx_max_pending";
   Heading "Current hardware settings";
   RingValue ("RX:" +:+ tab_char +:+ tab_char) "rx_pending";
   RingValue ("RX Mini:" +:+ tab_char) "rx_mini_pending";
   RingValue ("RX Jumbo:" +:+ tab_char) "rx_jumbo_pending";
   RingValue ("TX:" +:+ tab_char +:+ tab_char) "tx_pending"].

Definition ethtool_ringparam_map : list (string * string) :=
  [("rx", "rx_pending"); ("rx-mini", "rx_mini_pending");
   ("rx-jumbo", "rx_jumbo_pending"); ("tx", "tx_pending")].

Fixpoint assoc (d : list (string * string)) (k : string) : option string :=
  match d with
  | [] => None
  | (k', v) :: d => if String.eqb k' k then Some v else assoc d k
  end.

(** ** [getopt.getopt], for options without arguments *)

Definition shortopts : list ascii :=
  ["h"; "c"; "C"; "g"; "G"; "i"; "k"; "K"]%char.
Definition longopts : list string :=
  ["help"; "show-coalesce"; "coalesce"; "show-ring"; "set-ring"; "driver";
   "show-offload"; "offload"].

(** The full name of a long option, or the text of [GetoptError]. *)
Definition long_option (opt : string) : string + string :=
  match filter (fun o => String.prefix opt o = true) longopts with
  | [] => inl ("option --" +:+ opt +:+ " not recognized")
  | [o] => inr o
  | os =>
      if bool_decide (opt ∈ os) then inr opt
      else inl ("option --" +:+ opt +:+ " not a unique prefix")
  end.

(** What stands before and after the first ['=']. *)
Fixpoint split_equals (s : string) : string * option string :=
  match s with
  | EmptyString => (EmptyString, None)
  | String c s =>
      if Ascii.eqb c "=" then (EmptyString, Some s)
      else let '(a, b) := split_equals s in (String c a, b)
  end.

Definition do_longs (opt : string) : string + list string :=
  let '(opt, optarg) := split_equals opt in
  match long_option opt, optarg with
  | inl err, _ => inl err
  | inr opt, Some _ => inl ("option --" +:+ opt +:+ " must not have an argument")
  | inr opt, None => inr ["--" +:+ opt]
  end.

Fixpoint do_shorts (optstring : string) : string + list string :=
  match optstring with
  | EmptyString => inr []
  | String c s =>
      if bool_decide (c ∈ shortopts) then
        match do_shorts s with
        | inl err => inl err
        | inr os => inr (String "-" (String c EmptyString) :: os)
        end
      else inl ("option -" +:+ String c EmptyString +:+ " not recognized")
  end.

(** The options of one argument before those of the rest; the first error wins. *)
Definition getopt_more (os : string + list string)
    (rest : string + (list string * list string)) : string + (list string * list string) :=
  match os, rest with
  | inl err, _ | inr _, inl err => inl err
  | inr os, inr (opts, args) => inr (os ++ opts, args)
  end.

Fixpoint getopt (args : list string) : string + (list string * list string) :=
  match args with
  | [] => inr ([], [])
  | arg :: rest =>
      match arg with
      | "--" => inr ([], rest)
      | String "-" (String "-" opt) => getopt_more (do_longs opt) (getopt rest)
      | "-" => inr ([], args)
      | String "-" opts => getopt_more (do_shorts opts) (getopt rest)
      | _ => inr ([], args)
      end
  end.

(** A command takes a device and arguments. *)
Definition command (S : Type) : Type := string -> option (list string) -> script S unit.

Section pethtool.
Context {S : Type} `{Ethtool S}.
Local Abbreviation P := (script S).

(** Lines joined by newlines, and the newline of [print]. *)
Definition usage : P unit := print (String.concat newline usage_lines).

Definition printtab (msg : string) : P unit := fun t => print (t_tab t +:+ msg) t.

(** [d\[k\]]. *)
Definition subscript (d : pydict) (k : string) : P Z :=
  match pd_get d k with
  | Some v => mret v
  | None => throw (Raised "KeyError" ("'" +:+ k +:+ "'"))
  end.

(** [name\[0\]] of the separator is itself, and it has no second character. *)
Fixpoint find_msg (msgs : list coalesce_msg) (ethtool_name : string) : P (option string) :=
  match msgs with
  | [] => mret None
  | Separator :: msgs =>
      if String.eqb newline ethtool_name
      then throw (Raised "IndexError" "string index out of range")
      else find_msg msgs ethtool_name
  | Tunable n f :: msgs =>
      if String.eqb n ethtool_name then mret (Some f) else find_msg msgs ethtool_name
  end.

Definition get_coalesce_dict_entry (ethtool_name : string) : P (option string) :=
  if String.eqb ethtool_name "adaptive-rx" then mret (Some "use_adaptive_rx_coalesce")
  else if String.eqb ethtool_name "adaptive-tx" then mret (Some "use_adaptive_tx_coalesce")
  else find_msg ethtool_coalesce_msgs ethtool_name.

Definition on_off (v : Z) : string := if v =? 0 then "off" else "on".

(** What is left of the dictionary after the known lines. *)
Definition show_others (d : pydict) (printed : list string) : P unit :=
  if (length d =? length printed)%nat then mret tt
  else for_each d.*1 (fun k =>
    if bool_decide (k ∈ printed) then mret tt
    else v ← subscript d k; printtab (k +:+ " " +:+ pretty v)).

Fixpoint show_tunables (coal : pydict) (msgs : list coalesce_msg)
    (printed : list string) : P (list string) :=
  match msgs with
  | [] => mret printed
  | Separator :: msgs => show_tunables coal msgs printed
  | Tunable n f :: msgs =>
      v ← subscript coal f;
      printtab (n +:+ ": " +:+ pretty v);;
      show_tunables coal msgs (printed ++ [f])
  end.

(** [try: r = m  except IOError: handler; return]. *)
Definition or_unsupported {A} (m : P A) (handler : P unit) (k : A -> P unit) : P unit :=
  r ← try_except (a ← m; mret (Some a)) is_io_error (fun _ => handler;; mret None);
  match r with
  | Some a => k a
  | None => mret tt
  end.

Definition show_coalesce (interface : string) (args : option (list string)) : P unit :=
  printtab ("Coalesce parameters for " +:+ interface +:+ ":");;
  or_unsupported (call (et_get_coalesce interface)) (printtab "  NOT supported!") (fun coal =>
    rx ← subscript coal "use_adaptive_rx_coalesce";
    tx ← subscript coal "use_adaptive_tx_coalesce";
    printtab ("Adaptive RX: " +:+ on_off rx +:+ "  TX: " +:+ on_off tx);;
    printed ← show_tunables coal ethtool_coalesce_msgs
                ["use_adaptive_rx_coalesce"; "use_adaptive_tx_coalesce"];
    show_others coal printed).

(** [args = \[a.lower() for a in args\]]. *)
Definition lower_args (args : option (list string)) : P (list string) :=
  match args with
  | Some args => mret (map lower args)
  | None => throw (Raised "TypeError" "'NoneType' object is not iterable")
  end.

(** [\[(args\[i\], args\[i + 1\]) for i in range(0, len(args), 2)\]]. *)
Fixpoint arg_pairs (args : list string) : P (list (string * string)) :=
  match args with
  | [] => mret []
  | [_] => throw (Raised "IndexError" "list index out of range")
  | a :: b :: args => l ← arg_pairs args; mret ((a, b) :: l)
  end.

Definition coalesce_value (value : string) : option Z :=
  if String.eqb value "on" then Some 1
  else if String.eqb value "off" then Some 0
  else py_int value.

(** [if d\[k\] != v: d\[k\] = v; changed = True]. *)
Definition update (d : pydict) (changed : bool) (k : string) (v : Z) : P (pydict * bool) :=
  old ← subscript d k;
  mret (if old =? v then (d, changed) else (pd_set d k v, true)).

(** The loop over the options, for each of which [field] finds the key (none is
    [continue]) and [number] reads the value. *)
Fixpoint set_loop (field : string -> P (option string)) (number : string -> option Z)
    (pairs : list (string * string)) (d : pydict) (changed : bool) : P (pydict * bool) :=
  match pairs with
  | [] => mret (d, changed)
  | (arg, value) :: pairs =>
      real_arg ← field arg;
      match real_arg, number value with
      | Some k, Some v =>
          '(d, changed) ← update d changed k v;
          set_loop field number pairs d changed
      | _, _ => set_loop field number pairs d changed
      end
  end.

Definition set_coalesce (interface : string) (args : option (list string)) : P unit :=
  or_unsupported (call (et_get_coalesce interface))
    (printtab ("Interrupt coalescing NOT supported on " +:+ interface +:+ "!")) (fun coal =>
    args ← lower_args args;
    pairs ← arg_pairs args;
    '(coal, changed) ← set_loop get_coalesce_dict_entry coalesce_value pairs coal false;
    if negb changed then mret tt else call (et_set_coalesce interface coal)).

(** ** Offload settings *)

Definition offload_text (interface what : string) : P string :=
  try_except (v ← call (et_get_value what interface); mret (on_off v)) is_io_error
    (fun _ => mret "not supported").

Definition show_offload (interface : string) (args : option (list string)) : P unit :=
  sg ← offload_text interface "get_sg";
  tso ← offload_text interface "get_tso";
  ufo ← offload_text interface "get_ufo";
  gso ← offload_text interface "get_gso";
  gro ← offload_text interface "get_gro";
  printtab ("scatter-gather: " +:+ sg);;
  printtab ("tcp segmentation offload: " +:+ tso);;
  printtab ("udp fragmentation offload: " +:+ ufo);;
  printtab ("generic segmentation offload: " +:+ gso);;
  printtab ("generic receive offload: " +:+ gro).

(** [value = value == 'on' and 1 or 0], then the call, any exception dropped. *)
Definition try_set (interface what value : string) : P unit :=
  try_except (call (et_set_value what interface (if String.eqb value "on" then 1 else 0)))
    (fun _ => true) (fun _ => mret tt).

Definition set_offload (interface : string) (args : option (list string)) : P unit :=
  args ← lower_args args;
  match args with
  | [cmd; value] =>
      if String.eqb cmd "tso" then try_set interface "set_tso" value
      else if String.eqb cmd "gso" then try_set interface "set_gso" value
      else if String.eqb cmd "gro" then try_set interface "set_gro" value
      else mret tt
  | [] | [_] =>
      throw (Raised "ValueError" ("not enough values to unpack (expected 2, got "
        +:+ pretty (Z.of_nat (length args)) +:+ ")"))
  | _ => throw (Raised "ValueError" "too many values to unpack (expected 2)")
  end.

(** ** Ring parameters and drivers *)

Fixpoint show_ring_lines (ring : pydict) (msgs : list ring_msg)
    (printed : list string) : P (list string) :=
  match msgs with
  | [] => mret printed
  | Heading text :: msgs => printtab (text +:+ ":");; show_ring_lines ring msgs printed
  | RingValue text f :: msgs =>
      v ← subscript ring f;
      printtab (text +:+ " " +:+ pretty v);;
      show_ring_lines ring msgs (printed ++ [f])
  end.

Definition show_ring (interface : string) (args : option (list string)) : P unit :=
  printtab ("Ring parameters for " +:+ interface +:+ ":");;
  or_unsupported (call (et_get_ringparam interface)) (printtab "  NOT supported!") (fun ring =>
    printed ← show_ring_lines ring ethtool_ringparam_msgs [];
    show_others ring printed).

Definition set_ringparam (interface : string) (args : option (list string)) : P unit :=
  or_unsupported (call (et_get_ringparam interface))
    (printtab ("ring parameters NOT supported on " +:+ interface +:+ "!")) (fun ring =>
    args ← lower_args args;
    pairs ← arg_pairs args;
    '(ring, changed) ← set_loop (fun a => mret (assoc ethtool_ringparam_map a)) py_int
                         pairs ring false;
    if negb changed then mret tt else call (et_set_ringparam interface ring)).

Definition show_driver (interface : string) (args : option (list string)) : P unit :=
  driver ← try_except (call (et_get_module interface)) is_io_error
             (fun _ => mret "not implemented");
  bus ← try_except (call (et_get_businfo interface)) is_io_error
          (fun _ => mret "not available");
  printtab ("driver: " +:+ driver);;
  printtab ("bus-info: " +:+ bus).

(** ** Running a command *)

Definition set_tab (s : string) : P unit := fun t =>
  (inr tt, Term (t_env t) (t_out t) s (t_devices t)).
Definition set_all_devices (l : list string) : P unit := fun t =>
  (inr tt, Term (t_env t) (t_out t) (t_tab t) l).
Definition all_devices : P (list string) := fun t => (inr (t_devices t), t).

(** [not interface] holds of [None] and of the empty string. *)
Definition run_cmd (cmd : command S) (interface : option string)
    (args : option (list string)) : P unit :=
  active_devices ← call et_get_active_devices;
  match interface with
  | None | Some EmptyString =>
      set_tab "  ";;
      devices ← all_devices;
      for_each devices (fun interface =>
        let inactive :=
          if bool_decide (interface ∈ active_devices) then "" else " (not active)" in
        print (interface +:+ inactive +:+ ":");;
        cmd interface args)
  | Some interface => cmd interface args
  end.

Definition run_cmd_noargs (cmd : command S) (args : list string) : P unit :=
  match args with
  | a :: _ => run_cmd cmd (Some a) None
  | [] =>
      devices ← call et_get_devices;
      set_all_devices devices;;
      run_cmd cmd None None
  end.

Definition main (argv : list string) : P unit :=
  match getopt argv with
  | inl err => usage;; print err;; throw (SystemExit 2)
  | inr ([], _) => usage;; throw (SystemExit 0)
  | inr (o :: _, args) =>
      let o_in (os : list string) := bool_decide (o ∈ os) in
      if o_in ["-h"; "--help"] then usage
      else if o_in ["-c"; "--show-coalesce"] then run_cmd_noargs show_coalesce args
      else if o_in ["-i"; "--driver"] then run_cmd_noargs show_driver args
      else if o_in ["-k"; "--show-offload"] then run_cmd_noargs show_offload args
      else if o_in ["-g"; "--show-ring"] then run_cmd_noargs show_ring args
      else if o_in ["-K"; "--offload"; "-C"; "--coalesce"; "-G"; "--set-ring"] then
        devices ← call et_get_devices;
        set_all_devices devices;;
        match args with
        | a :: ((_ :: _) as rest) =>
            let '(interface, args) :=
              if bool_decide (a ∈ devices) then (Some a, rest) else (None, args) in
            let cmd : command S :=
              if o_in ["-K"; "--offload"] then set_offload
              else if o_in ["-C"; "--coalesce"] then set_coalesce
              else set_ringparam in
            run_cmd cmd interface (Some args)
        | _ => usage;; throw (SystemExit 1)
        end
      else mret tt
  end.
End pethtool.
