(* ===== verification/PethtoolFacts.v ===== *)
(** * What pethtool does

    The options of the script against the fields of the C tables, the update a
    set command sends, the report of a show command, and its failures. *)
From S2P Require Import Prelude.
From S2P Require Import EthtoolH.
From S2P Require Import StructDesc.
From S2P Require Import Script.
From S2P Require Import Pethtool.

(** ** Options and fields *)

Definition msg_pair (m : coalesce_msg) : list (string * string) :=
  match m with Separator => [] | Tunable n f => [(n, f)] end.
Definition adaptive_options : list (string * string) :=
  [("adaptive-rx", "use_adaptive_rx_coalesce"); ("adaptive-tx", "use_adaptive_tx_coalesce")].
(** The coalescing options with their fields. *)
Definition coalesce_options : list (string * string) :=
  adaptive_options ++ (ethtool_coalesce_msgs ≫= msg_pair).

Lemma find_msg_eq {S} msgs a (t : term S) : a <> newline ->
  find_msg msgs a t = (inr (assoc (msgs ≫= msg_pair) a), t).
Proof.
  intros Ha. induction msgs as [|m msgs IH]; [done|].
  destruct m as [|n f]; cbn [find_msg msg_pair mbind list_bind app].
  - destruct (String.eqb_spec newline a); [congruence|apply IH].
  - cbn [assoc]. destruct (String.eqb n a); [done|apply IH].
Qed.

Lemma dict_entry_eq {S} a (t : term S) : a <> newline ->
  get_coalesce_dict_entry a t = (inr (assoc coalesce_options a), t).
Proof.
  intros Ha. unfold get_coalesce_dict_entry, coalesce_options.
  cbn [adaptive_options app assoc]. rewrite !(String.eqb_sym _ a).
  destruct (String.eqb a _); [done|]. destruct (String.eqb a _); [done|].
  by apply find_msg_eq.
Qed.

Lemma assoc_field d a k : assoc d a = Some k -> k ∈ d.*2.
Proof.
  induction d as [|[n f] d IH]; simpl; [done|].
  rewrite elem_of_cons. destruct (String.eqb n a); [intros [= ->]; by left|]. auto.
Qed.

Definition coalesce_fields : list string := map sd_name ethtool_coalesce_desc.
Definition ring_fields : list string := map sd_name ethtool_ringparam_desc.
Definition ring_msg_fields (m : ring_msg) : list string :=
  match m with Heading _ => [] | RingValue _ f => [f] end.

Lemma coalesce_options_fields : coalesce_options.*2 ≡ₚ coalesce_fields.
Proof.
  apply NoDup_Permutation; [by apply (bool_decide_unpack _); vm_compute..|].
  intros f. split; revert f; apply list.Forall_forall; by apply (bool_decide_unpack _); vm_compute.
Qed.

Lemma ring_report_fields : ethtool_ringparam_msgs ≫= ring_msg_fields ≡ₚ ring_fields.
Proof.
  apply NoDup_Permutation; [by apply (bool_decide_unpack _); vm_compute..|].
  intros f. split; revert f; apply list.Forall_forall; by apply (bool_decide_unpack _); vm_compute.
Qed.

Lemma ring_option_field a k : assoc ethtool_ringparam_map a = Some k -> k ∈ ring_fields.
Proof.
  intros Hk%assoc_field. revert k Hk. apply list.Forall_forall.
  by apply (bool_decide_unpack _); vm_compute.
Qed.

(** ** The update *)

(** The value asked for field [k]: that of the last option for it with a
    readable number. *)
Fixpoint wanted (f : string -> option string) (number : string -> option Z)
    (pairs : list (string * string)) (k : string) : option Z :=
  match pairs with
  | [] => None
  | (a, v) :: pairs =>
      match wanted f number pairs k with
      | Some z => Some z
      | None => if decide (f a = Some k) then number v else None
      end
  end.

Section facts.
Context {S : Type} `{Ethtool S}.
Implicit Types t : term S.

Lemma update_eq d changed k v t : k ∈ d.*1 -> exists old,
  pd_get d k = Some old /\
  update d changed k v t = (inr (if old =? v then (d, changed) else (pd_set d k v, true)), t).
Proof.
  intros [old Hold]%pd_get_keys. exists old. split; [done|].
  unfold update, subscript. by rewrite Hold.
Qed.

(** What [set_loop] makes of the dictionary [d]. *)
Record updated (f : string -> option string) (number : string -> option Z)
    (pairs : list (string * string)) (d : pydict) (changed : bool)
    (d' : pydict) (changed' : bool) : Prop := Updated {
  up_keys : d'.*1 = d.*1;
  up_get : forall k, pd_get d' k =
    match wanted f number pairs k with
    | Some v => Some v
    | None => pd_get d k
    end;
  up_changed : changed = true -> changed' = true;
  up_same : changed' = false -> d' = d;
}.

Lemma set_loop_eq (field : string -> script S (option string)) f number pairs d changed t :
  (forall a t, a ∈ pairs.*1 -> field a t = (inr (f a), t)) ->
  (forall a k, f a = Some k -> k ∈ d.*1) ->
  exists d' changed', set_loop field number pairs d changed t = (inr (d', changed'), t) /\
    updated f number pairs d changed d' changed'.
Proof.
  intros Hfield. revert d changed. induction pairs as [|[a s] pairs IH]; intros d changed Hf.
  { exists d, changed. done. }
  cbn [set_loop]. rewrite (script_step _ _ _ (f a) t) by (apply Hfield; left).
  assert (forall a t, a ∈ pairs.*1 -> field a t = (inr (f a), t)) as Hfield'
    by (intros; apply Hfield; by right).
  destruct (f a) as [k|] eqn:Ea; [destruct (number s) as [v|] eqn:Es|].
  - destruct (update_eq d changed k v t (Hf _ _ Ea)) as (old & Hold & E).
    rewrite (script_step _ _ _ _ _ E).
    destruct (Z.eqb_spec old v) as [->|Hne].
    + destruct (IH Hfield' d changed Hf) as (d' & c' & E' & [Hk Hg Hc Hs]).
      exists d', c'. split; [exact E'|]. split; [done| |done..].
      intros k'. rewrite Hg. cbn [wanted]. rewrite Ea, Es.
      destruct (wanted f number pairs k'); [done|].
      by destruct (decide (Some k = Some k')) as [[= <-]|].
    + assert ((pd_set d k v).*1 = d.*1) as Hkeys by (apply pd_set_keys; eauto).
      destruct (IH Hfield' (pd_set d k v) true) as (d' & c' & E' & [Hk Hg Hc Hs]).
      { intros a' k'. rewrite Hkeys. apply Hf. }
      exists d', c'. split; [exact E'|]. split.
      * congruence.
      * intros k'. rewrite Hg, pd_get_set. cbn [wanted]. rewrite Ea, Es.
        destruct (wanted f number pairs k'); [done|].
        destruct (decide (Some k = Some k')) as [[= <-]|Hk']; case_decide; congruence.
      * intros _. by apply Hc.
      * intros Hc'. by rewrite (Hc eq_refl) in Hc'.
  - destruct (IH Hfield' d changed Hf) as (d' & c' & E' & [Hk Hg Hc Hs]).
    exists d', c'. split; [exact E'|]. split; [done| |done..].
    intros k'. rewrite Hg. cbn [wanted]. rewrite Es. by repeat case_match.
  - destruct (IH Hfield' d changed Hf) as (d' & c' & E' & [Hk Hg Hc Hs]).
    exists d', c'. split; [exact E'|]. split; [done| |done..].
    intros k'. rewrite Hg. cbn [wanted]. rewrite Ea. by repeat case_match.
Qed.

(** The terminal after a query that leaves the module in state [s]. *)
Definition queried (t : term S) (s : S) : term S :=
  Term s (t_out t) (t_tab t) (t_devices t).

(** The words of a command line that gives the options [opts]. *)
Definition words (opts : list (string * string)) : list string :=
  opts ≫= fun o => [o.1; o.2].
Definition lowered (opts : list (string * string)) : list (string * string) :=
  map (fun o => (lower o.1, lower o.2)) opts.

Lemma arg_pairs_words opts t :
  arg_pairs (map lower (words opts)) t = (inr (lowered opts), t).
Proof.
  induction opts as [|[a v] opts IH]; [done|].
  cbn. unfold words in IH. cbn in IH. by rewrite (script_step _ _ _ _ _ IH).
Qed.

(** The device [interface] has the dictionary [d]. *)
Lemma or_unsupported_ok {A} (get : S -> (pyexc + A) * S) handler (k : A -> script S unit) t d s :
  get (t_env t) = (inr d, s) ->
  or_unsupported (call get) handler k t = k d (queried t s).
Proof.
  intros E. unfold or_unsupported, try_except, call, mbind, script_bind. by rewrite E.
Qed.

(** A set command after the query: the loop, and the call if a value differs. *)
Definition set_command (field : string -> script S (option string)) number opts d
    (set : pydict -> S -> (pyexc + unit) * S) : script S unit :=
  args ← lower_args (Some (words opts));
  pairs ← arg_pairs args;
  '(d, changed) ← set_loop field number pairs d false;
  if negb changed then mret tt else call (set d).

Lemma set_command_eq (field : string -> script S (option string)) f number opts d
    (set : pydict -> S -> (pyexc + unit) * S) t :
  (forall a t, a ∈ (lowered opts).*1 -> field a t = (inr (f a), t)) ->
  (forall a k, f a = Some k -> k ∈ d.*1) ->
  exists d' (changed : bool),
    set_command field number opts d set t =
      (if changed then call (set d') t else (inr tt, t)) /\
    updated f number (lowered opts) d false d' changed.
Proof.
  intros Hfield Hf.
  destruct (set_loop_eq field f number (lowered opts) d false t Hfield Hf)
    as (d' & changed & E & Hup).
  exists d', changed. split; [|done].
  unfold set_command. cbn [lower_args]. rewrite (script_step (mret _) _ t _ t eq_refl).
  rewrite (script_step _ _ _ _ _ (arg_pairs_words opts t)).
  rewrite (script_step _ _ _ _ _ E). by destruct changed.
Qed.

(** [set_coalesce] sends the dictionary of the device with each field replaced
    by the value of the last option for it, all other fields as they were, in
    the same order, so that no field of the C table is missing; when it sends
    nothing, the options ask for nothing new. *)
Theorem set_coalesce_spec interface opts d s t :
  et_get_coalesce interface (t_env t) = (inr d, s) ->
  d.*1 ≡ₚ coalesce_fields ->
  newline ∉ (lowered opts).*1 ->
  exists d' (changed : bool),
    set_coalesce interface (Some (words opts)) t =
      (let t := queried t s in
       if changed then call (et_set_coalesce interface d') t else (inr tt, t)) /\
    updated (assoc coalesce_options) coalesce_value (lowered opts) d false d' changed.
Proof.
  intros Hget Hkeys Hnl. unfold set_coalesce. rewrite (or_unsupported_ok _ _ _ _ _ _ Hget).
  destruct (set_command_eq get_coalesce_dict_entry (assoc coalesce_options) coalesce_value
    opts d (et_set_coalesce interface) (queried t s))
    as (d' & changed & E & Hup); [|intros a k Hk|by exists d', changed].
  - intros a t' Ha. apply dict_entry_eq. by intros ->.
  - rewrite Hkeys, <- coalesce_options_fields. by eapply assoc_field.
Qed.

(** [set_ringparam] does the same with its four options. *)
Theorem script_set_ringparam_spec interface opts d s t :
  et_get_ringparam interface (t_env t) = (inr d, s) ->
  d.*1 ≡ₚ ring_fields ->
  exists d' (changed : bool),
    set_ringparam interface (Some (words opts)) t =
      (let t := queried t s in
       if changed then call (et_set_ringparam interface d') t else (inr tt, t)) /\
    updated (assoc ethtool_ringparam_map) py_int (lowered opts) d false d' changed.
Proof.
  intros Hget Hkeys. unfold set_ringparam. rewrite (or_unsupported_ok _ _ _ _ _ _ Hget).
  destruct (set_command_eq (fun a => mret (assoc ethtool_ringparam_map a))
    (assoc ethtool_ringparam_map) py_int opts d (et_set_ringparam interface)
    (queried t s))
    as (d' & changed & E & Hup); [done|intros a k Hk|by exists d', changed].
  rewrite Hkeys. by eapply ring_option_field.
Qed.

(** ** Reports *)

(** The terminal after lines printed by [printtab]. *)
Fixpoint says (t : term S) (lines : list string) : term S :=
  match lines with
  | [] => t
  | l :: lines =>
      says (Term (t_env t) (t_out t +:+ (t_tab t +:+ l +:+ newline)) (t_tab t) (t_devices t)) lines
  end.

Lemma says_once t s a l : says (queried (says t [a]) s) l = says (queried t s) (a :: l).
Proof. done. Qed.

Lemma says_twice t s a b l :
  says (says (queried (says t [a]) s) [b]) l = says (queried t s) (a :: b :: l).
Proof. done. Qed.

Lemma printtab_eq msg t : printtab msg t = (inr tt, says t [msg]).
Proof. unfold printtab. rewrite print_eq. simpl. by rewrite string_app_assoc. Qed.

Definition tunable_line (d : pydict) (o : string * string) : string :=
  o.1 +:+ ": " +:+ pretty (default 0 (pd_get d o.2)).
Definition ring_line (d : pydict) (m : ring_msg) : string :=
  match m with
  | Heading text => text +:+ ":"
  | RingValue text f => text +:+ " " +:+ pretty (default 0 (pd_get d f))
  end.

Lemma subscript_eq d k t : k ∈ d.*1 ->
  subscript d k t = (inr (default 0 (pd_get d k)), t).
Proof. unfold subscript. intros [v ->]%pd_get_keys. done. Qed.

Lemma show_tunables_eq d msgs printed t :
  (msgs ≫= msg_pair).*2 ⊆ d.*1 ->
  show_tunables d msgs printed t =
    (inr (printed ++ (msgs ≫= msg_pair).*2), says t (map (tunable_line d) (msgs ≫= msg_pair))).
Proof.
  revert printed t. induction msgs as [|[|n f] msgs IH]; intros printed t Hd.
  - simpl. by rewrite app_nil_r.
  - by apply IH.
  - cbn in Hd |- *. rewrite (script_step _ _ _ _ _ (subscript_eq d f t (Hd _ (list_elem_of_here _ _)))).
    rewrite (script_step _ _ _ _ _ (printtab_eq _ t)). rewrite IH.
    + by rewrite <- app_assoc.
    + intros x Hx. apply Hd. by right.
Qed.

Lemma show_ring_lines_eq d msgs printed t :
  msgs ≫= ring_msg_fields ⊆ d.*1 ->
  show_ring_lines d msgs printed t =
    (inr (printed ++ (msgs ≫= ring_msg_fields)), says t (map (ring_line d) msgs)).
Proof.
  revert printed t. induction msgs as [|[text|text f] msgs IH]; intros printed t Hd.
  - simpl. by rewrite app_nil_r.
  - cbn. rewrite (script_step _ _ _ _ _ (printtab_eq _ t)). by apply IH.
  - cbn in Hd |- *. rewrite (script_step _ _ _ _ _ (subscript_eq d f t (Hd _ (list_elem_of_here _ _)))).
    rewrite (script_step _ _ _ _ _ (printtab_eq _ t)). rewrite IH.
    + by rewrite <- app_assoc.
    + intros x Hx. apply Hd. by right.
Qed.

Lemma show_others_none d printed t : d.*1 ≡ₚ printed -> show_others d printed t = (inr tt, t).
Proof.
  intros E. unfold show_others. rewrite <- (length_fmap fst d), (Permutation_length E).
  by rewrite Nat.eqb_refl.
Qed.

Lemma or_unsupported_error {A} (get : S -> (pyexc + A) * S) msg (k : A -> script S unit) t e s :
  get (t_env t) = (inl e, s) -> is_io_error e = true ->
  or_unsupported (call get) (printtab msg) k t =
    (inr tt, says (queried t s) [msg]).
Proof.
  intros E He. unfold or_unsupported, try_except, call, mbind, script_bind.
  rewrite E. destruct e; try done. by rewrite He, printtab_eq.
Qed.

Definition coalesce_report (interface : string) (d : pydict) : list string :=
  ("Coalesce parameters for " +:+ interface +:+ ":")
  :: ("Adaptive RX: " +:+ on_off (default 0 (pd_get d "use_adaptive_rx_coalesce"))
      +:+ "  TX: " +:+ on_off (default 0 (pd_get d "use_adaptive_tx_coalesce")))
  :: map (tunable_line d) (ethtool_coalesce_msgs ≫= msg_pair).

Definition ring_report (interface : string) (d : pydict) : list string :=
  ("Ring parameters for " +:+ interface +:+ ":") :: map (ring_line d) ethtool_ringparam_msgs.

(** A device that does not tell. *)
Lemma report_refused {A} (get : S -> (pyexc + A) * S) header msg (k : A -> script S unit) t e s :
  get (t_env t) = (inl e, s) -> is_io_error e = true ->
  (printtab header;; or_unsupported (call get) (printtab msg) k) t =
    (inr tt, says (queried t s) [header; msg]).
Proof.
  intros Hget He. rewrite (script_step _ _ _ _ _ (printtab_eq _ t)).
  by rewrite (or_unsupported_error _ _ _ _ e s).
Qed.

Lemma show_coalesce_refused interface args e s t :
  et_get_coalesce interface (t_env t) = (inl e, s) -> is_io_error e = true ->
  show_coalesce interface args t = (inr tt, says (queried t s)
    ["Coalesce parameters for " +:+ interface +:+ ":"; "  NOT supported!"]).
Proof. apply report_refused. Qed.

Lemma show_ring_refused interface args e s t :
  et_get_ringparam interface (t_env t) = (inl e, s) -> is_io_error e = true ->
  show_ring interface args t = (inr tt, says (queried t s)
    ["Ring parameters for " +:+ interface +:+ ":"; "  NOT supported!"]).
Proof. apply report_refused. Qed.

(** [show_coalesce] prints every field of the C table once: the two adaptive
    settings on one line, each other under its option. *)
Theorem show_coalesce_spec interface args d s t :
  et_get_coalesce interface (t_env t) = (inr d, s) -> d.*1 ≡ₚ coalesce_fields ->
  show_coalesce interface args t = (inr tt, says (queried t s) (coalesce_report interface d)).
Proof.
  intros Hget Hkeys. unfold show_coalesce.
  rewrite (script_step _ _ _ _ _ (printtab_eq _ t)).
  rewrite (or_unsupported_ok _ _ _ _ d s) by done.
  assert (coalesce_options.*2 ≡ₚ d.*1) as Hopts by (by rewrite coalesce_options_fields).
  assert (coalesce_options.*2 ⊆ d.*1) as Hin by (by intros x; rewrite Hopts).
  rewrite (script_step _ _ _ _ _ (subscript_eq d "use_adaptive_rx_coalesce" _
    (Hin _ (list_elem_of_here _ _)))).
  rewrite (script_step _ _ _ _ _ (subscript_eq d "use_adaptive_tx_coalesce" _
    (Hin _ (list_elem_of_further _ _ _ (list_elem_of_here _ _))))).
  rewrite (script_step _ _ _ _ _ (printtab_eq _ _)).
  assert ((ethtool_coalesce_msgs ≫= msg_pair).*2 ⊆ d.*1) as Hmsgs.
  { intros x Hx. apply Hin. unfold coalesce_options. rewrite fmap_app.
    apply elem_of_app. by right. }
  rewrite (script_step _ _ _ _ _ (show_tunables_eq d _ _ _ Hmsgs)).
  rewrite show_others_none by exact (symmetry Hopts).
  unfold coalesce_report. exact (f_equal (pair _) (says_twice _ _ _ _ _)).
Qed.

(** [show_ring] prints every field of its table, the current settings after the
    maxima. *)
Theorem show_ring_spec interface args d s t :
  et_get_ringparam interface (t_env t) = (inr d, s) -> d.*1 ≡ₚ ring_fields ->
  show_ring interface args t = (inr tt, says (queried t s) (ring_report interface d)).
Proof.
  intros Hget Hkeys. unfold show_ring.
  rewrite (script_step _ _ _ _ _ (printtab_eq _ t)).
  rewrite (or_unsupported_ok _ _ _ _ d s) by done.
  assert (ethtool_ringparam_msgs ≫= ring_msg_fields ≡ₚ d.*1) as Hmsgs
    by (by rewrite ring_report_fields).
  rewrite (script_step _ _ _ _ _ (show_ring_lines_eq d _ _ _
    ltac:(by intros x; rewrite Hmsgs))).
  rewrite show_others_none by exact (symmetry Hmsgs).
  unfold ring_report. exact (f_equal (pair _) (says_once _ _ _ _)).
Qed.

End facts.

(** ** The options of the usage text *)

(** The name in a line [\[name value\]] of the usage text. *)
Fixpoint first_word (s : string) : string :=
  match s with
  | EmptyString => EmptyString
  | String c s => if is_space c then EmptyString else String c (first_word s)
  end.
Definition documented_option (line : string) : option string :=
  match lstrip line with
  | String "[" r => Some (first_word r)
  | _ => None
  end.

(** The 22 lines below that of [-C|--coalesce]. *)
Definition documented_coalesce_options : list string :=
  omap documented_option (take 22 (drop 4 usage_lines)).

(** Four options of the usage text are not options of [set_coalesce], which
    ignores them: those of the script are named rx-frame-low, and so on. *)
Theorem documented_options_ignored :
  length documented_coalesce_options = 22%nat /\
  filter (fun o => assoc coalesce_options o = None) documented_coalesce_options =
    ["rx-frames-low"; "tx-frames-low"; "rx-frames-high"; "tx-frames-high"].
Proof. by vm_compute. Qed.

(** ** A module with one device *)

Record demo := Demo { demo_value : Z; demo_sent : list pydict }.
Definition demo_coalesce (s : demo) : pydict := map (fun f => (f, demo_value s)) coalesce_fields.

Definition not_supported {A} : demo -> (pyexc + A) * demo :=
  fun s => (inl (Raised "IOError" "[Errno 95] Operation not supported"), s).

#[export] Instance demo_ethtool : Ethtool demo := {
  etherinfo := unit;
  et_get_flags _ s := (inr 0, s);
  et_get_interfaces_info _ s := (inr [], s);
  et_get_ipv4_addresses _ s := (inr [], s);
  et_get_ipv6_addresses _ s := (inr [], s);
  et_get_hwaddr _ := not_supported;
  et_get_active_devices s := (inr ["lo"], s);
  et_get_devices s := (inr ["lo"; "eth0"], s);
  et_get_coalesce name s :=
    if String.eqb name "eth0" then (inr (demo_coalesce s), s) else not_supported s;
  et_set_coalesce _ d s := (inr tt, Demo (demo_value s) (demo_sent s ++ [d]));
  et_get_ringparam _ := not_supported;
  et_set_ringparam _ _ := not_supported;
  et_get_value _ _ := not_supported;
  et_set_value _ _ _ := not_supported;
  et_get_module _ s := (inr "e1000", s);
  et_get_businfo _ := not_supported;
}.

Definition demo_start : demo := Demo 3 [].
Definition demo_term : term demo := Term demo_start "" "" [].

Definition demo_opts : list (string * string) := [("RX-Usecs", "50"); ("adaptive-rx", "on")].

Lemma set_coalesce_spec_witness :
  exists d' (changed : bool),
    set_coalesce "eth0" (Some (words demo_opts)) demo_term =
      (if changed then call (et_set_coalesce "eth0" d') demo_term else (inr tt, demo_term)) /\
    updated (assoc coalesce_options) coalesce_value (lowered demo_opts)
      (demo_coalesce demo_start) false d' changed.
Proof.
  apply (set_coalesce_spec "eth0" demo_opts (demo_coalesce demo_start) demo_start demo_term).
  - reflexivity.
  - reflexivity.
  - by apply (bool_decide_unpack _); vm_compute.
Defined.

(** The program on the command line sends the two fields changed. *)
Example demo_run :
  (fun d => (pd_get d "rx_coalesce_usecs", pd_get d "use_adaptive_rx_coalesce",
             pd_get d "tx_coalesce_usecs")) <$>
    demo_sent (t_env (main ["-C"; "eth0"; "rx-usecs"; "50"; "adaptive-rx"; "on"] demo_term).2) =
  [(Some 50, Some 1, Some 3)].
Proof. by vm_compute. Qed.
