(* ===== verification/PethtoolRuns.v ===== *)
(** * Runs of pethtool

    What the script does with the failures of the module, by the logic of
    Script.v: [Queries] and [Setters] are what it asks of the module, for a set
    of exceptions, an invariant of the module and a condition on names. *)
From S2P Require Import Prelude.
From S2P Require Import Script.
From S2P Require Import Pethtool.
From S2P Require Import PethtoolFacts.

(** The exceptions that leave the process alive. *)
Definition alive (e : pyexc) : Prop := e <> Crashed.

Section runs.
Context {S : Type} `{Ethtool S}.

(** Queries of a device raise only [E], listing the devices only [EL]; a
    dictionary has the fields of its table. *)
Class Queries (J : S -> Prop) (named : string -> Prop) (E EL : pyexc -> Prop) : Prop := {
  coalesce_ok i : named i ->
    answers J E (et_get_coalesce i) (fun d => d.*1 ≡ₚ coalesce_fields);
  ring_ok i : named i -> answers J E (et_get_ringparam i) (fun d => d.*1 ≡ₚ ring_fields);
  value_ok what i : named i -> what ∈ ["get_sg"; "get_tso"; "get_ufo"; "get_gso"; "get_gro"] ->
    answers J E (et_get_value what i) (fun _ => True);
  module_ok i : named i -> answers J E (et_get_module i) (fun _ => True);
  businfo_ok i : named i -> answers J E (et_get_businfo i) (fun _ => True);
  devices_ok : answers J EL et_get_devices (Forall named);
  active_ok : answers J EL et_get_active_devices (fun _ => True);
}.

(** A setter is given a dictionary with every field. *)
Class Setters (J : S -> Prop) (named : string -> Prop) (E : pyexc -> Prop) : Prop := {
  set_coalesce_ok i d : named i -> d.*1 ≡ₚ coalesce_fields ->
    answers J E (et_set_coalesce i d) (fun _ => True);
  set_ring_ok i d : named i -> d.*1 ≡ₚ ring_fields ->
    answers J E (et_set_ringparam i d) (fun _ => True);
  set_value_ok what i v : named i -> what ∈ ["set_tso"; "set_gso"; "set_gro"] ->
    answers J E (et_set_value what i v) (fun _ => True);
}.

Section commands.
Context (J : S -> Prop) (named : string -> Prop) (E EL : pyexc -> Prop).
Context `{Q : !Queries J named E EL}.
(** What leaves the script: all of [EL], and what of [E] no handler stops. *)
Context (E' : pyexc -> Prop).
Hypothesis unhandled : forall e, E e -> e = Crashed \/ is_io_error e = false -> E' e.
Hypothesis listing : forall e, EL e -> E' e.
Local Abbreviation inv := (state_inv J named).
Local Abbreviation ok m := (keeps inv E' m (fun _ => True)).

Lemma ok_printtab msg : ok (printtab msg).
Proof. by intros t Ht. Qed.

Lemma ok_seq {A B} (m : script S A) (f : A -> script S B) P :
  ok m -> (forall a, keeps inv E' (f a) P) -> keeps inv E' (m ≫= f) P.
Proof. intros Hm Hf. by apply (keeps_bind _ _ m f (fun _ => True)). Qed.

Lemma ok_ret {A} (a : A) : ok (mret a).
Proof. by apply keeps_ret. Qed.

Lemma ok_subscript d k : k ∈ d.*1 -> ok (subscript d k).
Proof. intros Hk t Ht. by rewrite subscript_eq. Qed.

Create HintDb runs.
Hint Resolve ok_printtab ok_seq ok_ret ok_subscript : runs.

Lemma ok_show_tunables d msgs printed :
  (msgs ≫= msg_pair).*2 ⊆ d.*1 ->
  keeps inv E' (show_tunables d msgs printed)
    (fun r => r = printed ++ (msgs ≫= msg_pair).*2).
Proof. intros Hd t Ht. rewrite show_tunables_eq by done. split; [|done]. clear Hd.
  generalize (map (tunable_line d) (msgs ≫= msg_pair)). intros l. revert t Ht.
  induction l as [|x l IH]; intros t Ht; [done|]. by apply IH.
Qed.

Lemma ok_show_ring_lines d msgs printed :
  msgs ≫= ring_msg_fields ⊆ d.*1 ->
  keeps inv E' (show_ring_lines d msgs printed)
    (fun r => r = printed ++ (msgs ≫= ring_msg_fields)).
Proof. intros Hd t Ht. rewrite show_ring_lines_eq by done. split; [|done]. clear Hd.
  generalize (map (ring_line d) msgs). intros l. revert t Ht.
  induction l as [|x l IH]; intros t Ht; [done|]. by apply IH.
Qed.

Lemma ok_show_others d printed : d.*1 ≡ₚ printed -> ok (show_others d printed).
Proof. intros Hp t Ht. by rewrite show_others_none. Qed.

(** [try: r = f(...)  except IOError: a message; return]. *)
Lemma ok_or_unsupported {A} (f : S -> (pyexc + A) * S) P msg (k : A -> script S unit) :
  answers J E f P -> (forall a, P a -> ok (k a)) ->
  ok (or_unsupported (call f) (printtab msg) k).
Proof.
  intros Hf Hk. unfold or_unsupported.
  apply (keeps_bind _ _ _ _ (fun r => match r with Some a => P a | None => True end)).
  - apply (keeps_try _ _ E).
    + eapply keeps_bind; [by apply keeps_call|]. intros a Ha. by apply keeps_ret.
    + intros e _ _ _. apply ok_seq; [apply ok_printtab|]. intros _. by apply keeps_ret.
    + exact unhandled.
  - intros [a|] Ha; [by apply Hk|apply ok_ret].
Qed.

(** [try: x = f(...) and so on  except IOError: x = default]. *)
Lemma ok_try {A B} (f : S -> (pyexc + A) * S) P (k : A -> script S B) (dflt : B) :
  answers J E f P -> (forall a, keeps inv E (k a) (fun _ => True)) ->
  ok (try_except (call f ≫= k) is_io_error (fun _ => mret dflt)).
Proof.
  intros Hf Hk. apply (keeps_try _ _ E); [|intros; apply ok_ret|exact unhandled].
  eapply keeps_bind; [by apply keeps_call|]. intros a _. apply Hk.
Qed.

Lemma ok_try_call {A} (f : S -> (pyexc + A) * S) P (dflt : A) :
  answers J E f P -> ok (try_except (call f) is_io_error (fun _ => mret dflt)).
Proof.
  intros Hf. apply (keeps_try _ _ E); [|intros; apply ok_ret|exact unhandled].
  eapply keeps_mono; [by apply keeps_call|done].
Qed.

(** *** Reports *)

Lemma show_coalesce_ok i args : named i -> ok (show_coalesce i args).
Proof.
  intros Hi. apply ok_seq; [apply ok_printtab|]. intros _.
  eapply ok_or_unsupported; [by apply coalesce_ok|]. intros d Hd.
  assert (coalesce_options.*2 ≡ₚ d.*1) as Ho by (by rewrite coalesce_options_fields).
  assert (coalesce_options.*2 ⊆ d.*1) as Hin by (by intros x; rewrite Ho).
  apply ok_seq; [apply ok_subscript, Hin; left|]. intros rx.
  apply ok_seq; [apply ok_subscript, Hin; right; left|]. intros tx.
  apply ok_seq; [apply ok_printtab|]. intros _.
  eapply keeps_bind; [apply ok_show_tunables|].
  - intros x Hx. apply Hin. unfold coalesce_options. rewrite fmap_app.
    apply elem_of_app. by right.
  - intros printed ->. apply ok_show_others. exact (symmetry Ho).
Qed.

Lemma show_ring_ok i args : named i -> ok (show_ring i args).
Proof.
  intros Hi. apply ok_seq; [apply ok_printtab|]. intros _.
  eapply ok_or_unsupported; [by apply ring_ok|]. intros d Hd.
  assert (ethtool_ringparam_msgs ≫= ring_msg_fields ≡ₚ d.*1) as Ho
    by (by rewrite ring_report_fields).
  eapply keeps_bind; [apply ok_show_ring_lines|].
  - intros x. by rewrite Ho.
  - intros printed ->. apply ok_show_others. exact (symmetry Ho).
Qed.

Lemma show_driver_ok i args : named i -> ok (show_driver i args).
Proof.
  intros Hi. apply ok_seq; [by eapply ok_try_call, module_ok|]. intros driver.
  apply ok_seq; [by eapply ok_try_call, businfo_ok|]. auto with runs.
Qed.

Lemma offload_text_ok i what :
  named i -> what ∈ ["get_sg"; "get_tso"; "get_ufo"; "get_gso"; "get_gro"] ->
  ok (offload_text i what).
Proof.
  intros Hi Hw. eapply ok_try; [by apply value_ok|]. intros a. by apply keeps_ret.
Qed.

Lemma show_offload_ok i args : named i -> ok (show_offload i args).
Proof.
  intros Hi. unfold show_offload.
  repeat (apply ok_seq; [by apply offload_text_ok; [|set_solver]|intros]). auto 10 with runs.
Qed.

(** *** Settings *)

Section settings.
Context `{R : !Setters J named E}.
Hypothesis raised : forall cls msg, E' (Raised cls msg).
Hypothesis setting : forall e, E e -> E' e.

Lemma ok_raised {A} cls msg : ok (throw (A := A) (Raised cls msg)).
Proof. by apply keeps_throw. Qed.
Hint Resolve ok_raised : runs.

Lemma ok_find_msg msgs a :
  keeps inv E' (find_msg msgs a) (fun r => forall k, r = Some k -> k ∈ (msgs ≫= msg_pair).*2).
Proof.
  induction msgs as [|[|n f] msgs IH]; cbn [find_msg].
  - by apply keeps_ret.
  - case_match; [by apply keeps_throw|exact IH].
  - case_match; [apply keeps_ret; intros k [= <-]; left|].
    eapply keeps_mono; [exact IH|]. intros r Hr k Hk. right. by apply Hr.
Qed.

Lemma ok_dict_entry a :
  keeps inv E' (get_coalesce_dict_entry a)
    (fun r => forall k, r = Some k -> k ∈ coalesce_fields).
Proof.
  unfold get_coalesce_dict_entry.
  assert (forall k, k ∈ coalesce_options.*2 -> k ∈ coalesce_fields) as Hin
    by (intros k; by rewrite coalesce_options_fields).
  case_match; [apply keeps_ret; intros k [= <-]; apply Hin; left|].
  case_match; [apply keeps_ret; intros k [= <-]; apply Hin; right; left|].
  eapply keeps_mono; [apply ok_find_msg|]. intros r Hr k Hk. apply Hin.
  unfold coalesce_options. rewrite fmap_app. apply elem_of_app. right. by apply Hr.
Qed.

Lemma ok_lower_args args : ok (lower_args args).
Proof. destruct args; simpl; auto with runs. Qed.

Lemma ok_arg_pairs args : ok (arg_pairs args).
Proof.
  assert (forall n args, (length args < n)%nat -> ok (arg_pairs args)) as Hn.
  { clear args. induction n as [|n IH]; [lia|]. intros [|a [|b args]] Hl; simpl in *;
      auto with runs. apply ok_seq; [apply IH; lia|auto with runs]. }
  apply (Hn (1 + length args)%nat). lia.
Qed.

(** The loop keeps the keys, so that it never misses one. *)
Lemma ok_set_loop field number pairs keys d changed :
  (forall a, keeps inv E' (field a) (fun r => forall k, r = Some k -> k ∈ keys)) ->
  d.*1 ≡ₚ keys ->
  keeps inv E' (set_loop field number pairs d changed) (fun r => r.1.*1 ≡ₚ keys).
Proof.
  intros Hf. revert d changed.
  induction pairs as [|[a v] pairs IH]; intros d changed Hd; [by apply keeps_ret|].
  cbn [set_loop]. eapply keeps_bind; [apply Hf|]. intros [k|] Hk; [|by apply IH].
  destruct (number v) as [z|]; [|by apply IH].
  assert (k ∈ d.*1) as Hin by (rewrite Hd; by apply Hk).
  apply (keeps_bind _ _ _ _ (fun r => r.1.*1 ≡ₚ keys)).
  - apply (keeps_bind _ _ _ _ (fun _ => True)); [by apply ok_subscript|].
    intros old _. apply keeps_ret. case_match; [done|].
    simpl. rewrite pd_set_keys; [done|by apply pd_get_keys].
  - intros [d' c'] Hd'. by apply IH.
Qed.

Lemma set_coalesce_command_ok i args : named i -> ok (set_coalesce i args).
Proof.
  intros Hi. eapply ok_or_unsupported; [by apply coalesce_ok|]. intros d Hd.
  apply ok_seq; [apply ok_lower_args|]. intros l.
  apply ok_seq; [apply ok_arg_pairs|]. intros pairs.
  eapply keeps_bind; [by apply ok_set_loop; [apply ok_dict_entry|]|].
  intros [d' []] Hd'; [|apply ok_ret].
  eapply keeps_weaken; [by apply keeps_call, set_coalesce_ok|exact setting].
Qed.

Lemma set_ringparam_command_ok i args : named i -> ok (set_ringparam i args).
Proof.
  intros Hi. eapply ok_or_unsupported; [by apply ring_ok|]. intros d Hd.
  apply ok_seq; [apply ok_lower_args|]. intros l.
  apply ok_seq; [apply ok_arg_pairs|]. intros pairs.
  eapply keeps_bind.
  { apply (ok_set_loop _ _ _ ring_fields); [|done]. intros a. apply keeps_ret.
    intros k Hk. by eapply ring_option_field. }
  intros [d' []] Hd'; [|apply ok_ret].
  eapply keeps_weaken; [by apply keeps_call, set_ring_ok|exact setting].
Qed.

Lemma set_offload_command_ok i args : named i -> ok (set_offload i args).
Proof.
  intros Hi.
  apply ok_seq; [apply ok_lower_args|]. intros [|cmd [|value []]]; auto with runs.
  assert (forall what, what ∈ ["set_tso"; "set_gso"; "set_gro"] ->
    ok (try_set i what value)) as Ht.
  { intros what Hw. apply (keeps_try _ _ E); [by apply keeps_call, set_value_ok|auto with runs|].
    intros e He _. by apply setting. }
  repeat case_match; auto with runs; apply Ht; set_solver.
Qed.
End settings.

(** *** Programs *)

Lemma ok_run_cmd cmd interface args :
  (forall i, named i -> ok (cmd i args)) ->
  (forall i, interface = Some i -> i <> EmptyString -> named i) ->
  ok (run_cmd cmd interface args).
Proof.
  intros Hc Hi. eapply keeps_bind.
  { eapply keeps_weaken; [apply keeps_call, active_ok|exact listing]. }
  intros active _.
  assert (ok (set_tab "  ")) as Htab by (by intros t Ht).
  assert (keeps inv E' all_devices (Forall named)) as Hall by (by intros t [? ?]).
  assert (ok (set_tab "  ";; devices ← all_devices; for_each devices (fun interface =>
    print (interface +:+ (if bool_decide (interface ∈ active) then "" else " (not active)")
      +:+ ":");; cmd interface args))) as Heach.
  { apply ok_seq; [done|]. intros _. eapply keeps_bind; [exact Hall|]. intros l Hl.
    apply keeps_for_each. intros i Hin. apply ok_seq; [by intros t Ht|]. intros _.
    apply Hc. by apply (proj1 (list.Forall_forall _ _) Hl). }
  destruct interface as [[|c r]|]; [exact Heach| |exact Heach]. by apply Hc, Hi.
Qed.

Lemma ok_get_devices :
  keeps inv E' (devices ← call et_get_devices; set_all_devices devices;; mret devices)
    (Forall named).
Proof.
  eapply keeps_bind.
  { eapply keeps_weaken; [apply keeps_call, devices_ok|exact listing]. }
  intros l Hl t [Hj Hd]. by split.
Qed.

Lemma ok_run_cmd_noargs cmd args :
  (forall i, named i -> ok (cmd i None)) -> Forall named args ->
  ok (run_cmd_noargs cmd args).
Proof.
  intros Hc Ha. destruct args as [|a args].
  - eapply keeps_bind.
    { eapply keeps_weaken; [apply keeps_call, devices_ok|exact listing]. }
    intros l Hl. eapply (keeps_bind _ _ _ _ (fun _ => True)); [by intros t [? _]|].
    intros _ _. by apply ok_run_cmd.
  - apply Forall_cons_1 in Ha as [Ha _]. apply ok_run_cmd; [done|]. by intros i [= <-].
Qed.
End commands.

Lemma getopt_plain args :
  (forall a, a ∈ args -> String.prefix "-" a = false) -> getopt args = inr ([], args).
Proof.
  intros Hargs. destruct args as [|a args]; [done|].
  specialize (Hargs a (list_elem_of_here _ _)).
  destruct a as [|c a]; [done|]. destruct (ascii_dec "-" c) as [<-|Hc]; [by destruct a|].
  by destruct c as [[] [] [] [] [] [] [] []].
Qed.

Lemma getopt_rest args opts rest : getopt args = inr (opts, rest) -> forall a, a ∈ rest -> a ∈ args.
Proof.
  revert opts. induction args as [|a args IH]; intros opts; [by intros [= _ <-]|].
  assert (forall os, getopt_more os (getopt args) = inr (opts, rest) ->
    forall b, b ∈ rest -> b ∈ a :: args) as Hmore.
  { intros [|os]; [done|]. destruct (getopt args) as [|[opts' rest']]; [done|].
    cbn. intros [= _ <-] b Hb. right. by apply (IH opts'). }
  cbn [getopt]. repeat case_match; try by intros [= _ <-]; auto using list_elem_of_further.
  all: by apply Hmore.
Qed.

(** pethtool never brings the process down: whatever its command line, on a
    module whose functions keep [J] and do not crash, it does not crash. *)
Theorem pethtool_safe J named `{!Queries J named alive alive} `{!Setters J named alive} argv t :
  J (t_env t) -> Forall named argv -> Forall named (t_devices t) ->
  (main argv t).1 <> inl Crashed /\ J (t_env (main argv t).2).
Proof.
  intros Hj Hargv Hdev. set (I := state_inv J named).
  assert (keeps I alive (main argv) (fun _ => True)) as Hk.
  { assert (forall e, alive e -> e = Crashed \/ is_io_error e = false -> alive e) as Hu by auto.
    assert (keeps I alive usage (fun _ => True)) as Husage by (by intros t0 Ht0).
    unfold main. destruct (getopt argv) as [err|[[|o os] args]] eqn:Eg.
    - apply ok_seq; [done|]. intros _. apply ok_seq; [by intros t0 Ht0|].
      intros _. by apply keeps_throw.
    - apply ok_seq; [done|]. intros _. by apply keeps_throw.
    - assert (Forall named args) as Hn.
      { apply list.Forall_forall. intros a Ha. apply (proj1 (list.Forall_forall _ _) Hargv).
        by eapply getopt_rest. }
      assert (forall cmd, (forall i args, named i -> keeps I alive (cmd i args) (fun _ => True)) ->
        keeps I alive (run_cmd_noargs cmd args) (fun _ => True)) as Hshow.
      { intros cmd Hc. apply (ok_run_cmd_noargs J _ alive alive); auto. }
      case_match; [done|].
      case_match; [apply Hshow; intros; by apply (show_coalesce_ok J _ alive alive)|].
      case_match; [apply Hshow; intros; by apply (show_driver_ok J _ alive alive)|].
      case_match; [apply Hshow; intros; by apply (show_offload_ok J _ alive alive)|].
      case_match; [apply Hshow; intros; by apply (show_ring_ok J _ alive alive)|].
      case_match; [|by apply keeps_ret].
      eapply keeps_bind; [apply keeps_call, (devices_ok (EL := alive))|].
      intros devices Hd. eapply (keeps_bind _ _ _ _ (fun _ => True)); [by intros t0 [? _]|].
      intros _ _. destruct args as [|a [|b args]];
        try (apply ok_seq; [done|]; intros _; by apply keeps_throw).
      apply Forall_cons_1 in Hn as [Ha _].
      assert (forall interface args', (forall i, interface = Some i -> named i) -> keeps I alive
        (run_cmd (if bool_decide (o ∈ ["-K"; "--offload"]) then set_offload
                  else if bool_decide (o ∈ ["-C"; "--coalesce"]) then set_coalesce
                  else set_ringparam) interface (Some args')) (fun _ => True)) as Hset.
      { intros interface args' Hi. apply (ok_run_cmd J _ alive alive); [auto| |auto].
        intros j Hj'. case_match; [by apply (set_offload_command_ok J _ alive alive alive)|].
        case_match; [by apply (set_coalesce_command_ok J _ alive alive)|].
        by apply (set_ringparam_command_ok J _ alive alive). }
      destruct (bool_decide (a ∈ devices)); apply Hset; [by intros i [= <-]|done]. }
  destruct (Hk t (conj Hj Hdev)) as [[Hj' _] Hr]. split; [|done].
  intros E. rewrite E in Hr. by apply Hr.
Qed.
End runs.
