(* ===== verification/Pifconfig.v ===== *)
(** * The pifconfig script (src/scripts/pifconfig)

    The configuration of devices, with the netmask of an IPv4 address and the
    names of the flags, and the command line, read by a parser of [optparse]
    that knows the option [-h] alone.  What goes to standard error is left out;
    the program is run under its name. *)
From S2P Require Import Prelude.
From S2P Require Import Platform.
From S2P Require Import Script.

(** [struct.pack(">L", mask)], [None] for [struct.error]. *)
Definition pack_be32 (mask : Z) : option (list Z) :=
  if (0 <=? mask) && (mask <? 2 ^ 32) then
    Some [mask / 2 ^ 24; mask / 2 ^ 16 mod 256; mask / 2 ^ 8 mod 256; mask mod 256]
  else None.

(** [socket.inet_ntoa] of four bytes. *)
Definition inet_ntoa (b : list Z) : string := String.concat "." (map fmt_u b).

(** The names of the flags, in the order of the tests of [flags2str]. *)
Definition flag_names : list (Z * string) :=
  [(IFF_UP, "UP"); (IFF_BROADCAST, "BROADCAST"); (IFF_DEBUG, "DEBUG");
   (IFF_LOOPBACK, "LOOPBACK"); (IFF_POINTOPOINT, "POINTOPOINT");
   (IFF_NOTRAILERS, "NOTRAILERS"); (IFF_RUNNING, "RUNNING"); (IFF_NOARP, "NOARP");
   (IFF_PROMISC, "PROMISC"); (IFF_ALLMULTI, "ALLMULTI"); (IFF_MASTER, "MASTER");
   (IFF_SLAVE, "SLAVE"); (IFF_MULTICAST, "MULTICAST"); (IFF_PORTSEL, "PORTSEL");
   (IFF_AUTOMEDIA, "AUTOMEDIA"); (IFF_DYNAMIC, "DYNAMIC")].

Definition flags2str (flags : Z) : string :=
  strip (fold_left (fun s '(f, name) =>
    if Z.land flags f =? 0 then s else s +:+ name +:+ " ") flag_names EmptyString).

(** ** The command line *)

Inductive parsed :=
  | Positional (args : list string)
  | Help
  | Refused.

(** [Usage: %s] with [%prog] replaced, and the one option. *)
Definition help : string :=
  "Usage: pifconfig [interface [interface [interface] ...]]" +:+ newline +:+ newline +:+
  "Options:" +:+ newline +:+
  "  -h, --help  show this help message and exit" +:+ newline.

(** A long option, up to a value it may be given: [--help] or a beginning of it,
    without a value. *)
Fixpoint long_opt (opt word : string) : parsed :=
  match opt, word with
  | EmptyString, _ => Help
  | String "=" _, _ => Refused
  | String c opt, String d word => if Ascii.eqb c d then long_opt opt word else Refused
  | String _ _, EmptyString => Refused
  end.

(** [parser.parse_args()]: options and positional arguments may be mixed, and
    the first option decides. *)
Fixpoint parse_args (argv : list string) : parsed :=
  match argv with
  | [] => Positional []
  | arg :: argv =>
      match arg with
      | "--" => Positional argv
      | String "-" (String "-" opt) => long_opt opt "help"
      | String "-" (String "h" _) => Help
      | String "-" (String _ _) => Refused
      | _ =>
          match parse_args argv with
          | Positional args => Positional (arg :: args)
          | r => r
          end
      end
  end.

Section pifconfig.
Context {S : Type} `{Ethtool S}.
Local Abbreviation P := (script S).

Definition bits2netmask (bits : Z) : P string :=
  if bits <? 0 then throw (Raised "ValueError" "negative shift count")
  else
    let mask := Z.shiftl 1 32 - Z.shiftr (Z.shiftl 1 32) bits in
    match pack_be32 mask with
    | Some b => mret (inet_ntoa b)
    | None => throw (Raised "error" "'L' format requires 0 <= number <= 4294967295")
    end.

Definition tab : string := String "009" EmptyString.

Definition none_text (s : option string) : string := default "None" s.

Definition show_ipv4 (flags : Z) (addr : address) : P unit :=
  write (tab +:+ "inet addr:" +:+ a_address addr +:+ " ");;
  (if Z.land flags (Z.lor IFF_LOOPBACK IFF_POINTOPOINT) =? 0
   then write ("Bcast:" +:+ none_text (a_broadcast addr) +:+ " ")
   else mret tt);;
  mask ← bits2netmask (a_netmask addr);
  print ("Mask:" +:+ mask).

Definition show_ipv6 (addr : address) : P unit :=
  print (tab +:+ "inet6 addr: " +:+ a_address addr +:+ "/" +:+ pretty (a_netmask addr)
         +:+ " Scope: " +:+ a_scope addr).

Definition show_info (device : string) (flags : Z) (info : etherinfo) : P unit :=
  print device;;
  (if Z.land flags IFF_LOOPBACK =? 0
   then hwaddr ← call (et_get_hwaddr device); print (tab +:+ "HWaddr " +:+ hwaddr)
   else mret tt);;
  addrs ← call (et_get_ipv4_addresses info);
  for_each addrs (show_ipv4 flags);;
  addrs ← call (et_get_ipv6_addresses info);
  for_each addrs show_ipv6.

Definition show_config (device : string) : P unit :=
  flags ← call (et_get_flags device);
  infos ← call (et_get_interfaces_info device);
  for_each infos (show_info device flags);;
  print (tab +:+ flags2str flags +:+ newline).

(** The body of the loop of [main]. *)
Definition show_device (device : string) : P unit :=
  try_except (show_config device) is_exception (fun ex =>
    print ("** ERROR ** [Device " +:+ device +:+ "]: " +:+ exc_text ex);;
    throw (SystemExit 2)).

(** What [main] does with the positional arguments. *)
Definition show_devices (args : list string) : P unit :=
  sel_devs ← (match args with
              | [] => call et_get_active_devices
              | _ => mret args
              end);
  for_each sel_devs show_device.

Definition main (argv : list string) : P unit :=
  match parse_args argv with
  | Positional args => show_devices args
  | Help => write help;; throw (SystemExit 0)
  | Refused => throw (SystemExit 2)
  end.
End pifconfig.
