(* ===== verification/PifconfigFacts.v ===== *)
(** * What pifconfig shows

    The netmask reads back as its prefix; the names of the flags are those of
    the bits set, whichever sign [get_flags] gave the word; so the text of a
    device is made of the values the module gave; and how the program ends. *)
From S2P Require Import Prelude.
From S2P Require Import Platform.
From S2P Require Import EthtoolModule.
From S2P Require Import IoctlFacts.
From S2P Require Import Script.
From S2P Require Import Pifconfig.

(** ** Netmasks *)

(** The number four bytes make, most significant first. *)
Definition be_value (b : list Z) : Z := foldl (fun acc x => 256 * acc + x) 0 b.

Lemma pack_be32_bytes mask : 0 <= mask < 2 ^ 32 -> exists a b c d,
  pack_be32 mask = Some [a; b; c; d] /\ be_value [a; b; c; d] = mask /\
  0 <= a < 256 /\ 0 <= b < 256 /\ 0 <= c < 256 /\ 0 <= d < 256.
Proof.
  intros Hm. unfold pack_be32.
  replace ((0 <=? mask) && (mask <? 2 ^ 32)) with true by (symmetry; lia).
  do 4 eexists. split; [done|]. unfold be_value. simpl.
  change (2 ^ 32) with 4294967296 in Hm. change (2 ^ 24) with 16777216.
  change (2 ^ 16) with 65536. change (2 ^ 8) with 256.
  Z.to_euclidean_division_equations; lia.
Qed.

Lemma inet_ntoa_parse a b c d :
  0 <= a < 256 -> 0 <= b < 256 -> 0 <= c < 256 -> 0 <= d < 256 ->
  parse_ipv4 0 (inet_ntoa [a; b; c; d]) = Some [a; b; c; d].
Proof.
  intros. unfold inet_ntoa. cbn [map String.concat].
  by rewrite !parse_ipv4_byte, parse_ipv4_last.
Qed.

(** The 32-bit number with the [bits] highest bits set. *)
Definition prefix_mask (bits : Z) : Z := 2 ^ 32 - 2 ^ (32 - bits).

Lemma prefix_mask_shift bits : 0 <= bits <= 32 ->
  Z.shiftl 1 32 - Z.shiftr (Z.shiftl 1 32) bits = prefix_mask bits.
Proof.
  intros Hb. unfold prefix_mask. rewrite Z.shiftl_1_l, Z.shiftr_div_pow2 by lia.
  by rewrite <- Z.pow_sub_r by lia.
Qed.

Lemma prefix_mask_bits bits k : 0 <= bits <= 32 -> 0 <= k < 32 ->
  Z.testbit (prefix_mask bits) k = (32 - bits <=? k).
Proof.
  intros Hb Hk. unfold prefix_mask.
  replace (2 ^ 32 - 2 ^ (32 - bits)) with (Z.shiftl (Z.ones bits) (32 - bits)).
  - rewrite Z.shiftl_spec by lia. destruct (Z.leb_spec (32 - bits) k).
    + apply Z.ones_spec_low. lia.
    + apply Z.testbit_neg_r. lia.
  - rewrite Z.ones_equiv, Z.shiftl_mul_pow2 by lia.
    replace (2 ^ 32) with (2 ^ bits * 2 ^ (32 - bits)) by (rewrite <- Z.pow_add_r; f_equal; lia).
    lia.
Qed.

Definition netmask_text (bits : Z) : string :=
  match pack_be32 (prefix_mask bits) with Some b => inet_ntoa b | None => "" end.

(** The netmask printed for a prefix of 0 to 32 bits is an address text that
    reads back as four bytes whose [bits] highest bits are set; any other number
    of bits is an exception, and nothing is printed. *)
Theorem bits2netmask_spec {S} bits (t : term S) :
  if (0 <=? bits) && (bits <=? 32) then
    exists b, bits2netmask bits t = (inr (netmask_text bits), t) /\
      parse_ipv4 0 (netmask_text bits) = Some b /\
      length b = 4%nat /\
      forall k, 0 <= k < 32 -> Z.testbit (be_value b) k = (32 - bits <=? k)
  else exists cls msg, bits2netmask bits t = (inl (Raised cls msg), t).
Proof.
  unfold bits2netmask. destruct (Z.ltb_spec bits 0) as [Hneg|Hpos].
  { replace (0 <=? bits) with false by lia. simpl. eauto. }
  replace (0 <=? bits) with true by lia. simpl.
  destruct (Z.leb_spec bits 32) as [Hle|Hgt].
  - rewrite prefix_mask_shift by done.
    assert (0 <= prefix_mask bits < 2 ^ 32) as Hr.
    { unfold prefix_mask. pose proof (Z.pow_le_mono_r 2 (32 - bits) 32 ltac:(lia) ltac:(lia)).
      pose proof (Z.pow_pos_nonneg 2 (32 - bits) ltac:(lia) ltac:(lia)). lia. }
    destruct (pack_be32_bytes _ Hr) as (a & b & c & d & E & Hv & Ha & Hb & Hc & Hd).
    unfold netmask_text. rewrite E. exists [a; b; c; d]. split; [done|]. split; [by apply inet_ntoa_parse|].
    split; [done|]. intros k Hk. rewrite Hv. by apply prefix_mask_bits.
  - assert (Z.shiftr (Z.shiftl 1 32) bits = 0) as ->.
    { rewrite Z.shiftl_1_l, Z.shiftr_div_pow2 by lia. apply Z.div_small.
      split; [lia|]. apply Z.pow_lt_mono_r; lia. }
    simpl. eauto.
Qed.

(** ** Flags *)

(** A string [strip] leaves alone. *)
Definition solid (n : string) : Prop := n <> EmptyString /\ lstrip n = n /\ rstrip n = n.

Lemma rstrip_app a b : rstrip b <> EmptyString -> rstrip (a +:+ b) = a +:+ rstrip b.
Proof.
  intros Hb. induction a as [|c a IH]; [done|].
  change (rstrip (String c (a +:+ b)) = String c (a +:+ rstrip b)). cbn [rstrip].
  rewrite IH. destruct (rstrip b) eqn:E; [done|]. by destruct a.
Qed.

Lemma rstrip_app_space a : rstrip (a +:+ " ") = rstrip a.
Proof.
  induction a as [|c a IH]; [done|].
  change (rstrip (String c (a +:+ " ")) = rstrip (String c a)). cbn [rstrip]. by rewrite IH.
Qed.

Lemma lstrip_app n s : solid n -> lstrip (n +:+ s) = n +:+ s.
Proof.
  intros (Hn & Hl & _). destruct n as [|c n]; [done|].
  change (lstrip (String c (n +:+ s)) = String c (n +:+ s)). cbn [lstrip] in Hl |- *.
  destruct (is_space c); [|done]. exfalso.
  assert (forall s, (String.length (lstrip s) <= String.length s)%nat) as Hle.
  { clear. induction s as [|c s IH]; simpl; [lia|]. destruct (is_space c); simpl; lia. }
  specialize (Hle n). rewrite Hl in Hle. simpl in Hle. lia.
Qed.

Lemma concat_cons n m l : String.concat " " (n :: m :: l) = n +:+ " " +:+ String.concat " " (m :: l).
Proof. done. Qed.

(** The names, each followed by a space, stripped. *)
Lemma strip_names l : Forall solid l ->
  strip (foldr (fun n s => n +:+ " " +:+ s) EmptyString l) = String.concat " " l.
Proof.
  intros Hl.
  assert (rstrip (foldr (fun n s => n +:+ " " +:+ s) EmptyString l) = String.concat " " l /\
    (l <> [] -> String.concat " " l <> EmptyString)) as [E _].
  { induction Hl as [|n [|m l] (Hn & Hln & Hrn) Hl [IH Hne]]; [done| |].
    - split; [|done]. change (rstrip (n +:+ " ") = n). by rewrite rstrip_app_space.
    - rewrite concat_cons. split; [|by destruct n].
      specialize (Hne ltac:(done)). cbn [foldr] in IH |- *. rewrite <- IH in Hne |- *.
      rewrite (rstrip_app n); rewrite (rstrip_app " "); done. }
  unfold strip. rewrite E. destruct Hl as [|n [|m l] Hn Hl]; [done| |].
  - apply (proj2 Hn).
  - rewrite concat_cons. by apply lstrip_app.
Qed.

Definition set_flags (v : Z) : list (Z * string) :=
  filter (fun f => Z.land v f.1 <> 0) flag_names.

Definition flags_text (v : Z) : string := String.concat " " (set_flags v).*2.

Lemma flags2str_s16 v : flags2str (s16 v) = flags_text v.
Proof.
  assert (Forall (fun f => 0 <= f.1 < 2 ^ 16 /\ solid f.2) flag_names) as Hnames.
  { unfold solid, flag_names.
    repeat (apply Forall_cons_2; [split; [by vm_compute|by split_and!; vm_compute]|]).
    apply list.Forall_nil_2. }
  unfold flags_text. rewrite <- strip_names.
  - unfold flags2str, set_flags. f_equal.
    enough (forall acc, fold_left (fun s '(f, name) =>
        if Z.land (s16 v) f =? 0 then s else s +:+ name +:+ " ") flag_names acc =
      acc +:+ foldr (fun n s => n +:+ " " +:+ s) EmptyString
        (filter (fun f => Z.land v f.1 <> 0) flag_names).*2) as E by apply E.
    induction Hnames as [|[f n] l [Hf _] _ IH]; intros acc; [by rewrite string_app_nil|].
    cbn [fold_left]. rewrite IH, filter_cons, land_s16 by done. cbn [fst].
    destruct (Z.eqb_spec (Z.land v f) 0) as [Ez|Ez].
    + by rewrite decide_False by (intros []; done).
    + rewrite decide_True by done. cbn. by rewrite !string_app_assoc.
  - apply list.Forall_forall. intros n ([f n'] & -> & [_ Hin]%list_elem_of_filter)%list_elem_of_fmap.
    rewrite list.Forall_forall in Hnames. by apply (Hnames _ Hin).
Qed.

(** [flags2str] of the result of [get_flags] is the names of the flags set in
    the word of the kernel, in the order of their bits, separated by spaces;
    each is the name of a constant of the module without its prefix. *)
Theorem flags2str_spec v :
  flags2str (s16 v) = String.concat " " (set_flags v).*2 /\
  Forall (fun f => ("IFF_" +:+ f.2, f.1) ∈ int_constants) flag_names.
Proof. split; [apply flags2str_s16|by apply (bool_decide_unpack _); vm_compute]. Qed.

(** ** What is printed of a device *)

(** The text of a device with the flags [v]: its hardware address, if it is asked
    for, the addresses, and the flags. *)
Definition ipv4_text (v : Z) (a : address) : string :=
  tab +:+ "inet addr:" +:+ a_address a +:+ " " +:+
  (if Z.land v (Z.lor IFF_LOOPBACK IFF_POINTOPOINT) =? 0
   then "Bcast:" +:+ none_text (a_broadcast a) +:+ " " else "") +:+
  "Mask:" +:+ netmask_text (a_netmask a) +:+ newline.

Definition ipv6_text (a : address) : string :=
  tab +:+ "inet6 addr: " +:+ a_address a +:+ "/" +:+ pretty (a_netmask a) +:+ " Scope: "
    +:+ a_scope a +:+ newline.

Definition hwaddr_text (hw : option string) : string :=
  match hw with Some hw => tab +:+ "HWaddr " +:+ hw +:+ newline | None => "" end.

Definition config_text (device : string) (v : Z) (hw : option string)
    (as4 as6 : list address) : string :=
  device +:+ newline +:+ hwaddr_text hw +:+ all_text (ipv4_text v <$> as4) +:+
  all_text (ipv6_text <$> as6) +:+ tab +:+ flags_text v +:+ newline +:+ newline.

Lemma flag_test v f : 0 <= f < 2 ^ 16 -> (Z.land (s16 v) f =? 0) = (Z.land v f =? 0).
Proof. intros Hf. by rewrite land_s16. Qed.

Section texts.
Context {S : Type} `{Ethtool S}.
Implicit Types (E : pyexc -> Prop).

Definition prefix_ok (a : address) : Prop := 0 <= a_netmask a <= 32.

Lemma show_ipv4_text v a (s : S) :
  writes (fun e _ => is_exception e = true /\ ~ prefix_ok a) (show_ipv4 (s16 v) a) (fun _ o s' => prefix_ok a /\ o = ipv4_text v a /\ s' = s) s.
Proof.
  unfold show_ipv4. rewrite flag_test by (by vm_compute).
  apply writes_bind, writes_write, writes_bind.
  apply (writes_mono _ _ (fun _ o s' => o = (if Z.land v (Z.lor IFF_LOOPBACK IFF_POINTOPOINT) =? 0
    then "Bcast:" +:+ none_text (a_broadcast a) +:+ " " else "") /\ s' = s)).
  { case_match; [by apply writes_write|by apply writes_ret]. }
  intros [] o s' [-> ->]. apply writes_bind. intros out tb devs.
  pose proof (bits2netmask_spec (a_netmask a) (Term s out tb devs)) as Hb. exists "".
  destruct (_ && _) eqn:E in Hb.
  - destruct Hb as (b & -> & _). exists s. rewrite string_app_nil. split; [done|].
    apply writes_write. split; [unfold prefix_ok; lia|]. split; [|done].
    unfold ipv4_text. by rewrite !string_app_assoc.
  - destruct Hb as (cls & msg & ->). rewrite string_app_nil. split; [done|]. split; [done|].
    unfold prefix_ok. lia.
Qed.

Lemma show_ipv6_text E a (s : S) :
  writes (fun e _ => E e) (show_ipv6 a) (fun _ o s' => True /\ o = ipv6_text a /\ s' = s) s.
Proof.
  apply writes_write. split; [done|]. split; [|done]. unfold ipv6_text.
  by rewrite !string_app_assoc.
Qed.

(** A device that is reported, or fails: the line that says so. *)
Definition error_line (device : string) (ex : pyexc) : string :=
  "** ERROR ** [Device " +:+ device +:+ "]: " +:+ exc_text ex +:+ newline.

Definition failed E (device : string) (o : string) : Prop :=
  exists part ex, E ex /\ o = part +:+ error_line device ex.

Lemma show_device_text E d (s : S) Q :
  (forall e, E e -> is_exception e = true) ->
  writes (fun e _ => E e) (show_config d) (fun _ => Q) s ->
  writes (fun e o => e = SystemExit 2 /\ failed E d o) (show_device d) (fun _ => Q) s.
Proof.
  intros Hex Hc out tb devs. destruct (Hc out tb devs) as [o Ho]. unfold show_device, try_except.
  destruct (show_config d _) as [[e|[]] t]; [|by exists o].
  destruct Ho as [Eo He]. pose proof (Hex e He) as Hx.
  destruct e as [cls msg| |]; try done. cbn [is_exception].
  exists (o +:+ error_line d (Raised cls msg)). split.
  - cbn. rewrite Eo. unfold error_line. by rewrite !string_app_assoc.
  - split; [done|]. by exists o, (Raised cls msg).
Qed.

(** The devices in turn, each from a state with [J] to one with [J], up to one that
    fails; [T] is what may be printed of a device, and [E] why it may fail. *)
Lemma show_devices_text (J : S -> Prop) (T : string -> string -> Prop)
    (E : string -> pyexc -> Prop) l :
  (forall d e, E d e -> is_exception e = true) ->
  (forall d s, d ∈ l -> J s ->
     writes (fun e _ => E d e) (show_config d) (fun _ o s' => T d o /\ J s') s) ->
  forall s, J s ->
  writes (fun e o => e = SystemExit 2 /\ exists before d after texts last,
      l = before ++ d :: after /\ Forall2 T before texts /\ failed (E d) d last /\
      o = all_text texts +:+ last)
    (for_each l show_device)
    (fun _ o s' => (exists texts, Forall2 T l texts /\ o = all_text texts) /\ J s') s.
Proof.
  intros Hex. induction l as [|d l IH]; intros Hd s Hs.
  { apply writes_ret. split; [|done]. by exists []. }
  cbn [for_each]. apply writes_bind.
  assert (writes (fun e _ => E d e) (show_config d) (fun _ o s' => T d o /\ J s') s) as Hc
    by (apply Hd; [left|done]).
  apply show_device_text in Hc; [|apply Hex]. intros out tb devs. destruct (Hc out tb devs) as [o Ho].
  exists o. destruct (show_device d _) as [[e|[]] t].
  - destruct Ho as (Eo & He & Hf). split; [done|]. split; [done|].
    by exists [], d, l, [], o.
  - destruct Ho as (s' & -> & Ht & Hs'). exists s'. split; [done|].
    assert (forall d s, d ∈ l -> J s ->
      writes (fun e _ => E d e) (show_config d) (fun _ o s' => T d o /\ J s') s) as Hl.
    { intros d' s1 Hin. apply Hd. by right. }
    intros out1 tb1 devs1. destruct (IH Hl s' Hs' out1 tb1 devs1) as [o1 Ho1]. exists o1.
    destruct (for_each l show_device _) as [[e|[]] t].
    + destruct Ho1 as (Eo & He & before & d' & after & texts & last & -> & Hb & Hf & ->).
      split; [done|]. split; [done|].
      exists (d :: before), d', after, (o :: texts), last. split; [done|].
      split; [by constructor|]. split; [done|]. cbn [all_text]. by rewrite string_app_assoc.
    + destruct Ho1 as (s2 & -> & (texts & Ht2 & ->) & Hs2). exists s2. split; [done|].
      split; [|done]. exists (o :: texts). by split; [constructor|].
Qed.
End texts.

(** ** How the program ends *)

Section runs.
Context {S : Type} `{Ethtool S}.

(** What the script asks of the module: [J l] holds while the program has the
    objects [l]; functions raise only [E]. *)
Class Reports (J : list etherinfo -> S -> Prop) (named : string -> Prop)
    (E : pyexc -> Prop) : Prop := {
  flags_ok l d : named d -> answers (J l) E (et_get_flags d) (fun _ => True);
  hwaddr_ok l d : named d -> answers (J l) E (et_get_hwaddr d) (fun _ => True);
  listed_ok l : answers (J l) E et_get_active_devices (Forall named);
  ipv4_ok l i : i ∈ l -> answers (J l) E (et_get_ipv4_addresses i) (fun _ => True);
  ipv6_ok l i : i ∈ l -> answers (J l) E (et_get_ipv6_addresses i) (fun _ => True);
  infos_ok l d s : named d -> J l s ->
    match et_get_interfaces_info d s with
    | (inr infos, s') => J (infos ++ l) s'
    | (inl e, s') => E e /\ J l s'
    end;
}.

Section reports.
Context (J : list etherinfo -> S -> Prop) (named : string -> Prop) (E : pyexc -> Prop).
Context `{R : !Reports J named E}.
Hypothesis errors : forall cls msg, E (Raised cls msg).

Local Abbreviation inv l := (state_inv (J l) (fun _ => True)).

Lemma keeps_netmask l bits : keeps (inv l) E (bits2netmask bits) (fun _ => True).
Proof.
  intros t Ht. pose proof (bits2netmask_spec bits t) as Hb.
  destruct (_ && _); [destruct Hb as (? & -> & _)|destruct Hb as (? & ? & ->)]; [done|].
  split; [done|apply errors].
Qed.

Lemma keeps_unit {A} I E' (m : script S A) (f : A -> script S unit) :
  keeps I E' m (fun _ => True) -> (forall a, keeps I E' (f a) (fun _ => True)) ->
  keeps I E' (m ≫= f) (fun _ => True).
Proof. intros Hm Hf. by apply (keeps_bind _ _ m f (fun _ => True)). Qed.

Create HintDb reports.
Hint Resolve keeps_netmask keeps_unit keeps_print keeps_write : reports.
Hint Extern 1 (keeps _ _ (mret _) _) => by apply keeps_ret : reports.

Lemma show_info_ok l d flags i :
  named d -> i ∈ l -> keeps (inv l) E (show_info d flags i) (fun _ => True).
Proof.
  intros Hd Hi. unfold show_info, show_ipv4, show_ipv6.
  apply keeps_unit; [auto with reports|]. intros _. apply keeps_unit.
  { case_match; [|auto with reports].
    apply keeps_unit; [by apply keeps_call, hwaddr_ok|auto with reports]. }
  intros _. apply keeps_unit; [by apply keeps_call, ipv4_ok|]. intros as4.
  apply keeps_unit.
  { apply keeps_for_each. intros a _. apply keeps_unit; [auto with reports|]. intros _.
    apply keeps_unit; [case_match; auto with reports|]. auto with reports. }
  intros _. apply keeps_unit; [by apply keeps_call, ipv6_ok|]. intros as6.
  apply keeps_for_each. auto with reports.
Qed.

(** Some objects are held; which, depends on how far the program has come. *)
Definition held_some (t : term S) : Prop := exists l, J l (t_env t).

Lemma show_config_ok d : named d -> keeps held_some E (show_config d) (fun _ => True).
Proof.
  intros Hd t [l Ht].
  assert (forall (r : (pyexc + unit) * term S) l, leaves (inv l) E (fun _ => True) r ->
    leaves held_some E (fun _ => True) r) as Hany.
  { intros r l' [[Hr _] Hp]. split; [by exists l'|done]. }
  unfold show_config. unfold mbind, script_bind at 1.
  pose proof (flags_ok l d Hd (t_env t) Ht) as Hf. unfold call at 1.
  destruct (et_get_flags d (t_env t)) as [[e|flags] s1], Hf as [H1 H2].
  { split; [by exists l|done]. }
  pose proof (infos_ok l d s1 Hd H1) as Hi.
  unfold mbind, script_bind at 1, call at 1. cbn [t_env t_out t_tab t_devices].
  destruct (et_get_interfaces_info d s1) as [[e|infos] s2].
  { destruct Hi. split; [by exists l|done]. }
  apply (Hany _ (infos ++ l)).
  apply (keeps_unit _ _ (for_each infos (show_info d flags))).
  - apply keeps_for_each. intros i Hin. apply show_info_ok; [done|].
    apply elem_of_app. by left.
  - intros _. by apply keeps_print.
  - split; [done|]. by apply list.Forall_forall.
Qed.
End reports.

(** The positional arguments are arguments. *)
Lemma positional_elem argv args :
  parse_args argv = Positional args -> forall a, a ∈ args -> a ∈ argv.
Proof.
  revert args. induction argv as [|arg argv IH]; intros args; [by intros [= <-]|].
  assert (match parse_args argv with
          | Positional args => Positional (arg :: args)
          | r => r
          end = Positional args -> forall a, a ∈ args -> a ∈ arg :: argv) as Hmore.
  { destruct (parse_args argv) as [l| |]; [|done..]. intros [= <-] a.
    rewrite !elem_of_cons. intros [->|Ha]; [by left|right]. by apply (IH l). }
  assert (forall opt word, long_opt opt word = Positional args -> False) as Hlong.
  { intros opt. induction opt as [|c opt IHo]; intros word; [done|].
    destruct word as [|d word]; cbn [long_opt]; repeat case_match; try done; eauto. }
  cbn [parse_args]. repeat case_match; try done; try (by intros [= <-] ? ?; right); auto.
  all: by intros ?%Hlong.
Qed.

(** Arguments that do not start with a dash are all there is. *)
Lemma parse_plain argv :
  (forall a, a ∈ argv -> String.prefix "-" a = false) -> parse_args argv = Positional argv.
Proof.
  induction argv as [|arg argv IH]; intros Ha; [done|].
  specialize (IH (fun a Hin => Ha a (list_elem_of_further _ _ _ Hin))).
  pose proof (Ha arg (list_elem_of_here _ _)) as Hp. cbn [parse_args]. rewrite IH.
  destruct arg as [|c s]; [done|]. destruct (decide (c = "-"%char)) as [->|Hc].
  - assert (String.prefix "-" (String "-" s) = true) as Ht by (by destruct s). congruence.
  - repeat case_match; congruence.
Qed.

(** With devices named the loop ends normally, or with status 2 at the first device
    that fails; without, it may also end by the exception of
    [get_active_devices]. *)
Lemma devices_end J named `{!Reports J named (fun e => is_exception e = true)} args t :
  J [] (t_env t) -> Forall named args ->
  (exists l, J l (t_env (show_devices args t).2)) /\
  ((show_devices args t).1 = inr tt \/ (show_devices args t).1 = inl (SystemExit 2) \/
   args = [] /\ exists e, (show_devices args t).1 = inl e /\ is_exception e = true).
Proof.
  intros Hj Ha. set (E := fun e => is_exception e = true).
  assert (forall l, Forall named l ->
    keeps (held_some J) (fun e => e = SystemExit 2) (for_each l show_device) (fun _ => True))
    as Hloop.
  { intros l Hl. apply keeps_for_each. intros d Hd.
    apply (keeps_try _ _ E).
    - apply (show_config_ok J named E); [done|].
      by apply (proj1 (list.Forall_forall _ _) Hl).
    - intros e _ _ _ t1 Ht1. split; done.
    - unfold E. intros e He [->|Hn]; [done|congruence]. }
  assert (held_some J t) as Ht by (by exists []).
  destruct args as [|a args].
  - unfold show_devices, mbind, script_bind, call.
    pose proof (listed_ok [] (t_env t) Hj) as Hd.
    destruct (et_get_active_devices (t_env t)) as [[e|l] s], Hd as [Hs Hr]; cbn in Hs, Hr.
    { split; [by exists []|]. right. right. split; [done|]. exists e. by split. }
    set (t1 := Term s _ _ _). assert (held_some J t1) as Ht1 by (by exists []).
    destruct (Hloop l Hr t1 Ht1) as [Hl Hv]. split; [exact Hl|].
    destruct (for_each l show_device t1) as [[e|[]] t2]; simpl in *; [subst|]; auto.
  - change (show_devices (a :: args) t) with (for_each (a :: args) show_device t).
    destruct (Hloop (a :: args) Ha t Ht) as [Hl Hv]. split; [exact Hl|].
    destruct (for_each (a :: args) show_device t) as [[e|[]] t2]; simpl in *; [subst|]; auto.
Qed.
(** pifconfig ends normally, or with status 2 where the command line or a device
    fails, or with 0 after its help; without a device named it may also end by
    the exception of [get_active_devices]. *)
Theorem pifconfig_ends J named `{!Reports J named (fun e => is_exception e = true)} argv t :
  J [] (t_env t) -> Forall named argv ->
  (exists l, J l (t_env (main argv t).2)) /\
  ((main argv t).1 = inr tt \/ (main argv t).1 = inl (SystemExit 2) \/
   parse_args argv = Help /\ (main argv t).1 = inl (SystemExit 0) \/
   parse_args argv = Positional [] /\
     exists e, (main argv t).1 = inl e /\ is_exception e = true).
Proof.
  intros Hj Ha. unfold main. destruct (parse_args argv) as [args| |] eqn:Ep.
  - destruct (devices_end J named args t Hj) as [Hl [Hr|[Hr|[-> Hr]]]].
    { apply list.Forall_forall. intros a Hin. apply (proj1 (list.Forall_forall _ _) Ha).
      by eapply positional_elem. }
    + by auto.
    + by auto.
    + split; [done|]. by auto.
  - split; [by exists []|]. by auto.
  - split; [by exists []|]. by auto.
Qed.
End runs.
