(* ===== verification/Extension.v ===== *)
(** * The extension, as the scripts meet it

    The C code as an instance of the interface [Ethtool] of Script.v.  A call
    from Python makes objects of its arguments, runs the function, turns a
    pending exception into one of the script, reads the result and gives up the
    references it took; a fault of the C code is the death of the process.

    Python objects of the script are values: strings, numbers, dictionaries and
    addresses are read off the heap, [etherinfo] objects are references, which
    the program holds to its end.  A program has run out of memory before it has
    2^32 objects. *)
From S2P Require Import Prelude.
From S2P Require Import Platform.
From S2P Require Import CPython.
From S2P Require Import Objects.
From S2P Require Import NetlinkAddress.
From S2P Require Import EtherSound.
From S2P Require Import EthtoolModule.
From S2P Require Import Session.
From S2P Require Import Script.

(** A class of Python 3, in which [IOError] is [OSError]. *)
Definition exc_class (k : exc_kind) : string :=
  match k with
  | PyExc_OSError | PyExc_IOError => "IOError"
  | PyExc_LookupError => "LookupError"
  | PyExc_RuntimeError => "RuntimeError"
  | PyExc_AttributeError => "AttributeError"
  | PyExc_TypeError => "TypeError"
  | PyExc_ValueError => "ValueError"
  | PyExc_OverflowError => "OverflowError"
  | PyExc_IndexError => "IndexError"
  | PyExc_SystemError => "SystemError"
  | PyExc_UnicodeDecodeError => "UnicodeDecodeError"
  | PyExc_UnicodeEncodeError => "UnicodeEncodeError"
  | PyExc_MemoryError => "MemoryError"
  end.

(** An argument of a function. *)
Inductive pyarg :=
  | AStr (s : string)
  | AInt (z : Z)
  | ADict (d : pydict).

Section extension.
Context {K : Type} `{Platform K}.
(** Whether [char] is signed, and the texts the interpreter itself writes. *)
Context (signed_char : bool) (runtime_text : exc_kind -> string).
Local Abbreviation M := (M K).

Definition py_exception (x : CPython.pyexc) : pyexc :=
  Raised (exc_class (exc_type x))
    (match exc_value x with
     | ExcErrno e => "[Errno " +:+ pretty e +:+ "] " +:+ strerror e
     | ExcMsg s => s
     | ExcRuntime => runtime_text (exc_type x)
     end).

Definition interpreter_error (k : exc_kind) : pyexc := py_exception (PyExc k ExcRuntime).

(** What the interpreter does with the result of a C function: [NULL] stands for
    the exception pending, and each without the other is [SystemError]. *)
Definition checked (m : M ptr) : M (pyexc + ptr) :=
  r ← m;
  x ← gets w_err;
  PyErr_Clear;;
  match x with
  | Some x =>
      if is_null r then mret (inl (py_exception x))
      else Py_DECREF r;; mret (inl (interpreter_error PyExc_SystemError))
  | None =>
      if is_null r then mret (inl (interpreter_error PyExc_SystemError))
      else mret (inr r)
  end.

(** *** Arguments *)

Fixpoint new_entries (d : pydict) : M (list (string * ptr)) :=
  match d with
  | [] => mret []
  | (k, v) :: d =>
      p ← alloc (VInt v);
      es ← new_entries d;
      mret ((k, p) :: es)
  end.

Definition new_arg (a : pyarg) : M ptr :=
  match a with
  | AStr s => alloc (VStr s)
  | AInt z => alloc (VInt z)
  | ADict d => es ← new_entries d; alloc (VDict es)
  end.

Fixpoint new_args (args : list pyarg) : M (list ptr) :=
  match args with
  | [] => mret []
  | a :: args => p ← new_arg a; ps ← new_args args; mret (p :: ps)
  end.

Fixpoint drop_args (ps : list ptr) : M unit :=
  match ps with
  | [] => mret tt
  | p :: ps => Py_DECREF p;; drop_args ps
  end.

(** [ethtool.name(args)]. *)
Definition call_function (name : string) (args : list pyarg) : M (pyexc + ptr) :=
  ps ← new_args args;
  r ← match call_method signed_char name ps with
      | Some m => checked m
      | None => mret (inl (interpreter_error PyExc_AttributeError))
      end;
  drop_args ps;;
  mret r.

(** *** Results *)

(** The value read from a result, which is then given up. *)
Definition read_result {A} (read : ptr -> M (option A)) (r : pyexc + ptr) : M (pyexc + A) :=
  match r with
  | inl e => mret (inl e)
  | inr p =>
      a ← read p;
      Py_DECREF p;;
      mret (match a with
            | Some a => inr a
            | None => inl (interpreter_error PyExc_TypeError)
            end)
  end.

Definition read_none (p : ptr) : M (option unit) := mret (Some tt).

Definition read_int (p : ptr) : M (option Z) :=
  v ← peek p; mret (match v with VInt z => Some z | _ => None end).

Definition read_str (p : ptr) : M (option string) :=
  v ← peek p; mret (match v with VStr s => Some s | _ => None end).

(** A value for each item, if each has one. *)
Fixpoint read_each {A} (read : ptr -> M (option A)) (ps : list ptr) : M (option (list A)) :=
  match ps with
  | [] => mret (Some [])
  | p :: ps =>
      a ← read p;
      l ← read_each read ps;
      mret (a ← a; l ← l; Some (a :: l))
  end.

Definition read_list {A} (read : ptr -> M (option A)) (p : ptr) : M (option (list A)) :=
  v ← peek p;
  match v with
  | VList ps => read_each read ps
  | _ => mret None
  end.

Definition read_dict (p : ptr) : M (option pydict) :=
  v ← peek p;
  match v with
  | VDict es => l ← read_each read_int es.*2; mret (zip es.*1 <$> l)
  | _ => mret None
  end.

(** A reference of the program's own. *)
Definition take (p : ptr) : M (option ptr) := Py_INCREF p;; mret (Some p).

(** [p.name] of an address. *)
Definition read_member {A} (read : ptr -> M (option A)) (name : string) (p : ptr)
    : M (option A) :=
  match by_name name (tp_members ethtool_netlink_ip_address_Type) with
  | Some m =>
      r ← checked (get_member m p);
      a ← read_result read r;
      mret (match a with inr a => Some a | inl _ => None end)
  | None => mret None
  end.

Definition read_str_or_none (p : ptr) : M (option (option string)) :=
  v ← peek p;
  mret (match p, v with
        | PyNone, _ => Some None
        | _, VStr s => Some (Some s)
        | _, _ => None
        end).

(** What pifconfig looks at of an address. *)
Definition read_address (p : ptr) : M (option address) :=
  Py_INCREF p;;
  a ← read_member read_str "address" p;
  n ← read_member read_int "netmask" p;
  b ← read_member read_str_or_none "broadcast" p;
  s ← read_member read_str "scope" p;
  Py_DECREF p;;
  mret (a ← a; n ← n; b ← b; s ← s; Some (Address a n b s)).

(** [i.name()] of an [etherinfo] object. *)
Definition call_info (name : string) (i : ptr) : M (pyexc + ptr) :=
  enough ← gets (fun w => Z.of_nat (size (w_heap w)) <? 2 ^ 32);
  if enough : bool then
    match by_name name (tp_methods PyEtherInfo_Type) with
    | Some f => checked (f i)
    | None => mret (inl (interpreter_error PyExc_AttributeError))
    end
  else mret (inl (interpreter_error PyExc_MemoryError)).

(** ** The interface *)

Definition process {A} (m : M (pyexc + A)) (w : world K) : (pyexc + A) * world K :=
  match m w with
  | Ret r w' => (r, w')
  | Fault _ => (inl Crashed, w)
  end.

Definition ask_function {A} (read : ptr -> M (option A)) (name : string)
    (args : list pyarg) : world K -> (pyexc + A) * world K :=
  process (r ← call_function name args; read_result read r).

Definition ask_info {A} (read : ptr -> M (option A)) (name : string)
    (i : ptr) : world K -> (pyexc + A) * world K :=
  process (r ← call_info name i; read_result read r).

#[local] Instance extension : Ethtool (world K) := {
  etherinfo := ptr;
  et_get_flags name := ask_function read_int "get_flags" [AStr name];
  et_get_interfaces_info name :=
    ask_function (read_list take) "get_interfaces_info" [AStr name];
  et_get_ipv4_addresses := ask_info (read_list read_address) "get_ipv4_addresses";
  et_get_ipv6_addresses := ask_info (read_list read_address) "get_ipv6_addresses";
  et_get_hwaddr name := ask_function read_str "get_hwaddr" [AStr name];
  et_get_active_devices := ask_function (read_list read_str) "get_active_devices" [];
  et_get_devices := ask_function (read_list read_str) "get_devices" [];
  et_get_coalesce name := ask_function read_dict "get_coalesce" [AStr name];
  et_set_coalesce name d := ask_function read_none "set_coalesce" [AStr name; ADict d];
  et_get_ringparam name := ask_function read_dict "get_ringparam" [AStr name];
  et_set_ringparam name d := ask_function read_none "set_ringparam" [AStr name; ADict d];
  et_get_value what name := ask_function read_int what [AStr name];
  et_set_value what name v := ask_function read_none what [AStr name; AInt v];
  et_get_module name := ask_function read_str "get_module" [AStr name];
  et_get_businfo name := ask_function read_str "get_businfo" [AStr name];
}.
End extension.
