(* ===== verification/ExtensionFacts.v ===== *)
(** * Calls from Python into the extension

    What a call of Extension.v comes to: the objects made of the arguments are
    there, the function runs in a world that is in order, its result is read
    and every reference taken is given up again. *)
From S2P Require Import Prelude.
From S2P Require Import Platform.
From S2P Require Import CPython.
From S2P Require Import Netlink.
From S2P Require Import Objects.
From S2P Require Import NetlinkSpec.
From S2P Require Import RefCount.
From S2P Require Import Typing.
From S2P Require Import Containers.
From S2P Require Import Sound.
From S2P Require Import EtherSound.
From S2P Require Import EtherObjSound.
From S2P Require Import EthtoolModule.
From S2P Require Import Contract.
From S2P Require Import Session.
From S2P Require Import Script.
From S2P Require Import Extension.

(** ** Python values, whoever else refers to them *)

Inductive pydatum :=
  | PStr (s : string)
  | PInt (z : Z)
  | PDict (d : pydict)
  | PStrs (l : list string)
  | PNone.

Definition int_is (h : gmap positive obj) (p : ptr) (z : Z) : Prop :=
  exists l rc, p = Loc l /\ h !! l = Some (Obj rc (VInt z)).

Definition entry_is (h : gmap positive obj) (e : string * ptr) (kv : string * Z) : Prop :=
  e.1 = kv.1 /\ int_is h e.2 kv.2.

Definition looks (h : gmap positive obj) (p : ptr) (x : pydatum) : Prop :=
  match x with
  | PStr s => str_is h p s
  | PInt z => int_is h p z
  | PDict d => exists l rc es, p = Loc l /\ h !! l = Some (Obj rc (VDict es)) /\
      Forall2 (entry_is h) es d
  | PStrs ss => exists l rc ps, p = Loc l /\ h !! l = Some (Obj rc (VList ps)) /\
      Forall2 (str_is h) ps ss
  | PNone => p = PyNone
  end.

Definition arg_datum (a : pyarg) : pydatum :=
  match a with
  | AStr s => PStr s
  | AInt z => PInt z
  | ADict d => PDict d
  end.

(** ** What is kept of a heap

    The objects that are reached from some roots through containers, addresses
    and the devices of [etherinfo] objects. *)
Definition kept_ptrs (v : pyval) : list ptr :=
  match v with VEther e => [device e] | _ => val_ptrs v end.

Inductive reach (h : gmap positive obj) (S : positive -> Prop) : positive -> Prop :=
  | reach_root l : S l -> reach h S l
  | reach_item l o i : reach h S l -> h !! l = Some o -> Loc i ∈ kept_ptrs (ob_val o) ->
      reach h S i.

Definition kept (R : pyval -> pyval -> Prop) (h h' : gmap positive obj)
    (S : positive -> Prop) : Prop :=
  forall l o, reach h S l -> h !! l = Some o ->
    exists o', h' !! l = Some o' /\ R (ob_val o) (ob_val o').

(** Relations of values that keep what is reached: equality, and the same but
    for the link an [etherinfo] has. *)
Class Keeps (R : pyval -> pyval -> Prop) : Prop := {
  keeps_preorder :: PreOrder R;
  keeps_same v v' : R v v' -> same_val v v';
}.

#[export] Instance keeps_eq : Keeps eq.
Proof. split; [apply _|]. intros v v' ->. by left. Qed.

#[export] Instance keeps_same_val : Keeps same_val.
Proof. by split; [apply _|]. Qed.

Lemma keeps_ptrs R `{!Keeps R} v v' : R v v' -> kept_ptrs v' = kept_ptrs v.
Proof.
  intros [->|(e & e' & -> & -> & E)]%keeps_same; [done|]. simpl. by rewrite E.
Qed.

Lemma keeps_val R `{!Keeps R} v v' : R v v' -> (forall e, v <> VEther e) -> v' = v.
Proof. intros [->|(e & e' & -> & _)]%keeps_same Hv; [done|]. by destruct (Hv e). Qed.

Section kept.
Context (R : pyval -> pyval -> Prop) `{!Keeps R}.
Implicit Types (h : gmap positive obj) (S : positive -> Prop).

Lemma reach_kept h h' S l : kept R h h' S -> reach h S l -> reach h' S l.
Proof.
  intros Hk. induction 1 as [l Hl|l o i Hr IH Ho Hi]; [by left|].
  destruct (Hk l o Hr Ho) as (o' & Ho' & Hv). eapply reach_item; [exact IH|exact Ho'|].
  by rewrite (keeps_ptrs R _ _ Hv).
Qed.

Lemma reach_mono h S S' l : (forall i, S i -> reach h S' i) -> reach h S l -> reach h S' l.
Proof.
  intros HS. induction 1 as [l Hl|l o i Hr IH Ho Hi]; [by apply HS|]. by eapply reach_item.
Qed.

Lemma kept_mono h h' S S' : (forall i, S i -> reach h S' i) -> kept R h h' S' -> kept R h h' S.
Proof. intros HS Hk l o Hr. apply Hk. by eapply reach_mono. Qed.

Lemma kept_refl h S : kept R h h S.
Proof. intros l o _ Hl. exists o. split; [done|]. reflexivity. Qed.

Lemma kept_trans h1 h2 h3 S : kept R h1 h2 S -> kept R h2 h3 S -> kept R h1 h3 S.
Proof.
  intros H1 H2 l o Hr Hl. destruct (H1 l o Hr Hl) as (o2 & Hl2 & E2).
  destruct (H2 l o2) as (o3 & Hl3 & E3); [by eapply reach_kept|done|].
  exists o3. split; [done|by etrans].
Qed.

Lemma kept_lasts h h' S : lasts R h h' -> kept R h h' S.
Proof. intros Hl l o _. apply Hl. Qed.

Lemma kept_grow h h' S : h ⊆ h' -> kept R h h' S.
Proof. intros Hs l o _ Hl. exists o. split; [by eapply lookup_weaken|]. reflexivity. Qed.

Lemma kept_eq h h' S : kept eq h h' S -> kept R h h' S.
Proof.
  intros Hk l o Hr Hl. destruct (Hk l o Hr Hl) as (o' & Hl' & E). exists o'.
  split; [done|]. rewrite E. reflexivity.
Qed.

(** An object that is reached and is no [etherinfo]. *)
Lemma kept_value h h' S l rc v :
  kept R h h' S -> reach h S l -> h !! l = Some (Obj rc v) -> (forall e, v <> VEther e) ->
  exists rc', h' !! l = Some (Obj rc' v).
Proof.
  intros Hk Hr Hl Hv. destruct (Hk l _ Hr Hl) as ([rc' v'] & Hl' & E).
  apply (keeps_val R) in E; [|exact Hv]. cbn in E. subst v'. by exists rc'.
Qed.

Lemma str_is_kept h h' S p s :
  kept R h h' S -> (forall l, p = Loc l -> reach h S l) -> str_is h p s -> str_is h' p s.
Proof.
  intros Hk Hp (l & rc & -> & Hl).
  destruct (kept_value h h' S l rc (VStr s) Hk (Hp l eq_refl) Hl) as [rc' Hl']; [done|].
  by exists l, rc'.
Qed.

Lemma int_is_kept h h' S p z :
  kept R h h' S -> (forall l, p = Loc l -> reach h S l) -> int_is h p z -> int_is h' p z.
Proof.
  intros Hk Hp (l & rc & -> & Hl).
  destruct (kept_value h h' S l rc (VInt z) Hk (Hp l eq_refl) Hl) as [rc' Hl']; [done|].
  by exists l, rc'.
Qed.

(** Items of a container. *)
Lemma reach_elem h S l rc v i :
  reach h S l -> h !! l = Some (Obj rc v) -> Loc i ∈ kept_ptrs v -> reach h S i.
Proof. intros Hr Hl Hi. eapply reach_item; [exact Hr|exact Hl|exact Hi]. Qed.

Lemma looks_keeps h h' S p x :
  kept R h h' S -> (forall l, p = Loc l -> reach h S l) -> looks h p x -> looks h' p x.
Proof.
  intros Hk Hp. destruct x as [s|z|d|ss|]; cbn [looks];
    [by apply str_is_kept with (S := S)|by apply int_is_kept with (S := S)| | |done].
  - intros (l & rc & es & -> & Hl & Hf).
    destruct (kept_value h h' S l rc (VDict es) Hk (Hp l eq_refl) Hl) as [rc' Hl']; [done|].
    exists l, rc', es. split; [done|]. split; [done|].
    assert (forall e, e ∈ es -> forall i, e.2 = Loc i -> reach h S i) as Hes.
    { intros e He i Ei. eapply (reach_elem h S l); [by apply Hp|exact Hl|].
      simpl. apply list_elem_of_fmap. by exists e. }
    clear Hl Hl'. induction Hf as [|e kv es d [Ek Hv] _ IH]; constructor.
    + split; [done|]. eapply int_is_kept; [exact Hk| |exact Hv]. apply Hes. left.
    + apply IH. intros e' He'. apply Hes. by right.
  - intros (l & rc & ps & -> & Hl & Hf).
    destruct (kept_value h h' S l rc (VList ps) Hk (Hp l eq_refl) Hl) as [rc' Hl']; [done|].
    exists l, rc', ps. split; [done|]. split; [done|].
    assert (forall p, p ∈ ps -> forall i, p = Loc i -> reach h S i) as Hps.
    { intros p Hin i ->. eapply (reach_elem h S l); [by apply Hp|exact Hl|done]. }
    clear Hl Hl'. induction Hf as [|p s ps ss Hv _ IH]; constructor.
    + eapply str_is_kept; [exact Hk| |exact Hv]. apply Hps. left.
    + apply IH. intros p' Hp'. apply Hps. by right.
Qed.
End kept.

Section calls.
Context {K : Type} `{PL : PlatformLaws K} {UP : NetlinkUp K} {SU : SystemUp K}.
Context (signed_char : bool) (runtime_text : exc_kind -> string).
Implicit Types (w : world K) (rho : gmultiset positive).

Lemma looks_grow (h h' : gmap positive obj) p x : h ⊆ h' -> looks h p x -> looks h' p x.
Proof.
  intros Hh. apply (looks_keeps eq h h' (fun l => p = Loc l)); [by apply (kept_grow eq)|].
  intros l E. by apply reach_root.
Qed.

(** What the holder of [rho] reaches is kept. *)
Definition held_rel R rho w w' : Prop := kept R (w_heap w) (w_heap w') (fun l => l ∈ rho).

Lemma held_eq R `{!Keeps R} rho w w' : held_rel eq rho w w' -> held_rel R rho w w'.
Proof. by apply (kept_eq R). Qed.

Lemma held_trans R `{!Keeps R} rho w1 w2 w3 :
  held_rel R rho w1 w2 -> held_rel R rho w2 w3 -> held_rel R rho w1 w3.
Proof. by apply kept_trans. Qed.

Lemma held_sub R rho rho' w w' : rho ⊆ rho' -> held_rel R rho' w w' -> held_rel R rho w w'.
Proof. intros Hs. apply kept_mono. intros i Hi. apply reach_root. multiset_solver. Qed.

Lemma kept_ptrs_vals v i : Loc i ∈ kept_ptrs v -> Loc i ∈ val_ptrs v.
Proof.
  destruct v; try done. simpl. intros ->%list_elem_of_singleton. left.
Qed.

Lemma reach_live w rho l :
  in_order w rho -> reach (w_heap w) (fun l => l ∈ rho) l ->
  exists o, w_heap w !! l = Some o /\ 0 < ob_refcnt o.
Proof.
  intros (lk & Hs & _)%io_sound. induction 1 as [l Hl|l o i _ (o' & Ho' & Hrc) Ho Hi].
  - eapply held_live; [apply Hs|multiset_solver].
  - rewrite Ho in Ho'. injection Ho' as <-.
    eapply field_live; [apply Hs|exact Ho|done|by apply kept_ptrs_vals].
Qed.

Lemma held_evolves rho w w' : in_order w' rho -> evolves None w w' -> held_rel eq rho w w'.
Proof.
  intros Ho He. pose proof (io_sound _ _ Ho) as (lk & Hs & _).
  assert (forall l, reach (w_heap w) (fun l => l ∈ rho) l ->
    exists o', w_heap w' !! l = Some o' /\ 0 < ob_refcnt o') as Hlive.
  { induction 1 as [l Hl|l o i _ (o' & Ho' & Hrc) Hl Hi].
    - eapply held_live; [apply Hs|multiset_solver].
    - destruct (ev_live _ _ _ He l o' Ho' Hrc) as (o1 & Ho1 & E & _).
      rewrite Hl in Ho1. injection Ho1 as <-.
      eapply field_live; [apply Hs|exact Ho'|done|]. rewrite E. by apply kept_ptrs_vals. }
  intros l o Hr Hl. destruct (Hlive l Hr) as (o' & Ho' & Hrc).
  destruct (ev_live _ _ _ He l o' Ho' Hrc) as (o1 & Ho1 & E & _).
  rewrite Hl in Ho1. injection Ho1 as <-. by exists o'.
Qed.

(** ** Arguments *)

Lemma set_err_none w : w_err w = None -> set_err None w = w.
Proof. destruct w. simpl. by intros ->. Qed.

Lemma in_order_now w rho : w_err w = None -> in_order (set_err None w) rho -> in_order w rho.
Proof. intros He. by rewrite set_err_none. Qed.

Lemma in_order_eq w rho rho' : in_order w rho -> rho = rho' -> in_order w rho'.
Proof. by intros ? <-. Qed.

(** A new object that takes over references of the program. *)
Lemma alloc_in_order w rho v :
  in_order w rho -> python_made v -> Forall (held rho) (val_ptrs v) -> val_refs v ⊆ rho ->
  wp (alloc v) (fun r w' => exists l, r = Loc l /\ in_order w' ({[+ l +]} ⊎ (rho ∖ val_refs v)) /\
    w_heap w !! l = None /\ w_heap w' = <[l := Obj 1 v]> (w_heap w) /\ w_env w' = w_env w) w.
Proof.
  intros Ho Hp Hh Hr. pose proof (new_ok w rho v Ho Hp Hh Hr) as Hn.
  exists (w_next w). split; [done|]. split; [apply in_order_now; [apply Ho|exact Hn]|].
  split; [|done]. pose proof (io_sound _ _ Ho) as (lk & Hs & _).
  by eapply wf_fresh_next, Hs.
Qed.

(** [p] is a new reference to a value with the data [x]. *)
Definition made rho (x : pydatum) w (p : ptr) (w' : world K) : Prop :=
  in_order w' (ptr_refs p ⊎ rho) /\ looks (w_heap w') p x /\ is_ref p /\
  w_heap w ⊆ w_heap w' /\ w_env w' = w_env w.

Lemma alloc_made w rho v x :
  in_order w rho -> python_made v -> val_ptrs v = [] ->
  (forall h l, h !! l = Some (Obj 1 v) -> looks h (Loc l) x) ->
  wp (alloc v) (made rho x w) w.
Proof.
  intros Ho Hp Hv Hx. eapply wp_mono; [apply alloc_in_order; [done..|by rewrite Hv|]|].
  { unfold val_refs. rewrite Hv. simpl. multiset_solver. }
  intros r w' (l & -> & Ho' & Hf & Eh & Ee). split; [|split; [|split; [done|split; [|done]]]].
  - eapply in_order_eq; [exact Ho'|]. unfold val_refs. rewrite Hv. simpl. multiset_solver.
  - apply Hx. rewrite Eh. apply lookup_insert_eq.
  - rewrite Eh. by apply insert_subseteq.
Qed.

Lemma new_entries_made d : forall w rho, in_order w rho ->
  wp (new_entries d) (fun es w' => in_order w' (ptrs_refs es.*2 ⊎ rho) /\
    Forall2 (entry_is (w_heap w')) es d /\ w_heap w ⊆ w_heap w' /\ w_env w' = w_env w) w.
Proof.
  induction d as [|[k z] d IH]; intros w rho Ho; cbn [new_entries].
  { apply wp_ret. split; [|done]. eapply in_order_eq; [done|]. simpl. multiset_solver. }
  apply wp_bind. eapply wp_mono; [apply (alloc_made w rho (VInt z) (PInt z) Ho); [done..|]|].
  { intros h l Hl. by exists l, 1. }
  intros p w1 (Ho1 & Hx & Hp & Hh & He). apply wp_bind.
  eapply wp_mono; [by apply IH|]. intros es w2 (Ho2 & Hf & Hh2 & He2). apply wp_ret.
  split; [|split; [|split; [by etrans|congruence]]].
  - eapply in_order_eq; [exact Ho2|]. rewrite fmap_cons. cbn [ptrs_refs snd]. multiset_solver.
  - constructor; [|done]. split; [done|]. by eapply (looks_grow _ _ p (PInt z)).
Qed.

Lemma entries_held h es d rho :
  Forall2 (entry_is h) es d -> Forall (held (ptrs_refs es.*2 ⊎ rho)) es.*2.
Proof.
  intros Hf. apply list.Forall_forall. intros p Hp.
  assert (exists l, p = Loc l) as [l ->].
  { apply list_elem_of_fmap in Hp as (e & -> & He). apply list_elem_of_lookup in He as [i Hi].
    destruct (Forall2_lookup_l _ _ _ _ _ Hf Hi) as (kv & _ & _ & l & rc & E & _). by exists l. }
  simpl. apply elem_ptrs_refs in Hp. multiset_solver.
Qed.

Lemma new_arg_made a w rho :
  in_order w rho -> wp (new_arg a) (made rho (arg_datum a) w) w.
Proof.
  intros Ho. destruct a as [s|z|d]; cbn [new_arg arg_datum].
  - apply alloc_made; [done..|]. intros h l Hl. by exists l, 1.
  - apply alloc_made; [done..|]. intros h l Hl. by exists l, 1.
  - apply wp_bind. eapply wp_mono; [by apply new_entries_made|].
    intros es w1 (Ho1 & Hf & Hh & He).
    eapply wp_mono; [apply (alloc_in_order w1 _ (VDict es) Ho1); [done| |]|].
    + by eapply entries_held.
    + unfold val_refs. simpl. multiset_solver.
    + intros r w2 (l & -> & Ho2 & Hfr & Eh & Ee).
      assert (w_heap w1 ⊆ w_heap w2) as Hh2 by (rewrite Eh; by apply insert_subseteq).
      split; [|split; [|split; [done|split; [by etrans|congruence]]]].
      * eapply in_order_eq; [exact Ho2|]. unfold val_refs. simpl. multiset_solver.
      * exists l, 1, es. split; [done|]. split; [rewrite Eh; apply lookup_insert_eq|].
        eapply list.Forall2_impl; [exact Hf|]. intros e kv [Ek Hv]. split; [done|].
        by eapply (looks_grow _ _ _ (PInt kv.2)).
Qed.

Lemma new_args_made args : forall w rho, in_order w rho ->
  wp (new_args args) (fun ps w' => in_order w' (ptrs_refs ps ⊎ rho) /\
    Forall2 (looks (w_heap w')) ps (arg_datum <$> args) /\ Forall is_ref ps /\
    w_heap w ⊆ w_heap w' /\ w_env w' = w_env w) w.
Proof.
  induction args as [|a args IH]; intros w rho Ho; cbn [new_args].
  { apply wp_ret. split; [|done]. eapply in_order_eq; [done|]. simpl. multiset_solver. }
  apply wp_bind. eapply wp_mono; [by apply new_arg_made|].
  intros p w1 (Ho1 & Hx & Hp & Hh & He). apply wp_bind.
  eapply wp_mono; [by apply IH|]. intros ps w2 (Ho2 & Hf & Hr & Hh2 & He2). apply wp_ret.
  split; [|split; [|split; [by constructor|split; [by etrans|congruence]]]].
  - eapply in_order_eq; [exact Ho2|]. simpl. multiset_solver.
  - constructor; [|done]. by eapply looks_grow.
Qed.

(** ** Giving up references *)

Lemma release_ok p w rho :
  is_ref p -> in_order w (ptr_refs p ⊎ rho) ->
  wp (Py_DECREF p) (fun _ w' => in_order w' rho /\ evolves None w w') w.
Proof.
  intros Hp Ho. pose proof (io_sound _ _ Ho) as (lk & Hs & _).
  assert (wp (Py_DECREF p) (fun _ w' => evolves None w w') w) as He.
  { eapply wp_mono; [apply (Py_DECREF_ok p w (lk ⊎ rho) Hp)|by intros _ w' []].
    eapply wf_eq; [apply Hs|]. multiset_solver. }
  assert (wp (Py_DECREF p) (fun _ w' => in_order (set_err None w') rho) w) as Hd.
  { destruct p as [| | |l]; try done.
    - assert (Py_DECREF PyNone w = Ret tt w) as E
        by (unfold Py_DECREF; by destruct (size (w_heap w))).
      unfold wp. rewrite E. apply (in_order_eq _ (∅ ⊎ rho)); [|multiset_solver].
      by rewrite set_err_none by apply Ho.
    - eapply wp_mono; [apply (drop_ok _ _ l Ho); simpl; multiset_solver|].
      intros ? w' Ho'. eapply in_order_eq; [exact Ho'|]. simpl. multiset_solver. }
  eapply wp_mono; [exact (wp_and _ _ _ _ Hd He)|]. intros ? w' [Ho' Hev].
  split; [|done]. apply in_order_now; [|done]. rewrite (ev_err _ _ _ Hev). apply Ho.
Qed.

Lemma drop_args_ok ps : forall w rho, Forall is_ref ps -> in_order w (ptrs_refs ps ⊎ rho) ->
  wp (drop_args ps) (fun _ w' => in_order w' rho /\ evolves None w w') w.
Proof.
  induction ps as [|p ps IH]; intros w rho Hr Ho; cbn [drop_args].
  { split; [|apply evolves_refl]. eapply in_order_eq; [done|]. simpl. multiset_solver. }
  apply Forall_cons_1 in Hr as [Hp Hr]. apply wp_bind.
  eapply wp_mono; [apply (release_ok p w (ptrs_refs ps ⊎ rho) Hp)|].
  { eapply in_order_eq; [exact Ho|]. simpl. multiset_solver. }
  intros _ w1 [Ho1 E1]. eapply wp_mono; [by apply IH|]. intros _ w2 [Ho2 E2].
  split; [done|]. by eapply evolves_trans.
Qed.

Lemma held_then_evolves R `{!Keeps R} rho w0 w w' :
  held_rel R rho w0 w -> in_order w' rho -> evolves None w w' -> held_rel R rho w0 w'.
Proof.
  intros Hs Ho He. eapply held_trans; [exact _|exact Hs|]. by apply held_eq, held_evolves.
Qed.

(** ** Results *)

(** A C function is run for: an exception of [E], or a result with [V]; both may
    depend on the system afterwards. *)
Definition result_ok (E : pyexc -> K -> Prop) (V : gmap positive obj -> ptr -> K -> Prop)
    (r : ptr) (w' : world K) : Prop :=
  match w_err w' with
  | Some x => is_ref_or_null r /\
      E (if is_null r then py_exception runtime_text x
         else interpreter_error runtime_text PyExc_SystemError) (w_env w')
  | None =>
      if is_null r then E (interpreter_error runtime_text PyExc_SystemError) (w_env w')
      else is_ref r /\ V (w_heap w') r (w_env w')
  end.

Definition c_result R rho E V w (r : ptr) (w' : world K) : Prop :=
  follows R rho w r w' /\ result_ok E V r w'.

(** The same for a computation with Python's idea of a result. *)
Definition py_result R rho (E : pyexc -> K -> Prop)
    (V : gmap positive obj -> ptr -> K -> Prop) w (r : pyexc + ptr) (w' : world K) : Prop :=
  held_rel R rho w w' /\
  match r with
  | inl e => in_order w' rho /\ E e (w_env w')
  | inr p => is_ref p /\ in_order w' (ptr_refs p ⊎ rho) /\ V (w_heap w') p (w_env w')
  end.

Lemma checked_ok R `{!Keeps R} m rho E V w :
  wp m (c_result R rho E V w) w -> wp (checked runtime_text m) (py_result R rho E V w) w.
Proof.
  intros Hm. unfold checked. apply wp_bind. eapply wp_mono; [exact Hm|].
  intros r w1 ((Ho & Hla) & Hv). eapply wp_step; [reflexivity|].
  eapply wp_step; [reflexivity|]. unfold result_ok in Hv.
  assert (held_rel R rho w (set_err None w1)) as Hsame by (by apply (kept_lasts R)).
  destruct (w_err w1) as [x|] eqn:Ex, (is_null r) eqn:En.
  - apply wp_ret. split; [done|]. destruct r; try done. split; [|apply Hv].
    eapply in_order_eq; [exact Ho|]. simpl. multiset_solver.
  - destruct Hv as [Hr Hv]. apply wp_bind.
    eapply wp_mono; [apply (release_ok r _ rho); [by destruct r|done]|].
    intros _ w2 [Ho2 E2]. apply wp_ret. split.
    { by eapply (held_then_evolves R). }
    split; [done|]. rewrite (ev_env _ _ _ E2). exact Hv.
  - apply wp_ret. split; [done|]. destruct r; try done. split; [|done].
    eapply in_order_eq; [exact Ho|]. simpl. multiset_solver.
  - apply wp_ret. split; [done|]. destruct Hv. by split.
Qed.

(** An exception of Python, whatever it is; a result, whatever it is. *)
Definition any_exception (e : pyexc) (k : K) : Prop := is_exception e = true.

Lemma any_result V r w :
  is_ref_or_null r -> (is_ref r -> V (w_heap w) r (w_env w)) -> result_ok any_exception V r w.
Proof.
  intros Hr Hv. unfold result_ok, any_exception. destruct (w_err w).
  - split; [done|]. by destruct (is_null r).
  - destruct r; try done; cbn [is_null]; (split; [done|by apply Hv]).
Qed.

(** *** Reading *)

(** [read] gives [a] for what looks like [x], and changes nothing. *)
Definition reads_as {A} (read : ptr -> M K (option A)) (x : pydatum) (a : A) : Prop :=
  forall p w, looks (w_heap w) p x -> read p w = Ret (Some a) w.

Lemma read_none_ok : reads_as read_none PNone tt.
Proof. done. Qed.

Lemma read_int_ok z : reads_as read_int (PInt z) z.
Proof.
  intros p w (l & rc & -> & Hl). unfold read_int.
  by rewrite (bind_Ret _ _ _ _ _ (peek_eq _ _ _ Hl)).
Qed.

Lemma read_str_ok s : reads_as read_str (PStr s) s.
Proof.
  intros p w (l & rc & -> & Hl). unfold read_str.
  by rewrite (bind_Ret _ _ _ _ _ (peek_eq _ _ _ Hl)).
Qed.

Lemma read_each_ok {A} (read : ptr -> M K (option A)) (datum : A -> pydatum) ps l w :
  (forall a, reads_as read (datum a) a) ->
  Forall2 (fun p a => looks (w_heap w) p (datum a)) ps l ->
  read_each read ps w = Ret (Some l) w.
Proof.
  intros Hr Hf. induction Hf as [|p a ps l Hp _ IH]; [done|]. cbn [read_each].
  rewrite (bind_Ret _ _ _ _ _ (Hr a p w Hp)). by rewrite (bind_Ret _ _ _ _ _ IH).
Qed.

Lemma read_strs_ok l : reads_as (read_list read_str) (PStrs l) l.
Proof.
  intros p w (lc & rc & ps & -> & Hl & Hf). unfold read_list.
  rewrite (bind_Ret _ _ _ _ _ (peek_eq _ _ _ Hl)). cbn [ob_val].
  by apply (read_each_ok _ PStr); [apply read_str_ok|].
Qed.

Lemma read_dict_ok d : reads_as read_dict (PDict d) d.
Proof.
  intros p w (lc & rc & es & -> & Hl & Hf). unfold read_dict.
  rewrite (bind_Ret _ _ _ _ _ (peek_eq _ _ _ Hl)). cbn [ob_val].
  rewrite (bind_Ret _ _ _ (Some d.*2) w).
  - clear Hl. unfold mret, M_ret. do 2 f_equal. cbn. f_equal.
    induction Hf as [|[k q] [k' z] es d [Ek _] _ IH]; [done|].
    cbn in Ek |- *. subst k'. f_equal. exact IH.
  - apply (read_each_ok _ PInt); [apply read_int_ok|]. clear Hl.
    induction Hf as [|e kv es d [_ Hv] _ IH]; [constructor|].
    rewrite !fmap_cons. by constructor.
Qed.

(** A result that is read and given up. *)
Lemma read_result_ok R `{!Keeps R} {A} (read : ptr -> M K (option A)) (datum : A -> pydatum)
    rho E (P : A -> K -> Prop) w0 r w :
  (forall a, reads_as read (datum a) a) ->
  py_result R rho E (fun h p k => exists a, looks h p (datum a) /\ P a k) w0 r w ->
  wp (read_result runtime_text read r) (fun r w' => in_order w' rho /\ held_rel R rho w0 w' /\
    match r with inl e => E e (w_env w') | inr a => P a (w_env w') end) w.
Proof.
  intros Hr [Hsame Hp]. destruct r as [e|p]; [by destruct Hp|].
  destruct Hp as (Hp & Ho & a & Hl & Ha).
  cbn [read_result]. eapply wp_step; [by apply Hr|]. apply wp_bind.
  eapply wp_mono; [by apply release_ok|]. intros _ w' [Ho' He]. apply wp_ret.
  split; [done|]. split; [by eapply (held_then_evolves R)|by rewrite (ev_env _ _ _ He)].
Qed.

(** ** Functions of the module *)

(** What a function promises for arguments with the data [args]. *)
Definition promises name (args : list pyarg) rho w (E : pyexc -> K -> Prop)
    (V : gmap positive obj -> ptr -> K -> Prop) : Prop :=
  forall ps w1, in_order w1 (ptrs_refs ps ⊎ rho) -> Forall is_ref ps ->
    Forall2 (looks (w_heap w1)) ps (arg_datum <$> args) -> w_env w1 = w_env w ->
    exists m, call_method signed_char name ps = Some m /\
      wp m (c_result eq (ptrs_refs ps ⊎ rho) E V w1) w1.

(** [V] speaks of the result and what is reached from it alone. *)
Class Stable (V : gmap positive obj -> ptr -> K -> Prop) : Prop :=
  stable h h' p k : kept eq h h' (fun l => p = Loc l) -> V h p k -> V h' p k.

(** [V] speaks of what the result looks like. *)
Definition by_looks {A} (datum : A -> pydatum) (P : A -> K -> Prop)
    (h : gmap positive obj) (p : ptr) (k : K) : Prop :=
  exists a, looks h p (datum a) /\ P a k.

#[export] Instance by_looks_stable {A} (datum : A -> pydatum) P : Stable (by_looks datum P).
Proof.
  intros h h' p k Hk (a & Hl & Ha). exists a. split; [|done].
  eapply (looks_keeps eq); [exact Hk| |exact Hl]. intros l ->. by apply reach_root.
Qed.

Lemma stable_held V `{!Stable V} w w' rho p k :
  held_rel eq rho w w' -> ptr_refs p ⊆ rho -> V (w_heap w) p k -> V (w_heap w') p k.
Proof.
  intros Hk Hp. apply stable. eapply kept_mono; [|exact Hk].
  intros l ->. apply reach_root. simpl in Hp. multiset_solver.
Qed.

Lemma call_function_ok name args rho w E V `{!Stable V} :
  in_order w rho -> promises name args rho w E V ->
  wp (call_function signed_char runtime_text name args) (py_result eq rho E V w) w.
Proof.
  intros Ho Hm. unfold call_function. apply wp_bind.
  eapply wp_mono; [by apply new_args_made|]. intros ps w1 (Ho1 & Hf & Hr & Hh & He1).
  destruct (Hm ps w1 Ho1 Hr Hf He1) as (m & -> & Hc). apply wp_bind.
  eapply wp_mono; [by apply (checked_ok eq)|]. intros r w2 [Hs2 Hres]. apply wp_bind.
  assert (held_rel eq rho w w2) as Hsame.
  { eapply held_trans; [exact _|by apply (kept_grow eq)|].
    eapply held_sub; [|exact Hs2]. multiset_solver. }
  destruct r as [e|p].
  - destruct Hres as [Ho2 He]. eapply wp_mono; [by apply drop_args_ok|].
    intros _ w3 [Ho3 Hev]. apply wp_ret. split; [by eapply (held_then_evolves eq)|].
    split; [done|]. by rewrite (ev_env _ _ _ Hev).
  - destruct Hres as (Hp & Ho2 & Hv).
    eapply wp_mono; [apply (drop_args_ok ps w2 (ptr_refs p ⊎ rho) Hr)|].
    { eapply in_order_eq; [exact Ho2|]. multiset_solver. }
    intros _ w3 [Ho3 Hev]. pose proof (held_evolves _ _ _ Ho3 Hev) as Hs3.
    apply wp_ret. split.
    { eapply held_trans; [exact _|exact Hsame|]. eapply held_sub; [|exact Hs3]. multiset_solver. }
    split; [done|]. split; [done|]. rewrite (ev_env _ _ _ Hev).
    eapply stable_held; [exact _|exact Hs3|multiset_solver|exact Hv].
Qed.

Lemma process_ok {A} (m : M K (pyexc + A)) Q w :
  wp m Q w -> exists r w', process m w = (r, w') /\ Q r w'.
Proof. intros (r & w' & E & Hq)%wp_Ret. exists r, w'. unfold process. by rewrite E. Qed.

(** A call and its result. *)
Theorem ask_function_ok {A} (read : ptr -> M K (option A)) (datum : A -> pydatum)
    name args rho w E (P : A -> K -> Prop) :
  (forall a, reads_as read (datum a) a) ->
  in_order w rho -> promises name args rho w E (by_looks datum P) ->
  exists r w', ask_function signed_char runtime_text read name args w = (r, w') /\
    in_order w' rho /\ held_rel eq rho w w' /\
    match r with inl e => E e (w_env w') | inr a => P a (w_env w') end.
Proof.
  intros Hr Ho Hm. apply process_ok. apply wp_bind.
  eapply wp_mono; [by apply (call_function_ok name args rho w E (by_looks datum P))|].
  intros r w1. by apply (read_result_ok eq).
Qed.
End calls.
