(* ===== verification/ExtensionCalls.v ===== *)
(** * What the functions of the module promise a script

    For each function the scripts call: the requests it makes of the kernel,
    and the exception or value they end in, as facts about the system's state
    before and after. *)
From S2P Require Import Prelude.
From S2P Require Import Platform.
From S2P Require Import CPython.
From S2P Require Import Objects.
From S2P Require Import RefCount.
From S2P Require Import Typing.
From S2P Require Import Containers.
From S2P Require Import Sound.
From S2P Require Import Stdio.
From S2P Require Import EthtoolH.
From S2P Require Import Ioctl.
From S2P Require Import IoctlFacts.
From S2P Require Import StabFacts.
From S2P Require Import StructDesc.
From S2P Require Import StructDescFacts.
From S2P Require Import Devices.
From S2P Require Import DevicesFacts.
From S2P Require Import EtherSound.
From S2P Require Import EtherObjSound.
From S2P Require Import EthtoolModule.
From S2P Require Import Contract.
From S2P Require Import Session.
From S2P Require Import Script.
From S2P Require Import Extension.
From S2P Require Import ExtensionFacts.

Section promises.
Context {K : Type} `{PL : PlatformLaws K} {UP : NetlinkUp K} {SU : SystemUp K}.
Context (signed_char : bool) (runtime_text : exc_kind -> string).
Implicit Types (w : world K) (rho : gmultiset positive).

(** A device name: text without NUL. *)
Definition named (i : string) : Prop := has_nul i = false /\ utf8_valid i = true.

(** One ethtool request for a device: the [errno] or the answer, and the state of
    the system. *)
Definition ask_kernel (request : list mbyte) (i : string) (k : K) : (Z + list mbyte) * K :=
  let '((fd, e), k1) := sys_socket k in
  if fd <? 0 then (inl e, k1)
  else
    let '(rep, k2) := sys_ioctl fd SIOCETHTOOL (make_ifreq IFNAMSIZ IFRU_SIZE i) request k1 in
    (if io_ret rep <? 0 then inl (io_errno rep) else inr (io_data rep), k2).

(** The exception for an [errno]. *)
Definition os_error (n : Z) : Script.pyexc :=
  Raised "IOError" ("[Errno " +:+ pretty n +:+ "] " +:+ strerror n).

Lemma os_error_eq k n : k ∈ [PyExc_OSError; PyExc_IOError] ->
  py_exception runtime_text (PyExc k (ExcErrno n)) = os_error n.
Proof. rewrite !elem_of_cons, elem_of_nil. by intros [->|[->|[]]]. Qed.

(** ** Arguments *)

Lemma name_fits w rho l rc i :
  in_order w rho -> l ∈ rho -> w_heap w !! l = Some (Obj rc (VStr i)) -> named i ->
  args_fit w [Loc l].
Proof.
  intros Ho Hl Hi [Hn Hu]. split.
  - intros names. eapply asks_text; [exact Hi|]. by rewrite cstr_no_nul.
  - intros l' o [= ->]%list_elem_of_singleton Hl'.
    pose proof (io_sound _ _ Ho) as (lk & Hs & _).
    destruct (held_live w (lk ⊎ rho) l) as (o' & ? & ?); [apply Hs|multiset_solver|].
    by simplify_eq.
  - intros l' rc' es k p [= ->]%list_elem_of_singleton Hl'. by simplify_eq.
Qed.

Lemma looks_held rho ps w : in_order w (ptrs_refs ps ⊎ rho) -> Forall is_ref ps ->
  Forall (held (ptrs_refs ps ⊎ rho)) ps.
Proof.
  intros _ Hr. apply list.Forall_forall. intros p Hp.
  pose proof (proj1 (list.Forall_forall _ _) Hr p Hp) as Hrp.
  destruct p as [| | |l]; try done. simpl. apply elem_ptrs_refs in Hp. multiset_solver.
Qed.

(** A function that is given a device name. *)
Lemma promise_name name (f : list ptr -> M K ptr) i rho w E V :
  named i -> (forall ps, call_method signed_char name ps = Some (f ps)) ->
  (forall l rc rho1 w1, in_order w1 rho1 -> w_heap w1 !! l = Some (Obj rc (VStr i)) ->
     w_env w1 = w_env w -> wp (f [Loc l]) (result_ok runtime_text E V) w1) ->
  promises signed_char runtime_text name [AStr i] rho w E V.
Proof.
  intros Hi Hf Hv ps w1 Ho Hr Hl He. exists (f ps). split; [apply Hf|].
  apply Forall2_cons_inv_r in Hl as (p & ps' & (l & rc & -> & Hx) & ->%Forall2_nil_inv_r & ->).
  pose proof (looks_held _ _ _ Ho Hr) as Hh.
  apply wp_and; [|by eapply Hv].
  eapply (call_ok signed_char); [exact Ho|apply Hf|exact Hh|].
  eapply name_fits; [exact Ho|simpl; multiset_solver|exact Hx|exact Hi].
Qed.

(** A function without arguments. *)
Lemma promise_nothing name (f : list ptr -> M K ptr) rho w E V :
  (forall ps, call_method signed_char name ps = Some (f ps)) ->
  (forall rho1 w1, in_order w1 rho1 -> w_env w1 = w_env w ->
     wp (f []) (result_ok runtime_text E V) w1) ->
  promises signed_char runtime_text name [] rho w E V.
Proof.
  intros Hf Hv ps w1 Ho Hr Hl He. exists (f ps). split; [apply Hf|].
  inversion Hl; subst. apply wp_and; [|by eapply Hv].
  eapply (call_ok signed_char); [exact Ho|apply Hf|by constructor|].
  split; [by inversion 1|by intros ? ? ?%elem_of_nil|by intros ? ? ? ? ? ?%elem_of_nil].
Qed.

(** ** Structures *)

(** The dictionary that shows an answer. *)
Definition shown (table : list struct_desc) (data : list mbyte) : pydict :=
  map (fun d => (sd_name d, default 0 (read_u32 (sd_offset d) data))) table.

Lemma shown_keys table data : (shown table data).*1 = map sd_name table.
Proof. unfold shown. induction table; [done|]. simpl. by f_equal. Qed.

Lemma shows_entry h table data es :
  Forall2 (shows h data) table es -> Forall2 (entry_is h) es (shown table data).
Proof.
  induction 1 as [|d e table es (En & v & Hv & l & El & Hl) _ IH]; constructor; [|done].
  split; [done|]. simpl. rewrite Hv. by exists l, 1.
Qed.

Lemma struct_words cmd fs table i (k : K) fd e k1 rep k2 d :
  tiles fs table -> fs ∈ [ethtool_value; ethtool_coalesce; ethtool_ringparam] ->
  sys_socket k = ((fd, e), k1) ->
  sys_ioctl fd SIOCETHTOOL (make_ifreq IFNAMSIZ IFRU_SIZE i) (get_request cmd fs) k1 = (rep, k2) ->
  0 <= io_ret rep -> d ∈ table -> exists v, read_u32 (sd_offset d) (io_data rep) = Some v.
Proof.
  intros Ht Hfs Hs Hio Hr Hd. pose proof (so_ret _ (SU k) fd (make_ifreq IFNAMSIZ IFRU_SIZE i)
    (get_request cmd fs)) as H0.
  assert (length (get_request cmd fs) = sizeof fs) as Hlen.
  { assert (4 <= sizeof fs)%nat by (rewrite (tile_all _ _ Ht); lia).
    unfold get_request. rewrite length_app, length_fmap, length_le_bytes, length_replicate. lia. }
  pose proof (so_words _ (SU k) fd (make_ifreq IFNAMSIZ IFRU_SIZE i) _ fs Hfs Hlen) as Hx.
  unfold ethtool_answer in *. rewrite Hs in *. cbn [snd] in *. rewrite Hio in *. cbn [fst] in *.
  destruct (tiles_fit fs table d Ht Hd). apply Hx; [lia| |done].
  apply list_elem_of_lookup in Hd as [j Hd]. rewrite (tile_offset _ _ Ht j d Hd). lia.
Qed.

(** A structure getter asks once and shows the answer. *)
Lemma get_struct_promise name cmd fs table i rho w :
  tiles fs table -> fs ∈ [ethtool_value; ethtool_coalesce; ethtool_ringparam] -> named i ->
  (forall ps, call_method signed_char name ps = Some (get_struct (K := K) cmd fs table ps)) ->
  promises signed_char runtime_text name [AStr i] rho w
    (fun e k => exists n, ask_kernel (get_request cmd fs) i (w_env w) = (inl n, k) /\ e = os_error n)
    (by_looks PDict (fun d k => exists data,
       ask_kernel (get_request cmd fs) i (w_env w) = (inr data, k) /\ d = shown table data)).
Proof.
  intros Ht Hfs Hi Hf. apply (promise_name name _ i rho w _ _ Hi Hf).
  intros l rc rho1 w1 Ho Hl He. pose proof (io_sound _ _ Ho) as (lk & Hs & _).
  eapply wp_mono.
  { apply (get_struct_ok cmd fs table [Loc l] i (lk ⊎ rho1)); [done| |apply Hs|].
    - split; [apply Hi|by exists l, rc].
    - intros. by eapply struct_words. }
  intros r w' Hr. unfold result_ok, ask_kernel. rewrite <- He.
  destruct (sys_socket (w_env w1)) as [[fd e] k1]. destruct (fd <? 0).
  - destruct Hr as (-> & -> & _ & ->). split; [done|]. exists e. split; [done|].
    cbn [is_null]. apply os_error_eq. left.
  - destruct (sys_ioctl fd _ _ _ k1) as [rep k2]. destruct Hr as (_ & -> & Hr).
    destruct (io_ret rep <? 0).
    + destruct Hr as (-> & _ & ->). split; [done|]. exists (io_errno rep). split; [done|].
      cbn [is_null]. apply os_error_eq. right. left.
    + destruct Hr as (lr & es & -> & Hlr & Hsh & _ & ->). rewrite (io_err _ _ Ho).
      split; [done|]. exists (shown table (io_data rep)). split; [|by exists (io_data rep)].
      exists lr, 1, es. split; [done|]. split; [done|]. by apply shows_entry.
Qed.

(** *** Setters *)

(** The values of a dictionary in the order of a table. *)
Definition field_values (table : list struct_desc) (d : pydict) : list Z :=
  (fun f => default 0 (pd_get d (sd_name f))) <$> table.

Definition in_long (z : Z) : Prop := LONG_MIN <= z <= LONG_MAX.

(** The request that carries a dictionary. *)
Definition dict_request (cmd : Z) (fs : list cfield) (table : list struct_desc)
    (d : pydict) : list mbyte :=
  set_request cmd fs table (VInt <$> field_values table d).

Lemma entry_get h es d k z :
  Forall2 (entry_is h) es d -> pd_get d k = Some z ->
  exists p, dict_get es k = Some p /\ int_is h p z.
Proof.
  induction 1 as [|[k1 p] [k2 z'] es d [Ek Hv] _ IH]; [done|]. cbn in Ek, Hv |- *. subst k2.
  destruct (decide (k = k1)); [intros [= <-]; by exists p|apply IH].
Qed.

Lemma dict_entries w l table d :
  looks (w_heap w) (Loc l) (PDict d) -> d.*1 ≡ₚ map sd_name table ->
  entries w (Loc l) table (VInt <$> field_values table d).
Proof.
  intros (l' & rc & es & [= <-] & Hl & Hf) Hk. exists l, rc, es. split; [done|].
  split; [done|]. unfold field_values. rewrite <- list_fmap_compose.
  apply Forall2_fmap_r, Forall_Forall2_diag, list.Forall_forall. intros f Hfd.
  assert (sd_name f ∈ d.*1) as [z Hz]%pd_get_keys by (rewrite Hk; by apply list_elem_of_fmap_2).
  destruct (entry_get _ _ _ _ _ Hf Hz) as (p & Hp & lp & rcp & -> & Hlp).
  exists lp, rcp. split; [done|]. cbn. by rewrite Hz.
Qed.

(** A world that differs in nothing the invariant sees. *)
Lemma follows_frame w w' r rho :
  in_order w (ptr_refs r ⊎ rho) -> w_heap w' = w_heap w -> w_next w' = w_next w -> w_nlc w' = w_nlc w ->
  w_nl w' = w_nl w -> w_nlnext w' = w_nlnext w -> w_fds w' ⊆ w_fds w -> w_files w' = w_files w ->
  follows eq rho w r w'.
Proof.
  intros [(lk & Hs & Hi) He Hd Hf] Eh En Ec El Ex Ed Ef.
  split; [|intros i o Ho; exists o; by rewrite Eh]. split; [|done|simpl; set_solver|simpl; congruence].
  exists lk. split; [|simpl; by rewrite Eh].
  eapply sound_frame; [exact Hs|done..|simpl; rewrite Ex; lia].
Qed.

Lemma raise_all_out zs w :
  raise_all (VInt <$> zs) w = w /\ Forall in_long zs \/
  ~ Forall in_long zs /\ exists x, raise_all (VInt <$> zs) w = set_err (Some x) w.
Proof.
  revert w. induction zs as [|z zs IH]; intros w; [by left|].
  rewrite fmap_cons. cbn [raise_all as_long]. unfold in_long.
  rewrite list.Forall_cons. destruct (decide (LONG_MIN <= z <= LONG_MAX)) as [Hz|Hz]; cbn [snd raised].
  - destruct (IH w) as [[-> Hs]|[Hs Hx]]; [by left|right]. split; [by intros []|done].
  - right. split; [by intros []|].
    destruct (IH (set_err (Some (PyExc PyExc_OverflowError ExcRuntime)) w)) as [[-> _]|[_ [x ->]]];
      eauto.
Qed.

(** A structure setter asks once, with the fields of the dictionary; numbers
    beyond a [long] are found out afterwards. *)
Lemma set_struct_promise name cmd fs table i d rho w :
  tiles fs table -> named i -> d.*1 ≡ₚ map sd_name table ->
  (forall ps, call_method signed_char name ps = Some (set_struct (K := K) cmd fs table ps)) ->
  promises signed_char runtime_text name [AStr i; ADict d] rho w
    (fun e k => exists r, ask_kernel (dict_request cmd fs table d) i (w_env w) = (r, k) /\
       match r with
       | inl n => e = os_error n
       | inr _ => ~ Forall in_long (field_values table d) /\
           e = interpreter_error runtime_text PyExc_SystemError
       end)
    (by_looks (fun _ : unit => PNone) (fun _ k => Forall in_long (field_values table d) /\
       exists data, ask_kernel (dict_request cmd fs table d) i (w_env w) = (inr data, k))).
Proof.
  intros Ht Hi Hd Hf ps w1 Ho Hr Hl He. exists (set_struct cmd fs table ps). split; [apply Hf|].
  apply Forall2_cons_inv_r in Hl as (p & ps' & (l & rc & -> & Hx) & Hl & ->).
  apply Forall2_cons_inv_r in Hl as (q & ps'' & Hq & ->%Forall2_nil_inv_r & ->).
  pose proof Hq as (ld & _ & _ & -> & _).
  pose proof (dict_entries w1 ld table d Hq Hd) as Hen.
  unfold wp. rewrite (set_struct_eq cmd fs table _ l rc i (Loc ld) w1 Ht (proj1 Hi) Hx Hen).
  fold (dict_request cmd fs table d). set (rq := dict_request cmd fs table d).
  unfold c_result, result_ok, ask_kernel. rewrite <- He.
  pose proof (fun fd => so_ret _ (SU (w_env w1)) fd (make_ifreq IFNAMSIZ IFRU_SIZE i) rq) as H0.
  unfold ethtool_answer in H0.
  set (w2 := raise_all (VInt <$> field_values table d) w1).
  assert (w_heap w2 = w_heap w1 /\ w_next w2 = w_next w1 /\ w_nlc w2 = w_nlc w1 /\
    w_nl w2 = w_nl w1 /\ w_nlnext w2 = w_nlnext w1 /\ w_files w2 = w_files w1)
    as (E1 & E2 & E3 & E4 & E5 & E6)
    by (unfold w2; by destruct (raise_all_eq (VInt <$> field_values table d) w1) as [-> | [x ->]]).
  assert (w_fds w2 = w_fds w1) as E7
    by (unfold w2; by destruct (raise_all_eq (VInt <$> field_values table d) w1) as [-> | [x ->]]).
  destruct (sys_socket (w_env w1)) as [[fd n] k1] eqn:Es. destruct (fd <? 0).
  { split.
    - apply (follows_frame w1); simpl; try done; [|by rewrite E7].
      eapply in_order_eq; [exact Ho|]. simpl. multiset_solver.
    - simpl. split; [done|]. exists (inl n). split; [done|]. apply os_error_eq. left. }
  specialize (H0 fd). cbn [snd] in H0.
  destruct (sys_ioctl fd SIOCETHTOOL _ rq k1) as [rep k2]. cbn [fst] in H0. cbv zeta.
  assert (forall r, ptr_refs r = ∅ -> forall w3, w_heap w3 = w_heap w1 -> w_next w3 = w_next w1 ->
    w_nlc w3 = w_nlc w1 -> w_nl w3 = w_nl w1 -> w_nlnext w3 = w_nlnext w1 ->
    w_fds w3 = w_fds w1 ∖ {[fd]} -> w_files w3 = w_files w1 ->
    follows eq (ptrs_refs [Loc l; Loc ld] ⊎ rho) w1 r w3) as Hio.
  { intros r Hrr w3 ??????. apply (follows_frame w1); try done; [|set_solver].
    eapply in_order_eq; [exact Ho|]. rewrite Hrr. multiset_solver. }
  destruct (Z.ltb_spec (io_ret rep) 0) as [Hn|Hn].
  { split; [by apply Hio|]. simpl. split; [done|]. exists (inl (io_errno rep)).
    split; [done|]. apply os_error_eq. right. left. }
  rewrite (proj2 (Z.eqb_eq _ _)) by lia. split; [by apply Hio|].
  cbn [w_err set_fds set_env w_env is_null].
  destruct (raise_all_out (field_values table d) w1) as [[E Hin]|[Hout [x E]]]; fold w2 in E.
  - rewrite E. rewrite (io_err _ _ Ho). split; [done|]. exists tt. split; [done|].
    split; [done|]. by exists (io_data rep).
  - rewrite E. simpl. split; [done|]. by exists (inr (io_data rep)).
Qed.
End promises.
