(* ===== verification/ExtensionQueries.v ===== *)
(** * What the queries and the device lists promise a script

    The functions of the module that take a device name and answer a number or
    a text, those that set one value, and the two that list devices. *)
From S2P Require Import Prelude.
From S2P Require Import Platform.
From S2P Require Import CPython.
From S2P Require Import Objects.
From S2P Require Import RefCount.
From S2P Require Import Typing.
From S2P Require Import Containers.
From S2P Require Import Sound.
From S2P Require Import Stdio.
From S2P Require Import EthtoolH.
From S2P Require Import Ioctl.
From S2P Require Import IoctlFacts.
From S2P Require Import StabFacts.
From S2P Require Import Devices.
From S2P Require Import DevicesFacts.
From S2P Require Import EtherSound.
From S2P Require Import EtherObjSound.
From S2P Require Import EthtoolModule.
From S2P Require Import Contract.
From S2P Require Import Session.
From S2P Require Import Script.
From S2P Require Import Extension.
From S2P Require Import ExtensionFacts.
From S2P Require Import ExtensionCalls.

Section promises.
Context {K : Type} `{PL : PlatformLaws K} {UP : NetlinkUp K} {SU : SystemUp K}.
Context (signed_char : bool) (runtime_text : exc_kind -> string).
Implicit Types (w : world K) (rho : gmultiset positive).
Local Abbreviation os_error := (os_error (K := K)).
Local Abbreviation result_ok := (result_ok runtime_text).

(** Ways a function ends. *)
Lemma ends_null E V w x :
  w_err w = Some x -> E (py_exception runtime_text x) (w_env w) -> result_ok E V Null w.
Proof. intros He Hx. unfold result_ok. by rewrite He. Qed.

Lemma ends_value E V w l :
  w_err w = None -> V (w_heap w) (Loc l) (w_env w) -> result_ok E V (Loc l) w.
Proof. intros He Hv. unfold result_ok. by rewrite He. Qed.

Lemma alloc_ends E V w v :
  w_err w = None -> (forall h l, h !! l = Some (Obj 1 v) -> V h (Loc l) (w_env w)) ->
  wp (alloc v) (result_ok E V) w.
Proof.
  intros He Hv. unfold wp. rewrite alloc_eq. apply ends_value; [done|]. simpl.
  apply Hv, lookup_insert_eq.
Qed.

(** ** One value *)

Lemma get_value_promise name cmd i rho w :
  named i -> (forall ps, call_method signed_char name ps = Some (get_value (K := K) cmd ps)) ->
  promises signed_char runtime_text name [AStr i] rho w
    (fun e k => exists n, ask_kernel (value_request cmd None) i (w_env w) = (inl n, k) /\
       e = os_error n)
    (by_looks PInt (fun z k => exists data,
       ask_kernel (value_request cmd None) i (w_env w) = (inr data, k) /\
       z = s32 (default 0 (read_u32 4 data)))).
Proof.
  intros Hi Hf. apply (promise_name signed_char runtime_text name _ i rho w _ _ Hi Hf).
  intros l rc rho1 w1 Ho Hl He.
  assert (PyArg_ParseTuple_s [Loc l] w1 = Ret (Some i) w1) as Hp
    by (apply parse_s_name; split; [apply Hi|by exists l, rc]).
  unfold wp. rewrite (get_value_eq cmd [Loc l] i w1 Hp). unfold ask_kernel. rewrite <- He.
  pose proof (fun fd => so_ret _ (SU (w_env w1)) fd (make_ifreq IFNAMSIZ IFRU_SIZE i)
    (value_request cmd None)) as H0.
  pose proof (fun fd => fills_value w1 (SU (w_env w1)) fd (make_ifreq IFNAMSIZ IFRU_SIZE i)
    (value_request cmd None) eq_refl) as Hx. unfold ethtool_answer in H0.
  destruct (sys_socket (w_env w1)) as [[fd e] k1]. specialize (H0 fd). specialize (Hx fd).
  cbn [snd] in *. destruct (fd <? 0).
  { eapply ends_null; [done|]. exists e. split; [done|]. apply os_error_eq. left. }
  destruct (sys_ioctl fd SIOCETHTOOL _ _ k1) as [rep k2]. cbn [fst] in *. cbv zeta in *.
  destruct (Z.ltb_spec (io_ret rep) 0) as [Hn|Hn].
  { eapply ends_null; [done|]. exists (io_errno rep). split; [done|].
    apply os_error_eq. right. left. }
  assert (io_ret rep = 0) as Hr by lia. rewrite (proj2 (Z.eqb_eq _ _) Hr).
  destruct (Hx Hr) as [z Hz]. rewrite Hz.
  apply alloc_ends; [apply Ho|]. intros h l' Hl'. exists (s32 z). split; [by exists l', 1|].
  exists (io_data rep). by rewrite Hz.
Qed.

Definition in_int (z : Z) : Prop := INT_MIN <= z <= INT_MAX.

#[export] Instance in_int_dec z : Decision (in_int z).
Proof. unfold in_int. apply _. Defined.

(** A number beyond an [int] is refused before the kernel is asked. *)
Lemma set_value_promise name cmd i v rho w :
  named i -> (forall ps, call_method signed_char name ps = Some (set_value (K := K) cmd ps)) ->
  promises signed_char runtime_text name [AStr i; AInt v] rho w
    (fun e k => if decide (in_int v)
       then exists n, ask_kernel (value_request cmd (Some v)) i (w_env w) = (inl n, k) /\
              e = os_error n
       else e = interpreter_error runtime_text PyExc_OverflowError /\ k = w_env w)
    (by_looks (fun _ : unit => PNone) (fun _ k => in_int v /\ exists data,
       ask_kernel (value_request cmd (Some v)) i (w_env w) = (inr data, k))).
Proof.
  intros Hi Hf ps w1 Ho Hr Hl He. exists (set_value cmd ps). split; [apply Hf|].
  pose proof (looks_held rho ps w1 Ho Hr) as Hh.
  apply Forall2_cons_inv_r in Hl as (p & ps' & (l & rc & -> & Hx) & Hl & ->).
  apply Forall2_cons_inv_r in Hl as (q & ps'' & (l2 & rc2 & -> & Hq) & ->%Forall2_nil_inv_r & ->).
  apply wp_and.
  { eapply (call_ok signed_char); [exact Ho|apply Hf|exact Hh|]. split.
    - intros names Ha. inversion Ha.
    - intros l' o Hin Hl'. pose proof (io_sound _ _ Ho) as (lk & Hs & _).
      destruct (held_live w1 (lk ⊎ (ptrs_refs [Loc l; Loc l2] ⊎ rho)) l') as (o' & ? & ?);
        [apply Hs| |by simplify_eq].
      apply elem_ptrs_refs in Hin. multiset_solver.
    - intros l' rc' es k p Hin Hl'. rewrite !elem_of_cons, elem_of_nil in Hin.
      destruct Hin as [[= ->]|[[= ->]|[]]]; simplify_eq. }
  destruct (decide (in_int v)) as [Hv|Hv].
  - unfold wp. rewrite (set_value_eq cmd l rc i l2 rc2 v w1 (proj1 Hi) Hx Hq Hv).
    unfold ask_kernel. rewrite <- He. destruct (sys_socket (w_env w1)) as [[fd e] k1].
    destruct (fd <? 0).
    { eapply ends_null; [done|]. exists e. split; [done|]. apply os_error_eq. left. }
    destruct (sys_ioctl fd SIOCETHTOOL _ _ k1) as [rep k2]. cbv zeta.
    destruct (io_ret rep <? 0).
    { eapply ends_null; [done|]. exists (io_errno rep). split; [done|].
      apply os_error_eq. right. left. }
    unfold ExtensionFacts.result_ok. simpl. rewrite (io_err _ _ Ho).
    split; [done|]. exists tt. split; [done|]. split; [done|]. by exists (io_data rep).
  - unfold wp, set_value, dev_set_int_value. rewrite bind_assoc. erewrite bind_Ret.
    2:{ cbn [PyArg_ParseTuple_si]. unfold conv_s. rewrite bind_assoc.
        erewrite bind_Ret by (by apply peek_eq). cbn [ob_val]. rewrite (proj1 Hi), bind_ret_l.
        unfold conv_i. rewrite bind_assoc. erewrite bind_Ret by (by apply peek_eq).
        cbn [ob_val]. rewrite decide_False by done. reflexivity. }
    eapply ends_null; [reflexivity|]. by split.
Qed.

(** ** Texts and flags *)

(** An [OSError] of some number. *)
Definition some_os_error (e : Script.pyexc) : Prop := exists n, e = os_error n.

(** One request about an interface: the [errno] or the kernel's answer. *)
Definition ask_interface (req : Z) (i : string) (k : K) : Z + ifreq :=
  let '((fd, e), k1) := sys_socket k in
  if fd <? 0 then inl e
  else
    let rep := (sys_ioctl fd req (make_ifreq IFNAMSIZ IFRU_SIZE i) [] k1).1 in
    if io_ret rep <? 0 then inl (io_errno rep) else inr (io_ifr rep).

Lemma outcome_ends {A} req i (datum : A -> pydatum) (value : ifreq -> A) v w0 w r w' :
  w_err w = None -> w_env w = w_env w0 ->
  (forall h l ifr, h !! l = Some (Obj 1 (v ifr)) -> looks h (Loc l) (datum (value ifr))) ->
  query_outcome req (make_ifreq IFNAMSIZ IFRU_SIZE i) [] (fun ifr _ => new_value (v ifr) w) w r w' ->
  result_ok (fun e _ => exists n, ask_interface req i (w_env w0) = inl n /\ e = os_error n)
    (by_looks datum (fun a _ => exists ifr, ask_interface req i (w_env w0) = inr ifr /\
       a = value ifr)) r w'.
Proof.
  intros He Ek Hv. unfold query_outcome, ask_interface. rewrite <- Ek.
  destruct (sys_socket (w_env w)) as [[fd e] k1]. destruct (fd <? 0).
  { intros [-> Hx]. eapply ends_null; [exact Hx|]. rewrite os_error_eq by left. by exists e. }
  destruct (sys_ioctl fd req _ [] k1) as [rep k2]. cbn [fst]. intros (_ & _ & Hr).
  destruct (io_ret rep <? 0).
  { destruct Hr as [-> Hx]. eapply ends_null; [exact Hx|].
    rewrite os_error_eq by (right; left). by exists (io_errno rep). }
  destruct Hr as (-> & Eh & Ex). apply ends_value; [by rewrite Ex|].
  exists (value (io_ifr rep)). split; [|by exists (io_ifr rep)].
  apply Hv. rewrite Eh. apply lookup_insert_eq.
Qed.

Lemma text_query_promise name f req fmt i rho w :
  (f, req, fmt) ∈ text_queries signed_char -> named i ->
  (forall ps, call_method signed_char name ps = Some (f ps)) ->
  promises signed_char runtime_text name [AStr i] rho w
    (fun e _ => exists n, ask_interface req i (w_env w) = inl n /\ e = os_error n)
    (by_looks PStr (fun s _ => exists ifr, ask_interface req i (w_env w) = inr ifr /\
       s = fmt (fun j => byte_val (sa_data ifr j)))).
Proof.
  intros Hq Hi Hf. apply (promise_name signed_char runtime_text name _ i rho w _ _ Hi Hf).
  intros l rc rho1 w1 Ho Hl He. eapply wp_mono.
  { apply (address_query_outcome signed_char f req fmt [Loc l] i w1 Hq).
    split; [apply Hi|by exists l, rc]. }
  intros r w'. apply outcome_ends; [apply Ho|exact He|].
  intros h l' ifr Hl'. by exists l', 1.
Qed.

Lemma get_flags_promise i rho w :
  named i ->
  promises signed_char runtime_text "get_flags" [AStr i] rho w
    (fun e _ => exists n, ask_interface SIOCGIFFLAGS i (w_env w) = inl n /\ e = os_error n)
    (by_looks PInt (fun z _ => exists ifr, ask_interface SIOCGIFFLAGS i (w_env w) = inr ifr /\
       z = ifr_flags ifr)).
Proof.
  intros Hi. apply (promise_name signed_char runtime_text "get_flags" get_flags i rho w _ _ Hi
    ltac:(reflexivity)).
  intros l rc rho1 w1 Ho Hl He. eapply wp_mono.
  { apply (get_flags_outcome [Loc l] i w1). split; [apply Hi|by exists l, rc]. }
  intros r w'. apply (outcome_ends SIOCGIFFLAGS i PInt ifr_flags); [apply Ho|exact He|].
  intros h l' ifr Hl'. by exists l', 1.
Qed.

(** ** Driver information *)

(** The C string in a field of driver information. *)
Definition info_text (field : string) (data : list mbyte) : option string :=
  cstr_of_bytes (drop (offsetof ethtool_drvinfo field) data).

(** What a question in a buffer of [n] bytes is told, [None] for nothing, and the
    state of the system then; where the kernel refuses it is [other] that tells. *)
Definition info_told (n : nat) (field : string) (other : K -> option string -> K -> Prop)
    (i : string) (k : K) (r : option string) (k' : K) : Prop :=
  let '((fd, _), k1) := sys_socket k in
  if fd <? 0 then r = None /\ k' = k1
  else
    let '(rep, k2) :=
      sys_ioctl fd SIOCETHTOOL (make_ifreq IFNAMSIZ IFRU_SIZE i) (drvinfo_buf n) k1 in
    if io_ret rep <? 0 then other k2 r k' else r = info_text field (io_data rep) /\ k' = k2.

Definition nothing_told (k : K) (r : option string) (k' : K) : Prop := r = None /\ k' = k.

(** The PCMCIA table: the driver of the first card that is the device. *)
Definition stab_told (i : string) (k : K) (r : option string) (k' : K) : Prop :=
  k' = (sys_fopen stab_path k).2 /\
  match (sys_fopen stab_path k).1 with
  | inl _ => r = None
  | inr t => exists es, t = lines (map stab_text es) /\ Forall stab_ok es /\ r = find_driver i es
  end.

Definition businfo_told (i : string) : K -> option string -> K -> Prop :=
  info_told 1024 "bus_info" nothing_told i.
Definition module_told (i : string) : K -> option string -> K -> Prop :=
  info_told 2048 "driver" (stab_told i) i.

(** An [OSError] where nothing is told, or what is told is not UTF-8. *)
Definition driver_error (told : K -> option string -> K -> Prop) (k : K)
    (e : Script.pyexc) (k' : K) : Prop :=
  told k None k' /\ some_os_error e \/
  e = interpreter_error runtime_text PyExc_UnicodeDecodeError /\
    exists s, told k (Some s) k' /\ utf8_valid s = false.

Local Abbreviation text_told told k :=
  (by_looks PStr (fun s k' => told k (Some s) k' /\ utf8_valid s = true)).

Lemma result_ok_mono (E E' : Script.pyexc -> K -> Prop) V V' r w :
  result_ok E V r w -> (forall e, E e (w_env w) -> E' e (w_env w)) ->
  (V (w_heap w) r (w_env w) -> V' (w_heap w) r (w_env w)) -> result_ok E' V' r w.
Proof.
  unfold ExtensionFacts.result_ok. intros Hr He Hv.
  destruct (w_err w), (is_null r); naive_solver.
Qed.

Lemma text_ends E V s w :
  w_err w = None ->
  (utf8_valid (cstr s) = false -> E (interpreter_error runtime_text PyExc_UnicodeDecodeError)
     (w_env w)) ->
  (utf8_valid (cstr s) = true -> V (cstr s) (w_env w)) ->
  wp (PyStr_FromString s) (result_ok E (by_looks PStr V)) w.
Proof.
  intros He Hu Hv. unfold PyStr_FromString. destruct (utf8_valid (cstr s)).
  - apply alloc_ends; [done|]. intros h l Hl. exists (cstr s). split; [by exists l, 1|by apply Hv].
  - eapply ends_null; [reflexivity|]. by apply Hu.
Qed.

Lemma driver_promise name n field failed other i rho w :
  n ∈ [1024%nat; 2048%nat] -> field ∈ ["driver"; "bus_info"] -> named i ->
  (forall ps, call_method signed_char name ps = Some (name_query (K := K) SIOCETHTOOL
     IFNAMSIZ IFRU_SIZE (drvinfo_buf n) failed
     (fun _ buf => PyStr_FromArray (drop (offsetof ethtool_drvinfo field) buf)) ps)) ->
  (forall e w1, w_err w1 = Some (PyExc PyExc_IOError (ExcErrno e)) ->
     (n = 2048%nat -> stab_readable (w_env w1)) ->
     wp (failed i) (result_ok (fun e k' => other (w_env w1) None k' /\ some_os_error e)
       (text_told other (w_env w1))) w1) ->
  promises signed_char runtime_text name [AStr i] rho w
    (driver_error (info_told n field other i) (w_env w))
    (text_told (info_told n field other i) (w_env w)).
Proof.
  intros Hn Hfd Hi Hf Hfail. apply (promise_name signed_char runtime_text name _ i rho w _ _ Hi Hf).
  intros l rc rho1 w1 Ho Hl He. unfold name_query.
  eapply wp_step; [apply parse_s_name; split; [apply Hi|by exists l, rc]|]. cbn beta iota.
  unfold wp at 1. rewrite dev_query_eq. rewrite He. unfold driver_error, info_told.
  set (ifr := make_ifreq IFNAMSIZ IFRU_SIZE i).
  pose proof (fun fd => so_ret _ (SU (w_env w)) fd ifr (drvinfo_buf n)) as H0.
  pose proof (fun fd => so_info _ (SU (w_env w)) fd ifr n field Hn Hfd) as Hx.
  pose proof (fun fd => so_stab _ (SU (w_env w)) fd ifr) as Hst.
  unfold ethtool_answer in H0, Hx, Hst.
  destruct (sys_socket (w_env w)) as [[fd e] k1].
  specialize (H0 fd). specialize (Hx fd). specialize (Hst fd).
  cbn [snd] in *. destruct (fd <? 0).
  { eapply ends_null; [reflexivity|]. left. split; [done|]. exists e. apply os_error_eq. left. }
  destruct (sys_ioctl fd SIOCETHTOOL ifr (drvinfo_buf n) k1) as [rep k2] eqn:Eio.
  cbn [fst] in *. cbv zeta. destruct (Z.ltb_spec (io_ret rep) 0) as [Hneg|Hpos].
  - eapply wp_mono.
    { apply (Hfail (io_errno rep)); [done|]. intros ->. rewrite Eio in Hst. exact Hst. }
    intros r w2 Hr. eapply result_ok_mono; [exact Hr|by left|done].
  - assert (io_ret rep = 0) as Hr by lia. destruct (Hx Hr) as [t Ht]. unfold PyStr_FromArray. rewrite Ht.
    apply text_ends; [apply Ho| |]; rewrite (cstr_of_bytes_cstr _ _ Ht).
    + intros Hu. right. split; [done|]. by exists t.
    + by split.
Qed.

Lemma get_businfo_promise i rho w :
  named i ->
  promises signed_char runtime_text "get_businfo" [AStr i] rho w
    (driver_error (businfo_told i) (w_env w)) (text_told (businfo_told i) (w_env w)).
Proof.
  intros Hi. eapply (driver_promise "get_businfo" 1024 "bus_info" no_fallback);
    [left|right; left|done|reflexivity|].
  intros e w1 Hx _. eapply ends_null; [exact Hx|]. split; [done|]. exists e.
  apply os_error_eq. right. left.
Qed.

Lemma get_module_promise i rho w :
  named i ->
  promises signed_char runtime_text "get_module" [AStr i] rho w
    (driver_error (module_told i) (w_env w)) (text_told (module_told i) (w_env w)).
Proof.
  intros Hi. eapply (driver_promise "get_module" 2048 "driver" pcmcia_fallback);
    [right; left|left|done|reflexivity|].
  intros e w1 Hx Hs. specialize (Hs eq_refl). unfold stab_readable in Hs. unfold stab_told.
  assert (some_os_error (py_exception runtime_text (PyExc PyExc_IOError (ExcErrno e))))
    as Herr by (exists e; apply os_error_eq; right; left).
  destruct (sys_fopen stab_path (w_env w1)) as [[n|t] k] eqn:Eo; cbn [fst snd] in *.
  - unfold wp, pcmcia_fallback, fopen, ask, mbind, M_bind. rewrite Eo.
    by eapply ends_null.
  - destruct Hs as (es & -> & Hes & Hd). unfold wp.
    rewrite (pcmcia_fallback_ok i w1 k es Hes Eo (Hd i)).
    destruct (find_driver i es) as [d|] eqn:Ed.
    + apply alloc_ends; [done|]. intros h l Hl. exists d.
      split; [by exists l, 1|]. split; [|by apply (Hd i)]. split; [done|]. by exists es.
    + eapply ends_null; [exact Hx|]. split; [|done]. split; [done|]. by exists es.
Qed.

(** ** Device lists *)

Lemma building_looks w0 rho ll ss w :
  building w0 rho ll (DStr <$> ss) w -> looks (w_heap w) (Loc ll) (PStrs ss).
Proof.
  intros [(ps & Hl & Hf) _ _ _ _]. exists ll, 1, ps. split; [done|]. split; [done|].
  rewrite list.Forall2_fmap_r in Hf. eapply list.Forall2_impl; [exact Hf|].
  intros p s (l & -> & Hs). by exists l, 1.
Qed.

Lemma list_ends E V w0 rho ll ss w :
  w_err w0 = None -> building w0 rho ll (DStr <$> ss) w -> V ss (w_env w) ->
  result_ok E (by_looks PStrs V) (Loc ll) w.
Proof.
  intros He Hb Hv. apply ends_value.
  - rewrite (on_err _ _ (bld_new _ _ _ _ _ Hb)). exact He.
  - exists ss. split; [|done]. by eapply building_looks.
Qed.

(** The devices /proc/net/dev lists: below its two lines of heading, the names at
    the beginning of what is read. *)
Definition devices_listed (k : K) (devs : list string) (k' : K) : Prop :=
  exists t l1 c1 e1 l2 body eof ls,
    sys_fopen _PATH_PROCNET_DEV k = (inr t, k') /\
    fgets 256 t = Some (l1, c1, e1) /\ fgets 256 c1 = Some (l2, body, eof) /\
    (if eof then ls = [] else reads 256 body ls) /\
    devs = (fun l => cstr (line_name l)) <$> ls.

(** The devices of /proc/net/dev can be asked about. *)
Lemma get_devices_promise rho w :
  promises signed_char runtime_text "get_devices" [] rho w (fun _ _ => False)
    (by_looks PStrs (fun ss k => Forall named ss /\ devices_listed (w_env w) ss k)).
Proof.
  apply (promise_nothing signed_char runtime_text "get_devices" get_devices); [done|].
  intros rho1 w1 Ho He. pose proof (io_sound _ _ Ho) as (lk & Hs & _).
  rewrite <- He. destruct (so_procnet _ (SU (w_env w1))) as (t & l1 & c1 & e1 & l2 & body & eof & ls &
    Ht & H1 & H2 & Hls & Hu).
  destruct (sys_fopen _PATH_PROCNET_DEV (w_env w1)) as [o k1] eqn:Eo. cbn [fst] in Ht. subst o.
  eapply wp_mono.
  { eapply (get_devices_ok [] w1 (lk ⊎ rho1)); [apply Hs|exact Eo|exact H1|exact H2|
      exact Hls|exact Hu]. }
  intros r w' (ll & -> & Hb & Hk).
  assert (map (fun l => DStr (cstr (line_name l))) ls
    = DStr <$> ((fun l => cstr (line_name l)) <$> ls)) as E by (by rewrite <- list_fmap_compose).
  rewrite E in Hb. eapply list_ends; [apply Ho|exact Hb|].
  split.
  - apply Forall_fmap. eapply list.Forall_impl; [exact Hu|].
    intros l Hl. split; [apply has_nul_cstr|]. exact Hl.
  - rewrite Hk. by exists t, l1, c1, e1, l2, body, eof, ls.
Qed.

Lemma get_active_devices_promise rho w :
  promises signed_char runtime_text "get_active_devices" [] rho w
    (fun e k => exists n, sys_getifaddrs (w_env w) = (inl n, k) /\ e = os_error n)
    (by_looks PStrs (fun ss k => Forall named ss /\
       exists ifa, sys_getifaddrs (w_env w) = (inr ifa, k) /\ ss = active_names [] ifa)).
Proof.
  apply (promise_nothing signed_char runtime_text "get_active_devices" get_active_devices);
    [done|].
  intros rho1 w1 Ho He. pose proof (io_sound _ _ Ho) as (lk & Hs & _).
  pose proof (so_ifaddrs _ (SU (w_env w1))) as Hu. unfold getifaddrs_text in Hu.
  rewrite <- He.
  destruct (sys_getifaddrs (w_env w1)) as [[e|ifa] k1] eqn:Ea; cbn [fst] in Hu.
  - unfold get_active_devices. eapply wp_step; [unfold ask; by rewrite Ea|].
    cbv beta iota. unfold wp. simpl. eapply ends_null; [reflexivity|].
    exists e. split; [done|]. apply os_error_eq. left.
  - eapply wp_mono.
    { apply (active_devices_ok [] w1 (lk ⊎ rho1) ifa k1); [apply Hs|done..]. }
    intros r w' (ll & -> & Hb & Hk). eapply list_ends; [apply Ho|exact Hb|]. split.
    + apply list.Forall_forall. intros s Hin.
      destruct (active_names_spec ifa [] (NoDup_nil_2)) as (_ & Hn & _).
      apply Hn in Hin as [[]%elem_of_nil|(x & Hx & <- & _)].
      destruct (proj1 (list.Forall_forall _ _) Hu x Hx). by split.
    + exists ifa. by rewrite Hk.
Qed.
End promises.
