(* ===== verification/ExtensionInfo.v ===== *)
(** * Objects of the extension in the hands of a script

    What pifconfig does with [etherinfo] objects and their addresses: it takes
    them from a list, asks them for addresses and reads the members of these. *)
From S2P Require Import Prelude.
From S2P Require Import Platform.
From S2P Require Import CPython.
From S2P Require Import Objects.
From S2P Require Import RefCount.
From S2P Require Import Typing.
From S2P Require Import Containers.
From S2P Require Import Sound.
From S2P Require Import Ioctl.
From S2P Require Import IoctlFacts.
From S2P Require Import Devices.
From S2P Require Import DevicesFacts.
From S2P Require Import NetlinkAddress.
From S2P Require Import AddressFacts.
From S2P Require Import EtherInfo.
From S2P Require Import EtherInfoFacts.
From S2P Require Import EtherSound.
From S2P Require Import EtherInfoObj.
From S2P Require Import EtherText.
From S2P Require Import EtherObjSound.
From S2P Require Import EthtoolModule.
From S2P Require Import Contract.
From S2P Require Import Stores.
From S2P Require Import Session.
From S2P Require Import Script.
From S2P Require Import Extension.
From S2P Require Import ExtensionFacts.
From S2P Require Import ExtensionCalls.
From S2P Require Import ExtensionQueries.

(** ** Objects, while what is reached of them is kept *)

Definition ether_at_ptr (h : gmap positive obj) (p : ptr) : Prop :=
  exists l rc e, p = Loc l /\ h !! l = Some (Obj rc (VEther e)).

(** An [etherinfo] of the device [name] with the index [i]. *)
Definition ether_is (h : gmap positive obj) (p : ptr) (name : string) (i : Z) : Prop :=
  exists l rc e, p = Loc l /\ h !! l = Some (Obj rc (VEther e)) /\
    str_is h (device e) name /\ index e = i.

Lemma ether_is_at h p name i : ether_is h p name i -> ether_at_ptr h p.
Proof. intros (l & rc & e & -> & Hl & _). by exists l, rc, e. Qed.

Definition list_of (P : gmap positive obj -> list ptr -> Prop) (h : gmap positive obj)
    (p : ptr) : Prop :=
  exists l rc ps, p = Loc l /\ h !! l = Some (Obj rc (VList ps)) /\ P h ps.

Section kept.
Context (R : pyval -> pyval -> Prop) `{!Keeps R}.
Context (h h' : gmap positive obj) (S : positive -> Prop) (Hk : kept R h h' S).

Lemma ether_at_kept p :
  (forall l, p = Loc l -> reach h S l) -> ether_at_ptr h p -> ether_at_ptr h' p.
Proof.
  intros Hp (l & rc & e & -> & Hl).
  destruct (Hk l _ (Hp l eq_refl) Hl) as ([rc' v'] & Hl' & [E|(e0 & e' & _ & E & _)]%(keeps_same));
    cbn [ob_val] in E; subst v'; by eexists l, rc', _.
Qed.

Lemma device_kept l rc e name :
  reach h S l -> h !! l = Some (Obj rc (VEther e)) -> str_is h (device e) name ->
  exists rc' e', h' !! l = Some (Obj rc' (VEther e')) /\ R (VEther e) (VEther e') /\
    str_is h' (device e') name.
Proof.
  intros Hr Hl Hn. destruct (Hk l _ Hr Hl) as ([rc' v'] & Hl' & Hv). cbn [ob_val] in Hv.
  assert (exists e', v' = VEther e' /\ device e' = device e) as (e' & -> & Hd).
  { destruct (keeps_same _ _ Hv) as [->|(e0 & e' & [= <-] & -> & Hd)]; eauto. }
  exists rc', e'. do 2 (split; [done|]). rewrite Hd. eapply (str_is_kept R h h' S _ _ Hk); [|exact Hn].
  intros i Hi. eapply reach_elem; [exact Hr|exact Hl|]. simpl. rewrite Hi. left.
Qed.

Lemma opt_is_kept p s :
  (forall l, p = Loc l -> reach h S l) -> opt_is h p s -> opt_is h' p s.
Proof. destruct s as [s|]; [|done]. simpl. by apply (str_is_kept R h h' S). Qed.

Lemma views_kept p d :
  (forall l, p = Loc l -> reach h S l) -> views h p d -> views h' p d.
Proof.
  destruct d as [| |fam loc pe bc plen sc|]; try done.
  intros Hp (l & rc & a & -> & Hl & Hf & Hpl & Hlo & Hpe & Hbc & Hsc).
  destruct (kept_value R h h' S l rc (VAddr a) Hk (Hp l eq_refl) Hl) as [rc' Hl']; [done|].
  assert (forall q, q ∈ val_ptrs (VAddr a) -> forall i, q = Loc i -> reach h S i) as Hq.
  { intros q Hin i ->. by eapply (reach_elem h S l); [by apply Hp|exact Hl|]. }
  exists l, rc', a. split; [done|]. split; [done|]. do 2 (split; [done|]).
  assert (forall q s, q ∈ val_ptrs (VAddr a) -> str_is h q s -> str_is h' q s) as Hstr
    by (intros q s Hin; by apply (str_is_kept R h h' S), Hq).
  assert (forall q s, q ∈ val_ptrs (VAddr a) -> opt_is h q s -> opt_is h' q s) as Hopt
    by (intros q s Hin; by apply opt_is_kept, Hq).
  split; [|split; [|split]]; (apply Hstr || apply Hopt); try done; simpl; set_solver.
Qed.
End kept.

(** Properties of the items of a list that are kept with them. *)
Class ItemsKept (R : pyval -> pyval -> Prop) (P : gmap positive obj -> list ptr -> Prop) : Prop :=
  items_kept h h' S ps : kept R h h' S -> (forall i, Loc i ∈ ps -> reach h S i) ->
    P h ps -> P h' ps.

(** One object, new; addresses with the data [ds]. *)
Definition one_ether (name : string) (h : gmap positive obj) (ps : list ptr) : Prop :=
  exists p, ps = [p] /\ ether_is h p name (-1).

#[export] Instance one_ether_kept name : ItemsKept eq (one_ether name).
Proof.
  intros h h' S ps Hk Hr (p & -> & l & rc & e & -> & Hl & Hn & Hi).
  destruct (device_kept eq h h' S Hk l rc e name) as (rc' & e' & Hl' & [= <-] & Hn'); [|done..|].
  - apply Hr. left.
  - exists (Loc l). split; [done|]. by exists l, rc', e.
Qed.

Definition shown_list (Q : list pydata -> Prop) (h : gmap positive obj) (ps : list ptr) : Prop :=
  exists ds, Forall2 (views h) ps ds /\ Q ds.

#[export] Instance shown_list_kept R `{!Keeps R} Q : ItemsKept R (shown_list Q).
Proof.
  intros h h' S ps Hk Hr (ds & Hv & Hq). exists ds. split; [|done]. clear Hq.
  induction Hv as [|p d ps ds Hp _ IH]; constructor.
  - eapply (views_kept R h h' S Hk); [|done]. intros l ->. apply Hr. left.
  - apply IH. intros i Hi. apply Hr. by right.
Qed.

Section info.
Context {K : Type} `{PL : PlatformLaws K} {UP : NetlinkUp K} {SU : SystemUp K}.
Context (signed_char : bool) (runtime_text : exc_kind -> string).
Implicit Types (w : world K) (rho : gmultiset positive).

#[export] Instance list_stable P `{!ItemsKept eq P} : Stable (K := K) (fun h p _ => list_of P h p).
Proof.
  intros h h' p k Hk (l & rc & ps & -> & Hl & Hps).
  assert (reach h (fun i => Loc l = Loc i) l) as Hr by by apply reach_root.
  destruct (kept_value eq _ _ _ l rc (VList ps) Hk Hr Hl) as [rc' Hl']; [done|].
  exists l, rc', ps. do 2 (split; [done|]). eapply items_kept; [exact Hk| |exact Hps].
  intros i Hi. by eapply (reach_elem h _ l).
Qed.

(** ** Taking references *)

Lemma reach_shared w rho l :
  in_order w rho -> reach (w_heap w) (fun i => i ∈ rho) l ->
  l ∈ rho \/ l ∈ heap_refs (w_heap w).
Proof.
  intros Ho Hr. pose proof (fun i => reach_live w rho i Ho) as Hlive.
  destruct Hr as [l Hl|l o i Hl Hlo Hi]; [by left|right].
  destruct (Hlive l Hl) as (o' & Ho' & Hrc). simplify_eq.
  eapply field_shared; [exact Hlo|exact Hrc|by apply kept_ptrs_vals].
Qed.

Lemma incref_ok w rho l :
  in_order w rho -> reach (w_heap w) (fun i => i ∈ rho) l ->
  wp (Py_INCREF (Loc l)) (fun _ w' => in_order w' ({[+ l +]} ⊎ rho) /\
    lasts eq (w_heap w) (w_heap w') /\ w_env w' = w_env w) w.
Proof.
  intros Ho Hr. destruct (reach_live _ _ _ Ho Hr) as (o & Hl & Hrc).
  unfold wp. rewrite (incref_eq _ _ _ Hl). split; [|split; [|done]].
  - apply in_order_now; [apply Ho|]. apply incref_in_order; [done..|]. by apply reach_shared.
  - intros i oi Hoi. simpl. destruct (decide (l = i)) as [<-|Hne].
    + rewrite Hl in Hoi. injection Hoi as <-. rewrite lookup_insert_eq. by eexists.
    + rewrite lookup_insert_ne by done. by exists oi.
Qed.

Lemma reach_more w rho l m :
  reach (w_heap w) (fun i => i ∈ rho) l -> reach (w_heap w) (fun i => i ∈ {[+ m +]} ⊎ rho) l.
Proof. apply reach_mono. intros i Hi. apply reach_root. multiset_solver. Qed.

Lemma take_each ps : forall w rho, in_order w rho ->
  Forall (fun p => exists i, p = Loc i /\ reach (w_heap w) (fun i => i ∈ rho) i) ps ->
  wp (read_each take ps) (fun o w' => o = Some ps /\ in_order w' (ptrs_refs ps ⊎ rho) /\
    lasts eq (w_heap w) (w_heap w')) w.
Proof.
  induction ps as [|p ps IH]; intros w rho Ho Hr; cbn [read_each].
  { apply wp_ret. split; [done|]. split; [|by intros i o Hi; exists o].
    eapply in_order_eq; [exact Ho|]. simpl. multiset_solver. }
  apply Forall_cons_1 in Hr as [(i & -> & Hi) Hr]. unfold take at 1.
  apply wp_bind, wp_bind. eapply wp_mono; [by apply incref_ok|]. intros _ w1 (Ho1 & Hl1 & _).
  apply wp_ret. apply wp_bind. eapply wp_mono; [apply (IH w1 ({[+ i +]} ⊎ rho) Ho1)|].
  - eapply list.Forall_impl; [exact Hr|]. intros p (j & -> & Hj). exists j. split; [done|].
    apply reach_more. eapply (reach_kept eq); [by apply (kept_lasts eq)|done].
  - intros o w2 (-> & Ho2 & Hl2). apply wp_ret. split; [done|]. split.
    + eapply in_order_eq; [exact Ho2|]. simpl. multiset_solver.
    + intros j oj Hj. destruct (Hl1 j oj Hj) as (o1 & Hj1 & ->).
      by destruct (Hl2 j o1 Hj1) as (o2 & Hj2 & ->); eauto.
Qed.

(** The objects of a list, which is then given up. *)
Lemma read_ethers_ok P `{!ItemsKept eq P} rho E w0 r w :
  (forall h ps, P h ps -> forall p, p ∈ ps -> exists i, p = Loc i) ->
  py_result eq rho E (fun h p _ => list_of P h p) w0 r w ->
  wp (read_result runtime_text (read_list take) r) (fun r w' => held_rel eq rho w0 w' /\
    match r with
    | inl e => in_order w' rho /\ E e (w_env w')
    | inr ps => in_order w' (ptrs_refs ps ⊎ rho) /\ P (w_heap w') ps
    end) w.
Proof.
  intros Hloc [Hs Hp]. destruct r as [e|p]; [by apply wp_ret|].
  destruct Hp as (Hp & Ho & l & rc & ps & -> & Hl & Hps). cbn [read_result].
  assert (forall i, Loc i ∈ ps -> reach (w_heap w) (fun i => i ∈ ptr_refs (Loc l) ⊎ rho) i) as Hr.
  { intros i Hi. eapply (reach_elem _ _ l); [|exact Hl|exact Hi].
    apply reach_root. simpl. multiset_solver. }
  unfold read_list. apply wp_bind. eapply wp_step; [by apply peek_eq|]. cbn [ob_val].
  eapply wp_mono; [apply (take_each ps w _ Ho)|].
  { apply list.Forall_forall. intros p Hin. destruct (Hloc _ _ Hps p Hin) as [i ->].
    exists i. split; [done|by apply Hr]. }
  intros o w1 (-> & Ho1 & Hl1). apply wp_bind.
  eapply wp_mono; [apply (release_ok (Loc l) w1 (ptrs_refs ps ⊎ rho) Hp)|].
  { eapply in_order_eq; [exact Ho1|]. multiset_solver. }
  intros _ w2 [Ho2 He2]. apply wp_ret. pose proof (held_evolves _ _ _ Ho2 He2) as Hs2. split.
  - eapply (held_trans eq); [exact Hs|].
    eapply (held_trans eq); [by apply (kept_lasts eq)|]. eapply held_sub; [|exact Hs2].
    multiset_solver.
  - split; [done|]. eapply items_kept; [exact Hs2| |].
    + intros i Hi. apply reach_root. apply elem_ptrs_refs in Hi. multiset_solver.
    + eapply items_kept; [by apply (kept_lasts eq)|exact Hr|exact Hps].
Qed.

(** ** Reading an address *)

Lemma in_order_result R rho E V w r w' :
  in_order w' (ptr_refs r ⊎ rho) -> is_ref r -> lasts R (w_heap w) (w_heap w') ->
  V (w_heap w') r (w_env w') -> c_result runtime_text R rho E V w r w'.
Proof.
  intros Ho Hr Hl Hv. pose proof (io_err _ _ Ho) as He. split.
  - split; [|done]. by rewrite set_err_none.
  - unfold result_ok. rewrite He. by destruct r.
Qed.

(** What a member of an address shows. *)
Definition member_is (h : gmap positive obj) (m : PyMemberDef) (a : PyNetlinkIPaddress)
    (x : pydatum) : Prop :=
  match m_type m with
  | T_INT f => x = PInt (fget f a)
  | T_OBJECT f => fget f a = Null /\ x = PNone \/
      fget f a ∈ val_ptrs (VAddr a) /\ exists s, str_is h (fget f a) s /\ x = PStr s
  | T_OBJECT_EX f =>
      fget f a ∈ val_ptrs (VAddr a) /\ exists s, str_is h (fget f a) s /\ x = PStr s
  end.

Local Abbreviation member_result rho x := (c_result (K := K) runtime_text eq rho
  (fun _ _ => False) (fun h p _ => looks h p x)).

(** A reference to a string of the address. *)
Lemma field_ok i rc a q s rho w :
  in_order w rho -> reach (w_heap w) (fun i => i ∈ rho) i ->
  w_heap w !! i = Some (Obj rc (VAddr a)) -> q ∈ val_ptrs (VAddr a) ->
  str_is (w_heap w) q s ->
  wp (q ← use_ptr q; Py_INCREF q;; mret q) (member_result rho (PStr s) w) w.
Proof.
  intros Ho Hr Ha Hq Hs. pose proof Hs as (l & rcl & -> & Hl).
  eapply wp_step; [reflexivity|]. apply wp_bind. eapply wp_mono.
  { apply (incref_ok w rho l Ho). by eapply (reach_elem _ _ i). }
  intros _ w' (Ho' & Hla & _). apply wp_ret. apply in_order_result; [exact Ho'|done|done|].
  destruct (Hla l _ Hl) as ([rc' v] & Hl' & E). cbn in E. subst v. by exists l, rc'.
Qed.

Lemma get_member_ok m i rc a x rho w :
  in_order w rho -> reach (w_heap w) (fun i => i ∈ rho) i ->
  w_heap w !! i = Some (Obj rc (VAddr a)) -> member_is (w_heap w) m a x ->
  wp (get_member m (Loc i)) (member_result rho x w) w.
Proof.
  intros Ho Hr Ha Hm. unfold get_member. eapply wp_step; [by eapply get_addr_eq|].
  unfold member_is in Hm. destruct (m_type m) as [f|f|f].
  - destruct Hm as (Hq & s & Hs & ->). pose proof (field_ok i rc a _ s rho w Ho Hr Ha Hq Hs) as Hf.
    destruct Hs as (l & rcl & E & _). rewrite E in *. exact Hf.
  - destruct Hm as [[Hnull ->]|(Hq & s & Hs & ->)].
    + rewrite Hnull. eapply wp_step; [reflexivity|]. apply wp_ret. apply in_order_result; [|done| |done].
      * eapply in_order_eq; [exact Ho|]. simpl. multiset_solver.
      * intros j o Hj. by exists o.
    + pose proof (field_ok i rc a _ s rho w Ho Hr Ha Hq Hs) as Hf.
      destruct Hs as (l & rcl & E & _). rewrite E in *. exact Hf.
  - subst x. eapply wp_mono; [apply (alloc_made w rho (VInt (fget f a)) (PInt (fget f a)) Ho); [done..|]|].
    { intros h l Hl. by exists l, 1. }
    intros p w' (Ho' & Hx & Hp & Hh & _). apply in_order_result; [done..| |done].
    intros j o Hj. exists o. split; [by eapply lookup_weaken|done].
Qed.

Lemma read_member_ok {A} (read : ptr -> M K (option A)) (datum : A -> pydatum) name m i rc a x
    rho w :
  (forall y, reads_as read (datum y) y) ->
  by_name name (tp_members ethtool_netlink_ip_address_Type) = Some m ->
  in_order w rho -> reach (w_heap w) (fun i => i ∈ rho) i ->
  w_heap w !! i = Some (Obj rc (VAddr a)) -> member_is (w_heap w) m a (datum x) ->
  wp (read_member runtime_text read name (Loc i)) (fun r w' => r = Some x /\
    in_order w' rho /\ held_rel eq rho w w') w.
Proof.
  intros Hread Hn Ho Hr Ha Hm. unfold read_member. rewrite Hn. apply wp_bind.
  eapply wp_mono.
  { apply (checked_ok runtime_text eq _ rho (fun _ _ => False) (by_looks datum (fun y _ => y = x))).
    eapply wp_mono; [by apply (get_member_ok m i rc a (datum x))|].
    intros r w' [Hf Hv]. split; [exact Hf|]. unfold result_ok in *.
    destruct (w_err w'); [done|]. destruct (is_null r); [done|]. destruct Hv as [? Hv].
    split; [done|]. by exists x. }
  intros r w1 Hr1. apply wp_bind. eapply wp_mono; [by apply (read_result_ok runtime_text eq read datum)|].
  intros o w2 (Ho2 & Hs2 & Hv). apply wp_ret. destruct o as [e|y]; [done|]. by subst y.
Qed.

(** What pifconfig sees of an address. *)
Definition addr_shown (d : pydata) : address :=
  match d with
  | DAddr _ loc _ bc plen sc => Address loc plen bc sc
  | _ => Address "" 0 None ""
  end.

Definition opt_datum (s : option string) : pydatum :=
  match s with Some s => PStr s | None => PNone end.

Lemma read_opt_ok s : reads_as (K := K) read_str_or_none (opt_datum s) s.
Proof.
  destruct s as [s|]; intros p w; simpl.
  - intros (l & rc & -> & Hl). unfold read_str_or_none.
    by rewrite (bind_Ret _ _ _ _ _ (peek_eq _ _ _ Hl)).
  - by intros ->.
Qed.

(** One member, after others have been read. *)
Lemma read_field {A} (read : ptr -> M K (option A)) (datum : A -> pydatum) name m x i d rho w w1 :
  (forall y, reads_as read (datum y) y) ->
  by_name name (tp_members ethtool_netlink_ip_address_Type) = Some m ->
  (forall h l rc a, h !! l = Some (Obj rc (VAddr a)) -> views h (Loc l) d ->
     member_is h m a (datum x)) ->
  i ∈ rho -> views (w_heap w) (Loc i) d -> in_order w1 rho -> held_rel eq rho w w1 ->
  wp (read_member runtime_text read name (Loc i)) (fun r w' => r = Some x /\
    in_order w' rho /\ held_rel eq rho w w') w1.
Proof.
  intros Hread Hn Hm Hi Hv Ho Hs.
  assert (views (w_heap w1) (Loc i) d) as Hv1.
  { eapply (views_kept eq _ _ _ Hs); [|exact Hv]. intros l [= <-]. by apply reach_root. }
  destruct (views_addr _ _ _ Hv1) as (l & rc & a & [= <-] & Ha). eapply wp_mono.
  { apply (read_member_ok read datum name m i rc a x rho w1 Hread Hn Ho); [|done|by eapply Hm].
    by apply reach_root. }
  intros r w' (-> & Ho' & Hs'). split; [done|]. split; [done|]. by eapply (held_trans eq).
Qed.

Lemma read_address_ok i d rho w :
  in_order w rho -> reach (w_heap w) (fun i => i ∈ rho) i -> views (w_heap w) (Loc i) d ->
  wp (read_address runtime_text (Loc i)) (fun r w' => r = Some (addr_shown d) /\
    in_order w' rho /\ held_rel eq rho w w') w.
Proof.
  intros Ho Hr Hv. unfold read_address. apply wp_bind.
  eapply wp_mono; [by apply incref_ok|]. intros _ w1 (Ho1 & Hl1 & _).
  set (rho1 := {[+ i +]} ⊎ rho) in *. assert (i ∈ rho1) as Hin by (unfold rho1; multiset_solver).
  assert (views (w_heap w1) (Loc i) d) as Hv1.
  { eapply (views_kept eq _ _ (fun i => i ∈ rho)); [by apply (kept_lasts eq)| |exact Hv].
    by intros l [= <-]. }
  destruct d as [| |fam loc pe bc plen sc|]; try done.
  assert (held_rel eq rho1 w1 w1) as H1 by by apply (kept_refl eq).
  assert (forall h l rc a, h !! l = Some (Obj rc (VAddr a)) ->
    views h (Loc l) (DAddr fam loc pe bc plen sc) -> prefixlen a = plen /\
    str_is h (local a) loc /\ opt_is h (ipv4_broadcast a) bc /\ str_is h (scope a) sc) as Hf.
  { intros h l rc a Ha (l' & rc' & a' & [= <-] & Ha' & _ & ? & ? & _ & ? & ?).
    rewrite Ha in Ha'. by injection Ha' as _ <-. }
  apply wp_bind. eapply wp_mono.
  { eapply (read_field read_str PStr "address" _ loc); [apply read_str_ok|reflexivity| |done..].
    intros h l rc a Ha (_ & Hlo & _)%(Hf h l rc a Ha). split; [simpl; set_solver|by exists loc]. }
  intros x1 w2 (-> & Ho2 & Hs2). apply wp_bind. eapply wp_mono.
  { eapply (read_field read_int PInt "netmask" _ plen); [apply read_int_ok|reflexivity| |done..].
    intros h l rc a Ha (<- & _)%(Hf h l rc a Ha). done. }
  intros x2 w3 (-> & Ho3 & Hs3). apply wp_bind. eapply wp_mono.
  { eapply (read_field read_str_or_none opt_datum "broadcast" _ bc);
      [apply read_opt_ok|reflexivity| |done..].
    intros h l rc a Ha (_ & _ & Hb & _)%(Hf h l rc a Ha).
    destruct bc as [bc|]; [right|by left]. split; [simpl; set_solver|by exists bc]. }
  intros x3 w4 (-> & Ho4 & Hs4). apply wp_bind. eapply wp_mono.
  { eapply (read_field read_str PStr "scope" _ sc); [apply read_str_ok|reflexivity| |done..].
    intros h l rc a Ha (_ & _ & _ & Hsc)%(Hf h l rc a Ha). split; [simpl; set_solver|by exists sc]. }
  intros x4 w5 (-> & Ho5 & Hs5). apply wp_bind.
  eapply wp_mono; [apply (release_ok (Loc i) w5 rho); [done|exact Ho5]|].
  intros _ w6 [Ho6 He6]. apply wp_ret. split; [done|]. split; [done|].
  eapply (held_then_evolves eq); [|done..]. eapply (held_trans eq); [by apply (kept_lasts eq)|].
  eapply held_sub; [|exact Hs5]. unfold rho1. multiset_solver.
Qed.

Lemma read_addresses_each rho ps ds : forall w,
  in_order w rho -> Forall2 (views (w_heap w)) ps ds ->
  (forall i, Loc i ∈ ps -> reach (w_heap w) (fun i => i ∈ rho) i) ->
  wp (read_each (read_address runtime_text) ps) (fun r w' => r = Some (addr_shown <$> ds) /\
    in_order w' rho /\ held_rel eq rho w w') w.
Proof.
  revert ds. induction ps as [|p ps IH]; intros ds w Ho Hv Hr; cbn [read_each].
  { apply Forall2_nil_inv_l in Hv as ->. apply wp_ret. split; [done|]. split; [done|].
    by apply (kept_refl eq). }
  apply Forall2_cons_inv_l in Hv as (d & ds' & Hd & Hv & ->).
  destruct (views_addr _ _ _ Hd) as (i & _ & _ & -> & _).
  apply wp_bind. eapply wp_mono; [apply (read_address_ok i d rho w Ho); [apply Hr; left|done]|].
  intros x w1 (-> & Ho1 & Hs1). apply wp_bind. eapply wp_mono; [apply (IH ds' w1 Ho1)|].
  - destruct (shown_list_kept eq (fun x => x = ds') _ _ _ ps Hs1) as (ds1 & Hv1 & ->); [|by exists ds'|done].
    intros j Hj. apply Hr. by right.
  - intros j Hj. apply (reach_kept eq _ _ _ _ Hs1), Hr. by right.
  - intros y w2 (-> & Ho2 & Hs2). apply wp_ret. split; [done|]. split; [done|].
    by eapply (held_trans eq).
Qed.

(** The addresses of a list, which is then given up. *)
Lemma read_addresses_ok R `{!Keeps R} rho E Q w0 r w :
  py_result R rho E (fun h p _ => list_of (shown_list Q) h p) w0 r w ->
  wp (read_result runtime_text (read_list (read_address runtime_text)) r)
    (fun r w' => in_order w' rho /\ held_rel R rho w0 w' /\ held_rel eq rho w w' /\
       match r with
       | inl e => E e (w_env w')
       | inr l => exists ds, l = addr_shown <$> ds /\ Q ds
       end) w.
Proof.
  intros [Hs Hp]. destruct r as [e|p].
  { apply wp_ret. destruct Hp as [Ho He]. split; [done|]. split; [done|].
    split; [by apply (kept_refl eq)|done]. }
  destruct Hp as (Hp & Ho & l & rc & ps & -> & Hl & ds & Hv & Hq). cbn [read_result].
  unfold read_list. apply wp_bind. eapply wp_step; [by apply peek_eq|]. cbn [ob_val].
  eapply wp_mono; [apply (read_addresses_each _ ps ds w Ho Hv)|].
  { intros i Hi. eapply (reach_elem _ _ l); [|exact Hl|exact Hi].
    apply reach_root. simpl. multiset_solver. }
  intros o w1 (-> & Ho1 & Hs1). apply wp_bind.
  eapply wp_mono; [apply (release_ok (Loc l) w1 rho Hp Ho1)|].
  intros _ w2 [Ho2 He2]. apply wp_ret. split; [done|].
  assert (held_rel eq rho w w2) as H2.
  { eapply (held_then_evolves eq); [|done..]. eapply held_sub; [|exact Hs1]. multiset_solver. }
  split; [|split; [done|by exists ds]]. eapply (held_trans R); [exact Hs|by apply (held_eq R)].
Qed.

(** ** The calls *)

Lemma building_ethers w0 rho ll name w :
  building w0 rho ll [DEther name (-1)] w -> list_of (one_ether name) (w_heap w) (Loc ll).
Proof.
  intros [(ps & Hl & Hf) _ _ _ _]. exists ll, 1, ps. split; [done|]. split; [done|].
  apply Forall2_cons_inv_r in Hf as (p & ps' & Hd & ->%Forall2_nil_inv_r & ->).
  destruct Hd as (l & e & -> & Hle & Hd). exists (Loc l). split; [done|].
  exists l, 1, e. split; [done|]. split; [done|]. destruct Hd as (Hi & _ & Hn).
  split; [by apply is_str_is|done].
Qed.

Lemma infos_promise d rho w :
  named d ->
  promises signed_char runtime_text "get_interfaces_info" [AStr d] rho w (fun _ _ => False)
    (fun h p _ => list_of (one_ether d) h p).
Proof.
  intros Hd. apply (promise_name signed_char runtime_text "get_interfaces_info"
    get_interfaces_info d rho w _ _ Hd); [done|].
  intros l rc rho1 w1 Ho Hl _. pose proof (io_sound _ _ Ho) as (lk & Hs & _).
  assert (cstr d = d) as Ec by apply cstr_no_nul, Hd. eapply wp_mono.
  { apply (interfaces_info_ok [Loc l] [cstr d] w1 (lk ⊎ rho1)); [apply Hs|by econstructor| |].
    - apply (so_memory _ (SU (w_env w1))).
    - constructor; [|done]. rewrite cstr_idemp, Ec. apply Hd. }
  intros r w' (ll & -> & Hb). apply ends_value.
  - rewrite (on_err _ _ (bld_new _ _ _ _ _ Hb)). apply Ho.
  - cbn [map] in Hb. rewrite !Ec in Hb. by eapply building_ethers.
Qed.

(** [ethtool.get_interfaces_info(d)]: one new object, of the device [d], which is
    the program's. *)
Theorem ask_infos_ok d rho w :
  named d -> in_order w rho ->
  exists ps w', ask_function signed_char runtime_text (read_list take) "get_interfaces_info"
      [AStr d] w = (inr ps, w') /\ held_rel eq rho w w' /\
    in_order w' (ptrs_refs ps ⊎ rho) /\ one_ether d (w_heap w') ps.
Proof.
  intros Hd Ho. destruct (process_ok (r ← call_function signed_char runtime_text
    "get_interfaces_info" [AStr d]; read_result runtime_text (read_list take) r)
    (fun r w' => held_rel eq rho w w' /\
      match r with
      | inl e => in_order w' rho /\ False
      | inr ps => in_order w' (ptrs_refs ps ⊎ rho) /\ one_ether d (w_heap w') ps
      end) w) as ([e|ps] & w' & E & Hs & Hr).
  { apply wp_bind. eapply wp_mono.
    { apply (call_function_ok signed_char runtime_text "get_interfaces_info" [AStr d] rho w
        (fun _ _ => False) (fun h p _ => list_of (one_ether d) h p) Ho). by apply infos_promise. }
    intros r w1 Hr. apply (read_ethers_ok (one_ether d) rho (fun _ _ => False)); [|done].
    intros h ps (p & -> & l & _ & _ & -> & _) q ->%list_elem_of_singleton. by exists l. }
  - by destruct Hr.
  - by exists ps, w'.
Qed.

(** The kernel does not tell the index, which is not known. *)
Definition not_found (name : string) (i0 : Z) (e : Script.pyexc) : Prop :=
  is_exception e = true /\ i0 < 0 /\ unresolved (K := K) name.

(** A list of the addresses the kernel has of the device, or an exception. *)
Lemma get_addresses_result i name i0 q rho w :
  in_order w rho -> i ∈ rho -> countable w -> ether_is (w_heap w) (Loc i) name i0 ->
  wp (get_etherinfo_address (Loc i) q) (c_result runtime_text same_val rho
    (fun e _ => not_found name i0 e)
    (fun h p _ => exists i1, ether_is h (Loc i) name i1 /\ index_from (K := K) name i0 i1 /\
       list_of (shown_list (kernel_lists (K := K) i1 q)) h p) w) w.
Proof.
  intros Ho Hi Hc (l & rc & e & [= <-] & He & Hn & <-). apply wp_and.
  - eapply wp_mono; [apply (gives_ok w rho _ Ho)|by intros r w' []].
    intros refs Hs Hsub. eapply address_query_ok; [exact Hs|]. by eapply held_ready.
  - pose proof (io_sound _ _ Ho) as (lk & Hs & _).
    destruct (held_live w (lk ⊎ rho) i) as (o & Ho' & Hrc); [apply Hs|multiset_solver|].
    simplify_eq. assert (ether_at i rc e w) as Hat by done.
    eapply wp_mono; [by apply (address_ok w (lk ⊎ rho) i rc e q name)|].
    intros r w' (_ & Hx & e' & c & Ha & Hd & Hk & [(-> & Hi0 & Hu)|(ll & -> & Her & Hal)]).
    + unfold result_ok, not_found. by destruct (w_err w').
    + apply ends_value; [by rewrite Her; apply Ho|].
      exists (index e'). split; [|split; [done|]].
      * destruct (at_work_ether _ _ _ _ _ Ha) as [Hl _]. exists i, rc, e'.
        do 2 (split; [done|]). split; [|done]. rewrite Hd. by eapply str_is_extends.
      * destruct Hal as (ps & ds & Hl & Hf & Hds). exists ll, 1, ps.
        do 2 (split; [done|]). exists ds. split; [by eapply denoted_views|done].
Qed.

(** [i.get_ipv4_addresses()] and [i.get_ipv6_addresses()], with all pifconfig
    reads of the result: what the kernel lists for the index of the device, which is
    looked up if it is not known; or there is no index, or too many objects are. *)
Theorem ask_addresses_ok name f q i dev i0 rho w :
  by_name name (tp_methods PyEtherInfo_Type) = Some f ->
  (forall l, f (Loc l) = get_etherinfo_address (K := K) (Loc l) q) ->
  in_order w rho -> ptr_refs i ⊆ rho -> ether_is (w_heap w) i dev i0 ->
  exists r w', ask_info runtime_text (read_list (read_address runtime_text)) name i w = (r, w') /\
    in_order w' rho /\ held_rel same_val rho w w' /\
    match r with
    | inl e => not_found dev i0 e \/ e = interpreter_error (K := K) runtime_text PyExc_MemoryError
    | inr l => exists i1 ds, ether_is (w_heap w') i dev i1 /\ index_from (K := K) dev i0 i1 /\
        kernel_lists (K := K) i1 q ds /\ l = addr_shown <$> ds
    end.
Proof.
  intros Hn Hq Ho Hi Hd. pose proof Hd as (l & rc & e & -> & He & _).
  assert (l ∈ rho) as Hin by (simpl in Hi; multiset_solver).
  apply process_ok. apply wp_bind. unfold call_info.
  eapply wp_step; [reflexivity|]. destruct (Z.ltb_spec (Z.of_nat (size (w_heap w))) (2 ^ 32)) as [Hc|Hc].
  2:{ apply wp_ret. cbn [read_result]. apply wp_ret. split; [done|].
      split; [by apply (kept_refl same_val)|by right]. }
  rewrite Hn, Hq. eapply wp_mono.
  { apply (checked_ok runtime_text same_val). by apply (get_addresses_result l dev i0 q rho w). }
  intros r w1 [Hs Hr].
  assert (forall Q, py_result same_val rho (fun e _ => not_found dev i0 e)
      (fun h p _ => list_of (shown_list Q) h p) w r w1 ->
    (forall ds, Q ds -> exists i1, ether_is (w_heap w1) (Loc l) dev i1 /\
       index_from (K := K) dev i0 i1 /\ kernel_lists (K := K) i1 q ds) ->
    wp (read_result runtime_text (read_list (read_address runtime_text)) r) (fun r w' =>
      in_order w' rho /\ held_rel same_val rho w w' /\
      match r with
      | inl e => not_found dev i0 e \/
          e = interpreter_error (K := K) runtime_text PyExc_MemoryError
      | inr as' => exists i1 ds, ether_is (w_heap w') (Loc l) dev i1 /\
          index_from (K := K) dev i0 i1 /\ kernel_lists (K := K) i1 q ds /\ as' = addr_shown <$> ds
      end) w1) as Hread.
  { intros Q Hp HQ. eapply wp_mono; [by apply (read_addresses_ok same_val rho (fun e _ => not_found dev i0 e) Q w r w1)|].
    intros x w2 (Ho2 & Hs2 & He2 & Hx). do 2 (split; [done|]).
    destruct x as [x|as']; [by left|]. destruct Hx as (ds & -> & Hds).
    destruct (HQ ds Hds) as (i1 & (l' & rc1 & e1 & [= <-] & He1 & Hn1 & Hi1) & Hk & Hli).
    exists i1, ds. split; [|done].
    destruct (device_kept eq _ _ _ He2 l rc1 e1 dev) as (rc2 & e2 & Hl2 & [= <-] & Hn2);
      [by apply reach_root|done..|]. by exists l, rc2, e1. }
  destruct r as [x|p].
  - apply (Hread (fun _ => False)); [by split|done].
  - destruct Hr as (Hp & Ho1 & i1 & H1 & H2 & H3). apply (Hread (kernel_lists (K := K) i1 q)).
    + by split.
    + intros ds Hds. by exists i1.
Qed.
End info.
