(* ===== verification/ExtensionSafe.v ===== *)
(** * pethtool on the extension

    The C code keeps what PethtoolRuns.v asks of the module, on a system as
    [SystemUp] and [NetlinkUp] say: pethtool on the extension, whatever its
    command line in UTF-8, leaves the process alive and everything in order.  For the option [-C] the request
    that reaches the kernel is read off the command line and the answer. *)
From S2P Require Import Prelude.
From S2P Require Import Platform.
From S2P Require Import CPython.
From S2P Require Import Objects.
From S2P Require Import Testbed.
From S2P Require Import RefCount.
From S2P Require Import Typing.
From S2P Require Import Containers.
From S2P Require Import Sound.
From S2P Require Import EthtoolH.
From S2P Require Import Ioctl.
From S2P Require Import IoctlFacts.
From S2P Require Import StructDesc.
From S2P Require Import StructDescFacts.
From S2P Require Import EtherInfo.
From S2P Require Import EtherSound.
From S2P Require Import EtherInfoObj.
From S2P Require Import EtherObjSound.
From S2P Require Import EthtoolModule.
From S2P Require Import Contract.
From S2P Require Import Session.
From S2P Require Import Script.
From S2P Require Pethtool.
From S2P Require Import PethtoolFacts.
From S2P Require Import PethtoolRuns.
From S2P Require Import Extension.
From S2P Require Import ExtensionFacts.
From S2P Require Import ExtensionCalls.
From S2P Require Import ExtensionQueries.

Section extension.
Context {K : Type} `{PL : PlatformLaws K} {UP : NetlinkUp K} {SU : SystemUp K}.
Context (signed_char : bool) (runtime_text : exc_kind -> string).
#[local] Instance module : Ethtool (world K) := extension signed_char runtime_text.
(** The references the program holds beside. *)
Context (rho : gmultiset positive).
Local Abbreviation J := (fun w : world K => in_order w rho).

(** A function that keeps a promise answers. *)
Lemma ask_answers {A} (read : ptr -> M K (option A)) (datum : A -> pydatum) name args
    (E : Script.pyexc -> Prop) (P : A -> Prop) E1 P1 :
  (forall a, reads_as read (datum a) a) ->
  (forall w, promises signed_char runtime_text name args rho w (E1 w) (by_looks datum (P1 w))) ->
  (forall w e k, E1 w e k -> E e) -> (forall w a k, P1 w a k -> P a) ->
  answers J E (ask_function signed_char runtime_text read name args) P.
Proof.
  intros Hr Hm He Hp w Ho.
  destruct (ask_function_ok signed_char runtime_text read datum name args rho w (E1 w) (P1 w)
    Hr Ho (Hm w)) as (r & w' & -> & Ho' & _ & Hx).
  split; [exact Ho'|]. destruct r as [e|a]; [by eapply He|by eapply Hp].
Qed.

Lemma os_error_alive n : alive (os_error (K := K) n).
Proof. discriminate. Qed.
Lemma interpreter_alive k : alive (interpreter_error (K := K) runtime_text k).
Proof. discriminate. Qed.

Lemma shown_fields table data : (shown table data).*1 ≡ₚ map sd_name table.
Proof. by rewrite shown_keys. Qed.

(** The functions that give one value. *)
Definition value_commands : list (string * Z) :=
  [("get_sg", ETHTOOL_GSG); ("get_tso", ETHTOOL_GTSO); ("get_ufo", ETHTOOL_GUFO);
   ("get_gso", ETHTOOL_GGSO); ("get_gro", ETHTOOL_GGRO)].

Lemma value_command what : what ∈ value_commands.*1 ->
  exists cmd, forall ps, call_method signed_char what ps = Some (get_value (K := K) cmd ps).
Proof.
  intros Hw. repeat (apply elem_of_cons in Hw as [->|Hw]; [by eexists|]). by apply elem_of_nil in Hw.
Qed.

Definition set_commands : list (string * Z) :=
  [("set_tso", ETHTOOL_STSO); ("set_gso", ETHTOOL_SGSO); ("set_gro", ETHTOOL_SGRO)].

Lemma set_value_command what : what ∈ set_commands.*1 ->
  exists cmd, forall ps, call_method signed_char what ps = Some (set_value (K := K) cmd ps).
Proof.
  intros Hw. repeat (apply elem_of_cons in Hw as [->|Hw]; [by eexists|]). by apply elem_of_nil in Hw.
Qed.

(** What [E] must allow. *)
Lemma extension_queries (E EL : Script.pyexc -> Prop) :
  (forall n, E (os_error (K := K) n)) ->
  E (interpreter_error (K := K) runtime_text PyExc_UnicodeDecodeError) ->
  (forall n, EL (os_error (K := K) n)) ->
  Queries J (named (K := K)) E EL.
Proof.
  intros Ho Hd Hl. split.
  - intros i Hi. eapply (ask_answers _ PDict); [apply read_dict_ok| | |].
    + intros w. apply (get_struct_promise _ _ _ ETHTOOL_GCOALESCE ethtool_coalesce
        ethtool_coalesce_desc); [exact coalesce_tiles|set_solver|exact Hi|reflexivity].
    + by intros w e k (n & _ & ->).
    + intros w d k (data & _ & ->). apply shown_fields.
  - intros i Hi. eapply (ask_answers _ PDict); [apply read_dict_ok| | |].
    + intros w. apply (get_struct_promise _ _ _ ETHTOOL_GRINGPARAM ethtool_ringparam
        ethtool_ringparam_desc); [exact ring_tiles|set_solver|exact Hi|reflexivity].
    + by intros w e k (n & _ & ->).
    + intros w d k (data & _ & ->). apply shown_fields.
  - intros what i Hi Hw. destruct (value_command what Hw) as [cmd Hc].
    eapply (ask_answers _ PInt); [apply read_int_ok| | |done].
    + intros w. by apply (get_value_promise _ _ _ cmd).
    + by intros w e k (n & _ & ->).
  - intros i Hi. eapply (ask_answers _ PStr); [apply read_str_ok| | |done].
    + intros w. by apply get_module_promise.
    + intros w e k [[_ [n ->]]|[-> _]]; [apply Ho|apply Hd].
  - intros i Hi. eapply (ask_answers _ PStr); [apply read_str_ok| | |done].
    + intros w. by apply get_businfo_promise.
    + intros w e k [[_ [n ->]]|[-> _]]; [apply Ho|apply Hd].
  - eapply (ask_answers _ PStrs); [apply read_strs_ok| | |].
    + intros w. apply get_devices_promise.
    + done.
    + by intros w a k [? _].
  - eapply (ask_answers _ PStrs); [apply read_strs_ok| | |done].
    + intros w. apply get_active_devices_promise.
    + intros w e k (n & _ & ->). apply Hl.
Qed.

#[export] Instance extension_safe_queries : Queries J (named (K := K)) alive alive.
Proof.
  apply extension_queries; [apply os_error_alive|apply interpreter_alive|apply os_error_alive].
Qed.

#[export] Instance extension_setters : Setters J (named (K := K)) alive.
Proof.
  assert (forall name cmd fs table i d, tiles fs table -> named (K := K) i ->
    d.*1 ≡ₚ map sd_name table ->
    (forall ps, call_method signed_char name ps = Some (set_struct (K := K) cmd fs table ps)) ->
    answers J alive (ask_function signed_char runtime_text read_none name [AStr i; ADict d])
      (fun _ => True)) as Hstruct.
  { intros name cmd fs table i d Ht Hi Hd Hf.
    eapply (ask_answers read_none (fun _ => PNone)); [by intros []| | |done].
    - intros w. by apply (set_struct_promise _ _ _ cmd fs table).
    - intros w e k ([n|data] & _ & He); [subst e; apply os_error_alive|].
      destruct He as [_ ->]. apply interpreter_alive. }
  split.
  - intros i d Hi Hd. by apply (Hstruct _ ETHTOOL_SCOALESCE _ _ i d coalesce_tiles Hi Hd).
  - intros i d Hi Hd. by apply (Hstruct _ ETHTOOL_SRINGPARAM _ _ i d ring_tiles Hi Hd).
  - intros what i v Hi Hw. destruct (set_value_command what Hw) as [cmd Hc].
    eapply (ask_answers read_none (fun _ => PNone)); [by intros []| | |done].
    + intros w. by apply (set_value_promise _ _ _ cmd).
    + intros w e k. case_decide.
      * intros (n & _ & ->). apply os_error_alive.
      * intros [-> _]. apply interpreter_alive.
Qed.

(** ** What a setting command sends *)

Definition word_of (data : list mbyte) (f : struct_desc) : Z :=
  default 0 (read_u32 (sd_offset f) data).

(** The value of a field: that of the last option for it, else what the device has. *)
Definition field_sent (opt : string -> option string) (number : string -> option Z)
    (pairs : list (string * string)) (data : list mbyte) (f : struct_desc) : Z :=
  default (word_of data f) (wanted opt number pairs (sd_name f)).

(** A number as a [long], -1 for what is none. *)
Definition long_of (z : Z) : Z := (as_long (VInt z)).1.

(** A request: the structure [fs] with the command [cmd] and a value for each
    field of the table, as unsigned words. *)
Record carries (cmd : Z) (fs : list cfield) (table : list struct_desc)
    (value : struct_desc -> Z) (request : list mbyte) : Prop := {
  cr_length : length request = sizeof fs;
  cr_cmd : read_u32 0 request = Some (u32 cmd);
  cr_word f : f ∈ table -> read_u32 (sd_offset f) request = Some (u32 (long_of (value f)));
}.

Lemma shown_get table data f :
  NoDup (map sd_name table) -> f ∈ table ->
  pd_get (shown table data) (sd_name f) = Some (word_of data f).
Proof.
  induction table as [|g table IH]; [by intros _ ?%elem_of_nil|].
  cbn [map shown pd_get]. rewrite list.NoDup_cons, elem_of_cons. intros [Hg Hn] [->|Hf].
  - by rewrite decide_True.
  - rewrite decide_False; [by apply IH|]. intros E. apply Hg. rewrite <- E.
    by apply list_elem_of_fmap_2.
Qed.

Lemma updated_request cmd fs table opt number pairs data d changed :
  tiles fs table -> updated opt number pairs (shown table data) false d changed ->
  let value := field_sent opt number pairs data in
  field_values table d = value <$> table /\
  carries cmd fs table value (dict_request cmd fs table d) /\
  (changed = false -> Forall (fun f => value f = word_of data f) table).
Proof.
  intros Ht Hup value.
  assert (forall f, f ∈ table -> pd_get d (sd_name f) = Some (value f)) as Hget.
  { intros f Hf. rewrite (up_get _ _ _ _ _ _ _ Hup).
    rewrite (shown_get table data f (tile_names _ _ Ht) Hf). unfold value, field_sent.
    by destruct (wanted _ _ _ _). }
  assert (field_values table d = value <$> table) as Hv.
  { unfold field_values. apply list_fmap_ext. intros j f Hf. rewrite Hget; [done|].
    by eapply list_elem_of_lookup_2. }
  split; [done|]. split.
  - unfold dict_request. rewrite Hv.
    destruct (set_request_words cmd fs table (VInt <$> (value <$> table)) Ht) as (H1 & H2 & H3);
      [by rewrite !length_fmap|].
    split; [done|done|]. intros f [j Hj]%list_elem_of_lookup.
    erewrite H3; [|exact Hj|by rewrite !list_lookup_fmap, Hj]. cbn [as_long].
    done.
  - intros ->. apply list.Forall_forall. intros f Hf. pose proof (Hget f Hf) as Hg.
    rewrite (up_same _ _ _ _ _ _ _ Hup eq_refl) in Hg.
    rewrite (shown_get table data f (tile_names _ _ Ht) Hf) in Hg. by injection Hg.
Qed.

#[local] Instance in_long_dec z : Decision (in_long z).
Proof. unfold in_long. apply _. Defined.

(** What becomes of a request with [values]: it is made once; the kernel's error
    is raised; a value beyond a [long] is found out after the kernel granted
    the request. *)
Definition sends (request : list mbyte) (i : string) (values : list Z) (k : K)
    (r : Script.pyexc + unit) (k' : K) : Prop :=
  let '(answer, k2) := ask_kernel request i k in
  k' = k2 /\
  r = match answer with
      | inl n => inl (os_error (K := K) n)
      | inr _ => if bool_decide (Forall in_long values) then inr tt
                 else inl (interpreter_error (K := K) runtime_text PyExc_SystemError)
      end.

(** A getter gives what the kernel answers. *)
Definition answer_shown (table : list struct_desc) (answer : Z + list mbyte)
    : Script.pyexc + pydict :=
  match answer with
  | inl n => inl (os_error (K := K) n)
  | inr data => inr (shown table data)
  end.

Lemma struct_asked name cmd fs table i answer k1 w :
  tiles fs table -> fs ∈ [ethtool_value; ethtool_coalesce; ethtool_ringparam] -> named i ->
  (forall ps, call_method signed_char name ps = Some (get_struct (K := K) cmd fs table ps)) ->
  in_order w rho -> ask_kernel (get_request cmd fs) i (w_env w) = (answer, k1) ->
  exists w1, ask_function signed_char runtime_text read_dict name [AStr i] w
      = (answer_shown table answer, w1) /\ in_order w1 rho /\ w_env w1 = k1.
Proof.
  intros Ht Hfs Hi Hf Ho Ha.
  destruct (ask_function_ok signed_char runtime_text read_dict PDict name [AStr i] rho w _ _
    read_dict_ok Ho (get_struct_promise signed_char runtime_text name cmd fs table i rho w
      Ht Hfs Hi Hf)) as (r & w1 & E & Ho1 & _ & Hr).
  exists w1. rewrite E, Ha in *. destruct r as [e|d].
  - by destruct Hr as (n & [= -> ->] & ->).
  - by destruct Hr as (data' & [= -> ->] & ->).
Qed.

Lemma struct_sent name cmd fs table i d w :
  tiles fs table -> named i -> d.*1 ≡ₚ map sd_name table ->
  (forall ps, call_method signed_char name ps = Some (set_struct (K := K) cmd fs table ps)) ->
  in_order w rho ->
  exists r w', ask_function signed_char runtime_text read_none name [AStr i; ADict d] w = (r, w') /\
    in_order w' rho /\
    sends (dict_request cmd fs table d) i (field_values table d) (w_env w) r (w_env w').
Proof.
  intros Ht Hi Hd Hf Ho.
  destruct (ask_function_ok signed_char runtime_text read_none (fun _ => PNone) name
    [AStr i; ADict d] rho w _ _ (fun a => match a with tt => read_none_ok end) Ho
    (set_struct_promise signed_char runtime_text name cmd fs table i d rho w Ht Hi Hd Hf))
    as (r & w' & E & Ho' & _ & Hr).
  exists r, w'. split; [done|]. split; [done|]. unfold sends. destruct r as [e|[]].
  - destruct Hr as ([n|data] & -> & He); split; try done; [by rewrite He|].
    destruct He as [Hl ->]. by rewrite bool_decide_false.
  - destruct Hr as (Hl & data & ->). split; [done|]. by rewrite bool_decide_true.
Qed.

(** The whole of a setting command, from the words of the command line to the
    request the kernel is given. *)
Definition command_sends (scmd : Z) (fs : list cfield) (table : list struct_desc)
    (opt : string -> option string) (number : string -> option Z)
    (pairs : list (string * string)) (i : string) (data : list mbyte) (k1 : K)
    (r : (Script.pyexc + unit) * term (world K)) : Prop :=
  let value := field_sent opt number pairs data in
  in_order (t_env r.2) rho /\
  (Forall (fun f => value f = word_of data f) table /\ r.1 = inr tt /\ w_env (t_env r.2) = k1 \/
   exists request, carries scmd fs table value request /\
     sends request i (value <$> table) k1 r.1 (w_env (t_env r.2))).

Lemma command_sends_ok name scmd fs table opt number pairs i data k1 w1 d (changed : bool)
    (t : term (world K)) r :
  tiles fs table -> named i ->
  (forall ps, call_method signed_char name ps = Some (set_struct (K := K) scmd fs table ps)) ->
  in_order w1 rho -> w_env w1 = k1 -> t_env t = w1 ->
  updated opt number pairs (shown table data) false d changed ->
  r = (if changed
       then call (ask_function signed_char runtime_text read_none name [AStr i; ADict d]) t
       else (inr tt, t)) ->
  command_sends scmd fs table opt number pairs i data k1 r.
Proof.
  intros Ht Hi Hf Ho Hk Et Hup ->.
  destruct (updated_request scmd fs table opt number pairs data d changed Ht Hup)
    as (Hv & Hc & Hs). destruct changed.
  - assert (d.*1 ≡ₚ map sd_name table) as Hd
      by (rewrite (up_keys _ _ _ _ _ _ _ Hup), shown_keys; done).
    destruct (struct_sent name scmd fs table i d w1 Ht Hi Hd Hf Ho) as (r & w' & E & Ho' & Hr).
    unfold call. rewrite Et, E. split; [done|]. right. eexists. split; [exact Hc|].
    by rewrite Hv, Hk in Hr.
  - unfold command_sends. cbn [fst snd]. rewrite Et. split; [done|]. left.
    split; [by apply Hs|done].
Qed.

(** [pethtool -C] on the extension, from the command line to the kernel.  If
    the device has coalescing parameters to show, either nothing is sent and
    the options ask for nothing new, or one request is: complete, with the
    command, and in it each field has the value of the last option for it, or
    the value read; the kernel's refusal is raised as [OSError], and a number
    beyond a [long] as [SystemError] once the kernel has granted a request
    with -1 in its place.  Nothing is left behind. *)
Theorem set_coalesce_sends i opts data k1 (t : term (world K)) :
  in_order (t_env t) rho -> named (K := K) i -> newline ∉ (lowered opts).*1 ->
  ask_kernel (get_request ETHTOOL_GCOALESCE ethtool_coalesce) i (w_env (t_env t))
    = (inr data, k1) ->
  command_sends ETHTOOL_SCOALESCE ethtool_coalesce ethtool_coalesce_desc
    (Pethtool.assoc coalesce_options) Pethtool.coalesce_value (lowered opts) i data k1
    (Pethtool.set_coalesce i (Some (words opts)) t).
Proof.
  intros Ho Hi Hnl Ha.
  destruct (struct_asked "get_coalesce" _ _ _ i (inr data) k1 (t_env t) coalesce_tiles
    ltac:(set_solver) Hi ltac:(reflexivity) Ho Ha) as (w1 & E & Ho1 & Hk).
  destruct (set_coalesce_spec (H := module) i opts _ w1 t E) as (d & changed & Er & Hup);
    [by rewrite shown_keys|done|].
  by eapply (command_sends_ok "set_coalesce" _ _ _ _ _ _ _ _ _ w1 d changed (queried t w1) _
    coalesce_tiles Hi ltac:(reflexivity)).
Qed.

(** [pethtool -G] alike. *)
Theorem set_ringparam_sends i opts data k1 (t : term (world K)) :
  in_order (t_env t) rho -> named (K := K) i ->
  ask_kernel (get_request ETHTOOL_GRINGPARAM ethtool_ringparam) i (w_env (t_env t))
    = (inr data, k1) ->
  command_sends ETHTOOL_SRINGPARAM ethtool_ringparam ethtool_ringparam_desc
    (Pethtool.assoc Pethtool.ethtool_ringparam_map) py_int (lowered opts) i data k1
    (Pethtool.set_ringparam i (Some (words opts)) t).
Proof.
  intros Ho Hi Ha.
  destruct (struct_asked "get_ringparam" _ _ _ i (inr data) k1 (t_env t) ring_tiles
    ltac:(set_solver) Hi ltac:(reflexivity) Ho Ha) as (w1 & E & Ho1 & Hk).
  destruct (script_set_ringparam_spec (H := module) i opts _ w1 t E) as (d & changed & Er & Hup);
    [by rewrite shown_keys|].
  by eapply (command_sends_ok "set_ringparam" _ _ _ _ _ _ _ _ _ w1 d changed (queried t w1) _
    ring_tiles Hi ltac:(reflexivity)).
Qed.

(** *** What a report prints *)

(** [pethtool -c] on the extension prints, under the name of the device, the
    words the kernel answered: every field of the structure once, by its name;
    or that the device does not support it, whatever the error. *)
Theorem show_coalesce_prints i args answer k1 (t : term (world K)) :
  in_order (t_env t) rho -> named (K := K) i ->
  ask_kernel (get_request ETHTOOL_GCOALESCE ethtool_coalesce) i (w_env (t_env t))
    = (answer, k1) ->
  exists w1, in_order w1 rho /\ w_env w1 = k1 /\
    Pethtool.show_coalesce i args t = (inr tt, says (queried t w1)
      match answer with
      | inl _ => ["Coalesce parameters for " +:+ i +:+ ":"; "  NOT supported!"]
      | inr data => coalesce_report i (shown ethtool_coalesce_desc data)
      end).
Proof.
  intros Ho Hi Ha.
  destruct (struct_asked "get_coalesce" _ _ _ i answer k1 (t_env t) coalesce_tiles
    ltac:(set_solver) Hi ltac:(reflexivity) Ho Ha) as (w1 & E & Ho1 & Hk).
  exists w1. split; [exact Ho1|]. split; [exact Hk|]. destruct answer as [n|data].
  - by apply (show_coalesce_refused (H := module) i args (os_error (K := K) n)).
  - apply (show_coalesce_spec (H := module)); [exact E|by rewrite shown_keys].
Qed.

(** [pethtool -g] alike. *)
Theorem show_ring_prints i args answer k1 (t : term (world K)) :
  in_order (t_env t) rho -> named (K := K) i ->
  ask_kernel (get_request ETHTOOL_GRINGPARAM ethtool_ringparam) i (w_env (t_env t))
    = (answer, k1) ->
  exists w1, in_order w1 rho /\ w_env w1 = k1 /\
    Pethtool.show_ring i args t = (inr tt, says (queried t w1)
      match answer with
      | inl _ => ["Ring parameters for " +:+ i +:+ ":"; "  NOT supported!"]
      | inr data => ring_report i (shown ethtool_ringparam_desc data)
      end).
Proof.
  intros Ho Hi Ha.
  destruct (struct_asked "get_ringparam" _ _ _ i answer k1 (t_env t) ring_tiles
    ltac:(set_solver) Hi ltac:(reflexivity) Ho Ha) as (w1 & E & Ho1 & Hk).
  exists w1. split; [exact Ho1|]. split; [exact Hk|]. destruct answer as [n|data].
  - by apply (show_ring_refused (H := module) i args (os_error (K := K) n)).
  - apply (show_ring_spec (H := module)); [exact E|by rewrite shown_keys].
Qed.

(** ** The whole program *)

End extension.

(** C10: pethtool on the extension.  The system behaves as [system_ok] says: memory
    can be had, a granted request is filled in, strings of drivers end within
    their field, /proc/net/dev is there with two lines of heading, and the names
    in it and of [getifaddrs] are UTF-8 (without which [get_devices] crashes,
    [get_devices_dies]); NETLINK is granted.  Then, whatever the command line
    in UTF-8, and whatever else the kernel and the drivers answer, errors and text
    that is not UTF-8 included, no function of the C code faults, and afterwards
    every reference is accounted for, no exception is pending, and no socket or
    stream is open. *)
Theorem pethtool_on_extension {K} `{PL : PlatformLaws K} (netlink : NetlinkUp K)
    (system : SystemUp K) signed_char runtime_text rho argv (t : term (world K)) :
  in_order (t_env t) rho -> Forall (named (K := K)) argv -> Forall (named (K := K)) (t_devices t) ->
  let r := Pethtool.main (H := extension signed_char runtime_text) argv t in
  r.1 <> inl Crashed /\ in_order (t_env r.2) rho.
Proof.
  apply (pethtool_safe (H := extension signed_char runtime_text) (fun w => in_order w rho)
    (named (K := K))).
Qed.

(** ** At work: the steady system *)

Definition quiet_text (k : exc_kind) : string := "".
Definition steady_term : term (world unit) := Term (boot tt) "" "" [].

Lemma eth0_named : named (K := unit) "eth0".
Proof. split; vm_compute; reflexivity. Qed.

Lemma words_named l : forallb (fun s => negb (has_nul s) && utf8_valid (K := unit) s) l = true ->
  Forall (named (K := unit)) l.
Proof.
  intros Hl. apply list.Forall_forall. intros s Hs%list_elem_of_In.
  apply (proj1 (forallb_forall _ _) Hl), andb_prop in Hs as [Hn%negb_true_iff Hu]. by split.
Qed.

Lemma pethtool_on_extension_witness :
  (Pethtool.main (H := extension true quiet_text)
     ["-C"; "eth0"; "rx-usecs"; "50"; "adaptive-rx"; "on"] steady_term).1 <> inl Crashed.
Proof.
  apply (pethtool_on_extension steady_up steady_system true quiet_text ∅ _ steady_term).
  - apply in_order_boot.
  - apply words_named. vm_compute. reflexivity.
  - apply words_named. reflexivity.
Defined.

Definition asked_for : list (string * string) := [("RX-Usecs", "50"); ("adaptive-rx", "on")].

Lemma set_coalesce_sends_witness : exists data,
  command_sends quiet_text ∅ ETHTOOL_SCOALESCE ethtool_coalesce ethtool_coalesce_desc
    (Pethtool.assoc coalesce_options) Pethtool.coalesce_value (lowered asked_for) "eth0" data tt
    (Pethtool.set_coalesce (H := module true quiet_text) "eth0" (Some (words asked_for))
       steady_term).
Proof.
  eexists. apply (set_coalesce_sends true quiet_text ∅ "eth0" asked_for _ tt steady_term).
  - apply in_order_boot.
  - apply eth0_named.
  - by apply (bool_decide_unpack _); vm_compute.
  - vm_compute. reflexivity.
Defined.

Definition asked_coalesce : (Z + list mbyte) * unit :=
  ask_kernel (K := unit) (get_request ETHTOOL_GCOALESCE ethtool_coalesce) "eth0" tt.

Lemma show_coalesce_prints_witness : exists w1 : world unit,
  in_order w1 ∅ /\ w_env w1 = asked_coalesce.2 /\
  Pethtool.show_coalesce (H := module true quiet_text) "eth0" None steady_term
    = (inr tt, says (queried steady_term w1)
      match asked_coalesce.1 with
      | inl _ => ["Coalesce parameters for eth0:"; "  NOT supported!"]
      | inr data => coalesce_report "eth0" (shown ethtool_coalesce_desc data)
      end).
Proof.
  apply (show_coalesce_prints true quiet_text ∅ "eth0" None _ _ steady_term).
  - apply in_order_boot.
  - apply eth0_named.
  - apply surjective_pairing.
Defined.

Lemma set_ringparam_sends_witness : exists data,
  command_sends quiet_text ∅ ETHTOOL_SRINGPARAM ethtool_ringparam ethtool_ringparam_desc
    (Pethtool.assoc Pethtool.ethtool_ringparam_map) py_int (lowered [("rx", "256")]) "eth0" data tt
    (Pethtool.set_ringparam (H := module true quiet_text) "eth0" (Some (words [("rx", "256")]))
       steady_term).
Proof.
  eexists. apply (set_ringparam_sends true quiet_text ∅ "eth0" [("rx", "256")] _ tt steady_term).
  - apply in_order_boot.
  - apply eth0_named.
  - vm_compute. reflexivity.
Defined.

(** The program on the C code: a report, and a number no [long] holds. *)
Example driver_report :
  t_out (Pethtool.main (H := module true quiet_text) ["--driver"; "eth0"] steady_term).2 =
    "driver: e1000e" +:+ newline +:+ "bus-info: 0000:00:19.0" +:+ newline.
Proof. vm_compute. reflexivity. Qed.

Example number_too_big :
  (Pethtool.main (H := module true quiet_text) ["-G"; "eth0"; "rx"; "99999999999999999999"]
    steady_term).1 = inl (Raised "SystemError" "").
Proof. vm_compute. reflexivity. Qed.
