(* ===== verification/ExtensionPethtool.v ===== *)
(** * Whole runs of pethtool on the extension

    The reports of pethtool, from the command line to the text, against what the
    kernel answers.  Each report has a reference here that knows no C code: a
    relation between the state of the system, the lines, and the state after the
    questions it takes.  The program is shown to print these lines for the
    device named, or under a heading for every device /proc/net/dev lists, up to
    an exception of [getifaddrs] or of a driver whose text is not UTF-8, and
    to leave the system in the state the reference does.  The system is as
    [SystemUp] and [NetlinkUp] say. *)
From S2P Require Import Prelude.
From S2P Require Import Platform.
From S2P Require Import CPython.
From S2P Require Import Testbed.
From S2P Require Import Stdio.
From S2P Require Import EthtoolH.
From S2P Require Import Ioctl.
From S2P Require Import IoctlFacts.
From S2P Require Import StructDesc.
From S2P Require Import StructDescFacts.
From S2P Require Import DevicesFacts.
From S2P Require Import EtherSound.
From S2P Require Import EthtoolModule.
From S2P Require Import Contract.
From S2P Require Import Session.
From S2P Require Import Script.
From S2P Require Import Pethtool.
From S2P Require Import PethtoolFacts.
From S2P Require Import PethtoolRuns.
From S2P Require Import Extension.
From S2P Require Import ExtensionFacts.
From S2P Require Import ExtensionCalls.
From S2P Require Import ExtensionQueries.
From S2P Require Import ExtensionSafe.

(** ** Lines on the terminal *)

Definition tabbed (tab : string) (lines : list string) : string :=
  all_text ((fun l => tab +:+ l +:+ newline) <$> lines).

Lemma says_out {S} lines : forall t : term S,
  says t lines = Term (t_env t) (t_out t +:+ tabbed (t_tab t) lines) (t_tab t) (t_devices t).
Proof.
  induction lines as [|l lines IH]; intros [s o tab ds]; cbn [says].
  - unfold tabbed. cbn. by rewrite string_app_nil.
  - rewrite IH. cbn [t_env t_out t_tab t_devices]. f_equal.
    unfold tabbed. rewrite fmap_cons. cbn [all_text]. by rewrite !string_app_assoc.
Qed.

Section answers.
Context {S : Type} `{Ethtool S}.
Implicit Types t : term S.

(** A question with a text for [IOError]. *)
Lemma try_call_eq {A B} (f : S -> (pyexc + A) * S) (read : A -> B) (dflt : B) r s t :
  f (t_env t) = (r, s) -> (forall e, r = inl e -> is_io_error e = true) ->
  try_except (v ← call f; mret (read v)) is_io_error (fun _ => mret dflt) t
    = (inr (match r with inl _ => dflt | inr a => read a end), queried t s).
Proof.
  intros E He. unfold try_except, call, mbind, script_bind. rewrite E.
  destruct r as [e|a]; [|done]. specialize (He e eq_refl). rewrite He. by destruct e.
Qed.
End answers.

(** ** What is told of a device *)

(** The line before a device. *)
Definition heading (active : list string) (d : string) : string :=
  d +:+ (if bool_decide (d ∈ active) then "" else " (not active)") +:+ ":".

Section told.
Context {K : Type} `{Platform K} (runtime_text : exc_kind -> string).

(** A report: of a device, from a state of the system, its lines, or the exception
    that ends the program before any, and the state after. *)
Definition report : Type := string -> K -> pyexc + list string -> K -> Prop.

Definition coalesce_told : report := fun i k r k' =>
  let '(answer, k1) := ask_kernel (get_request ETHTOOL_GCOALESCE ethtool_coalesce) i k in
  k' = k1 /\ r = inr
    match answer with
    | inl _ => ["Coalesce parameters for " +:+ i +:+ ":"; "  NOT supported!"]
    | inr data => coalesce_report i (shown ethtool_coalesce_desc data)
    end.

Definition ring_told : report := fun i k r k' =>
  let '(answer, k1) := ask_kernel (get_request ETHTOOL_GRINGPARAM ethtool_ringparam) i k in
  k' = k1 /\ r = inr
    match answer with
    | inl _ => ["Ring parameters for " +:+ i +:+ ":"; "  NOT supported!"]
    | inr data => ring_report i (shown ethtool_ringparam_desc data)
    end.

(** One setting, and several asked for one after the other. *)
Definition setting_text (answer : Z + list mbyte) : string :=
  match answer with
  | inl _ => "not supported"
  | inr data => on_off (s32 (default 0 (read_u32 4 data)))
  end.

Fixpoint settings_told (asked : list (string * Z)) (i : string) (k : K) : list string * K :=
  match asked with
  | [] => ([], k)
  | (title, cmd) :: asked =>
      let '(answer, k1) := ask_kernel (value_request cmd None) i k in
      let '(lines, k2) := settings_told asked i k1 in
      ((title +:+ ": " +:+ setting_text answer) :: lines, k2)
  end.

Definition offload_settings : list (string * Z) :=
  [("scatter-gather", ETHTOOL_GSG); ("tcp segmentation offload", ETHTOOL_GTSO);
   ("udp fragmentation offload", ETHTOOL_GUFO);
   ("generic segmentation offload", ETHTOOL_GGSO);
   ("generic receive offload", ETHTOOL_GGRO)].

Definition offload_told : report := fun i k r k' =>
  exists lines, r = inr lines /\ settings_told offload_settings i k = (lines, k').

(** A text a driver gave; what is not UTF-8 is an exception. *)
Definition readable (text : option string) : pyexc + option string :=
  match text with
  | Some s => if utf8_valid s then inr (Some s)
              else inl (interpreter_error (K := K) runtime_text PyExc_UnicodeDecodeError)
  | None => inr None
  end.

Definition driver_told : report := fun i k r k' =>
  exists driver k1, module_told i k driver k1 /\
    match readable driver with
    | inl e => r = inl e /\ k' = k1
    | inr driver => exists bus, businfo_told i k1 bus k' /\
        r = match readable bus with
            | inl e => inl e
            | inr bus => inr ["driver: " +:+ default "not implemented" driver;
                              "bus-info: " +:+ default "not available" bus]
            end
    end.

(** ** What a run prints *)

(** Every device under a heading that says whether it is active, up to one whose
    report fails. *)
Inductive each_told (told : report) (active : list string) :
    list string -> K -> string -> pyexc + unit -> K -> Prop :=
  | each_none k : each_told told active [] k "" (inr tt) k
  | each_one d devs k lines k1 text r k2 :
      told d k (inr lines) k1 -> each_told told active devs k1 text r k2 ->
      each_told told active (d :: devs) k
        (heading active d +:+ newline +:+ tabbed "  " lines +:+ text) r k2
  | each_fails d devs k e k1 :
      told d k (inl e) k1 ->
      each_told told active (d :: devs) k (heading active d +:+ newline) (inl e) k1.

Definition lines_of (answer : pyexc + list string) : list string :=
  match answer with inl _ => [] | inr lines => lines end.

Definition ending (answer : pyexc + list string) : pyexc + unit :=
  match answer with inl e => inl e | inr _ => inr tt end.

(** The devices: the one named, or all (those the program knows already, for an
    empty name). *)
Inductive devices_told (told : report) (tab : string) (active devices : list string) :
    option string -> K -> string -> pyexc + unit -> K -> Prop :=
  | one_told i k answer k' :
      i <> "" -> told i k answer k' ->
      devices_told told tab active devices (Some i) k (tabbed tab (lines_of answer)) (ending answer) k'
  | all_told interface k text r k' :
      interface = None \/ interface = Some "" -> each_told told active devices k text r k' ->
      devices_told told tab active devices interface k text r k'.

(** The interfaces, without which nothing is printed, then the devices. *)
Inductive command_told (told : report) (tab : string) (devices : list string)
    (interface : option string) (k : K) : string -> pyexc + unit -> K -> Prop :=
  | told_nothing n k1 :
      sys_getifaddrs k = (inl n, k1) ->
      command_told told tab devices interface k "" (inl (os_error (K := K) n)) k1
  | told_devices ifa k1 text r k2 :
      sys_getifaddrs k = (inr ifa, k1) ->
      devices_told told tab (active_names [] ifa) devices interface k1 text r k2 ->
      command_told told tab devices interface k text r k2.

(** The text and the end of a run with the arguments [args], on a terminal with
    the globals [tab] and [devices]. *)
Inductive run_told (told : report) (tab : string) (devices : list string) :
    list string -> K -> string -> pyexc + unit -> K -> Prop :=
  | run_named a args k text r k' :
      command_told told tab devices (Some a) k text r k' ->
      run_told told tab devices (a :: args) k text r k'
  | run_listed k devs k0 text r k' :
      devices_listed k devs k0 -> command_told told tab devs None k0 text r k' ->
      run_told told tab devices [] k text r k'.

(** The report an option asks for. *)
Definition report_of (o : string) : option report :=
  let o_in (os : list string) := bool_decide (o ∈ os) in
  if o_in ["-c"; "--show-coalesce"] then Some coalesce_told
  else if o_in ["-i"; "--driver"] then Some driver_told
  else if o_in ["-k"; "--show-offload"] then Some offload_told
  else if o_in ["-g"; "--show-ring"] then Some ring_told
  else None.
End told.
Arguments report : clear implicits.

(** ** The scripts on the extension *)

Section prints.
Context {K : Type} `{PL : PlatformLaws K} {UP : NetlinkUp K} {SU : SystemUp K}.
Context (signed_char : bool) (runtime_text : exc_kind -> string).
#[local] Instance prints_module : Ethtool (world K) := extension signed_char runtime_text.
Context (rho : gmultiset positive).
Implicit Types t : term (world K).

(** A report prints what is told, or nothing. *)
Definition tells (cmd : command (world K)) (told : report K) : Prop :=
  forall i t, named (K := K) i -> in_order (t_env t) rho -> exists r w',
    in_order w' rho /\ told i (w_env (t_env t)) r (w_env w') /\
    cmd i None t = (ending r, says (queried t w') (lines_of r)).

Lemma coalesce_tells : tells show_coalesce coalesce_told.
Proof.
  intros i t Hi Ho. unfold coalesce_told.
  destruct (ask_kernel _ i (w_env (t_env t))) as [answer k1] eqn:Ea.
  destruct (show_coalesce_prints signed_char runtime_text rho i None answer k1 t Ho Hi Ea)
    as (w1 & Ho1 & <- & E).
  by eexists (inr _), w1.
Qed.

Lemma ring_tells : tells show_ring ring_told.
Proof.
  intros i t Hi Ho. unfold ring_told.
  destruct (ask_kernel _ i (w_env (t_env t))) as [answer k1] eqn:Ea.
  destruct (show_ring_prints signed_char runtime_text rho i None answer k1 t Ho Hi Ea)
    as (w1 & Ho1 & <- & E).
  by eexists (inr _), w1.
Qed.

(** *** Drivers *)

(** A question about the driver, with a text for [IOError]. *)
Lemma driver_text name told dflt i t :
  (forall w, promises signed_char runtime_text name [AStr i] rho w
     (driver_error runtime_text told (w_env w))
     (by_looks PStr (fun s k' => told (w_env w) (Some s) k' /\ utf8_valid (K := K) s = true))) ->
  in_order (t_env t) rho -> exists text w', in_order w' rho /\
    told (w_env (t_env t)) text (w_env w') /\
    try_except (call (ask_function signed_char runtime_text read_str name [AStr i]))
      is_io_error (fun _ => mret dflt) t
      = (match readable runtime_text text with inl e => inl e | inr s => inr (default dflt s) end,
         queried t w').
Proof.
  intros Hp Ho.
  destruct (ask_function_ok signed_char runtime_text read_str PStr name [AStr i] rho (t_env t) _ _
    read_str_ok Ho (Hp (t_env t))) as (r & w' & E & Ho' & _ & Hr).
  unfold try_except, call. rewrite E. destruct r as [e|s].
  - destruct Hr as [[Ht [n ->]]|[-> (s & Ht & Hu)]]; [by exists None, w'|].
    exists (Some s), w'. cbn [readable]. by rewrite Hu.
  - destruct Hr as [Ht Hu]. exists (Some s), w'. cbn [readable]. by rewrite Hu.
Qed.

Lemma driver_tells : tells show_driver (driver_told runtime_text).
Proof.
  intros i t Hi Ho. unfold show_driver.
  destruct (driver_text "get_module" (module_told i) "not implemented" i t
    (fun w => get_module_promise signed_char runtime_text i rho w Hi) Ho)
    as (driver & w1 & Ho1 & Ht1 & E1).
  change (et_get_module i) with (ask_function signed_char runtime_text read_str "get_module" [AStr i]).
  destruct (readable runtime_text driver) as [e|d] eqn:Ed.
  { exists (inl e), w1. split; [done|]. split.
    - exists driver, (w_env w1). split; [done|]. by rewrite Ed.
    - by rewrite (script_raise _ _ _ _ _ E1). }
  destruct (driver_text "get_businfo" (businfo_told i) "not available" i (queried t w1)
    (fun w => get_businfo_promise signed_char runtime_text i rho w Hi) Ho1)
    as (bus & w2 & Ho2 & Ht2 & E2).
  change (et_get_businfo i)
    with (ask_function signed_char runtime_text read_str "get_businfo" [AStr i]).
  eexists _, w2. split; [exact Ho2|]. split.
  { exists driver, (w_env w1). split; [done|]. rewrite Ed. exists bus. split; [exact Ht2|reflexivity]. }
  rewrite (script_step _ _ _ _ _ E1). destruct (readable runtime_text bus) as [e|b].
  - by rewrite (script_raise _ _ _ _ _ E2).
  - by rewrite (script_step _ _ _ _ _ E2), (script_step _ _ _ _ _ (printtab_eq _ _)), printtab_eq.
Qed.

(** *** Offload settings *)

Lemma setting_asked what cmd i w :
  (what, cmd) ∈ value_commands -> named (K := K) i -> in_order w rho ->
  exists answer k1 r w1, ask_kernel (value_request cmd None) i (w_env w) = (answer, k1) /\
    et_get_value what i w = (r, w1) /\ in_order w1 rho /\ w_env w1 = k1 /\
    (match r with inl _ => "not supported" | inr v => on_off v end) = setting_text answer /\
    (forall e, r = inl e -> is_io_error e = true).
Proof.
  intros Hw Hi Ho.
  assert (forall ps, call_method signed_char what ps = Some (get_value (K := K) cmd ps)) as Hf.
  { unfold value_commands in Hw.
    repeat (apply elem_of_cons in Hw as [[= -> ->]|Hw]; [reflexivity|]). by apply elem_of_nil in Hw. }
  destruct (ask_function_ok signed_char runtime_text read_int PInt what [AStr i] rho w _ _
    read_int_ok Ho (get_value_promise signed_char runtime_text what cmd i rho w Hi Hf))
    as (r & w1 & E & Ho1 & _ & Hr).
  destruct r as [e|z]; destruct Hr as (x & Ha & ->).
  - exists (inl x), (w_env w1), (inl (os_error (K := K) x)), w1.
    do 5 (split; [done|]). by intros e [= <-].
  - exists (inr x), (w_env w1), (inr (s32 (default 0 (read_u32 4 x)))), w1. done.
Qed.

Lemma offload_text_told what cmd i t :
  (what, cmd) ∈ value_commands -> named (K := K) i -> in_order (t_env t) rho ->
  exists answer w1, ask_kernel (value_request cmd None) i (w_env (t_env t)) = (answer, w_env w1) /\
    in_order w1 rho /\ offload_text i what t = (inr (setting_text answer), queried t w1).
Proof.
  intros Hw Hi Ho.
  destruct (setting_asked what cmd i (t_env t) Hw Hi Ho)
    as (answer & k1 & r & w1 & Ha & E & Ho1 & <- & Ht & He).
  exists answer, w1. split; [done|]. split; [done|]. unfold offload_text.
  by rewrite (try_call_eq _ on_off "not supported" r w1 t E He), Ht.
Qed.

(** One more setting asked for, from the terminal [t]. *)
Ltac asks_setting what cmd i t a w Hk Ho E :=
  destruct (offload_text_told what cmd i t) as (a & w & Hk & Ho & E);
    [apply (bool_decide_unpack _); vm_compute; exact I|done..|];
  cbn [queried t_env] in Hk.

Lemma offload_tells : tells show_offload offload_told.
Proof.
  intros i t Hi Ho. unfold show_offload.
  asks_setting "get_sg" ETHTOOL_GSG i t a1 w1 K1 O1 E1.
  asks_setting "get_tso" ETHTOOL_GTSO i (queried t w1) a2 w2 K2 O2 E2.
  asks_setting "get_ufo" ETHTOOL_GUFO i (queried t w2) a3 w3 K3 O3 E3.
  asks_setting "get_gso" ETHTOOL_GGSO i (queried t w3) a4 w4 K4 O4 E4.
  asks_setting "get_gro" ETHTOOL_GGRO i (queried t w4) a5 w5 K5 O5 E5.
  eexists (inr _), w5. split; [exact O5|]. split.
  { eexists. split; [reflexivity|]. unfold offload_settings. cbn [settings_told].
    rewrite K1, K2, K3, K4, K5. reflexivity. }
  rewrite (script_step _ _ _ _ _ E1), (script_step _ _ _ _ _ E2), (script_step _ _ _ _ _ E3),
    (script_step _ _ _ _ _ E4), (script_step _ _ _ _ _ E5).
  rewrite !(script_step _ _ _ _ _ (printtab_eq _ _)), printtab_eq. reflexivity.
Qed.

(** *** Runs *)

Lemma active_asked w : in_order w rho -> exists answer w1, in_order w1 rho /\
  sys_getifaddrs (w_env w) = (answer, w_env w1) /\
  et_get_active_devices w
    = (match answer with inl n => inl (os_error (K := K) n)
                    | inr ifa => inr (active_names [] ifa) end, w1).
Proof.
  intros Ho.
  destruct (ask_function_ok signed_char runtime_text (read_list read_str) PStrs
    "get_active_devices" [] rho w _ _ read_strs_ok Ho
    (get_active_devices_promise signed_char runtime_text rho w)) as (r & w1 & E & Ho1 & _ & Hr).
  destruct r as [e|l].
  - destruct Hr as (n & Hn & ->). by exists (inl n), w1.
  - destruct Hr as [_ (ifa & Hi & ->)]. by exists (inr ifa), w1.
Qed.

Lemma devices_asked w : in_order w rho -> exists devs w1,
  devices_listed (w_env w) devs (w_env w1) /\ Forall (named (K := K)) devs /\
  et_get_devices w = (inr devs, w1) /\ in_order w1 rho.
Proof.
  intros Ho.
  destruct (ask_function_ok signed_char runtime_text (read_list read_str) PStrs "get_devices" []
    rho w _ _ read_strs_ok Ho (get_devices_promise signed_char runtime_text rho w))
    as (r & w1 & E & Ho1 & _ & Hr).
  destruct r as [e|devs]; [done|]. destruct Hr as [Hn Hl]. by exists devs, w1.
Qed.

Section report.
Context (cmd : command (world K)) (told : report K) (Htold : tells cmd told).

Lemma each_device_told active devs : forall t, t_tab t = "  " -> Forall (named (K := K)) devs ->
  in_order (t_env t) rho -> exists text r w',
    in_order w' rho /\ each_told told active devs (w_env (t_env t)) text r (w_env w') /\
    for_each devs (fun interface => print (heading active interface);; cmd interface None) t
      = (r, Term w' (t_out t +:+ text) "  " (t_devices t)).
Proof.
  induction devs as [|d devs IH]; intros t Htab Hn Ho.
  { exists "", (inr tt), (t_env t). split; [done|]. split; [constructor|].
    rewrite string_app_nil. destruct t. cbn in *. by subst. }
  apply Forall_cons_1 in Hn as [Hd Hn]. cbn [for_each].
  set (t1 := Term (t_env t) (t_out t +:+ (heading active d +:+ newline)) (t_tab t) (t_devices t)).
  destruct (Htold d t1 Hd Ho) as ([e|lines] & w1 & Ho1 & Ht1 & E1).
  { exists (heading active d +:+ newline), (inl e), w1. split; [done|].
    split; [by apply each_fails|]. rewrite (script_raise _ _ _ e (queried t1 w1)).
    - unfold t1, queried. cbn [t_out t_devices t_tab]. by rewrite Htab.
    - by rewrite (script_step _ _ _ _ _ (print_eq _ t)). }
  destruct (IH (says (queried t1 w1) lines)) as (text & r & w2 & Ho2 & Ht2 & E2);
    [by rewrite says_out|done|by rewrite says_out|].
  eexists _, r, w2. split; [exact Ho2|]. split.
  { eapply each_one; [exact Ht1|]. rewrite says_out in Ht2. exact Ht2. }
  rewrite (script_step _ _ _ tt (says (queried t1 w1) lines)).
  2:{ by rewrite (script_step _ _ _ _ _ (print_eq _ t)). }
  rewrite E2, says_out. cbn [t_out t_devices t_tab queried t1]. rewrite Htab. do 2 f_equal.
  by rewrite !string_app_assoc.
Qed.

Lemma run_cmd_told interface t :
  (forall i, interface = Some i -> named (K := K) i) ->
  Forall (named (K := K)) (t_devices t) -> in_order (t_env t) rho ->
  exists text r w' tab, in_order w' rho /\
    command_told told (t_tab t) (t_devices t) interface (w_env (t_env t)) text r (w_env w') /\
    run_cmd cmd interface None t = (r, Term w' (t_out t +:+ text) tab (t_devices t)).
Proof.
  intros Hi Hd Ho. unfold run_cmd.
  destruct (active_asked (t_env t) Ho) as ([n|ifa] & w1 & Ho1 & Hk & E).
  { exists "", (inl (os_error (K := K) n)), w1, (t_tab t). split; [done|].
    split; [by apply told_nothing|]. apply script_raise. unfold call. rewrite E, string_app_nil.
    reflexivity. }
  assert (call et_get_active_devices t = (inr (active_names [] ifa), queried t w1)) as Ec
    by (unfold call; by rewrite E).
  rewrite (script_step _ _ _ _ _ Ec).
  assert (interface = None \/ interface = Some "" -> exists text r w' tab, in_order w' rho /\
    command_told told (t_tab t) (t_devices t) interface (w_env (t_env t)) text r (w_env w') /\
    (set_tab "  ";; devices ← all_devices; for_each devices (fun interface =>
      print (heading (active_names [] ifa) interface);; cmd interface None)) (queried t w1)
      = (r, Term w' (t_out t +:+ text) tab (t_devices t))) as Hall.
  { intros Hnone. destruct (each_device_told (active_names [] ifa) (t_devices t)
      (Term w1 (t_out t) "  " (t_devices t)) eq_refl Hd Ho1) as (text & r & w' & Ho' & Ht & E').
    exists text, r, w', "  ". split; [done|]. split; [|exact E'].
    eapply told_devices; [exact Hk|]. by apply all_told. }
  destruct interface as [[|c s]|]; [by apply Hall; right| |by apply Hall; left].
  destruct (Htold (String c s) (queried t w1)) as (r & w' & Ho' & Ht & E'); [by apply Hi|done|].
  exists (tabbed (t_tab t) (lines_of r)), (ending r), w', (t_tab t). split; [done|]. split.
  - eapply told_devices; [exact Hk|]. by apply one_told.
  - by rewrite E', says_out.
Qed.

Lemma run_report_told args t :
  Forall (named (K := K)) args -> Forall (named (K := K)) (t_devices t) ->
  in_order (t_env t) rho ->
  exists text r t', run_cmd_noargs cmd args t = (r, t') /\ in_order (t_env t') rho /\
    t_out t' = t_out t +:+ text /\
    run_told told (t_tab t) (t_devices t) args (w_env (t_env t)) text r (w_env (t_env t')).
Proof.
  intros Hn Hd Ho. destruct args as [|a args]; cbn [run_cmd_noargs].
  - destruct (devices_asked (t_env t) Ho) as (devs & w1 & Hl & Hdevs & E & Ho1).
    assert (call et_get_devices t = (inr devs, queried t w1)) as Ec
      by (unfold call; by rewrite E).
    rewrite (script_step _ _ _ _ _ Ec).
    rewrite (script_step (set_all_devices devs) _ (queried t w1) tt
      (Term w1 (t_out t) (t_tab t) devs) eq_refl).
    destruct (run_cmd_told None (Term w1 (t_out t) (t_tab t) devs))
      as (text & r & w' & tb & Ho' & Ht & ->); [done..|].
    do 3 eexists. split; [reflexivity|]. split; [done|]. split; [reflexivity|].
    by eapply run_listed.
  - apply Forall_cons_1 in Hn as [Ha _].
    destruct (run_cmd_told (Some a) t) as (text & r & w' & tb & Ho' & Ht & ->);
      [by intros i [= <-]|done..|].
    do 3 eexists. split; [reflexivity|]. split; [done|]. split; [reflexivity|].
    by apply run_named.
Qed.
End report.

(** The command [main] runs for a reporting option. *)
Lemma report_command o told args :
  report_of runtime_text o = Some told -> (forall a, a ∈ args -> String.prefix "-" a = false) ->
  exists cmd, main (o :: args) = run_cmd_noargs cmd args /\ tells cmd told.
Proof.
  intros Ho Hargs%getopt_plain. unfold report_of in Ho.
  repeat (case_bool_decide as Hin;
    [injection Ho as <-;
     rewrite !elem_of_cons, elem_of_nil in Hin; destruct Hin as [->|[->|[]]];
     (eexists; split; [unfold main; cbn; rewrite Hargs; reflexivity|])|clear Hin]);
    try discriminate; eauto using coalesce_tells, driver_tells, offload_tells, ring_tells.
Qed.

(** *** Settings *)

(** The terminal of a run that sets something: the devices are listed, and the
    active ones asked for, before the command. *)
Definition setting_of (o : string) : command (world K) :=
  let o_in (os : list string) := bool_decide (o ∈ os) in
  if o_in ["-K"; "--offload"] then set_offload
  else if o_in ["-C"; "--coalesce"] then set_coalesce
  else set_ringparam.

Definition set_options : list string :=
  ["-K"; "--offload"; "-C"; "--coalesce"; "-G"; "--set-ring"].

Lemma getopt_device i rest : String.prefix "-" i = false -> getopt (i :: rest) = inr ([], i :: rest).
Proof.
  intros Hi. destruct i as [|c i]; [done|]. destruct (ascii_dec "-" c) as [<-|Hc]; [by destruct i|].
  by destruct c as [[] [] [] [] [] [] [] []].
Qed.

Lemma main_setting o i a rest : o ∈ set_options -> String.prefix "-" i = false ->
  main (o :: i :: a :: rest) =
    (devices ← call et_get_devices;
     set_all_devices devices;;
     let '(interface, args) :=
       if bool_decide (i ∈ devices) then (Some i, a :: rest) else (None, i :: a :: rest) in
     run_cmd (setting_of o) interface (Some args)).
Proof.
  intros Ho Hi%(fun H => getopt_device i (a :: rest) H).
  unfold set_options in Ho. rewrite !elem_of_cons, elem_of_nil in Ho.
  remember (i :: a :: rest) as args eqn:Ea.
  repeat (destruct Ho as [->|Ho]; [unfold main; cbn; rewrite Hi, Ea; reflexivity|]). done.
Qed.

Lemma setting_run o i a rest t :
  o ∈ set_options -> String.prefix "-" i = false -> i <> "" -> in_order (t_env t) rho ->
  exists devs w1 answer w2, devices_listed (w_env (t_env t)) devs (w_env w1) /\
    sys_getifaddrs (w_env w1) = (answer, w_env w2) /\ in_order w2 rho /\
    (i ∈ devs -> main (o :: i :: a :: rest) t =
       let t2 := Term w2 (t_out t) (t_tab t) devs in
       match answer with
       | inl n => (inl (os_error (K := K) n), t2)
       | inr _ => setting_of o i (Some (a :: rest)) t2
       end).
Proof.
  intros Ho Hi Hne Hj. destruct (devices_asked (t_env t) Hj) as (devs & w1 & Hl & _ & E1 & Ho1).
  destruct (active_asked w1 Ho1) as (answer & w2 & Ho2 & Hk & E2).
  exists devs, w1, answer, w2. do 3 (split; [done|]). intros Hin.
  assert (call et_get_devices t = (inr devs, queried t w1)) as Ec by (unfold call; by rewrite E1).
  set (t1 := Term w1 (t_out t) (t_tab t) devs).
  rewrite (main_setting o i a rest Ho Hi), (script_step _ _ _ _ _ Ec).
  rewrite (script_step (set_all_devices devs) _ (queried t w1) tt t1 eq_refl).
  rewrite bool_decide_true by done. unfold run_cmd. destruct answer as [n|ifa].
  - apply script_raise. unfold call, t1. cbn [t_env]. by rewrite E2.
  - assert (call et_get_active_devices t1 = (inr (active_names [] ifa), queried t1 w2)) as Ea
      by (unfold call, t1; cbn [t_env]; by rewrite E2).
    rewrite (script_step _ _ _ _ _ Ea). by destruct i.
Qed.

(** The structures.  Where the device has none to show, it is told so and nothing
    is sent. *)
Definition struct_set (get set : Z) (fs : list cfield) (table : list struct_desc)
    (opt : string -> option string) (number : string -> option Z) (unsupported : string)
    (i : string) (opts : list (string * string)) (t : term (world K))
    (r : (Script.pyexc + unit) * term (world K)) : Prop :=
  let '(answer, k1) := ask_kernel (get_request get fs) i (w_env (t_env t)) in
  match answer with
  | inl _ => r.1 = inr tt /\ in_order (t_env r.2) rho /\ w_env (t_env r.2) = k1 /\
      t_out r.2 = t_out t +:+ (t_tab t +:+ unsupported +:+ newline)
  | inr data => command_sends runtime_text rho set fs table opt number (lowered opts) i data k1 r
  end.

(** The offload settings: one request, and any exception is dropped. *)
Definition offload_commands : list (string * (string * Z)) :=
  [("tso", ("set_tso", ETHTOOL_STSO)); ("gso", ("set_gso", ETHTOOL_SGSO));
   ("gro", ("set_gro", ETHTOOL_SGRO))].

Definition on_value (v : string) : Z := if String.eqb v "on" then 1 else 0.

Definition offload_set (i cmd v : string) (t : term (world K))
    (r : (Script.pyexc + unit) * term (world K)) : Prop :=
  r.1 = inr tt /\ in_order (t_env r.2) rho /\ t_out r.2 = t_out t /\
  w_env (t_env r.2) =
    match by_name (lower cmd) offload_commands with
    | Some (_, c) => (ask_kernel (value_request c (Some (on_value (lower v)))) i (w_env (t_env t))).2
    | None => w_env (t_env t)
    end.

Lemma value_set name cmd i v t :
  (name, cmd) ∈ set_commands -> named (K := K) i -> in_order (t_env t) rho ->
  let r := try_set i name v t in
  r.1 = inr tt /\ in_order (t_env r.2) rho /\ t_out r.2 = t_out t /\
  w_env (t_env r.2)
    = (ask_kernel (value_request cmd (Some (on_value v))) i (w_env (t_env t))).2.
Proof.
  intros Hn Hi Ho r.
  assert (forall ps, call_method signed_char name ps = Some (set_value (K := K) cmd ps)) as Hf.
  { unfold set_commands in Hn.
    repeat (apply elem_of_cons in Hn as [[= -> ->]|Hn]; [reflexivity|]). by apply elem_of_nil in Hn. }
  destruct (ask_function_ok signed_char runtime_text read_none (fun _ => PNone) name
    [AStr i; AInt (on_value v)] rho (t_env t) _ _ (fun a => match a with tt => read_none_ok end) Ho
    (set_value_promise signed_char runtime_text name cmd i (on_value v) rho (t_env t) Hi Hf))
    as (x & w1 & E & Ho1 & _ & Hr).
  assert ((ask_kernel (value_request cmd (Some (on_value v))) i (w_env (t_env t))).2 = w_env w1 /\
    r = (inr tt, queried t w1)) as [Ek Er]; [|rewrite Ek, Er; by do 3 (split; [done|])].
  unfold r, try_set, try_except, call. cbn [et_set_value prints_module extension].
  change (if String.eqb v "on" then 1 else 0) with (on_value v). rewrite E.
  destruct x as [e|[]].
  - rewrite decide_True in Hr by (unfold on_value, in_int; destruct (String.eqb v "on"); clear; int_lia).
    by destruct Hr as (n & -> & ->).
  - by destruct Hr as (_ & d & ->).
Qed.

Lemma offload_sent i cmd v t :
  named (K := K) i -> in_order (t_env t) rho ->
  offload_set i cmd v t (set_offload i (Some [cmd; v]) t).
Proof.
  intros Hi Ho. unfold set_offload, offload_set, by_name, offload_commands. cbn [lower_args map].
  rewrite (script_step (mret _) _ t _ t eq_refl). cbn [List.find fst].
  rewrite !(String.eqb_sym _ (lower cmd)).
  destruct (String.eqb (lower cmd) "tso"); [|destruct (String.eqb (lower cmd) "gso");
    [|destruct (String.eqb (lower cmd) "gro"); [|done]]];
    (eapply value_set; [apply (bool_decide_unpack _); vm_compute; exact I|done..]).
Qed.

Lemma struct_unsupported {A} (get : world K -> (Script.pyexc + A) * world K) msg
    (k : A -> script (world K) unit) t n w1 :
  get (t_env t) = (inl (os_error (K := K) n), w1) -> in_order w1 rho ->
  let r := or_unsupported (call get) (printtab msg) k t in
  r.1 = inr tt /\ in_order (t_env r.2) rho /\ w_env (t_env r.2) = w_env w1 /\
  t_out r.2 = t_out t +:+ (t_tab t +:+ msg +:+ newline).
Proof. intros E Ho r. unfold r. by rewrite (or_unsupported_error _ _ _ _ _ _ E). Qed.

Lemma coalesce_sent i opts t :
  named (K := K) i -> newline ∉ (lowered opts).*1 -> in_order (t_env t) rho ->
  struct_set ETHTOOL_GCOALESCE ETHTOOL_SCOALESCE ethtool_coalesce ethtool_coalesce_desc
    (assoc coalesce_options) coalesce_value
    ("Interrupt coalescing NOT supported on " +:+ i +:+ "!") i opts t
    (set_coalesce i (Some (words opts)) t).
Proof.
  intros Hi Hnl Ho. unfold struct_set.
  destruct (ask_kernel _ i _) as [[n|data] k1] eqn:Ea.
  - destruct (struct_asked signed_char runtime_text rho "get_coalesce" _ _ _ i (inl n) k1
      (t_env t) coalesce_tiles ltac:(set_solver) Hi ltac:(reflexivity) Ho Ea)
      as (w1 & E & Ho1 & <-). by eapply struct_unsupported.
  - by apply (set_coalesce_sends signed_char).
Qed.

Lemma ring_sent i opts t :
  named (K := K) i -> in_order (t_env t) rho ->
  struct_set ETHTOOL_GRINGPARAM ETHTOOL_SRINGPARAM ethtool_ringparam ethtool_ringparam_desc
    (assoc ethtool_ringparam_map) py_int ("ring parameters NOT supported on " +:+ i +:+ "!") i
    opts t (set_ringparam i (Some (words opts)) t).
Proof.
  intros Hi Ho. unfold struct_set.
  destruct (ask_kernel _ i _) as [[n|data] k1] eqn:Ea.
  - destruct (struct_asked signed_char runtime_text rho "get_ringparam" _ _ _ i (inl n) k1
      (t_env t) ring_tiles ltac:(set_solver) Hi ltac:(reflexivity) Ho Ea)
      as (w1 & E & Ho1 & <-). by eapply struct_unsupported.
  - by apply (set_ringparam_sends signed_char).
Qed.

(** What the command leaves, by the option; [-K] takes one pair only. *)
Definition setting_done (o i : string) (opts : list (string * string)) (t : term (world K))
    (r : (Script.pyexc + unit) * term (world K)) : Prop :=
  let o_in (os : list string) := bool_decide (o ∈ os) in
  if o_in ["-K"; "--offload"] then
    match opts with
    | [(cmd, v)] => offload_set i cmd v t r
    | _ => r = (inl (Raised "ValueError" "too many values to unpack (expected 2)"), t)
    end
  else if o_in ["-C"; "--coalesce"] then
    struct_set ETHTOOL_GCOALESCE ETHTOOL_SCOALESCE ethtool_coalesce ethtool_coalesce_desc
      (assoc coalesce_options) coalesce_value
      ("Interrupt coalescing NOT supported on " +:+ i +:+ "!") i opts t r
  else
    struct_set ETHTOOL_GRINGPARAM ETHTOOL_SRINGPARAM ethtool_ringparam ethtool_ringparam_desc
      (assoc ethtool_ringparam_map) py_int ("ring parameters NOT supported on " +:+ i +:+ "!") i
      opts t r.

Lemma command_done o i opts t :
  opts <> [] -> newline ∉ (lowered opts).*1 -> named (K := K) i -> in_order (t_env t) rho ->
  setting_done o i opts t (setting_of o i (Some (words opts)) t).
Proof.
  intros Hne Hnl Hi Ho. unfold setting_done, setting_of.
  case_bool_decide as Hk; [|case_bool_decide as Hc; [by apply coalesce_sent|by apply ring_sent]].
  destruct opts as [|[c v] [|[c2 v2] opts]]; [done| |]; [by apply offload_sent|].
  reflexivity.
Qed.

(** After the interfaces: without them the exception ends the run. *)
Definition run_set (o i : string) (opts : list (string * string)) (answer : Z + list ifaddrs)
    (t : term (world K)) (r : (Script.pyexc + unit) * term (world K)) : Prop :=
  match answer with
  | inl n => r = (inl (os_error (K := K) n), t) /\ in_order (t_env t) rho
  | inr _ => setting_done o i opts t r
  end.

Lemma settings_run o i opts t :
  o ∈ set_options -> String.prefix "-" i = false -> i <> "" -> named (K := K) i ->
  opts <> [] -> newline ∉ (lowered opts).*1 -> in_order (t_env t) rho ->
  exists devs k1 answer w2, devices_listed (w_env (t_env t)) devs k1 /\
    sys_getifaddrs k1 = (answer, w_env w2) /\
    (i ∈ devs -> run_set o i opts answer (Term w2 (t_out t) (t_tab t) devs)
       (main (o :: i :: words opts) t)).
Proof.
  intros Ho Hi Hne Hn Hopts Hnl Hj. destruct opts as [|[a v] opts]; [done|].
  destruct (setting_run o i a (v :: words opts) t Ho Hi Hne Hj)
    as (devs & w1 & answer & w2 & Hl & Hk & Ho2 & E).
  exists devs, (w_env w1), answer, w2. do 2 (split; [done|]). intros Hin.
  change (words ((a, v) :: opts)) with (a :: v :: words opts). rewrite (E Hin).
  destruct answer as [n|ifa]; [by split|]. by apply (command_done o i ((a, v) :: opts)).
Qed.

Lemma report_run o told args (t : term (world K)) :
  report_of runtime_text o = Some told -> (forall a, a ∈ args -> String.prefix "-" a = false) ->
  Forall (named (K := K)) args -> Forall (named (K := K)) (t_devices t) ->
  in_order (t_env t) rho ->
  exists text r t', main (o :: args) t = (r, t') /\ in_order (t_env t') rho /\
    t_out t' = t_out t +:+ text /\
    run_told told (t_tab t) (t_devices t) args (w_env (t_env t)) text r (w_env (t_env t')).
Proof.
  intros Ho Ha Hn Hd Hj. destruct (report_command o told args Ho Ha) as (cmd & -> & Hc).
  by apply run_report_told.
Qed.
End prints.


(** C4: what pethtool prints, on the extension, on a system that behaves as
    [system_ok] says (memory, granted requests filled in, a readable
    /proc/net/dev, names in UTF-8) and grants NETLINK.  With a reporting option the
    program prints the report: of the device named, or of
    every device /proc/net/dev lists, each under its name and whether the kernel
    has it active; and each report is what the kernel told when it was asked
    for it, in turn: the coalescing or ring parameters by the words of the
    answer, the offload settings by its value, the driver and the bus by the
    text in their fields, or that there is none.  It ends normally, but in two
    cases: where the kernel refuses [getifaddrs], with that [OSError] and nothing
    printed; and at the first device whose driver gave a text that is not UTF-8,
    with a [UnicodeDecodeError] and nothing printed below its name.  The system
    is left as these questions leave it, and everything is in order. *)
Theorem pethtool_prints {K} `{PL : PlatformLaws K} (netlink : NetlinkUp K) (system : SystemUp K)
    signed_char runtime_text rho o told args (t : term (world K)) :
  report_of runtime_text o = Some told -> (forall a, a ∈ args -> String.prefix "-" a = false) ->
  Forall (named (K := K)) args -> Forall (named (K := K)) (t_devices t) ->
  in_order (t_env t) rho ->
  exists text r t', main (H := extension signed_char runtime_text) (o :: args) t = (r, t') /\
    in_order (t_env t') rho /\ t_out t' = t_out t +:+ text /\
    run_told told (t_tab t) (t_devices t) args (w_env (t_env t)) text r (w_env (t_env t')).
Proof. by apply (report_run signed_char). Qed.

(** ** At work: the steady system *)

Lemma pethtool_prints_witness : exists text r t',
  main (H := extension true quiet_text) ["--driver"; "eth0"] steady_term = (r, t') /\
  in_order (t_env t') ∅ /\ t_out t' = "" +:+ text /\
  run_told (driver_told quiet_text) "" [] ["eth0"] tt text r (w_env (t_env t')).
Proof.
  apply (pethtool_prints steady_up steady_system true quiet_text ∅ "--driver"
    (driver_told quiet_text) ["eth0"] steady_term).
  - reflexivity.
  - intros a [->|[]%elem_of_nil]%elem_of_cons. reflexivity.
  - apply words_named. vm_compute. reflexivity.
  - apply words_named. reflexivity.
  - apply in_order_boot.
Defined.

Ltac read_on H E :=
  inversion H as [? E|? ? ? E|? ? ? ? E ?]; subst; clear H; vm_compute in E; try discriminate E;
  injection E as <- <-.

(** The steady system lists two devices. *)
Lemma steady_devices devs k : devices_listed (K := unit) tt devs k -> devs = ["lo"; "eth0"].
Proof.
  intros (t & l1 & c1 & e1 & l2 & body & eof & ls & Ht & H1 & H2 & Hls & ->).
  vm_compute in Ht. injection Ht as <- _. vm_compute in H1. injection H1 as _ <- _.
  vm_compute in H2. injection H2 as _ <- <-.
  read_on Hls E1. match goal with H : reads _ _ _ |- _ => read_on H E2 end.
  match goal with H : reads _ _ _ |- _ =>
    inversion H as [? E3|? ? ? E3|? ? ? ? E3 ?]; subst; try discriminate E3 end.
  vm_compute. reflexivity.
Qed.


(** Every device of the system, with the settings it has. *)
Definition settings_lines (v : string) : list string :=
  (fun s => s.1 +:+ ": " +:+ v) <$> offload_settings.

Example offload_report :
  t_out (main (H := extension true quiet_text) ["-k"] steady_term).2 =
    "lo:" +:+ newline +:+ tabbed "  " (settings_lines "not supported") +:+
    "eth0:" +:+ newline +:+ tabbed "  " (settings_lines "on").
Proof. vm_compute. reflexivity. Qed.

(** *** The two reports that fail *)

Definition report_of_machine (m : machine) (args : list string) : (pyexc + unit) * string :=
  let r := main (H := extension true quiet_text) args (Term (boot m) "" "" []) in
  (r.1, t_out r.2).

Example report_without_interfaces :
  report_of_machine (Machine (mc_socket contract_machine) (mc_ioctl contract_machine) (inl 12)
    (mc_files contract_machine) (mc_malloc contract_machine) [] (mc_links quiet) (mc_addrs quiet)
    true) ["-i"; "eth0"] = (inl (os_error (K := machine) 12), "").
Proof. vm_compute. reflexivity. Qed.

(** The byte 255 in every field of the driver's answer. *)
Definition garbled (name : list byte) (d : list mbyte) : list mbyte :=
  firstn 4%nat d ++ flat_map (fun _ => [Some xff; Some x00]) (seq 0 94) ++ skipn 192%nat d.

Example report_of_garbled_driver :
  report_of_machine (Machine (mc_socket contract_machine)
    (fun _ name d => (0, 0, [], garbled name d)) (mc_ifaddrs quiet)
    (mc_files contract_machine) (mc_malloc contract_machine) [] (mc_links quiet) (mc_addrs quiet)
    true) ["-i"]
  = (inl (interpreter_error (K := machine) quiet_text PyExc_UnicodeDecodeError),
     "lo:" +:+ newline).
Proof. vm_compute. reflexivity. Qed.
