(* ===== verification/ExtensionPifconfig.v ===== *)
(** * pifconfig on the extension

    The C code gives what PifconfigFacts.v asks of the module, on a system as
    [SystemUp] and [NetlinkUp] say: pifconfig ends, whatever the command line in
    UTF-8 and the devices, and leaves everything in order; and what it prints is
    what the kernel says of the devices.  Examples at the end are of systems that
    refuse NETLINK. *)
From S2P Require Import Prelude.
From S2P Require Import Platform.
From S2P Require Import CPython.
From S2P Require Import Objects.
From S2P Require Import Testbed.
From S2P Require Import RefCount.
From S2P Require Import Typing.
From S2P Require Import Containers.
From S2P Require Import Sound.
From S2P Require Import Ioctl.
From S2P Require Import IoctlFacts.
From S2P Require Import DevicesFacts.
From S2P Require Import EtherInfo.
From S2P Require Import EtherSound.
From S2P Require Import EtherInfoObj.
From S2P Require Import EtherText.
From S2P Require Import EtherObjSound.
From S2P Require Import EthtoolModule.
From S2P Require Import Contract.
From S2P Require Import Session.
From S2P Require Import Script.
From S2P Require Pifconfig.
From S2P Require Import PifconfigFacts.
From S2P Require Import Extension.
From S2P Require Import ExtensionFacts.
From S2P Require Import ExtensionCalls.
From S2P Require Import ExtensionQueries.
From S2P Require Import ExtensionInfo.
From S2P Require Import ExtensionSafe.

Section pifconfig.
Context {K : Type} `{PL : PlatformLaws K} {UP : NetlinkUp K} {SU : SystemUp K}.
Context (signed_char : bool) (runtime_text : exc_kind -> string).
#[local] Instance pif_module : Ethtool (world K) := extension signed_char runtime_text.

(** The program holds the objects [l], and nothing else is held. *)
Definition holds (l : list ptr) (w : world K) : Prop :=
  in_order w (ptrs_refs l) /\ Forall (ether_at_ptr (w_heap w)) l.

Lemma held_reach rho (w : world K) p l :
  p ∈ l -> ptrs_refs l ⊆ rho -> forall i, p = Loc i -> reach (w_heap w) (fun i => i ∈ rho) i.
Proof. intros Hp Hl i ->. apply reach_root. apply elem_ptrs_refs in Hp. multiset_solver. Qed.

Lemma ethers_same R `{!Keeps R} l rho (w w' : world K) :
  held_rel R rho w w' -> ptrs_refs l ⊆ rho -> Forall (ether_at_ptr (w_heap w)) l ->
  Forall (ether_at_ptr (w_heap w')) l.
Proof.
  intros Hs Hsub Hl. apply list.Forall_forall. intros p Hp. eapply (ether_at_kept R); [exact Hs| |].
  - by eapply held_reach.
  - by apply (proj1 (list.Forall_forall _ _) Hl).
Qed.

(** An object the program holds is of some device. *)
Lemma held_ether l (w : world K) i :
  holds l w -> i ∈ l -> exists dev i0, ether_is (w_heap w) i dev i0.
Proof.
  intros [Ho Hl] Hi. destruct (proj1 (list.Forall_forall _ _) Hl i Hi) as (p & rc & e & -> & He).
  pose proof (io_sound _ _ Ho) as (lk & Hs & _).
  destruct (held_live w (lk ⊎ ptrs_refs l) p) as (o & Ho' & Hrc).
  { apply Hs. }
  { apply elem_ptrs_refs in Hi. multiset_solver. }
  simplify_eq. assert (ether_at p rc e w) as Hat by done.
  destruct (ether_typed w _ p rc e Hs Hat) as [[name Hn] _]. exists name, (index e).
  by exists p, rc, e.
Qed.

Lemma holds_answers {A} (read : ptr -> M K (option A)) (datum : A -> pydatum) name args l
    (P : A -> Prop) E1 P1 :
  (forall a, reads_as read (datum a) a) ->
  (forall w, promises signed_char runtime_text name args (ptrs_refs l) w (E1 w)
     (by_looks datum (P1 w))) ->
  (forall w e k, E1 w e k -> is_exception e = true) -> (forall w a k, P1 w a k -> P a) ->
  answers (holds l) (fun e => is_exception e = true)
    (ask_function signed_char runtime_text read name args) P.
Proof.
  intros Hr Hm He Hp w [Ho Hl].
  destruct (ask_function_ok signed_char runtime_text read datum name args (ptrs_refs l) w (E1 w)
    (P1 w) Hr Ho (Hm w)) as (r & w' & -> & Ho' & Hs & Hx).
  split; [split; [exact Ho'|by eapply (ethers_same eq)]|]. destruct r; [by eapply He|by eapply Hp].
Qed.

Lemma addresses_answer name f q l i :
  by_name name (tp_methods PyEtherInfo_Type) = Some f ->
  (forall l, f (Loc l) = get_etherinfo_address (K := K) (Loc l) q) -> i ∈ l ->
  answers (holds l) (fun e => is_exception e = true)
    (ask_info runtime_text (read_list (read_address runtime_text)) name i) (fun _ => True).
Proof.
  intros Hn Hf Hi w Hl. destruct (held_ether l w i Hl Hi) as (dev & i0 & Hd).
  destruct Hl as [Ho Hl].
  destruct (ask_addresses_ok runtime_text name f q i dev i0 (ptrs_refs l) w Hn Hf Ho)
    as (r & w' & -> & Ho' & Hs & Hx); [|done|].
  - destruct i; simpl; try multiset_solver. apply elem_ptrs_refs in Hi. multiset_solver.
  - split; [split; [exact Ho'|by eapply (ethers_same same_val)]|].
    destruct r; [|done]. by destruct Hx as [[? _]| ->].
Qed.

(** The objects of a device are added to those held. *)
Lemma new_holds l d ps (w w' : world K) :
  holds l w -> held_rel eq (ptrs_refs l) w w' -> in_order w' (ptrs_refs ps ⊎ ptrs_refs l) ->
  one_ether d (w_heap w') ps -> holds (ps ++ l) w'.
Proof.
  intros [_ Hl] Hs Ho (p & -> & Hp). split.
  - eapply in_order_eq; [exact Ho|]. by rewrite ptrs_refs_app.
  - constructor; [by eapply ether_is_at|by eapply (ethers_same eq)].
Qed.

#[export] Instance extension_reports :
  Reports (H := pif_module) holds (named (K := K)) (fun e => is_exception e = true).
Proof.
  split.
  - intros l d Hd. eapply (holds_answers _ PInt); [apply read_int_ok| | |done].
    + intros w. by apply get_flags_promise.
    + by intros w e k (n & _ & ->).
  - intros l d Hd. eapply (holds_answers _ PStr); [apply read_str_ok| | |done].
    + intros w. apply (text_query_promise _ _ "get_hwaddr" (get_hwaddress signed_char)
        SIOCGIFHWADDR fmt_hwaddr); [left|done|reflexivity].
    + by intros w e k (n & _ & ->).
  - intros l. eapply (holds_answers _ PStrs); [apply read_strs_ok| | |].
    + intros w. apply get_active_devices_promise.
    + by intros w e k (n & _ & ->).
    + by intros w a k [? _].
  - intros l i Hi. by apply (addresses_answer "get_ipv4_addresses"
      _ethtool_etherinfo_get_ipv4_addresses NLQRY_ADDR4 l i).
  - intros l i Hi. by apply (addresses_answer "get_ipv6_addresses"
      _ethtool_etherinfo_get_ipv6_addresses NLQRY_ADDR6 l i).
  - intros l d w Hd [Ho Hl].
    destruct (ask_infos_ok signed_char runtime_text d (ptrs_refs l) w Hd Ho)
      as (ps & w' & E & Hs & Ho' & Hps). cbn [et_get_interfaces_info pif_module extension].
    rewrite E. by eapply new_holds.
Qed.

(** ** What is printed *)

(** The kernel has a link with the name of the device, and [ds4] and [ds6] are its
    addresses. *)
Definition device_lists (d : string) (ds4 ds6 : list pydata) : Prop :=
  exists (k : K) ls lk, (link_cache_reply true k).1 = inr ls /\ link_by_name ls d = Some lk /\
    kernel_lists (K := K) (rl_ifindex lk) NLQRY_ADDR4 ds4 /\
    kernel_lists (K := K) (rl_ifindex lk) NLQRY_ADDR6 ds6.

(** The 16 bits of flags in an answer. *)
Definition flag_word (ifr : ifreq) : Z := le_val (firstn 2%nat (ifr_ifru ifr)).

(** The hardware address is asked for unless the device is a loopback. *)
Definition answered_hwaddr (d : string) (v : Z) (k : K) (hw : option string) : Prop :=
  if Z.land v IFF_LOOPBACK =? 0 then
    exists ifr, ask_interface SIOCGIFHWADDR d k = inr ifr /\
      hw = Some (fmt_hwaddr (fun j => byte_val (sa_data ifr j)))
  else hw = None.

(** Why a device may fail: the kernel refuses its flags or its hardware address,
    tells no index for its name, or lists an address with a prefix that is no
    number of bits of a netmask; or too many objects are. *)
Inductive device_error (d : string) : Script.pyexc -> Prop :=
  | no_flags k n : ask_interface (K := K) SIOCGIFFLAGS d k = inl n -> device_error d (os_error (K := K) n)
  | no_hwaddr k n : ask_interface (K := K) SIOCGIFHWADDR d k = inl n -> device_error d (os_error (K := K) n)
  | no_index e : unresolved (K := K) d -> is_exception e = true -> device_error d e
  | bad_prefix i ds a e : index_from (K := K) d (-1) i -> kernel_lists (K := K) i NLQRY_ADDR4 ds ->
      a ∈ addr_shown <$> ds -> ~ prefix_ok a -> is_exception e = true -> device_error d e
  | no_memory : device_error d (interpreter_error (K := K) runtime_text PyExc_MemoryError).

Lemma device_error_exception d e : device_error d e -> is_exception e = true.
Proof. by destruct 1. Qed.

(** The text of a device: its flags and hardware address as the kernel answers,
    the addresses it lists. *)
Definition config_shown (d : string) (o : string) : Prop :=
  exists (k1 k2 : K) ifr hw ds4 ds6,
    let v := flag_word ifr in
    ask_interface SIOCGIFFLAGS d k1 = inr ifr /\ answered_hwaddr d v k2 hw /\
    device_lists d ds4 ds6 /\ Forall prefix_ok (addr_shown <$> ds4) /\
    o = config_text d v hw (addr_shown <$> ds4) (addr_shown <$> ds6).

Lemma first_index d i1 i2 q4 q6 ds4 ds6 :
  index_from (K := K) d (-1) i1 -> index_from (K := K) d i1 i2 ->
  kernel_lists (K := K) i1 q4 ds4 -> kernel_lists (K := K) i2 q6 ds6 ->
  exists (k : K) ls lk, (link_cache_reply true k).1 = inr ls /\
    link_by_name ls (cstr d) = Some lk /\
    kernel_lists (K := K) (rl_ifindex lk) q4 ds4 /\ kernel_lists (K := K) (rl_ifindex lk) q6 ds6.
Proof.
  intros H1 H2 H4 H6. pose proof (proj1 H4) as Hi.
  destruct H2 as [[_ ->]|[? _]]; [|lia].
  destruct H1 as [[? _]|[_ [->|(k & ls & lk & Hr & Hn & ->)]]]; [lia..|]. by exists k, ls, lk.
Qed.

Local Abbreviation raised d := (fun (e : Script.pyexc) (_ : string) => device_error d e).

(** The addresses of one family, of an object the program holds. *)
Lemma addresses_written name f q l p d i0 (w : world K) Q :
  by_name name (tp_methods PyEtherInfo_Type) = Some f ->
  (forall l, f (Loc l) = get_etherinfo_address (K := K) (Loc l) q) ->
  holds l w -> p ∈ l -> ether_is (w_heap w) p d i0 ->
  (forall w' i1 ds, holds l w' -> ether_is (w_heap w') p d i1 -> index_from (K := K) d i0 i1 ->
     kernel_lists (K := K) i1 q ds -> Q (addr_shown <$> ds) "" w') ->
  writes (raised d) (call (ask_info runtime_text (read_list (read_address runtime_text)) name p)) Q w.
Proof.
  intros Hn Hf [Ho Hl] Hp Hd HQ. apply writes_call.
  destruct (ask_addresses_ok runtime_text name f q p d i0 (ptrs_refs l) w Hn Hf Ho)
    as (r & w' & -> & Ho' & Hs & Hx); [|done|].
  - destruct p; simpl; try multiset_solver. apply elem_ptrs_refs in Hp. multiset_solver.
  - destruct r as [e|l'].
    { destruct Hx as [(He & _ & Hu)| ->]; [by apply no_index|apply no_memory]. }
    destruct Hx as (i1 & ds & Hd' & Hi & Hk & ->).
    apply (HQ w' i1 ds); [|done..]. split; [exact Ho'|by eapply (ethers_same same_val)].
Qed.

(** The hardware address, unless the device is a loopback. *)
Lemma hwaddr_written d v l (w : world K) Q :
  named (K := K) d -> holds l w ->
  (forall w' hw, holds l w' -> held_rel eq (ptrs_refs l) w w' ->
     answered_hwaddr d v (w_env w) hw -> Q tt (hwaddr_text hw) w') ->
  writes (raised d)
    (if Z.land v IFF_LOOPBACK =? 0
     then hwaddr ← call (et_get_hwaddr d); print (Pifconfig.tab +:+ "HWaddr " +:+ hwaddr)
     else mret tt) Q w.
Proof.
  intros Hd Hl HQ. unfold answered_hwaddr in HQ. destruct (Z.land v IFF_LOOPBACK =? 0).
  2:{ apply writes_ret. apply (HQ w None); [done|by apply (kept_refl eq)|done]. }
  destruct Hl as [Ho Hl]. apply writes_bind, writes_call. cbn [et_get_hwaddr pif_module extension].
  destruct (ask_function_ok signed_char runtime_text read_str PStr "get_hwaddr" [AStr d]
    (ptrs_refs l) w _ _ read_str_ok Ho (text_query_promise signed_char runtime_text "get_hwaddr"
      (get_hwaddress signed_char) SIOCGIFHWADDR fmt_hwaddr d _ w ltac:(left) Hd
      ltac:(reflexivity))) as (r & w' & -> & Ho' & Hs & Hx).
  destruct r as [e|hw]; [destruct Hx as (n & Hx & ->); by eapply no_hwaddr|]. destruct Hx as (ifr & Ha & ->).
  apply writes_write. rewrite string_nil_app.
  pose proof (HQ w' (Some (fmt_hwaddr (fun j => byte_val (sa_data ifr j))))) as Hw.
  cbn [hwaddr_text] in Hw. rewrite !string_app_assoc. apply Hw; [|done|by exists ifr].
  split; [exact Ho'|by eapply (ethers_same eq)].
Qed.

Lemma show_info_written d v l p (w : world K) :
  named (K := K) d -> holds l w -> p ∈ l -> ether_is (w_heap w) p d (-1) ->
  writes (raised d) (Pifconfig.show_info d (s16 v) p) (fun _ o w' =>
    (exists k hw ds4 ds6, answered_hwaddr d v k hw /\ device_lists d ds4 ds6 /\
       Forall prefix_ok (addr_shown <$> ds4) /\
       o +:+ Pifconfig.tab +:+ flags_text v +:+ newline +:+ newline
         = config_text d v hw (addr_shown <$> ds4) (addr_shown <$> ds6)) /\ holds l w') w.
Proof.
  intros Hd Hl Hp He. unfold Pifconfig.show_info. rewrite flag_test by (by vm_compute).
  apply writes_bind, writes_write, writes_bind.
  apply (hwaddr_written d v l w); [done..|]. intros w1 hw Hl1 Hs1 Hhw. apply writes_bind.
  assert (ether_is (w_heap w1) p d (-1)) as He1.
  { destruct He as (i & rc & e & -> & Hi & Hn & Hx).
    destruct (device_kept eq _ _ _ Hs1 i rc e d) as (rc' & e' & Hi' & [= <-] & Hn'); [|done..|].
    - apply (held_reach _ _ (Loc i) l Hp); [multiset_solver|done].
    - by exists i, rc', e. }
  apply (addresses_written "get_ipv4_addresses" _ethtool_etherinfo_get_ipv4_addresses
    NLQRY_ADDR4 l p d (-1) w1); [done..|]. intros w2 i2 ds4 Hl2 He2 Hi2 H4.
  apply writes_bind. eapply writes_mono.
  { apply (writes_for_each _ _ _ (ipv4_text v) prefix_ok). intros a Hin.
    eapply writes_raise; [apply show_ipv4_text|]. intros x _ [Hx Hno]. by eapply bad_prefix. }
  intros [] o4 ? (Hok & -> & ->). apply writes_bind.
  apply (addresses_written "get_ipv6_addresses" _ethtool_etherinfo_get_ipv6_addresses
    NLQRY_ADDR6 l p d i2 w2); [done..|]. intros w3 i3 ds6 Hl3 He3 Hi3 H6.
  eapply writes_mono.
  { apply (writes_for_each _ _ _ ipv6_text (fun _ => True)). intros a _. apply show_ipv6_text. }
  intros [] o6 ? (_ & -> & ->). split; [|exact Hl3].
  exists (w_env w), hw, ds4, ds6. split; [exact Hhw|]. split; [|split; [exact Hok|]].
  - destruct (first_index d i2 i3 NLQRY_ADDR4 NLQRY_ADDR6 ds4 ds6 Hi2 Hi3 H4 H6)
      as (k & ls & lk & Hr & Hn & H46). rewrite cstr_no_nul in Hn by apply Hd. by exists k, ls, lk.
  - unfold config_text. by rewrite !string_nil_app, !string_app_assoc.
Qed.

Lemma show_config_written d l (w : world K) :
  named (K := K) d -> holds l w ->
  writes (raised d) (Pifconfig.show_config d)
    (fun _ o w' => config_shown d o /\ exists l', holds l' w') w.
Proof.
  intros Hd [Ho Hl]. unfold Pifconfig.show_config. apply writes_bind, writes_call.
  cbn [et_get_flags pif_module extension].
  destruct (ask_function_ok signed_char runtime_text read_int PInt "get_flags" [AStr d]
    (ptrs_refs l) w _ _ read_int_ok Ho (get_flags_promise signed_char runtime_text d _ w Hd))
    as (r & w1 & -> & Ho1 & Hs1 & Hx).
  destruct r as [e|flags]; [destruct Hx as (n & Hx & ->); by eapply no_flags|]. destruct Hx as (ifr & Ha & ->).
  change (ifr_flags ifr) with (s16 (flag_word ifr)). apply writes_bind, writes_call.
  cbn [et_get_interfaces_info pif_module extension].
  destruct (ask_infos_ok signed_char runtime_text d (ptrs_refs l) w1 Hd Ho1)
    as (ps & w2 & -> & Hs2 & Ho2 & Hps).
  assert (holds (ps ++ l) w2) as Hl2.
  { eapply (new_holds l d ps w1); [|exact Hs2|exact Ho2|exact Hps].
    split; [exact Ho1|by eapply (ethers_same eq)]. }
  destruct Hps as (p & -> & Hp). apply writes_bind. cbn [for_each]. apply writes_bind.
  eapply writes_mono; [apply (show_info_written d (flag_word ifr) ([p] ++ l) p w2 Hd Hl2);
    [left|exact Hp]|].
  intros [] o w3 [(k & hw & ds4 & ds6 & Hhw & Hds & Hok & Et) Hl3]. apply writes_ret.
  apply writes_write. split; [|by exists ([p] ++ l)].
  exists (w_env w), k, ifr, hw, ds4, ds6. cbv zeta. do 4 (split; [done|]).
  rewrite <- Et, flags2str_s16. by rewrite string_nil_app, string_app_nil, !string_app_assoc.
Qed.

(** The devices: those named, or the active interfaces of the kernel. *)
Definition selected (k : K) (args devs : list string) : Prop :=
  match args with
  | [] => exists ifa, (sys_getifaddrs k).1 = inr ifa /\ devs = active_names [] ifa
  | _ => devs = args
  end.

(** The result and the text of a run: every device, or those before one that
    fails, or nothing where the interfaces cannot be had. *)
Inductive printed (k : K) (args : list string) : Script.pyexc + unit -> string -> Prop :=
  | printed_all devs texts :
      selected k args devs -> Forall2 config_shown devs texts ->
      printed k args (inr tt) (all_text texts)
  | printed_failed before d after texts last :
      selected k args (before ++ d :: after) -> Forall2 config_shown before texts ->
      failed (device_error d) d last -> printed k args (inl (SystemExit 2)) (all_text texts +:+ last)
  | printed_nothing n :
      args = [] -> (sys_getifaddrs k).1 = inl n -> printed k args (inl (os_error (K := K) n)) "".

Lemma devices_written k args devs (w : world K) :
  selected k args devs -> Forall (named (K := K)) devs -> (exists l, holds l w) ->
  writes (fun e o => printed k args (inl e) o) (for_each devs Pifconfig.show_device)
    (fun r o _ => printed k args (inr r) o) w.
Proof.
  intros Hsel Hn Hl out tb ds.
  pose proof (show_devices_text (fun w => exists l, holds l w) config_shown device_error devs
    device_error_exception) as Ht.
  destruct (Ht ltac:(intros d s Hd [l Hs]; eapply show_config_written; [|exact Hs];
    by apply (proj1 (list.Forall_forall _ _) Hn)) w Hl out tb ds) as [o Ho].
  exists o. destruct (for_each devs Pifconfig.show_device _) as [[e|[]] t].
  - destruct Ho as (Eo & -> & before & d & after & texts & last & -> & Hb & Hf & ->).
    split; [exact Eo|]. by eapply printed_failed.
  - destruct Ho as (s' & -> & (texts & Hb & ->) & _). exists s'. split; [done|].
    by eapply printed_all.
Qed.

Lemma show_devices_written args (w : world K) :
  in_order w ∅ -> Forall (named (K := K)) args ->
  writes (fun e o => printed (w_env w) args (inl e) o) (Pifconfig.show_devices args)
    (fun r o _ => printed (w_env w) args (inr r) o) w.
Proof.
  intros Ho Ha. destruct args as [|a args].
  2:{ unfold Pifconfig.show_devices. apply writes_bind, writes_ret.
      apply (devices_written _ (a :: args)); [done|done|]. by exists []. }
  apply writes_bind, writes_call. cbn [et_get_active_devices pif_module extension].
  destruct (ask_function_ok signed_char runtime_text (read_list read_str) PStrs
    "get_active_devices" [] ∅ w _ _ read_strs_ok Ho
    (get_active_devices_promise signed_char runtime_text _ w)) as (r & w1 & -> & Ho1 & _ & Hx).
  destruct r as [e|devs].
  - destruct Hx as (n & Hn & ->). apply printed_nothing; [done|]. by rewrite Hn.
  - destruct Hx as [Hn (ifa & Hi & ->)]. apply (devices_written (w_env w) []); [|exact Hn|].
    + exists ifa. by rewrite Hi.
    + exists []. by split.
Qed.

(** The text of a run, by what is made of its command line. *)
Definition run_printed (k : K) (argv : list string) (r : Script.pyexc + unit) (o : string) : Prop :=
  match Pifconfig.parse_args argv with
  | Pifconfig.Positional args => printed k args r o
  | Pifconfig.Help => r = inl (SystemExit 0) /\ o = Pifconfig.help
  | Pifconfig.Refused => r = inl (SystemExit 2) /\ o = ""
  end.

Lemma run_prints argv (t : term (world K)) :
  in_order (t_env t) ∅ -> Forall (named (K := K)) argv ->
  exists o, t_out (Pifconfig.main argv t).2 = t_out t +:+ o /\
    run_printed (w_env (t_env t)) argv (Pifconfig.main argv t).1 o.
Proof.
  intros Ho Ha. unfold Pifconfig.main, run_printed. destruct t as [w out tb ds].
  destruct (Pifconfig.parse_args argv) as [args| |] eqn:Ep.
  - assert (Forall (named (K := K)) args) as Hn.
    { apply list.Forall_forall. intros a Hin. apply (proj1 (list.Forall_forall _ _) Ha).
      by eapply positional_elem. }
    destruct (show_devices_written args w Ho Hn out tb ds) as [o Hr]. exists o.
    destruct (Pifconfig.show_devices args _) as [[e|[]] t'].
    + exact Hr.
    + by destruct Hr as (s' & -> & Hp).
  - by exists Pifconfig.help.
  - exists "". by rewrite string_app_nil.
Qed.

Lemma run_ends argv (t : term (world K)) :
  in_order (t_env t) ∅ -> Forall (named (K := K)) argv ->
  (exists l, holds l (t_env (Pifconfig.main argv t).2) /\
     wp (drop_args l) (fun _ w => released w) (t_env (Pifconfig.main argv t).2)) /\
  ((Pifconfig.main argv t).1 = inr tt \/ (Pifconfig.main argv t).1 = inl (SystemExit 2) \/
   Pifconfig.parse_args argv = Pifconfig.Help /\
     (Pifconfig.main argv t).1 = inl (SystemExit 0) \/
   Pifconfig.parse_args argv = Pifconfig.Positional [] /\
     exists e, (Pifconfig.main argv t).1 = inl e /\ is_exception e = true).
Proof.
  intros Ho Ha.
  destruct (pifconfig_ends (H := pif_module) holds (named (K := K)) argv t) as [[l Hl] Hend];
    [by split|done|]. split; [|exact Hend]. exists l. split; [exact Hl|].
  destruct Hl as [Hl He]. eapply wp_mono; [apply (drop_args_ok l _ ∅)|].
  - eapply list.Forall_impl; [exact He|]. by intros p (i & _ & _ & -> & _).
  - eapply in_order_eq; [exact Hl|]. multiset_solver.
  - intros _ w [Hw _]. by apply in_order_released.
Qed.
End pifconfig.

(** C3: what pifconfig prints, on the extension.  The system behaves as [system_ok]
    says (memory, granted requests filled in, a readable /proc/net/dev, names in
    UTF-8) and grants NETLINK ([NetlinkUp]: sockets made and connected, the table
    of addresses answered), and the command line is UTF-8.  For the devices
    named, or the active interfaces of the kernel where none is (the manual page
    says all), it prints one after the other the text of
    the device: the hardware address the kernel answers unless it is a loopback,
    the IPv4 and IPv6 addresses the kernel lists for the link with that name,
    in order, with netmask and scope, and the names of the flags the kernel
    answers.  A device that fails, its flags, hardware address or index refused,
    or with a prefix that is no netmask, ends the program with
    a line that says so, and status 2.  Where NETLINK is refused the report fails
    ([pifconfig_unconnected]) or the process dies ([pifconfig_dies]). *)
Theorem pifconfig_prints {K} `{PL : PlatformLaws K} (netlink : NetlinkUp K) (system : SystemUp K)
    signed_char runtime_text argv (t : term (world K)) :
  in_order (t_env t) ∅ -> Forall (named (K := K)) argv ->
  let r := Pifconfig.main (H := extension signed_char runtime_text) argv t in
  exists o, t_out r.2 = t_out t +:+ o /\
    run_printed runtime_text (w_env (t_env t)) argv r.1 o.
Proof. apply (run_prints signed_char). Qed.

(** ** The whole program *)

(** C9: pifconfig on the extension, on a system that behaves as [system_ok] says and
    grants NETLINK (as for [pifconfig_prints]; without NETLINK the process may die,
    [pifconfig_dies]), with a command line in UTF-8.  It ends normally, or with
    status 2 where the command line or a device fails, or with 0 after its help;
    without a device named it may also end by the exception of
    [get_active_devices].  No function of the C code faults, and afterwards the
    program holds the objects it was given, and nothing else is
    held; when these are dropped too, the connection is closed and no object is
    left that could keep it open. *)
Theorem pifconfig_on_extension {K} `{PL : PlatformLaws K} (netlink : NetlinkUp K)
    (system : SystemUp K) signed_char runtime_text argv (t : term (world K)) :
  in_order (t_env t) ∅ -> Forall (named (K := K)) argv ->
  let r := Pifconfig.main (H := extension signed_char runtime_text) argv t in
  (exists l, holds l (t_env r.2) /\ wp (drop_args l) (fun _ w => released w) (t_env r.2)) /\
  (r.1 = inr tt \/ r.1 = inl (SystemExit 2) \/
   Pifconfig.parse_args argv = Pifconfig.Help /\ r.1 = inl (SystemExit 0) \/
   Pifconfig.parse_args argv = Pifconfig.Positional [] /\
     exists e, r.1 = inl e /\ is_exception e = true).
Proof. apply (run_ends signed_char). Qed.

(** ** At work: the steady system *)

Lemma pifconfig_on_extension_witness : exists l,
  holds l (t_env (Pifconfig.main (H := extension true quiet_text) ["eth0"] steady_term).2).
Proof.
  destruct (pifconfig_on_extension steady_up steady_system true quiet_text ["eth0"] steady_term) as [[l [Hl _]] _].
  - apply in_order_boot.
  - apply words_named. vm_compute. reflexivity.
  - by exists l.
Defined.

Lemma pifconfig_prints_witness : exists o,
  t_out (Pifconfig.main (H := extension true quiet_text) ["eth0"] steady_term).2 = "" +:+ o /\
  run_printed quiet_text tt ["eth0"]
    (Pifconfig.main (H := extension true quiet_text) ["eth0"] steady_term).1 o.
Proof.
  apply (pifconfig_prints steady_up steady_system true quiet_text ["eth0"] steady_term).
  - apply in_order_boot.
  - apply words_named. vm_compute. reflexivity.
Defined.

(** pifconfig on the C code. *)
Example pifconfig_eth0 :
  t_out (Pifconfig.main (H := extension true quiet_text) ["eth0"] steady_term).2 =
    "eth0" +:+ newline +:+
    Pifconfig.tab +:+ "HWaddr 52:54:00:12:ab:ff" +:+ newline +:+
    Pifconfig.tab +:+ "inet addr:192.168.1.10 Bcast:192.168.1.255 Mask:255.255.255.0" +:+ newline +:+
    Pifconfig.tab +:+ "UP BROADCAST RUNNING MULTICAST DYNAMIC" +:+ newline +:+ newline.
Proof. vm_compute. reflexivity. Qed.

Example pifconfig_help :
  let r := Pifconfig.main (H := extension true quiet_text) ["eth0"; "--he"] steady_term in
  r.1 = inl (SystemExit 0) /\ t_out r.2 = Pifconfig.help.
Proof. vm_compute. by split. Qed.

(** *** Systems that refuse *)

Definition steady_but (connects : list Z) (addrs : Z + list rtnl_addr) : machine :=
  Machine (mc_socket contract_machine) (mc_ioctl contract_machine) (mc_ifaddrs quiet)
    (mc_files contract_machine) (mc_malloc contract_machine) connects (mc_links quiet) addrs true.

Definition pifconfig_of (m : machine) : (Script.pyexc + unit) * string :=
  let r := Pifconfig.main (H := extension true quiet_text) ["eth0"] (Term (boot m) "" "" []) in
  (r.1, t_out r.2).

(** Without a connection the device is reported to fail. *)
Example pifconfig_unconnected :
  pifconfig_of (steady_but [-12] (mc_addrs quiet)) =
    (inl (SystemExit 2),
     "eth0" +:+ newline +:+ Pifconfig.tab +:+ "HWaddr 52:54:00:12:ab:ff" +:+ newline +:+
     "** ERROR ** [Device eth0]: Could not open a NETLINK connection for eth0" +:+ newline).
Proof. vm_compute. reflexivity. Qed.

(** Where the kernel refuses the table of addresses the process dies: the cache
    that was not made is freed. *)
Example pifconfig_dies : (pifconfig_of (steady_but [] (inl (-12)))).1 = inl Crashed.
Proof. vm_compute. reflexivity. Qed.
